(* ===== verification/_CoqProject ===== *)
-Q . S2P
Prelude.v
Platform.v
Wire.v
UsbSetup.v
World.v
Utils.v
Conf.v
Instances.v
Usb.v
ClientOut.v
DeviceOut.v
Teardown.v
Device.v
Client.v
UsbDevice.v
UsbLoop.v
Main.v
Preflight.v
Text.v
Scenario.v
ScenarioMain.v
Ids.v
SendFacts.v
BufferFacts.v
ReplyFacts.v
PacketFacts.v
Views.v
Session.v
RefineTeardown.v
ScenarioFacts.v
RefineDevice.v
RefineUsb.v
RefineClient.v
Frame.v
ShutdownFacts.v
RefineMain.v
MainFacts.v
RefinePreflight.v
Reach.v
Typed.v
TypedClient.v
TypedDevice.v
TypedCommand.v
TypedUsb.v
TypedReach.v
PreflightFacts.v
FlowFacts.v
TeardownFacts.v
ConnectFacts.v
PollFacts.v
LoopFacts.v
ConfFacts.v
ListenFacts.v
UsbFacts.v
UsbDeviceFacts.v
Findings.v
