(* ===== verification/Prelude.v ===== *)
(** * Verification of usbmuxd

    usbmuxd lets many clients on one machine talk to services on iOS devices
    over USB. A client connects to a Unix socket and sends commands (binary or
    XML plist); a connect command opens a TCP-like connection to a port of a
    device, and from then on the daemon copies bytes between the client's
    socket and the segments it exchanges with the device, multiplexed over one
    pair of USB endpoints.

    ** Parts of the program and their models

    - src/src/client.c: clients, their input and output buffers, the commands
      and the notifications. ClientOut.v has the functions device.c calls
      (raw I/O, poll masks, the output buffer, replies and notifications),
      Teardown.v has [client_close], Client.v the rest (accepting, framing,
      commands, socket events).
    - src/src/device.c: devices and connections. DeviceOut.v has lookups,
      identifiers, outgoing packets and accessors; Teardown.v has
      [connection_teardown] and [device_abort_connect] (they are mutually
      recursive with [client_close]); Device.v has connecting, flow control,
      incoming packets, adding and removing devices, acknowledgement timers and
      shutdown.
    - src/src/usb.c: Usb.v has the functions device.c calls ([usb_send] with
      [tx_callback], the attributes of a device); UsbSetup.v the decisions taken
      on descriptors (supported devices, mode, configuration, serial number,
      poll timer); UsbDevice.v the life of a device, from [usb_device_add]
      through the callbacks of its setup to [usb_disconnect]; UsbLoop.v
      discovery, hotplug events and the event loop, with the callbacks that
      libusb runs.
    - src/src/conf.c: Conf.v (configuration directory, system id, pairing
      records).
    - src/src/utils.c and log.c: Utils.v (clock, poll list, level filter), Text.v
      (the format of a log line, and the other texts that are put together in
      buffers of fixed size).
    - src/src/preflight.c: the entry points device.c calls, in Device.v; the
      worker thread and the notification callback, in Preflight.v.
    - src/src/main.c: Main.v (options, listening socket, lock file,
      daemonization, privileges, signals, the main loop, start and end). Its
      state is a [process]: the world of the other components and the global
      variables of main.c and log.c. A step that may end the process returns a
      [stop] or goes on ([X], [xbind]).
    - usbmuxd-proto.h and the packed structures of device.c: Wire.v.

    ** How the code is modelled

    A C function is a function of the monad [C world] of this file: it reads
    and changes a [world] (World.v) and ends with [Ok], with [Undef] for
    undefined behaviour (use of a freed object, null dereference, access out of
    bounds, printing a string without end, an uninitialized collection, double
    free, signed overflow, division by zero, locking a mutex twice) or with [NoFuel] when a loop exceeds its
    bound. The world holds one finite map per type of heap object, keyed by
    pointers, so that aliasing between the collections, the [client] field of a
    connection and the local variables is as in the code; the global
    collections and counters; the mutexes that are held; and the history of
    what the process did to the outside world (system calls, USB submissions,
    locks), newest first. Integers are [Z] with the wrap-around of their C type
    written out.

    What is not in the repository (libimobiledevice-glue's collections,
    libplist, sockets, clock, allocator, file system, libusb, libimobiledevice,
    the system calls of main.c) is a parameter: the classes of Platform.v,
    [UsbHost] of UsbDevice.v, [Lockdown] of Preflight.v and [Process] of Main.v,
    with classes of laws that state their documented behaviour. The answers of the outside world may depend on the
    whole history. Instances.v has concrete instances that satisfy every law.
    Scenario.v and ScenarioMain.v have a concrete daemon with a device and
    clients, and a process, on which the witnesses run; ScenarioFacts.v shows
    that it satisfies the invariant.

    The preflight workers are threads. While a worker waits for an answer or
    sleeps, the others run: this is the argument [others] of its functions, and
    Reach.v closes the circle ([runs]: iterations of the main loop, workers and
    notification callbacks, where [others] is any function whose runs are runs
    of the process).

    [wp m Q w] of this file is total correctness ([m] returns from [w], with no
    undefined behaviour, in a state satisfying [Q]); [wlp] is its partial
    variant and [Preserves R m] says that every run of [m] relates its first
    and its last state by [R]. [Keeps I m] of Typed.v says that [m] keeps the
    invariant [I] and never accesses memory outside of a buffer.

    ** What the theorems show

    - Session protocol. Views.v abstracts a world to who is connected to whom
      and in which phase. Session.v defines the abstract protocol ([sess_step],
      14 rules) and its invariant [wf] (lists and heap agree, connections
      belong to live devices and to live clients in a matching phase, ids and
      ports are unique), preserved by every rule. RefineTeardown.v,
      RefineDevice.v, RefineUsb.v, RefineClient.v, RefineMain.v and
      RefinePreflight.v show for every handler that each run is a run of the
      protocol; Reach.v composes them: every state the daemon reaches, from
      [main] with any options on, satisfies the invariant, as long as the
      handlers return.
    - Memory. Typed.v states what the C types and the allocations promise of
      the heap; TypedClient.v, TypedDevice.v, TypedCommand.v and TypedUsb.v show
      that every function keeps it and stays within its buffers; TypedReach.v:
      this holds of every state the daemon reaches. Text.v: the texts of the
      log, of process names and of the listening address fit their buffers.
    - Process. Frame.v: what no handler does (system calls of main.c, closing a
      client without closing its socket, changing a device's id or preflight
      data). ShutdownFacts.v: the shutdown releases everything. MainFacts.v:
      privileges are dropped for good before anything else runs, and a second
      instance only signals the first. LoopFacts.v: an iteration serves exactly
      what [ppoll] reports, and the signals that ask for it end the loop.
      PreflightFacts.v: the record of a worker is alive as long as a device
      refers to it, and unplugging the device ends the wait.
    - Data. FlowFacts.v: bytes of a device reach the client in order and are
      acknowledged exactly as they are delivered, bytes of a client reach the
      device within its window. BufferFacts.v and ReplyFacts.v: messages to a
      client are queued whole and leave in order; input is framed by message.
      SendFacts.v: what is submitted to USB for a packet or a segment.
      PacketFacts.v: packets spread over several transfers are reassembled and
      never overrun the buffer.
    - Connections. ConnectFacts.v: a connect request sends a SYN from a free
      port; SYN/ACK, data and stray segments are answered as TCP asks.
      TeardownFacts.v: tearing down a connection terminates and frees
      everything, after a flush that ends; the recursion depth is enough.
      Ids.v: device ids and ports are always found and unused.
    - USB. UsbDeviceFacts.v: transfers and buffers have one owner, a transfer
      that ends gives them back, disconnecting a device returns and leaves no
      bulk transfer that refers to it, a device on the bus is listed once.
      UsbFacts.v: which configuration is selected, what a serial number is read
      as, when the next scan is due.
    - Announcements: ListenFacts.v. Polling and timers: PollFacts.v.
      Configuration: ConfFacts.v.
    - Findings.v: runs that end in undefined behaviour or in a result the code
      does not mean.

    ** Bounds

    [connection_teardown] is cut off at recursion depth 2, which is enough
    ([teardown_depth_enough]). [flush_fuel] allows 103 rounds per queued byte:
    at most 101 sleeps of 10 ms between two writes that make progress
    ([flush_terminates]). [find_sport] and [get_next_device_id] have one round
    per taken number and one more (Ids.v shows that they return).
    [usb_disconnect] and [usb_process_timeout] wait for libusb as long as it
    takes: their rounds, and the nesting of event handling, are arguments, and
    [usb_disconnect_terminates] says how many rounds are enough.
    [mkdir_with_parents] has two rounds more than the path has characters
    (every parent is shorter; ConfFacts.v). The iterations of [main_loop], the
    retries of a worker and the seconds it waits for the user have no bound in
    the code: they are arguments ([rounds], [retries], [seconds]);
    [signals_end_loop] and [unplug_ends_wait] say when they end. TypedReach.v
    assumes that blocks of more than 2 GiB are refused and that documents of
    libplist have at most 1 GiB ([MemoryLimits]); without it the size of an
    output buffer wraps around (Findings.v).

    ** What is not modelled

    What the callers log (the lines of a device's control channel are); signal
    masks and resource limits; the help text; the parsing of the command line
    by getopt_long, represented by the options it returns; socket options of
    new clients. Threads interleave only where a worker waits: a handler runs
    from its start to its end, which the two mutexes of the program only
    partly guarantee. Allocation failures in usb.c. Of the build variants, the
    POSIX one with libimobiledevice; the clock replacement for macOS and the
    Windows paths are left out.

    ** Plan

    Next: no undefined behaviour of the other kinds (use after free, null
    pointers, uninitialized collections) outside of the runs of Findings.v, from
    a stronger invariant, with the ownership of transfers and buffers kept by
    sending and by the setup callbacks; mark and sweep of [usb_discover]; total
    correctness of the remaining command handlers. *)

From stdpp Require Import base gmap list strings.
From Stdlib Require Import ZArith Lia.

Local Open Scope Z_scope.

(** ** Machine-width integers

    A [uintN_t] is a [Z]; every C operation that can leave the range of its
    type is followed by the wrap-around written out here. *)

Definition u8 (x : Z) : Z := x mod 2 ^ 8.
Definition u16 (x : Z) : Z := x mod 2 ^ 16.
Definition u32 (x : Z) : Z := x mod 2 ^ 32.
Definition u64 (x : Z) : Z := x mod 2 ^ 64.

(** Conversion to a 32-bit [int] (two's complement, as every ABI the program
    is built for does it). *)
Definition s32 (x : Z) : Z := (x + 2 ^ 31) mod 2 ^ 32 - 2 ^ 31.

(** Conversion to a 64-bit signed integer. *)
Definition s64 (x : Z) : Z := (x + 2 ^ 63) mod 2 ^ 64 - 2 ^ 63.

Definition INT_MAX : Z := 2 ^ 31 - 1.

(** [x & m] used as a truth value. *)
Definition flag_set (x m : Z) : bool := negb (Z.land x m =? 0).

(** [x & ~m]. *)
Definition clear_flag (x m : Z) : Z := Z.ldiff x m.

(** ** Byte sequences *)

Definition zlen {A} (l : list A) : Z := Z.of_nat (length l).
Definition ztake {A} (n : Z) (l : list A) : list A := take (Z.to_nat n) l.
Definition zdrop {A} (n : Z) (l : list A) : list A := drop (Z.to_nat n) l.

(** [n] bytes of a buffer from offset [off]. *)
Definition slice (off n : Z) (l : list Z) : list Z := ztake n (zdrop off l).

(** [memcpy(buf + off, data, len)] on a buffer whose bytes are [buf]. *)
Definition write_at (off : Z) (data buf : list Z) : list Z :=
  ztake off buf ++ data ++ zdrop (off + zlen data) buf.

Definition byte_ok (b : Z) : Prop := 0 <= b < 256.
Definition bytes_ok (l : list Z) : Prop := Forall byte_ok l.

(** [n] bytes of [x], most significant first: what [htons]/[htonl] leave in
    memory. *)
Fixpoint be_bytes (n : nat) (x : Z) : list Z :=
  match n with
  | O => []
  | S n' => be_bytes n' (x / 256) ++ [x mod 256]
  end.

(** The integer that a big-endian byte sequence denotes: [ntohs]/[ntohl] of
    the word in memory. *)
Fixpoint be_val_acc (acc : Z) (l : list Z) : Z :=
  match l with
  | [] => acc
  | b :: l' => be_val_acc (acc * 256 + b) l'
  end.
Definition be_val (l : list Z) : Z := be_val_acc 0 l.

(** The same for host byte order, which is little endian on every platform
    of the build. *)
Fixpoint le_bytes (n : nat) (x : Z) : list Z :=
  match n with
  | O => []
  | S n' => (x mod 256) :: le_bytes n' (x / 256)
  end.
Fixpoint le_val (l : list Z) : Z :=
  match l with
  | [] => 0
  | b :: l' => b + 256 * le_val l'
  end.

Lemma length_be_bytes n x : length (be_bytes n x) = n.
Proof.
  revert x; induction n as [|n IH]; intros x; simpl; [done|].
  rewrite length_app, IH; simpl; lia.
Qed.

Lemma length_le_bytes n x : length (le_bytes n x) = n.
Proof. revert x; induction n as [|n IH]; intros x; simpl; [done|]. by rewrite IH. Qed.

Lemma be_val_acc_app acc l b : be_val_acc acc (l ++ [b]) = be_val_acc acc l * 256 + b.
Proof. revert acc; induction l as [|x l IH]; intros acc; simpl; [done|]. apply IH. Qed.

Lemma pow256_succ n : 256 ^ Z.of_nat (S n) = 256 * 256 ^ Z.of_nat n.
Proof. rewrite Nat2Z.inj_succ, Z.pow_succ_r; lia. Qed.

(** Splitting a remainder modulo [256 * m] into its low byte and the rest. *)
Lemma mod256_split x m : 0 < m -> x mod (256 * m) = 256 * ((x / 256) mod m) + x mod 256.
Proof.
  intros Hm. rewrite Z.rem_mul_r by lia. lia.
Qed.

Lemma be_val_bytes n x : be_val (be_bytes n x) = x mod 256 ^ Z.of_nat n.
Proof.
  unfold be_val. revert x; induction n as [|n IH]; intros x.
  { simpl. by rewrite Z.mod_1_r. }
  cbn [be_bytes]. rewrite be_val_acc_app, IH, pow256_succ, mod256_split; lia.
Qed.

Lemma le_val_bytes n x : le_val (le_bytes n x) = x mod 256 ^ Z.of_nat n.
Proof.
  revert x; induction n as [|n IH]; intros x.
  { simpl. by rewrite Z.mod_1_r. }
  cbn [le_bytes le_val]. rewrite IH, pow256_succ, mod256_split; lia.
Qed.

Lemma be_bytes_ok n x : bytes_ok (be_bytes n x).
Proof.
  revert x; induction n as [|n IH]; intros x; simpl; [constructor|].
  apply Forall_app; split; [apply IH|].
  repeat constructor; apply Z.mod_pos_bound; lia.
Qed.

Lemma le_bytes_ok n x : bytes_ok (le_bytes n x).
Proof.
  revert x; induction n as [|n IH]; intros x; simpl; constructor; [|apply IH].
  split; apply Z.mod_pos_bound; lia.
Qed.

Lemma u16_range x : 0 <= u16 x < 2 ^ 16.
Proof. apply Z.mod_pos_bound; lia. Qed.
Lemma u32_range x : 0 <= u32 x < 2 ^ 32.
Proof. apply Z.mod_pos_bound; lia. Qed.
Lemma u64_range x : 0 <= u64 x < 2 ^ 64.
Proof. apply Z.mod_pos_bound; lia. Qed.
Lemma u16_small x : 0 <= x < 2 ^ 16 -> u16 x = x.
Proof. apply Z.mod_small. Qed.
Lemma u32_small x : 0 <= x < 2 ^ 32 -> u32 x = x.
Proof. apply Z.mod_small. Qed.
Lemma u64_small x : 0 <= x < 2 ^ 64 -> u64 x = x.
Proof. apply Z.mod_small. Qed.
Lemma s32_small x : - 2 ^ 31 <= x < 2 ^ 31 -> s32 x = x.
Proof. intros Hx. unfold s32. rewrite Z.mod_small; lia. Qed.
Lemma s64_small x : - 2 ^ 63 <= x < 2 ^ 63 -> s64 x = x.
Proof. intros Hx. unfold s64. rewrite Z.mod_small; lia. Qed.

Lemma be32_val x : be_val (be_bytes 4 x) = u32 x.
Proof. apply (be_val_bytes 4). Qed.
Lemma be16_val x : be_val (be_bytes 2 x) = u16 x.
Proof. apply (be_val_bytes 2). Qed.
Lemma le32_val x : le_val (le_bytes 4 x) = u32 x.
Proof. apply (le_val_bytes 4). Qed.
Lemma le16_val x : le_val (le_bytes 2 x) = u16 x.
Proof. apply (le_val_bytes 2). Qed.

Lemma zlen_app {A} (l k : list A) : zlen (l ++ k) = zlen l + zlen k.
Proof. unfold zlen. rewrite length_app. lia. Qed.
Lemma zlen_nonneg {A} (l : list A) : 0 <= zlen l.
Proof. unfold zlen. lia. Qed.
Lemma zlen_nil {A} : zlen (@nil A) = 0.
Proof. done. Qed.
Lemma zlen_be n x : zlen (be_bytes n x) = Z.of_nat n.
Proof. unfold zlen. by rewrite length_be_bytes. Qed.
Lemma zlen_le n x : zlen (le_bytes n x) = Z.of_nat n.
Proof. unfold zlen. by rewrite length_le_bytes. Qed.
Lemma zlen_ztake {A} n (l : list A) : 0 <= n <= zlen l -> zlen (ztake n l) = n.
Proof. unfold zlen, ztake. intros. rewrite length_take. lia. Qed.
Lemma zlen_zdrop {A} n (l : list A) : 0 <= n <= zlen l -> zlen (zdrop n l) = zlen l - n.
Proof. unfold zlen, zdrop. intros. rewrite length_drop. lia. Qed.
Lemma ztake_zdrop {A} n (l : list A) : ztake n l ++ zdrop n l = l.
Proof. apply take_drop. Qed.
Lemma zlen_replicate {A} n (x : A) : zlen (replicate n x) = Z.of_nat n.
Proof. unfold zlen. by rewrite length_replicate. Qed.

Lemma ztake_app_exact {A} n (l k : list A) : n = zlen l -> ztake n (l ++ k) = l.
Proof. intros ->. unfold ztake, zlen. rewrite Nat2Z.id. apply take_app_length. Qed.
Lemma zdrop_app_exact {A} n (l k : list A) : n = zlen l -> zdrop n (l ++ k) = k.
Proof. intros ->. unfold zdrop, zlen. rewrite Nat2Z.id. apply drop_app_length. Qed.
Lemma ztake_all {A} n (l : list A) : zlen l <= n -> ztake n l = l.
Proof. unfold ztake, zlen. intros. apply take_ge. lia. Qed.
Lemma zdrop_all {A} n (l : list A) : zlen l <= n -> zdrop n l = [].
Proof. unfold zdrop, zlen. intros. apply drop_ge. lia. Qed.
Lemma ztake_app_le {A} n (l k : list A) : n <= zlen l -> ztake n (l ++ k) = ztake n l.
Proof. unfold ztake, zlen. intros. apply take_app_le. lia. Qed.
Lemma ztake_ztake {A} n m (l : list A) : 0 <= n <= m -> ztake n (ztake m l) = ztake n l.
Proof. unfold ztake. intros. rewrite take_take. f_equal. lia. Qed.

Lemma zlen_write_at off data buf :
  0 <= off -> off + zlen data <= zlen buf -> zlen (write_at off data buf) = zlen buf.
Proof.
  intros H1 H2. unfold write_at. pose proof (zlen_nonneg data).
  rewrite !zlen_app, zlen_ztake, zlen_zdrop by lia. lia.
Qed.

(** The first [off + len] bytes after a copy at [off] are the old prefix
    followed by the data. *)
Lemma ztake_write_at off data buf :
  0 <= off <= zlen buf -> ztake (off + zlen data) (write_at off data buf) = ztake off buf ++ data.
Proof.
  intros H. unfold write_at. rewrite app_assoc. apply ztake_app_exact.
  rewrite zlen_app, zlen_ztake; lia.
Qed.

Lemma bytes_ok_app l k : bytes_ok (l ++ k) <-> bytes_ok l /\ bytes_ok k.
Proof. apply Forall_app. Qed.
Lemma bytes_ok_ztake n l : bytes_ok l -> bytes_ok (ztake n l).
Proof. apply Forall_take. Qed.
Lemma bytes_ok_zdrop n l : bytes_ok l -> bytes_ok (zdrop n l).
Proof. apply Forall_drop. Qed.
Lemma bytes_ok_write_at off data buf :
  bytes_ok data -> bytes_ok buf -> bytes_ok (write_at off data buf).
Proof.
  intros. unfold write_at. rewrite !bytes_ok_app.
  auto using bytes_ok_ztake, bytes_ok_zdrop.
Qed.

(** ** Counting

    Among [length T + 1] different numbers one is not in [T]. *)
Lemma free_index (f : nat -> Z) (T : list Z) :
  (forall i j, (i <= length T)%nat -> (j <= length T)%nat -> f i = f j -> i = j) ->
  exists i, (i <= length T)%nat /\ f i ∉ T.
Proof.
  intros Hinj. destruct (decide (Exists (fun i => f i ∉ T) (seq 0 (S (length T))))) as [He|Hn].
  - apply Exists_exists in He as (i & Hi & Hf). apply elem_of_seq in Hi. exists i. split; [lia|done].
  - exfalso. assert (S (length T) <= length T)%nat; [|lia].
    rewrite <- (length_seq (S (length T)) 0) at 1. rewrite <- (length_fmap f).
    apply submseteq_length, NoDup_submseteq.
    + apply NoDup_fmap_2_strong; [|apply NoDup_seq].
      intros i j. rewrite !elem_of_seq. intros Hi Hj. apply Hinj; lia.
    + intros x. rewrite list_elem_of_fmap. intros (i & -> & Hi).
      destruct (decide (f i ∈ T)) as [|Hni]; [done|]. exfalso. apply Hn.
      apply Exists_exists. eauto.
Qed.

(** ** Flag words *)

Lemma flag_set_lor x m : m <> 0 -> flag_set (Z.lor x m) m = true.
Proof.
  intros Hm. unfold flag_set. rewrite negb_true_iff, Z.eqb_neq.
  replace (Z.land (Z.lor x m) m) with m; [done|].
  apply Z.bits_inj'; intros i _. rewrite Z.land_spec, Z.lor_spec.
  by destruct (Z.testbit x i), (Z.testbit m i).
Qed.

Lemma flag_set_clear x m : flag_set (clear_flag x m) m = false.
Proof.
  unfold flag_set, clear_flag. rewrite negb_false_iff, Z.eqb_eq.
  apply Z.bits_inj'; intros i _. rewrite Z.land_spec, Z.ldiff_spec, Z.bits_0.
  by destruct (Z.testbit x i), (Z.testbit m i).
Qed.

(** Setting or clearing one flag leaves a disjoint flag as it was. *)
Lemma flag_set_lor_other x m k : Z.land m k = 0 -> flag_set (Z.lor x m) k = flag_set x k.
Proof. intros H. unfold flag_set. by rewrite Z.land_lor_distr_l, H, Z.lor_0_r. Qed.

Lemma flag_set_clear_other x m k : Z.land m k = 0 -> flag_set (clear_flag x m) k = flag_set x k.
Proof.
  intros H. unfold flag_set, clear_flag. do 2 f_equal.
  apply Z.bits_inj'; intros i Hi. rewrite !Z.land_spec, Z.ldiff_spec.
  assert (Z.testbit (Z.land m k) i = false) as Hb by (rewrite H; apply Z.bits_0).
  rewrite Z.land_spec in Hb.
  by destruct (Z.testbit x i), (Z.testbit m i), (Z.testbit k i).
Qed.

Create Rewrite HintDb zlen.
#[export] Hint Rewrite @zlen_app @zlen_be @zlen_le @zlen_nil @zlen_replicate : zlen.

(** ** Record update

    [r <| f := v |>] is [r] with its field [f] set to [v]. The setter of a
    field is derived from the record's eta expansion, an [Eta] instance. *)

Class Eta (R : Type) := eta : R -> R.
Class Setter {R T : Type} (proj : R -> T) := set : (T -> T) -> R -> R.
Arguments set {R T} proj {_} _ _ /.

Ltac derive_setter :=
  match goal with
  | |- @Setter ?R ?T ?p =>
    let r := fresh "r" in
    let f := fresh "f" in
    intros f r;
    let t := eval cbv beta delta [eta] in (@eta R _ r) in
    let t := eval hnf in t in
    let t := eval pattern (p r) in t in
    match t with
    | ?F (p r) => let t' := eval cbv beta in (F (f (p r))) in exact t'
    end
  end.
#[export] Hint Extern 0 (Setter _) => derive_setter : typeclass_instances.

Notation "r <| p := v |>" := (set p (fun _ => v) r)
  (at level 1, left associativity, p at level 11, only parsing).
Notation "r <| p ::= f |>" := (set p f r)
  (at level 1, left associativity, p at level 11, only parsing).

(** ** Outcomes of a C function

    [Ok a s]: the function returned [a] and left the state [s].
    [Undef u]: the execution has undefined behaviour (or blocks forever on a
    mutex its own thread holds), for the reason [u].
    [NoFuel]: a loop did not finish within the iterations the model allows. *)

Inductive ub :=
  | UseAfterFree      (** access to a heap object that is not allocated *)
  | NullDeref
  | Uninitialised     (** use of a collection that was never initialised *)
  | OutOfBounds       (** access outside of a buffer *)
  | Unterminated      (** a string that is printed has no end in its buffer *)
  | SignedOverflow
  | DivByZero
  | DoubleFree
  | SelfDeadlock.     (** [mutex_lock] of a mutex the thread already holds *)

Inductive outcome (S A : Type) :=
  | Ok (a : A) (s : S)
  | Undef (u : ub)
  | NoFuel.
Arguments Ok {S A} a s.
Arguments Undef {S A} u.
Arguments NoFuel {S A}.

(** The monad of C functions over a state [S]. *)
Definition C (S A : Type) : Type := S -> outcome S A.

#[export] Instance C_ret {S} : MRet (C S) := fun A a s => Ok a s.
#[export] Instance C_bind {S} : MBind (C S) := fun A B k m s =>
  match m s with
  | Ok a s' => k a s'
  | Undef u => Undef u
  | NoFuel => NoFuel
  end.

Definition undef {S A} (u : ub) : C S A := fun _ => Undef u.
Definition no_fuel {S A} : C S A := fun _ => NoFuel.
Definition gets {S A} (f : S -> A) : C S A := fun s => Ok (f s) s.
Definition modify {S} (f : S -> S) : C S unit := fun s => Ok tt (f s).
Definition lift_option {S A} (u : ub) (o : option A) : C S A :=
  match o with Some a => mret a | None => undef u end.
Definition when {S} (b : bool) (m : C S unit) : C S unit :=
  if b then m else mret tt.

(** *** Total correctness

    [wp m Q s]: [m] started in [s] returns (no undefined behaviour, no
    exhausted loop) and its value and final state satisfy [Q]. *)

Definition wp {S A} (m : C S A) (Q : A -> S -> Prop) (s : S) : Prop :=
  match m s with
  | Ok a s' => Q a s'
  | _ => False
  end.

Section wp_rules.
Context {S : Type}.
Implicit Types s : S.

Lemma wp_ret {A} (a : A) (Q : A -> S -> Prop) s : Q a s -> wp (mret a) Q s.
Proof. done. Qed.

Lemma wp_bind {A B} (m : C S A) (k : A -> C S B) Q s :
  wp m (fun a => wp (k a) Q) s -> wp (m ≫= k) Q s.
Proof. unfold wp, mbind, C_bind. by destruct (m s). Qed.

Lemma wp_mono {A} (m : C S A) (Q R : A -> S -> Prop) s :
  wp m Q s -> (forall a s', Q a s' -> R a s') -> wp m R s.
Proof. unfold wp. destruct (m s); auto. Qed.

(** The rule for calling a function whose specification is known. *)
Lemma wp_call {A B} (m : C S A) (k : A -> C S B) (R : A -> S -> Prop) Q s :
  wp m R s -> (forall a s', R a s' -> wp (k a) Q s') -> wp (m ≫= k) Q s.
Proof. intros Hm Hk. apply wp_bind. eapply wp_mono; eauto. Qed.

Lemma wp_assoc {A B D} (m : C S A) (f : A -> C S B) (g : B -> C S D) Q s :
  wp ((m ≫= f) ≫= g) Q s -> wp (m ≫= (fun a => f a ≫= g)) Q s.
Proof. unfold wp, mbind, C_bind. by destruct (m s). Qed.

Lemma wp_gets {A} (f : S -> A) (Q : A -> S -> Prop) s : Q (f s) s -> wp (gets f) Q s.
Proof. done. Qed.

Lemma wp_modify (f : S -> S) (Q : unit -> S -> Prop) s : Q tt (f s) -> wp (modify f) Q s.
Proof. done. Qed.

Lemma wp_lift_option {A} u (o : option A) a (Q : A -> S -> Prop) s :
  o = Some a -> Q a s -> wp (lift_option u o) Q s.
Proof. by intros ->. Qed.

Lemma wp_when (b : bool) (m : C S unit) Q s :
  (b = true -> wp m Q s) -> (b = false -> Q tt s) -> wp (when b m) Q s.
Proof. intros; destruct b; [auto|apply wp_ret; auto]. Qed.

Lemma wp_conj {A} (m : C S A) (Q R : A -> S -> Prop) s :
  wp m Q s -> wp m R s -> wp m (fun a s' => Q a s' /\ R a s') s.
Proof. unfold wp. destruct (m s); tauto. Qed.

Lemma wp_elim {A} (m : C S A) Q s :
  wp m Q s -> exists a s', m s = Ok a s' /\ Q a s'.
Proof. unfold wp. destruct (m s); naive_solver. Qed.

Lemma wp_intro {A} (m : C S A) (Q : A -> S -> Prop) s a s' :
  m s = Ok a s' -> Q a s' -> wp m Q s.
Proof. unfold wp. by intros ->. Qed.
End wp_rules.

#[export] Instance wp_proper {S A} (m : C S A) :
  Proper (pointwise_relation A (pointwise_relation S iff) ==> eq ==> iff) (wp m).
Proof.
  intros Q R HQR s ? <-. unfold wp. destruct (m s) as [a s'| |]; [apply HQR|done..].
Qed.

(** *** Partial correctness

    [wlp m Q s]: if [m] returns from [s], the result satisfies [Q]. Together
    with a [wp] that says it does return, it gives total correctness. *)

Definition wlp {S A} (m : C S A) (Q : A -> S -> Prop) (s : S) : Prop :=
  match m s with
  | Ok a s' => Q a s'
  | _ => True
  end.

Section wlp_rules.
Context {S : Type}.
Implicit Types s : S.

Lemma wlp_bind {A B} (m : C S A) (k : A -> C S B) Q s :
  wlp m (fun a => wlp (k a) Q) s -> wlp (m ≫= k) Q s.
Proof. unfold wlp, mbind, C_bind. by destruct (m s). Qed.

Lemma wlp_mono {A} (m : C S A) (Q R : A -> S -> Prop) s :
  wlp m Q s -> (forall a s', Q a s' -> R a s') -> wlp m R s.
Proof. unfold wlp. destruct (m s); auto. Qed.

Lemma wlp_call {A B} (m : C S A) (k : A -> C S B) (R : A -> S -> Prop) Q s :
  wlp m R s -> (forall a s', R a s' -> wlp (k a) Q s') -> wlp (m ≫= k) Q s.
Proof. intros Hm Hk. apply wlp_bind. eapply wlp_mono; eauto. Qed.

Lemma wlp_conj {A} (m : C S A) (Q R : A -> S -> Prop) s :
  wlp m Q s -> wlp m R s -> wlp m (fun a s' => Q a s' /\ R a s') s.
Proof. unfold wlp. destruct (m s); auto. Qed.

Lemma wlp_true {A} (m : C S A) s : wlp m (fun _ _ => True) s.
Proof. unfold wlp. by destruct (m s). Qed.

Lemma wlp_ok {A} (m : C S A) (Q : A -> S -> Prop) s a s' :
  wlp m Q s -> m s = Ok a s' -> Q a s'.
Proof. unfold wlp. intros H He. by rewrite He in H. Qed.

Lemma wp_wlp {A} (m : C S A) (Q : A -> S -> Prop) s : wp m Q s -> wlp m Q s.
Proof. unfold wp, wlp. by destruct (m s). Qed.

(** Adds what is known of every result to a total specification. *)
Lemma wp_strengthen {A} (m : C S A) (Q R : A -> S -> Prop) s :
  wp m Q s -> wlp m R s -> wp m (fun a s' => Q a s' /\ R a s') s.
Proof. unfold wp, wlp. destruct (m s); auto. Qed.
End wlp_rules.

(** ** Relations that every call preserves

    [Preserves R m]: whenever [m] returns, the state before and the state
    after are related by [R]. For a preorder it is enough to look at the
    primitive steps. *)

Definition Preserves {S A} (R : relation S) (m : C S A) : Prop :=
  forall s, wlp m (fun _ s' => R s s') s.

Section preserves.
Context {S : Type} (R : relation S) `{!PreOrder R}.

Lemma preserves_ret {A} (a : A) : Preserves R (mret a).
Proof. intros s. unfold wlp. simpl. reflexivity. Qed.

Lemma preserves_bind {A B} (m : C S A) (k : A -> C S B) :
  Preserves R m -> (forall a, Preserves R (k a)) -> Preserves R (m ≫= k).
Proof.
  intros Hm Hk s. eapply wlp_call; [apply Hm|]. intros a s1 H1.
  eapply wlp_mono; [apply Hk|]. intros b s2 H2. exact (transitivity H1 H2).
Qed.

Lemma preserves_gets {A} (f : S -> A) : Preserves R (gets f).
Proof. intros s. unfold wlp. simpl. reflexivity. Qed.

Lemma preserves_undef {A} u : Preserves R (undef u : C S A).
Proof. done. Qed.

Lemma preserves_no_fuel {A} : Preserves R (no_fuel : C S A).
Proof. done. Qed.

Lemma preserves_lift_option {A} u (o : option A) : Preserves R (lift_option u o : C S A).
Proof. destruct o; [apply preserves_ret|done]. Qed.

Lemma preserves_when (b : bool) m : Preserves R m -> Preserves R (when b m).
Proof. intros H. destruct b; [done|apply preserves_ret]. Qed.

Lemma preserves_modify (f : S -> S) : (forall s, R s (f s)) -> Preserves R (modify f).
Proof. intros H s. apply H. Qed.

Lemma preserves_ok {A} (m : C S A) s a s' : Preserves R m -> m s = Ok a s' -> R s s'.
Proof. intros H. apply (wlp_ok _ (fun _ => R s)), H. Qed.
End preserves.

(** Calls of functions that are known to preserve a relation. *)
Create HintDb preserves discriminated.

(** One step of the decomposition of a function into primitives and calls. *)
Ltac preserves_step :=
  match goal with
  | |- Preserves _ (_ ≫= _) => apply (preserves_bind _); [|intros ?]
  | |- Preserves _ (mret _) => apply (preserves_ret _)
  | |- Preserves _ (gets _) => apply (preserves_gets _)
  | |- Preserves _ (when _ _) => apply (preserves_when _)
  | |- Preserves _ (undef _) => apply preserves_undef
  | |- Preserves _ no_fuel => apply preserves_no_fuel
  | |- Preserves _ (lift_option _ _) => apply (preserves_lift_option _)
  | |- Preserves _ (match ?x with _ => _ end) => destruct x eqn:?
  | |- Preserves _ (let _ := _ in _) => cbv zeta
  end.
