(* ===== verification/Platform.v ===== *)
(** * Platform: what the program calls and the repository does not contain

    libimobiledevice-glue's [struct collection], libplist, the socket and
    clock system calls, libusb's transfer submission and the file system are
    parameters of the model, given as classes. A class of operations says
    what the program calls; a class of laws says which documented behaviour
    the theorems rely on. [Instances.v] has concrete instances of all of
    them.

    The answer of the outside world to a call may depend on everything that
    happened before it, so each of these functions takes the history of
    events (newest first). *)

From stdpp Require Import base gmap list strings sorting.
From Stdlib Require Import ZArith Lia.
From S2P Require Import Prelude.

Local Open Scope Z_scope.

(** A non-null pointer. A field that may be [NULL] is an [option ptr]. *)
Abbreviation ptr := positive.

(** ** C library constants the sources use (Linux values) *)

Definition POLLIN : Z := 1.
Definition POLLOUT : Z := 4.
Definition IPPROTO_TCP : Z := 6.
Definition TH_SYN : Z := 2.
Definition TH_RST : Z := 4.
Definition TH_ACK : Z := 16.
Definition EINVAL : Z := 22.
Definition ENOENT : Z := 2.
Definition EEXIST : Z := 17.
Definition EAGAIN : Z := 11.
Definition EWOULDBLOCK : Z := 11.

(** ** [struct collection] of libimobiledevice-glue

    A collection of pointers. [coll_elems] is the list of its elements in
    the order in which [FOREACH] visits them. *)

Class Collection := {
  coll : Type;
  coll_init : coll;
  coll_add : coll -> ptr -> coll;
  coll_remove : coll -> ptr -> coll;
  coll_elems : coll -> list ptr;
  coll_capacity : coll -> Z;
}.

Class CollectionLaws (K : Collection) : Prop := {
  coll_init_elems : coll_elems coll_init = [];
  coll_add_elems c p : coll_elems (coll_add c p) ≡ₚ p :: coll_elems c;
  coll_remove_in c p :
    p ∈ coll_elems c -> coll_elems c ≡ₚ p :: coll_elems (coll_remove c p);
  coll_remove_notin c p :
    p ∉ coll_elems c -> coll_elems (coll_remove c p) = coll_elems c;
  coll_capacity_bound c : zlen (coll_elems c) <= coll_capacity c;
}.

Definition coll_count `{Collection} (c : coll) : Z := zlen (coll_elems c).

(** ** libplist *)

Inductive plist_type :=
  | PLIST_BOOLEAN | PLIST_UINT | PLIST_STRING | PLIST_ARRAY | PLIST_DICT
  | PLIST_DATA | PLIST_OTHER.

#[export] Instance plist_type_eq_dec : EqDecision plist_type.
Proof. solve_decision. Defined.

Class Plist := {
  plist_t : Type;
  plist_new_dict : plist_t;
  plist_new_array : plist_t;
  plist_new_string : string -> plist_t;
  plist_new_uint : Z -> plist_t;
  plist_new_bool : bool -> plist_t;
  plist_new_data : list Z -> plist_t;
  plist_get_node_type : plist_t -> plist_type;
  plist_dict_set_item : plist_t -> string -> plist_t -> plist_t;
  plist_dict_remove_item : plist_t -> string -> plist_t;
  plist_dict_get_item : plist_t -> string -> option plist_t;
  (** [plist_dict_copy_item(target, source, key, NULL)] *)
  plist_dict_copy_item : plist_t -> plist_t -> string -> plist_t;
  plist_array_append_item : plist_t -> plist_t -> plist_t;
  plist_array_items : plist_t -> list plist_t;
  (** The value accessors leave their result untouched, here [None], when
      the node has another type. *)
  plist_get_string_val : plist_t -> option string;
  plist_get_uint_val : plist_t -> option Z;
  plist_get_data_val : plist_t -> option (list Z);
  plist_to_xml : plist_t -> option (list Z);
  plist_from_xml : list Z -> option plist_t;
  (** any of the formats libplist knows *)
  plist_from_memory : list Z -> option plist_t;
}.

Class PlistLaws (P : Plist) : Prop := {
  new_dict_type : plist_get_node_type plist_new_dict = PLIST_DICT;
  new_string_type s : plist_get_node_type (plist_new_string s) = PLIST_STRING;
  set_item_type d k v :
    plist_get_node_type d = PLIST_DICT ->
    plist_get_node_type (plist_dict_set_item d k v) = PLIST_DICT;
  remove_item_type d k :
    plist_get_node_type d = PLIST_DICT ->
    plist_get_node_type (plist_dict_remove_item d k) = PLIST_DICT;
  get_set_same d k v :
    plist_get_node_type d = PLIST_DICT ->
    plist_dict_get_item (plist_dict_set_item d k v) k = Some v;
  get_set_other d k k' v :
    plist_get_node_type d = PLIST_DICT -> k <> k' ->
    plist_dict_get_item (plist_dict_set_item d k v) k' = plist_dict_get_item d k';
  get_new_dict k : plist_dict_get_item plist_new_dict k = None;
  string_val_new s : plist_get_string_val (plist_new_string s) = Some s;
  uint_val_new n : 0 <= n < 2 ^ 64 -> plist_get_uint_val (plist_new_uint n) = Some n;
  data_val_new l : plist_get_data_val (plist_new_data l) = Some l;
  array_items_new : plist_array_items plist_new_array = [];
  new_array_type : plist_get_node_type plist_new_array = PLIST_ARRAY;
  append_item_type a x :
    plist_get_node_type a = PLIST_ARRAY ->
    plist_get_node_type (plist_array_append_item a x) = PLIST_ARRAY;
  array_items_append a x :
    plist_get_node_type a = PLIST_ARRAY ->
    plist_array_items (plist_array_append_item a x) = plist_array_items a ++ [x];
  (** XML serialization of a dictionary succeeds and parses back. *)
  plist_xml_roundtrip d :
    plist_get_node_type d = PLIST_DICT ->
    exists xml, plist_to_xml d = Some xml /\ bytes_ok xml /\
      plist_from_xml xml = Some d /\ plist_from_memory xml = Some d;
}.

(** ** The file system *)

Inductive file_kind := REGULAR | DIRECTORY | SOCKET | OTHER_FILE.

#[export] Instance file_kind_eq_dec : EqDecision file_kind.
Proof. solve_decision. Defined.

Class FileSystem := {
  fs : Type;
  (** [stat]: the kind of the file at a path, when there is one *)
  fs_stat : fs -> string -> option file_kind;
  (** [mkdir]: [inl] the new state, or [inr errno] *)
  fs_mkdir : fs -> string -> Z -> fs + Z;
  (** [remove]: [inl] the new state, or [inr errno] *)
  fs_remove : fs -> string -> fs + Z;
  (** the contents of a regular file *)
  fs_read : fs -> string -> option (list Z);
  (** write a whole file; the flag says whether it succeeded *)
  fs_write : fs -> string -> list Z -> fs * bool;
}.

(** libplist's file functions, in terms of its serializer: the XML form of
    the plist is what the file holds, and reading parses the file in whatever
    format it has. *)
Definition plist_write_to_file `{Plist, FileSystem} (s : fs) (p : plist_t) (path : string) :
    fs * bool :=
  match plist_to_xml p with
  | Some xml => fs_write s path xml
  | None => (s, false)
  end.

Definition plist_read_from_file `{Plist, FileSystem} (s : fs) (path : string) : option plist_t :=
  data ← fs_read s path; plist_from_memory data.

Class FileSystemLaws (F : FileSystem) : Prop := {
  fs_write_read s p l s' : fs_write s p l = (s', true) -> fs_read s' p = Some l;
  fs_write_other s p l s' b q :
    fs_write s p l = (s', b) -> p <> q -> fs_read s' q = fs_read s q;
  fs_write_stat s p l s' :
    fs_write s p l = (s', true) -> fs_stat s' p = Some REGULAR;
  fs_remove_gone s p s' : fs_remove s p = inl s' -> fs_read s' p = None;
  fs_remove_other s p s' q :
    fs_remove s p = inl s' -> p <> q -> fs_read s' q = fs_read s q;
  fs_mkdir_stat s p m s' : fs_mkdir s p m = inl s' -> fs_stat s' p = Some DIRECTORY;
  fs_mkdir_read s p m s' q : fs_mkdir s p m = inl s' -> fs_read s' q = fs_read s q;
  (** the root directory and the current directory exist *)
  fs_mkdir_root s m : fs_mkdir s "/"%string m = inr EEXIST;
  fs_mkdir_cwd s m : fs_mkdir s "."%string m = inr EEXIST;
}.

(** ** System calls, clock, allocator contents and libusb *)

Inductive mutex := device_list_mutex | client_list_mutex.

#[export] Instance mutex_eq_dec : EqDecision mutex.
Proof. solve_decision. Defined.

Inductive loglevel :=
  | LL_FATAL | LL_ERROR | LL_WARNING | LL_NOTICE | LL_INFO | LL_DEBUG | LL_SPEW | LL_FLOOD.

(** Where the transfers of a USB device are submitted. *)
Inductive endpoint := EpOut | EpIn | EpControl.

(** The system calls of main.c. *)
Inductive syscall :=
  | SysOpen (path : string) (excl : bool)  (** for writing, created; with O_EXCL or not *)
  | SysClose (fd : Z)
  | SysSetlk (fd : Z)
  | SysWrite (fd : Z) (data : list Z)
  | SysKill (pid sig : Z)
  | SysGetppid
  | SysPipe
  | SysFork
  | SysSetsid
  | SysChdir (path : string)
  | SysFreopen (path : string) (stream : Z)
  | SysSocket (family : Z)
  | SysSetsockopt (fd option : Z)
  | SysBind (fd : Z) (address : string)
  | SysListen (fd backlog : Z)
  | SysGetfl (fd : Z)
  | SysSetfl (fd flags : Z)
  | SysChmod (path : string) (mode : Z)
  | SysChown (path : string) (uid gid : Z)
  | SysInitgroups (user : string) (gid : Z)
  | SysSetgid (gid : Z)
  | SysSetuid (uid : Z)
  | SysGetuid
  | SysGeteuid
  | SysGetgid.

(** The calls of preflight.c to libimobiledevice. *)
Inductive lockdown_call :=
  | LkClientNew
  | LkQueryType
  | LkStartSession (host_id : option string)
  | LkGetValue (key : string)
  | LkSetValue (key value : string)
  | LkPair
  | LkValidatePair
  | LkStartService (name : string)
  | LkClientFree
  | IdeviceFree
  | NpClientNew
  | NpSetNotifyCallback
  | NpObserve (names : list string)
  | NpClientFree.

Inductive lockdownd_error :=
  | LOCKDOWN_E_SUCCESS
  | LOCKDOWN_E_INVALID_HOST_ID
  | LOCKDOWN_E_SSL_ERROR
  | LOCKDOWN_E_PASSWORD_PROTECTED
  | LOCKDOWN_E_OTHER (code : Z).

#[export] Instance lockdownd_error_eq_dec : EqDecision lockdownd_error.
Proof. solve_decision. Defined.

Inductive event :=
  | EvLock (m : mutex)
  | EvUnlock (m : mutex)
  | EvRecv (fd n : Z) (r : list Z + Z)       (** bytes read, or errno *)
  | EvSend (fd : Z) (data : list Z) (r : Z + Z)  (** bytes written, or errno *)
  | EvAccept (fd : Z) (r : Z + Z)
  | EvClose (fd : Z)
  | EvUsleep (us : Z)
  | EvSubmit (usbdev : ptr) (ep : endpoint) (data : list Z) (res : Z)
  | EvCancel (xfer : ptr)
  | EvUsbOpen (bus address res : Z)
  | EvDetachDriver (usbdev : ptr) (interface : Z)
  | EvSetConfiguration (usbdev : ptr) (value : Z)
  | EvClaim (usbdev : ptr) (interface res : Z)
  | EvRelease (usbdev : ptr) (interface : Z)
  | EvUsbClose (usbdev : ptr)
  | EvUsbEvents (res : Z)    (** [libusb_handle_events_timeout] returned *)
  | EvDeviceLog (level : loglevel) (id : Z) (text : list Z)
      (** a message of a device's control channel handed to the log *)
  | EvLockdown (udid : string) (c : lockdown_call) (err : lockdownd_error)
  | EvSys (c : syscall) (res : Z)
  | EvPoll (timeout : Z * Z)       (** [ppoll], with its timeout *)
  | EvExit (status : Z)            (** the process ends *)
  | EvPreflight (id : Z)    (** a preflight worker thread was started *)
  | EvSrand (seed : Z)
  | EvRand (r : Z).

Class Env := {
  env_coll :: Collection;
  env_plist :: Plist;
  env_fs :: FileSystem;
  (** [recv(fd, buf, n, 0)]: the bytes read ([[]]: connection closed) or errno *)
  sys_recv : list event -> Z -> Z -> list Z + Z;
  (** [send(fd, data, len, 0)]: the number of bytes taken or errno *)
  sys_send : list event -> Z -> list Z -> Z + Z;
  sys_accept : list event -> Z -> Z + Z;
  (** [clock_gettime(CLOCK_MONOTONIC)]: seconds and nanoseconds *)
  sys_clock_gettime : list event -> option (Z * Z);
  (** [gettimeofday]: seconds and microseconds *)
  sys_gettimeofday : list event -> Z * Z;
  (** what a block of [n] freshly allocated bytes contains *)
  sys_malloc_bytes : list event -> Z -> list Z;
  (** whether [realloc] to this size succeeds *)
  sys_realloc : list event -> Z -> bool;
  (** [time(NULL)] *)
  sys_time : list event -> Z;
  (** [rand()]; the history holds the seed given to [srand] *)
  sys_rand : list event -> Z;
  (** [string_concat(s1, ..., sn, NULL)] of libimobiledevice-glue *)
  string_concat : list string -> string;
  (** [thread_new] of the preflight worker: 0 on success *)
  sys_thread_new : list event -> Z;
  (** [libusb_submit_transfer] of a bulk transfer with this data *)
  libusb_submit_transfer : list event -> ptr -> endpoint -> list Z -> Z;
}.

(** Nanoseconds of the monotonic clock. *)
Definition clock_ns `{Env} (t : list event) : Z :=
  match sys_clock_gettime t with
  | Some (s, ns) => s * 1000000000 + ns
  | None => 0
  end.

(** The system calls and the allocator fill and read what they are given. *)
Class IoLaws (E : Env) : Prop := {
  recv_bound t fd n l : 0 <= n -> sys_recv t fd n = inl l -> zlen l <= n;
  recv_bytes t fd n l : sys_recv t fd n = inl l -> bytes_ok l;
  send_bound t fd data n : sys_send t fd data = inl n -> 0 <= n <= zlen data;
  rand_nonneg t : 0 <= sys_rand t;
  malloc_len t n : 0 <= n -> zlen (sys_malloc_bytes t n) = n;
  malloc_bytes_ok t n : bytes_ok (sys_malloc_bytes t n);
}.

Class EnvLaws (E : Env) : Prop := {
  env_coll_laws :: CollectionLaws env_coll;
  env_plist_laws :: PlistLaws env_plist;
  env_fs_laws :: FileSystemLaws env_fs;
  env_io_laws :: IoLaws E;
  string_concat_spec l : string_concat l = String.concat EmptyString l;
  (** The monotonic clock works and does not go back, and [usleep] suspends
      the caller for at least the time it is given. *)
  clock_ok t :
    exists s ns, sys_clock_gettime t = Some (s, ns) /\ 0 <= s /\ 0 <= ns < 1000000000;
  clock_mono t e : clock_ns t <= clock_ns (e :: t);
  clock_usleep t us : clock_ns t + us * 1000 <= clock_ns (EvUsleep us :: t);
}.

(** ** Consequences of the laws *)

Section collection_facts.
Context {K : Collection} `{!CollectionLaws K}.

Lemma elem_of_coll_add l p q : p ∈ coll_elems (coll_add l q) <-> p = q \/ p ∈ coll_elems l.
Proof. by rewrite coll_add_elems, elem_of_cons. Qed.

Lemma NoDup_coll_add l q :
  NoDup (coll_elems l) -> q ∉ coll_elems l -> NoDup (coll_elems (coll_add l q)).
Proof. intros. rewrite coll_add_elems. by constructor. Qed.

Lemma NoDup_coll_remove l q : NoDup (coll_elems l) -> NoDup (coll_elems (coll_remove l q)).
Proof.
  intros Hnd. destruct (decide (q ∈ coll_elems l)) as [Hq|Hq].
  - rewrite (coll_remove_in _ _ Hq) in Hnd. by apply NoDup_cons in Hnd as [_ ?].
  - by rewrite coll_remove_notin.
Qed.

Lemma elem_of_coll_remove l p q :
  NoDup (coll_elems l) -> p ∈ coll_elems (coll_remove l q) <-> p <> q /\ p ∈ coll_elems l.
Proof.
  intros Hnd. destruct (decide (q ∈ coll_elems l)) as [Hq|Hq].
  - pose proof (coll_remove_in _ _ Hq) as Hperm. rewrite Hperm in Hnd.
    rewrite Hperm, elem_of_cons. apply NoDup_cons in Hnd as [Hni _].
    split; [intros Hp; split; [by intros ->|by right]|]. intros [Hne [?|?]]; done.
  - rewrite coll_remove_notin by done. split; [|by intros [_ ?]].
    intros Hp. split; [by intros ->|done].
Qed.

End collection_facts.
