(* ===== verification/Wire.v ===== *)
(** * Wire formats

    The headers of device.c ([struct mux_header], [struct version_header]
    and the [struct tcphdr] of netinet/tcp.h that it sends over USB, all in
    network byte order) and of usbmuxd-proto.h (the messages exchanged with
    clients, in host byte order), with their layout in memory and the reading
    of their fields. The theorems show that what is written is what is read
    back, field by field, wrapped to the width of the field. *)

From stdpp Require Import base gmap list strings.
From Stdlib Require Import ZArith Lia.
From S2P Require Import Prelude Platform.

Local Open Scope Z_scope.

(** ** usb.h and device.c: sizes *)

Definition USB_MRU : Z := 16384.
Definition USB_MTU : Z := 3 * 16384.
Definition DEV_MRU : Z := 65536.
Definition CONN_INBUF_SIZE : Z := 262144.
Definition CONN_OUTBUF_SIZE : Z := 65536.
Definition ACK_TIMEOUT : Z := 30.
Definition CONN_ACK_PENDING : Z := 1.
Definition CMD_BUF_SIZE : Z := 65536.
Definition REPLY_BUF_SIZE : Z := 65536.
Definition PID_APPLE_T2_COPROCESSOR : Z := 34304.

Inductive mux_protocol :=
  | MUX_PROTO_VERSION | MUX_PROTO_CONTROL | MUX_PROTO_SETUP | MUX_PROTO_TCP.

#[export] Instance mux_protocol_eq_dec : EqDecision mux_protocol.
Proof. solve_decision. Defined.

Definition proto_num (p : mux_protocol) : Z :=
  match p with
  | MUX_PROTO_VERSION => 0
  | MUX_PROTO_CONTROL => 1
  | MUX_PROTO_SETUP => 2
  | MUX_PROTO_TCP => IPPROTO_TCP
  end.

(** ** struct mux_header *)

Record mux_header := {
  mh_protocol : Z;
  mh_length : Z;
  mh_magic : Z;
  mh_tx_seq : Z;
  mh_rx_seq : Z;
}.

Definition sizeof_mux_header : Z := 16.

(** [(dev->version < 2) ? 8 : sizeof(struct mux_header)] *)
Definition mux_header_size (version : Z) : Z :=
  if version <? 2 then 8 else sizeof_mux_header.

(** The header as it is laid out in an outgoing packet: a version 1 device
    gets the first two words only. *)
Definition mux_header_bytes (version : Z) (h : mux_header) : list Z :=
  be_bytes 4 (mh_protocol h) ++ be_bytes 4 (mh_length h) ++
  if version <? 2 then [] else
    be_bytes 4 (mh_magic h) ++ be_bytes 2 (mh_tx_seq h) ++ be_bytes 2 (mh_rx_seq h).

(** Reading [ntohl(mhdr->f)] from a buffer that a [struct mux_header *]
    points to. *)
Definition get_be (off n : Z) (buf : list Z) : Z := be_val (slice off n buf).
Definition get_le (off n : Z) (buf : list Z) : Z := le_val (slice off n buf).

Definition mhdr_protocol (buf : list Z) : Z := get_be 0 4 buf.
Definition mhdr_length (buf : list Z) : Z := get_be 4 4 buf.
Definition mhdr_magic (buf : list Z) : Z := get_be 8 4 buf.
Definition mhdr_tx_seq (buf : list Z) : Z := get_be 12 2 buf.
Definition mhdr_rx_seq (buf : list Z) : Z := get_be 14 2 buf.

(** ** struct version_header *)

Definition sizeof_version_header : Z := 12.

Definition version_header_bytes (major minor : Z) : list Z :=
  be_bytes 4 major ++ be_bytes 4 minor ++ be_bytes 4 0.

(** ** struct tcphdr *)

Record tcphdr := {
  th_sport : Z;
  th_dport : Z;
  th_seq : Z;
  th_ack : Z;
  th_off : Z;
  th_flags : Z;
  th_win : Z;
}.

Definition sizeof_tcphdr : Z := 20.

(** [th_off] is the high half of its byte; the checksum and the urgent
    pointer stay 0 from the [memset]. *)
Definition tcphdr_bytes (th : tcphdr) : list Z :=
  be_bytes 2 (th_sport th) ++ be_bytes 2 (th_dport th) ++
  be_bytes 4 (th_seq th) ++ be_bytes 4 (th_ack th) ++
  be_bytes 1 (Z.shiftl (th_off th) 4) ++ be_bytes 1 (th_flags th) ++
  be_bytes 2 (th_win th) ++ be_bytes 2 0 ++ be_bytes 2 0.

Definition tcphdr_parse (buf : list Z) : tcphdr := {|
  th_sport := get_be 0 2 buf;
  th_dport := get_be 2 2 buf;
  th_seq := get_be 4 4 buf;
  th_ack := get_be 8 4 buf;
  th_off := Z.shiftr (get_be 12 1 buf) 4;
  th_flags := get_be 13 1 buf;
  th_win := get_be 14 2 buf;
|}.

(** ** usbmuxd-proto.h *)

Inductive usbmuxd_result :=
  | RESULT_OK | RESULT_BADCOMMAND | RESULT_BADDEV | RESULT_CONNREFUSED | RESULT_BADVERSION.

Definition result_num (r : usbmuxd_result) : Z :=
  match r with
  | RESULT_OK => 0
  | RESULT_BADCOMMAND => 1
  | RESULT_BADDEV => 2
  | RESULT_CONNREFUSED => 3
  | RESULT_BADVERSION => 6
  end.

Definition MESSAGE_RESULT : Z := 1.
Definition MESSAGE_CONNECT : Z := 2.
Definition MESSAGE_LISTEN : Z := 3.
Definition MESSAGE_DEVICE_ADD : Z := 4.
Definition MESSAGE_DEVICE_REMOVE : Z := 5.
Definition MESSAGE_DEVICE_PAIRED : Z := 6.
Definition MESSAGE_PLIST : Z := 8.

Record usbmuxd_header := {
  hdr_length : Z;
  hdr_version : Z;
  hdr_message : Z;
  hdr_tag : Z;
}.

Definition sizeof_usbmuxd_header : Z := 16.

Definition usbmuxd_header_bytes (h : usbmuxd_header) : list Z :=
  le_bytes 4 (hdr_length h) ++ le_bytes 4 (hdr_version h) ++
  le_bytes 4 (hdr_message h) ++ le_bytes 4 (hdr_tag h).

Definition usbmuxd_header_parse (buf : list Z) : usbmuxd_header := {|
  hdr_length := get_le 0 4 buf;
  hdr_version := get_le 4 4 buf;
  hdr_message := get_le 8 4 buf;
  hdr_tag := get_le 12 4 buf;
|}.

(** The fields of [struct usbmuxd_connect_request] after its header; the port
    is in network byte order, so [ntohs(ch->port)] is the big-endian value. *)
Definition connect_device_id (buf : list Z) : Z := get_le 16 4 buf.
Definition connect_port (buf : list Z) : Z := get_be 20 2 buf.

(** [struct usbmuxd_device_record], packed: 268 bytes. *)
Definition sizeof_device_record : Z := 268.

Definition bytes_of_string (s : string) : list Z :=
  (fun c => Z.of_N (Ascii.N_of_ascii c)) <$> String.list_ascii_of_string s.

(** [strncpy(dst, s, 256)] into a zeroed array, then [dst[255] = 0]. *)
Definition serial_field (s : string) : list Z :=
  let b := ztake 255 (bytes_of_string s) in
  b ++ replicate (256 - length b) 0.

Definition device_record_bytes (id pid : Z) (serial : string) (location : Z) : list Z :=
  le_bytes 4 id ++ le_bytes 2 pid ++ serial_field serial ++ le_bytes 2 0 ++
  le_bytes 4 location.

(** ** Reading back what was written *)

Lemma slice_skip l k off n :
  0 <= n -> zlen l <= off -> slice off n (l ++ k) = slice (off - zlen l) n k.
Proof.
  intros Hn H. unfold slice, zdrop, zlen in *. rewrite drop_app_ge by lia.
  f_equal. f_equal. lia.
Qed.

Lemma slice_here l k n : n = zlen l -> slice 0 n (l ++ k) = l.
Proof. intros ->. unfold slice, zdrop. simpl. by apply ztake_app_exact. Qed.

Lemma slice_all l n : n = zlen l -> slice 0 n l = l.
Proof. intros ->. unfold slice, zdrop. simpl. apply ztake_all. lia. Qed.

(** Walks over the fields before the one that is read. *)
Ltac field_read :=
  cbv [mhdr_protocol mhdr_length mhdr_magic mhdr_tx_seq mhdr_rx_seq get_be get_le];
  rewrite <- ?app_assoc;
  repeat (rewrite slice_skip by (rewrite ?zlen_be, ?zlen_le; lia));
  rewrite ?zlen_be, ?zlen_le;
  repeat match goal with
    | |- context [slice ?o _ _] =>
      progress (let o' := eval compute in o in change o with o')
    end;
  rewrite ?slice_here, ?slice_all by (by rewrite ?zlen_be, ?zlen_le).

Lemma zlen_mux_header_bytes v h : zlen (mux_header_bytes v h) = mux_header_size v.
Proof.
  unfold mux_header_bytes, mux_header_size. destruct (v <? 2).
  all: by rewrite !zlen_app, ?zlen_be.
Qed.

Lemma mhdr_protocol_bytes v h k : mhdr_protocol (mux_header_bytes v h ++ k) = u32 (mh_protocol h).
Proof. unfold mux_header_bytes. field_read. apply be32_val. Qed.

Lemma mhdr_length_bytes v h k : mhdr_length (mux_header_bytes v h ++ k) = u32 (mh_length h).
Proof. unfold mux_header_bytes. field_read. apply be32_val. Qed.

Lemma mhdr_rx_seq_bytes v h k :
  2 <= v -> mhdr_rx_seq (mux_header_bytes v h ++ k) = u16 (mh_rx_seq h).
Proof.
  intros Hv. unfold mux_header_bytes. rewrite (proj2 (Z.ltb_ge _ _)) by lia.
  field_read. apply be16_val.
Qed.

Lemma mhdr_tx_seq_bytes v h k :
  2 <= v -> mhdr_tx_seq (mux_header_bytes v h ++ k) = u16 (mh_tx_seq h).
Proof.
  intros Hv. unfold mux_header_bytes. rewrite (proj2 (Z.ltb_ge _ _)) by lia.
  field_read. apply be16_val.
Qed.

Lemma zlen_tcphdr_bytes th : zlen (tcphdr_bytes th) = sizeof_tcphdr.
Proof. unfold tcphdr_bytes. by rewrite !zlen_app, !zlen_be. Qed.

Lemma zlen_usbmuxd_header_bytes h : zlen (usbmuxd_header_bytes h) = sizeof_usbmuxd_header.
Proof. unfold usbmuxd_header_bytes. by rewrite !zlen_app, !zlen_le. Qed.

Lemma zlen_device_record_bytes id pid s loc :
  zlen (device_record_bytes id pid s loc) = sizeof_device_record.
Proof.
  unfold device_record_bytes, serial_field. rewrite !zlen_app, !zlen_le, zlen_replicate.
  unfold zlen, ztake. rewrite length_take. change (Z.to_nat 255) with 255%nat.
  unfold sizeof_device_record. lia.
Qed.

(** ** Round trips *)

(** The fields of a TCP header fit their widths. *)
Definition tcphdr_ok (th : tcphdr) : Prop :=
  0 <= th_sport th < 2 ^ 16 /\ 0 <= th_dport th < 2 ^ 16 /\
  0 <= th_seq th < 2 ^ 32 /\ 0 <= th_ack th < 2 ^ 32 /\
  0 <= th_off th < 16 /\ 0 <= th_flags th < 256 /\ 0 <= th_win th < 2 ^ 16.

Definition usbmuxd_header_ok (h : usbmuxd_header) : Prop :=
  0 <= hdr_length h < 2 ^ 32 /\ 0 <= hdr_version h < 2 ^ 32 /\
  0 <= hdr_message h < 2 ^ 32 /\ 0 <= hdr_tag h < 2 ^ 32.

Lemma be8_val x : be_val (be_bytes 1 x) = u8 x.
Proof. apply (be_val_bytes 1). Qed.

Lemma shift4_roundtrip x : 0 <= x < 16 -> Z.shiftr (u8 (Z.shiftl x 4)) 4 = x.
Proof.
  intros H. unfold u8. rewrite Z.shiftl_mul_pow2, Z.shiftr_div_pow2 by lia.
  rewrite Z.mod_small by lia. apply Z.div_mul. lia.
Qed.

Lemma tcphdr_ext a b :
  th_sport a = th_sport b -> th_dport a = th_dport b -> th_seq a = th_seq b ->
  th_ack a = th_ack b -> th_off a = th_off b -> th_flags a = th_flags b ->
  th_win a = th_win b -> a = b.
Proof. destruct a, b; simpl; by intros -> -> -> -> -> -> ->. Qed.

Lemma usbmuxd_header_ext a b :
  hdr_length a = hdr_length b -> hdr_version a = hdr_version b ->
  hdr_message a = hdr_message b -> hdr_tag a = hdr_tag b -> a = b.
Proof. destruct a, b; simpl; by intros -> -> -> ->. Qed.

(** Whatever follows a TCP header in a packet, the header reads back. *)
Lemma tcphdr_parse_bytes th k : tcphdr_ok th -> tcphdr_parse (tcphdr_bytes th ++ k) = th.
Proof.
  intros (? & ? & ? & ? & ? & ? & ?). unfold tcphdr_bytes.
  apply tcphdr_ext; unfold tcphdr_parse;
    cbn [th_sport th_dport th_seq th_ack th_off th_flags th_win]; field_read;
    rewrite ?be16_val, ?be32_val, ?be8_val, ?shift4_roundtrip, ?u16_small, ?u32_small by lia;
    try done; by apply Z.mod_small.
Qed.

Lemma usbmuxd_header_parse_bytes h k :
  usbmuxd_header_ok h -> usbmuxd_header_parse (usbmuxd_header_bytes h ++ k) = h.
Proof.
  intros (? & ? & ? & ?). unfold usbmuxd_header_bytes.
  apply usbmuxd_header_ext; unfold usbmuxd_header_parse;
    cbn [hdr_length hdr_version hdr_message hdr_tag]; field_read; by rewrite le32_val, u32_small.
Qed.
