(* ===== verification/UsbSetup.v ===== *)
(** * UsbSetup: recognizing and configuring a USB device (usb.c)

    The decisions usb.c takes when a device appears: whether it is supported,
    which mode it is in, which configuration, interface and endpoints to use,
    its serial number, speed and packet size, and when to poll for devices
    again. The descriptors and the results of libusb calls are arguments. *)

From stdpp Require Import base list.
From Stdlib Require Import ZArith Lia.
From S2P Require Import Prelude Platform.

Local Open Scope Z_scope.

Module UsbSetup.

Definition INTERFACE_CLASS : Z := 255.
Definition INTERFACE_SUBCLASS : Z := 254.
Definition INTERFACE_PROTOCOL : Z := 2.
Definition VID_APPLE : Z := 1452.             (* 0x5ac *)
Definition PID_RANGE_LOW : Z := 4752.         (* 0x1290 *)
Definition PID_RANGE_MAX : Z := 4783.         (* 0x12af *)
Definition PID_APPLE_T2_COPROCESSOR : Z := 34304.   (* 0x8600 *)
Definition PID_APPLE_SILICON_RESTORE_LOW : Z := 6401.       (* 0x1901 *)
Definition PID_APPLE_SILICON_RESTORE_MAX : Z := 6405.       (* 0x1905 *)
Definition DEVICE_POLL_TIME : Z := 1000.

(** [altsetting[0]] of an interface. *)
Record interface_descriptor := mk_intf {
  bInterfaceNumber : Z;
  bInterfaceClass : Z;
  bInterfaceSubClass : Z;
  bInterfaceProtocol : Z;
  bNumEndpoints : Z;
  bEndpointAddress : list Z;   (** of [endpoint[0]], [endpoint[1]], ... *)
}.

Record config_descriptor := mk_config {
  bConfigurationValue : Z;
  interfaces : list interface_descriptor;
}.

(** ** Which devices are handled *)

(** The checks of [usb_device_add] on a new device. *)
Definition supported (idVendor idProduct : Z) : bool :=
  if negb (idVendor =? VID_APPLE) then false
  else if negb (idProduct =? PID_APPLE_T2_COPROCESSOR) &&
          ((idProduct <? PID_APPLE_SILICON_RESTORE_LOW) || (PID_APPLE_SILICON_RESTORE_MAX <? idProduct)) &&
          ((idProduct <? PID_RANGE_LOW) || (PID_RANGE_MAX <? idProduct)) then false
  else true.

(** ** The mode of a device *)

Definition is_valeria (i : interface_descriptor) : bool :=
  (bInterfaceClass i =? INTERFACE_CLASS) && (bInterfaceSubClass i =? 42) &&
  (bInterfaceProtocol i =? 255).
Definition is_cdc_ncm (i : interface_descriptor) : bool :=
  (bInterfaceClass i =? 2) && (bInterfaceSubClass i =? 13).
Definition is_usbmux (i : interface_descriptor) : bool :=
  (bInterfaceClass i =? INTERFACE_CLASS) && (bInterfaceSubClass i =? INTERFACE_SUBCLASS) &&
  (bInterfaceProtocol i =? INTERFACE_PROTOCOL).

(** The loop over the interfaces, with its three flags. *)
Fixpoint mode_flags (l : list interface_descriptor) (has_valeria has_cdc_ncm has_usbmux : bool) :
    bool * bool * bool :=
  match l with
  | [] => (has_valeria, has_cdc_ncm, has_usbmux)
  | i :: rest =>
    mode_flags rest (if is_valeria i then true else has_valeria)
      (if is_cdc_ncm i then true else has_cdc_ncm) (if is_usbmux i then true else has_usbmux)
  end.

(** [get_config n] is the descriptor with value [n], when libusb can read it. *)
Definition guess_mode (bNumConfigurations : Z) (get_config : Z -> option config_descriptor) : Z :=
  if bNumConfigurations =? 1 then 5
  else if bNumConfigurations <=? 4 then 1
  else if bNumConfigurations =? 6 then 4
  else if negb (bNumConfigurations =? 5) then 0
  else
    match get_config 5 with
    | None => 0
    | Some config =>
      let '(has_valeria, has_cdc_ncm, has_usbmux) := mode_flags (interfaces config) false false false in
      if has_valeria && has_usbmux then 2
      else if has_cdc_ncm && has_usbmux then 3
      else 0
    end.

(** The condition of [get_mode_cb] for switching to another mode. *)
Definition switch_wanted (desired_mode guessed_mode : Z) : bool :=
  (1 <=? desired_mode) && (desired_mode <=? 5) && (0 <? guessed_mode) &&
  negb (guessed_mode =? desired_mode).

(** ** Configuration, interface and endpoints *)

(** The fields of [struct usb_device] that are set. *)
Record endpoints := mk_endpoints {
  ue_interface : Z;
  ue_ep_out : Z;
  ue_ep_in : Z;
}.

(** The test on an interface, as it is written. *)
Definition intf_selected (i : interface_descriptor) : bool :=
  (bInterfaceClass i =? INTERFACE_CLASS) || (bInterfaceSubClass i =? INTERFACE_SUBCLASS) ||
  (bInterfaceProtocol i =? INTERFACE_PROTOCOL).

Definition ep_is_out (a : Z) : bool := Z.land a 128 =? 0.
Definition ep_is_in (a : Z) : bool := Z.land a 128 =? 128.

(** The endpoints of an interface, when there are two of opposite direction. *)
Definition intf_endpoints (i : interface_descriptor) : option endpoints :=
  if intf_selected i then
    if negb (bNumEndpoints i =? 2) then None
    else
      match bEndpointAddress i with
      | e0 :: e1 :: _ =>
        if ep_is_out e0 && ep_is_in e1 then Some (mk_endpoints (bInterfaceNumber i) e0 e1)
        else if ep_is_out e1 && ep_is_in e0 then Some (mk_endpoints (bInterfaceNumber i) e1 e0)
        else None
      | _ => None  (* never: libusb fills [bNumEndpoints] entries *)
      end
  else None.

Fixpoint find_interface (l : list interface_descriptor) : option endpoints :=
  match l with
  | [] => None
  | i :: rest =>
    match intf_endpoints i with
    | Some e => Some e
    | None => find_interface rest
    end
  end.

(** What is asked of libusb. *)
Inductive usb_op :=
  | OpDetachKernelDriver (interface : Z)
  | OpSetConfiguration (value : Z).

Section configuration.
Variable get_config : Z -> option config_descriptor.
(** results of [libusb_kernel_driver_active] and [libusb_set_configuration],
    after the operations that were requested before *)
Variable kernel_driver_active : list usb_op -> Z -> Z.
Variable set_configuration : list usb_op -> Z -> Z.

(** The kernel drivers that are detached before the configuration changes; a
    failure is only logged. *)
Fixpoint detach_drivers (l : list interface_descriptor) (ops : list usb_op) : list usb_op :=
  match l with
  | [] => ops
  | i :: rest =>
    if kernel_driver_active ops (bInterfaceNumber i) =? 1 then
      detach_drivers rest (ops ++ [OpDetachKernelDriver (bInterfaceNumber i)])
    else detach_drivers rest ops
  end.

(** The loop over the configurations, from [j] down to 1. The selection and the
    flag [found] live outside of the loop. *)
Fixpoint config_loop (j : nat) (current_config : Z) (found : option endpoints) (ops : list usb_op) :
    option endpoints * list usb_op :=
  match j with
  | O => (found, ops)
  | S j' =>
    match get_config (Z.of_nat j) with
    | None => config_loop j' current_config found ops
    | Some config =>
      let found := match find_interface (interfaces config) with Some e => Some e | None => found end in
      match found with
      | None => config_loop j' current_config found ops
      | Some e =>
        if (current_config =? 0) || negb (bConfigurationValue config =? current_config) then
          let ops := detach_drivers (interfaces config) ops in
          let ops' := ops ++ [OpSetConfiguration (Z.of_nat j)] in
          if negb (set_configuration ops (Z.of_nat j) =? 0) then
            config_loop j' current_config found ops'
          else (found, ops')
        else (found, ops)
      end
    end
  end.

(** The result and, when it is 0, what was selected; and the operations.
    [current] is the result of [libusb_get_configuration]. *)
Definition set_valid_configuration (bNumConfigurations : Z) (current : option Z) :
    option endpoints * list usb_op :=
  match current with
  | None => (None, [])
  | Some current_config => config_loop (Z.to_nat bNumConfigurations) current_config None []
  end.

End configuration.

(** ** Attributes *)

(** [wMaxPacketSize] from the answer of [libusb_get_max_packet_size] *)
Definition max_packet_size (answer : Z) : Z := if answer <=? 0 then 64 else answer.

Inductive libusb_speed :=
  | SPEED_UNKNOWN | SPEED_LOW | SPEED_FULL | SPEED_HIGH | SPEED_SUPER | SPEED_SUPER_PLUS.

Definition speed_of (s : libusb_speed) : Z :=
  match s with
  | SPEED_LOW => 1500000
  | SPEED_FULL => 12000000
  | SPEED_SUPER => 5000000000
  | SPEED_SUPER_PLUS => 10000000000
  | SPEED_HIGH | SPEED_UNKNOWN => 480000000
  end.

(** ** The serial number *)

Definition sizeof_serial : Z := 256.

(** The loop that turns the string descriptor into ASCII: [rest] are the bytes
    from [data[si]] on. [None]: the data buffer ends before the loop. *)
Fixpoint deunicode (rest : list Z) (si di len : Z) : option (list Z) :=
  if (si <? len) && (di <? sizeof_serial - 1) then
    match rest with
    | lo :: hi :: rest' =>
      if flag_set lo 128 || negb (hi =? 0) then cons 63 <$> deunicode rest' (si + 2) (di + 1) len
      else if lo =? 0 then Some []
      else cons lo <$> deunicode rest' (si + 2) (di + 1) len
    | _ => None  (* never: the buffer has 1024 bytes *)
    end
  else Some [].

(** A new style serial number gets a hyphen after 8 of its 24 digits. *)
Definition hyphenated (serial : list Z) : list Z :=
  if zlen serial =? 24 then ztake 8 serial ++ [45] ++ ztake 16 (zdrop 8 serial) else serial.

Definition serial_of_descriptor (data : list Z) : option (list Z) :=
  match data with
  | len :: _ :: rest => hyphenated <$> deunicode rest 2 0 len
  | _ => None
  end.

(** ** Polling for devices *)

(** [next_dev_poll_time] after a scan at the time [tv] (seconds and
    microseconds). *)
Definition next_poll_time (tv : Z * Z) : Z * Z :=
  let usec := snd tv + DEVICE_POLL_TIME * 1000 in
  (fst tv + Z.quot usec 1000000, Z.rem usec 1000000).

Definition dev_poll_remain_ms (device_polling : bool) (next now : Z * Z) : Z :=
  if negb device_polling then 100000
  else
    let msecs := s32 ((fst next - fst now) * 1000) in
    let msecs := s32 (msecs + Z.quot (snd next - snd now) 1000) in
    if msecs <? 0 then 0 else msecs.

(** [libusb_get_next_timeout]: an error, no timeout, or a timeout. *)
Inductive next_timeout := NtError | NtNone | NtSome (sec usec : Z).

Definition usb_get_timeout (pollrem : Z) (nt : next_timeout) : Z :=
  match nt with
  | NtError | NtNone => pollrem
  | NtSome sec usec =>
    let msec := s32 (sec * 1000) in
    let msec := s32 (msec + Z.quot usec 1000) in
    if pollrem <? msec then pollrem else msec
  end.

End UsbSetup.
Export UsbSetup.
