(* ===== verification/World.v ===== *)
(** * World: the objects of the daemon and the state its functions share

    [struct mux_connection] and [struct mux_device] of device.c, [struct
    mux_client] of client.c, [struct usb_device] of usb.c, the collections
    and counters that are global variables of these files, the mutexes, and
    the history of what the process did to the outside world. Heap objects
    live in one finite map per type; an access through a pointer that is not
    in its map is undefined behaviour. Pointers are never handed out twice. *)

From stdpp Require Import base gmap list strings.
From Stdlib Require Import ZArith Lia.
From S2P Require Import Prelude Platform Wire.

Local Open Scope Z_scope.

Inductive client_state :=
  | CLIENT_COMMAND      (** waiting for command *)
  | CLIENT_LISTEN       (** listening for devices *)
  | CLIENT_CONNECTING1  (** issued connection request *)
  | CLIENT_CONNECTING2  (** established, the response is being sent *)
  | CLIENT_CONNECTED    (** connected *)
  | CLIENT_DEAD.

Inductive mux_dev_state :=
  | MUXDEV_INIT    (** sent version packet *)
  | MUXDEV_ACTIVE  (** received version packet, active *)
  | MUXDEV_DEAD.   (** dead *)

Inductive mux_conn_state :=
  | CONN_CONNECTING  (** SYN *)
  | CONN_CONNECTED   (** SYN/SYNACK/ACK -> active *)
  | CONN_REFUSED     (** RST received during SYN *)
  | CONN_DYING       (** RST received *)
  | CONN_DEAD.       (** being freed *)

#[export] Instance client_state_eq_dec : EqDecision client_state.
Proof. solve_decision. Defined.
#[export] Instance mux_dev_state_eq_dec : EqDecision mux_dev_state.
Proof. solve_decision. Defined.
#[export] Instance mux_conn_state_eq_dec : EqDecision mux_conn_state.
Proof. solve_decision. Defined.

Section objects.
Context `{E : Env}.

(** [struct mux_client]. A buffer is the list of all its [capacity] bytes;
    [None] is the null pointer. *)
Record mux_client := mk_client {
  cl_fd : Z;
  cl_ob_buf : option (list Z);
  cl_ob_size : Z;
  cl_ob_capacity : Z;
  cl_ib_buf : option (list Z);
  cl_ib_size : Z;
  cl_ib_capacity : Z;
  cl_events : Z;
  cl_devents : Z;
  cl_connect_tag : Z;
  cl_connect_device : Z;
  cl_state : client_state;
  cl_proto_version : Z;
  cl_number : Z;
  cl_info : option plist_t;
}.

(** [struct mux_connection] *)
Record mux_connection := mk_conn {
  cn_dev : ptr;
  cn_client : option ptr;
  cn_state : mux_conn_state;
  cn_sport : Z;
  cn_dport : Z;
  cn_tx_seq : Z;
  cn_tx_ack : Z;
  cn_tx_acked : Z;
  cn_tx_win : Z;
  cn_rx_seq : Z;
  cn_rx_recvd : Z;
  cn_rx_ack : Z;
  cn_rx_win : Z;
  cn_max_payload : Z;
  cn_sendable : Z;
  cn_flags : Z;
  cn_ib_buf : list Z;
  cn_ib_size : Z;
  cn_ib_capacity : Z;
  cn_ob_buf : list Z;
  cn_ob_capacity : Z;
  cn_events : Z;
  cn_last_ack_time : Z;
}.

(** [struct mux_device]. [dv_connections = None] until [collection_init] is
    called on it, and again after [collection_free]. *)
Record mux_device := mk_dev {
  dv_usbdev : ptr;
  dv_id : Z;
  dv_state : mux_dev_state;
  dv_visible : Z;
  dv_connections : option coll;
  dv_next_sport : Z;
  dv_pktbuf : list Z;
  dv_pktlen : Z;
  dv_preflight_cb_data : option ptr;
  dv_version : Z;
  dv_rx_seq : Z;
  dv_tx_seq : Z;
}.

(** [struct usb_device]; of the device descriptor, the fields that are used. *)
Record usb_device := mk_usb {
  ud_handle : bool;  (** [handle] is not null *)
  ud_bus : Z;
  ud_address : Z;
  ud_serial : string;
  ud_alive : Z;
  ud_rx_xfers : coll;
  ud_tx_xfers : coll;
  ud_wMaxPacketSize : Z;
  ud_speed : Z;
  ud_idProduct : Z;
  ud_interface : Z;
  ud_ep_in : Z;
  ud_ep_out : Z;
  ud_bNumConfigurations : Z;
  ud_iSerialNumber : Z;
}.

(** [struct mode_context] of usb.c; [mc_dev] is the [libusb_device]. *)
Record mode_context := mk_mode_context {
  mc_dev : ptr;
  mc_bus : Z;
  mc_address : Z;
  mc_bRequest : Z;
  mc_wValue : Z;
  mc_wIndex : Z;
  mc_wLength : Z;
  mc_timeout : Z;
}.

(** The callbacks of usb.c. *)
Inductive xfer_callback :=
  | CB_TX | CB_RX | CB_GET_MODE | CB_SWITCH_MODE | CB_LANGID | CB_SERIAL.

(** [struct libusb_transfer]. *)
Record libusb_transfer := mk_xfer {
  xf_user_data : ptr;  (** the usb_device, or the mode_context *)
  xf_buffer : ptr;
  xf_length : Z;
  xf_callback : xfer_callback;
  xf_flags : Z;
}.

(** [struct cb_data] of preflight.c. *)
Record cb_data := mk_cb {
  cb_np : bool;  (** [np] is not null *)
  cb_is_device_connected : Z;
  cb_is_finished : Z;
}.

(** [struct device_info] of device.h. *)
Record device_info := mk_info {
  di_id : Z;
  di_serial : option string;
  di_location : Z;
  di_pid : Z;
  di_speed : Z;
}.

Record world := mk_world {
  w_clients : gmap ptr mux_client;
  w_conns : gmap ptr mux_connection;
  w_devs : gmap ptr mux_device;
  w_usbdevs : gmap ptr usb_device;
  w_xfers : gmap ptr libusb_transfer;
  w_bufs : gmap ptr (list Z);  (** buffers handed to libusb *)
  w_ctxs : gmap ptr mode_context;
  w_cbs : gmap ptr cb_data;
  w_next : ptr;                (** next pointer [malloc] returns *)
  client_list : coll;
  client_number : Z;
  device_list : coll;
  next_device_id : Z;
  usb_device_list : coll;
  next_dev_poll_time : Z * Z;  (** seconds and microseconds *)
  devlist_failures : Z;
  device_polling : Z;
  device_hotplug : Z;
  w_locked : list mutex;       (** mutexes the thread holds *)
  no_preflight : Z;
  w_fs : fs;
  config_dir : option string;
  w_trace : list event;        (** newest first *)
}.

#[export] Instance eta_client : Eta mux_client := fun r =>
  mk_client (cl_fd r) (cl_ob_buf r) (cl_ob_size r) (cl_ob_capacity r)
    (cl_ib_buf r) (cl_ib_size r) (cl_ib_capacity r) (cl_events r) (cl_devents r)
    (cl_connect_tag r) (cl_connect_device r) (cl_state r) (cl_proto_version r)
    (cl_number r) (cl_info r).
#[export] Instance eta_conn : Eta mux_connection := fun r =>
  mk_conn (cn_dev r) (cn_client r) (cn_state r) (cn_sport r) (cn_dport r)
    (cn_tx_seq r) (cn_tx_ack r) (cn_tx_acked r) (cn_tx_win r)
    (cn_rx_seq r) (cn_rx_recvd r) (cn_rx_ack r) (cn_rx_win r)
    (cn_max_payload r) (cn_sendable r) (cn_flags r)
    (cn_ib_buf r) (cn_ib_size r) (cn_ib_capacity r) (cn_ob_buf r) (cn_ob_capacity r)
    (cn_events r) (cn_last_ack_time r).
#[export] Instance eta_dev : Eta mux_device := fun r =>
  mk_dev (dv_usbdev r) (dv_id r) (dv_state r) (dv_visible r) (dv_connections r)
    (dv_next_sport r) (dv_pktbuf r) (dv_pktlen r) (dv_preflight_cb_data r)
    (dv_version r) (dv_rx_seq r) (dv_tx_seq r).
#[export] Instance eta_usb : Eta usb_device := fun r =>
  mk_usb (ud_handle r) (ud_bus r) (ud_address r) (ud_serial r) (ud_alive r)
    (ud_rx_xfers r) (ud_tx_xfers r) (ud_wMaxPacketSize r) (ud_speed r) (ud_idProduct r)
    (ud_interface r) (ud_ep_in r) (ud_ep_out r) (ud_bNumConfigurations r) (ud_iSerialNumber r).
#[export] Instance eta_mode_context : Eta mode_context := fun r =>
  mk_mode_context (mc_dev r) (mc_bus r) (mc_address r) (mc_bRequest r) (mc_wValue r)
    (mc_wIndex r) (mc_wLength r) (mc_timeout r).
#[export] Instance eta_xfer : Eta libusb_transfer := fun r =>
  mk_xfer (xf_user_data r) (xf_buffer r) (xf_length r) (xf_callback r) (xf_flags r).
#[export] Instance eta_cb : Eta cb_data := fun r =>
  mk_cb (cb_np r) (cb_is_device_connected r) (cb_is_finished r).
#[export] Instance eta_world : Eta world := fun r =>
  mk_world (w_clients r) (w_conns r) (w_devs r) (w_usbdevs r) (w_xfers r) (w_bufs r)
    (w_ctxs r) (w_cbs r) (w_next r) (client_list r) (client_number r) (device_list r)
    (next_device_id r) (usb_device_list r) (next_dev_poll_time r) (devlist_failures r)
    (device_polling r) (device_hotplug r) (w_locked r) (no_preflight r) (w_fs r)
    (config_dir r) (w_trace r).

(** ** Access to heap objects *)

Definition load {A} (h : world -> gmap ptr A) (p : ptr) : C world A := fun w =>
  match h w !! p with Some a => Ok a w | None => Undef UseAfterFree end.

Definition update {A} (h : world -> gmap ptr A) `{!Setter h} (p : ptr) (f : A -> A) :
    C world unit := fun w =>
  match h w !! p with
  | Some a => Ok tt (set h <[p := f a]> w)
  | None => Undef UseAfterFree
  end.

Definition malloc {A} (h : world -> gmap ptr A) `{!Setter h} (a : A) : C world ptr := fun w =>
  let p := w_next w in
  Ok p ((set h <[p := a]> w) <| w_next := Pos.succ p |>).

Definition free {A} (h : world -> gmap ptr A) `{!Setter h} (p : ptr) : C world unit := fun w =>
  match h w !! p with
  | Some _ => Ok tt (set h (delete p) w)
  | None => Undef DoubleFree
  end.

(** ** Mutexes and events *)

Definition mutex_lock (m : mutex) : C world unit := fun w =>
  if decide (m ∈ w_locked w) then Undef SelfDeadlock
  else Ok tt (w <| w_locked ::= cons m |> <| w_trace ::= cons (EvLock m) |>).

Definition mutex_unlock (m : mutex) : C world unit :=
  modify (fun w => w <| w_locked ::= filter (fun m' => m' <> m) |>
                     <| w_trace ::= cons (EvUnlock m) |>).

Definition emit (e : event) : C world unit := modify (fun w => w <| w_trace ::= cons e |>).

(** ** FOREACH

    The macro visits the elements of a collection; the collection is read
    again before every step, so that elements removed by an earlier step are
    not visited and a collection that went away is noticed. The body returns
    [Some a] to leave the loop with [a] ([break] and [return]). *)

Fixpoint foreach_from {A} (col : C world coll) (ps : list ptr)
    (body : ptr -> C world (option A)) : C world (option A) :=
  match ps with
  | [] => mret None
  | p :: ps' =>
    c ← col;
    if decide (p ∈ coll_elems c) then
      r ← body p;
      match r with
      | Some a => mret (Some a)
      | None => foreach_from col ps' body
      end
    else foreach_from col ps' body
  end.

Definition foreach {A} (col : C world coll) (body : ptr -> C world (option A)) :
    C world (option A) :=
  c ← col; foreach_from col (coll_elems c) body.

(** A loop body without [break]. *)
Definition each (body : ptr -> C world unit) (p : ptr) : C world (option unit) :=
  body p ;; mret None.

End objects.

Arguments mux_client {E}.
Arguments mux_connection : clear implicits.
Arguments mux_device {E}.
Arguments usb_device {E}.
Arguments world {E}.

Abbreviation get_client := (load w_clients).
Abbreviation upd_client := (update w_clients).
Abbreviation get_conn := (load w_conns).
Abbreviation upd_conn := (update w_conns).
Abbreviation get_dev := (load w_devs).
Abbreviation upd_dev := (update w_devs).
Abbreviation get_usb := (load w_usbdevs).
Abbreviation upd_usb := (update w_usbdevs).

(** ** Rules for the primitives *)

Section rules.
Context `{E : Env}.

Lemma wp_load {A} (h : world -> gmap ptr A) p a (Q : A -> world -> Prop) w :
  h w !! p = Some a -> Q a w -> wp (load h p) Q w.
Proof. intros H. unfold wp, load. by rewrite H. Qed.

Lemma wp_update {A} (h : world -> gmap ptr A) `{!Setter h} p f a (Q : unit -> world -> Prop) w :
  h w !! p = Some a -> Q tt (set h <[p := f a]> w) -> wp (update h p f) Q w.
Proof. intros H. unfold wp, update. by rewrite H. Qed.

Lemma wp_malloc {A} (h : world -> gmap ptr A) `{!Setter h} a (Q : ptr -> world -> Prop) w :
  Q (w_next w) ((set h <[w_next w := a]> w) <| w_next := Pos.succ (w_next w) |>) ->
  wp (malloc h a) Q w.
Proof. done. Qed.

Lemma wp_free {A} (h : world -> gmap ptr A) `{!Setter h} p a (Q : unit -> world -> Prop) w :
  h w !! p = Some a -> Q tt (set h (delete p) w) -> wp (free h p) Q w.
Proof. intros H. unfold wp, free. by rewrite H. Qed.

Lemma wp_mutex_lock m (Q : unit -> world -> Prop) w :
  m ∉ w_locked w ->
  Q tt (w <| w_locked ::= cons m |> <| w_trace ::= cons (EvLock m) |>) ->
  wp (mutex_lock m) Q w.
Proof. intros H HQ. unfold wp, mutex_lock. by rewrite decide_False. Qed.

(** Unlocking a mutex that was locked restores the set of held mutexes. *)
Lemma filter_unlock (m : mutex) (l : list mutex) :
  m ∉ l -> filter (fun m' => m' <> m) (m :: l) = l.
Proof.
  intros Hm. rewrite filter_cons_False by (by intros []). induction l as [|k l IH]; [done|].
  apply not_elem_of_cons in Hm as [Hne Hm]. rewrite filter_cons_True by done. by rewrite IH.
Qed.

Lemma wlp_load {A} (h : world -> gmap ptr A) p (Q : A -> world -> Prop) w :
  (forall a, h w !! p = Some a -> Q a w) -> wlp (load h p) Q w.
Proof. intros H. unfold wlp, load. destruct (h w !! p) eqn:?; auto. Qed.

Lemma wlp_update {A} (h : world -> gmap ptr A) `{!Setter h} p f (Q : unit -> world -> Prop) w :
  (forall a, h w !! p = Some a -> Q tt (set h <[p := f a]> w)) -> wlp (update h p f) Q w.
Proof. intros H. unfold wlp, update. destruct (h w !! p) eqn:?; auto. Qed.

Lemma wlp_malloc {A} (h : world -> gmap ptr A) `{!Setter h} a (Q : ptr -> world -> Prop) w :
  Q (w_next w) ((set h <[w_next w := a]> w) <| w_next := Pos.succ (w_next w) |>) ->
  wlp (malloc h a) Q w.
Proof. done. Qed.

Lemma wlp_free {A} (h : world -> gmap ptr A) `{!Setter h} p (Q : unit -> world -> Prop) w :
  (forall a, h w !! p = Some a -> Q tt (set h (delete p) w)) -> wlp (free h p) Q w.
Proof. intros H. unfold wlp, free. destruct (h w !! p) eqn:?; eauto. Qed.

(** What a loop body preserves, the loop preserves. *)
Lemma preserves_load {A} (R : relation world) `{!PreOrder R} (h : world -> gmap ptr A) p :
  Preserves R (load h p).
Proof. intros w. apply wlp_load. intros. reflexivity. Qed.

Lemma preserves_foreach_from {A} (R : relation world) `{!PreOrder R} col ps
    (body : ptr -> C world (option A)) :
  Preserves R col -> (forall p, Preserves R (body p)) -> Preserves R (foreach_from col ps body).
Proof.
  intros Hc Hb. induction ps as [|p ps IH]; cbn [foreach_from].
  - apply (preserves_ret _).
  - apply (preserves_bind _); [done|intros c]. case_decide; [|done].
    apply (preserves_bind _); [done|intros [a|]]; [apply (preserves_ret _)|done].
Qed.

Lemma preserves_foreach {A} (R : relation world) `{!PreOrder R} col
    (body : ptr -> C world (option A)) :
  Preserves R col -> (forall p, Preserves R (body p)) -> Preserves R (foreach col body).
Proof.
  intros Hc Hb. apply (preserves_bind _); [done|]. intros c.
  by apply preserves_foreach_from.
Qed.

Lemma preserves_each (R : relation world) `{!PreOrder R} (body : ptr -> C world unit) p :
  Preserves R (body p) -> Preserves R (each body p).
Proof. intros H. apply (preserves_bind _); [done|intros _; apply (preserves_ret _)]. Qed.

(** *** Loops that search

    When the body only reads the state, the loop returns what it finds first. *)

Fixpoint find_map {A} (f : ptr -> option A) (l : list ptr) : option A :=
  match l with
  | [] => None
  | p :: l' => match f p with Some a => Some a | None => find_map f l' end
  end.

Lemma find_map_Some {A} (f : ptr -> option A) l a :
  find_map f l = Some a -> exists p, p ∈ l /\ f p = Some a.
Proof.
  induction l as [|p l IH]; simpl; [done|]. destruct (f p) eqn:Hp.
  - intros [= ->]. exists p. split; [left|done].
  - intros (q & Hq & He)%IH. exists q. split; [by right|done].
Qed.

Lemma find_map_None {A} (f : ptr -> option A) l :
  find_map f l = None <-> forall p, p ∈ l -> f p = None.
Proof.
  induction l as [|p l IH]; simpl.
  - split; [|done]. intros _ p Hp. by apply not_elem_of_nil in Hp.
  - destruct (f p) eqn:Hp.
    + split; [done|]. intros H. by rewrite (H p) in Hp by left.
    + rewrite IH. split; intros H q Hq; [|apply H; by right].
      apply elem_of_cons in Hq as [->|Hq]; auto.
Qed.

Lemma wlp_foreach_find {A} col (body : ptr -> C world (option A)) f w c Q :
  col w = Ok c w ->
  (forall p, p ∈ coll_elems c -> wlp (body p) (fun r w' => w' = w /\ r = f p) w) ->
  Q (find_map f (coll_elems c)) w -> wlp (foreach col body) Q w.
Proof.
  intros Hcol Hb HQ. unfold foreach. apply wlp_bind. unfold wlp at 1. rewrite Hcol.
  assert (forall ps, (forall p, p ∈ ps -> p ∈ coll_elems c) ->
    wlp (foreach_from col ps body) (fun r w' => w' = w /\ r = find_map f ps) w) as Hgo.
  { induction ps as [|p ps IH]; intros Hin; cbn [foreach_from find_map]; [done|].
    apply wlp_bind. unfold wlp at 1. rewrite Hcol, decide_True by (apply Hin; left).
    eapply wlp_call; [apply Hb, Hin; left|]. intros r w' [-> ->].
    destruct (f p); [done|]. apply IH. intros q Hq. apply Hin. by right. }
  eapply wlp_mono; [by apply Hgo|]. by intros r w' [-> ->].
Qed.

Lemma wp_foreach_find {A} col (body : ptr -> C world (option A)) f w c Q :
  col w = Ok c w ->
  (forall p, p ∈ coll_elems c -> body p w = Ok (f p) w) ->
  Q (find_map f (coll_elems c)) w -> wp (foreach col body) Q w.
Proof.
  intros Hcol Hb HQ. unfold foreach. apply wp_bind. unfold wp at 1. rewrite Hcol.
  assert (forall ps, (forall p, p ∈ ps -> p ∈ coll_elems c) ->
    foreach_from col ps body w = Ok (find_map f ps) w) as Hgo.
  { induction ps as [|p ps IH]; intros Hin; cbn [foreach_from find_map]; [done|].
    unfold mbind, C_bind. rewrite Hcol, decide_True by (apply Hin; left).
    rewrite (Hb p) by (apply Hin; left). destruct (f p); [done|].
    apply IH. intros q Hq. apply Hin. by right. }
  unfold wp. by rewrite Hgo.
Qed.

(** *** Loops that look for the first element to act on

    The body leaves the state alone on every element it does not stop at. *)

Definition scan_post {A} (w : world) (P : ptr -> Prop) (l : list ptr) (R : A -> world -> Prop)
    (r : option A) (w' : world) : Prop :=
  match r with
  | None => w' = w /\ forall p, p ∈ l -> P p
  | Some a => R a w'
  end.

Lemma wlp_foreach_scan {A} col (body : ptr -> C world (option A)) P R w c :
  col w = Ok c w ->
  (forall p, p ∈ coll_elems c -> wlp (body p) (scan_post w P [p] R) w) ->
  wlp (foreach col body) (scan_post w P (coll_elems c) R) w.
Proof.
  intros Hcol Hb. unfold foreach. apply wlp_bind. unfold wlp at 1. rewrite Hcol.
  assert (forall ps, (forall p, p ∈ ps -> p ∈ coll_elems c) ->
    wlp (foreach_from col ps body) (scan_post w P ps R) w) as Hgo.
  { induction ps as [|p ps IH]; intros Hin; cbn [foreach_from].
    { split; [done|]. intros p Hp. by apply not_elem_of_nil in Hp. }
    apply wlp_bind. unfold wlp at 1. rewrite Hcol, decide_True by (apply Hin; left).
    eapply wlp_call; [apply Hb, Hin; left|]. intros [a|] w' Hr; [done|]. destruct Hr as [-> Hp].
    eapply wlp_mono; [apply IH; intros q Hq; apply Hin; by right|].
    intros [a|] w' Hr; [done|]. destruct Hr as [-> Hps]. split; [done|].
    intros q. rewrite elem_of_cons. intros [->|Hq]; [apply Hp; left|by apply Hps]. }
  by apply Hgo.
Qed.

Lemma wp_foreach_scan {A} col (body : ptr -> C world (option A)) P R w c :
  col w = Ok c w ->
  (forall p, p ∈ coll_elems c -> wp (body p) (scan_post w P [p] R) w) ->
  wp (foreach col body) (scan_post w P (coll_elems c) R) w.
Proof.
  intros Hcol Hb. unfold foreach. apply wp_bind. unfold wp at 1. rewrite Hcol.
  assert (forall ps, (forall p, p ∈ ps -> p ∈ coll_elems c) ->
    wp (foreach_from col ps body) (scan_post w P ps R) w) as Hgo.
  { induction ps as [|p ps IH]; intros Hin; cbn [foreach_from].
    { split; [done|]. intros p Hp. by apply not_elem_of_nil in Hp. }
    apply wp_bind. unfold wp at 1. rewrite Hcol, decide_True by (apply Hin; left).
    eapply wp_call; [apply Hb, Hin; left|]. intros [a|] w' Hr; [done|]. destruct Hr as [-> Hp].
    eapply wp_mono; [apply IH; intros q Hq; apply Hin; by right|].
    intros [a|] w' Hr; [done|]. destruct Hr as [-> Hps]. split; [done|].
    intros q. rewrite elem_of_cons. intros [->|Hq]; [apply Hp; left|by apply Hps]. }
  by apply Hgo.
Qed.

End rules.

(** Decomposes a function into primitives and calls; what remains is closed by
    the hints of the database [preserves]. *)
Ltac preserves_tac :=
  repeat first
    [ solve [eauto with preserves]
    | preserves_step
    | match goal with
      | |- Preserves _ (load _ _) => apply (preserves_load _)
      | |- Preserves _ (foreach _ _) => apply (preserves_foreach _); [|intros ?]
      | |- Preserves _ (foreach_from _ _ _) => apply (preserves_foreach_from _); [|intros ?]
      | |- Preserves _ (each _ _) => apply (preserves_each _)
      end
    | progress cbv beta ].
