(* ===== verification/Utils.v ===== *)
(** * Utils: utils.c (clock, poll list) and log.c (level filter) *)

From stdpp Require Import base gmap list strings.
From Stdlib Require Import ZArith Lia.
From S2P Require Import Prelude Platform Wire World.

Local Open Scope Z_scope.

(** ** Clock *)
Module Clock.
Section clock.
Context `{E : Env}.

(** [get_tick_count]: seconds and microseconds of the monotonic clock, or of
    the wall clock when there is no monotonic one. *)
Definition get_tick_count : C world (Z * Z) :=
  gets (fun w =>
    match sys_clock_gettime (w_trace w) with
    | Some (tv_sec, tv_nsec) => (tv_sec, tv_nsec / 1000)
    | None => sys_gettimeofday (w_trace w)
    end).

Definition mstime64 : C world Z :=
  tv ← get_tick_count;
  mret (u64 (fst tv * 1000 + snd tv / 1000)).

(** The time in milliseconds at a point of the history; [mstime64] reads it
    modulo 2^64. *)
Definition now_ms (t : list event) : Z := clock_ns t / 1000000.

Context `{!EnvLaws E}.

Lemma now_ms_nonneg t : 0 <= now_ms t.
Proof.
  unfold now_ms, clock_ns. destruct (clock_ok t) as (s & ns & -> & Hs & Hns).
  apply Z.div_pos; lia.
Qed.

Lemma mstime64_run w : mstime64 w = Ok (u64 (now_ms (w_trace w))) w.
Proof.
  unfold mstime64, get_tick_count, now_ms, clock_ns, gets, mbind, C_bind, mret, C_ret.
  destruct (clock_ok (w_trace w)) as (s & ns & -> & Hs & Hns). simpl. do 2 f_equal.
  rewrite Z.div_div by lia. change (1000 * 1000) with 1000000.
  replace (s * 1000000000 + ns) with (ns + (s * 1000) * 1000000) by lia.
  rewrite Z.div_add by lia. lia.
Qed.

Lemma now_ms_mono t e : now_ms t <= now_ms (e :: t).
Proof. apply Z.div_le_mono; [lia|apply clock_mono]. Qed.

Lemma now_ms_usleep t ms : 0 <= ms -> now_ms t + ms <= now_ms (EvUsleep (ms * 1000) :: t).
Proof.
  intros Hms. unfold now_ms. rewrite <- Z.div_add by lia.
  apply Z.div_le_mono; [lia|]. pose proof (clock_usleep t (ms * 1000)). lia.
Qed.

End clock.
End Clock.
Export Clock.

(** ** The list of polled file descriptors *)
Module Fdlist.

Inductive fdowner := FD_LISTEN | FD_CLIENT | FD_USB.

Record pollfd := mk_pollfd { pf_fd : Z; pf_events : Z; pf_revents : Z }.

(** [struct fdlist]. The arrays are lists of [capacity] slots; a slot that was
    never written is [None]. *)
Record fdlist := mk_fdlist {
  fl_count : Z;
  fl_capacity : Z;
  fl_owners : list (option fdowner);
  fl_fds : list (option pollfd);
}.

Definition fdlist_create : fdlist :=
  mk_fdlist 0 4 (replicate 4 None) (replicate 4 None).

(** [realloc] of an array to a larger number of slots keeps its contents. *)
Definition realloc_slots {A} (l : list (option A)) (n : Z) : list (option A) :=
  ztake n l ++ replicate (Z.to_nat (n - zlen l)) None.

(** The list with room for one more entry. *)
Definition fdlist_grown (l : fdlist) : fdlist :=
  if fl_count l =? fl_capacity l then
    let capacity := fl_capacity l * 2 in
    mk_fdlist (fl_count l) capacity
      (realloc_slots (fl_owners l) capacity) (realloc_slots (fl_fds l) capacity)
  else l.

Definition fdlist_add (l : fdlist) (owner : fdowner) (fd events : Z) : fdlist :=
  let l := fdlist_grown l in
  mk_fdlist (fl_count l + 1) (fl_capacity l)
    (<[Z.to_nat (fl_count l) := Some owner]> (fl_owners l))
    (<[Z.to_nat (fl_count l) := Some (mk_pollfd fd events 0)]> (fl_fds l)).

Definition fdlist_free (l : fdlist) : fdlist := mk_fdlist 0 0 [] [].

Definition fdlist_reset (l : fdlist) : fdlist :=
  mk_fdlist 0 (fl_capacity l) (fl_owners l) (fl_fds l).

(** The entries the list holds. *)
Definition fdlist_entries (l : fdlist) : list (option fdowner * option pollfd) :=
  zip (ztake (fl_count l) (fl_owners l)) (ztake (fl_count l) (fl_fds l)).

(** The arrays have [capacity] slots and the count fits. *)
Definition fdlist_ok (l : fdlist) : Prop :=
  0 <= fl_count l <= fl_capacity l /\ 0 < fl_capacity l /\
  zlen (fl_owners l) = fl_capacity l /\ zlen (fl_fds l) = fl_capacity l.

Lemma fdlist_create_ok : fdlist_ok fdlist_create.
Proof. done. Qed.

Lemma fdlist_reset_ok l : fdlist_ok l -> fdlist_ok (fdlist_reset l).
Proof. unfold fdlist_ok; simpl; lia. Qed.

Lemma realloc_slots_len {A} (l : list (option A)) n :
  zlen l <= n -> zlen (realloc_slots l n) = n.
Proof.
  intros H. unfold realloc_slots. pose proof (zlen_nonneg l).
  rewrite zlen_app, ztake_all, zlen_replicate by lia. lia.
Qed.

Lemma ztake_insert_next {A} (l : list A) (n : Z) x :
  0 <= n < zlen l -> ztake (n + 1) (<[Z.to_nat n := x]> l) = ztake n l ++ [x].
Proof.
  intros H. unfold ztake, zlen in *.
  replace (Z.to_nat (n + 1)) with (S (Z.to_nat n)) by lia.
  rewrite (take_S_r _ _ x) by (apply list_lookup_insert_eq; lia).
  by rewrite take_insert_ge by lia.
Qed.

Lemma ztake_realloc {A} (l : list (option A)) n m :
  zlen l <= n -> m <= zlen l -> ztake m (realloc_slots l n) = ztake m l.
Proof.
  intros H Hm. unfold realloc_slots. rewrite (ztake_all n l) by lia.
  by rewrite ztake_app_le by lia.
Qed.

Lemma zip_snoc {A B} (l : list A) (k : list B) x y :
  length l = length k -> zip (l ++ [x]) (k ++ [y]) = zip l k ++ [(x, y)].
Proof. intros H. by rewrite zip_with_app. Qed.

End Fdlist.

(** ** Log levels *)
Module Log.

Definition level_num (l : loglevel) : Z :=
  match l with
  | LL_FATAL => 0 | LL_ERROR => 1 | LL_WARNING => 2 | LL_NOTICE => 3
  | LL_INFO => 4 | LL_DEBUG => 5 | LL_SPEW => 6 | LL_FLOOD => 7
  end.

(** syslog.h *)
Definition LOG_CRIT : Z := 2.
Definition LOG_DEBUG : Z := 7.

Definition level_to_syslog_level (level : Z) : Z :=
  let result := level + LOG_CRIT in
  if result >? LOG_DEBUG then LOG_DEBUG else result.

(** Whether [usbmuxd_log] prints a message of this level. *)
Definition log_prints (log_level : Z) (level : loglevel) : bool :=
  negb (level_num level >? log_level).

End Log.
