(* ===== verification/Conf.v ===== *)
(** * Conf: conf.c, the configuration directory and the pairing records

    The build that is modelled is the POSIX one ([DIR_SEP] is a slash and the
    base directory is /var/lib). [config_utf16_to_utf8], which only the
    Windows build calls, is modelled on its own. *)

From stdpp Require Import base gmap list strings.
From Stdlib Require Import ZArith Lia Ascii String.
From S2P Require Import Prelude Platform Wire World.

Local Open Scope string_scope.
Local Open Scope list_scope.
Local Open Scope Z_scope.

Module Conf.

Definition DIR_SEP : ascii := "/"%char.
Definition DIR_SEP_S : string := "/".
Definition CONFIG_SYSTEM_BUID_KEY : string := "SystemBUID".
Definition CONFIG_HOST_ID_KEY : string := "HostID".
Definition CONFIG_EXT : string := ".plist".
Definition CONFIG_DIR : string := "lockdown".
Definition CONFIG_FILE : string := "SystemConfiguration.plist".

(** ** UTF-16 to UTF-8 *)

Definition utf8_of_wchar (wc : Z) : list Z :=
  if 2048 <=? wc then
    [u8 (224 + Z.land (Z.shiftr wc 12) 15);
     u8 (128 + Z.land (Z.shiftr wc 6) 63);
     u8 (128 + Z.land wc 63)]
  else if 128 <=? wc then
    [u8 (192 + Z.land (Z.shiftr wc 6) 31);
     u8 (128 + Z.land wc 63)]
  else [Z.land wc 127].

(** The loop over [len] units; the output grows by one to three bytes per
    unit. *)
Fixpoint utf16_loop (units : list Z) (outbuf : list Z) : list Z :=
  match units with
  | [] => outbuf
  | wc :: rest => utf16_loop rest (outbuf ++ utf8_of_wchar wc)
  end.

(** [Some (bytes, items_read, items_written)]; the terminator is not part of
    the bytes. *)
Definition config_utf16_to_utf8 (unistr : option (list Z)) : option (list Z * Z * Z) :=
  match unistr with
  | None => None
  | Some units =>
    if zlen units <=? 0 then None
    else let out := utf16_loop units [] in Some (out, zlen units, zlen out)
  end.

(** ** Strings of the C library *)

(** [while ((i > 0) && (s[i] == DIR_SEP)) s[i--] = 0]: trailing separators go,
    the first character stays. *)
Fixpoint strip_seps (rev_s : list ascii) : list ascii :=
  match rev_s with
  | c :: rest =>
    match rest with
    | [] => rev_s
    | _ :: _ => if ascii_dec c DIR_SEP then strip_seps rest else rev_s
    end
  | [] => rev_s
  end.

Definition strip_trailing_seps (s : string) : string :=
  string_of_list_ascii (rev (strip_seps (rev (list_ascii_of_string s)))).

(** POSIX [dirname]. *)
Fixpoint drop_seps (rev_s : list ascii) : list ascii :=
  match rev_s with
  | c :: rest => if ascii_dec c DIR_SEP then drop_seps rest else rev_s
  | [] => []
  end.
Fixpoint drop_name (rev_s : list ascii) : list ascii :=
  match rev_s with
  | c :: rest => if ascii_dec c DIR_SEP then rev_s else drop_name rest
  | [] => []
  end.
Definition dirname (s : string) : string :=
  match list_ascii_of_string s with
  | [] => "."
  | cs =>
    match drop_seps (rev cs) with
    | [] => "/"  (* only separators *)
    | name =>
      match drop_name name with
      | [] => "."
      | rest =>
        match drop_seps rest with
        | [] => "/"
        | dir => string_of_list_ascii (rev dir)
        end
      end
    end
  end.

(** [isalnum] in the C locale *)
Definition isalnum (c : ascii) : bool :=
  let n := Z.of_N (N_of_ascii c) in
  ((48 <=? n) && (n <=? 57)) || ((65 <=? n) && (n <=? 90)) || ((97 <=? n) && (n <=? 122)).

(** The check of [config_set_device_record] on each character of a udid. *)
Definition udid_char_ok (c : ascii) : bool := isalnum c || bool_decide (c = "-"%char).
Definition udid_valid (udid : string) : bool := forallb udid_char_ok (list_ascii_of_string udid).

Section conf.
Context `{E : Env}.

(** ** The configuration directory *)

Definition config_get_config_dir : C world string :=
  d ← gets config_dir;
  match d with
  | Some dir => mret dir
  | None =>
    let dir := strip_trailing_seps (string_concat ["/var/lib"; DIR_SEP_S; CONFIG_DIR]) in
    modify (fun w => w <| config_dir := Some dir |>) ;; mret dir
  end.

(** Runs a file system operation that succeeds with a new state or fails with
    an errno. *)
Definition fs_run (op : fs -> fs + Z) : C world (option Z) :=
  s ← gets w_fs;
  match op s with
  | inl s' => modify (fun w => w <| w_fs := s' |>) ;; mret None
  | inr err => mret (Some err)
  end.

(** The recursion goes to the parent directory; [fuel] bounds its depth by the
    length of the path. *)
Fixpoint mkdir_with_parents_from (fuel : nat) (dir : string) (mode : Z) : C world Z :=
  match fuel with
  | O => no_fuel
  | S fuel' =>
    r ← fs_run (fun s => fs_mkdir s dir mode);
    match r with
    | None => mret 0
    | Some err =>
      if err =? EEXIST then mret 0
      else mkdir_with_parents_from fuel' (dirname dir) mode
    end
  end.

Definition mkdir_with_parents (dir : string) (mode : Z) : C world Z :=
  mkdir_with_parents_from (S (S (String.length dir))) dir mode.

Definition config_create_config_dir : C world Z :=
  config_path ← config_get_config_dir;
  s ← gets w_fs;
  match fs_stat s config_path with
  | Some _ => mret 0
  | None => mkdir_with_parents config_path 493  (* 0755 *)
  end.

Definition config_set_config_dir (path : option string) : C world Z :=
  match path with
  | None => mret (-1)
  | Some p =>
    modify (fun w => w <| config_dir := Some p |>) ;;
    config_create_config_dir
  end.

(** ** The system BUID *)

(** [rand() % (max - min) + min] *)
Definition get_rand (min max : Z) : C world Z :=
  t ← gets w_trace;
  let r := sys_rand t in
  emit (EvRand r) ;;
  mret (Z.rem r (max - min) + min).

Definition uuid_chars : string := "ABCDEF0123456789".
Definition uuid_dash (i : nat) : bool :=
  bool_decide (i = 8%nat \/ i = 13%nat \/ i = 18%nat \/ i = 23%nat).

(** The loop from position [i] for [n] more positions. *)
Fixpoint uuid_loop (i n : nat) : C world (list ascii) :=
  match n with
  | O => mret []
  | S n' =>
    c ← (if uuid_dash i then mret "-"%char
         else r ← get_rand 0 16; lift_option OutOfBounds (String.get (Z.to_nat r) uuid_chars));
    cs ← uuid_loop (S i) n';
    mret (c :: cs)
  end.

Definition config_generate_uuid (idx : Z) : C world string :=
  t ← gets w_trace;
  emit (EvSrand (sys_time t - idx)) ;;
  cs ← uuid_loop 0 36;
  mret (string_of_list_ascii cs).

Definition config_generate_system_buid : C world string := config_generate_uuid 1.

(** ** Values of a configuration file *)

Definition internal_set_value (config_file key : string) (value : plist_t) : C world Z :=
  s ← gets w_fs;
  config ← (match plist_read_from_file s config_file with
    | None => mret (plist_dict_set_item plist_new_dict key value)
    | Some config =>
      let config :=
        match plist_dict_get_item config key with
        | Some _ => plist_dict_remove_item config key
        | None => config
        end in
      fs_run (fun s => fs_remove s config_file) ;;
      mret (plist_dict_set_item config key value)
    end);
  s ← gets w_fs;
  let '(s', ok) := plist_write_to_file s config config_file in
  modify (fun w => w <| w_fs := s' |>) ;;
  mret (if ok : bool then 1 else 0).

Definition config_set_value (key : string) (value : plist_t) : C world Z :=
  r ← config_create_config_dir;
  if r <? 0 then mret (-1) else
  config_path ← config_get_config_dir;
  let config_file := string_concat [config_path; DIR_SEP_S; CONFIG_FILE] in
  internal_set_value config_file key value.

(** The value, when the file parses and has the key; the C function always
    returns 1. *)
Definition internal_get_value (config_file key : string) : C world (option plist_t) :=
  s ← gets w_fs;
  mret (match plist_read_from_file s config_file with
    | Some config => plist_dict_get_item config key
    | None => None
    end).

Definition config_get_value (key : string) : C world (option plist_t) :=
  config_path ← config_get_config_dir;
  internal_get_value (string_concat [config_path; DIR_SEP_S; CONFIG_FILE]) key.

Definition config_set_system_buid (system_buid : string) : C world Z :=
  config_set_value CONFIG_SYSTEM_BUID_KEY (plist_new_string system_buid).

(** The string of a node, when it is a string node. *)
Definition string_node (v : option plist_t) : option string :=
  n ← v;
  if decide (plist_get_node_type n = PLIST_STRING) then plist_get_string_val n else None.

Definition config_get_system_buid : C world string :=
  value ← config_get_value CONFIG_SYSTEM_BUID_KEY;
  match string_node value with
  | Some system_buid => mret system_buid
  | None =>
    system_buid ← config_generate_system_buid;
    config_set_system_buid system_buid ;;  (* a failure is only logged *)
    mret system_buid
  end.

(** ** Pairing records *)

Definition device_record_file (config_path udid : string) : string :=
  string_concat [config_path; DIR_SEP_S; udid; CONFIG_EXT].

Definition config_has_device_record (udid : option string) : C world Z :=
  match udid with
  | None => mret 0
  | Some udid =>
    r ← config_create_config_dir;
    if r <? 0 then mret (-1) else
    config_path ← config_get_config_dir;
    s ← gets w_fs;
    mret (if decide (fs_stat s (device_record_file config_path udid) = Some REGULAR)
          then 1 else 0)
  end.

Definition config_set_device_record (udid : string) (record_data : list Z) : C world Z :=
  if zlen record_data <? 8 then mret (- EINVAL)
  else if negb (udid_valid udid) then mret (- EINVAL)
  else match plist_from_memory record_data with
  | None => mret (- EINVAL)
  | Some plist =>
    if decide (plist_get_node_type plist = PLIST_DICT) then
      r ← config_create_config_dir;
      if r <? 0 then mret (-1) else
      config_path ← config_get_config_dir;
      let file := device_record_file config_path udid in
      fs_run (fun s => fs_remove s file) ;;
      s ← gets w_fs;
      let '(s', ok) := plist_write_to_file s plist file in
      modify (fun w => w <| w_fs := s' |>) ;;
      mret (if ok : bool then 0 else - ENOENT)
    else mret (- EINVAL)
  end.

(** The result code and the record, when it could be read. *)
Definition config_get_device_record (udid : string) : C world (Z * option (list Z)) :=
  r ← config_create_config_dir;
  if r <? 0 then mret (-1, None) else
  config_path ← config_get_config_dir;
  s ← gets w_fs;
  mret (match fs_read s (device_record_file config_path udid) with
    | Some data => (0, Some data)
    | None => (- ENOENT, None)
    end).

Definition config_remove_device_record (udid : string) : C world Z :=
  config_path ← config_get_config_dir;
  r ← fs_run (fun s => fs_remove s (device_record_file config_path udid));
  mret (match r with None => 0 | Some err => - err end).

Definition config_device_record_get_value (udid key : string) : C world (option plist_t) :=
  config_path ← config_get_config_dir;
  internal_get_value (device_record_file config_path udid) key.

Definition config_device_record_get_host_id (udid : string) : C world (option string) :=
  value ← config_device_record_get_value udid CONFIG_HOST_ID_KEY;
  mret (string_node value).

End conf.
End Conf.
