(* ===== verification/Instances.v ===== *)
(** * Instances: a concrete platform

    An executable instance of every class of [Platform.v], with the proofs of
    its laws. It shows that the laws are consistent and lets the development
    run the program on concrete inputs: the answers of the sockets and of
    libusb are parameters of [test_env]. *)

From stdpp Require Import base gmap list strings countable.
From Stdlib Require Import ZArith Lia String.
From S2P Require Import Prelude Platform Wire World Utils Conf.

Local Open Scope list_scope.
Local Open Scope Z_scope.

Module Instances.

(** ** Collections as lists *)

Fixpoint remove1 (p : ptr) (l : list ptr) : list ptr :=
  match l with
  | [] => []
  | q :: l' => if decide (p = q) then l' else q :: remove1 p l'
  end.

Definition list_coll : Collection := {|
  coll := list ptr;
  coll_init := [];
  coll_add l p := l ++ [p];
  coll_remove l p := remove1 p l;
  coll_elems l := l;
  coll_capacity l := Z.max 16 (zlen l);
|}.

Lemma remove1_in p l : p ∈ l -> l ≡ₚ p :: remove1 p l.
Proof.
  induction l as [|q l IH]; [by intros ?%not_elem_of_nil|].
  rewrite elem_of_cons. intros H. simpl. destruct (decide (p = q)) as [->|Hne]; [done|].
  destruct H as [?|H]; [done|]. rewrite (IH H) at 1. constructor.
Qed.

Lemma remove1_notin p l : p ∉ l -> remove1 p l = l.
Proof.
  induction l as [|q l IH]; [done|]. rewrite not_elem_of_cons. intros [Hne Hni].
  simpl. rewrite decide_False by done. by rewrite IH.
Qed.

#[export] Instance list_coll_laws : CollectionLaws list_coll.
Proof.
  split; simpl.
  - done.
  - intros c p. by rewrite Permutation_app_comm.
  - intros c p. apply remove1_in.
  - intros c p. apply remove1_notin.
  - intros c. lia.
Qed.

(** ** Property lists as trees *)

Definition leaf : Type := bool + Z + string + list Z.
Definition tree : Type := gen_tree leaf.

(** Node 0 is an array, node 1 a dictionary whose items are nodes 2 of a key
    and a value. *)
Definition tree_item (t : tree) : option (string * tree) :=
  match t with
  | GenNode 2 [GenLeaf (inl (inr k)); v] => Some (k, v)
  | _ => None
  end.
Definition tree_dict (t : tree) : list (string * tree) :=
  match t with GenNode 1 l => omap tree_item l | _ => [] end.
Definition dict_tree (l : list (string * tree)) : tree :=
  GenNode 1 ((fun kv => GenNode 2 [GenLeaf (inl (inr kv.1)); kv.2]) <$> l).

Fixpoint assoc (k : string) (l : list (string * tree)) : option tree :=
  match l with
  | [] => None
  | (k', v) :: l' => if String.eqb k' k then Some v else assoc k l'
  end.
Definition without (k : string) (l : list (string * tree)) : list (string * tree) :=
  filter (fun kv => kv.1 <> k) l.

Fixpoint pos_bits (p : positive) : list Z :=
  match p with
  | xH => []
  | xO p' => 0 :: pos_bits p'
  | xI p' => 1 :: pos_bits p'
  end.
Fixpoint bits_pos (l : list Z) : positive :=
  match l with
  | [] => xH
  | b :: l' => if b =? 0 then xO (bits_pos l') else xI (bits_pos l')
  end.

Definition tree_type (t : tree) : plist_type :=
  match t with
  | GenLeaf (inl (inl (inl _))) => PLIST_BOOLEAN
  | GenLeaf (inl (inl (inr _))) => PLIST_UINT
  | GenLeaf (inl (inr _)) => PLIST_STRING
  | GenLeaf (inr _) => PLIST_DATA
  | GenNode 0 _ => PLIST_ARRAY
  | GenNode 1 _ => PLIST_DICT
  | GenNode _ _ => PLIST_OTHER
  end.

Definition tree_set (d : tree) (k : string) (v : tree) : tree :=
  dict_tree ((k, v) :: without k (tree_dict d)).

(** Its XML form is a string of bits; a prefix keeps it longer than the
    shortest record [config_set_device_record] accepts. *)
Definition xml_prefix : list Z := replicate 8 60.

Definition tree_plist : Plist := {|
  plist_t := tree;
  plist_new_dict := dict_tree [];
  plist_new_array := GenNode 0 [];
  plist_new_string s := GenLeaf (inl (inr s));
  plist_new_uint n := GenLeaf (inl (inl (inr n)));
  plist_new_bool b := GenLeaf (inl (inl (inl b)));
  plist_new_data l := GenLeaf (inr l);
  plist_get_node_type := tree_type;
  plist_dict_set_item := tree_set;
  plist_dict_remove_item d k := dict_tree (without k (tree_dict d));
  plist_dict_get_item d k := assoc k (tree_dict d);
  plist_dict_copy_item target source k :=
    match assoc k (tree_dict source) with Some v => tree_set target k v | None => target end;
  plist_array_append_item a x :=
    match a with GenNode 0 l => GenNode 0 (l ++ [x]) | _ => GenNode 0 [x] end;
  plist_array_items a := match a with GenNode 0 l => l | _ => [] end;
  plist_get_string_val t := match t with GenLeaf (inl (inr s)) => Some s | _ => None end;
  plist_get_uint_val t := match t with GenLeaf (inl (inl (inr n))) => Some n | _ => None end;
  plist_get_data_val t := match t with GenLeaf (inr l) => Some l | _ => None end;
  plist_to_xml t := Some (xml_prefix ++ pos_bits (encode t));
  plist_from_xml l := decode (bits_pos (drop 8 l));
  plist_from_memory l := decode (bits_pos (drop 8 l));
|}.

Lemma bits_pos_bits p : bits_pos (pos_bits p) = p.
Proof. induction p; simpl; by f_equal. Qed.

Lemma pos_bits_ok p : bytes_ok (pos_bits p).
Proof. induction p; constructor; done. Qed.

Lemma tree_dict_tree l : tree_dict (dict_tree l) = l.
Proof. induction l as [|[k v] l IH]; [done|]. unfold tree_dict in *. simpl in *. by f_equal. Qed.

Lemma assoc_without k k' l : k <> k' -> assoc k' (without k l) = assoc k' l.
Proof.
  intros Hne. unfold without. induction l as [|[k2 v] l IH]; [done|].
  rewrite filter_cons. simpl. case_decide as Hd; simpl.
  - destruct (String.eqb_spec k2 k') as [->|Hk]; [done|apply IH].
  - assert (k2 = k) as -> by (destruct (decide (k2 = k)); [done|by destruct Hd]).
    rewrite (proj2 (String.eqb_neq k k')) by done. apply IH.
Qed.

#[export] Instance tree_plist_laws : PlistLaws tree_plist.
Proof.
  split; try done.
  - intros d k v _. cbn [plist_dict_get_item plist_dict_set_item tree_plist].
    unfold tree_set. rewrite tree_dict_tree. simpl. by rewrite String.eqb_refl.
  - intros d k k' v _ Hne. cbn [plist_dict_get_item plist_dict_set_item tree_plist].
    unfold tree_set. rewrite tree_dict_tree. simpl.
    rewrite (proj2 (String.eqb_neq k k')) by done. by apply assoc_without.
  - intros a x. destruct a as [[[[]|]|]|[|[|]]]; done.
  - intros a x. destruct a as [[[[]|]|]|[|[|]]]; done.
  - intros d _. exists (xml_prefix ++ pos_bits (encode d)). split; [done|]. split.
    + apply bytes_ok_app. split; [|apply pos_bits_ok].
      by apply Forall_replicate.
    + cbn [plist_from_xml plist_from_memory tree_plist].
      change (drop 8 (xml_prefix ++ pos_bits (encode d))) with (pos_bits (encode d)).
      by rewrite bits_pos_bits, decode_encode.
Qed.

(** ** A file system of directories and files *)

Record mem_fs := mk_fs { fs_files : gmap string (list Z); fs_dirs : gset string }.

Definition mem_stat (s : mem_fs) (p : string) : option file_kind :=
  if decide (p ∈ fs_dirs s \/ p = "/" \/ p = ".") then Some DIRECTORY
  else match fs_files s !! p with Some _ => Some REGULAR | None => None end.

Definition list_fs : FileSystem := {|
  fs := mem_fs;
  fs_stat := mem_stat;
  fs_mkdir s p _ :=
    match mem_stat s p with
    | Some _ => inr EEXIST
    | None =>
      if decide (mem_stat s (Conf.dirname p) = Some DIRECTORY) then inl (mk_fs (fs_files s) ({[p]} ∪ fs_dirs s))
      else inr ENOENT
    end;
  fs_remove s p :=
    match fs_files s !! p with
    | Some _ => inl (mk_fs (delete p (fs_files s)) (fs_dirs s))
    | None => inr ENOENT
    end;
  fs_read s p := fs_files s !! p;
  fs_write s p l :=
    if decide (mem_stat s (Conf.dirname p) = Some DIRECTORY /\
               mem_stat s p <> Some DIRECTORY) then
      (mk_fs (<[p := l]> (fs_files s)) (fs_dirs s), true)
    else (s, false);
|}.

#[export] Instance list_fs_laws : FileSystemLaws list_fs.
Proof.
  split; cbn [fs fs_stat fs_mkdir fs_remove fs_read fs_write list_fs]; intros *.
  - case_decide; [intros [= <-]|done]. simpl. apply lookup_insert_eq.
  - case_decide; intros [= <- <-] Hne; [|done]. simpl. by rewrite lookup_insert_ne.
  - case_decide as Hd; [intros [= <-]|done]. destruct Hd as [_ Hd]. unfold mem_stat in *; simpl.
    case_decide; [done|]. by rewrite lookup_insert_eq.
  - destruct (fs_files s !! p); [intros [= <-]|done]. simpl. apply lookup_delete_eq.
  - destruct (fs_files s !! p); [intros [= <-] Hne|done]. simpl. by rewrite lookup_delete_ne.
  - intros _ s'. destruct (mem_stat s p); [done|]. case_decide; [intros [= <-]|done].
    unfold mem_stat; simpl. rewrite decide_True by (left; set_solver). done.
  - intros _ s' q. destruct (mem_stat s p); [done|]. case_decide; [intros [= <-]|done]. done.
  - intros _. unfold mem_stat. by rewrite decide_True by auto.
  - intros _. unfold mem_stat. by rewrite decide_True by auto.
Qed.

(** ** The environment *)

(** Total time slept, in nanoseconds. *)
Fixpoint slept (t : list event) : Z :=
  match t with
  | [] => 0
  | EvUsleep us :: t' => Z.max 0 us * 1000 + slept t'
  | _ :: t' => slept t'
  end.

Definition clip_recv (n : Z) (r : list Z + Z) : list Z + Z :=
  match r with inl l => inl (ztake n (u8 <$> l)) | inr e => inr e end.
Definition clip_send (data : list Z) (r : Z + Z) : Z + Z :=
  match r with inl n => inl (Z.max 0 (Z.min n (zlen data))) | inr e => inr e end.

Section test_env.
Variable recvf : list event -> Z -> Z -> list Z + Z.
Variable sendf : list event -> Z -> list Z -> Z + Z.
Variable submitf : list event -> ptr -> endpoint -> list Z -> Z.

Definition test_env : Env := {|
  env_coll := list_coll;
  env_plist := tree_plist;
  env_fs := list_fs;
  sys_recv t fd n := clip_recv n (recvf t fd n);
  sys_send t fd data := clip_send data (sendf t fd data);
  sys_accept t fd := inl (5 + zlen t);
  sys_clock_gettime t := Some (slept t / 1000000000, slept t mod 1000000000);
  sys_gettimeofday t := (0, 0);
  sys_malloc_bytes t n := replicate (Z.to_nat n) 0;
  sys_realloc t n := true;
  sys_time t := 0;
  sys_rand t := zlen t;
  string_concat := String.concat EmptyString;
  sys_thread_new t := 0;
  libusb_submit_transfer := submitf;
|}.

Lemma slept_nonneg t : 0 <= slept t.
Proof. induction t as [|[] t IH]; simpl; lia. Qed.

Lemma clock_ns_slept t : @clock_ns test_env t = slept t.
Proof. unfold clock_ns. simpl. pose proof (Z.div_mod (slept t) 1000000000). lia. Qed.

#[export] Instance test_io_laws : IoLaws test_env.
Proof.
  split.
  - intros t fd n l Hn. simpl. destruct (recvf t fd n) as [l'|]; [|done].
    intros [= <-]. unfold zlen, ztake. rewrite length_take. lia.
  - intros t fd n l. simpl. destruct (recvf t fd n) as [l'|]; [|done].
    intros [= <-]. apply bytes_ok_ztake, Forall_fmap, Forall_true.
    intros x. apply Z.mod_pos_bound. lia.
  - intros t fd data n. simpl. destruct (sendf t fd data) as [m|]; [|done].
    intros [= <-]. pose proof (zlen_nonneg data). lia.
  - intros t. apply zlen_nonneg.
  - intros t n Hn. simpl. rewrite zlen_replicate. lia.
  - intros t n. by apply Forall_replicate.
Qed.

#[export] Instance test_env_laws : EnvLaws test_env.
Proof.
  split; try apply _.
  - done.
  - intros t. eexists _, _. split; [done|]. pose proof (slept_nonneg t).
    split; [apply Z.div_pos; lia|apply Z.mod_pos_bound; lia].
  - intros t e. rewrite !clock_ns_slept. destruct e; simpl; lia.
  - intros t us. rewrite !clock_ns_slept. simpl. lia.
Qed.

End test_env.
End Instances.
