(* ===== verification/Usb.v ===== *)
(** * Usb: the functions of usb.c that device.c calls

    Submission of outgoing packets ([usb_send]), their completion
    ([tx_callback]) and the attributes of a device. A packet buffer belongs to
    the transfer once [usb_send] accepted it. *)

From stdpp Require Import base gmap list strings.
From Stdlib Require Import ZArith Lia.
From S2P Require Import Prelude Platform Wire World.

Local Open Scope Z_scope.

Module Usb.

(** [enum libusb_transfer_status] *)
Inductive transfer_status :=
  | TRANSFER_COMPLETED | TRANSFER_ERROR | TRANSFER_TIMED_OUT | TRANSFER_CANCELLED
  | TRANSFER_STALL | TRANSFER_NO_DEVICE | TRANSFER_OVERFLOW.

#[export] Instance transfer_status_eq_dec : EqDecision transfer_status.
Proof. solve_decision. Defined.

Section usb.
Context `{E : Env}.

Definition submit (dev : ptr) (ep : endpoint) (data : list Z) : C world Z :=
  t ← gets w_trace;
  let res := libusb_submit_transfer t dev ep data in
  emit (EvSubmit dev ep data res) ;;
  mret res.

Definition usb_send (dev buf : ptr) (length : Z) : C world Z :=
  get_usb dev ;;
  data ← load w_bufs buf;
  xfer ← malloc w_xfers (mk_xfer dev buf length CB_TX 0);
  res ← submit dev EpOut data;
  if res <? 0 then
    free w_xfers xfer ;; mret res
  else
    upd_usb dev (fun u => u <| ud_tx_xfers ::= fun c => coll_add c xfer |>) ;;
    u ← get_usb dev;
    if ud_wMaxPacketSize u =? 0 then undef DivByZero
    else if Z.rem length (ud_wMaxPacketSize u) =? 0 then
      (* Send Zero Length Packet *)
      t ← gets w_trace;
      buffer ← malloc w_bufs (sys_malloc_bytes t 1);
      xfer ← malloc w_xfers (mk_xfer dev buffer 0 CB_TX 0);
      res ← submit dev EpOut [];
      if res <? 0 then
        free w_xfers xfer ;; mret res
      else
        upd_usb dev (fun u => u <| ud_tx_xfers ::= fun c => coll_add c xfer |>) ;;
        mret 0
    else mret 0.

(** Callback from write operation *)
Definition tx_callback (xfer : ptr) (status : transfer_status) : C world unit :=
  x ← load w_xfers xfer;
  let dev := xf_user_data x in
  get_usb dev ;;
  when (negb (bool_decide (status = TRANSFER_COMPLETED)))
    (upd_usb dev (fun u => u <| ud_alive := 0 |>)) ;;
  free w_bufs (xf_buffer x) ;;
  upd_usb dev (fun u => u <| ud_tx_xfers ::= fun c => coll_remove c xfer |>) ;;
  free w_xfers xfer.

Definition usb_get_serial (dev : ptr) : C world (option string) :=
  u ← get_usb dev;
  mret (if ud_handle u then Some (ud_serial u) else None).

Definition usb_get_location (dev : ptr) : C world Z :=
  u ← get_usb dev;
  mret (if ud_handle u then Z.lor (Z.shiftl (ud_bus u) 16) (ud_address u) else 0).

Definition usb_get_pid (dev : ptr) : C world Z :=
  u ← get_usb dev;
  mret (if ud_handle u then ud_idProduct u else 0).

Definition usb_get_speed (dev : ptr) : C world Z :=
  u ← get_usb dev;
  mret (if ud_handle u then ud_speed u else 0).

End usb.
End Usb.
Export Usb.
