(* ===== verification/ClientOut.v ===== *)
(** * ClientOut: the parts of client.c that device.c calls into

    Raw socket I/O of a connected client, its poll mask, its output buffer
    and the messages put into it. *)

From stdpp Require Import base gmap list strings.
From Stdlib Require Import ZArith Lia String.
From S2P Require Import Prelude Platform Wire World.

Local Open Scope list_scope.
Local Open Scope Z_scope.

Module ClientOut.
Section client_out.
Context `{E : Env}.

(** ** System calls *)

(** [recv(fd, buf, n, 0)] *)
Definition recv (fd n : Z) : C world (list Z + Z) :=
  t ← gets w_trace;
  let r := sys_recv t fd n in
  emit (EvRecv fd n r) ;;
  mret r.

(** [send(fd, data, len, 0)] *)
Definition send (fd : Z) (data : list Z) : C world (Z + Z) :=
  t ← gets w_trace;
  let r := sys_send t fd data in
  emit (EvSend fd data r) ;;
  mret r.

(** ** Connected clients *)

(** The result of [recv] and the bytes it stored. *)
Definition client_read (client : ptr) (len : Z) : C world (Z * list Z) :=
  c ← get_client client;
  if decide (cl_state c = CLIENT_CONNECTED) then
    r ← recv (cl_fd c) len;
    mret (match r with inl data => (zlen data, data) | inr _ => (-1, []) end)
  else mret (-1, []).

Definition client_write (client : ptr) (buffer : list Z) : C world Z :=
  c ← get_client client;
  if decide (cl_state c = CLIENT_CONNECTED) then
    r ← send (cl_fd c) buffer;
    mret (match r with
      | inl sret => sret
      | inr errno => if (errno =? EAGAIN) || (errno =? EWOULDBLOCK) then 0 else -1
      end)
  else mret (-1).

Definition nonnull (p : option ptr) : C world ptr := lift_option NullDeref p.

Definition client_set_events (client : option ptr) (events : Z) : C world Z :=
  client ← nonnull client;
  c ← get_client client;
  if decide (cl_state c <> CLIENT_CONNECTED /\ cl_state c <> CLIENT_CONNECTING2) then mret (-1)
  else
    upd_client client (fun c => c <| cl_devents := events |>) ;;
    when (bool_decide (cl_state c = CLIENT_CONNECTED))
      (upd_client client (fun c => c <| cl_events := events |>)) ;;
    mret 0.

(** ** The output buffer *)

(** [memcpy(buf + off, data, len)] *)
Definition copy_into (buf : option (list Z)) (off : Z) (data : list Z) : C world (list Z) :=
  match buf with
  | None => undef NullDeref
  | Some b =>
    if off + zlen data <=? zlen b then mret (write_at off data b) else undef OutOfBounds
  end.

(** [((ob_capacity + hdr.length + 4096) / 4096) * 4096] in 32 bits *)
Definition enlarged (capacity len : Z) : Z := u32 (u32 (capacity + len + 4096) / 4096 * 4096).

(** [realloc(buf, n)]: the old bytes, then fresh ones. *)
Definition realloc_buf (t : list event) (buf : option (list Z)) (n : Z) : list Z :=
  let old := ztake n (default [] buf) in
  old ++ sys_malloc_bytes t (n - zlen old).

Definition output_buffer_add_message (client : ptr) (tag msg : Z) (payload : list Z) :
    C world Z :=
  c ← get_client client;
  let hdr := {| hdr_version := cl_proto_version c;
                hdr_length := u32 (sizeof_usbmuxd_header + zlen payload);
                hdr_message := msg;
                hdr_tag := tag |} in
  let available := u32 (cl_ob_capacity c - cl_ob_size c) in
  enlarge ← (if available <? hdr_length hdr then
      let new_size := enlarged (cl_ob_capacity c) (hdr_length hdr) in
      t ← gets w_trace;
      if sys_realloc t new_size then
        upd_client client (fun c => c <| cl_ob_buf := Some (realloc_buf t (cl_ob_buf c) new_size) |>
                                      <| cl_ob_capacity := new_size |>) ;;
        mret true
      else mret false
    else mret true);
  if enlarge : bool then
    c ← get_client client;
    b ← copy_into (cl_ob_buf c) (cl_ob_size c) (usbmuxd_header_bytes hdr);
    b ← (match payload with
         | [] => mret b
         | _ => copy_into (Some b) (cl_ob_size c + sizeof_usbmuxd_header) payload
         end);
    upd_client client (fun c => c <| cl_ob_buf := Some b |>
                                  <| cl_ob_size := u32 (cl_ob_size c + hdr_length hdr) |>
                                  <| cl_events := Z.lor (cl_events c) POLLOUT |>) ;;
    mret (s32 (hdr_length hdr))
  else mret (-1).

(** ** Messages *)

Definition send_plist (client : ptr) (tag : Z) (plist : plist_t) : C world Z :=
  match plist_to_xml plist with
  | Some xml => output_buffer_add_message client tag MESSAGE_PLIST xml
  | None => mret (-1)
  end.

Definition result_plist (result : Z) : plist_t :=
  plist_dict_set_item
    (plist_dict_set_item plist_new_dict "MessageType" (plist_new_string "Result"))
    "Number" (plist_new_uint result).

Definition send_result (client : ptr) (tag result : Z) : C world Z :=
  c ← get_client client;
  if cl_proto_version c =? 1 then send_plist client tag (result_plist result)
  else output_buffer_add_message client tag MESSAGE_RESULT (le_bytes 4 result).

Definition client_notify_connect (client : ptr) (result : usbmuxd_result) : C world Z :=
  c ← get_client client;
  if decide (cl_state c = CLIENT_DEAD) then mret (-1)
  else if decide (cl_state c <> CLIENT_CONNECTING1) then mret (-1)
  else
    r ← send_result client (cl_connect_tag c) (result_num result);
    if r <? 0 then mret (-1)
    else
      match result with
      | RESULT_OK =>
        upd_client client (fun c => c <| cl_state := CLIENT_CONNECTING2 |>
                                      <| cl_events := POLLOUT |>
                                      <| cl_ib_buf := None |>)
      | _ => upd_client client (fun c => c <| cl_state := CLIENT_COMMAND |>)
      end ;;
      mret 0.

Definition create_device_attached_plist (dev : device_info) : C world plist_t :=
  serial ← lift_option NullDeref (di_serial dev);
  let dict := plist_new_dict in
  let dict := plist_dict_set_item dict "MessageType" (plist_new_string "Attached") in
  let dict := plist_dict_set_item dict "DeviceID" (plist_new_uint (u64 (di_id dev))) in
  let props := plist_new_dict in
  let props := plist_dict_set_item props "ConnectionSpeed" (plist_new_uint (di_speed dev)) in
  let props := plist_dict_set_item props "ConnectionType" (plist_new_string "USB") in
  let props := plist_dict_set_item props "DeviceID" (plist_new_uint (u64 (di_id dev))) in
  let props := plist_dict_set_item props "LocationID" (plist_new_uint (di_location dev)) in
  let props := plist_dict_set_item props "ProductID" (plist_new_uint (di_pid dev)) in
  let props := plist_dict_set_item props "SerialNumber" (plist_new_string serial) in
  mret (plist_dict_set_item dict "Properties" props).

Definition send_device_add (client : ptr) (dev : device_info) : C world Z :=
  c ← get_client client;
  if cl_proto_version c =? 1 then
    dict ← create_device_attached_plist dev;
    send_plist client 0 dict
  else
    serial ← lift_option NullDeref (di_serial dev);
    output_buffer_add_message client 0 MESSAGE_DEVICE_ADD
      (device_record_bytes (di_id dev) (di_pid dev) serial (di_location dev)).

(** The plist of a "Detached" or "Paired" message. *)
Definition device_event_plist (message : string) (device_id : Z) : plist_t :=
  plist_dict_set_item
    (plist_dict_set_item plist_new_dict "MessageType" (plist_new_string message))
    "DeviceID" (plist_new_uint device_id).

Definition send_device_remove (client : ptr) (device_id : Z) : C world Z :=
  c ← get_client client;
  if cl_proto_version c =? 1 then
    send_plist client 0 (device_event_plist "Detached" device_id)
  else output_buffer_add_message client 0 MESSAGE_DEVICE_REMOVE (le_bytes 4 device_id).

Definition send_device_paired (client : ptr) (device_id : Z) : C world Z :=
  c ← get_client client;
  if cl_proto_version c =? 1 then
    send_plist client 0 (device_event_plist "Paired" device_id)
  else output_buffer_add_message client 0 MESSAGE_DEVICE_PAIRED (le_bytes 4 device_id).

(** Runs [body] on every client that listens for devices. *)
Definition foreach_listener (body : ptr -> C world unit) : C world unit :=
  foreach (gets client_list) (each (fun client =>
    c ← get_client client;
    when (bool_decide (cl_state c = CLIENT_LISTEN)) (body client))) ;;
  mret tt.

Definition client_device_remove (device_id : Z) : C world unit :=
  mutex_lock client_list_mutex ;;
  let id := u32 device_id in
  foreach_listener (fun client => send_device_remove client id ;; mret tt) ;;
  mutex_unlock client_list_mutex.

Definition client_device_paired (device_id : Z) : C world unit :=
  mutex_lock client_list_mutex ;;
  let id := u32 device_id in
  foreach_listener (fun client => send_device_paired client id ;; mret tt) ;;
  mutex_unlock client_list_mutex.

End client_out.
End ClientOut.
Export ClientOut.
