(* ===== verification/DeviceOut.v ===== *)
(** * DeviceOut: the device list and the packets sent to devices (device.c)

    Lookup in the device list, allocation of device ids and source ports,
    framing of outgoing packets, and the small accessors of the list. *)

From stdpp Require Import base gmap list strings.
From Stdlib Require Import ZArith Lia.
From S2P Require Import Prelude Platform Wire World Utils Usb.

Local Open Scope Z_scope.

Module DeviceOut.
Section device_out.
Context `{E : Env}.

(** [&dev->connections], read through a device pointer. *)
Definition dev_connections (dev : ptr) : C world coll :=
  d ← get_dev dev; lift_option Uninitialised (dv_connections d).

(** [collection_add]/[collection_remove] on [&dev->connections] *)
Definition upd_connections (dev : ptr) (f : coll -> coll) : C world unit :=
  l ← dev_connections dev; upd_dev dev (fun d => d <| dv_connections := Some (f l) |>).

Definition get_mux_device_for_id (device_id : Z) : C world (option ptr) :=
  mutex_lock device_list_mutex ;;
  dev ← foreach (gets device_list) (fun cdev =>
    d ← get_dev cdev;
    mret (if dv_id d =? device_id then Some cdev else None));
  mutex_unlock device_list_mutex ;;
  mret dev.

Definition get_mux_connection (device_id : Z) (client : ptr) : C world (option ptr) :=
  r ← foreach (gets device_list) (fun dev =>
    d ← get_dev dev;
    if dv_id d =? device_id then
      conn ← foreach (dev_connections dev) (fun lconn =>
        c ← get_conn lconn;
        mret (if decide (cn_client c = Some client) then Some lconn else None));
      mret (Some conn)
    else mret None);
  mret (mjoin r).

(** ** Identifiers *)

(** [next_device_id++] on an [int] *)
Definition bump_next_device_id : C world unit :=
  n ← gets next_device_id;
  if n =? INT_MAX then undef SignedOverflow
  else modify (fun w => w <| next_device_id := n + 1 |>).

(** The [while(1)] of [get_next_device_id], for at most [fuel] rounds. *)
Fixpoint get_next_device_id_loop (fuel : nat) : C world Z :=
  match fuel with
  | O => no_fuel
  | S fuel' =>
    mutex_lock device_list_mutex ;;
    taken ← foreach (gets device_list) (fun dev =>
      d ← get_dev dev;
      n ← gets next_device_id;
      if dv_id d =? n then bump_next_device_id ;; mret (Some tt) else mret None);
    mutex_unlock device_list_mutex ;;
    match taken with
    | Some _ => get_next_device_id_loop fuel'
    | None => n ← gets next_device_id; bump_next_device_id ;; mret n
    end
  end.

(** One round per listed device, and one more. *)
Definition get_next_device_id : C world Z :=
  l ← gets device_list;
  get_next_device_id_loop (S (length (coll_elems l))).

Fixpoint find_sport_loop (fuel : nat) (dev : ptr) : C world Z :=
  match fuel with
  | O => no_fuel
  | S fuel' =>
    taken ← foreach (dev_connections dev) (fun conn =>
      d ← get_dev dev;
      c ← get_conn conn;
      if dv_next_sport d =? cn_sport c then
        upd_dev dev (fun d => d <| dv_next_sport := u16 (dv_next_sport d + 1) |>) ;;
        mret (Some tt)
      else mret None);
    match taken with
    | Some _ => find_sport_loop fuel' dev
    | None =>
      d ← get_dev dev;
      upd_dev dev (fun d => d <| dv_next_sport := u16 (dv_next_sport d + 1) |>) ;;
      mret (dv_next_sport d)
    end
  end.

(** One round per connection, and one more. *)
Definition find_sport (dev : ptr) : C world Z :=
  conns ← dev_connections dev;
  if 65535 <=? coll_count conns then mret 0  (* insanity *)
  else find_sport_loop (S (length (coll_elems conns))) dev.

(** ** Outgoing packets *)

Definition proto_hdrlen (proto : mux_protocol) : option Z :=
  match proto with
  | MUX_PROTO_VERSION => Some sizeof_version_header
  | MUX_PROTO_SETUP => Some 0
  | MUX_PROTO_TCP => Some sizeof_tcphdr
  | MUX_PROTO_CONTROL => None
  end.

(** A null [data] with [length] 0 is the empty list. *)
Definition send_packet (dev : ptr) (proto : mux_protocol) (header data : list Z) : C world Z :=
  match proto_hdrlen proto with
  | None => mret (-1)
  | Some hdrlen =>
    d ← get_dev dev;
    let total := mux_header_size (dv_version d) + hdrlen + zlen data in
    if total >? USB_MTU then mret (-1)
    else
      when ((2 <=? dv_version d) && bool_decide (proto = MUX_PROTO_SETUP))
        (upd_dev dev (fun d => d <| dv_tx_seq := 0 |> <| dv_rx_seq := 65535 |>)) ;;
      d ← get_dev dev;
      let mhdr := {| mh_protocol := proto_num proto;
                     mh_length := total;
                     mh_magic := 4277009102;  (* 0xfeedface *)
                     mh_tx_seq := dv_tx_seq d;
                     mh_rx_seq := dv_rx_seq d |} in
      when (2 <=? dv_version d)
        (upd_dev dev (fun d => d <| dv_tx_seq := u16 (dv_tx_seq d + 1) |>)) ;;
      buffer ← malloc w_bufs
        (mux_header_bytes (dv_version d) mhdr ++ ztake hdrlen header ++ data);
      res ← usb_send (dv_usbdev d) buffer total;
      if res <? 0 then free w_bufs buffer ;; mret res
      else mret total
  end.

Definition send_anon_rst (dev : ptr) (sport dport ack : Z) : C world Z :=
  let th := {| th_sport := sport; th_dport := dport; th_seq := 0; th_ack := ack;
               th_off := sizeof_tcphdr / 4; th_flags := TH_RST; th_win := 0 |} in
  send_packet dev MUX_PROTO_TCP (tcphdr_bytes th) [].

(** The header of a segment of a connection. *)
Definition conn_tcphdr (c : mux_connection) (flags : Z) : tcphdr :=
  {| th_sport := cn_sport c; th_dport := cn_dport c;
     th_seq := cn_tx_seq c; th_ack := cn_tx_ack c;
     th_off := sizeof_tcphdr / 4; th_flags := flags;
     th_win := Z.shiftr (cn_tx_win c) 8 |}.

Definition send_tcp (conn : ptr) (flags : Z) (data : list Z) : C world Z :=
  c ← get_conn conn;
  res ← send_packet (cn_dev c) MUX_PROTO_TCP (tcphdr_bytes (conn_tcphdr c flags)) data;
  when (0 <=? res) (
    tm ← mstime64;
    upd_conn conn (fun c => c <| cn_tx_acked := cn_tx_ack c |>
                              <| cn_last_ack_time := tm |>
                              <| cn_flags := clear_flag (cn_flags c) CONN_ACK_PENDING |>)) ;;
  mret res.

(** ** Accessors of the device list *)

(** Runs [f] on the first device with this id, under the mutex. *)
Definition on_device_id (device_id : Z) (f : mux_device -> mux_device) : C world unit :=
  mutex_lock device_list_mutex ;;
  foreach (gets device_list) (fun dev =>
    d ← get_dev dev;
    if dv_id d =? device_id then upd_dev dev f ;; mret (Some tt) else mret None) ;;
  mutex_unlock device_list_mutex.

Definition device_set_visible (device_id : Z) : C world unit :=
  on_device_id device_id (fun d => d <| dv_visible := 1 |>).

Definition device_set_preflight_cb_data (device_id : Z) (data : option ptr) : C world unit :=
  on_device_id device_id (fun d => d <| dv_preflight_cb_data := data |>).

(** [(dev->state == MUXDEV_ACTIVE) && (include_hidden || dev->visible)] *)
Definition dev_listed (include_hidden : bool) (d : mux_device) : bool :=
  bool_decide (dv_state d = MUXDEV_ACTIVE) && (include_hidden || negb (dv_visible d =? 0)).

(** The loop over a private copy of the list; [f] maps a listed device to
    what is collected for it. *)
Fixpoint collect_devices {A} (include_hidden : bool) (f : ptr -> mux_device -> C world A)
    (devs : list ptr) : C world (list A) :=
  match devs with
  | [] => mret []
  | dev :: devs' =>
    d ← get_dev dev;
    if dev_listed include_hidden d then
      a ← f dev d;
      rest ← collect_devices include_hidden f devs';
      mret (a :: rest)
    else collect_devices include_hidden f devs'
  end.

Definition copy_device_list : C world (list ptr) :=
  mutex_lock device_list_mutex ;;
  dev_list ← gets device_list;
  mutex_unlock device_list_mutex ;;
  mret (coll_elems dev_list).

Definition device_get_count (include_hidden : bool) : C world Z :=
  devs ← copy_device_list;
  l ← collect_devices include_hidden (fun _ _ => mret tt) devs;
  mret (zlen l).

(** The attributes device_get_list and device_version_input store. *)
Definition make_device_info (d : mux_device) : C world device_info :=
  serial ← usb_get_serial (dv_usbdev d);
  location ← usb_get_location (dv_usbdev d);
  pid ← usb_get_pid (dv_usbdev d);
  speed ← usb_get_speed (dv_usbdev d);
  mret (mk_info (dv_id d) serial location pid speed).

(** The array [*devices], whose length is the count that is returned. *)
Definition device_get_list (include_hidden : bool) : C world (list device_info) :=
  devs ← copy_device_list;
  collect_devices include_hidden (fun _ d => make_device_info d) devs.

(** ** Initialization *)

Definition device_init : C world unit :=
  modify (fun w => w <| device_list := coll_init |> <| next_device_id := 1 |>).

End device_out.
End DeviceOut.
Export DeviceOut.
