(* ===== verification/Teardown.v ===== *)
(** * Teardown: the end of a connection and of a client

    [connection_teardown] and [device_abort_connect] of device.c and
    [client_close] of client.c call each other: tearing down a connection
    closes its client, closing a client aborts its pending connection. The
    recursion is modelled with a depth; TeardownFacts.v shows that depth 2 is
    enough. *)

From stdpp Require Import base gmap list strings.
From Stdlib Require Import ZArith Lia.
From S2P Require Import Prelude Platform Wire World Utils Usb ClientOut DeviceOut.

Local Open Scope Z_scope.

Module Teardown.
Section teardown.
Context `{E : Env}.

(** [conn->ib_size -= size; memmove(conn->ib_buf, conn->ib_buf + size,
    conn->ib_size)], or [conn->ib_size = 0] when everything was written. *)
Definition consume_ib (size : Z) (c : mux_connection) : mux_connection :=
  if size =? s32 (cn_ib_size c) then c <| cn_ib_size := 0 |>
  else
    let left := u32 (cn_ib_size c - size) in
    c <| cn_ib_size := left |>
      <| cn_ib_buf := write_at 0 (slice size left (cn_ib_buf c)) (cn_ib_buf c) |>.

(** The loop that flushes the input buffer to the client. *)
Fixpoint flush_loop (fuel : nat) (conn : ptr) (tm_last : Z) : C world unit :=
  match fuel with
  | O => no_fuel
  | S fuel' =>
    c ← get_conn conn;
    client ← nonnull (cn_client c);
    size ← client_write client (ztake (cn_ib_size c) (cn_ib_buf c));
    if size <? 0 then mret tt
    else if size =? 0 then
      tm_now ← mstime64;
      if u64 (tm_now - tm_last) >? 1000 then mret tt
      else emit (EvUsleep 10000) ;; flush_loop fuel' conn tm_last
    else
      upd_conn conn (consume_ib size) ;;
      if size =? s32 (cn_ib_size c) then mret tt
      else
        tm_last ← mstime64;
        flush_loop fuel' conn tm_last
  end.

(** At most 101 sleeps of 10 ms between two writes that make progress. *)
Definition flush_fuel (c : mux_connection) : nat := (Z.to_nat (cn_ib_size c) + 1) * 103.

Definition device_abort_connect_with (teardown : ptr -> C world unit)
    (device_id : Z) (client : ptr) : C world unit :=
  conn ← get_mux_connection device_id client;
  match conn with
  | Some conn => upd_conn conn (fun c => c <| cn_client := None |>) ;; teardown conn
  | None => mret tt
  end.

Definition client_listed (client : ptr) : C world bool :=
  r ← foreach (gets client_list) (fun lc =>
    mret (if decide (client = lc) then Some tt else None));
  mret (match r with Some _ => true | None => false end).

Definition client_close_with (teardown : ptr -> C world unit) (client : ptr) : C world unit :=
  mutex_lock client_list_mutex ;;
  found ← client_listed client;
  if negb found then mutex_unlock client_list_mutex
  else
    c ← get_client client;
    when (bool_decide (cl_state c = CLIENT_CONNECTING1 \/ cl_state c = CLIENT_CONNECTING2)) (
      upd_client client (fun c => c <| cl_state := CLIENT_DEAD |>) ;;
      device_abort_connect_with teardown (cl_connect_device c) client) ;;
    c ← get_client client;
    emit (EvClose (cl_fd c)) ;;
    modify (fun w => w <| client_list ::= fun l => coll_remove l client |>) ;;
    mutex_unlock client_list_mutex ;;
    free w_clients client.

Fixpoint connection_teardown_depth (depth : nat) (conn : ptr) : C world unit :=
  match depth with
  | O => no_fuel
  | S depth' =>
    c ← get_conn conn;
    if decide (cn_state c = CONN_DEAD) then mret tt
    else
      d ← get_dev (cn_dev c);
      when (bool_decide (dv_state d <> MUXDEV_DEAD /\ cn_state c <> CONN_DYING
                         /\ cn_state c <> CONN_REFUSED))
        (send_tcp conn TH_RST [] ;; mret tt) ;;
      c ← get_conn conn;
      match cn_client c with
      | Some client =>
        if decide (cn_state c = CONN_REFUSED \/ cn_state c = CONN_CONNECTING) then
          client_notify_connect client RESULT_CONNREFUSED ;; mret tt
        else
          upd_conn conn (fun c => c <| cn_state := CONN_DEAD |>) ;;
          when (flag_set (cn_events c) POLLOUT && (0 <? cn_ib_size c)) (
            tm_last ← mstime64;
            flush_loop (flush_fuel c) conn tm_last) ;;
          client_close_with (connection_teardown_depth depth') client
      | None => mret tt
      end ;;
      c ← get_conn conn;
      upd_connections (cn_dev c) (fun l => coll_remove l conn) ;;
      free w_conns conn
  end.

Definition connection_teardown : ptr -> C world unit := connection_teardown_depth 2.
Definition device_abort_connect : Z -> ptr -> C world unit :=
  device_abort_connect_with connection_teardown.
Definition client_close : ptr -> C world unit := client_close_with connection_teardown.

End teardown.
End Teardown.
Export Teardown.
