(* ===== verification/Device.v ===== *)
(** * Device: connections and incoming packets (device.c), and the entry of
    preflight.c

    Opening a connection, moving data between a client and its connection,
    handling packets that arrive from a device, and adding and removing
    devices. *)

From stdpp Require Import base gmap list strings.
From Stdlib Require Import ZArith Lia.
From S2P Require Import Prelude Platform Wire World Utils Usb ClientOut DeviceOut Teardown.

Local Open Scope Z_scope.

Module Device.
Section device.
Context `{E : Env}.

(** ** Announcing a device to the listening clients *)

Definition client_device_add (dev : device_info) : C world unit :=
  mutex_lock client_list_mutex ;;
  device_set_visible (di_id dev) ;;
  foreach_listener (fun client => send_device_add client dev ;; mret tt) ;;
  mutex_unlock client_list_mutex.

(** preflight.c, built with libimobiledevice. The worker thread itself runs
    later; its start is an event. *)
Definition preflight_worker_device_add (info : device_info) : C world unit :=
  np ← gets no_preflight;
  if (di_pid info =? PID_APPLE_T2_COPROCESSOR) || (np =? 1) then client_device_add info
  else
    t ← gets w_trace;
    if negb (sys_thread_new t =? 0) then client_device_add info
    else emit (EvPreflight (di_id info)).

Definition preflight_device_remove_cb (data : option ptr) : C world unit :=
  match data with
  | None => mret tt
  | Some cb => update w_cbs cb (fun c => c <| cb_is_device_connected := 0 |>)
  end.

(** ** Connections *)

(** The connection that [device_start_connect] allocates. *)
Definition new_connection (t : list event) (dev client : ptr) (sport dport : Z) :
    mux_connection :=
  {| cn_dev := dev; cn_client := Some client; cn_state := CONN_CONNECTING;
     cn_sport := sport; cn_dport := dport;
     cn_tx_seq := 0; cn_tx_ack := 0; cn_tx_acked := 0; cn_tx_win := 131072;
     cn_rx_seq := 0; cn_rx_recvd := 0; cn_rx_ack := 0; cn_rx_win := 0;
     cn_max_payload := USB_MTU - sizeof_mux_header - sizeof_tcphdr;
     cn_sendable := 0; cn_flags := 0;
     cn_ib_buf := sys_malloc_bytes t CONN_INBUF_SIZE; cn_ib_size := 0;
     cn_ib_capacity := CONN_INBUF_SIZE;
     cn_ob_buf := sys_malloc_bytes t CONN_OUTBUF_SIZE;
     cn_ob_capacity := CONN_OUTBUF_SIZE;
     cn_events := 0; cn_last_ack_time := 0 |}.

Definition device_start_connect (device_id dport : Z) (client : ptr) : C world Z :=
  dev ← get_mux_device_for_id device_id;
  match dev with
  | None => mret (- result_num RESULT_BADDEV)
  | Some dev =>
    sport ← find_sport dev;
    if sport =? 0 then mret (- result_num RESULT_BADDEV)
    else
      t ← gets w_trace;
      conn ← malloc w_conns (new_connection t dev client sport dport);
      res ← send_tcp conn TH_SYN [];
      if res <? 0 then
        free w_conns conn ;; mret (- result_num RESULT_CONNREFUSED)
      else
        upd_connections dev (fun l => coll_add l conn) ;;
        mret 0
  end.

(** The fields [update_connection] computes. *)
Definition conn_sent (c : mux_connection) : Z := u32 (cn_tx_seq c - cn_rx_ack c).

Definition conn_sendable (c : mux_connection) : Z :=
  let sendable := if conn_sent c <? cn_rx_win c then u32 (cn_rx_win c - conn_sent c) else 0 in
  let sendable := if cn_ob_capacity c <? sendable then cn_ob_capacity c else sendable in
  if cn_max_payload c <? sendable then cn_max_payload c else sendable.

Definition set_flag_if (b : bool) (x m : Z) : Z := if b then Z.lor x m else clear_flag x m.

Definition updated_connection (c : mux_connection) : mux_connection :=
  let sendable := conn_sendable c in
  c <| cn_sendable := sendable |>
    <| cn_events := set_flag_if (negb (cn_ib_size c =? 0))
                      (set_flag_if (0 <? sendable) (cn_events c) POLLIN) POLLOUT |>
    <| cn_flags := set_flag_if (negb (cn_tx_acked c =? cn_tx_ack c)) (cn_flags c)
                     CONN_ACK_PENDING |>.

Definition update_connection (conn : ptr) : C world unit :=
  upd_conn conn updated_connection ;;
  c ← get_conn conn;
  client_set_events (cn_client c) (cn_events c) ;;
  mret tt.

Definition send_tcp_ack (conn : ptr) : C world Z :=
  res ← send_tcp conn TH_ACK [];
  if res <? 0 then connection_teardown conn ;; mret (-1)
  else update_connection conn ;; mret 0.

Definition device_client_process (device_id : Z) (client : ptr) (events : Z) : C world unit :=
  mutex_lock device_list_mutex ;;
  conn ← get_mux_connection device_id client;
  mutex_unlock device_list_mutex ;;
  match conn with
  | None => mret tt
  | Some conn =>
    c ← get_conn conn;
    cont ← (if flag_set events POLLOUT && (0 <? cn_ib_size c) then
        cl ← nonnull (cn_client c);
        size ← client_write cl (ztake (cn_ib_size c) (cn_ib_buf c));
        if size <=? 0 then connection_teardown conn ;; mret false
        else
          upd_conn conn (fun c => consume_ib size (c <| cn_tx_ack := u32 (cn_tx_ack c + size) |>)) ;;
          mret true
      else mret true);
    if negb cont then mret tt
    else
      c ← get_conn conn;
      cont ← (if flag_set events POLLIN && (0 <? cn_sendable c) then
          cl ← nonnull (cn_client c);
          r ← client_read cl (cn_sendable c);
          let '(size, data) := r in
          if size <=? 0 then connection_teardown conn ;; mret false
          else if zlen (cn_ob_buf c) <? size then undef OutOfBounds
          else
            upd_conn conn (fun c => c <| cn_ob_buf := write_at 0 data (cn_ob_buf c) |>) ;;
            res ← send_tcp conn TH_ACK data;
            if res <? 0 then connection_teardown conn ;; mret false
            else
              upd_conn conn (fun c => c <| cn_tx_seq := u32 (cn_tx_seq c + size) |>) ;;
              mret true
        else mret true);
      if negb cont then mret tt
      else update_connection conn
  end.

Definition connection_device_input (conn : ptr) (payload : list Z) : C world unit :=
  c ← get_conn conn;
  if cn_ib_capacity c <? u32 (cn_ib_size c + zlen payload) then connection_teardown conn
  else if zlen (cn_ib_buf c) <? cn_ib_size c + zlen payload then undef OutOfBounds
  else
    upd_conn conn (fun c =>
      c <| cn_ib_buf := write_at (cn_ib_size c) payload (cn_ib_buf c) |>
        <| cn_ib_size := u32 (cn_ib_size c + zlen payload) |>
        <| cn_rx_recvd := u32 (cn_rx_recvd c + zlen payload) |>) ;;
    update_connection conn.

(** ** Packets from a device *)

Definition device_version_input (dev : ptr) (vh : list Z) : C world unit :=
  d ← get_dev dev;
  if decide (dv_state d <> MUXDEV_INIT) then mret tt
  else
    let major := get_be 0 4 vh in
    if negb (major =? 2) && negb (major =? 1) then
      mutex_lock device_list_mutex ;;
      modify (fun w => w <| device_list ::= fun l => coll_remove l dev |>) ;;
      mutex_unlock device_list_mutex ;;
      free w_devs dev
    else
      upd_dev dev (fun d => d <| dv_version := major |>) ;;
      when (2 <=? major) (send_packet dev MUX_PROTO_SETUP [] [7] ;; mret tt) ;;
      upd_dev dev (fun d => d <| dv_state := MUXDEV_ACTIVE |>
                              <| dv_connections := Some coll_init |>) ;;
      d ← get_dev dev;
      info ← make_device_info d;
      preflight_worker_device_add info.

(** [%.*s]: the bytes up to the precision (none when it is negative) or to
    the terminator, whichever comes first. *)
Fixpoint print_string (prec : option nat) (buf : list Z) : C world (list Z) :=
  match prec with
  | Some O => mret []
  | _ =>
    match buf with
    | [] => undef Unterminated
    | b :: buf' =>
      if b =? 0 then mret []
      else
        s ← print_string (Nat.pred <$> prec) buf';
        mret (b :: s)
    end
  end.

(** The [int] precision [payload_length - 1]. *)
Definition log_prec (payload_length : Z) : option nat :=
  let p := s32 (payload_length - 1) in
  if p <? 0 then None else Some (Z.to_nat p).

(** [payload] is the buffer from the payload pointer to its end. *)
Definition device_control_input (dev : ptr) (payload : list Z) (payload_length : Z) :
    C world unit :=
  d ← get_dev dev;
  if 0 <? payload_length then
    match payload with
    | [] => undef OutOfBounds
    | kind :: text =>
      let level := if kind =? 3 then LL_ERROR
                   else if kind =? 5 then LL_WARNING
                   else if kind =? 7 then
                     if 1 <? payload_length then LL_INFO else LL_WARNING
                   else LL_WARNING in
      if ((kind =? 3) || (kind =? 5) || (kind =? 7)) && negb (1 <? payload_length) then
        emit (EvDeviceLog level (dv_id d) [])
      else
        s ← print_string (log_prec payload_length) text;
        emit (EvDeviceLog level (dv_id d) s)
    end
  else mret tt.

Definition find_connection (dev : ptr) (sport dport : Z) : C world (option ptr) :=
  foreach (dev_connections dev) (fun lconn =>
    c ← get_conn lconn;
    mret (if (cn_sport c =? sport) && (cn_dport c =? dport) then Some lconn else None)).

(** A segment of a connection, by the state of the connection. *)
Definition connection_tcp_input (conn : ptr) (th : tcphdr) (payload : list Z) : C world unit :=
  upd_conn conn (fun c => c <| cn_rx_seq := th_seq th |>
                            <| cn_rx_ack := th_ack th |>
                            <| cn_rx_win := Z.shiftl (th_win th) 8 |>) ;;
  c ← get_conn conn;
  match cn_state c with
  | CONN_CONNECTING =>
    if negb (th_flags th =? Z.lor TH_SYN TH_ACK) then
      when (flag_set (th_flags th) TH_RST)
        (upd_conn conn (fun c => c <| cn_state := CONN_REFUSED |>)) ;;
      connection_teardown conn
    else
      upd_conn conn (fun c => c <| cn_tx_seq := u32 (cn_tx_seq c + 1) |>
                                <| cn_tx_ack := u32 (cn_tx_ack c + 1) |>
                                <| cn_rx_recvd := cn_rx_seq c |>) ;;
      res ← send_tcp conn TH_ACK [];
      if res <? 0 then connection_teardown conn
      else
        upd_conn conn (fun c => c <| cn_state := CONN_CONNECTED |>) ;;
        c ← get_conn conn;
        client ← nonnull (cn_client c);
        r ← client_notify_connect client RESULT_OK;
        when (r <? 0) (
          upd_conn conn (fun c => c <| cn_client := None |>) ;;
          connection_teardown conn) ;;
        update_connection conn
  | CONN_CONNECTED =>
    if negb (th_flags th =? TH_ACK) then
      when (flag_set (th_flags th) TH_RST)
        (upd_conn conn (fun c => c <| cn_state := CONN_DYING |>)) ;;
      connection_teardown conn
    else
      connection_device_input conn payload ;;
      send_tcp_ack conn ;;
      mret tt
  | _ => mret tt
  end.

Definition device_tcp_input (dev : ptr) (th : tcphdr) (payload : list Z) : C world unit :=
  let sport := th_dport th in
  let dport := th_sport th in
  d ← get_dev dev;
  if decide (dv_state d <> MUXDEV_ACTIVE) then mret tt
  else
    conn ← find_connection dev sport dport;
    match conn with
    | None =>
      when (negb (flag_set (th_flags th) TH_RST))
        (send_anon_rst dev sport dport (th_seq th) ;; mret tt)
    | Some conn => connection_tcp_input conn th payload
    end.

(** What to do with a transfer that arrived: drop it, keep it until the rest
    of the packet arrives, or handle the bytes [buffer] of which [length] were
    received. The new gather buffer and its length are returned as well. *)
Inductive gathered :=
  | Drop
  | Wait
  | Packet (buffer : list Z) (length : Z).

Definition gather (pktbuf : list Z) (pktlen : Z) (buffer : list Z) (length : Z) :
    gathered * list Z * Z :=
  if negb (pktlen =? 0) then
    if DEV_MRU <? u32 (length + pktlen) then (Drop, pktbuf, 0)
    else
      let pktbuf := write_at pktlen (ztake length buffer) pktbuf in
      if (length <? USB_MRU) || (mhdr_length pktbuf =? u32 (length + pktlen)) then
        (Packet pktbuf (u32 (length + pktlen)), pktbuf, 0)
      else (Wait, pktbuf, u32 (pktlen + length))
  else if (length =? USB_MRU) && (length <? mhdr_length buffer) then
    (Wait, write_at 0 (ztake length buffer) pktbuf, length)
  else (Packet buffer length, pktbuf, pktlen).

(** The dispatch on the protocol of a complete packet. *)
Definition device_packet_input (dev : ptr) (buffer : list Z) (length : Z) : C world unit :=
  d ← get_dev dev;
  let size := mux_header_size (dv_version d) in
  if negb (mhdr_length buffer =? length) then mret tt
  else
    when (2 <=? dv_version d) (upd_dev dev (fun d => d <| dv_rx_seq := mhdr_rx_seq buffer |>)) ;;
    let proto := mhdr_protocol buffer in
    if proto =? proto_num MUX_PROTO_VERSION then
      if length <? size + sizeof_version_header then mret tt
      else device_version_input dev (zdrop size buffer)
    else if proto =? proto_num MUX_PROTO_CONTROL then
      device_control_input dev (zdrop sizeof_mux_header buffer) (u32 (length - size))
    else if proto =? proto_num MUX_PROTO_TCP then
      if length <? size + sizeof_tcphdr then mret tt
      else
        device_tcp_input dev (tcphdr_parse (zdrop size buffer))
          (slice (size + sizeof_tcphdr) (length - sizeof_tcphdr - size) buffer)
    else mret tt.

Definition find_usbdev (usbdev : ptr) : C world (option ptr) :=
  mutex_lock device_list_mutex ;;
  dev ← foreach (gets device_list) (fun tdev =>
    d ← get_dev tdev;
    mret (if decide (dv_usbdev d = usbdev) then Some tdev else None));
  mutex_unlock device_list_mutex ;;
  mret dev.

(** [buffer] is the whole transfer buffer, of which [length] bytes were
    received. *)
Definition device_data_input (usbdev : ptr) (buffer : list Z) (length : Z) : C world unit :=
  dev ← find_usbdev usbdev;
  match dev with
  | None => mret tt
  | Some dev =>
    if length =? 0 then mret tt
    else if (USB_MRU <? length) || (DEV_MRU <? length) then mret tt
    else
      d ← get_dev dev;
      let '(g, pktbuf, pktlen) := gather (dv_pktbuf d) (dv_pktlen d) buffer length in
      upd_dev dev (fun d => d <| dv_pktbuf := pktbuf |> <| dv_pktlen := pktlen |>) ;;
      match g with
      | Packet buffer length => device_packet_input dev buffer length
      | Drop | Wait => mret tt
      end
  end.

(** ** Adding and removing devices *)

(** [rx_seq] and [tx_seq] are not initialized; they are not used before
    [send_packet] sets them. *)
Definition device_add (usbdev : ptr) : C world Z :=
  id ← get_next_device_id;
  t ← gets w_trace;
  let junk := be_val (sys_malloc_bytes t 2) in
  dev ← malloc w_devs
    {| dv_id := id; dv_usbdev := usbdev; dv_state := MUXDEV_INIT; dv_visible := 0;
       dv_connections := None; dv_next_sport := 1;
       dv_pktbuf := sys_malloc_bytes t DEV_MRU; dv_pktlen := 0;
       dv_preflight_cb_data := None; dv_version := 0;
       dv_rx_seq := junk; dv_tx_seq := junk |};
  res ← send_packet dev MUX_PROTO_VERSION (version_header_bytes 2 0) [];
  if res <? 0 then free w_devs dev ;; mret res
  else
    mutex_lock device_list_mutex ;;
    modify (fun w => w <| device_list ::= fun l => coll_add l dev |>) ;;
    mutex_unlock device_list_mutex ;;
    mret 0.

(** [FOREACH(conn, &dev->connections) connection_teardown(conn)] *)
Definition teardown_connections (dev : ptr) : C world unit :=
  foreach (dev_connections dev) (each connection_teardown) ;; mret tt.

Definition device_remove (usbdev : ptr) : C world unit :=
  mutex_lock device_list_mutex ;;
  r ← foreach (gets device_list) (fun dev =>
    d ← get_dev dev;
    if decide (dv_usbdev d = usbdev) then
      when (bool_decide (dv_state d = MUXDEV_ACTIVE)) (
        upd_dev dev (fun d => d <| dv_state := MUXDEV_DEAD |>) ;;
        teardown_connections dev ;;
        client_device_remove (dv_id d) ;;
        upd_dev dev (fun d => d <| dv_connections := None |>)) ;;
      d ← get_dev dev;
      when (bool_decide (is_Some (dv_preflight_cb_data d)))
        (preflight_device_remove_cb (dv_preflight_cb_data d)) ;;
      modify (fun w => w <| device_list ::= fun l => coll_remove l dev |>) ;;
      mutex_unlock device_list_mutex ;;
      free w_devs dev ;;
      mret (Some tt)
    else mret None);
  match r with
  | Some _ => mret tt
  | None => mutex_unlock device_list_mutex
  end.

(** ** Delayed acknowledgements *)

(** The connections of the active devices, in the order of the two loops. *)
Definition foreach_active_conn (body : ptr -> C world unit) : C world unit :=
  foreach (gets device_list) (each (fun dev =>
    d ← get_dev dev;
    when (bool_decide (dv_state d = MUXDEV_ACTIVE)) (
      foreach (dev_connections dev) (each body) ;; mret tt))) ;;
  mret tt.

Definition ack_pending (c : mux_connection) : bool :=
  bool_decide (cn_state c = CONN_CONNECTED) && flag_set (cn_flags c) CONN_ACK_PENDING.

(** The oldest acknowledgement time; [oldest] starts at 2^64 - 1. *)
Fixpoint oldest_pending (conns : list mux_connection) (oldest : Z) : Z :=
  match conns with
  | [] => oldest
  | c :: rest =>
    oldest_pending rest
      (if ack_pending c && (cn_last_ack_time c <? oldest) then cn_last_ack_time c else oldest)
  end.

Fixpoint load_conns (ps : list ptr) : C world (list mux_connection) :=
  match ps with
  | [] => mret []
  | p :: ps' => c ← get_conn p; cs ← load_conns ps'; mret (c :: cs)
  end.

(** The connections of the active devices, read without changing anything. *)
Fixpoint active_conns (devs : list ptr) : C world (list mux_connection) :=
  match devs with
  | [] => mret []
  | dev :: devs' =>
    d ← get_dev dev;
    cs ← (if decide (dv_state d = MUXDEV_ACTIVE) then
            l ← dev_connections dev; load_conns (coll_elems l)
          else mret []);
    rest ← active_conns devs';
    mret (cs ++ rest)
  end.

Definition timeout_of (oldest ct : Z) : Z :=
  if s64 oldest =? -1 then 100000
  else if ACK_TIMEOUT <? u64 (ct - oldest) then 0
  else s32 (u64 (ACK_TIMEOUT - u64 (ct - oldest))).

Definition device_get_timeout : C world Z :=
  mutex_lock device_list_mutex ;;
  l ← gets device_list;
  conns ← active_conns (coll_elems l);
  let oldest := oldest_pending conns (2 ^ 64 - 1) in
  mutex_unlock device_list_mutex ;;
  ct ← mstime64;
  mret (timeout_of oldest ct).

Definition device_check_timeouts : C world unit :=
  ct ← mstime64;
  mutex_lock device_list_mutex ;;
  foreach_active_conn (fun conn =>
    c ← get_conn conn;
    when (ack_pending c && (ACK_TIMEOUT <? u64 (ct - cn_last_ack_time c)))
      (send_tcp_ack conn ;; mret tt)) ;;
  mutex_unlock device_list_mutex.

(** ** Shutdown *)

(** [usb_process_timeout] lets libusb deliver the last packets. *)
Definition device_kill_connections (usb_process_timeout : Z -> C world Z) : C world unit :=
  foreach (gets device_list) (each (fun dev =>
    d ← get_dev dev;
    when (bool_decide (dv_state d <> MUXDEV_INIT)) (teardown_connections dev))) ;;
  usb_process_timeout 100 ;;
  mret tt.

Definition device_shutdown : C world unit :=
  mutex_lock device_list_mutex ;;
  foreach (gets device_list) (each (fun dev =>
    teardown_connections dev ;;
    upd_dev dev (fun d => d <| dv_connections := None |>) ;;
    modify (fun w => w <| device_list ::= fun l => coll_remove l dev |>) ;;
    free w_devs dev)) ;;
  mutex_unlock device_list_mutex ;;
  modify (fun w => w <| device_list := coll_init |>).

End device.
End Device.
Export Device.
