(* ===== verification/Client.v ===== *)
(** * Client: accepting clients and handling their commands (client.c) *)

From stdpp Require Import base gmap list strings pretty.
From Stdlib Require Import ZArith Lia String.
From S2P Require Import Prelude Platform Wire World Utils Conf Usb ClientOut DeviceOut.
From S2P Require Import Teardown Device.

Local Open Scope string_scope.
Local Open Scope list_scope.
Local Open Scope Z_scope.

Module Client.
Section client.
Context `{E : Env}.

Definition client_accept (listenfd : Z) : C world Z :=
  t ← gets w_trace;
  let r := sys_accept t listenfd in
  emit (EvAccept listenfd r) ;;
  match r with
  | inr _ => mret (-1)
  | inl cfd =>
    t ← gets w_trace;
    client ← malloc w_clients
      {| cl_fd := cfd;
         cl_ob_buf := Some (sys_malloc_bytes t REPLY_BUF_SIZE);
         cl_ob_size := 0; cl_ob_capacity := REPLY_BUF_SIZE;
         cl_ib_buf := Some (sys_malloc_bytes t CMD_BUF_SIZE);
         cl_ib_size := 0; cl_ib_capacity := CMD_BUF_SIZE;
         cl_events := POLLIN; cl_devents := 0;
         cl_connect_tag := 0; cl_connect_device := 0;
         cl_state := CLIENT_COMMAND; cl_proto_version := 0; cl_number := 0;
         cl_info := None |};
    mutex_lock client_list_mutex ;;
    n ← gets client_number;
    upd_client client (fun c => c <| cl_number := n |>) ;;
    modify (fun w => w <| client_number := u32 (n + 1) |>
                       <| client_list ::= fun l => coll_add l client |>) ;;
    mutex_unlock client_list_mutex ;;
    mret cfd
  end.

Fixpoint add_client_fds (clients : list ptr) (list : Fdlist.fdlist) : C world Fdlist.fdlist :=
  match clients with
  | [] => mret list
  | client :: rest =>
    c ← get_client client;
    add_client_fds rest (Fdlist.fdlist_add list Fdlist.FD_CLIENT (cl_fd c) (cl_events c))
  end.

Definition client_get_fds (list : Fdlist.fdlist) : C world Fdlist.fdlist :=
  mutex_lock client_list_mutex ;;
  l ← gets client_list;
  list ← add_client_fds (coll_elems l) list;
  mutex_unlock client_list_mutex ;;
  mret list.

(** ** Replies *)

(** The plists of all devices appended to an array. *)
Fixpoint append_device_plists (devs : list device_info) (devices : plist_t) : C world plist_t :=
  match devs with
  | [] => mret devices
  | dev :: rest =>
    device ← create_device_attached_plist dev;
    append_device_plists rest (plist_array_append_item devices device)
  end.

Definition send_device_list (client : ptr) (tag : Z) : C world Z :=
  devs ← device_get_list false;
  devices ← append_device_plists devs plist_new_array;
  send_plist client tag (plist_dict_set_item plist_new_dict "DeviceList" devices).

(** The entry of one listening client [lc] in the reply to [client]. *)
Definition listener_plist (client lc : mux_client) : plist_t :=
  let l := plist_dict_set_item plist_new_dict "Blacklisted" (plist_new_bool false) in
  let l := match cl_info lc with
           | Some info => plist_dict_copy_item l info "BundleID"
           | None => l
           end in
  let l := plist_dict_set_item l "ConnType" (plist_new_uint 0) in
  let progname := default "unknown"
    (info ← cl_info lc; n ← plist_dict_get_item info "ProgName"; plist_get_string_val n) in
  let idstring := pretty (Z.to_N (cl_number client)) +:+ "-" +:+ progname in
  let l := plist_dict_set_item l "ID String" (plist_new_string idstring) in
  let l := plist_dict_set_item l "ProgName" (plist_new_string progname) in
  let version := default 0
    (info ← cl_info lc; n ← plist_dict_get_item info "kLibUSBMuxVersion"; plist_get_uint_val n) in
  plist_dict_set_item l "kLibUSBMuxVersion" (plist_new_uint version).

Fixpoint append_listeners (client : ptr) (clients : list ptr) (listeners : plist_t) :
    C world plist_t :=
  match clients with
  | [] => mret listeners
  | p :: rest =>
    lc ← get_client p;
    if decide (cl_state lc = CLIENT_LISTEN) then
      c ← get_client client;
      append_listeners client rest (plist_array_append_item listeners (listener_plist c lc))
    else append_listeners client rest listeners
  end.

Definition send_listener_list (client : ptr) (tag : Z) : C world Z :=
  mutex_lock client_list_mutex ;;
  l ← gets client_list;
  listeners ← append_listeners client (coll_elems l) plist_new_array;
  mutex_unlock client_list_mutex ;;
  send_plist client tag (plist_dict_set_item plist_new_dict "ListenerList" listeners).

Definition send_system_buid (client : ptr) (tag : Z) : C world Z :=
  buid ← Conf.config_get_system_buid;
  send_plist client tag (plist_dict_set_item plist_new_dict "BUID" (plist_new_string buid)).

Definition send_pair_record (client : ptr) (tag : Z) (record_id : option string) : C world Z :=
  match record_id with
  | None => send_result client tag EINVAL
  | Some record_id =>
    r ← Conf.config_get_device_record record_id;
    match snd r with
    | Some record_data =>
      send_plist client tag
        (plist_dict_set_item plist_new_dict "PairRecordData" (plist_new_data record_data))
    | None => send_result client tag ENOENT
    end
  end.

Fixpoint send_device_adds (client : ptr) (devs : list device_info) : C world bool :=
  match devs with
  | [] => mret true
  | dev :: rest =>
    r ← send_device_add client dev;
    if r <? 0 then mret false else send_device_adds client rest
  end.

Definition start_listen (client : ptr) : C world Z :=
  upd_client client (fun c => c <| cl_state := CLIENT_LISTEN |>) ;;
  devs ← device_get_list false;
  ok ← send_device_adds client devs;
  mret (if ok : bool then zlen devs else -1).

Definition plist_dict_get_string_val (dict : plist_t) (key : string) : option string :=
  if decide (plist_get_node_type dict = PLIST_DICT) then
    Conf.string_node (plist_dict_get_item dict key)
  else None.

Definition client_info_of (dict : plist_t) : plist_t :=
  let info := plist_dict_copy_item plist_new_dict dict "BundleID" in
  let info := plist_dict_copy_item info dict "ClientVersionString" in
  let info := plist_dict_copy_item info dict "ProgName" in
  plist_dict_copy_item info dict "kLibUSBMuxVersion".

Definition update_client_info (client : ptr) (dict : plist_t) : C world unit :=
  upd_client client (fun c => c <| cl_info := Some (client_info_of dict) |>).

(** ** Commands *)

(** [if (m < 0) return -1; return 0;] *)
Definition check_sent (m : C world Z) : C world Z :=
  r ← m; mret (if r <? 0 then -1 else 0).

(** [ntohs] of a 16-bit value of the (little-endian) host. *)
Definition ntohs (x : Z) : Z := be_val (le_bytes 2 x).

(** The common end of both kinds of connect request. *)
Definition start_connect (client : ptr) (tag device_id port : Z) : C world Z :=
  res ← device_start_connect (s32 device_id) port client;
  if res <? 0 then check_sent (send_result client tag (- res))
  else
    upd_client client (fun c => c <| cl_connect_tag := tag |>
                                  <| cl_connect_device := s32 device_id |>
                                  <| cl_state := CLIENT_CONNECTING1 |>) ;;
    mret 0.

Definition uint_node (dict : plist_t) (key : string) : option Z :=
  n ← plist_dict_get_item dict key; Some (default 0 (plist_get_uint_val n)).

Definition handle_connect (client : ptr) (tag : Z) (dict : plist_t) : C world Z :=
  match uint_node dict "DeviceID" with
  | None => check_sent (send_result client tag (result_num RESULT_BADDEV))
  | Some val =>
    let device_id := u32 val in
    match uint_node dict "PortNumber" with
    | None => check_sent (send_result client tag (result_num RESULT_BADCOMMAND))
    | Some val => start_connect client tag device_id (ntohs (u16 val))
    end
  end.

(** The search for the device of a saved pairing record. *)
Fixpoint device_matches (dev_id : Z) (record_id : string) (devs : list device_info) :
    C world bool :=
  match devs with
  | [] => mret false
  | dev :: rest =>
    if u32 (di_id dev) =? dev_id then
      serial ← lift_option NullDeref (di_serial dev);
      if decide (serial = record_id) then mret true
      else device_matches dev_id record_id rest
    else device_matches dev_id record_id rest
  end.

Definition saved_device_id (dict : plist_t) : Z :=
  match plist_dict_get_item dict "DeviceID" with
  | Some n =>
    if decide (plist_get_node_type n = PLIST_UINT) then u32 (default 0 (plist_get_uint_val n))
    else 0
  | None => 0
  end.

Definition save_pair_record (dict : plist_t) : C world Z :=
  let record_id := plist_dict_get_string_val dict "PairRecordID" in
  let record_data :=
    rdata ← plist_dict_get_item dict "PairRecordData";
    if decide (plist_get_node_type rdata = PLIST_DATA) then plist_get_data_val rdata else None in
  match record_id, record_data with
  | Some record_id, Some record_data =>
    res ← Conf.config_set_device_record record_id record_data;
    if res <? 0 then mret (u32 (- res))
    else
      let dev_id := saved_device_id dict in
      when (0 <? dev_id) (
        devs ← device_get_list true;
        found ← device_matches dev_id record_id devs;
        when found (client_device_paired dev_id)) ;;
      mret (result_num RESULT_OK)
  | _, _ => mret EINVAL
  end.

Definition delete_pair_record (dict : plist_t) : C world Z :=
  match plist_dict_get_string_val dict "PairRecordID" with
  | Some record_id =>
    res ← Conf.config_remove_device_record record_id;
    mret (if res <? 0 then u32 (- res) else result_num RESULT_OK)
  | None => mret EINVAL
  end.

Definition handle_listen (client : ptr) (tag : Z) : C world Z :=
  r ← send_result client tag 0;
  if r <? 0 then mret (-1) else start_listen client.

Definition handle_plist (client : ptr) (tag : Z) (payload : list Z) : C world Z :=
  upd_client client (fun c => c <| cl_proto_version := 1 |>) ;;
  match plist_from_xml payload with
  | None => mret (-1)
  | Some dict =>
    match Conf.string_node (plist_dict_get_item dict "MessageType") with
    | None => mret (-1)
    | Some message =>
      update_client_info client dict ;;
      if String.eqb message "Listen" then handle_listen client tag
      else if String.eqb message "Connect" then handle_connect client tag dict
      else if String.eqb message "ListDevices" then check_sent (send_device_list client tag)
      else if String.eqb message "ListListeners" then check_sent (send_listener_list client tag)
      else if String.eqb message "ReadBUID" then check_sent (send_system_buid client tag)
      else if String.eqb message "ReadPairRecord" then
        check_sent (send_pair_record client tag (plist_dict_get_string_val dict "PairRecordID"))
      else if String.eqb message "SavePairRecord" then
        rval ← save_pair_record dict;
        check_sent (send_result client tag rval)
      else if String.eqb message "DeletePairRecord" then
        rval ← delete_pair_record dict;
        check_sent (send_result client tag rval)
      else check_sent (send_result client tag (result_num RESULT_BADCOMMAND))
    end
  end.

(** [buf] is the input buffer that [hdr] points into. *)
Definition handle_command (client : ptr) (buf : list Z) : C world Z :=
  let hdr := usbmuxd_header_parse buf in
  let tag := hdr_tag hdr in
  c ← get_client client;
  if decide (cl_state c <> CLIENT_COMMAND) then
    r ← send_result client tag (result_num RESULT_BADCOMMAND);
    if r <? 0 then mret (-1)
    else client_close client ;; mret (-1)
  else if negb (hdr_version hdr =? 0) && negb (hdr_version hdr =? 1) then
    send_result client tag (result_num RESULT_BADVERSION) ;; mret 0
  else if hdr_message hdr =? MESSAGE_PLIST then
    handle_plist client tag
      (slice sizeof_usbmuxd_header (u32 (hdr_length hdr - sizeof_usbmuxd_header)) buf)
  else if hdr_message hdr =? MESSAGE_LISTEN then handle_listen client tag
  else if hdr_message hdr =? MESSAGE_CONNECT then
    start_connect client tag (connect_device_id buf) (connect_port buf)
  else check_sent (send_result client tag (result_num RESULT_BADCOMMAND)).

(** ** Socket events *)

Definition output_buffer_process (client : ptr) : C world unit :=
  c ← get_client client;
  if cl_ob_size c =? 0 then
    upd_client client (fun c => c <| cl_events := clear_flag (cl_events c) POLLOUT |>)
  else
    b ← lift_option NullDeref (cl_ob_buf c);
    r ← send (cl_fd c) (ztake (cl_ob_size c) b);
    let res := match r with inl n => n | inr _ => -1 end in
    if res <=? 0 then client_close client
    else if u32 res =? cl_ob_size c then
      upd_client client (fun c => c <| cl_ob_size := 0 |>
                                    <| cl_events := clear_flag (cl_events c) POLLOUT |>) ;;
      when (bool_decide (cl_state c = CLIENT_CONNECTING2))
        (upd_client client (fun c => c <| cl_state := CLIENT_CONNECTED |>
                                       <| cl_events := cl_devents c |>
                                       <| cl_ob_buf := None |>))
    else
      let left := u32 (cl_ob_size c - res) in
      upd_client client (fun c => c <| cl_ob_size := left |>
                                    <| cl_ob_buf := Some (write_at 0 (slice res left b) b) |>).

(** [recv] of at most [n] bytes to the end of the input buffer: [true] when
    bytes arrived, [false] when the client was closed. A [recv] into a null
    buffer cannot return bytes. *)
Definition read_input (client : ptr) (n : Z) : C world bool :=
  c ← get_client client;
  r ← recv (cl_fd c) n;
  match r, cl_ib_buf c with
  | inl (b :: bs), Some buf =>
    if zlen buf <? cl_ib_size c + zlen (b :: bs) then undef OutOfBounds
    else
      upd_client client (fun c =>
        c <| cl_ib_buf := Some (write_at (cl_ib_size c) (b :: bs) buf) |>
          <| cl_ib_size := u32 (cl_ib_size c + zlen (b :: bs)) |>) ;;
      mret true
  | _, _ => client_close client ;; mret false
  end.

Definition input_buffer_process (client : ptr) : C world unit :=
  c ← get_client client;
  go ← (if cl_ib_size c <? sizeof_usbmuxd_header then
      ok ← read_input client (sizeof_usbmuxd_header - cl_ib_size c);
      if negb ok then mret None
      else
        c ← get_client client;
        mret (if cl_ib_size c <? sizeof_usbmuxd_header then None else Some true)
    else mret (Some false));
  match go with
  | None => mret tt
  | Some did_read =>
    c ← get_client client;
    buf ← lift_option NullDeref (cl_ib_buf c);
    let hdr := usbmuxd_header_parse buf in
    if cl_ib_capacity c <? hdr_length hdr then client_close client
    else if hdr_length hdr <? sizeof_usbmuxd_header then client_close client
    else
      ready ← (if cl_ib_size c <? hdr_length hdr then
          if did_read : bool then mret false
          else
            ok ← read_input client (hdr_length hdr - cl_ib_size c);
            if negb ok then mret false
            else
              c ← get_client client;
              mret (negb (cl_ib_size c <? hdr_length hdr))
        else mret true);
      when ready (
        c ← get_client client;
        buf ← lift_option NullDeref (cl_ib_buf c);
        handle_command client buf ;;
        upd_client client (fun c => c <| cl_ib_size := 0 |>))
  end.

Definition client_process (fd events : Z) : C world unit :=
  mutex_lock client_list_mutex ;;
  client ← foreach (gets client_list) (fun lc =>
    c ← get_client lc;
    mret (if cl_fd c =? fd then Some lc else None));
  mutex_unlock client_list_mutex ;;
  match client with
  | None => mret tt
  | Some client =>
    c ← get_client client;
    if decide (cl_state c = CLIENT_CONNECTED) then
      device_client_process (cl_connect_device c) client events
    else if flag_set events POLLIN then input_buffer_process client
    else when (flag_set events POLLOUT) (output_buffer_process client)
  end.

Definition client_init : C world unit := modify (fun w => w <| client_list := coll_init |>).

Definition client_shutdown : C world unit :=
  foreach (gets client_list) (each client_close) ;;
  modify (fun w => w <| client_list := coll_init |>).

End client.
End Client.
Export Client.
