(* ===== verification/UsbDevice.v ===== *)
(** * UsbDevice: the life of a USB device in usb.c

    Transfers and their callbacks, setting a device up (mode, configuration,
    serial number), starting its receive loops, and disconnecting it. libusb
    is a parameter: its answers are the class [UsbHost], and
    [libusb_handle_events_timeout], which runs callbacks, is an argument of the
    functions that call it. An open handle belongs to its [struct usb_device];
    allocation does not fail. *)

From stdpp Require Import base gmap list strings.
From Stdlib Require Import ZArith Lia Ascii String.
From S2P Require Import Prelude Platform Wire UsbSetup World Utils Usb ClientOut DeviceOut.
From S2P Require Import Teardown Device.

Local Open Scope list_scope.
Local Open Scope Z_scope.

(** The fields of [struct libusb_device_descriptor] that are used. *)
Record device_descriptor := mk_device_descriptor {
  idVendor : Z;
  idProduct : Z;
  bNumConfigurations : Z;
  iSerialNumber : Z;
}.

(** ** libusb

    A [libusb_device] is a pointer [dev]; an open device is named by its
    [struct usb_device]. Answers depend on the history. *)
Class UsbHost := {
  libusb_get_bus_number : ptr -> Z;
  libusb_get_device_address : ptr -> Z;
  (** the descriptor or a non-zero error *)
  libusb_get_device_descriptor : list event -> ptr -> Z + device_descriptor;
  libusb_open : list event -> ptr -> Z;
  libusb_get_config_descriptor_by_value : list event -> ptr -> Z -> option config_descriptor;
  libusb_get_configuration : list event -> ptr -> option Z;
  libusb_kernel_driver_active : list event -> ptr -> Z -> Z;
  libusb_set_configuration : list event -> ptr -> Z -> Z;
  libusb_claim_interface : list event -> ptr -> Z -> Z;
  libusb_get_max_packet_size : list event -> ptr -> Z -> Z;
  libusb_get_device_speed : list event -> ptr -> libusb_speed;
  (** [libusb_fill_control_setup]: the setup packet of bmRequestType, bRequest,
      wValue, wIndex and wLength *)
  libusb_control_setup : Z -> Z -> Z -> Z -> Z -> list Z;
  (** a negative error or the devices on the bus *)
  libusb_get_device_list : list event -> Z + list ptr;
  libusb_get_pollfds : list event -> option (list (Z * Z));
  libusb_get_next_timeout : list event -> next_timeout;
  (** [libusb_init], and registering for hotplug events: [None] when libusb
      has no such events *)
  libusb_init : list event -> Z;
  libusb_hotplug_register : list event -> option Z;
  (** [getenv("USBMUXD_DEFAULT_DEVICE_MODE")] *)
  getenv_device_mode : option string;
}.

Definition LIBUSB_CONTROL_SETUP_SIZE : Z := 8.

(** A setup packet has eight bytes. *)
Class UsbHostLaws (U : UsbHost) : Prop := control_setup_ok a b c d e :
  zlen (libusb_control_setup a b c d e) = LIBUSB_CONTROL_SETUP_SIZE /\
  bytes_ok (libusb_control_setup a b c d e).
Definition LIBUSB_ENDPOINT_IN : Z := 128.
Definition LIBUSB_REQUEST_TYPE_VENDOR : Z := 64.
Definition LIBUSB_REQUEST_GET_DESCRIPTOR : Z := 6.
Definition LIBUSB_DT_STRING : Z := 3.
Definition LIBUSB_TRANSFER_FREE_BUFFER : Z := 2.
Definition LIBUSB_TRANSFER_FREE_TRANSFER : Z := 4.
Definition APPLE_VEND_SPECIFIC_GET_MODE : Z := 69.  (* 0x45 *)
Definition APPLE_VEND_SPECIFIC_SET_MODE : Z := 82.  (* 0x52 *)
Definition NUM_RX_LOOPS : nat := 3.

(** [atoi]: white space, a sign, decimal digits. *)
Fixpoint atoi_digits (l : list ascii) (acc : Z) : Z :=
  match l with
  | c :: l' =>
    let n := Z.of_N (N_of_ascii c) in
    if (48 <=? n) && (n <=? 57) then atoi_digits l' (acc * 10 + (n - 48)) else acc
  | [] => acc
  end.
Fixpoint atoi_from (l : list ascii) : Z :=
  match l with
  | c :: l' =>
    let n := Z.of_N (N_of_ascii c) in
    if (n =? 32) || ((9 <=? n) && (n <=? 13)) then atoi_from l'
    else if n =? 45 then - atoi_digits l' 0
    else if n =? 43 then atoi_digits l' 0
    else atoi_digits l 0
  | [] => 0
  end.
Definition atoi (s : string) : Z := atoi_from (list_ascii_of_string s).

(** The C string of a list of characters. *)
Definition string_of_bytes (l : list Z) : string :=
  string_of_list_ascii (map (fun b => ascii_of_N (Z.to_N b)) l).

Section device.
Context `{E : Env} `{U : UsbHost}.

Definition mark_dead (usbdev : ptr) : C world unit :=
  upd_usb usbdev (fun u => u <| ud_alive := 0 |>).

(** [libusb_free_transfer]: also the buffer, when the flag is set. *)
Definition libusb_free_transfer (xfer : ptr) : C world unit :=
  x ← load w_xfers xfer;
  when (flag_set (xf_flags x) LIBUSB_TRANSFER_FREE_BUFFER) (free w_bufs (xf_buffer x)) ;;
  free w_xfers xfer.

(** ** Receiving *)

Definition usb_rx_xfers (dev : ptr) : C world coll := u ← get_usb dev; mret (ud_rx_xfers u).
Definition usb_tx_xfers (dev : ptr) : C world coll := u ← get_usb dev; mret (ud_tx_xfers u).

(** Callback from read operation: on success the transfer is submitted again,
    and the result is not looked at. *)
Definition rx_callback (xfer : ptr) (status : transfer_status) (actual_length : Z) : C world unit :=
  x ← load w_xfers xfer;
  let dev := xf_user_data x in
  get_usb dev ;;
  if bool_decide (status = TRANSFER_COMPLETED) then
    buffer ← load w_bufs (xf_buffer x);
    device_data_input dev buffer actual_length ;;
    submit dev EpIn [] ;;
    mret tt
  else
    free w_bufs (xf_buffer x) ;;
    upd_usb dev (fun u => u <| ud_rx_xfers ::= fun c => coll_remove c xfer |>) ;;
    libusb_free_transfer xfer ;;
    mark_dead dev.

Definition start_rx_loop (dev : ptr) : C world Z :=
  get_usb dev ;;
  t ← gets w_trace;
  buf ← malloc w_bufs (sys_malloc_bytes t USB_MRU);
  xfer ← malloc w_xfers (mk_xfer dev buf USB_MRU CB_RX 0);
  res ← submit dev EpIn [];
  if negb (res =? 0) then
    libusb_free_transfer xfer ;; mret res
  else
    upd_usb dev (fun u => u <| ud_rx_xfers ::= fun c => coll_add c xfer |>) ;;
    mret 0.

(** The loop of [get_serial_callback]: the number of loops that are missing
    when it is left. *)
Fixpoint start_rx_loops (rx_loops : nat) (dev : ptr) : C world nat :=
  match rx_loops with
  | O => mret O
  | S n =>
    res ← start_rx_loop dev;
    if res <? 0 then mret rx_loops else start_rx_loops n dev
  end.

(** ** Disconnecting *)

Definition cancel_xfers (xfers : C world coll) : C world unit :=
  foreach xfers (each (fun xfer => load w_xfers xfer ;; emit (EvCancel xfer))) ;; mret tt.

Section disconnect.
(** [libusb_handle_events_timeout], and a bound on the rounds of waiting *)
Variable handle_events : C world Z.
Variable fuel : nat.

(** Busy-wait until all xfers are closed *)
Fixpoint wait_xfers (n : nat) (dev : ptr) : C world unit :=
  u ← get_usb dev;
  if (coll_count (ud_rx_xfers u) =? 0) && (coll_count (ud_tx_xfers u) =? 0) then mret tt
  else
    match n with
    | O => no_fuel
    | S n' =>
      res ← handle_events;
      if res <? 0 then mret tt else wait_xfers n' dev
    end.

Definition usb_disconnect (dev : ptr) : C world unit :=
  u ← get_usb dev;
  if negb (ud_handle u) then mret tt
  else
    cancel_xfers (usb_rx_xfers dev) ;;
    cancel_xfers (usb_tx_xfers dev) ;;
    wait_xfers fuel dev ;;
    u ← get_usb dev;
    emit (EvRelease dev (ud_interface u)) ;;
    emit (EvUsbClose dev) ;;
    modify (fun w => w <| usb_device_list ::= fun l => coll_remove l dev |>) ;;
    free w_usbdevs dev.

Definition reap_dead_devices : C world unit :=
  foreach (gets usb_device_list) (each (fun usbdev =>
    u ← get_usb usbdev;
    when (ud_alive u =? 0) (device_remove usbdev ;; usb_disconnect usbdev))) ;;
  mret tt.

(** ** Setup: serial number *)

Definition get_serial_callback (transfer : ptr) (status : transfer_status) : C world unit :=
  x ← load w_xfers transfer;
  let usbdev := xf_user_data x in
  get_usb usbdev ;;
  if negb (bool_decide (status = TRANSFER_COMPLETED)) then libusb_free_transfer transfer
  else
    buffer ← load w_bufs (xf_buffer x);
    serial ← lift_option OutOfBounds
      (serial_of_descriptor (zdrop LIBUSB_CONTROL_SETUP_SIZE buffer));
    libusb_free_transfer transfer ;;
    upd_usb usbdev (fun u => u <| ud_serial := string_of_bytes serial |>) ;;
    (* Finish setup now *)
    res ← device_add usbdev;
    if res <? 0 then usb_disconnect usbdev
    else
      rx_loops ← start_rx_loops NUM_RX_LOOPS usbdev;
      (* Ensure we have at least 1 RX loop going *)
      if decide (rx_loops = NUM_RX_LOOPS) then
        device_remove usbdev ;; usb_disconnect usbdev
      else mret tt.

End disconnect.

(** Bytes are stored in a buffer that was handed to libusb. *)
Definition store_bytes (buffer : ptr) (off : Z) (data : list Z) : C world unit :=
  b ← load w_bufs buffer;
  if zlen b <? off + zlen data then undef OutOfBounds
  else update w_bufs buffer (write_at off data).

(** [libusb_fill_control_setup] on the buffer of a control transfer. *)
Definition fill_control_setup (buffer : ptr) (setup : list Z) : C world unit :=
  store_bytes buffer 0 setup.

Definition get_langid_callback (transfer : ptr) (status : transfer_status) : C world unit :=
  x ← load w_xfers transfer;
  let usbdev := xf_user_data x in
  update w_xfers transfer (fun x => x <| xf_flags ::= fun f => Z.lor f LIBUSB_TRANSFER_FREE_BUFFER |>) ;;
  u ← get_usb usbdev;
  if negb (bool_decide (status = TRANSFER_COMPLETED)) then libusb_free_transfer transfer
  else
    buffer ← load w_bufs (xf_buffer x);
    match zdrop LIBUSB_CONTROL_SETUP_SIZE buffer with
    | _ :: _ :: d2 :: d3 :: _ =>
      let langid := u16 (Z.lor d2 (Z.shiftl d3 8)) in
      (* re-use the same transfer *)
      let setup := libusb_control_setup LIBUSB_ENDPOINT_IN LIBUSB_REQUEST_GET_DESCRIPTOR
        (u16 (Z.lor (Z.shiftl LIBUSB_DT_STRING 8) (ud_iSerialNumber u))) langid
        (1024 + LIBUSB_CONTROL_SETUP_SIZE) in
      fill_control_setup (xf_buffer x) setup ;;
      update w_xfers transfer (fun x => x <| xf_callback := CB_SERIAL |>) ;;
      res ← submit usbdev EpControl setup;
      when (res <? 0) (libusb_free_transfer transfer)
    | _ => undef OutOfBounds
    end.

(** ** Setup: mode and configuration *)

Definition find_device (bus address : Z) : C world (option ptr) :=
  foreach (gets usb_device_list) (fun usbdev =>
    u ← get_usb usbdev;
    mret (if (ud_bus u =? bus) && (ud_address u =? address) then Some usbdev else None)).

(** [libusb_fill_control_transfer] takes the length from the setup packet. *)
Definition submit_vendor_specific (usbdev context : ptr) (callback : xfer_callback) : C world Z :=
  c ← load w_ctxs context;
  let setup := libusb_control_setup (Z.lor LIBUSB_REQUEST_TYPE_VENDOR LIBUSB_ENDPOINT_IN)
    (mc_bRequest c) (mc_wValue c) (mc_wIndex c) (mc_wLength c) in
  let length := LIBUSB_CONTROL_SETUP_SIZE + mc_wLength c in
  buffer ← malloc w_bufs (replicate (Z.to_nat length) 0);
  fill_control_setup buffer setup ;;
  malloc w_xfers (mk_xfer context buffer length callback LIBUSB_TRANSFER_FREE_TRANSFER) ;;
  submit usbdev EpControl setup.

(** The operations of [set_valid_configuration] in the history. *)
Definition ev_of_op (usbdev : ptr) (op : usb_op) : event :=
  match op with
  | OpDetachKernelDriver i => EvDetachDriver usbdev i
  | OpSetConfiguration v => EvSetConfiguration usbdev v
  end.

(** [set_valid_configuration] on the device: [true] when it returns 0. *)
Definition set_valid_configuration_on (dev usbdev : ptr) : C world bool :=
  u ← get_usb usbdev;
  t ← gets w_trace;
  let history ops := rev (map (ev_of_op usbdev) ops) ++ t in
  let '(found, ops) := set_valid_configuration
    (libusb_get_config_descriptor_by_value t dev)
    (fun ops i => libusb_kernel_driver_active (history ops) usbdev i)
    (fun ops v => libusb_set_configuration (history ops) usbdev v)
    (ud_bNumConfigurations u) (libusb_get_configuration t usbdev) in
  modify (fun w => w <| w_trace := history ops |>) ;;
  match found with
  | Some e =>
    upd_usb usbdev (fun u => u <| ud_interface := ue_interface e |>
      <| ud_ep_out := ue_ep_out e |> <| ud_ep_in := ue_ep_in e |>) ;;
    mret true
  | None => mret false
  end.

Definition device_complete_initialization (context : ptr) : C world unit :=
  c ← load w_ctxs context;
  r ← find_device (mc_bus c) (mc_address c);
  match r with
  | None => mret tt
  | Some usbdev =>
    ok ← set_valid_configuration_on (mc_dev c) usbdev;
    if negb ok then mark_dead usbdev
    else
      u ← get_usb usbdev;
      t ← gets w_trace;
      let res := libusb_claim_interface t usbdev (ud_interface u) in
      emit (EvClaim usbdev (ud_interface u) res) ;;
      if negb (res =? 0) then mark_dead usbdev
      else
        let length := 1024 + LIBUSB_CONTROL_SETUP_SIZE in
        buffer ← malloc w_bufs (replicate (Z.to_nat (length + 8)) 0);
        t ← gets w_trace;
        upd_usb usbdev (fun u => u <| ud_serial := EmptyString |> <| ud_bus := mc_bus c |>
          <| ud_address := mc_address c |> <| ud_handle := true |> <| ud_alive := 1 |>
          <| ud_wMaxPacketSize := max_packet_size (libusb_get_max_packet_size t (mc_dev c) (ud_ep_out u)) |>
          <| ud_speed := speed_of (libusb_get_device_speed t (mc_dev c)) |>) ;;
        let setup := libusb_control_setup LIBUSB_ENDPOINT_IN LIBUSB_REQUEST_GET_DESCRIPTOR
          (Z.shiftl LIBUSB_DT_STRING 8) 0 length in
        fill_control_setup buffer setup ;;
        transfer ← malloc w_xfers
          (mk_xfer usbdev buffer (LIBUSB_CONTROL_SETUP_SIZE + length) CB_LANGID 0);
        res ← submit usbdev EpControl setup;
        when (res <? 0)
          (libusb_free_transfer transfer ;; free w_bufs buffer ;; mark_dead usbdev)
  end.

(** The device a control transfer of the mode requests was submitted for. *)
Definition switch_mode_cb (transfer : ptr) (status : transfer_status) : C world unit :=
  x ← load w_xfers transfer;
  let context := xf_user_data x in
  c ← load w_ctxs context;
  find_device (mc_bus c) (mc_address c) ;;
  (if negb (bool_decide (status = TRANSFER_COMPLETED)) then device_complete_initialization context
   else
     buffer ← load w_bufs (xf_buffer x);
     match zdrop LIBUSB_CONTROL_SETUP_SIZE buffer with
     | d0 :: _ => when (negb (d0 =? 0)) (device_complete_initialization context)
     | [] => undef OutOfBounds
     end) ;;
  free w_ctxs context ;;
  free w_bufs (xf_buffer x).

Definition get_mode_cb (transfer : ptr) (status : transfer_status) : C world unit :=
  x ← load w_xfers transfer;
  let context := xf_user_data x in
  c ← load w_ctxs context;
  r ← find_device (mc_bus c) (mc_address c);
  match r with
  | None => free w_ctxs context
  | Some dev =>
    if negb (bool_decide (status = TRANSFER_COMPLETED)) then
      device_complete_initialization context ;; free w_ctxs context
    else
      let desired_mode := match getenv_device_mode with Some s => atoi s | None => 1 end in
      u ← get_usb dev;
      t ← gets w_trace;
      let guessed_mode := guess_mode (ud_bNumConfigurations u)
        (libusb_get_config_descriptor_by_value t (mc_dev c)) in
      (if switch_wanted desired_mode guessed_mode then
         update w_ctxs context (fun c => c <| mc_bRequest := APPLE_VEND_SPECIFIC_SET_MODE |>
           <| mc_wValue := 0 |> <| mc_wIndex := desired_mode |> <| mc_wLength := 1 |>) ;;
         res ← submit_vendor_specific dev context CB_SWITCH_MODE;
         when (negb (res =? 0)) (mark_dead dev ;; free w_ctxs context)
       else
         device_complete_initialization context ;; free w_ctxs context) ;;
      free w_bufs (xf_buffer x)
  end.

(** ** New devices *)

Definition usb_device_add (dev : ptr) : C world Z :=
  let bus := libusb_get_bus_number dev in
  let address := libusb_get_device_address dev in
  r ← find_device bus address;
  match r with
  | Some usbdev => upd_usb usbdev (fun u => u <| ud_alive := 1 |>) ;; mret 0
  | None =>
    t ← gets w_trace;
    match libusb_get_device_descriptor t dev with
    | inl _ => mret (-1)
    | inr devdesc =>
      if negb (supported (idVendor devdesc) (idProduct devdesc)) then mret (-1)
      else
        let res := libusb_open t dev in
        emit (EvUsbOpen bus address res) ;;
        if negb (res =? 0) then mret (-1)
        else
          usbdev ← malloc w_usbdevs (mk_usb true bus address EmptyString 1 coll_init coll_init 0 0
            (idProduct devdesc) 0 0 0 (bNumConfigurations devdesc) (iSerialNumber devdesc));
          modify (fun w => w <| usb_device_list ::= fun l => coll_add l usbdev |>) ;;
          (* Request current mode asynchronously *)
          context ← malloc w_ctxs (mk_mode_context dev bus address
            APPLE_VEND_SPECIFIC_GET_MODE 0 0 4 1000);
          res ← submit_vendor_specific usbdev context CB_GET_MODE;
          if negb (res =? 0) then mark_dead usbdev ;; mret (-1)
          else mret 0
    end
  end.

End device.
