(* ===== verification/UsbLoop.v ===== *)
(** * UsbLoop: discovery and the event loop of usb.c

    Scanning the bus, hotplug events, the timers, and
    [libusb_handle_events_timeout] with the callbacks that libusb runs. *)

From stdpp Require Import base gmap list strings.
From Stdlib Require Import ZArith Lia.
From S2P Require Import Prelude Platform Wire UsbSetup World Utils Usb ClientOut DeviceOut.
From S2P Require Import Teardown Device UsbDevice.

Local Open Scope Z_scope.

(** What libusb reports while it handles events. *)
Inductive usb_event :=
  (** a transfer ended; [data] are the bytes that were received *)
  | UeTransfer (xfer : ptr) (status : transfer_status) (data : list Z)
  | UeArrived (dev : ptr)
  | UeLeft (dev : ptr).

Section loop.
Context `{E : Env} `{U : UsbHost}.

(** ** Hotplug events *)

Definition usb_hotplug_arrived (dev : ptr) : C world unit :=
  hotplug ← gets device_hotplug;
  when (negb (hotplug =? 0)) (usb_device_add dev ;; mret tt).

Definition usb_hotplug_left (dev : ptr) : C world unit :=
  let bus := libusb_get_bus_number dev in
  let address := libusb_get_device_address dev in
  foreach (gets usb_device_list) (fun usbdev =>
    u ← get_usb usbdev;
    if (ud_bus u =? bus) && (ud_address u =? address) then
      mark_dead usbdev ;; device_remove usbdev ;; mret (Some tt)
    else mret None) ;;
  mret tt.

(** ** Callbacks *)

(** Where the received bytes are in the buffer of a transfer. *)
Definition data_offset (cb : xfer_callback) : Z :=
  match cb with CB_TX | CB_RX => 0 | _ => LIBUSB_CONTROL_SETUP_SIZE end.

Definition receives (cb : xfer_callback) : bool := match cb with CB_TX => false | _ => true end.

(** libusb writes what was received, at most the length of the transfer in
    bytes, and calls the callback; a transfer with the flag is then freed. *)
Definition complete_transfer (handle_events : C world Z) (fuel : nat)
    (xfer : ptr) (status : transfer_status) (data : list Z) : C world unit :=
  x ← load w_xfers xfer;
  let off := data_offset (xf_callback x) in
  let data := u8 <$> ztake (xf_length x - off) data in
  when (bool_decide (status = TRANSFER_COMPLETED) && receives (xf_callback x))
    (store_bytes (xf_buffer x) off data) ;;
  match xf_callback x with
  | CB_TX => tx_callback xfer status
  | CB_RX => rx_callback xfer status (zlen data)
  | CB_GET_MODE => get_mode_cb xfer status
  | CB_SWITCH_MODE => switch_mode_cb xfer status
  | CB_LANGID => get_langid_callback xfer status
  | CB_SERIAL => get_serial_callback handle_events fuel xfer status
  end ;;
  when (flag_set (xf_flags x) LIBUSB_TRANSFER_FREE_TRANSFER) (libusb_free_transfer xfer).

Definition usb_event_callback (handle_events : C world Z) (fuel : nat) (e : usb_event) : C world unit :=
  match e with
  | UeTransfer xfer status data => complete_transfer handle_events fuel xfer status data
  | UeArrived dev => usb_hotplug_arrived dev
  | UeLeft dev => usb_hotplug_left dev
  end.

Fixpoint usb_event_callbacks (handle_events : C world Z) (fuel : nat) (l : list usb_event) :
    C world unit :=
  match l with
  | [] => mret tt
  | e :: l' => usb_event_callback handle_events fuel e ;; usb_event_callbacks handle_events fuel l'
  end.

(** [libusb_handle_events_timeout], when libusb has the events [pending] to
    report after a history. A callback may handle events itself (through
    [usb_disconnect]); [depth] bounds the nesting. *)
Fixpoint handle_events (pending : list event -> Z * list usb_event) (fuel depth : nat) : C world Z :=
  match depth with
  | O => no_fuel
  | S depth' =>
    t ← gets w_trace;
    let '(res, l) := pending t in
    emit (EvUsbEvents res) ;;
    usb_event_callbacks (handle_events pending fuel depth') fuel l ;;
    mret res
  end.

(** ** Timers *)

Definition dev_poll_remain : C world Z :=
  polling ← gets device_polling;
  next ← gets next_dev_poll_time;
  tv ← get_tick_count;
  mret (dev_poll_remain_ms (negb (polling =? 0)) next tv).

Definition usb_timeout : C world Z :=
  pollrem ← dev_poll_remain;
  t ← gets w_trace;
  mret (usb_get_timeout pollrem (libusb_get_next_timeout t)).

Definition set_next_poll : C world unit :=
  tv ← get_tick_count;
  modify (fun w => w <| next_dev_poll_time := next_poll_time tv |>).

Definition usb_autodiscover (enable : Z) : C world unit :=
  modify (fun w => w <| device_polling := enable |> <| device_hotplug := enable |>).

Fixpoint add_usb_fds (fds : list (Z * Z)) (list : Fdlist.fdlist) : Fdlist.fdlist :=
  match fds with
  | [] => list
  | (fd, events) :: fds' => add_usb_fds fds' (Fdlist.fdlist_add list Fdlist.FD_USB fd events)
  end.

Definition usb_get_fds (list : Fdlist.fdlist) : C world Fdlist.fdlist :=
  t ← gets w_trace;
  mret (match libusb_get_pollfds t with Some fds => add_usb_fds fds list | None => list end).

(** ** Discovery *)

Section process.
Variable handle_events : C world Z.
Variable fuel : nat.

(** The loop over the devices on the bus: how many were accepted. *)
Fixpoint add_devices (devs : list ptr) (valid_count : Z) : C world Z :=
  match devs with
  | [] => mret valid_count
  | dev :: devs' =>
    res ← usb_device_add dev;
    add_devices devs' (if res <? 0 then valid_count else valid_count + 1)
  end.

Definition usb_discover : C world Z :=
  t ← gets w_trace;
  match libusb_get_device_list t with
  | inl cnt =>
    modify (fun w => w <| devlist_failures ::= fun n => n + 1 |>) ;;
    failures ← gets devlist_failures;
    if 5 <? failures then mret cnt
    else set_next_poll ;; mret 0
  | inr devs =>
    modify (fun w => w <| devlist_failures := 0 |>) ;;
    (* Mark all devices as dead, and do a mark-sweep like
       collection of dead devices *)
    foreach (gets usb_device_list) (each mark_dead) ;;
    (* Enumerate all USB devices and mark the ones we already know
       about as live, again *)
    valid_count ← add_devices devs 0;
    (* Clean out any device we didn't mark back as live *)
    reap_dead_devices handle_events fuel ;;
    set_next_poll ;;
    mret valid_count
  end.

(** ** The event loop *)

Definition usb_process : C world Z :=
  res ← handle_events;
  if res <? 0 then mret res
  else
    (* reap devices marked dead due to an RX error *)
    reap_dead_devices handle_events fuel ;;
    remain ← dev_poll_remain;
    if remain <=? 0 then
      res ← usb_discover;
      mret (if res <? 0 then res else 0)
    else mret 0.

Definition timeval_before (a b : Z * Z) : bool :=
  (fst a <? fst b) || ((fst a =? fst b) && (snd a <? snd b)).

(** The loop of [usb_process_timeout], until [tfin]; the time left only bounds
    how long libusb waits. *)
Fixpoint process_until (n : nat) (tfin tcur : Z * Z) : C world Z :=
  if timeval_before tcur tfin then
    match n with
    | O => no_fuel
    | S n' =>
      res ← handle_events;
      if res <? 0 then mret res
      else
        reap_dead_devices handle_events fuel ;;
        tcur ← get_tick_count;
        process_until n' tfin tcur
    end
  else mret 0.

Definition deadline (tcur : Z * Z) (msec : Z) : Z * Z :=
  let usec := snd tcur + Z.rem msec 1000 * 1000 in
  (fst tcur + Z.quot msec 1000 + Z.quot usec 1000000, Z.rem usec 1000000).

Definition usb_process_timeout (msec : Z) : C world Z :=
  tcur ← get_tick_count;
  process_until fuel (deadline tcur msec) tcur.

(** ** Start and end *)

(** [enumerated]: the devices for which libusb reports an arrival while the
    callback is registered. *)
Definition usb_init (enumerated : list ptr) : C world Z :=
  modify (fun w => w <| devlist_failures := 0 |> <| device_polling := 1 |>) ;;
  t ← gets w_trace;
  if negb (libusb_init t =? 0) then mret (-1)
  else
    modify (fun w => w <| usb_device_list := coll_init |>) ;;
    match libusb_hotplug_register t with
    | Some res =>
      usb_event_callbacks handle_events fuel (map UeArrived enumerated) ;;
      when (res =? 0) (modify (fun w => w <| device_polling := 0 |>))
    | None => mret tt
    end ;;
    polling ← gets device_polling;
    if negb (polling =? 0) then usb_discover
    else l ← gets usb_device_list; mret (coll_count l).

Definition usb_shutdown : C world unit :=
  foreach (gets usb_device_list) (each (fun usbdev =>
    device_remove usbdev ;; usb_disconnect handle_events fuel usbdev)) ;;
  modify (fun w => w <| usb_device_list := coll_init |>).

End process.
End loop.
