(* ===== verification/Main.v ===== *)
(** * Main: main.c, the daemon process

    Options, the listening socket, the lock file, daemonization, dropping
    privileges, the main loop with the signals it handles, and the order of
    start and shutdown. The operating system answers every call through the
    class [Process]; a process is the world of the other components together
    with the global variables of main.c and log.c. *)

From stdpp Require Import base gmap list strings.
From Stdlib Require Import ZArith Lia Ascii String.
From S2P Require Import Prelude Platform Wire UsbSetup World Utils Conf Usb ClientOut DeviceOut.
From S2P Require Import Teardown Device Client UsbDevice UsbLoop.

Local Open Scope string_scope.
Local Open Scope list_scope.
Local Open Scope Z_scope.

(** ** The operating system *)

Record passwd := mk_passwd { pw_uid : Z; pw_gid : Z }.
Record stat_t := mk_stat { st_mode : Z; st_uid : Z; st_gid : Z }.

(** The answer of [ppoll]: signals were handled (it fails with EINTR), it
    failed, or the [revents] of the descriptors. *)
Inductive poll_answer :=
  | PollSignals (sigs : list Z)
  | PollError (errno : Z)
  | PollReady (revents : list Z).

Class Process := {
  sys_call : list event -> syscall -> Z;
  (** [fcntl(F_GETLK)]: the pid in [l_pid] when the type is not F_UNLCK *)
  sys_getlk : list event -> Z -> option Z;
  (** the two ends of a pipe, and an [int] read from one *)
  sys_pipe_fds : list event -> Z * Z;
  sys_read_int : list event -> Z -> option Z;
  (** an error, or the address families of the results *)
  sys_getaddrinfo : list event -> string -> string -> Z + list Z;
  sys_getpwnam : list event -> string -> option passwd;
  sys_stat_fields : list event -> string -> stat_t;
  sys_ppoll : list event -> list Fdlist.pollfd -> poll_answer;
  sys_getpid : Z;
  (** which options the build has *)
  have_udev : bool;
  have_systemd : bool;
}.

Definition SIGTERM : Z := 15.
Definition SIGUSR1 : Z := 10.
Definition SIGUSR2 : Z := 12.
Definition EINTR : Z := 4.
Definition AF_UNIX : Z := 1.
Definition AF_INET6 : Z := 10.
Definition SO_REUSEADDR : Z := 2.
Definition IPV6_V6ONLY : Z := 26.
Definition O_NONBLOCK : Z := 2048.
Definition STDIN : Z := 0.
Definition STDOUT : Z := 1.
Definition STDERR : Z := 2.

(** ** Global variables of main.c and log.c *)

Record globals := mk_globals {
  should_exit : Z;
  should_discover : Z;
  use_logfile : Z;
  verbose : Z;
  foreground : Z;
  drop_privileges : Z;
  drop_user : option string;
  opt_disable_hotplug : Z;
  opt_enable_exit : Z;
  opt_exit : Z;
  exit_signal : Z;
  daemon_pipe : Z;
  listen_addr : option string;
  report_to_parent : Z;
  lockfile : option string;
  log_level : Z;
  log_syslog : Z;
}.

Definition socket_path : string := "/var/run/usbmuxd".
Definition DEFAULT_LOCKFILE : string := "/var/run/usbmuxd.pid".

(** Their initial values. *)
Definition globals0 : globals := {|
  should_exit := 0; should_discover := 0; use_logfile := 0; verbose := 0; foreground := 0;
  drop_privileges := 0; drop_user := None; opt_disable_hotplug := 0; opt_enable_exit := 0;
  opt_exit := 0; exit_signal := 0; daemon_pipe := 0; listen_addr := None; report_to_parent := 0;
  lockfile := Some DEFAULT_LOCKFILE; log_level := Log.level_num LL_WARNING; log_syslog := 0 |}.

#[export] Instance eta_globals : Eta globals := fun r =>
  mk_globals (should_exit r) (should_discover r) (use_logfile r) (verbose r) (foreground r)
    (drop_privileges r) (drop_user r) (opt_disable_hotplug r) (opt_enable_exit r) (opt_exit r)
    (exit_signal r) (daemon_pipe r) (listen_addr r) (report_to_parent r) (lockfile r)
    (log_level r) (log_syslog r).

Section process.
Context `{E : Env}.

Record process := mk_process { p_globals : globals; p_world : world }.
#[export] Instance eta_process : Eta process := fun r => mk_process (p_globals r) (p_world r).

(** A function of the other components, run by the process. *)
Definition run {A} (m : C world A) : C process A := fun p =>
  match m (p_world p) with
  | Ok a w => Ok a (p <| p_world := w |>)
  | Undef u => Undef u
  | NoFuel => NoFuel
  end.

Definition global {A} (f : globals -> A) : C process A := gets (fun p => f (p_globals p)).
Definition set_global (f : globals -> globals) : C process unit :=
  modify (fun p => p <| p_globals ::= f |>).
Definition is_set (f : globals -> Z) : C process bool := v ← global f; mret (negb (v =? 0)).

(** ** Leaving the normal flow

    [exit(status)] anywhere, and [goto terminate] of [main] with its [res]. *)
Inductive stop := Exit (status : Z) | Terminate (res : Z).

Definition X (A : Type) : Type := C process (stop + A).
Definition stop_with {A} (s : stop) : X A := mret (inl s).
Definition ok {A} (m : C process A) : X A := a ← m; mret (inr a).
Definition xbind {A B} (m : X A) (k : A -> X B) : X B :=
  r ← m; match r with inl s => mret (inl s) | inr a => k a end.

End process.

Arguments process {E}.

Declare Scope x_scope.
Notation "x ←? m ; k" := (xbind m (fun x => k)) (at level 20, m at level 100, k at level 200,
  only parsing) : x_scope.
Notation "m ?; k" := (xbind m (fun _ => k)) (at level 100, k at level 200, only parsing) : x_scope.
Local Open Scope x_scope.

Section main.
Context `{E : Env} `{U : UsbHost} `{P : Process}.

Definition sys (c : syscall) : C process Z :=
  t ← gets (fun p => w_trace (p_world p));
  let res := sys_call t c in
  run (emit (EvSys c res)) ;; mret res.

Definition history : C process (list event) := gets (fun p => w_trace (p_world p)).

(** ** log.c *)

Definition log_enable_syslog : C process unit :=
  b ← is_set log_syslog;
  when (negb b) (set_global (fun g => g <| log_syslog := 1 |>)).

(** [closelog] only; the flag stays. *)
Definition log_disable_syslog : C process unit := mret tt.

(** ** Options *)

(** What [getopt_long] returns: a character, the code of --port, or anything
    else, with [optarg]. *)
Inductive optcode := OptChar (c : ascii) | OptPort.

(** Keeps the first [n] characters: [snprintf] into [n + 1] bytes. *)
Definition str_take (n : nat) (s : string) : string := String.substring 0 n s.

Definition starts_with (c : ascii) (s : string) : bool :=
  match s with String c' _ => Ascii.eqb c c' | EmptyString => false end.
Definition is_empty (s : string) : bool := match s with EmptyString => true | _ => false end.

Definition set_opt (f : globals -> globals) : X unit := ok (set_global f).
Definition usage_error : X unit := stop_with (Exit 2).

Definition parse_opt (c : optcode) (optarg : string) : X unit :=
  match c with
  | OptChar "h" => stop_with (Exit 0)
  | OptChar "f" => set_opt (fun g => g <| foreground := 1 |>)
  | OptChar "v" => set_opt (fun g => g <| verbose := verbose g + 1 |>)
  | OptChar "V" => stop_with (Exit 0)
  | OptChar "U" => set_opt (fun g => g <| drop_privileges := 1 |> <| drop_user := Some optarg |>)
  | OptChar "p" => ok (run (modify (fun w => w <| no_preflight := 1 |>)))
  | OptChar "u" =>
    if have_udev then set_opt (fun g => g <| opt_disable_hotplug := 1 |> <| opt_enable_exit := 1 |>)
    else usage_error
  | OptChar "s" =>
    if have_systemd then set_opt (fun g => g <| opt_enable_exit := 1 |> <| foreground := 1 |>)
    else usage_error
  | OptChar "n" => set_opt (fun g => g <| opt_disable_hotplug := 1 |>)
  | OptChar "z" => set_opt (fun g => g <| opt_enable_exit := 1 |>)
  | OptChar "C" =>
    if is_empty optarg then usage_error
    else ok (run (Conf.config_set_config_dir (Some optarg) ;; mret tt))
  | OptChar "S" =>
    if is_empty optarg || starts_with "-" optarg then usage_error
    else set_opt (fun g => g <| listen_addr := Some optarg |>)
  | OptChar "P" =>
    if is_empty optarg || starts_with "-" optarg then usage_error
    else set_opt (fun g => g <| lockfile := if String.eqb optarg "NONE" then None else Some optarg |>)
  | OptChar "x" => set_opt (fun g => g <| opt_exit := 1 |> <| exit_signal := SIGUSR1 |>)
  | OptChar "X" => set_opt (fun g => g <| opt_exit := 1 |> <| exit_signal := SIGTERM |>)
  | OptChar "l" =>
    if is_empty optarg then usage_error
    else
      used ←? ok (is_set use_logfile);
      if used : bool then usage_error
      else
        r ←? ok (sys (SysFreopen optarg STDERR));
        if r =? 0 then ok (mret tt)  (* a null stream *)
        else set_opt (fun g => g <| use_logfile := 1 |>)
  | OptPort =>
    if is_empty optarg || starts_with "-" optarg then usage_error
    else set_opt (fun g => g <| listen_addr := Some (str_take 31 ("127.0.0.1:" ++ optarg)) |>)
  | OptChar _ => usage_error
  end.

Fixpoint parse_opts (opts : list (optcode * string)) : X unit :=
  match opts with
  | [] => ok (mret tt)
  | (c, optarg) :: rest => parse_opt c optarg ?; parse_opts rest
  end.

(** ** The listening socket *)

(** [strrchr(s, ':')]: what is before the last colon, and what follows it. *)
Fixpoint split_last_colon (s : string) : option (string * string) :=
  match s with
  | EmptyString => None
  | String c rest =>
    match split_last_colon rest with
    | Some (host, port) => Some (String c host, port)
    | None => if Ascii.eqb c ":" then Some (EmptyString, rest) else None
    end
  end.

(** One address: [None] when it cannot be used. *)
Definition try_address (address : string) (family : Z) : C process (option Z) :=
  fd ← sys (SysSocket family);
  if fd =? -1 then mret None
  else
    r ← sys (SysSetsockopt fd SO_REUSEADDR);
    if r =? -1 then sys (SysClose fd) ;; mret None
    else
      when (family =? AF_INET6) (sys (SysSetsockopt fd IPV6_V6ONLY) ;; mret tt) ;;
      r ← sys (SysBind fd address);
      if r <? 0 then sys (SysClose fd) ;; mret None
      else mret (Some fd).

(** The loop over the results of [getaddrinfo]; [listenfd] is -1 after an
    address that failed, and has no value before the first. *)
Fixpoint try_addresses (address : string) (families : list Z) (listenfd : option Z) :
    C process (option Z) :=
  match families with
  | [] => mret listenfd
  | family :: rest =>
    r ← try_address address family;
    match r with
    | Some fd => mret (Some fd)
    | None => try_addresses address rest (Some (-1))
    end
  end.

(** [sizeof(bind_addr.sun_path)] *)
Definition sizeof_sun_path : nat := 108.

(** Non-blocking and listening: the result of [create_socket]. *)
Definition start_listening (listenfd : Z) : C process Z :=
  flags ← sys (SysGetfl listenfd);
  when (negb (flags <? 0)) (sys (SysSetfl listenfd (Z.lor flags O_NONBLOCK)) ;; mret tt) ;;
  r ← sys (SysListen listenfd 256);
  mret (if negb (r =? 0) then -1 else listenfd).

Definition create_unix_socket (socket_addr : string) : C process Z :=
  s ← gets (fun p => w_fs (p_world p));
  if negb (String.eqb socket_addr socket_path) &&
     match fs_stat s socket_addr with Some SOCKET | None => false | Some _ => true end
  then mret (-1)
  else
    r ← run (Conf.fs_run (fun s => fs_remove s socket_addr));
    if match r with Some err => negb (err =? ENOENT) | None => false end then mret (-1)
    else
      listenfd ← sys (SysSocket AF_UNIX);
      if listenfd =? -1 then mret (-1)
      else
        r ← sys (SysBind listenfd (str_take (sizeof_sun_path - 1) socket_addr));
        if negb (r =? 0) then mret (-1)
        else
          sys (SysChmod socket_addr 438) ;;  (* 0666 *)
          start_listening listenfd.

Definition create_socket : C process Z :=
  addr ← global listen_addr;
  let socket_addr := default socket_path addr in
  match split_last_colon socket_addr with
  | Some (hostname, tcp_port) =>
    t ← history;
    match sys_getaddrinfo t hostname tcp_port with
    | inl _ => mret (-1)
    | inr families =>
      r ← try_addresses socket_addr families None;
      listenfd ← lift_option Uninitialised r;
      if listenfd =? -1 then mret (-1) else start_listening listenfd
    end
  | None => create_unix_socket socket_addr
  end.

(** ** Signals *)

Definition handle_signal (sig : Z) : C process unit :=
  if negb (sig =? SIGUSR1) && negb (sig =? SIGUSR2) then
    set_global (fun g => g <| should_exit := 1 |>)
  else
    enabled ← is_set opt_enable_exit;
    if enabled : bool then
      if sig =? SIGUSR1 then
        n ← run (device_get_count true);
        if 0 <? n then mret tt
        else set_global (fun g => g <| should_exit := 1 |>)
      else set_global (fun g => g <| should_discover := 1 |>)
    else mret tt.

Fixpoint handle_signals (sigs : list Z) : C process unit :=
  match sigs with
  | [] => mret tt
  | sig :: rest => handle_signal sig ;; handle_signals rest
  end.

(** ** The main loop *)

Section loop.
(** What libusb has to report, and the bounds of its event handling. *)
Variable pending : list event -> Z * list usb_event.
Variable fuel depth : nat.

Definition usb_events : C world Z := handle_events pending fuel depth.

(** [ppoll] on the list: [Some] of the [revents], or [None] when it failed;
    [errno] says why. *)
Definition ppoll (fds : list Fdlist.pollfd) (tspec : Z * Z) : C process (Z + list Z) :=
  t ← history;
  run (emit (EvPoll tspec)) ;;
  match sys_ppoll t fds with
  | PollSignals sigs => handle_signals sigs ;; mret (inl EINTR)
  | PollError errno => mret (inl errno)
  | PollReady revents => mret (inr revents)
  end.

(** The loop over the poll list. [inl tt]: the daemon gives up. *)
Fixpoint serve (listenfd : Z) (done_usb : bool) (l : list (Fdlist.fdowner * Z * Z)) :
    C world (unit + unit) :=
  match l with
  | [] => mret (inr tt)
  | (owner, fd, revents) :: rest =>
    if revents =? 0 then serve listenfd done_usb rest
    else
      r ← match owner with
          | Fdlist.FD_USB =>
            if done_usb then mret (Some true)
            else
              res ← usb_process usb_events fuel;
              mret (if res <? 0 then None else Some true)
          | Fdlist.FD_LISTEN =>
            res ← client_accept listenfd;
            mret (if res <? 0 then None else Some done_usb)
          | Fdlist.FD_CLIENT => client_process fd revents ;; mret (Some done_usb)
          end;
      match r with
      | None => mret (inl tt)
      | Some done_usb => serve listenfd done_usb rest
      end
  end.

(** The entries of the list with the [revents] that [ppoll] stored; a slot
    that was never written has no value. *)
Fixpoint ready (entries : list (option Fdlist.fdowner * option Fdlist.pollfd)) (revents : list Z) :
    option (list (Fdlist.fdowner * Z * Z)) :=
  match entries with
  | [] => Some []
  | (Some owner, Some pf) :: rest =>
    cons (owner, Fdlist.pf_fd pf, default 0 (head revents)) <$> ready rest (tail revents)
  | _ => None
  end.

Fixpoint poll_fds (entries : list (option Fdlist.fdowner * option Fdlist.pollfd)) :
    list Fdlist.pollfd :=
  match entries with
  | (_, Some pf) :: rest => pf :: poll_fds rest
  | (_, None) :: rest => poll_fds rest
  | [] => []
  end.

(** The number of descriptors with events: [cnt]. *)
Definition ready_count (l : list (Fdlist.fdowner * Z * Z)) : Z :=
  zlen (filter (fun x => snd x <> 0) l).

(** The poll list of an iteration and its timeout. *)
Definition prepare_poll (listenfd : Z) (pollfds : Fdlist.fdlist) :
    C process (Fdlist.fdlist * (Z * Z)) :=
  uto ← run usb_timeout;
  dto ← run device_get_timeout;
  let to := if dto <? uto then dto else uto in
  let pollfds := Fdlist.fdlist_add (Fdlist.fdlist_reset pollfds) Fdlist.FD_LISTEN listenfd POLLIN in
  pollfds ← run (usb_get_fds pollfds);
  pollfds ← run (client_get_fds pollfds);
  mret (pollfds, (Z.quot to 1000, Z.rem to 1000 * 1000000)).

(** What follows [ppoll]. [inl res]: the loop returns [res]. *)
Definition dispatch (listenfd : Z) (pollfds : Fdlist.fdlist) (answer : Z + list Z) :
    C process (Z + unit) :=
  match answer with
  | inl errno =>
    if errno =? EINTR then
      exiting ← is_set should_exit;
      if exiting : bool then mret (inl 0)
      else
        discover ← is_set should_discover;
        when discover (
          set_global (fun g => g <| should_discover := 0 |>) ;;
          run (usb_discover usb_events fuel ;; mret tt)) ;;
        mret (inr tt)
    else mret (inr tt)
  | inr revents =>
    l ← lift_option Uninitialised (ready (Fdlist.fdlist_entries pollfds) revents);
    if ready_count l =? 0 then
      res ← run (usb_process usb_events fuel);
      if res <? 0 then mret (inl (-1))
      else run device_check_timeouts ;; mret (inr tt)
    else
      r ← run (serve listenfd false l);
      mret (match r with inl _ => inl (-1) | inr _ => inr tt end)
  end.

(** One iteration. [inl res]: the loop returns [res]; [inr]: the poll list, for
    the next one. *)
Definition main_iteration (listenfd : Z) (pollfds : Fdlist.fdlist) : C process (Z + Fdlist.fdlist) :=
  a ← prepare_poll listenfd pollfds;
  answer ← ppoll (poll_fds (Fdlist.fdlist_entries (fst a))) (snd a);
  r ← dispatch listenfd (fst a) answer;
  mret (match r with inl res => inl res | inr _ => inr (fst a) end).

(** [rounds] bounds the iterations that are looked at. *)
Fixpoint main_loop_from (rounds : nat) (listenfd : Z) (pollfds : Fdlist.fdlist) : C process Z :=
  exiting ← is_set should_exit;
  if exiting : bool then mret 0
  else
    match rounds with
    | O => no_fuel
    | S rounds' =>
      r ← main_iteration listenfd pollfds;
      match r with
      | inl res => mret res
      | inr pollfds => main_loop_from rounds' listenfd pollfds
      end
    end.

Definition main_loop (rounds : nat) (listenfd : Z) : C process Z :=
  main_loop_from rounds listenfd Fdlist.fdlist_create.

End loop.

(** ** Daemonization *)

Definition redirect (stream : Z) : C process bool :=
  r ← sys (SysFreopen "/dev/null" stream); mret (negb (r =? 0)).

(** A null stream is 0. The parents end with [exit]. *)
Definition daemonize : X Z :=
  ppid ←? ok (sys SysGetppid);
  if ppid =? 1 then ok (mret 0)
  else
    res ←? ok (sys SysPipe);
    if res <? 0 then ok (mret res)
    else
      t ←? ok history;
      let '(rfd, wfd) := sys_pipe_fds t in
      pid ←? ok (sys SysFork);
      if pid <? 0 then ok (mret pid)
      else if 0 <? pid then
        ok (sys (SysClose wfd)) ?;
        t ←? ok history;
        match sys_read_int t rfd with
        | None => stop_with (Exit 1)
        | Some status => stop_with (Exit status)
        end
      else
        ok (set_global (fun g => g <| daemon_pipe := wfd |>)) ?;
        ok (sys (SysClose rfd)) ?;
        ok (set_global (fun g => g <| report_to_parent := 1 |>)) ?;
        sid ←? ok (sys SysSetsid);
        if sid <? 0 then ok (mret (-1))
        else
          pid ←? ok (sys SysFork);
          if pid <? 0 then ok (mret pid)
          else if 0 <? pid then ok (sys (SysClose wfd)) ?; stop_with (Exit 0)
          else
            r ←? ok (sys (SysChdir "/"));
            if r <? 0 then ok (mret (-2))
            else
              a ←? ok (redirect STDIN);
              if negb a then ok (mret (-3))
              else
                b ←? ok (redirect STDOUT);
                ok (mret (if b : bool then 0 else -3)).

Definition sizeof_int : Z := 4.

Definition notify_parent (status : Z) : C process Z :=
  set_global (fun g => g <| report_to_parent := 0 |>) ;;
  fd ← global daemon_pipe;
  res ← sys (SysWrite fd (le_bytes 4 status));
  if negb (res =? sizeof_int) then mret (if 0 <=? res then -2 else res)
  else
    sys (SysClose fd) ;;
    r ← redirect STDERR;
    mret (if r : bool then 0 else -1).

(** ** The lock file *)

(** Sends a signal to the process that holds the lock: the [res] to end
    with. *)
Definition signal_instance (pid sig : Z) : C process Z :=
  alive ← (if pid =? 0 then mret false else r ← sys (SysKill pid 0); mret (r =? 0));
  if alive : bool then
    r ← sys (SysKill pid sig);
    mret (if r <? 0 then -1 else 0)
  else mret (-1).

(** Looks for another instance. The [res] of [main] goes on. *)
Definition check_lock : X Z :=
  f ←? ok (global lockfile);
  match f with
  | None => ok (mret 0)
  | Some path =>
    lfd ←? ok (sys (SysOpen path false));
    if lfd =? -1 then stop_with (Terminate (-1))
    else
      t ←? ok history;
      let lock := sys_getlk t lfd in
      ok (sys (SysClose lfd)) ?;
      match lock with
      | Some pid =>
        ex ←? ok (is_set opt_exit);
        if ex : bool then
          sig ←? ok (global exit_signal);
          res ←? ok (signal_instance pid sig);
          stop_with (Terminate res)
        else
          nohotplug ←? ok (is_set opt_disable_hotplug);
          if negb nohotplug then stop_with (Terminate (-1))
          else
            res ←? ok (signal_instance pid SIGUSR2);
            stop_with (Terminate res)
      | None =>
        ok (run (Conf.fs_run (fun s => fs_remove s path) ;; mret tt)) ?;
        ok (mret lfd)
      end
  end.

(** Decimal digits, for [sprintf("%d", getpid())]. *)
Fixpoint digits (fuel : nat) (n : Z) : list Z :=
  match fuel with
  | O => []
  | S fuel' => (if n <? 10 then [] else digits fuel' (n / 10)) ++ [48 + n mod 10]
  end.

(** [char pids[10]] *)
Definition sizeof_pids : Z := 10.

Definition place_lock (res : Z) : X Z :=
  f ←? ok (global lockfile);
  match f with
  | None => ok (mret res)
  | Some path =>
    lfd ←? ok (sys (SysOpen path true));
    if lfd <? 0 then stop_with (Terminate lfd)
    else
      r ←? ok (sys (SysSetlk lfd));
      if r <? 0 then stop_with (Terminate r)
      else
        let pids := digits 10 sys_getpid in
        ok (if sizeof_pids <? zlen pids + 1 then undef OutOfBounds else mret tt) ?;
        r ←? ok (sys (SysWrite lfd pids));
        if negb (r =? zlen pids) then stop_with (Terminate (if 0 <=? r then -2 else r))
        else ok (mret r)
  end.

(** ** The configuration directory and the privileges *)

Definition CONFIG_MODE : Z := 1533.  (* 02775 *)

(** [main] up to the permission bits: the directory and its [struct stat]. *)
Definition prepare_config_dir : X (string * stat_t) :=
  dir ←? ok (run Conf.config_get_config_dir);
  s ←? ok (gets (fun p => w_fs (p_world p)));
  match fs_stat s dir with
  | Some _ => ok (mret tt)
  | None =>
    r ←? ok (run (Conf.fs_run (fun s => fs_mkdir s dir 509)));  (* 0775 *)
    match r with
    | Some _ => stop_with (Terminate (-1))
    | None =>
      s ←? ok (gets (fun p => w_fs (p_world p)));
      match fs_stat s dir with
      | None => stop_with (Terminate (-1))
      | Some _ => ok (mret tt)
      end
    end
  end ?;
  t ←? ok history;
  let fst := sys_stat_fields t dir in
  ok (when (negb (st_mode fst =? CONFIG_MODE)) (sys (SysChmod dir CONFIG_MODE) ;; mret tt)) ?;
  ok (mret (dir, fst)).

Definition require (cond : bool) (res : Z) : X unit :=
  if cond then ok (mret tt) else stop_with (Terminate res).

(** A call that must not fail. *)
Definition must (c : syscall) : X unit :=
  res ←? ok (sys c); if res <? 0 then stop_with (Terminate res) else ok (mret tt).

Definition is_root : C process bool :=
  uid ← sys SysGetuid;
  if uid =? 0 then mret true else euid ← sys SysGeteuid; mret (euid =? 0).

Definition drop_to (user : string) (pw : passwd) (dir : string) (fst : stat_t) : X unit :=
  ok (when (negb (st_uid fst =? pw_uid pw) || negb (st_gid fst =? pw_gid pw))
    (sys (SysChown dir (pw_uid pw) (pw_gid pw)) ;; mret tt)) ?;
  must (SysInitgroups user (pw_gid pw)) ?;
  must (SysSetgid (pw_gid pw)) ?;
  must (SysSetuid (pw_uid pw)) ?;
  (* security check *)
  r ←? ok (sys (SysSetuid 0));
  require (r =? -1) (-1) ?;
  uid ←? ok (sys SysGetuid);
  require (uid =? pw_uid pw) (-1) ?;
  gid ←? ok (sys SysGetgid);
  require (gid =? pw_gid pw) (-1).

(** drop elevated privileges *)
Definition drop_elevated (dir : string) (fst : stat_t) : X unit :=
  drop ←? ok (is_set drop_privileges);
  root ←? ok (if drop : bool then is_root else mret false);
  if negb root then ok (mret tt)
  else
    user ←? ok (global drop_user);
    match user with
    | None => stop_with (Terminate (-1))
    | Some user =>
      t ←? ok history;
      match sys_getpwnam t user with
      | None => stop_with (Terminate (-1))
      | Some pw => if pw_uid pw =? 0 then ok (mret tt) else drop_to user pw dir fst
      end
    end.

(** ** main *)

Section whole.
Variable pending : list event -> Z * list usb_event.
Variable fuel depth rounds : nat.

(** Until the privileges are dropped: the listening socket. *)
Definition boot (opts : list (optcode * string)) : X Z :=
  parse_opts opts ?;
  fg ←? ok (is_set foreground);
  lf ←? ok (is_set use_logfile);
  ok (if negb fg && negb lf then
        set_global (fun g => g <| verbose := verbose g + Log.level_num LL_WARNING |>) ;;
        log_enable_syslog
      else set_global (fun g => g <| verbose := verbose g + Log.level_num LL_NOTICE |>)) ?;
  ok (set_global (fun g => g <| log_level := verbose g |> <| should_exit := 0 |>
                             <| should_discover := 0 |>)) ?;
  res ←? check_lock;
  ex ←? ok (is_set opt_exit);
  (if ex : bool then stop_with (Terminate res) else ok (mret tt)) ?;
  res ←? (if negb fg then
            r ←? daemonize;
            if r <? 0 then stop_with (Terminate r) else ok (mret r)
          else ok (mret res));
  place_lock res ?;
  listenfd ←? ok create_socket;
  (if listenfd <? 0 then stop_with (Terminate listenfd) else ok (mret tt)) ?;
  cfg ←? prepare_config_dir;
  drop_elevated (fst cfg) (snd cfg) ?;
  ok (mret listenfd).

(** From there until everything is set up. [enumerated] are the devices that
    are there when the USB layer starts. *)
Definition bring_up (enumerated : list ptr) : X unit :=
  ok (run client_init) ?;
  ok (run device_init) ?;
  res ←? ok (run (usb_init (usb_events pending fuel depth) fuel enumerated));
  (if res <? 0 then stop_with (Terminate res) else ok (mret tt)) ?;
  report ←? ok (is_set report_to_parent);
  (if report : bool then
     res ←? ok (notify_parent 0);
     if res <? 0 then stop_with (Terminate res) else ok (mret tt)
   else ok (mret tt)) ?;
  nohotplug ←? ok (is_set opt_disable_hotplug);
  ok (when nohotplug (run (usb_autodiscover 0))).

Definition start (opts : list (optcode * string)) (enumerated : list ptr) : X Z :=
  listenfd ←? boot opts;
  bring_up enumerated ?;
  ok (mret listenfd).

Definition shutdown : C world unit :=
  device_kill_connections (usb_process_timeout (usb_events pending fuel depth) fuel) ;;
  usb_shutdown (usb_events pending fuel depth) fuel ;;
  device_shutdown ;;
  client_shutdown.

(** From the label [terminate]: the exit status. *)
Definition terminate (res : Z) : C process Z :=
  log_disable_syslog ;;
  let res := if res <? 0 then - res else 0 in
  report ← is_set report_to_parent;
  when report (notify_parent res ;; mret tt) ;;
  mret res.

Definition main (opts : list (optcode * string)) (enumerated : list ptr) : C process Z :=
  r ← start opts enumerated;
  match r with
  | inl (Exit status) => run (emit (EvExit status)) ;; mret status
  | inl (Terminate res) => terminate res
  | inr listenfd =>
    res ← main_loop pending fuel depth rounds listenfd;
    run shutdown ;;
    terminate res
  end.

End whole.
End main.
