(* ===== verification/Preflight.v ===== *)
(** * Preflight: the worker thread of preflight.c

    The worker asks a new device for its type and its pairing state and makes
    the device visible to the clients. libimobiledevice is a parameter; what
    the other threads of the daemon do while the worker waits for an answer or
    sleeps is the argument [others]. *)

From stdpp Require Import base gmap list strings.
From Stdlib Require Import ZArith Lia Ascii String.
From S2P Require Import Prelude Platform Wire UsbSetup World Utils Conf Usb ClientOut DeviceOut.
From S2P Require Import Teardown Device UsbDevice.

Local Open Scope string_scope.
Local Open Scope list_scope.
Local Open Scope Z_scope.

Class Lockdown `{E : Env} := {
  lk_result : list event -> string -> lockdown_call -> lockdownd_error;
  (** [lockdownd_query_type], [lockdownd_get_value]: what they store *)
  lk_type : list event -> string -> option string;
  lk_value : list event -> string -> string -> option plist_t;
  (** whether [np_client_new] stores a client *)
  lk_np : list event -> string -> bool;
}.

Definition REQUEST_PAIR : string := "com.apple.mobile.lockdown.request_pair".
Definition REQUEST_HOST_BUID : string := "com.apple.mobile.lockdown.request_host_buid".
Definition LOCKDOWN_TYPE : string := "com.apple.mobile.lockdown".
Definition NOTIFICATION_PROXY : string := "com.apple.mobile.insecure_notification_proxy".

(** iOS 7.0 / watchOS 2.0 / tvOS 9.0 and later *)
Definition has_trust_dialog (deviceclass : string) (version_major : Z) : bool :=
  ((String.eqb deviceclass "iPhone" || String.eqb deviceclass "iPad") && (7 <=? version_major))
  || (String.eqb deviceclass "Watch" && (2 <=? version_major))
  || (String.eqb deviceclass "AppleTV" && (9 <=? version_major)).

Section preflight.
Context `{L : Lockdown}.
Variable others : C world unit.

Definition lockdownd (udid : string) (c : lockdown_call) : C world lockdownd_error :=
  others ;;
  t ← gets w_trace;
  let err := lk_result t udid c in
  emit (EvLockdown udid c err) ;;
  mret err.

Definition success (e : lockdownd_error) : bool := bool_decide (e = LOCKDOWN_E_SUCCESS).

Definition lockdownd_set_untrusted_host_buid (udid : string) : C world unit :=
  system_buid ← Conf.config_get_system_buid;
  lockdownd udid (LkSetValue "UntrustedHostBUID" system_buid) ;;
  mret tt.

(** Called by the thread of the notification proxy. *)
Definition np_callback (udid notification : string) (cbdata : ptr) : C world unit :=
  load w_cbs cbdata ;;  (* cbdata->dev *)
  if String.eqb notification "" then update w_cbs cbdata (fun c => c <| cb_np := false |>)
  else if String.eqb notification REQUEST_PAIR then
    lerr ← lockdownd udid LkClientNew;
    (if success lerr then
       lockdownd udid LkPair ;;
       lockdownd udid LkClientFree ;;
       mret tt
     else mret tt) ;;
    update w_cbs cbdata (fun c => c <| cb_is_finished := 1 |>)
  else if String.eqb notification REQUEST_HOST_BUID then
    lerr ← lockdownd udid LkClientNew;
    when (success lerr) (
      lockdownd_set_untrusted_host_buid udid ;;
      lockdownd udid LkClientFree ;;
      mret tt)
  else mret tt.

(** A value of the device that must be a string. *)
Definition get_string_value (udid key : string) : C world (lockdownd_error * option string) :=
  lerr ← lockdownd udid (LkGetValue key);
  t ← gets w_trace;
  mret (lerr, Conf.string_node (lk_value t udid key)).

(** Waits until the user answers, the device is gone or the proxy ends. *)
Fixpoint wait_for_trust (seconds : nat) (cbdata : ptr) : C world unit :=
  c ← load w_cbs cbdata;
  if cb_np c && negb (cb_is_device_connected c =? 0) && (cb_is_finished c =? 0) then
    match seconds with
    | O => no_fuel
    | S seconds' =>
      emit (EvUsleep 1000000) ;;
      others ;;
      wait_for_trust seconds' cbdata
    end
  else mret tt.

(** Registers for the answer of the user, makes the device visible and
    waits. The record lives in the stack frame of the worker. *)
Definition observe_trust (seconds : nat) (info : device_info) (udid : string) (np : bool) :
    C world unit :=
  cbdata ← malloc w_cbs (mk_cb np 1 0);
  lockdownd udid NpSetNotifyCallback ;;
  device_set_preflight_cb_data (di_id info) (Some cbdata) ;;
  lockdownd udid (NpObserve [REQUEST_PAIR; REQUEST_HOST_BUID]) ;;
  (* make device visible anyways *)
  client_device_add info ;;
  wait_for_trust seconds cbdata ;;
  device_set_preflight_cb_data (di_id info) None ;;
  c ← load w_cbs cbdata;
  when (cb_np c) (lockdownd udid NpClientFree ;; mret tt) ;;
  free w_cbs cbdata.

(** The branch for devices with a trust dialog. The functions below return
    whether the lockdown client is still open when [leave] is reached. *)
Definition preflight_trust (seconds : nat) (info : device_info) (udid : string)
    (is_device_paired : bool) : C world bool :=
  lockdownd_set_untrusted_host_buid udid ;;
  (* if not paired, trigger the trust dialog to make sure it appears *)
  paired ← (if is_device_paired then mret false
            else r ← lockdownd udid LkPair; mret (success r));
  if paired : bool then client_device_add info ;; mret true
  else
    lerr ← lockdownd udid (LkStartService NOTIFICATION_PROXY);
    if negb (success lerr) then client_device_add info ;; mret true
    else
      lockdownd udid NpClientNew ;;
      t ← gets w_trace;
      let np := lk_np t udid in
      lockdownd udid LkClientFree ;;
      observe_trust seconds info udid np ;;
      mret false.

(** iOS 6.x and earlier *)
Definition preflight_old (info : device_info) (udid : string) : C world bool :=
  lerr ← lockdownd udid LkPair;
  if negb (success lerr) then client_device_add info ;; mret true
  else
    host_id ← Conf.config_device_record_get_host_id udid;
    lerr ← lockdownd udid (LkStartSession host_id);
    if negb (success lerr) then mret true
    else
      lerr ← lockdownd udid LkValidatePair;
      if negb (success lerr) then mret true
      else client_device_add info ;; mret true.

(** From the question for the version on. *)
Definition preflight_pair (seconds : nat) (info : device_info) (udid : string)
    (is_device_paired : bool) : C world bool :=
  v ← get_string_value udid "ProductVersion";
  (* assume old iOS version *)
  match (if success (fst v) then snd v else Some "1.0") with
  | None => mret true
  | Some version =>
    d ← get_string_value udid "DeviceClass";
    if negb (success (fst d)) then mret true
    else
      match snd d with
      | None => mret true
      | Some deviceclass =>
        if has_trust_dialog deviceclass (s32 (atoi version)) then
          preflight_trust seconds info udid is_device_paired
        else preflight_old info udid
      end
  end.

(** From the label [retry] on; [retries] bounds how often it is reached. *)
Fixpoint preflight_from (retries seconds : nat) (info : device_info) (udid : string) : C world bool :=
  match retries with
  | O => no_fuel
  | S retries' =>
    lerr ← lockdownd udid LkClientNew;
    if negb (success lerr) then mret false
    else
      lockdownd udid LkQueryType ;;
      t ← gets w_trace;
      match lk_type t udid with
      | None => mret true
      | Some type =>
        (* make restore mode devices visible *)
        if negb (String.eqb type LOCKDOWN_TYPE) then client_device_add info ;; mret true
        else
          has ← Conf.config_has_device_record (Some udid);
          lerr ← (if negb (has =? 0) then
                    host_id ← Conf.config_device_record_get_host_id udid;
                    lockdownd udid (LkStartSession host_id)
                  else mret LOCKDOWN_E_INVALID_HOST_ID);
          match lerr with
          | LOCKDOWN_E_SUCCESS => client_device_add info ;; mret true
          | LOCKDOWN_E_INVALID_HOST_ID => preflight_pair seconds info udid false
          | LOCKDOWN_E_SSL_ERROR =>
            r ← Conf.config_remove_device_record udid;
            if r =? 0 then
              lockdownd udid LkClientFree ;;
              preflight_from retries' seconds info udid
            else preflight_pair seconds info udid false
          | _ => preflight_pair seconds info udid true
          end
      end
  end.

Definition preflight_worker_handle_device_add (retries seconds : nat) (info : device_info) :
    C world unit :=
  udid ← lift_option NullDeref (di_serial info);
  open ← preflight_from retries seconds info udid;
  when open (lockdownd udid LkClientFree ;; mret tt) ;;
  lockdownd udid IdeviceFree ;;
  mret tt.

End preflight.
