(* ===== verification/Text.v ===== *)
(** * Text: the texts that are written into buffers

    The lines of the log ([usbmuxd_log] of log.c), the name of a client's
    process ([_get_process_name_by_pid] of client.c) and the address the daemon
    listens on ([create_socket] of main.c), as the code puts them together in
    buffers of fixed size. [None]: the text leaves its buffer, or a string that
    is read does not end in it. The local time and the texts of [inet_ntop] and
    of /proc are arguments. *)

From stdpp Require Import base list strings.
From Stdlib Require Import ZArith Lia.
From S2P Require Import Prelude Platform Wire World Utils UsbSetup Conf Usb ClientOut DeviceOut.
From S2P Require Import Teardown Device Client UsbDevice UsbLoop Main.

Local Open Scope string_scope.
Local Open Scope list_scope.
Local Open Scope Z_scope.

Module Text.

Definition chars (s : string) : list Z := bytes_of_string s.

(** [sprintf(buf + off, ...)]: the text and its terminator. *)
Definition put (off : Z) (text buf : list Z) : option (list Z) :=
  if off + zlen text + 1 <=? zlen buf then Some (write_at off (text ++ [0]) buf) else None.

(** The string at the start of a buffer. *)
Fixpoint c_string (buf : list Z) : option (list Z) :=
  match buf with
  | [] => None
  | b :: buf' => if b =? 0 then Some [] else cons b <$> c_string buf'
  end.

(** [%d] of a number that is not negative, [%0nd] *)
Definition dec (x : Z) : list Z := digits 20 x.
Definition pad (n : nat) (l : list Z) : list Z := replicate (n - length l) 48 ++ l.

(** ** log.c *)

(** [strftime(fs, 10, "[%H:%M:%S", tp)] *)
Definition put_time (hour min sec : Z) (fs : list Z) : option (list Z) :=
  let text := chars "[" ++ pad 2 (dec hour) ++ chars ":" ++ pad 2 (dec min) ++ chars ":" ++ pad 2 (dec sec) in
  if zlen text + 1 <=? 10 then put 0 text fs else None.

(** "[%d] %s\n", and what comes before it when there is no syslog *)
Definition level_text (level : loglevel) (fmt : list Z) : list Z :=
  chars "[" ++ dec (Log.level_num level) ++ chars "] " ++ fmt ++ [10].
Definition msec_text (usec : Z) : list Z := chars "." ++ pad 3 (dec (Z.quot usec 1000)) ++ chars "]".

(** The format [fs] in its block of [20 + strlen(fmt)] bytes. *)
Definition log_format (syslog : bool) (hour min sec usec : Z) (level : loglevel) (fmt fs : list Z) :
    option (list Z) :=
  if syslog then put 0 (level_text level fmt) fs
  else
    fs ← put_time hour min sec fs;
    put 9 (msec_text usec ++ level_text level fmt) fs.

(** [Some None]: the level is not logged; [Some (Some f)]: the format that is
    printed. *)
Definition usbmuxd_log (log_level : Z) (syslog : bool) (hour min sec usec : Z)
    (level : loglevel) (fmt fs : list Z) : option (option (list Z)) :=
  if Log.log_prints log_level level then
    fs ← log_format syslog hour min sec usec level fmt fs;
    f ← c_string fs;
    Some (Some f)
  else Some None.

(** ** client.c *)

(** [cmdline]: what the file holds, when it can be opened. *)
Definition get_process_name_by_pid (pid : Z) (cmdline : option (list Z)) : option (list Z) :=
  name ← put 0 (chars "/proc/" ++ dec pid ++ chars "/cmdline") (replicate 1024 0);
  match cmdline with
  | None => Some name
  | Some data =>
    let data := ztake 1024 data in
    let size := zlen data in
    let name := write_at 0 data name in
    Some (if (0 <? size) && (nth (Z.to_nat (size - 1)) name 0 =? 10)
          then write_at (size - 1) [0] name else name)
  end.

(** ** main.c *)

Definition sizeof_listen_addr_str : Z := 256.

(** The text of the address the socket is bound to; [ntop] is the text of the
    address itself. A buffer that is too small for it leaves the string alone. *)
Definition listen_addr_str (family : Z) (ntop : list Z) (listen_port : Z) (buf : list Z) :
    option (list Z) :=
  if family =? AF_INET6 then
    let buf := write_at 0 (chars "[") buf in
    if zlen ntop + 1 <=? sizeof_listen_addr_str - 8 then
      buf ← put 1 ntop buf;
      s ← c_string buf;
      let buf := write_at (zlen s) (chars "]") buf in
      put (zlen s + 1) (chars ":" ++ dec listen_port) buf
    else Some buf
  else
    if zlen ntop + 1 <=? sizeof_listen_addr_str - 6 then
      buf ← put 0 ntop buf;
      s ← c_string buf;
      put (zlen s) (chars ":" ++ dec listen_port) buf
    else Some buf.

(** ** Lengths *)

Lemma length_digits fuel n k :
  (0 < k)%nat -> (k <= fuel)%nat -> 0 <= n < 10 ^ Z.of_nat k -> (length (digits fuel n) <= k)%nat.
Proof.
  revert n k. induction fuel as [|fuel IH]; intros n k Hk Hf Hn; [lia|]. cbn [digits].
  rewrite length_app. simpl. destruct (Z.ltb_spec n 10); [simpl; lia|].
  destruct k as [|[|k]]; [lia|simpl in Hn; lia|].
  assert (length (digits fuel (n / 10)) <= S k)%nat; [|lia]. apply IH; [lia|lia|].
  rewrite (Nat2Z.inj_succ (S k)), Z.pow_succ_r in Hn by lia.
  split; [apply Z.div_pos; lia|apply Z.div_lt_upper_bound; lia].
Qed.

Lemma digits_nonzero fuel n : 0 <= n -> Forall (fun b => b <> 0) (digits fuel n).
Proof.
  revert n. induction fuel as [|fuel IH]; intros n Hn; [constructor|]. cbn [digits].
  apply Forall_app. split.
  - destruct (n <? 10); [constructor|]. apply IH, Z.div_pos; lia.
  - repeat constructor. pose proof (Z.mod_pos_bound n 10). lia.
Qed.

Lemma length_dec1 n : 0 <= n < 10 -> length (dec n) = 1%nat.
Proof. intros Hn. unfold dec. cbn [digits]. by rewrite (proj2 (Z.ltb_lt n 10)) by lia. Qed.

Lemma length_pad n l : (length l <= n)%nat -> length (pad n l) = n.
Proof. intros Hl. unfold pad. rewrite length_app, length_replicate. lia. Qed.

Lemma pad_nonzero n l : Forall (fun b => b <> 0) l -> Forall (fun b => b <> 0) (pad n l).
Proof. intros Hl. apply Forall_app. split; [by apply Forall_replicate|done]. Qed.

(** A constant text has no terminator. *)
Ltac nonzero :=
  match goal with
  | |- Forall _ (chars _) => apply (bool_decide_unpack _); vm_compute; exact I
  | |- Forall _ [_] => by apply Forall_singleton
  end.

(** ** Strings in buffers *)

Lemma c_string_app l r : Forall (fun b => b <> 0) l -> c_string (l ++ 0 :: r) = Some l.
Proof.
  induction 1 as [|b l Hb Hl IH]; [done|]. simpl. rewrite (proj2 (Z.eqb_neq b 0)) by done. by rewrite IH.
Qed.

Lemma c_string_put l t buf :
  zlen l + zlen t + 1 <= zlen buf -> ztake (zlen l) buf = l -> Forall (fun b => b <> 0) (l ++ t) ->
  exists buf', put (zlen l) t buf = Some buf' /\ c_string buf' = Some (l ++ t) /\ zlen buf' = zlen buf /\
    ztake (zlen l + zlen t) buf' = l ++ t.
Proof.
  intros Hfit Hpre Hnz. unfold put. rewrite (proj2 (Z.leb_le _ _)) by done.
  pose proof (zlen_nonneg l). pose proof (zlen_nonneg t). eexists. split; [done|].
  assert (write_at (zlen l) (t ++ [0]) buf = (l ++ t) ++ 0 :: zdrop (zlen l + zlen (t ++ [0])) buf) as Hw.
  { unfold write_at. rewrite Hpre. by rewrite <- !app_assoc. }
  split_and!.
  - rewrite Hw. by apply c_string_app.
  - apply zlen_write_at; [lia|]. rewrite zlen_app. change (zlen [0]) with 1. lia.
  - rewrite Hw. apply ztake_app_exact. by rewrite zlen_app.
Qed.

(** ** The log *)

Definition time_text (hour min sec : Z) : list Z :=
  chars "[" ++ pad 2 (dec hour) ++ chars ":" ++ pad 2 (dec min) ++ chars ":" ++ pad 2 (dec sec).

Lemma length_dec2 n : 0 <= n < 100 -> (length (dec n) <= 2)%nat.
Proof. intros Hn. apply length_digits; [lia|lia|]. simpl. lia. Qed.

Lemma zlen_time_text hour min sec :
  0 <= hour < 100 -> 0 <= min < 100 -> 0 <= sec < 100 -> zlen (time_text hour min sec) = 9.
Proof.
  intros. unfold zlen, time_text. rewrite !length_app, !length_pad by (by apply length_dec2). done.
Qed.

Lemma dec_nonzero n : 0 <= n -> Forall (fun b => b <> 0) (dec n).
Proof. apply digits_nonzero. Qed.

Lemma level_text_ok level fmt :
  Forall (fun b => b <> 0) fmt ->
  zlen (level_text level fmt) = 5 + zlen fmt /\ Forall (fun b => b <> 0) (level_text level fmt).
Proof.
  intros Hf. assert (0 <= Log.level_num level < 10) as Hl by (destruct level; simpl; lia). split.
  - unfold zlen, level_text. rewrite !length_app, length_dec1 by done. simpl. lia.
  - unfold level_text. rewrite !Forall_app. split_and!; try done; try nonzero.
    apply dec_nonzero. lia.
Qed.

Lemma msec_text_ok usec :
  0 <= usec < 1000000 -> zlen (msec_text usec) = 5 /\ Forall (fun b => b <> 0) (msec_text usec).
Proof.
  intros Hu. assert (0 <= Z.quot usec 1000 < 1000) as Hq.
  { rewrite Z.quot_div_nonneg by lia. split; [apply Z.div_pos; lia|apply Z.div_lt_upper_bound; lia]. }
  split.
  - unfold zlen, msec_text. rewrite !length_app, length_pad; [done|].
    apply length_digits; [lia|lia|]. simpl. lia.
  - unfold msec_text. rewrite !Forall_app. split_and!; try nonzero.
    apply pad_nonzero, dec_nonzero. lia.
Qed.

(** A message that is logged fits the block of 20 bytes more than its format
    has; without syslog it fills it to the last byte. *)
Theorem log_line_fits log_level syslog hour min sec usec level fmt fs :
  0 <= hour < 24 -> 0 <= min < 60 -> 0 <= sec <= 60 -> 0 <= usec < 1000000 ->
  Forall (fun b => b <> 0) fmt -> zlen fs = 20 + zlen fmt ->
  usbmuxd_log log_level syslog hour min sec usec level fmt fs =
    Some (if Log.log_prints log_level level
          then Some ((if syslog : bool then [] else time_text hour min sec ++ msec_text usec) ++ level_text level fmt)
          else None).
Proof.
  intros Hh Hm Hs Hu Hf Hfs. unfold usbmuxd_log. destruct (Log.log_prints _ _); [|done].
  destruct (level_text_ok level fmt Hf) as [Hll Hln]. destruct (msec_text_ok usec Hu) as [Hml Hmn].
  pose proof (zlen_nonneg fmt). unfold log_format. destruct syslog.
  - destruct (c_string_put [] (level_text level fmt) fs) as (b & Hb & Hc & _);
      [rewrite zlen_nil; lia|done|done|]. rewrite zlen_nil in Hb. rewrite Hb. simpl. by rewrite Hc.
  - assert (zlen (time_text hour min sec) = 9) as Htl by (apply zlen_time_text; lia).
    assert (Forall (fun b => b <> 0) (time_text hour min sec)) as Htn.
    { unfold time_text. rewrite !Forall_app. split_and!; try nonzero;
        apply pad_nonzero, dec_nonzero; lia. }
    unfold put_time. fold (time_text hour min sec). rewrite (proj2 (Z.leb_le _ _)) by lia.
    destruct (c_string_put [] (time_text hour min sec) fs) as (b & Hb & _ & Hbl & Hbt);
      [rewrite zlen_nil; lia|done|done|]. rewrite zlen_nil in Hb, Hbt. rewrite Hb. cbn [mbind option_bind].
    rewrite Z.add_0_l, Htl in Hbt.
    destruct (c_string_put (time_text hour min sec) (msec_text usec ++ level_text level fmt) b)
      as (b2 & Hb2 & Hc2 & _).
    + rewrite zlen_app. lia.
    + by rewrite Htl.
    + rewrite !Forall_app. done.
    + rewrite Htl in Hb2. rewrite Hb2. cbn [mbind option_bind]. rewrite Hc2.
      cbn [mbind option_bind]. do 2 f_equal. apply app_assoc.
Qed.

(** ** The address *)

Definition address_text (family : Z) (ntop : list Z) (port : Z) : list Z :=
  (if family =? AF_INET6 then chars "[" ++ ntop ++ chars "]" else ntop) ++ chars ":" ++ dec port.

Lemma port_text_ok port :
  0 <= port < 65536 ->
  zlen (chars ":" ++ dec port) <= 6 /\ Forall (fun b => b <> 0) (chars ":" ++ dec port).
Proof.
  intros Hp. split.
  - assert (length (dec port) <= 5)%nat by (apply length_digits; [lia|lia|simpl; lia]).
    unfold zlen. rewrite length_app. simpl. lia.
  - apply Forall_app. split; [nonzero|apply dec_nonzero; lia].
Qed.

(** Whatever the address is, its text stays within the buffer; when there is
    room for the address, the text is complete. *)
Theorem listen_addr_str_fits family ntop port buf :
  Forall (fun b => b <> 0) ntop -> 0 <= port < 65536 -> zlen buf = sizeof_listen_addr_str ->
  exists buf', listen_addr_str family ntop port buf = Some buf' /\ zlen buf' = sizeof_listen_addr_str /\
    (zlen ntop < sizeof_listen_addr_str - 8 -> c_string buf' = Some (address_text family ntop port)).
Proof.
  intros Hn Hp Hl. destruct (port_text_ok port Hp) as [Htl Htn]. set (t := chars ":" ++ dec port) in *.
  pose proof (zlen_nonneg ntop). unfold listen_addr_str, address_text, sizeof_listen_addr_str in *. fold t.
  assert (Forall (fun b => b <> 0) (chars "[")) as Ho by nonzero.
  assert (Forall (fun b => b <> 0) (chars "]")) as Hc by nonzero.
  destruct (family =? AF_INET6).
  - assert (zlen (write_at 0 (chars "[") buf) = 256) as Hl1 by (rewrite zlen_write_at; [done|lia|rewrite Hl; done]).
    destruct (Z.leb_spec (zlen ntop + 1) (256 - 8)); [|eexists; split_and!; [done|done|lia]].
    destruct (c_string_put (chars "[") ntop (write_at 0 (chars "[") buf)) as (b1 & Hb1 & Hs1 & Hz1 & Ht1).
    { rewrite Hl1. change (zlen (chars "[")) with 1. lia. }
    { change (zlen (chars "[")) with (0 + zlen (chars "[")) at 1. by rewrite ztake_write_at by lia. }
    { by apply Forall_app. }
    change (zlen (chars "[")) with 1 in *. rewrite Hb1. cbn [mbind option_bind]. rewrite Hs1.
    cbn [mbind option_bind]. rewrite !zlen_app. change (zlen (chars "[")) with 1.
    destruct (c_string_put (chars "[" ++ ntop ++ chars "]") t (write_at (1 + zlen ntop) (chars "]") b1))
      as (b2 & Hb2 & Hs2 & Hz2 & _).
    { rewrite !zlen_app, zlen_write_at; change (zlen (chars "[")) with 1; change (zlen (chars "]")) with 1; lia. }
    { rewrite !zlen_app. change (zlen (chars "[")) with 1.
      replace (1 + (zlen ntop + zlen (chars "]"))) with (1 + zlen ntop + zlen (chars "]")) by lia.
      rewrite ztake_write_at by lia. rewrite Ht1. by rewrite <- app_assoc. }
    { rewrite !Forall_app. done. }
    exists b2. rewrite !zlen_app in Hb2. change (zlen (chars "[")) with 1 in Hb2. change (zlen (chars "]")) with 1 in Hb2.
    replace (1 + zlen ntop + 1) with (1 + (zlen ntop + 1)) by lia. split; [done|]. split; [|done].
    rewrite Hz2, zlen_write_at; change (zlen (chars "]")) with 1; lia.
  - destruct (Z.leb_spec (zlen ntop + 1) (256 - 6)); [|eexists; split_and!; [done|done|lia]].
    destruct (c_string_put [] ntop buf) as (b1 & Hb1 & Hs1 & Hz1 & Ht1); [rewrite zlen_nil; lia|done|done|].
    rewrite zlen_nil in *. rewrite Hb1. cbn [mbind option_bind]. rewrite Hs1. cbn [mbind option_bind].
    destruct (c_string_put ntop t b1) as (b2 & Hb2 & Hs2 & Hz2 & _);
      [lia|exact Ht1|by apply Forall_app|].
    exists b2. split; [done|]. split; [lia|done].
Qed.

(** ** The name of a process *)

Lemma last_write_at off d b :
  0 <= off -> off + zlen d < zlen b -> last b = Some 0 -> last (write_at off d b) = Some 0.
Proof.
  intros Ho Hd [b' ->]%last_Some. rewrite zlen_app in Hd. change (zlen [0]) with 1 in Hd.
  pose proof (zlen_nonneg d). unfold write_at.
  assert (zdrop (off + zlen d) (b' ++ [0]) = zdrop (off + zlen d) b' ++ [0]) as ->.
  { unfold zdrop, zlen in *. rewrite drop_app_le; [done|lia]. }
  rewrite !app_assoc. apply last_snoc.
Qed.

Lemma c_string_last b : last b = Some 0 -> exists s, c_string b = Some s.
Proof.
  intros [b' ->]%last_Some. induction b' as [|x b' [s IH]]; simpl; [by eexists|].
  destruct (x =? 0); [by eexists|]. rewrite IH. by eexists.
Qed.

(** A command line of less than 1024 bytes leaves a terminator. *)
Theorem process_name_ends pid data :
  0 <= pid < 10 ^ 10 -> zlen data < 1024 ->
  exists name s, get_process_name_by_pid pid (Some data) = Some name /\ c_string name = Some s.
Proof.
  intros Hp Hd. unfold get_process_name_by_pid. set (path := chars "/proc/" ++ dec pid ++ chars "/cmdline").
  assert (zlen path <= 24) as Hpl.
  { assert (length (dec pid) <= 10)%nat by (apply length_digits; [lia|lia|exact Hp]).
    unfold path, zlen. rewrite !length_app. simpl. lia. }
  set (zeros := replicate 1024 0). assert (zlen zeros = 1024) as Hz by (unfold zeros; by rewrite zlen_replicate).
  assert (last zeros = Some 0) as Hz0 by done.
  unfold put. rewrite (proj2 (Z.leb_le _ _)) by (rewrite Hz; lia). cbn [mbind option_bind].
  pose proof (zlen_nonneg path). pose proof (zlen_nonneg data).
  assert (zlen (path ++ [0]) = zlen path + 1) as Hp1 by (by rewrite zlen_app).
  assert (last (write_at 0 (path ++ [0]) zeros) = Some 0) as H1 by (apply last_write_at; [lia|lia|done]).
  assert (zlen (write_at 0 (path ++ [0]) zeros) = 1024) as Hl1 by (rewrite zlen_write_at; lia).
  rewrite (ztake_all 1024 data) by lia. set (name := write_at 0 data _).
  assert (last name = Some 0) as H2 by (apply last_write_at; [lia|lia|done]).
  assert (zlen name = 1024) as Hl2 by (unfold name; rewrite zlen_write_at; lia).
  destruct ((0 <? zlen data) && _) eqn:Hn.
  - apply andb_true_iff in Hn as [Hpos _]. apply Z.ltb_lt in Hpos.
    destruct (c_string_last (write_at (zlen data - 1) [0] name)) as [s Hs]; [|eauto].
    apply last_write_at; [lia|change (zlen [0]) with 1; lia|done].
  - destruct (c_string_last name H2) as [s Hs]. eauto.
Qed.

End Text.
