(* ===== verification/Scenario.v ===== *)
(** * Scenario: a concrete daemon, a device and a client

    A USB device, the packets it sends and a client that asks for a
    connection; the witnesses of the theorems run the program on them. The
    sockets of the scenario deliver a binary connect request for device 1,
    port 62078, in two pieces, and then the bytes 1 2 3 for every read; every
    write and every USB transfer succeeds. *)

From stdpp Require Import base gmap list strings countable.
From Stdlib Require Import ZArith Lia String.
From S2P Require Import Prelude Platform Wire World Utils Conf Instances Usb ClientOut.
From S2P Require Import DeviceOut Teardown Device Client UsbSetup UsbDevice.

Local Open Scope string_scope.
Local Open Scope list_scope.
Local Open Scope Z_scope.

Module Scenario.
Import Instances.

Fixpoint reads (t : list event) : nat :=
  match t with
  | [] => O
  | EvRecv _ _ _ :: t' => S (reads t')
  | _ :: t' => reads t'
  end.

Definition connect_request : list Z :=
  usbmuxd_header_bytes {| hdr_length := 24; hdr_version := 0;
    hdr_message := MESSAGE_CONNECT; hdr_tag := 77 |} ++
  le_bytes 4 1 ++ be_bytes 2 62078 ++ le_bytes 2 0.

Definition scn_recv (t : list event) (fd n : Z) : list Z + Z :=
  match reads t with
  | 0%nat => inl (take 16 connect_request)
  | 1%nat => inl (drop 16 connect_request)
  | _ => inl [1; 2; 3]
  end.

Definition scn_env : Env :=
  test_env scn_recv (fun _ _ d => inl (zlen d)) (fun _ _ _ _ => 0).
#[export] Existing Instance scn_env.
#[export] Instance scn_env_laws : EnvLaws scn_env := test_env_laws _ _ _.

(** The bus: device 50 at 3-4, an iPhone in its initial mode with four
    configurations, of which the last one has the multiplexor interface. *)
Definition scn_config (n : Z) : option config_descriptor :=
  Some (mk_config n (if n =? 4 then [mk_intf 1 255 254 2 2 [4; 133]] else [mk_intf 0 6 1 1 3 [2; 129; 130]])).

Definition scn_host : UsbHost := {|
  libusb_get_bus_number _ := 3;
  libusb_get_device_address _ := 4;
  libusb_get_device_descriptor _ _ := inr (mk_device_descriptor 1452 4776 4 3);
  libusb_open _ _ := 0;
  libusb_get_config_descriptor_by_value _ _ := scn_config;
  libusb_get_configuration _ _ := Some 1;
  libusb_kernel_driver_active _ _ _ := 0;
  libusb_set_configuration _ _ _ := 0;
  libusb_claim_interface _ _ _ := 0;
  libusb_get_max_packet_size _ _ _ := 512;
  libusb_get_device_speed _ _ := SPEED_HIGH;
  libusb_control_setup a b c d e := [u8 a; u8 b] ++ le_bytes 2 c ++ le_bytes 2 d ++ le_bytes 2 e;
  libusb_get_device_list _ := inr [50%positive];
  libusb_get_pollfds _ := Some [(20, POLLIN)];
  libusb_get_next_timeout _ := NtNone;
  libusb_init _ := 0;
  libusb_hotplug_register _ := Some 0;
  getenv_device_mode := None |}.
#[export] Existing Instance scn_host.

#[export] Instance scn_host_laws : UsbHostLaws scn_host.
Proof.
  intros a b c d e. split; [done|]. cbn [libusb_control_setup scn_host app].
  repeat (constructor; [apply Z.mod_pos_bound; lia|]). constructor.
Qed.

Definition scn_usbdev : usb_device :=
  mk_usb true 3 4 "00008020-0123" 1 [] [] 512 480000000 4776 1 133 4 4 3.

(** The daemon at start-up. *)
Definition scn_start : world := {|
  w_clients := ∅; w_conns := ∅; w_devs := ∅;
  w_usbdevs := ∅;
  w_xfers := ∅; w_bufs := ∅; w_ctxs := ∅; w_cbs := ∅; w_next := 2%positive;
  client_list := []; client_number := 0; device_list := []; next_device_id := 1;
  usb_device_list := []; next_dev_poll_time := (0, 0);
  devlist_failures := 0; device_polling := 0; device_hotplug := 1; w_locked := []; no_preflight := 1;
  w_fs := mk_fs ∅ ∅; config_dir := None; w_trace := [] |}.

(** A receive buffer of the size of the transfers that usb.c submits. *)
Definition rx_buffer (b : list Z) : list Z := b ++ replicate (Z.to_nat (USB_MRU - zlen b)) 0.

Definition version_packet : list Z :=
  mux_header_bytes 1 {| mh_protocol := 0; mh_length := 20; mh_magic := 0;
    mh_tx_seq := 0; mh_rx_seq := 0 |} ++ version_header_bytes 2 0.

(** A segment of the device for the connection from port 1 to port 62078. *)
Definition tcp_packet (seq flags : Z) (data : list Z) : list Z :=
  mux_header_bytes 2 {| mh_protocol := 6; mh_length := 36 + zlen data; mh_magic := 0;
    mh_tx_seq := 0; mh_rx_seq := 0 |} ++
  tcphdr_bytes {| th_sport := 62078; th_dport := 1; th_seq := seq; th_ack := 1; th_off := 5;
    th_flags := flags; th_win := 512 |} ++ data.

Definition rx (p : list Z) : C world unit := device_data_input 1%positive (rx_buffer p) (zlen p).

(** ** A small state in the middle of a session

    Device 2 has an established connection 4 (port 65535) of the client 3 and
    a pending one, 6 (port 0), of the client 5; client 7 listens. Buffers are
    small to keep the state readable. *)

Definition scn_client (fd : Z) (st : client_state) : mux_client := {|
  cl_fd := fd; cl_ob_buf := Some (replicate 40 0); cl_ob_size := 0; cl_ob_capacity := 40;
  cl_ib_buf := Some (replicate 64 0); cl_ib_size := 0; cl_ib_capacity := 64;
  cl_events := POLLIN; cl_devents := 0; cl_connect_tag := 77; cl_connect_device := 1;
  cl_state := st; cl_proto_version := 0; cl_number := fd; cl_info := None |}.

Definition scn_conn (client : ptr) (st : mux_conn_state) (sport : Z) : mux_connection := {|
  cn_dev := 2%positive; cn_client := Some client; cn_state := st; cn_sport := sport;
  cn_dport := 62078; cn_tx_seq := 1; cn_tx_ack := 1; cn_tx_acked := 1; cn_tx_win := 131072;
  cn_rx_seq := 0; cn_rx_recvd := 0; cn_rx_ack := 1; cn_rx_win := 16; cn_max_payload := 49116;
  cn_sendable := 8; cn_flags := 0; cn_ib_buf := [10; 11; 12; 0; 0; 0; 0; 0]; cn_ib_size := 3;
  cn_ib_capacity := 8; cn_ob_buf := replicate 8 0; cn_ob_capacity := 8; cn_events := 5;
  cn_last_ack_time := 0 |}.

Definition scn_dev : mux_device := {|
  dv_usbdev := 1%positive; dv_id := 1; dv_state := MUXDEV_ACTIVE; dv_visible := 1;
  dv_connections := Some [4%positive; 6%positive]; dv_next_sport := 65535;
  dv_pktbuf := replicate 32 0; dv_pktlen := 0; dv_preflight_cb_data := None; dv_version := 2;
  dv_rx_seq := 0; dv_tx_seq := 5 |}.

Definition scn_world : world := {|
  w_clients := {[ 3%positive := scn_client 10 CLIENT_CONNECTED;
                  5%positive := scn_client 11 CLIENT_CONNECTING1;
                  7%positive := scn_client 12 CLIENT_LISTEN ]};
  w_conns := {[ 4%positive := scn_conn 3 CONN_CONNECTED 65535;
                6%positive := scn_conn 5 CONN_CONNECTING 0 ]};
  w_devs := {[ 2%positive := scn_dev ]};
  w_usbdevs := {[ 1%positive := scn_usbdev ]};
  w_xfers := ∅; w_bufs := ∅; w_ctxs := ∅; w_cbs := ∅; w_next := 8%positive;
  client_list := [3%positive; 5%positive; 7%positive]; client_number := 13;
  device_list := [2%positive]; next_device_id := 1;
  usb_device_list := [1%positive]; next_dev_poll_time := (0, 0);
  devlist_failures := 0; device_polling := 0; device_hotplug := 1; w_locked := []; no_preflight := 1;
  w_fs := mk_fs ∅ ∅; config_dir := None; w_trace := [] |}.

(** The state a function leaves, when it returns. *)
Definition after {A} (m : C world A) (w : world) : world :=
  match m w with Ok _ w' => w' | _ => w end.
Definition returns {A} (m : C world A) (w : world) : bool :=
  match m w with Ok _ _ => true | _ => false end.

Lemma run_after {A} (m : C world A) w :
  returns m w = true -> exists a, m w = Ok a (after m w).
Proof. unfold returns, after. destruct (m w); [eauto|done..]. Qed.

End Scenario.
