(* ===== verification/ScenarioMain.v ===== *)
(** * ScenarioMain: a concrete process

    The daemon of Scenario.v as a process, started by root in the foreground
    for the user "mux", with the answers of an operating system on which every
    call succeeds. *)

From stdpp Require Import base gmap list strings.
From Stdlib Require Import ZArith Lia Ascii String.
From S2P Require Import Prelude Platform Wire UsbSetup World Utils Conf Instances Usb ClientOut.
From S2P Require Import DeviceOut Teardown Device Client UsbDevice UsbLoop Main Scenario.

Local Open Scope string_scope.
Local Open Scope list_scope.
Local Open Scope Z_scope.

Module ScenarioMain.
Import Instances Scenario.

(** Who the process runs as: root, until a call of [setuid]. *)
Fixpoint uid_after (t : list event) : Z :=
  match t with
  | [] => 0
  | EvSys (SysSetuid uid) 0 :: _ => uid
  | _ :: t' => uid_after t'
  end.

Fixpoint gid_after (t : list event) : Z :=
  match t with
  | [] => 0
  | EvSys (SysSetgid gid) 0 :: _ => gid
  | _ :: t' => gid_after t'
  end.

Definition scn_call (t : list event) (c : syscall) : Z :=
  match c with
  | SysOpen _ _ => 4
  | SysWrite _ data => zlen data
  | SysKill pid _ => if pid =? 77 then 0 else -1
  | SysSocket _ => 3
  | SysGetppid => 100
  | SysFreopen _ _ => 1
  | SysSetuid _ => if uid_after t =? 0 then 0 else -1
  | SysGetuid | SysGeteuid => uid_after t
  | SysGetgid => gid_after t
  | _ => 0
  end.

Fixpoint polls (t : list event) : nat :=
  match t with
  | [] => O
  | EvPoll _ :: t' => S (polls t')
  | _ :: t' => polls t'
  end.

(** The operating system: who holds the lock, and what every [ppoll] reports. *)
Definition scn_os (holder : option Z) (script : list poll_answer) : Process := {|
  sys_call := scn_call;
  sys_getlk _ _ := holder;
  sys_pipe_fds _ := (8, 9);
  sys_read_int _ _ := Some 0;
  sys_getaddrinfo _ _ _ := inr [2];
  sys_getpwnam _ user := if String.eqb user "mux" then Some (mk_passwd 500 501) else None;
  sys_stat_fields _ _ := mk_stat CONFIG_MODE 0 0;
  sys_ppoll t _ := nth (polls t) script (PollSignals [SIGTERM]);
  sys_getpid := 1234;
  have_udev := true;
  have_systemd := true |}.

Definition boot_process : process := mk_process globals0 scn_start.
Definition boot_opts : list (optcode * string) :=
  [(OptChar "f", ""); (OptChar "p", ""); (OptChar "C", "/lockdown"); (OptChar "U", "mux")].

(** The result of a step that does not leave the normal flow. *)
Definition goes_on {A} (o : outcome process (stop + A)) : option A :=
  match o with Ok (inr a) _ => Some a | _ => None end.

Lemma goes_on_ok {A} (o : outcome process (stop + A)) a d :
  goes_on o = Some a -> o = Ok (inr a) (match o with Ok _ p => p | _ => d end).
Proof. destruct o as [[|]| |]; simpl; congruence. Qed.

End ScenarioMain.
