(* ===== verification/Ids.v ===== *)
(** * Ids: device ids and source ports are unused ones, and are always found

    [get_next_device_id] and [find_sport] of device.c are unbounded loops;
    the theorems show that they return, within one round per taken number and
    one more, and that the number is not taken. *)

From stdpp Require Import base gmap list strings.
From Stdlib Require Import ZArith Lia.
From S2P Require Import Prelude Platform Wire World Utils Conf Instances Usb ClientOut.
From S2P Require Import DeviceOut Teardown Device Client Scenario.

Local Open Scope Z_scope.

Section ids.
Context `{E : Env}.
Implicit Types w : world.

(** ** Source ports *)

(** The source ports of a list of connections. *)
Definition sports w (l : list ptr) : list Z := omap (fun p => cn_sport <$> w_conns w !! p) l.

Lemma elem_of_sports w l s :
  s ∈ sports w l <-> exists p c, p ∈ l /\ w_conns w !! p = Some c /\ cn_sport c = s.
Proof.
  unfold sports. rewrite list_elem_of_omap. split.
  - intros (p & Hp & (c & Hc & ->)%fmap_Some). eauto.
  - intros (p & c & Hp & Hc & <-). exists p. by rewrite Hc.
Qed.

Lemma sports_length w l : (length (sports w l) <= length l)%nat.
Proof.
  unfold sports. induction l as [|p l IH]; cbn [omap list_omap]; [done|].
  destruct (cn_sport <$> _); simpl; lia.
Qed.

(** The connections of a device that the loop looks at are allocated. *)
Definition conns_ok w (l : list ptr) : Prop := forall p, p ∈ l -> is_Some (w_conns w !! p).

Definition set_next_sport (q : ptr) (s : Z) (w : world) : world :=
  w <| w_devs ::= alter (fun d => d <| dv_next_sport := s |>) q |>.

Lemma wp_upd_next_sport q d w (f : mux_device -> Z) (Q : unit -> world -> Prop) :
  w_devs w !! q = Some d -> Q tt (set_next_sport q (f d) w) ->
  wp (upd_dev q (fun d => d <| dv_next_sport := f d |>)) Q w.
Proof.
  intros Hd HQ. eapply wp_update; [done|]. unfold set_next_sport in HQ.
  replace (set w_devs <[q := d <| dv_next_sport := f d |>]> w)
    with (set w_devs (alter (fun d0 => d0 <| dv_next_sport := f d |>) q) w); [done|].
  destruct w; simpl in *. f_equal. apply map_eq. intros j. destruct (decide (q = j)) as [->|Hne].
  - by rewrite lookup_alter_eq, lookup_insert_eq, Hd.
  - by rewrite lookup_alter_ne, lookup_insert_ne.
Qed.

Lemma set_next_sport_twice q s s' w :
  set_next_sport q s' (set_next_sport q s w) = set_next_sport q s' w.
Proof.
  unfold set_next_sport. destruct w; simpl. f_equal. apply map_eq. intros j.
  destruct (decide (q = j)) as [->|Hne].
  - rewrite !lookup_alter_eq. by destruct (_ !! j).
  - by rewrite !lookup_alter_ne.
Qed.

Lemma wp_find_sport_loop k q d l w :
  w_devs w !! q = Some d -> dv_connections d = Some l -> conns_ok w (coll_elems l) ->
  0 <= dv_next_sport d < 2 ^ 16 ->
  (exists i, (i < k)%nat /\ u16 (dv_next_sport d + Z.of_nat i) ∉ sports w (coll_elems l)) ->
  wp (find_sport_loop k q) (fun r w' => 0 <= r < 2 ^ 16 /\ (r ∉ sports w (coll_elems l)) /\
    w' = set_next_sport q (u16 (r + 1)) w) w.
Proof.
  revert d w. induction k as [|k IH]; intros d w Hd Hl Hok Hrange (i & Hi & Hfree); [lia|].
  cbn [find_sport_loop].
  eapply wp_call; [eapply (wp_foreach_scan _ _
    (fun p => forall c, w_conns w !! p = Some c -> cn_sport c <> dv_next_sport d)
    (fun _ w' => dv_next_sport d ∈ sports w (coll_elems l) /\
       w' = set_next_sport q (u16 (dv_next_sport d + 1)) w) w l)|].
  - unfold dev_connections, mbind, C_bind, load. by rewrite Hd, Hl.
  - intros p Hp. apply wp_bind. eapply wp_load; [done|].
    destruct (Hok p Hp) as [c Hc]. apply wp_bind. eapply wp_load; [done|].
    destruct (Z.eqb_spec (dv_next_sport d) (cn_sport c)) as [Heq|Hne].
    + apply wp_bind. eapply (wp_upd_next_sport q d w (fun d => u16 (dv_next_sport d + 1)));
        [done|]. split; [|done]. apply elem_of_sports. eauto.
    + split; [done|]. intros p'. rewrite list_elem_of_singleton. intros -> c' Hc'. congruence.
  - intros [[]|] w' Hr.
    + destruct Hr as [Htaken ->].
      eapply wp_mono; [apply (IH (d <| dv_next_sport := u16 (dv_next_sport d + 1) |>))|].
      * simpl. by rewrite lookup_alter_eq, Hd.
      * done.
      * exact Hok.
      * apply u16_range.
      * destruct i as [|i].
        { rewrite Z.add_0_r, u16_small in Hfree by done. done. }
        exists i. split; [lia|]. simpl. unfold u16 in *.
        rewrite Zplus_mod_idemp_l. by replace (dv_next_sport d + 1 + Z.of_nat i) with
          (dv_next_sport d + Z.of_nat (S i)) by lia.
      * intros r w2 (? & ? & ->). by rewrite set_next_sport_twice.
    + destruct Hr as [-> Hr]. apply wp_bind. eapply wp_load; [done|]. apply wp_bind.
      eapply (wp_upd_next_sport q d w (fun d => u16 (dv_next_sport d + 1))); [done|].
      split; [done|]. split; [|done].
      rewrite elem_of_sports. intros (p & c & Hp & Hc & He). by apply (Hr p Hp c).
Qed.

Lemma wp_find_sport q d l w :
  w_devs w !! q = Some d -> dv_connections d = Some l -> conns_ok w (coll_elems l) ->
  0 <= dv_next_sport d < 2 ^ 16 -> coll_count l < 65535 ->
  wp (find_sport q) (fun r w' => 0 <= r < 2 ^ 16 /\ (r ∉ sports w (coll_elems l)) /\
    w' = set_next_sport q (u16 (r + 1)) w) w.
Proof.
  intros Hd Hl Hok Hrange Hcount. unfold find_sport, dev_connections. apply wp_bind, wp_bind.
  eapply wp_load; [done|]. eapply wp_lift_option; [done|]. rewrite (proj2 (Z.leb_gt _ _)) by done. eapply wp_find_sport_loop; try done.
  pose proof (sports_length w (coll_elems l)) as Hlen. unfold coll_count, zlen in Hcount.
  destruct (free_index (fun i => u16 (dv_next_sport d + Z.of_nat i)) (sports w (coll_elems l)))
    as (i & Hi & Hf).
  - intros i j Hi Hj He. unfold u16 in He. change (2 ^ 16) with 65536 in He.
    pose proof (Z.div_mod (dv_next_sport d + Z.of_nat i) 65536).
    pose proof (Z.div_mod (dv_next_sport d + Z.of_nat j) 65536). nia.
  - exists i. split; [lia|done].
Qed.

(** C30: on a device with fewer than 65535 connections [find_sport] returns, the
    port it returns is used by no connection of the device, and all it changes
    is that the device's next port is the one after it. *)
Theorem find_sport_unused q d l w :
  w_devs w !! q = Some d -> dv_connections d = Some l -> conns_ok w (coll_elems l) ->
  0 <= dv_next_sport d < 2 ^ 16 -> coll_count l < 65535 ->
  wp (find_sport q) (fun r w' => 0 <= r < 2 ^ 16 /\ (r ∉ sports w (coll_elems l)) /\
    w' = set_next_sport q (u16 (r + 1)) w) w.
Proof. apply wp_find_sport. Qed.

(** With 65535 connections there is no port left and the request fails. *)
Lemma find_sport_exhausted q d l w :
  w_devs w !! q = Some d -> dv_connections d = Some l -> 65535 <= coll_count l ->
  find_sport q w = Ok 0 w.
Proof.
  intros Hd Hl Hc. unfold find_sport, dev_connections, mbind, C_bind, load. rewrite Hd, Hl.
  simpl. unfold mret, C_ret. by rewrite (proj2 (Z.leb_le _ _)).
Qed.

(** ** Device ids *)

(** The ids of the listed devices. *)
Definition dev_ids w (l : list ptr) : list Z := omap (fun q => dv_id <$> w_devs w !! q) l.

Lemma elem_of_dev_ids w l i :
  i ∈ dev_ids w l <-> exists q d, q ∈ l /\ w_devs w !! q = Some d /\ dv_id d = i.
Proof.
  unfold dev_ids. rewrite list_elem_of_omap. split.
  - intros (q & Hq & (d & Hd & ->)%fmap_Some). eauto.
  - intros (q & d & Hq & Hd & <-). exists q. by rewrite Hd.
Qed.

Lemma dev_ids_length w l : (length (dev_ids w l) <= length l)%nat.
Proof.
  unfold dev_ids. induction l as [|p l IH]; cbn [omap list_omap]; [done|].
  destruct (dv_id <$> _); simpl; lia.
Qed.

Definition devs_ok w : Prop := forall q, q ∈ coll_elems (device_list w) -> is_Some (w_devs w !! q).

(** Only the counter and the history changed; in particular no mutex is left
    locked. *)
Definition only_next_id (w : world) (n : Z) (w' : world) : Prop :=
  exists t, w' = w <| next_device_id := n |> <| w_trace := t |>.

Lemma wp_get_next_device_id_loop k w :
  devs_ok w -> device_list_mutex ∉ w_locked w ->
  next_device_id w + Z.of_nat k <= INT_MAX ->
  (exists i, (i < k)%nat /\
     next_device_id w + Z.of_nat i ∉ dev_ids w (coll_elems (device_list w))) ->
  wp (get_next_device_id_loop k) (fun r w' => next_device_id w <= r /\
    (r ∉ dev_ids w (coll_elems (device_list w))) /\ only_next_id w (r + 1) w') w.
Proof.
  revert w. induction k as [|k IH]; intros w Hok Hm Hmax (i & Hi & Hfree); [lia|].
  cbn [get_next_device_id_loop]. apply wp_bind, wp_mutex_lock; [done|].
  set (w1 := (w <| w_locked ::= cons device_list_mutex |>) <| w_trace ::= cons _ |>).
  eapply wp_call; [eapply (wp_foreach_scan _ _
    (fun q => forall d, w_devs w !! q = Some d -> dv_id d <> next_device_id w)
    (fun _ w' => next_device_id w ∈ dev_ids w (coll_elems (device_list w)) /\
       w' = w1 <| next_device_id := next_device_id w + 1 |>) w1 (device_list w)); [done|]|].
  - intros q Hq. destruct (Hok q Hq) as [d Hd]. apply wp_bind. eapply wp_load; [done|].
    apply wp_bind, wp_gets. simpl next_device_id.
    destruct (Z.eqb_spec (dv_id d) (next_device_id w)) as [Heq|Hne].
    + apply wp_bind. unfold bump_next_device_id. apply wp_bind, wp_gets.
      change (next_device_id w1) with (next_device_id w).
      rewrite (proj2 (Z.eqb_neq _ _)) by lia. apply wp_modify.
      split; [|done]. apply elem_of_dev_ids. eauto.
    + split; [done|]. intros q'. rewrite list_elem_of_singleton. intros -> d' Hd'. congruence.
  - intros [[]|] w' Hr.
    + destruct Hr as [Htaken ->]. apply wp_bind, wp_modify.
      match goal with |- wp _ _ ?x => set (w2 := x) end.
      assert (only_next_id w (next_device_id w + 1) w2) as [t Ht].
      { eexists. unfold w2, w1. simpl. rewrite filter_unlock by done. reflexivity. }
      rewrite Ht. eapply wp_mono; [apply IH|].
      * exact Hok.
      * exact Hm.
      * simpl. lia.
      * destruct i as [|i]; [by rewrite Z.add_0_r in Hfree|].
        exists i. split; [lia|]. simpl.
        by replace (next_device_id w + 1 + Z.of_nat i) with
          (next_device_id w + Z.of_nat (S i)) by lia.
      * intros r w3 (Hle & Hnot & t3 & ->). simpl in Hle. split; [lia|]. split; [done|].
        by exists t3.
    + destruct Hr as [-> Hr]. apply wp_bind, wp_modify. apply wp_bind, wp_gets.
      simpl next_device_id. apply wp_bind. unfold bump_next_device_id. apply wp_bind, wp_gets.
      simpl next_device_id. rewrite (proj2 (Z.eqb_neq _ _)) by lia. apply wp_modify.
      split; [lia|]. split.
      * rewrite elem_of_dev_ids. intros (q & d & Hq & Hd & He). by apply (Hr q Hq d).
      * eexists. unfold w1. simpl. rewrite filter_unlock by done. reflexivity.
Qed.

(** C31: [get_next_device_id] returns an id that no listed device has, as long
    as the counter is far enough from [INT_MAX]; the counter ends after it and
    the list mutex is released. *)
Theorem get_next_device_id_unused w :
  devs_ok w -> device_list_mutex ∉ w_locked w ->
  next_device_id w + coll_count (device_list w) < INT_MAX ->
  wp get_next_device_id (fun r w' => next_device_id w <= r /\
    (r ∉ dev_ids w (coll_elems (device_list w))) /\ only_next_id w (r + 1) w') w.
Proof.
  intros Hok Hm Hmax. unfold get_next_device_id. apply wp_bind, wp_gets.
  unfold coll_count, zlen in Hmax.
  apply wp_get_next_device_id_loop; [done..|lia|].
  pose proof (dev_ids_length w (coll_elems (device_list w))) as Hlen.
  destruct (free_index (fun i => next_device_id w + Z.of_nat i)
    (dev_ids w (coll_elems (device_list w)))) as (i & Hi & Hf); [intros; lia|].
  exists i. split; [lia|done].
Qed.

End ids.

Section witness.
Import Instances Scenario.

(** Ports 65535 and 0 are taken; the next free one is 1. *)
Lemma find_sport_unused_witness :
  wp (find_sport 2%positive) (fun r w' => 0 <= r < 2 ^ 16 /\
    (r ∉ sports scn_world [4%positive; 6%positive]) /\
    w' = set_next_sport 2%positive (u16 (r + 1)) scn_world) scn_world.
Proof.
  apply (find_sport_unused 2%positive scn_dev [4%positive; 6%positive] scn_world).
  - reflexivity.
  - reflexivity.
  - intros p Hp. repeat (apply elem_of_cons in Hp as [->|Hp]; [by eexists|]).
    by apply not_elem_of_nil in Hp.
  - simpl. lia.
  - reflexivity.
Defined.

(** Id 1 is taken. *)
Lemma get_next_device_id_unused_witness :
  wp get_next_device_id (fun r w' => 1 <= r /\ (r ∉ [1]) /\ only_next_id scn_world (r + 1) w')
    scn_world.
Proof.
  apply (get_next_device_id_unused scn_world).
  - intros p Hp. repeat (apply elem_of_cons in Hp as [->|Hp]; [by eexists|]).
    by apply not_elem_of_nil in Hp.
  - by apply not_elem_of_nil.
  - reflexivity.
Defined.

End witness.
