(* ===== verification/SendFacts.v ===== *)
(** * SendFacts: what reaches the USB device when a packet is sent

    [usb_send] of usb.c and [send_packet], [send_tcp] of device.c: they return
    in every state in which their objects exist, and the theorems say which
    bytes are submitted and what else changes. *)

From stdpp Require Import base gmap list strings.
From Stdlib Require Import ZArith Lia.
From S2P Require Import Prelude Platform Wire World Utils Conf Instances Usb ClientOut.
From S2P Require Import DeviceOut Teardown Device Client Scenario.

Local Open Scope Z_scope.

Section send.
Context `{E : Env}.
Implicit Types w : world.

(** ** Frame

    Everything but the USB devices, the transfers, their buffers, the
    allocator and the history is as it was. *)
Definition usb_frame (w w' : world) : Prop :=
  w' = w <| w_usbdevs := w_usbdevs w' |> <| w_xfers := w_xfers w' |> <| w_bufs := w_bufs w' |>
         <| w_next := w_next w' |> <| w_trace := w_trace w' |>.

#[export] Instance usb_frame_preorder : PreOrder usb_frame.
Proof.
  split.
  - intros []. reflexivity.
  - intros [] [] [] H1 H2. unfold usb_frame in *; simpl in *.
    injection H1; injection H2; intros; subst; reflexivity.
Qed.

Lemma usb_frame_upd_usb p f : Preserves usb_frame (upd_usb p f).
Proof. intros w. apply wlp_update. intros. reflexivity. Qed.
Lemma usb_frame_malloc_buf a : Preserves usb_frame (malloc w_bufs a).
Proof. intros w. apply wlp_malloc. reflexivity. Qed.
Lemma usb_frame_malloc_xfer a : Preserves usb_frame (malloc w_xfers a).
Proof. intros w. apply wlp_malloc. reflexivity. Qed.
Lemma usb_frame_free_buf p : Preserves usb_frame (free w_bufs p).
Proof. intros w. apply wlp_free. intros. reflexivity. Qed.
Lemma usb_frame_free_xfer p : Preserves usb_frame (free w_xfers p).
Proof. intros w. apply wlp_free. intros. reflexivity. Qed.
Lemma usb_frame_emit e : Preserves usb_frame (emit e).
Proof. apply preserves_modify. intros w. reflexivity. Qed.
#[local] Hint Resolve usb_frame_upd_usb usb_frame_malloc_buf usb_frame_malloc_xfer usb_frame_free_buf
  usb_frame_free_xfer usb_frame_emit : preserves.

Lemma frame_usb_send dev buf n : Preserves usb_frame (usb_send dev buf n).
Proof. unfold usb_send, submit. preserves_tac. Qed.

(** ** usb_send *)

(** The answer of libusb to the submission of a transfer after some history. *)
Abbreviation answer t dev data := (libusb_submit_transfer t dev EpOut data).

(** Buffers that belong to transfers in flight. *)
Definition in_flight (w : world) (dev buf : ptr) (n : Z) : Prop :=
  exists x u, w_xfers w !! x = Some (mk_xfer dev buf n CB_TX 0) /\ w_usbdevs w !! dev = Some u /\
    x ∈ coll_elems (ud_tx_xfers u).

(** The outcome of [usb_send]: refused; accepted; accepted with a zero length
    packet after it, which may be refused. *)
Inductive usb_sent (w : world) (dev buf : ptr) (data : list Z) (n mps : Z) : Z -> world -> Prop :=
  | usb_refused r w' :
    r = answer (w_trace w) dev data -> r < 0 ->
    w_trace w' = EvSubmit dev EpOut data r :: w_trace w ->
    w_bufs w' = w_bufs w -> w_xfers w' = w_xfers w ->
    usb_sent w dev buf data n mps r w'
  | usb_accepted r w' :
    r = answer (w_trace w) dev data -> 0 <= r -> Z.rem n mps <> 0 ->
    w_trace w' = EvSubmit dev EpOut data r :: w_trace w ->
    w_bufs w' = w_bufs w -> in_flight w' dev buf n ->
    usb_sent w dev buf data n mps 0 w'
  | usb_accepted_zlp r z t w' :
    r = answer (w_trace w) dev data -> 0 <= r -> Z.rem n mps = 0 ->
    t = EvSubmit dev EpOut data r :: w_trace w -> z = answer t dev [] ->
    w_trace w' = EvSubmit dev EpOut [] z :: t ->
    w_bufs w' !! buf = Some data -> in_flight w' dev buf n ->
    usb_sent w dev buf data n mps (if z <? 0 then z else 0) w'.

Context `{!CollectionLaws env_coll}.

(** Objects below the allocator's next pointer; nothing above is in use. *)
Definition heap_fresh (w : world) : Prop := forall p, (w_next w <= p)%positive ->
  w_bufs w !! p = None /\ w_xfers w !! p = None.

Lemma wp_usb_send dev buf n data u w :
  w_usbdevs w !! dev = Some u -> ud_wMaxPacketSize u <> 0 -> w_bufs w !! buf = Some data ->
  heap_fresh w ->
  wp (usb_send dev buf n) (fun r w' => usb_sent w dev buf data n (ud_wMaxPacketSize u) r w') w.
Proof.
  intros Hu Hmps Hbuf Hfresh. destruct (Hfresh (w_next w)) as [_ Hnx]; [lia|].
  unfold usb_send, submit. apply wp_bind. eapply wp_load; [done|].
  apply wp_bind. eapply wp_load; [done|]. apply wp_bind, wp_malloc.
  apply wp_bind, wp_bind, wp_gets. simpl w_trace. apply wp_bind, wp_modify.
  unfold wp at 1; cbn [mret C_ret].
  set (r := answer (w_trace w) dev data). destruct (Z.ltb_spec r 0) as [Hr|Hr].
  - apply wp_bind. eapply wp_free; [simpl; apply lookup_insert_eq|].
    apply (usb_refused _ _ _ _ _ _ r); try done. simpl. by rewrite delete_insert_id.
  - apply wp_bind. eapply wp_update; [simpl; done|]. apply wp_bind.
    eapply wp_load; [simpl; apply lookup_insert_eq|]. simpl ud_wMaxPacketSize.
    rewrite (proj2 (Z.eqb_neq _ _)) by done.
    destruct (Z.eqb_spec (Z.rem n (ud_wMaxPacketSize u)) 0) as [Hz|Hz]; cycle 1.
    { apply (usb_accepted _ _ _ _ _ _ r); try done.
      exists (w_next w). eexists. simpl. rewrite !lookup_insert_eq. split; [done|].
      split; [done|]. simpl. apply elem_of_coll_add. by left. }
    apply wp_bind, wp_gets, wp_bind, wp_malloc, wp_bind, wp_malloc.
    apply wp_bind, wp_bind, wp_gets. simpl w_trace. apply wp_bind, wp_modify.
    unfold wp at 1; cbn [mret C_ret].
    set (z := answer (EvSubmit dev EpOut data r :: w_trace w) dev []).
    assert (buf <> Pos.succ (w_next w)) as Hne.
    { intros ->. destruct (Hfresh (Pos.succ (w_next w))) as [? _]; [lia|]. congruence. }
    destruct (Z.ltb_spec z 0) as [Hzr|Hzr].
    + apply wp_bind. eapply wp_free; [simpl; apply lookup_insert_eq|].
      unfold wp; cbn [mret C_ret]. replace z with (if z <? 0 then z else 0) at 1
        by (by rewrite (proj2 (Z.ltb_lt _ _))).
      eapply (usb_accepted_zlp _ _ _ _ _ _ r z); try done.
      * simpl. by rewrite lookup_insert_ne.
      * exists (w_next w). eexists. simpl. rewrite lookup_delete_ne by lia.
        rewrite lookup_insert_ne by lia. rewrite !lookup_insert_eq. split; [done|].
        split; [done|]. simpl. apply elem_of_coll_add. by left.
    + apply wp_bind. eapply wp_update; [simpl; apply lookup_insert_eq|].
      unfold wp; cbn [mret C_ret].
      match goal with |- usb_sent ?w0 _ _ _ _ ?m 0 ?w' =>
        replace (usb_sent w0 dev buf data n m 0 w')
          with (usb_sent w0 dev buf data n m (if z <? 0 then z else 0) w')
          by (by rewrite (proj2 (Z.ltb_ge _ _))) end.
      eapply (usb_accepted_zlp _ _ _ _ _ _ r z); try done.
      * simpl. by rewrite lookup_insert_ne.
      * exists (w_next w). eexists. simpl. rewrite !lookup_insert_eq.
        rewrite lookup_insert_ne by lia. rewrite !lookup_insert_eq. split; [done|].
        split; [done|]. simpl. rewrite !elem_of_coll_add. tauto.
Qed.

(** ** send_packet *)

(** The device after a packet: a SETUP packet restarts the sequence numbers,
    and every packet to a version 2 device takes one. *)
Definition restarted (d : mux_device) (proto : mux_protocol) : mux_device :=
  if (2 <=? dv_version d) && bool_decide (proto = MUX_PROTO_SETUP)
  then d <| dv_tx_seq := 0 |> <| dv_rx_seq := 65535 |> else d.
Definition after_packet (d : mux_device) (proto : mux_protocol) : mux_device :=
  let d := restarted d proto in
  if 2 <=? dv_version d then d <| dv_tx_seq := u16 (dv_tx_seq d + 1) |> else d.

Definition packet_len (d : mux_device) (hdrlen : Z) (data : list Z) : Z :=
  mux_header_size (dv_version d) + hdrlen + zlen data.

Definition packet (d : mux_device) (proto : mux_protocol) (header data : list Z) : list Z :=
  mux_header_bytes (dv_version d)
    {| mh_protocol := proto_num proto; mh_length := packet_len d (zlen header) data;
       mh_magic := 4277009102; mh_tx_seq := dv_tx_seq (restarted d proto);
       mh_rx_seq := dv_rx_seq (restarted d proto) |} ++ header ++ data.

Lemma restarted_version d proto : dv_version (restarted d proto) = dv_version d.
Proof. unfold restarted. by destruct (_ && _). Qed.
Lemma restarted_usbdev d proto : dv_usbdev (restarted d proto) = dv_usbdev d.
Proof. unfold restarted. by destruct (_ && _). Qed.
Lemma after_packet_v d proto :
  dv_usbdev (after_packet d proto) = dv_usbdev d /\ dv_id (after_packet d proto) = dv_id d /\
  dv_state (after_packet d proto) = dv_state d /\
  dv_connections (after_packet d proto) = dv_connections d /\
  dv_version (after_packet d proto) = dv_version d.
Proof. unfold after_packet, restarted. by destruct (_ && _), (2 <=? _). Qed.

(** What a packet looks like to the device. *)
Lemma packet_reads d proto header data :
  packet_len d (zlen header) data < 2 ^ 32 ->
  zlen (packet d proto header data) = packet_len d (zlen header) data /\
  mhdr_protocol (packet d proto header data) = proto_num proto /\
  mhdr_length (packet d proto header data) = packet_len d (zlen header) data /\
  zdrop (mux_header_size (dv_version d)) (packet d proto header data) = header ++ data.
Proof.
  intros Hlen. pose proof (zlen_nonneg header). pose proof (zlen_nonneg data).
  assert (0 < mux_header_size (dv_version d)) as Hs
    by (unfold mux_header_size, sizeof_mux_header; destruct (_ <? _); lia).
  unfold packet. split_and!.
  - rewrite !zlen_app, zlen_mux_header_bytes. unfold packet_len. lia.
  - rewrite mhdr_protocol_bytes. by destruct proto.
  - rewrite mhdr_length_bytes. simpl. apply u32_small. unfold packet_len in *. lia.
  - apply zdrop_app_exact. by rewrite zlen_mux_header_bytes.
Qed.

(** The result of sending a packet and the new history: the transfer is
    refused; accepted; or accepted and followed by a zero length packet, which
    may be refused. *)
Inductive packet_outcome (t : list event) (u : ptr) (p : list Z) (mps : Z) :
    Z -> list event -> Prop :=
  | out_refused r :
    r = answer t u p -> r < 0 -> packet_outcome t u p mps r (EvSubmit u EpOut p r :: t)
  | out_sent r :
    r = answer t u p -> 0 <= r -> Z.rem (zlen p) mps <> 0 ->
    packet_outcome t u p mps (zlen p) (EvSubmit u EpOut p r :: t)
  | out_zlp r z t1 :
    r = answer t u p -> 0 <= r -> Z.rem (zlen p) mps = 0 ->
    t1 = EvSubmit u EpOut p r :: t -> z = answer t1 u [] ->
    packet_outcome t u p mps (if z <? 0 then z else zlen p) (EvSubmit u EpOut [] z :: t1).

Lemma usb_sent_outcome w dev buf p mps r w' :
  usb_sent w dev buf p (zlen p) mps r w' ->
  packet_outcome (w_trace w) dev p mps (if r <? 0 then r else zlen p) (w_trace w') /\
  (w_bufs w !! buf = Some p -> w_bufs w' !! buf = Some p).
Proof.
  intros [r' w1 Hr Hneg Ht Hb _|r' w1 Hr Hpos Hz Ht Hb _|r' z t w1 Hr Hpos Hz Ht Hzr Ht' Hb _].
  - rewrite (proj2 (Z.ltb_lt _ _)) by done. rewrite Ht, Hb. split; [by constructor|done].
  - rewrite Ht, Hb. split; [by apply out_sent|done].
  - rewrite Ht'. split; [|done].
    replace (if (if z <? 0 then z else 0) <? 0 then _ else zlen p)
      with (if z <? 0 then z else zlen p) by (destruct (z <? 0) eqn:He; by rewrite ?He).
    by eapply out_zlp.
Qed.

(** All that [send_packet] does: the sequence numbers of the device, the
    submissions, and what [usb_frame] allows. *)
Definition packet_sent (w : world) (dev : ptr) (d : mux_device) (proto : mux_protocol)
    (p : list Z) (mps : Z) (r : Z) (w' : world) : Prop :=
  w_devs w' = <[dev := after_packet d proto]> (w_devs w) /\
  usb_frame (w <| w_devs := w_devs w' |>) w' /\
  packet_outcome (w_trace w) (dv_usbdev d) p mps r (w_trace w').

Definition with_dev (w : world) (dev : ptr) (d : mux_device) : world :=
  w <| w_devs := <[dev := d]> (w_devs w) |>.

Lemma wp_restart dev d proto w :
  w_devs w !! dev = Some d ->
  wp (when ((2 <=? dv_version d) && bool_decide (proto = MUX_PROTO_SETUP))
    (upd_dev dev (fun d => d <| dv_tx_seq := 0 |> <| dv_rx_seq := 65535 |>)))
    (fun _ w' => w' = with_dev w dev (restarted d proto)) w.
Proof.
  intros Hd. unfold with_dev, restarted. destruct (_ && _); unfold when.
  - eapply wp_update; [done|]. reflexivity.
  - unfold wp; simpl. rewrite insert_id by done. by destruct w.
Qed.

Lemma wp_take_seq dev d proto w :
  wp (when (2 <=? dv_version d)
    (upd_dev dev (fun d => d <| dv_tx_seq := u16 (dv_tx_seq d + 1) |>)))
    (fun _ w' => w' = with_dev w dev (after_packet d proto)) (with_dev w dev (restarted d proto)).
Proof.
  unfold with_dev, after_packet. rewrite restarted_version. destruct (2 <=? _); unfold when.
  - eapply wp_update; [simpl; apply lookup_insert_eq|]. simpl. by rewrite insert_insert_eq.
  - done.
Qed.

Lemma wp_send_packet dev d proto header data hdrlen u w :
  w_devs w !! dev = Some d -> w_usbdevs w !! dv_usbdev d = Some u ->
  ud_wMaxPacketSize u <> 0 -> heap_fresh w ->
  proto_hdrlen proto = Some hdrlen -> zlen header = hdrlen ->
  packet_len d hdrlen data <= USB_MTU ->
  wp (send_packet dev proto header data)
    (packet_sent w dev d proto (packet d proto header data) (ud_wMaxPacketSize u)) w.
Proof.
  intros Hd Hu Hmps Hfresh Hh Hhl Hmtu. unfold send_packet. rewrite Hh.
  apply wp_bind. eapply wp_load; [done|]. unfold packet_len in Hmtu. rewrite Z.gtb_ltb.
  rewrite (proj2 (Z.ltb_ge _ _)) by done.
  eapply wp_call; [by apply wp_restart|]. intros [] w1' ->.
  apply wp_bind. eapply wp_load; [simpl; apply lookup_insert_eq|].
  rewrite restarted_version, restarted_usbdev.
  eapply wp_call; [apply wp_take_seq|]. intros [] w2' ->.
  rewrite ztake_all by lia. subst hdrlen. fold (packet_len d (zlen header) data).
  change (mux_header_bytes _ _ ++ header ++ data) with (packet d proto header data).
  set (p := packet d proto header data). apply wp_bind, wp_malloc.
  destruct (packet_reads d proto header data) as (Hplen & _ & _ & _).
  { unfold packet_len. unfold USB_MTU in Hmtu. lia. }
  fold p in Hplen. rewrite <- Hplen. match goal with |- wp _ _ ?x => set (w3 := x) end.
  eapply wp_call.
  { apply wp_strengthen; [|apply (frame_usb_send (dv_usbdev d) (w_next w) (zlen p) w3)].
    apply (wp_usb_send _ _ _ p u); [done..|simpl; apply lookup_insert_eq|].
    intros q Hq. simpl in *. destruct (Hfresh q) as [? ?]; [lia|].
    rewrite lookup_insert_ne by lia. done. }
  intros r w4 [Hsent Hframe]. apply usb_sent_outcome in Hsent as [Hout Hbuf].
  specialize (Hbuf (lookup_insert_eq _ _ _)).
  assert (forall w5, usb_frame w4 w5 -> w_trace w5 = w_trace w4 ->
    packet_sent w dev d proto p (ud_wMaxPacketSize u) (if r <? 0 then r else zlen p) w5) as Hfin.
  { intros w5 Hf5 Ht5. assert (usb_frame w3 w5) as Hf by (by transitivity w4).
    split; [by rewrite Hf|]. split; [|by rewrite Ht5].
    transitivity w3; [rewrite Hf|done]. by unfold usb_frame. }
  destruct (Z.ltb_spec r 0) as [Hr|Hr].
  - apply wp_bind. eapply wp_free; [done|]. by apply Hfin.
  - by apply Hfin.
Qed.

(** C21: a packet that fits the MTU is submitted to the device's USB endpoint
    exactly once, as the mux header, the protocol header and the data; the
    header carries the protocol, the total length and the sequence numbers of
    the device, a zero length packet follows exactly when the length is a
    multiple of the endpoint's packet size, and nothing but the sequence
    numbers and the transfer bookkeeping changes. *)
Theorem send_packet_submits dev d proto header data hdrlen u w :
  w_devs w !! dev = Some d -> w_usbdevs w !! dv_usbdev d = Some u ->
  ud_wMaxPacketSize u <> 0 -> heap_fresh w ->
  proto_hdrlen proto = Some hdrlen -> zlen header = hdrlen ->
  packet_len d hdrlen data <= USB_MTU ->
  let p := packet d proto header data in
  wp (send_packet dev proto header data)
    (packet_sent w dev d proto p (ud_wMaxPacketSize u)) w /\
  zlen p = packet_len d hdrlen data /\
  mhdr_protocol p = proto_num proto /\ mhdr_length p = zlen p /\
  zdrop (mux_header_size (dv_version d)) p = header ++ data.
Proof.
  intros Hd Hu Hmps Hfresh Hh Hhl Hmtu p.
  destruct (packet_reads d proto header data) as (Hlen & Hproto & Hl & Hdrop).
  { rewrite Hhl. unfold USB_MTU in Hmtu. lia. }
  split; [by eapply wp_send_packet|]. subst hdrlen. unfold p. rewrite Hl, Hlen. done.
Qed.

(** A packet that does not fit is refused without any effect. *)
Lemma send_packet_too_large dev d proto header data hdrlen w :
  w_devs w !! dev = Some d -> proto_hdrlen proto = Some hdrlen ->
  USB_MTU < packet_len d hdrlen data ->
  send_packet dev proto header data w = Ok (-1) w.
Proof.
  intros Hd Hh Hmtu. unfold send_packet, mbind, C_bind, load. rewrite Hh, Hd.
  unfold packet_len in Hmtu. rewrite Z.gtb_ltb. by rewrite (proj2 (Z.ltb_lt _ _)).
Qed.

End send.

(** ** send_tcp *)

Section tcp.
Context `{E : Env} `{!EnvLaws E}.
Implicit Types w : world.

(** The fields that go into a header fit their widths. *)
Definition conn_wire_ok (c : mux_connection) : Prop :=
  0 <= cn_sport c < 2 ^ 16 /\ 0 <= cn_dport c < 2 ^ 16 /\
  0 <= cn_tx_seq c < 2 ^ 32 /\ 0 <= cn_tx_ack c < 2 ^ 32 /\ 0 <= cn_tx_win c < 2 ^ 24.

Lemma conn_tcphdr_ok c flags :
  conn_wire_ok c -> 0 <= flags < 256 -> tcphdr_ok (conn_tcphdr c flags).
Proof.
  intros (? & ? & ? & ? & ?) ?. unfold tcphdr_ok, conn_tcphdr; simpl.
  assert (0 <= Z.shiftr (cn_tx_win c) 8 < 2 ^ 16).
  { rewrite Z.shiftr_div_pow2 by lia. split; [apply Z.div_pos; lia|].
    apply Z.div_lt_upper_bound; lia. }
  change (sizeof_tcphdr / 4) with 5. lia.
Qed.

(** A connection whose acknowledgement has just been sent. *)
Definition acknowledged (c : mux_connection) (t : list event) : mux_connection :=
  c <| cn_tx_acked := cn_tx_ack c |> <| cn_last_ack_time := u64 (now_ms t) |>
    <| cn_flags := clear_flag (cn_flags c) CONN_ACK_PENDING |>.

(** The segment of a connection as it is submitted. *)
Definition segment (d : mux_device) (c : mux_connection) (flags : Z) (data : list Z) : list Z :=
  packet d MUX_PROTO_TCP (tcphdr_bytes (conn_tcphdr c flags)) data.

Lemma wp_send_tcp conn c d u flags data w :
  w_conns w !! conn = Some c -> w_devs w !! cn_dev c = Some d ->
  w_usbdevs w !! dv_usbdev d = Some u -> ud_wMaxPacketSize u <> 0 -> heap_fresh w ->
  packet_len d sizeof_tcphdr data <= USB_MTU ->
  wp (send_tcp conn flags data) (fun r w' =>
    packet_outcome (w_trace w) (dv_usbdev d) (segment d c flags data)
      (ud_wMaxPacketSize u) r (w_trace w') /\
    usb_frame (w <| w_devs := <[cn_dev c := after_packet d MUX_PROTO_TCP]> (w_devs w) |>
                 <| w_conns := w_conns w' |>) w' /\
    w_conns w' = if r <? 0 then w_conns w
                 else <[conn := acknowledged c (w_trace w')]> (w_conns w)) w.
Proof.
  intros Hc Hd Hu Hmps Hfresh Hmtu. unfold send_tcp. apply wp_bind. eapply wp_load; [done|].
  eapply wp_call; [eapply (wp_send_packet _ d _ _ _ sizeof_tcphdr u); try done;
    apply zlen_tcphdr_bytes|]. intros r w1 (Hdevs & Hframe & Hout).
  rewrite Hdevs in Hframe. apply wp_bind.
  assert (w_conns w1 = w_conns w) as Hconns by by rewrite Hframe.
  destruct (Z.leb_spec 0 r) as [Hr|Hr]; unfold when.
  - apply wp_bind. unfold wp at 1. rewrite mstime64_run.
    eapply wp_update; [by rewrite Hconns|]. unfold wp; simpl.
    split; [done|]. rewrite (proj2 (Z.ltb_ge _ _)) by done. rewrite Hconns.
    split; [|done]. clear Hout Hconns. unfold usb_frame in *. destruct w1; simpl in *.
    injection Hframe; intros; by subst.
  - unfold wp; simpl. split; [done|]. rewrite (proj2 (Z.ltb_lt _ _)) by done.
    split; [|done]. rewrite Hconns. by destruct w.
Qed.

(** C22: a segment that a connection sends carries its ports, sequence and
    acknowledgement numbers, its window in units of 256 bytes, the flags and
    the data unchanged; when USB accepts it, everything received so far counts
    as acknowledged. *)
Theorem send_tcp_segment conn c d u flags data w :
  w_conns w !! conn = Some c -> w_devs w !! cn_dev c = Some d ->
  w_usbdevs w !! dv_usbdev d = Some u -> ud_wMaxPacketSize u <> 0 -> heap_fresh w ->
  conn_wire_ok c -> 0 <= flags < 256 -> packet_len d sizeof_tcphdr data <= USB_MTU ->
  wp (send_tcp conn flags data) (fun r w' => exists p size,
    size = mux_header_size (dv_version d) /\
    packet_outcome (w_trace w) (dv_usbdev d) p (ud_wMaxPacketSize u) r (w_trace w') /\
    mhdr_protocol p = IPPROTO_TCP /\
    tcphdr_parse (zdrop size p) = conn_tcphdr c flags /\
    zdrop sizeof_tcphdr (zdrop size p) = data /\
    w_conns w' = if r <? 0 then w_conns w
                 else <[conn := acknowledged c (w_trace w')]> (w_conns w)) w.
Proof.
  intros Hc Hd Hu Hmps Hfresh Hok Hfl Hmtu.
  eapply wp_mono; [by eapply (wp_send_tcp conn c d u flags data)|].
  intros r w' (Hout & _ & Hconns). exists (segment d c flags data), (mux_header_size (dv_version d)).
  split; [done|]. split; [done|].
  destruct (packet_reads d MUX_PROTO_TCP (tcphdr_bytes (conn_tcphdr c flags)) data)
    as (Hlen & Hproto & Hl & Hdrop).
  { rewrite zlen_tcphdr_bytes. unfold USB_MTU in Hmtu. lia. }
  unfold segment. rewrite Hdrop, Hproto. split; [done|].
  split; [by apply tcphdr_parse_bytes, conn_tcphdr_ok|].
  split; [apply zdrop_app_exact; by rewrite zlen_tcphdr_bytes|done].
Qed.

End tcp.

Section witness.
Import Instances Scenario.

Lemma scn_world_fresh : heap_fresh scn_world.
Proof. intros p _. split; apply lookup_empty. Qed.

(** A version packet to the device 2 of the scenario. *)
Lemma send_packet_submits_witness :
  exists p, wp (send_packet 2%positive MUX_PROTO_VERSION (version_header_bytes 2 0) [])
    (packet_sent scn_world 2%positive scn_dev MUX_PROTO_VERSION p 512) scn_world /\
    zlen p = 28 /\ mhdr_length p = zlen p.
Proof.
  destruct (send_packet_submits 2%positive scn_dev MUX_PROTO_VERSION (version_header_bytes 2 0) []
    12 scn_usbdev scn_world) as (Hwp & Hlen & _ & Hl & _);
    [reflexivity|reflexivity|discriminate|exact scn_world_fresh|reflexivity|reflexivity|
     vm_compute; discriminate|].
  eexists. split; [exact Hwp|]. split; [exact Hlen|exact Hl].
Defined.

Lemma send_tcp_segment_witness :
  wp (send_tcp 4%positive TH_ACK [1; 2; 3]) (fun r w' => exists p, 
    tcphdr_parse (zdrop 16 p) = conn_tcphdr (scn_conn 3 CONN_CONNECTED 65535) TH_ACK /\
    zdrop 20 (zdrop 16 p) = [1; 2; 3]) scn_world.
Proof.
  eapply wp_mono; [apply (send_tcp_segment 4%positive (scn_conn 3 CONN_CONNECTED 65535) scn_dev
    scn_usbdev TH_ACK [1; 2; 3] scn_world);
    [reflexivity|reflexivity|reflexivity|discriminate|exact scn_world_fresh|
     unfold conn_wire_ok; simpl; lia|unfold TH_ACK; lia|vm_compute; discriminate]|].
  intros r w' (p & size & -> & _ & _ & H1 & H2 & _). exists p. split; [exact H1|exact H2].
Defined.

End witness.
