(* ===== verification/BufferFacts.v ===== *)
(** * BufferFacts: the output and input buffers of a client

    Messages are queued in the output buffer without loss and leave it in
    order; input is read up to the end of one message and no further. *)

From stdpp Require Import base gmap list strings.
From Stdlib Require Import ZArith Lia.
From S2P Require Import Prelude Platform Wire World Utils Conf Instances Usb ClientOut.
From S2P Require Import DeviceOut Teardown Device Client Scenario.

Local Open Scope Z_scope.

Section output.
Context `{E : Env} `{!EnvLaws E}.
Implicit Types w : world.

(** The output buffer has [ob_capacity] bytes, of which [ob_size] are in use. *)
Definition ob_ok (c : mux_client) : Prop :=
  exists b, cl_ob_buf c = Some b /\ zlen b = cl_ob_capacity c /\
    0 <= cl_ob_size c <= cl_ob_capacity c /\ cl_ob_capacity c < 2 ^ 32.

(** The bytes that wait to be sent. *)
Definition pending (c : mux_client) : list Z := ztake (cl_ob_size c) (default [] (cl_ob_buf c)).

Lemma zlen_pending c : ob_ok c -> zlen (pending c) = cl_ob_size c.
Proof.
  intros (b & Hb & Hlen & Hsize & _). unfold pending. rewrite Hb. simpl. apply zlen_ztake. lia.
Qed.

Definition reply_header (c : mux_client) (tag msg : Z) (payload : list Z) : usbmuxd_header :=
  {| hdr_version := cl_proto_version c; hdr_length := sizeof_usbmuxd_header + zlen payload;
     hdr_message := msg; hdr_tag := tag |}.

(** The client after a message was queued. *)
Definition queued (c : mux_client) (b : list Z) (cap len : Z) : mux_client :=
  c <| cl_ob_buf := Some b |> <| cl_ob_capacity := cap |>
    <| cl_ob_size := cl_ob_size c + len |> <| cl_events := Z.lor (cl_events c) POLLOUT |>.

Lemma enlarged_enough cap len :
  0 <= cap -> 0 <= len -> cap + len + 4096 < 2 ^ 32 ->
  cap + len < enlarged cap len < 2 ^ 32.
Proof.
  intros Hc Hl Hb. unfold enlarged.
  rewrite (u32_small (cap + len + 4096)) by lia.
  pose proof (Z.div_mod (cap + len + 4096) 4096 ltac:(lia)).
  pose proof (Z.mod_pos_bound (cap + len + 4096) 4096 ltac:(lia)).
  rewrite u32_small; lia.
Qed.

Lemma realloc_buf_spec t b n :
  0 <= n -> zlen b <= n ->
  zlen (realloc_buf t (Some b) n) = n /\ ztake (zlen b) (realloc_buf t (Some b) n) = b.
Proof.
  intros Hn Hb. unfold realloc_buf. simpl. rewrite ztake_all by done. split.
  - rewrite zlen_app, malloc_len; lia.
  - by apply ztake_app_exact.
Qed.

(** Room is made for the message: the bytes in use stay, the capacity grows. *)
Lemma wp_make_room cl c len w :
  w_clients w !! cl = Some c -> ob_ok c -> 0 <= len -> cl_ob_capacity c + len + 4096 < 2 ^ 32 ->
  wp (if u32 (cl_ob_capacity c - cl_ob_size c) <? len then
        let new_size := enlarged (cl_ob_capacity c) len in
        t ← gets w_trace;
        if sys_realloc t new_size then
          upd_client cl (fun c => c <| cl_ob_buf := Some (realloc_buf t (cl_ob_buf c) new_size) |>
                                    <| cl_ob_capacity := new_size |>) ;;
          mret true
        else mret false
      else mret true)
    (fun ok w' => (ok = false /\ w' = w /\ exists n, sys_realloc (w_trace w) n = false) \/
       (ok = true /\ exists b cap, w' = set w_clients <[cl := c <| cl_ob_buf := Some b |>
          <| cl_ob_capacity := cap |>]> w /\ zlen b = cap /\ cap < 2 ^ 32 /\
          cl_ob_size c + len <= cap /\ ztake (cl_ob_size c) b = pending c)) w.
Proof.
  intros Hc (b & Hb & Hblen & Hsize & Hcap) Hlen Hmax. rewrite u32_small by lia.
  destruct (Z.ltb_spec (cl_ob_capacity c - cl_ob_size c) len) as [Hlt|Hge].
  - cbv zeta. apply wp_bind, wp_gets.
    destruct (sys_realloc _ _) eqn:Hre; [|by left; eauto].
    apply wp_bind. eapply wp_update; [done|]. unfold wp; simpl. right. split; [done|].
    pose proof (enlarged_enough (cl_ob_capacity c) len) as He.
    destruct (realloc_buf_spec (w_trace w) b (enlarged (cl_ob_capacity c) len)) as [Hr1 Hr2]; [lia..|].
    exists (realloc_buf (w_trace w) (Some b) (enlarged (cl_ob_capacity c) len)),
      (enlarged (cl_ob_capacity c) len).
    rewrite Hb. split; [done|]. split; [done|]. split; [lia|]. split; [lia|].
    unfold pending. rewrite Hb. simpl.
    rewrite <- (ztake_ztake (cl_ob_size c) (zlen b) (realloc_buf _ _ _)) by lia. by rewrite Hr2.
  - right. split; [done|]. exists b, (cl_ob_capacity c). split_and!; try done; [|lia|].
    + destruct w; simpl in *. f_equal. symmetry. rewrite insert_id; [done|].
      rewrite Hc. f_equal. destruct c; simpl in *. congruence.
    + unfold pending. by rewrite Hb.
Qed.

(** Two copies next to each other. *)
Definition write_two (off : Z) (h p b : list Z) : list Z :=
  match p with [] => write_at off h b | _ => write_at (off + zlen h) p (write_at off h b) end.

Lemma ztake_write_two off h p b :
  0 <= off -> off + zlen h + zlen p <= zlen b ->
  zlen (write_two off h p b) = zlen b /\
  ztake (off + (zlen h + zlen p)) (write_two off h p b) = ztake off b ++ h ++ p.
Proof.
  intros Hoff Hb. unfold write_two. pose proof (zlen_nonneg h). pose proof (zlen_nonneg p).
  assert (zlen (write_at off h b) = zlen b) as Hl by (apply zlen_write_at; lia).
  destruct p as [|x p].
  - rewrite zlen_nil in *. split; [done|]. rewrite Z.add_0_r, app_nil_r. apply ztake_write_at. lia.
  - split; [rewrite zlen_write_at; lia|]. rewrite Z.add_assoc, ztake_write_at by lia.
    rewrite ztake_write_at by lia. by rewrite app_assoc.
Qed.

Lemma wp_copy_into b off data (Q : list Z -> world -> Prop) w :
  off + zlen data <= zlen b -> Q (write_at off data b) w -> wp (copy_into (Some b) off data) Q w.
Proof. intros H HQ. unfold copy_into. by rewrite (proj2 (Z.leb_le _ _)). Qed.

Lemma wp_copy_message off h payload b w :
  zlen h = sizeof_usbmuxd_header -> 0 <= off -> off + zlen h + zlen payload <= zlen b ->
  wp (b ← copy_into (Some b) off h;
      match payload with
      | [] => mret b
      | _ => copy_into (Some b) (off + sizeof_usbmuxd_header) payload
      end) (fun b' w' => b' = write_two off h payload b /\ w' = w) w.
Proof.
  intros Hh Hoff Hb. pose proof (zlen_nonneg payload). pose proof (zlen_nonneg h).
  apply wp_bind, wp_copy_into; [lia|]. unfold write_two.
  destruct payload as [|x payload]; [done|].
  rewrite <- Hh. apply wp_copy_into; [rewrite zlen_write_at; lia|done].
Qed.

Lemma wp_add_message cl c tag msg payload w :
  w_clients w !! cl = Some c -> ob_ok c ->
  cl_ob_capacity c + sizeof_usbmuxd_header + zlen payload + 4096 < 2 ^ 31 ->
  let h := reply_header c tag msg payload in
  wp (output_buffer_add_message cl tag msg payload) (fun r w' =>
    (r = -1 /\ w' = w /\ exists n, sys_realloc (w_trace w) n = false) \/
    (r = hdr_length h /\ exists b cap,
       w' = set w_clients <[cl := queued c b cap (hdr_length h)]> w /\
       ob_ok (queued c b cap (hdr_length h)) /\
       pending (queued c b cap (hdr_length h)) = pending c ++ usbmuxd_header_bytes h ++ payload)) w.
Proof.
  intros Hc Hok Hmax h. pose proof (zlen_nonneg payload) as Hp.
  assert (0 <= cl_ob_size c <= cl_ob_capacity c) as Hsz by (destruct Hok as (? & ? & ? & ? & ?); lia).
  unfold sizeof_usbmuxd_header in Hmax.
  unfold output_buffer_add_message. apply wp_bind. eapply wp_load; [done|]. cbv zeta.
  rewrite (u32_small (sizeof_usbmuxd_header + _)) by (unfold sizeof_usbmuxd_header; lia).
  fold (reply_header c tag msg payload). fold h.
  assert (hdr_length h = 16 + zlen payload) as Hlen by done. clearbody h.
  eapply wp_call; [apply (wp_make_room cl c (hdr_length h)); [done..|lia|lia]|].
  intros ok w1 [(-> & -> & Hre)|(-> & b & cap & -> & Hb & Hcap & Hroom & Hpend)]; [by left|].
  apply wp_bind. eapply wp_load; [simpl; apply lookup_insert_eq|]. simpl cl_ob_buf. simpl cl_ob_size.
  pose proof (zlen_usbmuxd_header_bytes h) as Hh. unfold sizeof_usbmuxd_header in Hh.
  destruct (ztake_write_two (cl_ob_size c) (usbmuxd_header_bytes h) payload b) as [Hl2 Ht2]; [lia..|].
  set (b2 := write_two _ _ _ _) in *.
  match goal with |- wp (?m ≫= (fun b1 => @?k1 b1 ≫= ?k2)) _ _ => apply (wp_assoc m k1 k2) end.
  eapply wp_call; [apply wp_copy_message; [done|lia..]|]. intros b' w' [-> ->].
  apply wp_bind. eapply wp_update; [simpl; apply lookup_insert_eq|]. unfold wp; cbn [mret C_ret].
  right. rewrite s32_small by lia. split; [done|]. exists b2, cap.
  assert (u32 (cl_ob_size c + hdr_length h) = cl_ob_size c + hdr_length h) as Hu
    by (apply u32_small; lia).
  split; [|split].
  - unfold queued. simpl. rewrite insert_insert_eq, Hu. done.
  - exists b2. simpl. split; [done|]. lia.
  - change (pending _) with (ztake (cl_ob_size c + hdr_length h) b2) at 1.
    rewrite Hlen, <- Hh, Ht2. by rewrite Hpend.
Qed.

(** C20: queueing a message for a client appends its header and its payload,
    whole and unchanged, to what already waits in the output buffer; the buffer
    is enlarged when needed and never overrun; the client is polled for
    writing. Only when the buffer cannot be enlarged is -1 returned, and then
    nothing changes. *)
Theorem add_message_appends cl c tag msg payload w :
  w_clients w !! cl = Some c -> ob_ok c ->
  cl_ob_capacity c + sizeof_usbmuxd_header + zlen payload + 4096 < 2 ^ 31 ->
  wp (output_buffer_add_message cl tag msg payload) (fun r w' =>
    (r = -1 /\ w' = w /\ exists n, sys_realloc (w_trace w) n = false) \/
    (r = sizeof_usbmuxd_header + zlen payload /\ exists c',
       w' = set w_clients <[cl := c']> w /\ ob_ok c' /\
       pending c' = pending c ++ usbmuxd_header_bytes (reply_header c tag msg payload) ++ payload /\
       flag_set (cl_events c') POLLOUT = true /\ cl_state c' = cl_state c)) w.
Proof.
  intros Hc Hok Hmax. eapply wp_mono; [by apply wp_add_message|].
  intros r w' [H|(-> & b & cap & -> & Hok' & Hp)]; [by left|]. right. split; [done|].
  eexists. split; [done|]. split; [done|]. split; [done|]. split; [|done].
  simpl. by apply flag_set_lor.
Qed.

(** ** Sending *)

(** The client after [n] bytes were sent. *)
Definition flushed (c : mux_client) (b : list Z) (n : Z) : mux_client :=
  if n =? cl_ob_size c then
    let c := c <| cl_ob_size := 0 |> <| cl_events := clear_flag (cl_events c) POLLOUT |> in
    if decide (cl_state c = CLIENT_CONNECTING2) then
      c <| cl_state := CLIENT_CONNECTED |> <| cl_events := cl_devents c |> <| cl_ob_buf := None |>
    else c
  else c <| cl_ob_size := cl_ob_size c - n |>
         <| cl_ob_buf := Some (write_at 0 (slice n (cl_ob_size c - n) b) b) |>.

Lemma wp_output_process cl c b n w :
  w_clients w !! cl = Some c -> ob_ok c -> cl_ob_buf c = Some b -> 0 < cl_ob_size c ->
  sys_send (w_trace w) (cl_fd c) (pending c) = inl n -> 0 < n ->
  wp (output_buffer_process cl) (fun _ w' =>
    w' = (set w_clients <[cl := flushed c b n]> w)
           <| w_trace := EvSend (cl_fd c) (pending c) (inl n) :: w_trace w |>) w.
Proof.
  intros Hc Hok Hb Hsz Hsend Hn. pose proof (zlen_pending c Hok) as Hzp.
  pose proof (send_bound _ _ _ _ Hsend) as Hbound.
  destruct Hok as (b' & Hb' & Hlen & Hsize & Hcap). rewrite Hb in Hb'. injection Hb' as <-.
  unfold output_buffer_process. apply wp_bind. eapply wp_load; [done|].
  rewrite (proj2 (Z.eqb_neq _ _)) by lia. apply wp_bind. eapply wp_lift_option; [done|].
  assert (ztake (cl_ob_size c) b = pending c) as Hp by (unfold pending; by rewrite Hb).
  rewrite Hp. apply wp_bind. unfold send. apply wp_bind, wp_gets. apply wp_bind, wp_modify.
  unfold wp at 1; cbn [mret C_ret]. rewrite Hsend.
  rewrite (proj2 (Z.leb_gt _ _)) by lia. rewrite u32_small by lia. unfold flushed.
  destruct (Z.eqb_spec n (cl_ob_size c)) as [He|He].
  - apply wp_bind. eapply wp_update; [done|].
    destruct (decide (cl_state c = CLIENT_CONNECTING2)) as [Hst|Hst].
    + rewrite bool_decide_true by done. unfold when.
      eapply wp_update; [simpl; apply lookup_insert_eq|]. simpl. rewrite insert_insert_eq.
      by rewrite decide_True.
    + rewrite bool_decide_false by done. unfold wp; simpl. by rewrite decide_False.
  - cbv zeta. eapply wp_update; [done|]. simpl.
    rewrite (u32_small (cl_ob_size c - n)) by lia. done.
Qed.

Lemma pending_flushed c b n :
  ob_ok c -> cl_ob_buf c = Some b -> 0 < n <= cl_ob_size c ->
  pending (flushed c b n) = zdrop n (pending c).
Proof.
  intros (b' & Hb' & Hlen & Hsize & Hcap) Hb Hn. rewrite Hb in Hb'. injection Hb' as <-.
  unfold flushed. destruct (Z.eqb_spec n (cl_ob_size c)) as [->|Hne].
  - unfold pending at 2. rewrite Hb. simpl. rewrite zdrop_all by (rewrite zlen_ztake; lia).
    destruct (decide _); done.
  - unfold pending. simpl. rewrite Hb. simpl.
    assert (zlen (slice n (cl_ob_size c - n) b) = cl_ob_size c - n) as Hs
      by (unfold slice; rewrite zlen_ztake; [done|rewrite zlen_zdrop; lia]).
    rewrite <- Hs at 1. rewrite <- (Z.add_0_l (zlen (slice _ _ _))), ztake_write_at by lia.
    unfold ztake, zdrop, slice. simpl. unfold ztake, zdrop. rewrite take_drop_commute.
    do 2 f_equal. lia.
Qed.

(** C19: when the socket takes [n] bytes, they are the first [n] bytes that
    waited, and exactly those leave the buffer; a client whose connection was
    established becomes a raw data stream at the very moment the last byte of
    its reply is out, never before. *)
Theorem output_process_fifo cl c n w :
  w_clients w !! cl = Some c -> ob_ok c -> 0 < cl_ob_size c ->
  sys_send (w_trace w) (cl_fd c) (pending c) = inl n -> 0 < n ->
  wp (output_buffer_process cl) (fun _ w' => exists c',
    w_clients w' = <[cl := c']> (w_clients w) /\
    w_trace w' = EvSend (cl_fd c) (pending c) (inl n) :: w_trace w /\
    ztake n (pending c) ++ pending c' = pending c /\
    (cl_state c' = CLIENT_CONNECTED <->
       cl_state c = CLIENT_CONNECTED \/ (cl_state c = CLIENT_CONNECTING2 /\ pending c' = []))) w.
Proof.
  intros Hc Hok Hsz Hsend Hn. pose proof (send_bound _ _ _ _ Hsend) as Hb.
  pose proof (zlen_pending c Hok) as Hzp. pose proof Hok as (b & Hbuf & _).
  eapply wp_mono; [by eapply wp_output_process|]. intros [] w' ->.
  exists (flushed c b n). split; [done|]. split; [done|].
  assert (pending (flushed c b n) = zdrop n (pending c)) as Hpf by (apply pending_flushed; [done..|lia]).
  split; [rewrite Hpf; apply ztake_zdrop|]. rewrite Hpf.
  assert (zdrop n (pending c) = [] <-> n = cl_ob_size c) as Hempty.
  { split; [|intros ->; apply zdrop_all; lia]. intros He.
    apply (f_equal zlen) in He. rewrite zlen_zdrop, zlen_nil in He by lia. lia. }
  rewrite Hempty. unfold flushed. destruct (Z.eqb_spec n (cl_ob_size c)) as [->|Hne].
  - destruct (decide _) as [He|He]; simpl in *; [rewrite He|]; split; intuition congruence.
  - simpl. split; [by left|]. intros [?|[_ ?]]; done.
Qed.

End output.

(** ** Input *)

Section input.
Context `{E : Env} `{!EnvLaws E}.
Implicit Types w : world.

(** The length field of the header at the start of a buffer. *)
Definition message_len (b : list Z) : Z := hdr_length (usbmuxd_header_parse b).

(** The input buffer has [ib_capacity] bytes, of which [ib_size] were
    received. *)
Definition ib_ok (c : mux_client) (b : list Z) : Prop :=
  cl_ib_buf c = Some b /\ zlen b = cl_ib_capacity c /\
  0 <= cl_ib_size c <= cl_ib_capacity c /\ sizeof_usbmuxd_header <= cl_ib_capacity c < 2 ^ 32.

Definition received (c : mux_client) : list Z := ztake (cl_ib_size c) (default [] (cl_ib_buf c)).

(** How many bytes are asked for: the rest of the header, then the rest of
    the message it announces. *)
Definition wanted (c : mux_client) (b : list Z) : Z :=
  (if cl_ib_size c <? sizeof_usbmuxd_header then sizeof_usbmuxd_header else message_len b)
  - cl_ib_size c.

(** The client after [data] arrived. *)
Definition stored (c : mux_client) (b data : list Z) : mux_client :=
  c <| cl_ib_buf := Some (write_at (cl_ib_size c) data b) |>
    <| cl_ib_size := cl_ib_size c + zlen data |>.

(** What is done with the bytes received so far: wait for more, close a
    client that announces a message that is too long or too short, or handle
    the message and start over. *)
Definition framed (cl : ptr) (c : mux_client) (b : list Z) : C world unit :=
  if cl_ib_size c <? sizeof_usbmuxd_header then mret tt
  else if (cl_ib_capacity c <? message_len b) || (message_len b <? sizeof_usbmuxd_header)
  then client_close cl
  else if cl_ib_size c <? message_len b then mret tt
  else handle_command cl b ;; upd_client cl (fun c => c <| cl_ib_size := 0 |>).

Lemma read_input_run cl c b n data w :
  w_clients w !! cl = Some c -> ib_ok c b -> 0 <= n -> cl_ib_size c + n <= cl_ib_capacity c ->
  sys_recv (w_trace w) (cl_fd c) n = inl data -> data <> [] ->
  read_input cl n w = Ok true ((set w_clients <[cl := stored c b data]> w)
    <| w_trace := EvRecv (cl_fd c) n (inl data) :: w_trace w |>).
Proof.
  intros Hc (Hb & Hlen & Hsz & Hcap) Hn Hfit Hr Hne.
  pose proof (recv_bound _ _ _ _ Hn Hr) as Hbound.
  unfold read_input, recv, mbind, C_bind, load, gets, emit, modify, mret, C_ret.
  rewrite Hc, Hr. destruct data as [|x data]; [done|]. rewrite Hb.
  rewrite (proj2 (Z.ltb_ge _ _)) by lia. unfold update. simpl. rewrite Hc.
  rewrite u32_small; [done|]. pose proof (zlen_nonneg (x :: data)). lia.
Qed.

Lemma received_stored c b data :
  ib_ok c b -> cl_ib_size c + zlen data <= cl_ib_capacity c ->
  received (stored c b data) = received c ++ data /\ ib_ok (stored c b data)
    (write_at (cl_ib_size c) data b).
Proof.
  intros (Hb & Hlen & Hsz & Hcap) Hfit. pose proof (zlen_nonneg data).
  unfold received. rewrite Hb. split.
  - unfold stored; simpl. apply ztake_write_at. lia.
  - split; [done|]. simpl. rewrite zlen_write_at by lia. lia.
Qed.

(** Bytes that are already there are not touched by later ones. *)
Lemma message_len_write off data b :
  sizeof_usbmuxd_header <= off <= zlen b ->
  message_len (write_at off data b) = message_len b.
Proof.
  unfold sizeof_usbmuxd_header. intros H.
  unfold message_len, usbmuxd_header_parse, get_le, slice; simpl.
  unfold zdrop; simpl. rewrite !drop_0. unfold write_at.
  rewrite ztake_app_le by (rewrite zlen_ztake; lia). by rewrite ztake_ztake by lia.
Qed.

(** The state after the bytes were stored. *)
Definition with_input (w : world) (cl : ptr) (c : mux_client) (b data : list Z) : world :=
  (set w_clients <[cl := stored c b data]> w)
    <| w_trace := EvRecv (cl_fd c) (wanted c b) (inl data) :: w_trace w |>.

Lemma with_input_client w cl c b data :
  w_clients (with_input w cl c b data) !! cl = Some (stored c b data).
Proof. apply lookup_insert_eq. Qed.

Lemma read_wanted cl c b data w :
  w_clients w !! cl = Some c -> ib_ok c b ->
  0 <= wanted c b -> cl_ib_size c + wanted c b <= cl_ib_capacity c ->
  sys_recv (w_trace w) (cl_fd c) (wanted c b) = inl data -> data <> [] ->
  read_input cl (wanted c b) w = Ok true (with_input w cl c b data).
Proof. apply read_input_run. Qed.

(** While the header is incomplete. *)
Lemma input_process_header cl c b data w :
  w_clients w !! cl = Some c -> ib_ok c b -> cl_ib_size c < sizeof_usbmuxd_header ->
  sys_recv (w_trace w) (cl_fd c) (wanted c b) = inl data -> data <> [] ->
  input_buffer_process cl w =
    framed cl (stored c b data) (write_at (cl_ib_size c) data b) (with_input w cl c b data).
Proof.
  intros Hc Hok Hlt Hr Hne. pose proof Hok as (_ & _ & Hsz & Hcap).
  assert (wanted c b = sizeof_usbmuxd_header - cl_ib_size c) as Hw
    by (unfold wanted; by rewrite (proj2 (Z.ltb_lt _ _))).
  pose proof (with_input_client w cl c b data) as Hc'.
  unfold input_buffer_process, framed, mbind, C_bind, mret, C_ret. unfold load at 1.
  rewrite Hc, (proj2 (Z.ltb_lt _ _)) by done. rewrite <- Hw.
  rewrite (read_wanted cl c b data) by (done || lia). unfold load. cbn [negb]. cbv beta iota. rewrite Hc'.
  destruct (cl_ib_size (stored c b data) <? sizeof_usbmuxd_header); [done|].
  cbv iota beta. rewrite Hc'. simpl lift_option. unfold mret, C_ret. cbv beta iota zeta.
  change (hdr_length (usbmuxd_header_parse ?x)) with (message_len x).
  simpl cl_ib_capacity. destruct (_ <? message_len _); [done|].
  destruct (message_len _ <? _); [done|]. cbn [orb]. cbv iota.
  destruct (_ <? message_len _); [done|]. unfold when. by rewrite Hc'.
Qed.

(** While the announced message is incomplete. *)
Lemma input_process_body cl c b data w :
  w_clients w !! cl = Some c -> ib_ok c b ->
  sizeof_usbmuxd_header <= cl_ib_size c < message_len b -> message_len b <= cl_ib_capacity c ->
  sys_recv (w_trace w) (cl_fd c) (wanted c b) = inl data -> data <> [] ->
  input_buffer_process cl w =
    framed cl (stored c b data) (write_at (cl_ib_size c) data b) (with_input w cl c b data).
Proof.
  intros Hc Hok Hlt Hfit Hr Hne. pose proof Hok as (Hb & Hlen & Hsz & Hcap).
  assert (wanted c b = message_len b - cl_ib_size c) as Hw
    by (unfold wanted; by rewrite (proj2 (Z.ltb_ge _ _)) by lia).
  assert (0 <= wanted c b) as Hw0 by lia. pose proof (recv_bound _ _ _ _ Hw0 Hr) as Hbound.
  pose proof (zlen_nonneg data) as Hpos.
  pose proof (with_input_client w cl c b data) as Hc'.
  unfold input_buffer_process, framed, mbind, C_bind, mret, C_ret, load at 1 2.
  rewrite Hc, (proj2 (Z.ltb_ge (cl_ib_size c) _)) by lia.
  unfold load at 1. rewrite Hc, Hb. simpl lift_option. unfold mret, C_ret. cbv beta iota zeta.
  change (hdr_length (usbmuxd_header_parse ?x)) with (message_len x).
  rewrite message_len_write by lia.
  change (cl_ib_size (stored c b data)) with (cl_ib_size c + zlen data).
  change (cl_ib_capacity (stored c b data)) with (cl_ib_capacity c).
  rewrite (proj2 (Z.ltb_ge (cl_ib_capacity c) _)) by lia.
  rewrite (proj2 (Z.ltb_ge (message_len b) sizeof_usbmuxd_header)) by lia.
  rewrite (proj2 (Z.ltb_lt (cl_ib_size c) (message_len b))) by lia.
  rewrite (proj2 (Z.ltb_ge (cl_ib_size c + zlen data) sizeof_usbmuxd_header)) by lia.
  rewrite <- Hw. rewrite (read_wanted cl c b data) by (done || lia). cbn [negb orb]. cbv beta iota. unfold load. rewrite Hc'.
  change (cl_ib_size (stored c b data)) with (cl_ib_size c + zlen data).
  destruct (_ <? message_len b); [done|]. cbn [negb]. unfold when.
  by rewrite Hc'.
Qed.

(** C18: whatever pieces a request arrives in, each read asks for the rest of
    the header or of the announced message and no more, the bytes are appended
    to those received before without overrunning the buffer, and the request is
    handled exactly when it is complete; a length that does not fit the buffer
    or is shorter than a header closes the client. *)
Theorem input_process_frames cl c b data w :
  w_clients w !! cl = Some c -> ib_ok c b ->
  cl_ib_size c < sizeof_usbmuxd_header \/
    sizeof_usbmuxd_header <= cl_ib_size c < message_len b /\ message_len b <= cl_ib_capacity c ->
  sys_recv (w_trace w) (cl_fd c) (wanted c b) = inl data -> data <> [] ->
  let c' := stored c b data in
  let b' := write_at (cl_ib_size c) data b in
  input_buffer_process cl w = framed cl c' b' (with_input w cl c b data) /\
  received c' = received c ++ data /\ ib_ok c' b' /\
  (sizeof_usbmuxd_header <= cl_ib_size c -> cl_ib_size c' <= message_len b').
Proof.
  intros Hc Hok Hcase Hr Hne c' b'. pose proof Hok as (Hb & Hlen & Hsz & Hcap).
  assert (0 <= wanted c b /\ cl_ib_size c + wanted c b <= cl_ib_capacity c) as [Hw0 Hw].
  { unfold wanted. destruct (Z.ltb_spec (cl_ib_size c) sizeof_usbmuxd_header); lia. }
  pose proof (recv_bound _ _ _ _ Hw0 Hr) as Hbound.
  destruct (received_stored c b data Hok) as [Hrec Hok']; [lia|].
  split; [destruct Hcase as [?|[? ?]]; [by apply input_process_header|by apply input_process_body]|].
  split; [done|]. split; [done|]. intros Hge. unfold b'. rewrite message_len_write by lia.
  unfold wanted in Hbound. rewrite (proj2 (Z.ltb_ge _ _)) in Hbound by lia. simpl. lia.
Qed.

End input.

Section witness.
Import Instances Scenario.

Lemma scn_ob_ok fd st : ob_ok (scn_client fd st).
Proof. exists (replicate 40 0). split; [done|]. split; [done|]. simpl. lia. Qed.

(** A message of 46 bytes in a buffer of 40: the buffer is enlarged. *)
Lemma add_message_appends_witness :
  wp (output_buffer_add_message 3%positive 7 MESSAGE_RESULT (replicate 30 1)) (fun r w' =>
    r = 46 /\ exists c', w' = set w_clients <[3%positive := c']> scn_world /\ ob_ok c' /\
      zlen (pending c') = 46) scn_world.
Proof.
  eapply wp_mono; [apply (add_message_appends 3%positive (scn_client 10 CLIENT_CONNECTED) 7
    MESSAGE_RESULT (replicate 30 1) scn_world); [reflexivity|apply scn_ob_ok|reflexivity]|].
  intros r w' [(_ & _ & n & Hn)|(-> & c' & Hw & Hok & Hp & _)]; [discriminate|].
  split; [done|]. exists c'. split; [done|]. split; [done|]. rewrite Hp. reflexivity.
Defined.

(** A reply of 20 bytes that is sent at once: the client is connected. *)
Lemma output_process_fifo_witness :
  let c := (scn_client 11 CLIENT_CONNECTING2) <| cl_ob_size := 20 |> in
  let w := set w_clients <[5%positive := c]> scn_world in
  wp (output_buffer_process 5%positive) (fun _ w' => exists c',
    w_clients w' = <[5%positive := c']> (w_clients w) /\
    ztake 20 (pending c) ++ pending c' = pending c) w.
Proof.
  intros c w. eapply wp_mono; [apply (output_process_fifo 5%positive c 20 w)|].
  - reflexivity.
  - exists (replicate 40 0). split; [done|]. split; [done|]. simpl. lia.
  - reflexivity.
  - vm_compute. reflexivity.
  - reflexivity.
  - intros [] w' (c' & H1 & _ & H2 & _). exists c'. split; [exact H1|exact H2].
Defined.

(** The header of the scenario's connect request arrives. *)
Lemma input_process_frames_witness :
  let c := scn_client 12 CLIENT_COMMAND in
  let w := set w_clients <[7%positive := c]> scn_world in
  let data := take 16 connect_request in
  input_buffer_process 7%positive w =
    framed 7%positive (stored c (replicate 64 0) data) (write_at 0 data (replicate 64 0))
      (with_input w 7%positive c (replicate 64 0) data).
Proof.
  intros c w data.
  destruct (input_process_frames 7%positive c (replicate 64 0) data w) as [H _].
  - reflexivity.
  - split; [done|]. split; [done|]. unfold sizeof_usbmuxd_header. simpl. lia.
  - left. reflexivity.
  - vm_compute. reflexivity.
  - discriminate.
  - exact H.
Defined.

End witness.
