(* ===== verification/ReplyFacts.v ===== *)
(** * ReplyFacts: answers to a connect request

    [send_result] and [client_notify_connect] of client.c queue one complete
    message for the client, in the format of its protocol version, and move the
    client to the state that belongs to the answer. *)

From stdpp Require Import base gmap list strings.
From Stdlib Require Import ZArith Lia.
From S2P Require Import Prelude Platform Wire World Utils Conf Instances Usb ClientOut.
From S2P Require Import DeviceOut Teardown Device Client Scenario BufferFacts.

Local Open Scope Z_scope.

Section reply.
Context `{E : Env} `{!EnvLaws E}.
Implicit Types w : world.

(** Message type and payload of a result: a plist for protocol version 1, a
    little endian word otherwise. *)
Definition result_message (k : mux_client) (n : Z) (msg : Z) (payload : list Z) : Prop :=
  if cl_proto_version k =? 1
  then msg = MESSAGE_PLIST /\ plist_from_xml payload = Some (result_plist n)
  else msg = MESSAGE_RESULT /\ payload = le_bytes 4 n.

(** There is room in 31 bits for the message. *)
Definition reply_fits (k : mux_client) (n : Z) : Prop :=
  forall msg payload, result_message k n msg payload ->
    cl_ob_capacity k + sizeof_usbmuxd_header + zlen payload + 4096 < 2 ^ 31.

(** The client after a message was appended to its output. *)
Definition replied (k k' : mux_client) (tag msg : Z) (payload : list Z) : Prop :=
  ob_ok k' /\
  pending k' = pending k ++ usbmuxd_header_bytes (reply_header k tag msg payload) ++ payload /\
  flag_set (cl_events k') POLLOUT = true /\
  k' = k <| cl_ob_buf := cl_ob_buf k' |> <| cl_ob_size := cl_ob_size k' |>
         <| cl_ob_capacity := cl_ob_capacity k' |> <| cl_events := cl_events k' |>.

Lemma wp_add_reply cl k tag msg payload w :
  w_clients w !! cl = Some k -> ob_ok k ->
  cl_ob_capacity k + sizeof_usbmuxd_header + zlen payload + 4096 < 2 ^ 31 ->
  wp (output_buffer_add_message cl tag msg payload) (fun r w' =>
    (r < 0 /\ w' = w /\ exists n, sys_realloc (w_trace w) n = false) \/
    (0 < r /\ exists k', w' = set w_clients <[cl := k']> w /\ replied k k' tag msg payload)) w.
Proof.
  intros Hk Hok Hfit. eapply wp_mono; [by apply wp_add_message|]. cbv beta zeta.
  intros r w' [(-> & -> & Hre)|(-> & b & cap & -> & Hok' & Hp)]; [left; by split_and!|right].
  split; [simpl; pose proof (zlen_nonneg payload); unfold sizeof_usbmuxd_header; lia|].
  eexists. split; [done|]. split_and!; try done. simpl. by apply flag_set_lor.
Qed.

Lemma result_plist_type n : plist_get_node_type (result_plist n) = PLIST_DICT.
Proof. unfold result_plist. do 2 apply set_item_type. apply new_dict_type. Qed.

Lemma wp_send_result cl k tag n w :
  w_clients w !! cl = Some k -> ob_ok k -> reply_fits k n ->
  wp (send_result cl tag n) (fun r w' =>
    (r < 0 /\ w' = w /\ exists n, sys_realloc (w_trace w) n = false) \/
    (0 < r /\ exists k' msg payload, w' = set w_clients <[cl := k']> w /\
       result_message k n msg payload /\ replied k k' tag msg payload)) w.
Proof.
  intros Hk Hok Hfit. unfold send_result. apply wp_bind. eapply wp_load; [done|].
  unfold result_message, reply_fits, result_message in *.
  destruct (cl_proto_version k =? 1) eqn:Hv.
  - unfold send_plist. destruct (plist_xml_roundtrip _ (result_plist_type n)) as (xml & -> & _ & Hx & _).
    eapply wp_mono; [apply (wp_add_reply cl k); [done|done|by apply (Hfit MESSAGE_PLIST)]|].
    intros r w' [H|(Hr & k' & -> & Hrep)]; [by left|right]. eauto 10.
  - eapply wp_mono; [apply (wp_add_reply cl k); [done|done|by apply (Hfit MESSAGE_RESULT)]|].
    intros r w' [H|(Hr & k' & -> & Hrep)]; [by left|right]. eauto 10.
Qed.

(** The client once the answer to its connect request is queued. *)
Definition notified (k k' : mux_client) (res : usbmuxd_result) : Prop :=
  exists msg payload, result_message k (result_num res) msg payload /\
  ob_ok k' /\
  pending k' = pending k ++
    usbmuxd_header_bytes (reply_header k (cl_connect_tag k) msg payload) ++ payload /\
  flag_set (cl_events k') POLLOUT = true /\
  match res with
  | RESULT_OK => cl_state k' = CLIENT_CONNECTING2 /\ cl_events k' = POLLOUT /\ cl_ib_buf k' = None
  | _ => cl_state k' = CLIENT_COMMAND /\ cl_ib_buf k' = cl_ib_buf k
  end /\ cl_fd k' = cl_fd k /\ cl_connect_device k' = cl_connect_device k.

Lemma wp_notify_connect cl k res w :
  w_clients w !! cl = Some k -> cl_state k = CLIENT_CONNECTING1 -> ob_ok k ->
  reply_fits k (result_num res) ->
  wp (client_notify_connect cl res) (fun r w' =>
    (r = -1 /\ w' = w /\ exists n, sys_realloc (w_trace w) n = false) \/
    (r = 0 /\ exists k', w' = set w_clients <[cl := k']> w /\ notified k k' res)) w.
Proof.
  intros Hk Hst Hok Hfit. unfold client_notify_connect. apply wp_bind. eapply wp_load; [done|].
  rewrite decide_False by congruence. rewrite decide_False by tauto.
  eapply wp_call; [by apply (wp_send_result cl k)|].
  intros r w1 [(Hr & -> & Hre)|(Hr & k1 & msg & payload & -> & Hmsg & Hok1 & Hp & Hev & Hsame)].
  { rewrite (proj2 (Z.ltb_lt _ _)) by done. by left. }
  rewrite (proj2 (Z.ltb_ge _ _)) by lia. apply wp_bind.
  assert (forall f, (forall k2, k2 = f k1 -> notified k k2 res) ->
    wp (upd_client cl f) (fun _ w' => wp (mret 0) (fun r w' => (r = -1 /\ w' = w /\ exists n, sys_realloc (w_trace w) n = false) \/
      (r = 0 /\ exists k', w' = set w_clients <[cl := k']> w /\ notified k k' res)) w')
      (set w_clients <[cl := k1]> w)) as Hupd.
  { intros f Hf. eapply wp_update; [simpl; apply lookup_insert_eq|]. unfold wp; simpl. right.
    split; [done|]. exists (f k1). rewrite insert_insert_eq. split; [done|]. by apply Hf. }
  destruct res; apply Hupd; intros k2 ->; exists msg, payload;
    (split; [done|]); (split; [exact Hok1|]); (split; [exact Hp|]);
    (split; [first [exact Hev|done]|]); rewrite Hsame; done.
Qed.

(** The answer to a connect request is one complete message with the
    request's tag, appended to what already waits for the client, a plist or a
    binary result as the client's protocol version asks. A successful answer
    moves the client to the state in which only the answer is still sent (it is
    not read from any more), a failed one back to waiting for commands; only
    when the output buffer cannot be enlarged does nothing change, and then the
    caller is told. *)
Theorem notify_connect_replies cl k res w :
  w_clients w !! cl = Some k -> cl_state k = CLIENT_CONNECTING1 -> ob_ok k ->
  reply_fits k (result_num res) ->
  wp (client_notify_connect cl res) (fun r w' =>
    (r = -1 /\ w' = w /\ exists n, sys_realloc (w_trace w) n = false) \/
    (r = 0 /\ exists k', w' = set w_clients <[cl := k']> w /\ notified k k' res)) w.
Proof. apply wp_notify_connect. Qed.

(** A client that is not waiting for an answer does not get one. *)
Lemma notify_connect_other cl k res w :
  w_clients w !! cl = Some k -> cl_state k <> CLIENT_CONNECTING1 ->
  client_notify_connect cl res w = Ok (-1) w.
Proof.
  intros Hk Hst. unfold client_notify_connect, mbind, C_bind, load. rewrite Hk.
  case_decide; [done|]. by rewrite decide_True.
Qed.

End reply.

Section witness.
Import Instances Scenario.

(** Client 5 of the scenario asked for a connection with tag 77. *)
Lemma notify_connect_replies_witness :
  wp (client_notify_connect 5%positive RESULT_CONNREFUSED) (fun r w' =>
    r = 0 /\ exists k', w' = set w_clients <[5%positive := k']> scn_world /\
      notified (scn_client 11 CLIENT_CONNECTING1) k' RESULT_CONNREFUSED) scn_world.
Proof.
  eapply wp_mono; [apply (notify_connect_replies 5%positive (scn_client 11 CLIENT_CONNECTING1)
    RESULT_CONNREFUSED scn_world); [reflexivity|reflexivity|apply scn_ob_ok|]|].
  - intros msg payload [-> ->]. vm_compute. reflexivity.
  - intros r w' [(_ & _ & n & Hn)|H]; [discriminate|exact H].
Defined.

End witness.
