(* ===== verification/PacketFacts.v ===== *)
(** * PacketFacts: packets that arrive in several transfers

    A packet larger than a transfer is gathered in the device's packet buffer
    until it is complete ([device_data_input] of device.c). *)

From stdpp Require Import base gmap list strings.
From Stdlib Require Import ZArith Lia.
From S2P Require Import Prelude Platform Wire World Utils Conf Instances Usb ClientOut.
From S2P Require Import DeviceOut Teardown Device Client Scenario.

Local Open Scope Z_scope.

(** The length field is in the first eight bytes. *)
Lemma mhdr_length_take n b : 8 <= n -> mhdr_length (ztake n b) = mhdr_length b.
Proof.
  intros Hn. unfold mhdr_length, get_be, slice, ztake, zdrop.
  rewrite skipn_firstn_comm, take_take.
  by replace (Z.to_nat 4 `min` (Z.to_nat n - Z.to_nat 4))%nat with (Z.to_nat 4) by lia.
Qed.

Lemma mhdr_length_app a b : 8 <= zlen a -> mhdr_length (a ++ b) = mhdr_length a.
Proof.
  intros Ha. rewrite <- (mhdr_length_take (zlen a) (a ++ b)) by done.
  by rewrite ztake_app_exact.
Qed.

(** A transfer: the bytes that arrived, at the start of a receive buffer. *)
Definition transfer_ok (buffer chunk : list Z) : Prop := ztake (zlen chunk) buffer = chunk.

(** ** One transfer more *)

Lemma gather_more pktbuf acc buffer chunk :
  zlen pktbuf = DEV_MRU -> 8 <= zlen acc -> ztake (zlen acc) pktbuf = acc ->
  transfer_ok buffer chunk -> zlen acc + zlen chunk <= DEV_MRU ->
  let total := zlen acc + zlen chunk in
  exists pktbuf', zlen pktbuf' = DEV_MRU /\ ztake total pktbuf' = acc ++ chunk /\
    gather pktbuf (zlen acc) buffer (zlen chunk) =
      if (zlen chunk <? USB_MRU) || (mhdr_length acc =? total)
      then (Packet pktbuf' total, pktbuf', 0) else (Wait, pktbuf', total).
Proof.
  intros Hbuf Hacc Hpre Hchunk Hfit total. unfold DEV_MRU in *.
  pose proof (zlen_nonneg chunk) as Hc.
  exists (write_at (zlen acc) chunk pktbuf). split; [rewrite zlen_write_at; lia|].
  assert (ztake total (write_at (zlen acc) chunk pktbuf) = acc ++ chunk) as Hw
    by (unfold total; rewrite ztake_write_at by lia; by rewrite Hpre).
  split; [done|]. unfold gather.
  rewrite (proj2 (Z.eqb_neq _ _)) by lia. cbn [negb].
  rewrite !(u32_small (zlen chunk + zlen acc)) by lia. rewrite (u32_small (zlen acc + zlen chunk)) by lia.
  unfold DEV_MRU. rewrite (proj2 (Z.ltb_ge _ _)) by lia. rewrite Hchunk.
  replace (zlen chunk + zlen acc) with total by (unfold total; lia).
  rewrite <- (mhdr_length_take total (write_at _ _ _)) by (unfold total; lia).
  rewrite Hw, mhdr_length_app by done. reflexivity.
Qed.

(** The first transfer of a packet. *)
Lemma gather_first pktbuf buffer chunk :
  zlen pktbuf = DEV_MRU -> transfer_ok buffer chunk -> 8 <= zlen chunk <= USB_MRU ->
  (mhdr_length chunk = zlen chunk ->
     gather pktbuf 0 buffer (zlen chunk) = (Packet buffer (zlen chunk), pktbuf, 0)) /\
  (zlen chunk = USB_MRU -> USB_MRU < mhdr_length chunk ->
     exists pktbuf', zlen pktbuf' = DEV_MRU /\ ztake (zlen chunk) pktbuf' = chunk /\
       gather pktbuf 0 buffer (zlen chunk) = (Wait, pktbuf', zlen chunk)).
Proof.
  intros Hbuf Hchunk Hlen. unfold USB_MRU, DEV_MRU in *.
  assert (mhdr_length buffer = mhdr_length chunk) as Hm
    by (rewrite <- (mhdr_length_take (zlen chunk) buffer) by lia; by rewrite Hchunk).
  unfold gather. cbn [negb Z.eqb]. rewrite Hm. split.
  - intros ->. rewrite Z.ltb_irrefl, andb_false_r. done.
  - intros He Hlt. exists (write_at 0 chunk pktbuf).
    split; [rewrite zlen_write_at; lia|]. split.
    + rewrite <- (Z.add_0_l (zlen chunk)), ztake_write_at by lia. done.
    + unfold USB_MRU. rewrite He, Z.eqb_refl, (proj2 (Z.ltb_lt _ _)) by lia. cbn [andb].
      by rewrite <- He, Hchunk.
Qed.

(** ** A whole packet *)

(** [gather] on one transfer after the other, from a gather buffer and its
    length: what it says to each of them, and the buffer in the end. A
    transfer is its receive buffer and the bytes that arrived. *)
Fixpoint gather_all (pktbuf : list Z) (pktlen : Z) (ts : list (list Z * list Z)) :
    list gathered * list Z * Z :=
  match ts with
  | [] => ([], pktbuf, pktlen)
  | (buffer, chunk) :: ts' =>
    let '(g, pktbuf, pktlen) := gather pktbuf pktlen buffer (zlen chunk) in
    let '(gs, pktbuf, pktlen) := gather_all pktbuf pktlen ts' in
    (g :: gs, pktbuf, pktlen)
  end.

Definition chunks (ts : list (list Z * list Z)) : list Z := concat (snd <$> ts).

(** All transfers of a packet but the last are full. *)
Definition full_transfers (ts : list (list Z * list Z)) : Prop :=
  Forall (fun t => transfer_ok (fst t) (snd t) /\ zlen (snd t) = USB_MRU) ts.

Lemma gather_rest full bl last acc pktbuf :
  zlen pktbuf = DEV_MRU -> 8 <= zlen acc -> ztake (zlen acc) pktbuf = acc ->
  full_transfers full -> transfer_ok bl last -> 0 < zlen last <= USB_MRU ->
  let P := acc ++ chunks (full ++ [(bl, last)]) in
  zlen P <= DEV_MRU -> mhdr_length acc = zlen P ->
  exists buf, zlen buf = DEV_MRU /\ ztake (zlen P) buf = P /\
    gather_all pktbuf (zlen acc) (full ++ [(bl, last)]) =
      (replicate (length full) Wait ++ [Packet buf (zlen P)], buf, 0).
Proof.
  intros Hbuf Hacc Hpre Hfull Hl Hlast. revert acc pktbuf Hbuf Hacc Hpre.
  induction Hfull as [|[b c] full [Hb Hc] Hfull IH]; intros acc pktbuf Hbuf Hacc Hpre P HP Hm.
  - unfold P, chunks in *. simpl in *. rewrite app_nil_r in *. rewrite zlen_app in HP.
    destruct (gather_more pktbuf acc bl last) as (buf & Hlen & Htake & Hg); [done..|].
    exists buf. rewrite zlen_app. split; [done|]. split; [done|]. rewrite Hg, Hm, zlen_app.
    by rewrite Z.eqb_refl, orb_true_r.
  - simpl in Hb, Hc. assert (P = (acc ++ c) ++ chunks (full ++ [(bl, last)])) as HPeq
      by (unfold P, chunks; simpl; by rewrite app_assoc).
    assert (zlen P = zlen acc + zlen c + zlen (chunks full) + zlen last) as HPlen.
    { rewrite HPeq. unfold chunks. rewrite fmap_app, concat_app. simpl.
      rewrite app_nil_r, !zlen_app. lia. }
    pose proof (zlen_nonneg (chunks full)).
    destruct (gather_more pktbuf acc b c) as (pb & Hlen & Htake & Hg); [done..|lia|].
    destruct (IH (acc ++ c) pb) as (buf & Hb1 & Hb2 & Hb3).
    + done.
    + rewrite zlen_app, Hc. unfold USB_MRU. lia.
    + by rewrite zlen_app.
    + rewrite <- HPeq. lia.
    + rewrite <- HPeq. by rewrite mhdr_length_app.
    + rewrite <- HPeq in *. exists buf. split; [done|]. split; [done|].
      cbn [app gather_all length replicate]. rewrite Hg, Hc, Z.ltb_irrefl. cbn [orb].
      rewrite (proj2 (Z.eqb_neq _ _)) by (rewrite Hm, HPlen, Hc; lia).
      rewrite zlen_app, Hc in Hb3. by rewrite Hb3.
Qed.

(** C14: a packet that a device sends in several transfers, full ones and a last
    one that may be short, is held back until it is complete and then handed
    over exactly as it was sent; the gather buffer is empty again afterwards and
    was never overrun. *)
Theorem gather_reassembles full bl last pktbuf :
  full_transfers full -> transfer_ok bl last -> 0 < zlen last <= USB_MRU ->
  let P := chunks (full ++ [(bl, last)]) in
  8 <= zlen P <= DEV_MRU -> mhdr_length P = zlen P -> zlen pktbuf = DEV_MRU ->
  exists buf pktbuf', zlen pktbuf' = DEV_MRU /\ ztake (zlen P) buf = P /\
    gather_all pktbuf 0 (full ++ [(bl, last)]) =
      (replicate (length full) Wait ++ [Packet buf (zlen P)], pktbuf', 0).
Proof.
  intros Hfull Hl Hlast P HP Hm Hbuf.
  destruct Hfull as [|[b c] full [Hb Hc] Hfull]; simpl in *.
  - unfold P, chunks in *. simpl in *. rewrite app_nil_r in *.
    destruct (gather_first pktbuf bl last) as [Hg _]; [done..|lia|]. rewrite Hg by done.
    exists bl, pktbuf. split_and!; done.
  - assert (P = c ++ chunks (full ++ [(bl, last)])) as HPeq by done.
    assert (zlen P = zlen c + zlen (chunks full) + zlen last) as HPlen.
    { rewrite HPeq. unfold chunks. rewrite fmap_app, concat_app. simpl.
      rewrite app_nil_r, !zlen_app. lia. }
    pose proof (zlen_nonneg (chunks full)).
    assert (8 <= zlen c) as Hc8 by (rewrite Hc; unfold USB_MRU; lia).
    assert (mhdr_length c = zlen P) as Hmc by (rewrite <- Hm, HPeq; by rewrite mhdr_length_app).
    destruct (gather_first pktbuf b c) as [_ Hg]; [done..|lia|].
    destruct Hg as (pb & Hlen & Htake & Hg); [done|lia|].
    destruct (gather_rest full bl last c pb) as (buf & Hb1 & Hb2 & Hb3);
      [done..|rewrite <- HPeq; lia|by rewrite <- HPeq|].
    exists buf, buf. rewrite <- HPeq in *. split; [done|]. split; [done|].
    by rewrite Hg, Hb3.
Qed.

(** Whatever a device sends, the gather buffer keeps its size and its
    fill level stays within it. *)
Theorem gather_bounded pktbuf pktlen buffer n g pktbuf' pktlen' :
  zlen pktbuf = DEV_MRU -> 0 <= pktlen <= DEV_MRU ->
  0 < n <= USB_MRU -> n <= zlen buffer ->
  gather pktbuf pktlen buffer n = (g, pktbuf', pktlen') ->
  zlen pktbuf' = DEV_MRU /\ 0 <= pktlen' <= DEV_MRU /\
  match g with Packet b m => 0 < m <= zlen b /\ m <= DEV_MRU | _ => True end.
Proof.
  intros Hbuf Hlen Hn Hb. unfold gather. unfold USB_MRU, DEV_MRU in *.
  assert (zlen (ztake n buffer) = n) as Ht by (apply zlen_ztake; lia).
  rewrite !(u32_small (n + pktlen)), !(u32_small (pktlen + n)) by lia.
  destruct (Z.eqb_spec pktlen 0) as [->|Hne]; cbn [negb].
  - destruct (_ && _); intros [= <- <- <-].
    + rewrite zlen_write_at by lia. lia.
    + lia.
  - destruct (Z.ltb_spec 65536 (n + pktlen)); [intros [= <- <- <-]; lia|].
    assert (zlen (write_at pktlen (ztake n buffer) pktbuf) = 65536) as Hw
      by (rewrite zlen_write_at; lia).
    destruct (_ || _); intros [= <- <- <-]; rewrite Hw; lia.
Qed.

Section witness.
Import Scenario.

(** A packet of 16385 bytes in two transfers. *)
Definition split_packet : list Z :=
  be_bytes 4 6 ++ be_bytes 4 16385 ++ replicate (Z.to_nat 16377) 5.

Lemma gather_reassembles_witness :
  let full := [(ztake 16384 split_packet, ztake 16384 split_packet)] in
  exists buf pktbuf', zlen pktbuf' = DEV_MRU /\
    ztake 16385 buf = chunks (full ++ [(rx_buffer [5], [5])]) /\
    gather_all (replicate (Z.to_nat DEV_MRU) 0) 0 (full ++ [(rx_buffer [5], [5])]) =
      ([Wait; Packet buf 16385], pktbuf', 0).
Proof.
  intros full.
  apply (gather_reassembles full (rx_buffer [5]) [5] (replicate (Z.to_nat DEV_MRU) 0)).
  - constructor; [split; [vm_compute; reflexivity|vm_compute; reflexivity]|constructor].
  - vm_compute. reflexivity.
  - vm_compute. split; [reflexivity|discriminate].
  - vm_compute. split; discriminate.
  - vm_compute. reflexivity.
  - vm_compute. reflexivity.
Defined.

Lemma gather_bounded_witness :
  0 < 20 <= zlen (rx_buffer version_packet) /\ 20 <= DEV_MRU.
Proof.
  destruct (gather_bounded (replicate (Z.to_nat DEV_MRU) 0) 0 (rx_buffer version_packet) 20
    (Packet (rx_buffer version_packet) 20) (replicate (Z.to_nat DEV_MRU) 0) 0) as (_ & _ & H).
  - vm_compute. reflexivity.
  - unfold DEV_MRU. lia.
  - unfold USB_MRU. lia.
  - vm_compute. discriminate.
  - reflexivity.
  - exact H.
Defined.

End witness.
