(* ===== verification/Views.v ===== *)
(** * Views: the session structure of the daemon

    The view of a state keeps who is connected to whom and in which phase,
    and forgets buffers, sequence numbers and the history. Most functions are
    quiet: they leave the view alone. *)

From stdpp Require Import base gmap list strings.
From Stdlib Require Import ZArith Lia.
From S2P Require Import Prelude Platform Wire World Utils Conf Usb ClientOut DeviceOut.
From S2P Require Import Teardown Device Client.

Local Open Scope Z_scope.

Section views.
Context `{E : Env}.

Definition client_v (c : mux_client) : client_state * Z := (cl_state c, cl_connect_device c).

Record conn_view := mk_conn_view {
  cv_dev : ptr;
  cv_client : option ptr;
  cv_state : mux_conn_state;
  cv_sport : Z;
  cv_dport : Z;
}.
Definition conn_v (c : mux_connection) : conn_view :=
  mk_conn_view (cn_dev c) (cn_client c) (cn_state c) (cn_sport c) (cn_dport c).

Record dev_view := mk_dev_view {
  vd_usbdev : ptr;
  vd_id : Z;
  vd_state : mux_dev_state;
  vd_connections : option coll;
}.
Definition dev_v (d : mux_device) : dev_view :=
  mk_dev_view (dv_usbdev d) (dv_id d) (dv_state d) (dv_connections d).

(** What sending needs of a USB device. *)
Definition usb_v (u : usb_device) : bool * Z := (ud_handle u, ud_wMaxPacketSize u).

Record view := mk_view {
  v_clients : gmap ptr (client_state * Z);
  v_conns : gmap ptr conn_view;
  v_devs : gmap ptr dev_view;
  v_usbdevs : gmap ptr (bool * Z);
  v_client_list : coll;
  v_device_list : coll;
}.

Definition view_of (w : world) : view :=
  mk_view (client_v <$> w_clients w) (conn_v <$> w_conns w) (dev_v <$> w_devs w)
    (usb_v <$> w_usbdevs w) (client_list w) (device_list w).

(** The view is the same and no pointer was given back to the allocator. *)
Definition quiet (w w' : world) : Prop :=
  view_of w' = view_of w /\ (w_next w <= w_next w')%positive.

#[export] Instance quiet_preorder : PreOrder quiet.
Proof.
  split.
  - intros w. split; [done|lia].
  - intros w1 w2 w3 [H1 H2] [H3 H4]. split; [congruence|lia].
Qed.

Lemma fmap_insert_same {A B} (f : A -> B) (m : gmap ptr A) p a a' :
  m !! p = Some a -> f a' = f a -> f <$> <[p := a']> m = f <$> m.
Proof.
  intros H Hf. rewrite fmap_insert, Hf. apply insert_id. by rewrite lookup_fmap, H.
Qed.

Lemma quiet_upd_client p f :
  (forall c, client_v (f c) = client_v c) -> Preserves quiet (upd_client p f).
Proof.
  intros Hf w. apply wlp_update. intros c Hc. split; [|simpl; lia].
  unfold view_of; simpl. by rewrite (fmap_insert_same _ _ _ c).
Qed.

Lemma quiet_upd_conn p f :
  (forall c, conn_v (f c) = conn_v c) -> Preserves quiet (upd_conn p f).
Proof.
  intros Hf w. apply wlp_update. intros c Hc. split; [|simpl; lia].
  unfold view_of; simpl. by rewrite (fmap_insert_same _ _ _ c).
Qed.

Lemma quiet_upd_dev p f :
  (forall d, dev_v (f d) = dev_v d) -> Preserves quiet (upd_dev p f).
Proof.
  intros Hf w. apply wlp_update. intros c Hc. split; [|simpl; lia].
  unfold view_of; simpl. by rewrite (fmap_insert_same _ _ _ c).
Qed.

Lemma quiet_upd_usb p f :
  (forall u, usb_v (f u) = usb_v u) -> Preserves quiet (upd_usb p f).
Proof.
  intros Hf w. apply wlp_update. intros c Hc. split; [|simpl; lia].
  unfold view_of; simpl. by rewrite (fmap_insert_same _ _ _ c).
Qed.

Lemma quiet_upd_cb p f : Preserves quiet (update w_cbs p f).
Proof. intros w. apply wlp_update. intros c Hc. split; [done|simpl; lia]. Qed.

Lemma quiet_malloc_buf a : Preserves quiet (malloc w_bufs a).
Proof. intros w. apply wlp_malloc. split; [done|simpl; lia]. Qed.
Lemma quiet_malloc_xfer a : Preserves quiet (malloc w_xfers a).
Proof. intros w. apply wlp_malloc. split; [done|simpl; lia]. Qed.
Lemma quiet_free_buf p : Preserves quiet (free w_bufs p).
Proof. intros w. apply wlp_free. split; [done|simpl; lia]. Qed.
Lemma quiet_free_xfer p : Preserves quiet (free w_xfers p).
Proof. intros w. apply wlp_free. split; [done|simpl; lia]. Qed.
Lemma quiet_emit e : Preserves quiet (emit e).
Proof. apply preserves_modify. intros w. split; [done|simpl; lia]. Qed.
Lemma quiet_lock m : Preserves quiet (mutex_lock m).
Proof.
  intros w. unfold wlp, mutex_lock. case_decide; [done|]. split; [done|simpl; lia].
Qed.
Lemma quiet_unlock m : Preserves quiet (mutex_unlock m).
Proof. apply preserves_modify. intros w. split; [done|simpl; lia]. Qed.

End views.

#[export] Hint Resolve quiet_upd_cb quiet_malloc_buf quiet_malloc_xfer quiet_free_buf
  quiet_free_xfer quiet_emit quiet_lock quiet_unlock : preserves.
#[export] Hint Extern 2 (Preserves quiet (upd_client _ _)) =>
  apply quiet_upd_client; done : preserves.
#[export] Hint Extern 2 (Preserves quiet (upd_conn _ _)) =>
  apply quiet_upd_conn; done : preserves.
#[export] Hint Extern 2 (Preserves quiet (upd_dev _ _)) =>
  apply quiet_upd_dev; done : preserves.
#[export] Hint Extern 2 (Preserves quiet (upd_usb _ _)) =>
  apply quiet_upd_usb; done : preserves.
#[export] Hint Extern 2 (Preserves quiet (modify _)) =>
  apply preserves_modify; intros ?; split; [done|simpl; lia] : preserves.

Section quiet_functions.
Context `{E : Env}.

(** Every function below only reads the session structure. *)

Lemma quiet_submit dev ep data : Preserves quiet (submit dev ep data).
Proof. unfold submit. preserves_tac. Qed.
#[local] Hint Resolve quiet_submit : preserves.

Lemma quiet_usb_send dev buf n : Preserves quiet (usb_send dev buf n).
Proof. unfold usb_send. preserves_tac. Qed.
#[local] Hint Resolve quiet_usb_send : preserves.

Lemma quiet_mstime64 : Preserves quiet mstime64.
Proof. unfold mstime64, get_tick_count. preserves_tac. Qed.
#[local] Hint Resolve quiet_mstime64 : preserves.

Lemma quiet_recv fd n : Preserves quiet (recv fd n).
Proof. unfold recv. preserves_tac. Qed.
#[local] Hint Resolve quiet_recv : preserves.

Lemma quiet_send fd d : Preserves quiet (send fd d).
Proof. unfold send. preserves_tac. Qed.
#[local] Hint Resolve quiet_send : preserves.

Lemma quiet_client_read c n : Preserves quiet (client_read c n).
Proof. unfold client_read. preserves_tac. Qed.
#[local] Hint Resolve quiet_client_read : preserves.

Lemma quiet_client_write c d : Preserves quiet (client_write c d).
Proof. unfold client_write. preserves_tac. Qed.
#[local] Hint Resolve quiet_client_write : preserves.

Lemma quiet_client_set_events c e : Preserves quiet (client_set_events c e).
Proof. unfold client_set_events, nonnull. preserves_tac. Qed.
#[local] Hint Resolve quiet_client_set_events : preserves.

Lemma quiet_copy_into b o d : Preserves quiet (copy_into b o d).
Proof. unfold copy_into. preserves_tac. Qed.
#[local] Hint Resolve quiet_copy_into : preserves.

Lemma quiet_output_buffer_add_message c t m p : Preserves quiet (output_buffer_add_message c t m p).
Proof. unfold output_buffer_add_message. preserves_tac. Qed.
#[local] Hint Resolve quiet_output_buffer_add_message : preserves.

Lemma quiet_send_plist c t p : Preserves quiet (send_plist c t p).
Proof. unfold send_plist. preserves_tac. Qed.
#[local] Hint Resolve quiet_send_plist : preserves.

Lemma quiet_send_result c t r : Preserves quiet (send_result c t r).
Proof. unfold send_result. preserves_tac. Qed.
#[local] Hint Resolve quiet_send_result : preserves.

Lemma quiet_create_device_attached_plist d : Preserves quiet (create_device_attached_plist d).
Proof. unfold create_device_attached_plist. preserves_tac. Qed.
#[local] Hint Resolve quiet_create_device_attached_plist : preserves.

Lemma quiet_send_device_add c d : Preserves quiet (send_device_add c d).
Proof. unfold send_device_add. preserves_tac. Qed.
#[local] Hint Resolve quiet_send_device_add : preserves.

Lemma quiet_send_device_remove c d : Preserves quiet (send_device_remove c d).
Proof. unfold send_device_remove. preserves_tac. Qed.
#[local] Hint Resolve quiet_send_device_remove : preserves.

Lemma quiet_send_device_paired c d : Preserves quiet (send_device_paired c d).
Proof. unfold send_device_paired. preserves_tac. Qed.
#[local] Hint Resolve quiet_send_device_paired : preserves.

Lemma quiet_foreach_listener (body : ptr -> C world unit) :
  (forall p, Preserves quiet (body p)) ->
  Preserves quiet (foreach_listener body).
Proof. intros Hb. unfold foreach_listener. preserves_tac. Qed.
#[local] Hint Resolve quiet_foreach_listener : preserves.

Lemma quiet_client_device_remove id : Preserves quiet (client_device_remove id).
Proof. unfold client_device_remove. preserves_tac; apply quiet_foreach_listener; intros; preserves_tac. Qed.
#[local] Hint Resolve quiet_client_device_remove : preserves.

Lemma quiet_client_device_paired id : Preserves quiet (client_device_paired id).
Proof. unfold client_device_paired. preserves_tac; apply quiet_foreach_listener; intros; preserves_tac. Qed.
#[local] Hint Resolve quiet_client_device_paired : preserves.

Lemma quiet_dev_connections dev : Preserves quiet (dev_connections dev).
Proof. unfold dev_connections. preserves_tac. Qed.
#[local] Hint Resolve quiet_dev_connections : preserves.

Lemma quiet_get_mux_device_for_id id : Preserves quiet (get_mux_device_for_id id).
Proof. unfold get_mux_device_for_id. preserves_tac. Qed.
#[local] Hint Resolve quiet_get_mux_device_for_id : preserves.

Lemma quiet_get_mux_connection id c : Preserves quiet (get_mux_connection id c).
Proof. unfold get_mux_connection. preserves_tac. Qed.
#[local] Hint Resolve quiet_get_mux_connection : preserves.

Lemma quiet_bump : Preserves quiet bump_next_device_id.
Proof. unfold bump_next_device_id. preserves_tac. Qed.
#[local] Hint Resolve quiet_bump : preserves.

Lemma quiet_get_next_device_id_loop n : Preserves quiet (get_next_device_id_loop n).
Proof. induction n; simpl; preserves_tac. Qed.
#[local] Hint Resolve quiet_get_next_device_id_loop : preserves.

Lemma quiet_get_next_device_id : Preserves quiet get_next_device_id.
Proof. unfold get_next_device_id. preserves_tac. Qed.
#[local] Hint Resolve quiet_get_next_device_id : preserves.

Lemma quiet_find_sport_loop n dev : Preserves quiet (find_sport_loop n dev).
Proof. induction n; simpl; preserves_tac. Qed.
#[local] Hint Resolve quiet_find_sport_loop : preserves.

Lemma quiet_find_sport dev : Preserves quiet (find_sport dev).
Proof. unfold find_sport. preserves_tac. Qed.
#[local] Hint Resolve quiet_find_sport : preserves.

Lemma quiet_send_packet dev proto h d : Preserves quiet (send_packet dev proto h d).
Proof. unfold send_packet. preserves_tac. Qed.
#[local] Hint Resolve quiet_send_packet : preserves.

Lemma quiet_send_anon_rst dev s d a : Preserves quiet (send_anon_rst dev s d a).
Proof. unfold send_anon_rst. preserves_tac. Qed.
#[local] Hint Resolve quiet_send_anon_rst : preserves.

Lemma quiet_send_tcp conn flags data : Preserves quiet (send_tcp conn flags data).
Proof. unfold send_tcp. preserves_tac. Qed.
#[local] Hint Resolve quiet_send_tcp : preserves.

Lemma quiet_on_device_id id (f : mux_device -> mux_device) :
  (forall d, dev_v (f d) = dev_v d) ->
  Preserves quiet (on_device_id id f).
Proof. intros Hf. unfold on_device_id. preserves_tac. Qed.
#[local] Hint Resolve quiet_on_device_id : preserves.

Lemma quiet_device_set_visible id : Preserves quiet (device_set_visible id).
Proof. by apply quiet_on_device_id. Qed.
#[local] Hint Resolve quiet_device_set_visible : preserves.

Lemma quiet_device_set_preflight_cb_data id p : Preserves quiet (device_set_preflight_cb_data id p).
Proof. by apply quiet_on_device_id. Qed.
#[local] Hint Resolve quiet_device_set_preflight_cb_data : preserves.

Lemma quiet_collect_devices {A} h (f : ptr -> mux_device -> C world A) l :
  (forall p d, Preserves quiet (f p d)) ->
  Preserves quiet (collect_devices h f l).
Proof. intros Hf. induction l; simpl; preserves_tac. Qed.
#[local] Hint Resolve quiet_collect_devices : preserves.

Lemma quiet_copy_device_list : Preserves quiet copy_device_list.
Proof. unfold copy_device_list. preserves_tac. Qed.
#[local] Hint Resolve quiet_copy_device_list : preserves.

Lemma quiet_device_get_count h : Preserves quiet (device_get_count h).
Proof. unfold device_get_count. preserves_tac; apply quiet_collect_devices; intros; preserves_tac. Qed.
#[local] Hint Resolve quiet_device_get_count : preserves.

Lemma quiet_make_device_info d : Preserves quiet (make_device_info d).
Proof. unfold make_device_info, usb_get_serial, usb_get_location, usb_get_pid, usb_get_speed. preserves_tac. Qed.
#[local] Hint Resolve quiet_make_device_info : preserves.

Lemma quiet_device_get_list h : Preserves quiet (device_get_list h).
Proof. unfold device_get_list. preserves_tac; apply quiet_collect_devices; intros; preserves_tac. Qed.
#[local] Hint Resolve quiet_device_get_list : preserves.

Lemma quiet_consume_ib p n : Preserves quiet (upd_conn p (consume_ib n)).
Proof. apply quiet_upd_conn. intros c. unfold consume_ib. by case_match. Qed.
#[local] Hint Resolve quiet_consume_ib : preserves.

Lemma quiet_flush_loop n conn t : Preserves quiet (flush_loop n conn t).
Proof. revert t; induction n; intros t; simpl; unfold nonnull; preserves_tac. Qed.
#[local] Hint Resolve quiet_flush_loop : preserves.

Lemma quiet_client_listed c : Preserves quiet (client_listed c).
Proof. unfold client_listed. preserves_tac. Qed.
#[local] Hint Resolve quiet_client_listed : preserves.

Lemma quiet_client_device_add i : Preserves quiet (client_device_add i).
Proof. unfold client_device_add. preserves_tac; apply quiet_foreach_listener; intros; preserves_tac. Qed.
#[local] Hint Resolve quiet_client_device_add : preserves.

Lemma quiet_preflight_worker_device_add i : Preserves quiet (preflight_worker_device_add i).
Proof. unfold preflight_worker_device_add. preserves_tac. Qed.
#[local] Hint Resolve quiet_preflight_worker_device_add : preserves.

Lemma quiet_preflight_device_remove_cb d : Preserves quiet (preflight_device_remove_cb d).
Proof. unfold preflight_device_remove_cb. preserves_tac. Qed.
#[local] Hint Resolve quiet_preflight_device_remove_cb : preserves.

Lemma quiet_update_connection c : Preserves quiet (update_connection c).
Proof. unfold update_connection. preserves_tac. Qed.
#[local] Hint Resolve quiet_update_connection : preserves.

Lemma quiet_print_string p b : Preserves quiet (print_string p b).
Proof. revert p; induction b; intros [[|]|]; simpl; preserves_tac. Qed.
#[local] Hint Resolve quiet_print_string : preserves.

Lemma quiet_device_control_input d p n : Preserves quiet (device_control_input d p n).
Proof. unfold device_control_input. preserves_tac. Qed.
#[local] Hint Resolve quiet_device_control_input : preserves.

Lemma quiet_find_connection d s p : Preserves quiet (find_connection d s p).
Proof. unfold find_connection. preserves_tac. Qed.
#[local] Hint Resolve quiet_find_connection : preserves.

Lemma quiet_find_usbdev u : Preserves quiet (find_usbdev u).
Proof. unfold find_usbdev. preserves_tac. Qed.
#[local] Hint Resolve quiet_find_usbdev : preserves.

Lemma quiet_load_conns l : Preserves quiet (load_conns l).
Proof. induction l; simpl; preserves_tac. Qed.
#[local] Hint Resolve quiet_load_conns : preserves.

Lemma quiet_active_conns l : Preserves quiet (active_conns l).
Proof. induction l; simpl; preserves_tac. Qed.
#[local] Hint Resolve quiet_active_conns : preserves.

Lemma quiet_device_get_timeout : Preserves quiet device_get_timeout.
Proof. unfold device_get_timeout. preserves_tac. Qed.
#[local] Hint Resolve quiet_device_get_timeout : preserves.

Lemma quiet_config_get_config_dir : Preserves quiet Conf.config_get_config_dir.
Proof. unfold Conf.config_get_config_dir. preserves_tac. Qed.
#[local] Hint Resolve quiet_config_get_config_dir : preserves.

Lemma quiet_fs_run op : Preserves quiet (Conf.fs_run op).
Proof. unfold Conf.fs_run. preserves_tac. Qed.
#[local] Hint Resolve quiet_fs_run : preserves.

Lemma quiet_mkdir_from n d m : Preserves quiet (Conf.mkdir_with_parents_from n d m).
Proof. revert d; induction n; intros d; simpl; preserves_tac. Qed.
#[local] Hint Resolve quiet_mkdir_from : preserves.

Lemma quiet_config_create_config_dir : Preserves quiet Conf.config_create_config_dir.
Proof. unfold Conf.config_create_config_dir, Conf.mkdir_with_parents. preserves_tac. Qed.
#[local] Hint Resolve quiet_config_create_config_dir : preserves.

Lemma quiet_get_rand a b : Preserves quiet (Conf.get_rand a b).
Proof. unfold Conf.get_rand. preserves_tac. Qed.
#[local] Hint Resolve quiet_get_rand : preserves.

Lemma quiet_uuid_loop i n : Preserves quiet (Conf.uuid_loop i n).
Proof. revert i; induction n; intros i; simpl; preserves_tac. Qed.
#[local] Hint Resolve quiet_uuid_loop : preserves.

Lemma quiet_config_generate_system_buid : Preserves quiet Conf.config_generate_system_buid.
Proof. unfold Conf.config_generate_system_buid, Conf.config_generate_uuid. preserves_tac. Qed.
#[local] Hint Resolve quiet_config_generate_system_buid : preserves.

Lemma quiet_internal_set_value f k v : Preserves quiet (Conf.internal_set_value f k v).
Proof. unfold Conf.internal_set_value. preserves_tac. Qed.
#[local] Hint Resolve quiet_internal_set_value : preserves.

Lemma quiet_internal_get_value f k : Preserves quiet (Conf.internal_get_value f k).
Proof. unfold Conf.internal_get_value. preserves_tac. Qed.
#[local] Hint Resolve quiet_internal_get_value : preserves.

Lemma quiet_config_set_system_buid b : Preserves quiet (Conf.config_set_system_buid b).
Proof. unfold Conf.config_set_system_buid, Conf.config_set_value. preserves_tac. Qed.
#[local] Hint Resolve quiet_config_set_system_buid : preserves.

Lemma quiet_config_get_system_buid : Preserves quiet Conf.config_get_system_buid.
Proof. unfold Conf.config_get_system_buid, Conf.config_get_value. preserves_tac. Qed.
#[local] Hint Resolve quiet_config_get_system_buid : preserves.

Lemma quiet_config_set_device_record u d : Preserves quiet (Conf.config_set_device_record u d).
Proof. unfold Conf.config_set_device_record. preserves_tac. Qed.
#[local] Hint Resolve quiet_config_set_device_record : preserves.

Lemma quiet_config_get_device_record u : Preserves quiet (Conf.config_get_device_record u).
Proof. unfold Conf.config_get_device_record. preserves_tac. Qed.
#[local] Hint Resolve quiet_config_get_device_record : preserves.

Lemma quiet_config_remove_device_record u : Preserves quiet (Conf.config_remove_device_record u).
Proof. unfold Conf.config_remove_device_record. preserves_tac. Qed.
#[local] Hint Resolve quiet_config_remove_device_record : preserves.

Lemma quiet_append_device_plists l d : Preserves quiet (append_device_plists l d).
Proof. revert d; induction l; intros d; simpl; preserves_tac. Qed.
#[local] Hint Resolve quiet_append_device_plists : preserves.

Lemma quiet_send_device_list c t : Preserves quiet (send_device_list c t).
Proof. unfold send_device_list. preserves_tac. Qed.
#[local] Hint Resolve quiet_send_device_list : preserves.

Lemma quiet_append_listeners c l d : Preserves quiet (append_listeners c l d).
Proof. revert d; induction l; intros d; simpl; preserves_tac. Qed.
#[local] Hint Resolve quiet_append_listeners : preserves.

Lemma quiet_send_listener_list c t : Preserves quiet (send_listener_list c t).
Proof. unfold send_listener_list. preserves_tac. Qed.
#[local] Hint Resolve quiet_send_listener_list : preserves.

Lemma quiet_send_system_buid c t : Preserves quiet (send_system_buid c t).
Proof. unfold send_system_buid. preserves_tac. Qed.
#[local] Hint Resolve quiet_send_system_buid : preserves.

Lemma quiet_send_pair_record c t r : Preserves quiet (send_pair_record c t r).
Proof. unfold send_pair_record. preserves_tac. Qed.
#[local] Hint Resolve quiet_send_pair_record : preserves.

Lemma quiet_send_device_adds c l : Preserves quiet (send_device_adds c l).
Proof. induction l; simpl; preserves_tac. Qed.
#[local] Hint Resolve quiet_send_device_adds : preserves.

Lemma quiet_update_client_info c d : Preserves quiet (update_client_info c d).
Proof. unfold update_client_info. preserves_tac. Qed.
#[local] Hint Resolve quiet_update_client_info : preserves.

Lemma quiet_check_sent (m : C world Z) :
  Preserves quiet m ->
  Preserves quiet (check_sent m).
Proof. intros Hm. unfold check_sent. preserves_tac. Qed.
#[local] Hint Resolve quiet_check_sent : preserves.

Lemma quiet_device_matches i r l : Preserves quiet (device_matches i r l).
Proof. induction l; simpl; preserves_tac. Qed.
#[local] Hint Resolve quiet_device_matches : preserves.

Lemma quiet_save_pair_record d : Preserves quiet (save_pair_record d).
Proof. unfold save_pair_record. preserves_tac. Qed.
#[local] Hint Resolve quiet_save_pair_record : preserves.

Lemma quiet_delete_pair_record d : Preserves quiet (delete_pair_record d).
Proof. unfold delete_pair_record. preserves_tac. Qed.
#[local] Hint Resolve quiet_delete_pair_record : preserves.

End quiet_functions.

#[export] Hint Resolve
  quiet_submit quiet_usb_send quiet_mstime64 quiet_recv quiet_send
  quiet_client_read quiet_client_write quiet_client_set_events quiet_copy_into
  quiet_output_buffer_add_message quiet_send_plist quiet_send_result
  quiet_create_device_attached_plist quiet_send_device_add
  quiet_send_device_remove quiet_send_device_paired quiet_foreach_listener
  quiet_client_device_remove quiet_client_device_paired quiet_dev_connections
  quiet_get_mux_device_for_id quiet_get_mux_connection quiet_bump
  quiet_get_next_device_id_loop quiet_get_next_device_id quiet_find_sport_loop
  quiet_find_sport quiet_send_packet quiet_send_anon_rst quiet_send_tcp
  quiet_on_device_id quiet_device_set_visible quiet_device_set_preflight_cb_data
  quiet_collect_devices quiet_copy_device_list quiet_device_get_count
  quiet_make_device_info quiet_device_get_list quiet_consume_ib quiet_flush_loop
  quiet_client_listed quiet_client_device_add quiet_preflight_worker_device_add
  quiet_preflight_device_remove_cb quiet_update_connection quiet_print_string
  quiet_device_control_input quiet_find_connection quiet_find_usbdev
  quiet_load_conns quiet_active_conns quiet_device_get_timeout
  quiet_config_get_config_dir quiet_fs_run quiet_mkdir_from
  quiet_config_create_config_dir quiet_get_rand quiet_uuid_loop
  quiet_config_generate_system_buid quiet_internal_set_value
  quiet_internal_get_value quiet_config_set_system_buid
  quiet_config_get_system_buid quiet_config_set_device_record
  quiet_config_get_device_record quiet_config_remove_device_record
  quiet_append_device_plists quiet_send_device_list quiet_append_listeners
  quiet_send_listener_list quiet_send_system_buid quiet_send_pair_record
  quiet_send_device_adds quiet_update_client_info quiet_check_sent
  quiet_device_matches quiet_save_pair_record quiet_delete_pair_record : preserves.
