(* ===== verification/Session.v ===== *)
(** * Session: the abstract session protocol and its invariant

    An abstract state machine over views: which clients, connections and
    devices exist and in which phase they are. Its steps are what the
    handlers of the daemon are allowed to do, each in one piece; the files
    after this one show that the handlers do nothing else. The invariant [wf]
    holds in every state the abstract machine reaches. *)

From stdpp Require Import base gmap list strings.
From Stdlib Require Import ZArith Lia.
From S2P Require Import Prelude Platform Wire World Views.

Local Open Scope Z_scope.

#[export] Instance eta_view `{E : Env} : Eta view := fun r =>
  mk_view (v_clients r) (v_conns r) (v_devs r) (v_usbdevs r) (v_client_list r) (v_device_list r).
#[export] Instance eta_conn_view : Eta conn_view := fun r =>
  mk_conn_view (cv_dev r) (cv_client r) (cv_state r) (cv_sport r) (cv_dport r).
#[export] Instance eta_dev_view `{E : Env} : Eta dev_view := fun r =>
  mk_dev_view (vd_usbdev r) (vd_id r) (vd_state r) (vd_connections r).

Section session.
Context `{E : Env}.

(** Which phase of a connection goes with which state of its client. *)
Definition phase_ok (s : mux_conn_state) (k : client_state) : bool :=
  match s, k with
  | (CONN_CONNECTING | CONN_REFUSED), CLIENT_CONNECTING1 => true
  | (CONN_CONNECTED | CONN_DYING), (CLIENT_CONNECTING2 | CLIENT_CONNECTED) => true
  | _, _ => false
  end.

(** ** The invariant *)

Record wf (v : view) : Prop := {
  wf_client_nodup : NoDup (coll_elems (v_client_list v));
  (** the client list holds exactly the allocated clients *)
  wf_client_list p : p ∈ coll_elems (v_client_list v) <-> is_Some (v_clients v !! p);
  wf_dev_nodup : NoDup (coll_elems (v_device_list v));
  (** the device list holds exactly the allocated devices *)
  wf_dev_list p : p ∈ coll_elems (v_device_list v) <-> is_Some (v_devs v !! p);
  (** every connection is in the collection of an allocated device *)
  wf_conn_dev p c : v_conns v !! p = Some c ->
    exists d l, v_devs v !! cv_dev c = Some d /\ vd_connections d = Some l /\ p ∈ coll_elems l;
  (** and a device's collection holds only allocated connections of its own *)
  wf_conns_nodup q d l :
    v_devs v !! q = Some d -> vd_connections d = Some l -> NoDup (coll_elems l);
  wf_dev_conn q d l p :
    v_devs v !! q = Some d -> vd_connections d = Some l -> p ∈ coll_elems l ->
    exists c, v_conns v !! p = Some c /\ cv_dev c = q;
  (** the collection is uninitialized exactly before the version packet *)
  wf_init q d : v_devs v !! q = Some d ->
    (vd_connections d = None <-> vd_state d = MUXDEV_INIT);
  wf_ids q q' d d' : v_devs v !! q = Some d -> v_devs v !! q' = Some d' ->
    vd_id d = vd_id d' -> q = q';
  wf_sports p p' c c' : v_conns v !! p = Some c -> v_conns v !! p' = Some c' ->
    cv_dev c = cv_dev c' -> cv_sport c = cv_sport c' -> p = p';
  (** a connection has a live client that asked for its device, in the phase
      that belongs to the connection's *)
  wf_conn_client p c : v_conns v !! p = Some c ->
    exists cl k d, cv_client c = Some cl /\ v_clients v !! cl = Some k /\
      v_devs v !! cv_dev c = Some d /\ k.2 = vd_id d /\ phase_ok (cv_state c) k.1 = true;
  wf_client_inj p p' c c' : v_conns v !! p = Some c -> v_conns v !! p' = Some c' ->
    cv_client c = cv_client c' -> p = p';
}.

(** ** View updates *)

Definition v_remove_conn (p : ptr) (q : ptr) (v : view) : view :=
  v <| v_conns ::= delete p |>
    <| v_devs ::= alter (fun d => d <| vd_connections ::= fmap (fun l => coll_remove l p) |>) q |>.

Definition v_remove_client (cl : ptr) (v : view) : view :=
  v <| v_clients ::= delete cl |> <| v_client_list ::= fun l => coll_remove l cl |>.

Definition v_remove_dev (q : ptr) (v : view) : view :=
  v <| v_devs ::= delete q |> <| v_device_list ::= fun l => coll_remove l q |>.

(** No connection belongs to this client. *)
Definition no_conn_of (v : view) (cl : ptr) : Prop :=
  forall p c, v_conns v !! p = Some c -> cv_client c <> Some cl.

(** ** Steps *)

Inductive sess_step : view -> view -> Prop :=
  (** a client is accepted *)
  | step_accept v cl d :
    v_clients v !! cl = None ->
    sess_step v (v <| v_clients ::= <[cl := (CLIENT_COMMAND, d)]> |>
                   <| v_client_list ::= fun l => coll_add l cl |>)
  (** a client subscribes to device events *)
  | step_listen v cl d :
    v_clients v !! cl = Some (CLIENT_COMMAND, d) ->
    sess_step v (v <| v_clients ::= <[cl := (CLIENT_LISTEN, d)]> |>)
  (** a client asks for a connection and a SYN is sent from a free port *)
  | step_connect v cl d0 p c q d l :
    v_clients v !! cl = Some (CLIENT_COMMAND, d0) ->
    v_conns v !! p = None ->
    v_devs v !! q = Some d -> vd_connections d = Some l ->
    (forall p' c', v_conns v !! p' = Some c' -> cv_dev c' = q -> cv_sport c' <> cv_sport c) ->
    cv_dev c = q -> cv_client c = Some cl -> cv_state c = CONN_CONNECTING ->
    sess_step v (v <| v_clients ::= <[cl := (CLIENT_CONNECTING1, vd_id d)]> |>
                   <| v_conns ::= <[p := c]> |>
                   <| v_devs ::= <[q := d <| vd_connections := Some (coll_add l p) |>]> |>)
  (** the device accepts *)
  | step_accepted v p c cl k :
    v_conns v !! p = Some c -> cv_state c = CONN_CONNECTING ->
    cv_client c = Some cl -> v_clients v !! cl = Some (CLIENT_CONNECTING1, k) ->
    sess_step v (v <| v_conns ::= <[p := c <| cv_state := CONN_CONNECTED |>]> |>
                   <| v_clients ::= <[cl := (CLIENT_CONNECTING2, k)]> |>)
  (** the reply reached the client, raw data may flow *)
  | step_established v cl k :
    v_clients v !! cl = Some (CLIENT_CONNECTING2, k) ->
    sess_step v (v <| v_clients ::= <[cl := (CLIENT_CONNECTED, k)]> |>)
  (** the device resets a pending or an established connection *)
  | step_reset v p c s :
    v_conns v !! p = Some c ->
    (cv_state c = CONN_CONNECTING /\ s = CONN_REFUSED) \/
    (cv_state c = CONN_CONNECTED /\ s = CONN_DYING) ->
    sess_step v (v <| v_conns ::= <[p := c <| cv_state := s |>]> |>)
  (** a connection that was never established ends, its client can go on *)
  | step_refuse v p c cl k :
    v_conns v !! p = Some c ->
    cv_client c = Some cl -> v_clients v !! cl = Some (CLIENT_CONNECTING1, k) ->
    sess_step v ((v_remove_conn p (cv_dev c) v) <| v_clients ::= <[cl := (CLIENT_COMMAND, k)]> |>)
  (** the same when the reply could not be queued *)
  | step_lost v p c cl k :
    v_conns v !! p = Some c ->
    cv_client c = Some cl -> v_clients v !! cl = Some (CLIENT_CONNECTING1, k) ->
    sess_step v (v_remove_conn p (cv_dev c) v)
  (** a connection ends together with its client *)
  | step_close v p c cl :
    v_conns v !! p = Some c -> cv_client c = Some cl ->
    sess_step v (v_remove_client cl (v_remove_conn p (cv_dev c) v))
  (** a client without a connection ends *)
  | step_leave v cl :
    is_Some (v_clients v !! cl) -> no_conn_of v cl ->
    sess_step v (v_remove_client cl v)
  (** a device is attached *)
  | step_attach v q d :
    v_devs v !! q = None -> vd_state d = MUXDEV_INIT -> vd_connections d = None ->
    (forall q' d', v_devs v !! q' = Some d' -> vd_id d' <> vd_id d) ->
    sess_step v (v <| v_devs ::= <[q := d]> |> <| v_device_list ::= fun l => coll_add l q |>)
  (** it answers the version request *)
  | step_activate v q d :
    v_devs v !! q = Some d -> vd_state d = MUXDEV_INIT ->
    sess_step v (v <| v_devs ::= <[q := d <| vd_state := MUXDEV_ACTIVE |>
                                           <| vd_connections := Some coll_init |>]> |>)
  (** it is gone, after all its connections *)
  | step_detach v q :
    is_Some (v_devs v !! q) ->
    (forall p c, v_conns v !! p = Some c -> cv_dev c <> q) ->
    sess_step v (v_remove_dev q v)
  (** USB devices come and go *)
  | step_usb v u : sess_step v (v <| v_usbdevs := u |>).

Definition v_empty : view := mk_view ∅ ∅ ∅ ∅ coll_init coll_init.

(** The abstract states that can occur. *)
Definition sess_reachable : view -> Prop := rtc sess_step v_empty.

End session.

(** ** The steps keep the invariant *)

Section wf_preserved.
Context `{E : Env} `{!CollectionLaws env_coll}.
Implicit Types v : view.

Lemma is_Some_insert_existing {A} (m : gmap ptr A) i x y j :
  m !! i = Some x -> is_Some (<[i := y]> m !! j) <-> is_Some (m !! j).
Proof.
  intros H. destruct (decide (i = j)) as [->|Hne].
  - rewrite lookup_insert_eq, H. by split; eauto.
  - by rewrite lookup_insert_ne.
Qed.

Lemma is_Some_insert_new {A} (m : gmap ptr A) i y j :
  is_Some (<[i := y]> m !! j) <-> j = i \/ is_Some (m !! j).
Proof.
  rewrite lookup_insert_is_Some'. split; intros [?|?]; auto.
Qed.

Lemma is_Some_delete {A} (m : gmap ptr A) i j :
  is_Some (delete i m !! j) <-> j <> i /\ is_Some (m !! j).
Proof.
  rewrite lookup_delete_is_Some. split; intros [? ?]; auto.
Qed.

Lemma wf_set_client v cl k k' :
  wf v -> v_clients v !! cl = Some k ->
  (forall p c, v_conns v !! p = Some c -> cv_client c = Some cl ->
     k'.2 = k.2 /\ phase_ok (cv_state c) k'.1 = true) ->
  wf (v <| v_clients ::= <[cl := k']> |>).
Proof.
  intros H Hk Hp. split; simpl; try apply H.
  - intros p. rewrite (wf_client_list _ H). by rewrite (is_Some_insert_existing _ _ k).
  - intros p c Hc.
    destruct (wf_conn_client _ H p c Hc) as (cl' & k0 & d & Hcl & Hk0 & Hd & Hid & Hph).
    destruct (decide (cl = cl')) as [->|Hne].
    + destruct (Hp _ _ Hc Hcl) as [Heq ?]. exists cl', k', d. rewrite lookup_insert_eq.
      split_and!; try done. congruence.
    + exists cl', k0, d. by rewrite lookup_insert_ne.
Qed.

Lemma wf_add_client v cl k :
  wf v -> v_clients v !! cl = None ->
  wf (v <| v_clients ::= <[cl := k]> |> <| v_client_list ::= fun l => coll_add l cl |>).
Proof.
  intros H Hk. split; simpl; try apply H.
  - apply NoDup_coll_add; [apply H|]. rewrite (wf_client_list _ H), Hk. by intros [].
  - intros p. rewrite elem_of_coll_add, (wf_client_list _ H), is_Some_insert_new. done.
  - intros p c Hc.
    destruct (wf_conn_client _ H p c Hc) as (cl' & k0 & d & Hcl & Hk0 & Hrest).
    exists cl', k0, d. rewrite lookup_insert_ne by congruence. done.
Qed.

Lemma wf_remove_client v cl :
  wf v -> no_conn_of v cl -> wf (v_remove_client cl v).
Proof.
  intros H Hno. split; simpl; try apply H.
  - apply NoDup_coll_remove, H.
  - intros p. rewrite elem_of_coll_remove by apply H.
    by rewrite (wf_client_list _ H), is_Some_delete.
  - intros p c Hc.
    destruct (wf_conn_client _ H p c Hc) as (cl' & k0 & d & Hcl & Hk0 & Hrest).
    exists cl', k0, d. rewrite lookup_delete_ne; [done|]. intros ->. by apply (Hno p c).
Qed.

(** Replacing a device by one with the same identity and connections. *)
Lemma wf_set_dev v q d d' :
  wf v -> v_devs v !! q = Some d ->
  vd_id d' = vd_id d ->
  (vd_connections d' = None <-> vd_state d' = MUXDEV_INIT) ->
  (vd_connections d' = vd_connections d \/
   vd_connections d = None /\ vd_connections d' = Some coll_init) ->
  wf (v <| v_devs ::= <[q := d']> |>).
Proof.
  intros H Hd Hid Hinit Hcon.
  assert (forall l p, vd_connections d' = Some l -> p ∈ coll_elems l ->
            vd_connections d = Some l) as Hback.
  { intros l p Hl Hp. destruct Hcon as [<-|[? He]]; [done|].
    rewrite He in Hl. simplify_eq. by rewrite coll_init_elems, elem_of_nil in Hp. }
  split; simpl; try apply H.
  - intros p. rewrite (wf_dev_list _ H). by rewrite (is_Some_insert_existing _ _ d).
  - intros p c Hc. destruct (wf_conn_dev _ H p c Hc) as (d0 & l & Hd0 & Hl & Hp).
    destruct (decide (q = cv_dev c)) as [->|Hne].
    + exists d', l. rewrite lookup_insert_eq. split_and!; try done.
      destruct Hcon as [->|[? _]]; congruence.
    + exists d0, l. by rewrite lookup_insert_ne.
  - intros q' d0 l. rewrite lookup_insert_Some. intros [[-> <-]|[Hne Hd0]] Hl.
    + destruct Hcon as [He|[_ He]].
      * apply (wf_conns_nodup _ H q' d); congruence.
      * rewrite He in Hl. simplify_eq. rewrite coll_init_elems. constructor.
    + by apply (wf_conns_nodup _ H q' d0).
  - intros q' d0 l p. rewrite lookup_insert_Some. intros [[-> <-]|[Hne Hd0]] Hl Hp.
    + apply (wf_dev_conn _ H q' d l); eauto.
    + by apply (wf_dev_conn _ H q' d0 l).
  - intros q' d0. rewrite lookup_insert_Some. intros [[-> <-]|[Hne Hd0]]; [done|].
    by apply (wf_init _ H q').
  - intros q1 q2 d1 d2. rewrite !lookup_insert_Some.
    intros [[-> <-]|[? H1]] [[-> <-]|[? H2]] Heq; try done.
    + apply (wf_ids _ H q1 q2 d d2); congruence.
    + apply (wf_ids _ H q1 q2 d1 d); congruence.
    + by apply (wf_ids _ H q1 q2 d1 d2).
  - intros p c Hc.
    destruct (wf_conn_client _ H p c Hc) as (cl & k & d0 & Hcl & Hk & Hd0 & Heq & Hph).
    destruct (decide (q = cv_dev c)) as [->|Hne].
    + exists cl, k, d'. rewrite lookup_insert_eq. split_and!; try done. congruence.
    + exists cl, k, d0. by rewrite lookup_insert_ne.
Qed.

Lemma wf_add_dev v q d :
  wf v -> v_devs v !! q = None -> vd_state d = MUXDEV_INIT -> vd_connections d = None ->
  (forall q' d', v_devs v !! q' = Some d' -> vd_id d' <> vd_id d) ->
  wf (v <| v_devs ::= <[q := d]> |> <| v_device_list ::= fun l => coll_add l q |>).
Proof.
  intros H Hd Hs Hc Hfresh. split; simpl; try apply H.
  - apply NoDup_coll_add; [apply H|]. rewrite (wf_dev_list _ H), Hd. by intros [].
  - intros p. rewrite elem_of_coll_add, (wf_dev_list _ H), is_Some_insert_new. done.
  - intros p c Hp. destruct (wf_conn_dev _ H p c Hp) as (d0 & l & Hd0 & Hrest).
    exists d0, l. rewrite lookup_insert_ne by congruence. done.
  - intros q' d0 l. rewrite lookup_insert_Some. intros [[-> <-]|[Hne Hd0]] Hl; [congruence|].
    by apply (wf_conns_nodup _ H q' d0).
  - intros q' d0 l p. rewrite lookup_insert_Some.
    intros [[-> <-]|[Hne Hd0]] Hl Hp; [congruence|]. by apply (wf_dev_conn _ H q' d0 l).
  - intros q' d0. rewrite lookup_insert_Some. intros [[-> <-]|[Hne Hd0]]; [done|].
    by apply (wf_init _ H q').
  - intros q1 q2 d1 d2. rewrite !lookup_insert_Some.
    intros [[-> <-]|[? H1]] [[-> <-]|[? H2]] Heq; try done.
    + by destruct (Hfresh _ _ H2).
    + by destruct (Hfresh _ _ H1).
    + by apply (wf_ids _ H q1 q2 d1 d2).
  - intros p c Hp.
    destruct (wf_conn_client _ H p c Hp) as (cl & k & d0 & Hcl & Hk & Hd0 & Hrest).
    exists cl, k, d0. rewrite lookup_insert_ne by congruence. done.
Qed.

Lemma wf_remove_dev v q :
  wf v -> (forall p c, v_conns v !! p = Some c -> cv_dev c <> q) -> wf (v_remove_dev q v).
Proof.
  intros H Hno. split; simpl; try apply H.
  - apply NoDup_coll_remove, H.
  - intros p. rewrite elem_of_coll_remove by apply H.
    by rewrite (wf_dev_list _ H), is_Some_delete.
  - intros p c Hc. destruct (wf_conn_dev _ H p c Hc) as (d0 & l & Hd0 & Hrest).
    exists d0, l. rewrite lookup_delete_ne; [done|]. intros ->. by apply (Hno p c).
  - intros q' d0 l. rewrite lookup_delete_Some. intros [_ Hd0]. by apply (wf_conns_nodup _ H q').
  - intros q' d0 l p. rewrite lookup_delete_Some. intros [_ Hd0]. by apply (wf_dev_conn _ H q').
  - intros q' d0. rewrite lookup_delete_Some. intros [_ Hd0]. by apply (wf_init _ H q').
  - intros q1 q2 d1 d2. rewrite !lookup_delete_Some. intros [_ ?] [_ ?].
    by apply (wf_ids _ H q1 q2).
  - intros p c Hc.
    destruct (wf_conn_client _ H p c Hc) as (cl & k & d0 & Hcl & Hk & Hd0 & Hrest).
    exists cl, k, d0. rewrite (lookup_delete_ne (v_devs v)); [done|].
    intros ->. by apply (Hno p c).
Qed.

(** A connection and its client move to a new phase together. *)
Lemma wf_set_phase v p c cl k k' s :
  wf v -> v_conns v !! p = Some c -> cv_client c = Some cl -> v_clients v !! cl = Some k ->
  k'.2 = k.2 -> phase_ok s k'.1 = true ->
  wf (v <| v_conns ::= <[p := c <| cv_state := s |>]> |> <| v_clients ::= <[cl := k']> |>).
Proof.
  intros H Hc Hcl Hk Heq Hph. set (c' := c <| cv_state := s |>).
  assert (forall p' c0, <[p := c']> (v_conns v) !! p' = Some c0 ->
    exists c1, v_conns v !! p' = Some c1 /\ cv_dev c0 = cv_dev c1 /\
      cv_client c0 = cv_client c1 /\ cv_sport c0 = cv_sport c1) as Hold.
  { intros p' c0. rewrite lookup_insert_Some. intros [[<- <-]|[_ ?]]; eauto. }
  split; simpl; try apply H.
  - intros q. rewrite (wf_client_list _ H). by rewrite (is_Some_insert_existing _ _ k).
  - intros p' c0 (c1 & Hc1 & -> & _)%Hold. by apply (wf_conn_dev _ H).
  - intros q d l p' Hd Hl Hp'. destruct (wf_dev_conn _ H q d l p' Hd Hl Hp') as (c0 & Hc0 & <-).
    destruct (decide (p = p')) as [->|Hne].
    + exists c'. rewrite lookup_insert_eq. split; [done|]. simpl. congruence.
    + exists c0. by rewrite lookup_insert_ne.
  - intros p1 p2 c1 c2 (c1' & H1 & E1 & _ & F1)%Hold (c2' & H2 & E2 & _ & F2)%Hold ? ?.
    apply (wf_sports _ H p1 p2 c1' c2'); congruence.
  - intros p' c0. rewrite lookup_insert_Some. intros [[<- <-]|[Hne Hc0]].
    + destruct (wf_conn_client _ H p c Hc) as (cl' & k0 & d & Hcl' & Hk0 & Hd & Hid & _).
      simplify_eq. exists cl, k', d. rewrite lookup_insert_eq.
      split_and!; simpl; try done. congruence.
    + destruct (wf_conn_client _ H p' c0 Hc0) as (cl' & k0 & d & Hcl' & Hk0 & Hd & Hid & Hp0).
      exists cl', k0, d. rewrite lookup_insert_ne; [done|].
      intros <-. apply Hne. apply (wf_client_inj _ H p p' c c0); congruence.
  - intros p1 p2 c1 c2 (c1' & H1 & _ & E1 & _)%Hold (c2' & H2 & _ & E2 & _)%Hold ?.
    apply (wf_client_inj _ H p1 p2 c1' c2'); congruence.
Qed.

Lemma wf_add_conn v cl k p c q d l :
  wf v -> v_clients v !! cl = Some k -> k.2 = vd_id d -> phase_ok (cv_state c) k.1 = true ->
  no_conn_of v cl -> v_conns v !! p = None ->
  v_devs v !! q = Some d -> vd_connections d = Some l ->
  (forall p' c', v_conns v !! p' = Some c' -> cv_dev c' = q -> cv_sport c' <> cv_sport c) ->
  cv_dev c = q -> cv_client c = Some cl ->
  wf (v <| v_conns ::= <[p := c]> |>
        <| v_devs ::= <[q := d <| vd_connections := Some (coll_add l p) |>]> |>).
Proof.
  intros H Hk Hid Hph Hno Hp Hd Hl Hsp <- Hcl.
  set (q := cv_dev c) in *. set (d' := d <| vd_connections := Some (coll_add l p) |>).
  assert (p ∉ coll_elems l) as Hpl.
  { intros Hin. destruct (wf_dev_conn _ H q d l p Hd Hl Hin) as (? & ? & _). congruence. }
  split; simpl; try apply H.
  - intros q'. rewrite (wf_dev_list _ H). by rewrite (is_Some_insert_existing _ _ d).
  - intros p' c0. rewrite lookup_insert_Some. intros [[<- <-]|[Hne Hc0]].
    + exists d', (coll_add l p). rewrite lookup_insert_eq, elem_of_coll_add. auto.
    + destruct (wf_conn_dev _ H p' c0 Hc0) as (d0 & l0 & Hd0 & Hl0 & Hin).
      destruct (decide (q = cv_dev c0)) as [He|Hne'].
      * exists d', (coll_add l p). rewrite <- He, lookup_insert_eq, elem_of_coll_add.
        split_and!; try done. right. congruence.
      * exists d0, l0. by rewrite lookup_insert_ne.
  - intros q' d0 l0. rewrite lookup_insert_Some. intros [[<- <-]|[Hne Hd0]]; simpl; intros Hl0.
    + simplify_eq. apply NoDup_coll_add; [by apply (wf_conns_nodup _ H q d)|done].
    + by apply (wf_conns_nodup _ H q' d0).
  - intros q' d0 l0 p'. rewrite lookup_insert_Some.
    intros [[<- <-]|[Hne Hd0]]; simpl; intros Hl0 Hin.
    + simplify_eq. apply elem_of_coll_add in Hin as [->|Hin].
      * exists c. by rewrite lookup_insert_eq.
      * destruct (wf_dev_conn _ H q d l p' Hd Hl Hin) as (c0 & Hc0 & He).
        exists c0. rewrite lookup_insert_ne by congruence. done.
    + destruct (wf_dev_conn _ H q' d0 l0 p' Hd0 Hl0 Hin) as (c0 & Hc0 & He).
      exists c0. rewrite lookup_insert_ne by congruence. done.
  - intros q' d0. rewrite lookup_insert_Some. intros [[<- <-]|[Hne Hd0]]; simpl.
    + rewrite <- (wf_init _ H q d Hd), Hl. done.
    + by apply (wf_init _ H q').
  - intros q1 q2 d1 d2. rewrite !lookup_insert_Some.
    intros [[<- <-]|[? H1]] [[<- <-]|[? H2]] Heq; try done.
    + by apply (wf_ids _ H q q2 d d2).
    + by apply (wf_ids _ H q1 q d1 d).
    + by apply (wf_ids _ H q1 q2 d1 d2).
  - intros p1 p2 c1 c2. rewrite !lookup_insert_Some.
    intros [[<- <-]|[? H1]] [[<- <-]|[? H2]] He Hs; try done.
    + by destruct (Hsp p2 c2 H2).
    + by destruct (Hsp p1 c1 H1).
    + by apply (wf_sports _ H p1 p2 c1 c2).
  - intros p' c0. rewrite lookup_insert_Some. intros [[<- <-]|[Hne Hc0]].
    + exists cl, k, d'. by rewrite lookup_insert_eq.
    + destruct (wf_conn_client _ H p' c0 Hc0) as (cl' & k0 & d0 & Hcl' & Hk0 & Hd0 & Hi & Hp0).
      destruct (decide (q = cv_dev c0)) as [He|Hne'].
      * exists cl', k0, d'. rewrite <- He, lookup_insert_eq. split_and!; try done.
        simpl. congruence.
      * exists cl', k0, d0. by rewrite lookup_insert_ne.
  - intros p1 p2 c1 c2. rewrite !lookup_insert_Some.
    intros [[<- <-]|[? H1]] [[<- <-]|[? H2]] He; try done.
    + destruct (Hno p2 c2 H2). congruence.
    + destruct (Hno p1 c1 H1). congruence.
    + by apply (wf_client_inj _ H p1 p2 c1 c2).
Qed.

(** Removing a connection keeps everything about the others. *)
Lemma wf_remove_conn v p c :
  wf v -> v_conns v !! p = Some c -> wf (v_remove_conn p (cv_dev c) v).
Proof.
  intros H Hc. unfold v_remove_conn. set (q := cv_dev c).
  set (f := fun d : dev_view => d <| vd_connections ::= fmap (fun l => coll_remove l p) |>).
  assert (forall q' d', alter f q (v_devs v) !! q' = Some d' ->
    exists d, v_devs v !! q' = Some d /\ vd_id d' = vd_id d /\ vd_state d' = vd_state d /\
      ((q' = q /\ d' = f d) \/ (q' <> q /\ d' = d))) as Hold.
  { intros q' d'. rewrite lookup_alter_Some.
    intros [(<- & d & ? & ->)|[? ?]]; [exists d|exists d']; split_and!; auto. }
  assert (forall q' d, v_devs v !! q' = Some d ->
    exists d', alter f q (v_devs v) !! q' = Some d' /\ vd_id d' = vd_id d) as Hnew.
  { intros q' d Hd. destruct (decide (q = q')) as [<-|Hne].
    - exists (f d). by rewrite lookup_alter_eq, Hd.
    - exists d. by rewrite lookup_alter_ne. }
  split; simpl; try apply H.
  - intros q'. rewrite (wf_dev_list _ H). symmetry. apply lookup_alter_is_Some.
  - intros p' c0. rewrite lookup_delete_Some. intros [Hne Hc0].
    destruct (wf_conn_dev _ H p' c0 Hc0) as (d0 & l0 & Hd0 & Hl0 & Hin).
    destruct (decide (q = cv_dev c0)) as [He|Hne'].
    + exists (f d0), (coll_remove l0 p). rewrite <- He, lookup_alter_eq, He, Hd0. simpl.
      rewrite Hl0. split_and!; try done. apply elem_of_coll_remove; [|auto].
      by apply (wf_conns_nodup _ H (cv_dev c0) d0).
    + exists d0, l0. by rewrite lookup_alter_ne.
  - intros q' d' l' (d & Hd & _ & _ & [[-> ->]|[_ ->]])%Hold; simpl.
    + intros (l & Hl & ->)%fmap_Some. apply NoDup_coll_remove.
      by apply (wf_conns_nodup _ H q d).
    + by apply (wf_conns_nodup _ H q').
  - intros q' d' l' p' (d & Hd & _ & _ & [[-> ->]|[Hne ->]])%Hold; simpl.
    + intros (l & Hl & ->)%fmap_Some Hin.
      apply elem_of_coll_remove in Hin as [Hne Hin]; [|by apply (wf_conns_nodup _ H q d)].
      destruct (wf_dev_conn _ H q d l p' Hd Hl Hin) as (c0 & Hc0 & He).
      exists c0. rewrite lookup_delete_ne; done.
    + intros Hl Hin. destruct (wf_dev_conn _ H q' d l' p' Hd Hl Hin) as (c0 & Hc0 & He).
      exists c0. rewrite lookup_delete_ne; [done|]. intros <-. unfold q in Hne. congruence.
  - intros q' d' (d & Hd & _ & Hs & [[-> ->]|[_ ->]])%Hold.
    + rewrite Hs, <- (wf_init _ H q d Hd). simpl. apply fmap_None.
    + by apply (wf_init _ H q').
  - intros q1 q2 d1 d2 (d1' & H1 & E1 & _)%Hold (d2' & H2 & E2 & _)%Hold ?.
    apply (wf_ids _ H q1 q2 d1' d2'); congruence.
  - intros p1 p2 c1 c2. rewrite !lookup_delete_Some. intros [_ ?] [_ ?].
    by apply (wf_sports _ H p1 p2 c1 c2).
  - intros p' c0. rewrite lookup_delete_Some. intros [Hne Hc0].
    destruct (wf_conn_client _ H p' c0 Hc0) as (cl' & k0 & d0 & Hcl' & Hk0 & Hd0 & Hi & Hp0).
    destruct (Hnew _ _ Hd0) as (d1 & Hd1 & He). exists cl', k0, d1.
    split_and!; try done. congruence.
  - intros p1 p2 c1 c2. rewrite !lookup_delete_Some. intros [_ ?] [_ ?].
    by apply (wf_client_inj _ H p1 p2 c1 c2).
Qed.

(** After its removal no connection belongs to the client. *)
Lemma no_conn_of_removed v p c cl :
  wf v -> v_conns v !! p = Some c -> cv_client c = Some cl ->
  no_conn_of (v_remove_conn p (cv_dev c) v) cl.
Proof.
  intros H Hc Hcl p' c'. simpl. rewrite lookup_delete_Some. intros [Hne Hc'] He.
  apply Hne. apply (wf_client_inj _ H p p' c c'); congruence.
Qed.

(** A client in the command phase has no connection. *)
Lemma no_conn_of_state v cl k :
  wf v -> v_clients v !! cl = Some k ->
  k.1 <> CLIENT_CONNECTING1 -> k.1 <> CLIENT_CONNECTING2 -> k.1 <> CLIENT_CONNECTED ->
  no_conn_of v cl.
Proof.
  intros H Hk H1 H2 H3 p c Hc Hcl.
  destruct (wf_conn_client _ H p c Hc) as (cl' & k' & d & Hcl' & Hk' & _ & _ & Hph).
  assert (k' = k) as -> by congruence.
  destruct (cv_state c), k.1; done.
Qed.

Lemma sess_step_wf v v' : sess_step v v' -> wf v -> wf v'.
Proof.
  destruct 1 as [v cl d Hk|v cl d Hk|v cl d0 p c q d l Hk Hp Hd Hl Hsp Hq Hcl Hs
    |v p c cl k Hc Hs Hcl Hk|v cl k Hk|v p c s Hc Hs|v p c cl k Hc Hcl Hk|v p c cl k Hc Hcl Hk
    |v p c cl Hc Hcl|v cl Hk Hno|v q d Hq Hs Hc Hf|v q d Hd Hs|v q Hq Hno|v u];
    intros H.
  - by apply wf_add_client.
  - apply (wf_set_client _ _ (CLIENT_COMMAND, d)); [done..|]. intros p c Hc Hcl.
    by destruct (no_conn_of_state v cl _ H Hk ltac:(done) ltac:(done) ltac:(done) p c).
  - assert (no_conn_of v cl) as Hno by by eapply no_conn_of_state.
    apply (wf_add_conn (v <| v_clients ::= <[cl := (CLIENT_CONNECTING1, vd_id d)]> |>)
             cl (CLIENT_CONNECTING1, vd_id d) p c q d l); simpl; try done.
    + apply (wf_set_client _ _ (CLIENT_COMMAND, d0)); [done..|].
      intros p' c' Hc' Hcl'. by destruct (Hno p' c').
    + apply lookup_insert_eq.
    + by rewrite Hs.
  - by apply (wf_set_phase v p c cl (CLIENT_CONNECTING1, k)).
  - apply (wf_set_client _ _ (CLIENT_CONNECTING2, k)); [done..|]. intros p c Hc Hcl.
    split; [done|]. destruct (wf_conn_client _ H p c Hc) as (cl' & k' & d & ? & ? & _ & _ & Hph).
    simplify_eq. by destruct (cv_state c).
  - destruct (wf_conn_client _ H p c Hc) as (cl & k & d & Hcl & Hk & _ & _ & Hph).
    pose proof (wf_set_phase v p c cl k k s H Hc Hcl Hk eq_refl) as Hw.
    simpl in Hw. rewrite (insert_id _ cl k Hk) in Hw.
    apply Hw. destruct Hs as [[He ->]|[He ->]]; rewrite He in Hph; by destruct k.1.
  - apply (wf_set_client _ _ (CLIENT_CONNECTING1, k)); [by apply wf_remove_conn|done|].
    intros p' c' Hc' Hcl'. by destruct (no_conn_of_removed v p c cl H Hc Hcl p' c').
  - by apply wf_remove_conn.
  - apply wf_remove_client; [by apply wf_remove_conn|by apply no_conn_of_removed].
  - by apply wf_remove_client.
  - by apply wf_add_dev.
  - apply (wf_set_dev _ _ d); simpl; try done. right. split; [|done].
    by apply (wf_init _ H q d).
  - by apply wf_remove_dev.
  - destruct H. by split.
Qed.

(** No device is left marked as dead between two steps. *)
Definition alive v : Prop := forall q d, v_devs v !! q = Some d -> vd_state d <> MUXDEV_DEAD.

Lemma alive_alter v q f : alive v -> (forall d, vd_state (f d) = vd_state d) ->
  alive (v <| v_devs ::= alter f q |>).
Proof.
  intros H Hf q' d. simpl. rewrite lookup_alter_Some.
  intros [(-> & d0 & Hd0 & ->)|[_ Hd]]; [rewrite Hf|]; by eapply H.
Qed.

Lemma sess_step_alive v v' : sess_step v v' -> alive v -> alive v'.
Proof.
  destruct 1 as [v cl d Hk|v cl d Hk|v cl d0 p c q d l Hk Hp Hd Hl Hsp Hq Hcl Hs
    |v p c cl k Hc Hs Hcl Hk|v cl k Hk|v p c s Hc Hs|v p c cl k Hc Hcl Hk|v p c cl k Hc Hcl Hk
    |v p c cl Hc Hcl|v cl Hk Hno|v q d Hq Hs Hc Hf|v q d Hd Hs|v q Hq Hno|v u];
    intros H; try exact H; try (by apply (alive_alter v)); intros q' d'; simpl.
  - rewrite lookup_insert_Some. intros [[_ <-]|[_ Hd']]; [|by eapply H]. simpl. by eapply H.
  - rewrite lookup_insert_Some. intros [[_ <-]|[_ Hd']]; [by rewrite Hs|by eapply H].
  - rewrite lookup_insert_Some. intros [[_ <-]|[_ Hd']]; [done|by eapply H].
  - rewrite lookup_delete_Some. intros [_ Hd']. by eapply H.
Qed.

Lemma sess_steps_alive v v' : rtc sess_step v v' -> alive v -> alive v'.
Proof. induction 1; eauto using sess_step_alive. Qed.

Lemma sess_steps_wf v v' : rtc sess_step v v' -> wf v -> wf v'.
Proof. induction 1; eauto using sess_step_wf. Qed.

End wf_preserved.
