(* ===== verification/RefineTeardown.v ===== *)
(** * RefineTeardown: ending a connection or a client is one abstract step *)

From stdpp Require Import base gmap list strings.
From Stdlib Require Import ZArith Lia.
From S2P Require Import Prelude Platform Wire World Utils Conf Usb ClientOut DeviceOut.
From S2P Require Import Teardown Device Client Views Session.

Local Open Scope Z_scope.

Section refine.
Context `{E : Env} `{!CollectionLaws env_coll}.
Implicit Types w : world.

(** Pointers that the allocator has not handed out are not in use. *)
Definition fresh_ok (w : world) : Prop := forall p, (w_next w <= p)%positive ->
  w_clients w !! p = None /\ w_conns w !! p = None /\ w_devs w !! p = None.

Definition inv (w : world) : Prop := wf (view_of w) /\ fresh_ok w /\ alive (view_of w).

(** From a state that satisfies the invariant, the session structure changes
    by abstract steps and the invariant still holds. *)
Definition sim (w w' : world) : Prop :=
  inv w -> rtc sess_step (view_of w) (view_of w') /\ inv w'.

#[export] Instance sim_preorder : PreOrder sim.
Proof.
  split.
  - intros w H. by split; [constructor|].
  - intros w1 w2 w3 H12 H23 H1. destruct (H12 H1) as [S12 H2], (H23 H2) as [S23 H3].
    split; [by etrans|done].
Qed.

Lemma lookup_v_conns w p c : w_conns w !! p = Some c -> v_conns (view_of w) !! p = Some (conn_v c).
Proof. intros H. simpl. by rewrite lookup_fmap, H. Qed.
Lemma lookup_v_clients w p c :
  w_clients w !! p = Some c -> v_clients (view_of w) !! p = Some (client_v c).
Proof. intros H. simpl. by rewrite lookup_fmap, H. Qed.
Lemma lookup_v_devs w p d : w_devs w !! p = Some d -> v_devs (view_of w) !! p = Some (dev_v d).
Proof. intros H. simpl. by rewrite lookup_fmap, H. Qed.

Lemma v_conns_inv w p cv : v_conns (view_of w) !! p = Some cv ->
  exists c, w_conns w !! p = Some c /\ cv = conn_v c.
Proof. simpl. rewrite lookup_fmap. intros (c & ? & ?)%fmap_Some. eauto. Qed.
Lemma v_clients_inv w p k : v_clients (view_of w) !! p = Some k ->
  exists c, w_clients w !! p = Some c /\ k = client_v c.
Proof. simpl. rewrite lookup_fmap. intros (c & ? & ?)%fmap_Some. eauto. Qed.
Lemma v_devs_inv w p dv : v_devs (view_of w) !! p = Some dv ->
  exists d, w_devs w !! p = Some d /\ dv = dev_v d.
Proof. simpl. rewrite lookup_fmap. intros (c & ? & ?)%fmap_Some. eauto. Qed.

Lemma fresh_ok_view w : fresh_ok w <-> forall p, (w_next w <= p)%positive ->
  v_clients (view_of w) !! p = None /\ v_conns (view_of w) !! p = None /\
  v_devs (view_of w) !! p = None.
Proof.
  unfold fresh_ok. simpl. setoid_rewrite lookup_fmap. setoid_rewrite fmap_None. done.
Qed.

Lemma quiet_sim w w' : quiet w w' -> sim w w'.
Proof.
  intros [Hv Hn] (Hwf & Hf & Ha). unfold inv. rewrite Hv. split; [done|].
  split; [done|]. split; [|done]. rewrite fresh_ok_view in Hf |- *. rewrite Hv. intros p Hp. apply Hf. lia.
Qed.

Lemma preserves_quiet_sim {A} (m : C world A) : Preserves quiet m -> Preserves sim m.
Proof. intros H w. eapply wlp_mono; [apply H|]. intros a w'. apply quiet_sim. Qed.

(** ** Lookups *)

(** What the nested loops of [get_mux_connection] look for. *)
Definition is_conn_of (w : world) (client lconn : ptr) : option ptr :=
  match w_conns w !! lconn with
  | Some c => if decide (cn_client c = Some client) then Some lconn else None
  | None => None
  end.

Lemma wlp_get_mux_connection w id client :
  wlp (get_mux_connection id client) (fun r w' => w' = w /\
    match r with
    | Some p => exists c, w_conns w !! p = Some c /\ cn_client c = Some client
    | None => forall q d l p c, q ∈ coll_elems (device_list w) -> w_devs w !! q = Some d ->
        (forall q' d', w_devs w !! q' = Some d' -> dv_id d' = id -> q' = q) ->
        dv_id d = id -> dv_connections d = Some l -> p ∈ coll_elems l ->
        w_conns w !! p = Some c -> cn_client c <> Some client
    end) w.
Proof.
  set (inner := fun dev => match w_devs w !! dev with
    | Some d => match dv_connections d with
                | Some l => find_map (is_conn_of w client) (coll_elems l) | None => None end
    | None => None end).
  set (f := fun dev => match w_devs w !! dev with
    | Some d => if dv_id d =? id then Some (inner dev) else None
    | None => None end).
  unfold get_mux_connection. apply wlp_bind.
  eapply (wlp_foreach_find _ _ f); [done|..].
  - intros dev _. apply wlp_bind, wlp_load. intros d Hd. unfold f, inner. rewrite Hd.
    destruct (dv_id d =? id); [|done]. apply wlp_bind.
    destruct (dv_connections d) as [l|] eqn:Hl.
    + eapply (wlp_foreach_find _ _ (is_conn_of w client)); [|..].
      * unfold dev_connections, mbind, C_bind, load. by rewrite Hd, Hl.
      * intros lconn _. apply wlp_bind, wlp_load. intros c Hc. unfold is_conn_of. by rewrite Hc.
      * done.
    + unfold wlp, foreach, dev_connections, mbind, C_bind, load. by rewrite Hd, Hl.
  - split; [done|]. destruct (find_map f _) as [[p|]|] eqn:Hfind; simpl.
    + apply find_map_Some in Hfind as (q & _ & Hq). unfold f, inner in Hq.
      destruct (w_devs w !! q) as [d|]; [|done]. destruct (dv_id d =? id); [|done].
      destruct (dv_connections d) as [l|]; [|done]. injection Hq as Hq.
      apply find_map_Some in Hq as (p' & _ & Hp'). unfold is_conn_of in Hp'.
      destruct (w_conns w !! p') as [c|] eqn:Hc; [|done]. case_decide; [|done].
      simplify_eq. eauto.
    + apply find_map_Some in Hfind as (q & Hq & Hfq). unfold f, inner in Hfq.
      destruct (w_devs w !! q) as [d|] eqn:Hd; [|done].
      destruct (Z.eqb_spec (dv_id d) id) as [Hid|]; [|done]. injection Hfq as Hfq.
      intros q' d' l p c Hq' Hd' Huniq Hid' Hl Hp Hc.
      assert (q = q') as -> by eauto. rewrite Hd in Hd'. simplify_eq. rewrite Hl in Hfq.
      rewrite find_map_None in Hfq. specialize (Hfq p Hp). unfold is_conn_of in Hfq.
      rewrite Hc in Hfq. by case_decide.
    + rewrite find_map_None in Hfind. intros q' d' l p c Hq' Hd' _ Hid' Hl Hp Hc.
      specialize (Hfind q' Hq'). unfold f in Hfind. rewrite Hd' in Hfind.
      by destruct (Z.eqb_spec (dv_id d') id).
Qed.

Lemma wlp_client_listed w client :
  wlp (client_listed client) (fun r w' => w' = w /\
    r = bool_decide (client ∈ coll_elems (client_list w))) w.
Proof.
  unfold client_listed. apply wlp_bind.
  eapply (wlp_foreach_find _ _ (fun lc => if decide (client = lc) then Some tt else None));
    [done|done|].
  split; [done|]. destruct (find_map _ _) as [[]|] eqn:Hf.
  - apply find_map_Some in Hf as (p & Hp & Hd). case_decide; [|done]. subst.
    by rewrite bool_decide_true.
  - rewrite find_map_None in Hf. rewrite bool_decide_false; [done|].
    intros Hin. specialize (Hf _ Hin). by rewrite decide_True in Hf.
Qed.

(** ** Running a function on a known view

    [seen v n w]: the view of [w] is [v] and the allocator is past [n]. *)
Definition seen (v : view) (n : ptr) (w : world) : Prop :=
  view_of w = v /\ (n <= w_next w)%positive.

Lemma seen_here w : seen (view_of w) (w_next w) w.
Proof. split; [done|lia]. Qed.

Lemma wlp_quiet {A} (m : C world A) v n w :
  Preserves quiet m -> seen v n w -> wlp m (fun _ => seen v n) w.
Proof.
  intros Hm [<- Hn]. eapply wlp_mono; [apply Hm|]. intros _ w' [Hv Hn'].
  split; [done|lia].
Qed.

(** A quiet call before the rest of a function. *)
Lemma wlp_quiet_bind {A B} (m : C world A) (k : A -> C world B) v n Q w :
  Preserves quiet m -> seen v n w ->
  (forall a w', seen v n w' -> wlp (k a) Q w') -> wlp (m ≫= k) Q w.
Proof. intros Hm Hw Hk. eapply wlp_call; [by apply (wlp_quiet m v n)|]. intros a w'. apply Hk. Qed.

Lemma wlp_seen_upd_conn p f v n Q w :
  seen v n w ->
  (forall c w', v_conns v !! p = Some (conn_v c) ->
    seen (v <| v_conns ::= <[p := conn_v (f c)]> |>) n w' -> Q tt w') ->
  wlp (upd_conn p f) Q w.
Proof.
  intros [<- Hn] HQ. apply wlp_update. intros c Hc. apply (HQ c).
  - by apply lookup_v_conns.
  - split; [|done]. unfold view_of; simpl. by rewrite fmap_insert.
Qed.

Lemma wlp_seen_upd_client p f v n Q w :
  seen v n w ->
  (forall c w', v_clients v !! p = Some (client_v c) ->
    seen (v <| v_clients ::= <[p := client_v (f c)]> |>) n w' -> Q tt w') ->
  wlp (upd_client p f) Q w.
Proof.
  intros [<- Hn] HQ. apply wlp_update. intros c Hc. apply (HQ c).
  - by apply lookup_v_clients.
  - split; [|done]. unfold view_of; simpl. by rewrite fmap_insert.
Qed.

Lemma wlp_seen_upd_dev p f v n Q w :
  seen v n w ->
  (forall d w', v_devs v !! p = Some (dev_v d) ->
    seen (v <| v_devs ::= <[p := dev_v (f d)]> |>) n w' -> Q tt w') ->
  wlp (upd_dev p f) Q w.
Proof.
  intros [<- Hn] HQ. apply wlp_update. intros c Hc. apply (HQ c).
  - by apply lookup_v_devs.
  - split; [|done]. unfold view_of; simpl. by rewrite fmap_insert.
Qed.

Lemma wlp_seen_free_conn p v n Q w :
  seen v n w ->
  (forall w', seen (v <| v_conns ::= delete p |>) n w' -> Q tt w') ->
  wlp (free w_conns p) Q w.
Proof.
  intros [<- Hn] HQ. apply wlp_free. intros c Hc. apply HQ.
  split; [|done]. unfold view_of; simpl. by rewrite fmap_delete.
Qed.

Lemma wlp_seen_free_client p v n Q w :
  seen v n w ->
  (forall w', seen (v <| v_clients ::= delete p |>) n w' -> Q tt w') ->
  wlp (free w_clients p) Q w.
Proof.
  intros [<- Hn] HQ. apply wlp_free. intros c Hc. apply HQ.
  split; [|done]. unfold view_of; simpl. by rewrite fmap_delete.
Qed.

Lemma wlp_seen_free_dev p v n Q w :
  seen v n w ->
  (forall w', seen (v <| v_devs ::= delete p |>) n w' -> Q tt w') ->
  wlp (free w_devs p) Q w.
Proof.
  intros [<- Hn] HQ. apply wlp_free. intros c Hc. apply HQ.
  split; [|done]. unfold view_of; simpl. by rewrite fmap_delete.
Qed.

Lemma wlp_seen_get_conn p v n Q w :
  seen v n w ->
  (forall c, v_conns v !! p = Some (conn_v c) -> w_conns w !! p = Some c -> Q c w) ->
  wlp (get_conn p) Q w.
Proof. intros [<- Hn] HQ. apply wlp_load. intros c Hc. by apply HQ; [apply lookup_v_conns|]. Qed.

Lemma wlp_seen_get_client p v n Q w :
  seen v n w ->
  (forall c, v_clients v !! p = Some (client_v c) -> w_clients w !! p = Some c -> Q c w) ->
  wlp (get_client p) Q w.
Proof. intros [<- Hn] HQ. apply wlp_load. intros c Hc. by apply HQ; [apply lookup_v_clients|]. Qed.

Lemma wlp_seen_get_dev p v n Q w :
  seen v n w ->
  (forall d, v_devs v !! p = Some (dev_v d) -> w_devs w !! p = Some d -> Q d w) ->
  wlp (get_dev p) Q w.
Proof. intros [<- Hn] HQ. apply wlp_load. intros c Hc. by apply HQ; [apply lookup_v_devs|]. Qed.

(** Pointers from [n] on are not in use in the view. *)
Definition vfresh (v : view) (n : ptr) : Prop := forall p, (n <= p)%positive ->
  v_clients v !! p = None /\ v_conns v !! p = None /\ v_devs v !! p = None.

Lemma vfresh_clients v n f :
  vfresh v n -> (forall p, (n <= p)%positive -> v_clients v !! p = None -> f (v_clients v) !! p = None) ->
  vfresh (v <| v_clients ::= f |>) n.
Proof. intros H Hf p Hp. destruct (H p Hp) as (? & ? & ?). simpl. auto. Qed.
Lemma vfresh_conns v n f :
  vfresh v n -> (forall p, (n <= p)%positive -> v_conns v !! p = None -> f (v_conns v) !! p = None) ->
  vfresh (v <| v_conns ::= f |>) n.
Proof. intros H Hf p Hp. destruct (H p Hp) as (? & ? & ?). simpl. auto. Qed.
Lemma vfresh_devs v n f :
  vfresh v n -> (forall p, (n <= p)%positive -> v_devs v !! p = None -> f (v_devs v) !! p = None) ->
  vfresh (v <| v_devs ::= f |>) n.
Proof. intros H Hf p Hp. destruct (H p Hp) as (? & ? & ?). simpl. auto. Qed.
Lemma vfresh_client_list v n f : vfresh v n -> vfresh (v <| v_client_list ::= f |>) n.
Proof. intros H p Hp. by apply H. Qed.
Lemma vfresh_device_list v n f : vfresh v n -> vfresh (v <| v_device_list ::= f |>) n.
Proof. intros H p Hp. by apply H. Qed.

Lemma vfresh_remove_conn v n p q : vfresh v n -> vfresh (v_remove_conn p q v) n.
Proof.
  intros H. apply vfresh_devs; [apply vfresh_conns|]; [done|..]; intros p' ?; simpl.
  - rewrite lookup_delete_None. auto.
  - intros He. by rewrite lookup_alter_None.
Qed.
Lemma vfresh_remove_client v n p : vfresh v n -> vfresh (v_remove_client p v) n.
Proof.
  intros H. apply vfresh_client_list, vfresh_clients; [done|]. intros p' ? He.
  rewrite lookup_delete_None. auto.
Qed.
Lemma vfresh_remove_dev v n p : vfresh v n -> vfresh (v_remove_dev p v) n.
Proof.
  intros H. apply vfresh_device_list, vfresh_devs; [done|]. intros p' ? He.
  rewrite lookup_delete_None. auto.
Qed.

(** Replacing an entry keeps the free pointers free. *)
Lemma vfresh_set_client v n p x k :
  vfresh v n -> v_clients v !! p = Some x -> vfresh (v <| v_clients ::= <[p := k]> |>) n.
Proof.
  intros H Hx. apply vfresh_clients; [done|]. intros p' Hp He.
  rewrite lookup_insert_ne; [done|congruence].
Qed.
Lemma vfresh_set_conn v n p x k :
  vfresh v n -> v_conns v !! p = Some x -> vfresh (v <| v_conns ::= <[p := k]> |>) n.
Proof.
  intros H Hx. apply vfresh_conns; [done|]. intros p' Hp He.
  rewrite lookup_insert_ne; [done|congruence].
Qed.
Lemma vfresh_set_dev v n p x k :
  vfresh v n -> v_devs v !! p = Some x -> vfresh (v <| v_devs ::= <[p := k]> |>) n.
Proof.
  intros H Hx. apply vfresh_devs; [done|]. intros p' Hp He.
  rewrite lookup_insert_ne; [done|congruence].
Qed.

(** The abstract run that a function which ends in a known view stands for. *)
Lemma seen_sim w v n w' :
  (inv w -> rtc sess_step (view_of w) v /\ vfresh v n) -> seen v n w' -> sim w w'.
Proof.
  intros Hstep [<- Hn] Hinv. destruct (Hstep Hinv) as [Hs Hf]. destruct Hinv as (Hwf & _ & Ha).
  split; [done|]. split; [by eapply sess_steps_wf|]. split; [|by eapply sess_steps_alive].
  apply fresh_ok_view. intros p Hp. apply Hf. lia.
Qed.

Lemma inv_vfresh w : inv w -> vfresh (view_of w) (w_next w).
Proof. intros (_ & H & _). exact (proj1 (fresh_ok_view w) H). Qed.

(** ** The last lines of [connection_teardown] *)

Lemma alter_is_insert {A} (f : A -> A) (m : gmap ptr A) i x :
  m !! i = Some x -> alter f i m = <[i := f x]> m.
Proof.
  intros H. apply map_eq. intros j. destruct (decide (i = j)) as [->|Hne].
  - by rewrite lookup_alter_eq, lookup_insert_eq, H.
  - by rewrite lookup_alter_ne, lookup_insert_ne.
Qed.

Lemma wlp_unlink_conn p v n Q w :
  seen v n w ->
  (forall c w', v_conns v !! p = Some (conn_v c) ->
    seen (v_remove_conn p (cn_dev c) v) n w' -> Q tt w') ->
  wlp (c ← get_conn p; upd_connections (cn_dev c) (fun l => coll_remove l p) ;; free w_conns p) Q w.
Proof.
  intros Hw HQ. apply wlp_bind. eapply wlp_seen_get_conn; [done|]. intros c Hc Hcw.
  unfold upd_connections, dev_connections. apply wlp_bind, wlp_bind, wlp_bind.
  eapply wlp_seen_get_dev; [done|]. intros d Hd Hdw.
  destruct (dv_connections d) as [l|] eqn:Hl; [|done]. simpl. unfold wlp at 1; simpl.
  eapply wlp_seen_upd_dev; [done|]. intros d' w' Hd' Hw'.
  eapply wlp_seen_free_conn; [done|]. intros w2 Hw2. apply (HQ c); [done|].
  assert (dev_v d' = dev_v d) as Hdd by congruence.
  replace (v_remove_conn p (cn_dev c) v) with
    (v <| v_devs ::= <[cn_dev c := dev_v (d' <| dv_connections := Some (coll_remove l p) |>)]> |>
       <| v_conns ::= delete p |>); [done|].
  unfold v_remove_conn. destruct v; simpl in *. f_equal.
  erewrite alter_is_insert by exact Hd'. f_equal. unfold dev_v in *; simpl in *.
  injection Hdd as -> -> -> Hcc. by rewrite Hcc, Hl.
Qed.

(** ** Replies to a connect request *)

Definition answered (r : usbmuxd_result) : client_state :=
  match r with RESULT_OK => CLIENT_CONNECTING2 | _ => CLIENT_COMMAND end.

Lemma wlp_client_notify_connect cl r v n Q w :
  seen v n w ->
  (forall w', seen v n w' -> Q (-1) w') ->
  (forall k w', v_clients v !! cl = Some (CLIENT_CONNECTING1, k) ->
     seen (v <| v_clients ::= <[cl := (answered r, k)]> |>) n w' -> Q 0 w') ->
  wlp (client_notify_connect cl r) Q w.
Proof.
  intros Hw Hfail Hok. unfold client_notify_connect. apply wlp_bind.
  eapply wlp_seen_get_client; [done|]. intros c Hc Hcw.
  destruct (decide (cl_state c = CLIENT_DEAD)); [by apply Hfail|].
  destruct (decide (cl_state c <> CLIENT_CONNECTING1)) as [|Hst]; [by apply Hfail|].
  apply dec_stable in Hst.
  apply (wlp_quiet_bind _ _ v n); [eauto with preserves|done|]. intros res w1 Hw1.
  destruct (res <? 0); [by apply Hfail|]. apply wlp_bind.
  assert (v_clients v !! cl = Some (CLIENT_CONNECTING1, cl_connect_device c)) as Hcv
    by (rewrite Hc; unfold client_v; by rewrite Hst).
  destruct r; (eapply wlp_seen_upd_client; [done|]); intros c' w2 Hc' Hw2;
    apply (Hok (cl_connect_device c)); try done;
    unfold client_v in Hw2; simpl in Hw2;
    assert (cl_connect_device c' = cl_connect_device c) as <-
      by (unfold client_v in *; congruence); done.
Qed.

(** ** Closing a client *)

(** The last lines of [client_close]. *)
Lemma wlp_close_tail cl v n Q w :
  seen v n w ->
  (forall w', seen (v_remove_client cl v) n w' -> Q tt w') ->
  wlp (c ← get_client cl;
       emit (EvClose (cl_fd c)) ;;
       modify (fun w => w <| client_list ::= fun l => coll_remove l cl |>) ;;
       mutex_unlock client_list_mutex ;;
       free w_clients cl) Q w.
Proof.
  intros Hw HQ. apply (wlp_quiet_bind _ _ v n); [apply (preserves_load _)|done|].
  intros c w1 Hw1. apply (wlp_quiet_bind _ _ v n); [eauto with preserves|done|].
  intros _ w2 [Hv Hn]. apply wlp_bind. unfold wlp at 1; simpl.
  apply (wlp_quiet_bind _ _ (v <| v_client_list ::= fun l => coll_remove l cl |>) n).
  - eauto with preserves.
  - split; [by rewrite <- Hv|done].
  - intros _ w3 Hw3. eapply wlp_seen_free_client; [done|]. intros w4 Hw4. by apply HQ.
Qed.

(** Connections that are being freed are left alone by a nested call. *)
Definition skips_dead (t : ptr -> C world unit) : Prop :=
  forall p w c, w_conns w !! p = Some c -> cn_state c = CONN_DEAD -> t p w = Ok tt w.

Lemma teardown_skips_dead n : skips_dead (connection_teardown_depth (S n)).
Proof.
  intros p w c Hc Hs. cbn [connection_teardown_depth]. unfold mbind, C_bind, load.
  rewrite Hc. by rewrite decide_True.
Qed.

Lemma v_set_conn_id v p c : v_conns v !! p = Some c -> v <| v_conns ::= <[p := c]> |> = v.
Proof. intros H. destruct v; simpl in *. by rewrite insert_id. Qed.

(** Closing the client of a connection that is already being freed. *)
Lemma wlp_close_dead t p c0 cl v n Q w :
  skips_dead t -> seen v n w ->
  v_conns v !! p = Some c0 -> cv_state c0 = CONN_DEAD ->
  (forall p' c', v_conns v !! p' = Some c' -> cv_client c' = Some cl -> p' = p) ->
  cl ∈ coll_elems (v_client_list v) ->
  (forall c1 w', cv_dev c1 = cv_dev c0 ->
    seen (v_remove_client cl (v <| v_conns ::= <[p := c1]> |>)) n w' -> Q tt w') ->
  wlp (client_close_with t cl) Q w.
Proof.
  intros Ht Hw Hp Hdead Huniq Hin HQ. unfold client_close_with.
  apply (wlp_quiet_bind _ _ v n); [eauto with preserves|done|]. intros _ w1 Hw1.
  eapply wlp_call; [apply wlp_client_listed|]. intros found w1' [-> ->].
  rewrite bool_decide_true by (destruct Hw1 as [<- _]; done). simpl.
  apply wlp_bind. eapply wlp_seen_get_client; [done|]. intros c Hc Hcw.
  apply wlp_bind. destruct (bool_decide _); cycle 1.
  { unfold when, wlp at 1; simpl. eapply wlp_close_tail; [done|]. intros w2 Hw2.
    apply (HQ c0); [done|]. by rewrite v_set_conn_id. }
  unfold when. apply wlp_bind. eapply wlp_seen_upd_client; [done|]. intros c' w2 Hc' Hw2.
  unfold device_abort_connect_with. eapply wlp_call; [apply wlp_get_mux_connection|].
  intros [p'|] w2' [-> Hr].
  - destruct Hr as (c2 & Hc2 & Hcl2).
    assert (p' = p) as ->.
    { apply lookup_v_conns in Hc2. destruct Hw2 as [Hv2 _]. rewrite Hv2 in Hc2. simpl in Hc2.
      apply (Huniq p' _ Hc2). done. }
    apply wlp_bind. eapply wlp_seen_upd_conn; [done|]. intros c3 w3 Hc3 Hw3.
    simpl in Hc3. rewrite Hp in Hc3. injection Hc3 as ->. simpl in Hdead.
    unfold wlp at 1. pose proof Hw3 as [Hv3 _].
    assert (v_conns (view_of w3) !! p = Some (conn_v (c3 <| cn_client := None |>))) as Hp3
      by (rewrite Hv3; simpl; apply lookup_insert_eq).
    apply v_conns_inv in Hp3 as (c4 & Hc4 & Heq4). rewrite (Ht p w3 c4 Hc4).
    2: { unfold conn_v in Heq4; simpl in Heq4. congruence. }
    eapply wlp_close_tail; [done|]. intros w4 Hw4.
    apply (HQ (conn_v (c3 <| cn_client := None |>))); [done|].
    destruct Hw4 as [Hv4 Hn4]. split; [|done]. rewrite Hv4. destruct v; simpl.
    unfold v_remove_client; simpl. by rewrite delete_insert_eq.
  - unfold wlp at 1; simpl. eapply wlp_close_tail; [done|]. intros w4 Hw4.
    apply (HQ c0); [done|]. rewrite v_set_conn_id by done.
    destruct Hw4 as [Hv4 Hn4]. split; [|done]. rewrite Hv4. destruct v; simpl.
    unfold v_remove_client; simpl. by rewrite delete_insert_eq.
Qed.

(** ** Tearing down a connection *)

(** What is left of the session structure after a teardown: the client of a
    pending connection gets an answer, the client of an established one is
    closed. *)
Inductive torn (v : view) (p : ptr) (c : conn_view) : view -> Prop :=
  | torn_refused cl k :
    cv_client c = Some cl -> v_clients v !! cl = Some (CLIENT_CONNECTING1, k) ->
    torn v p c ((v_remove_conn p (cv_dev c) v) <| v_clients ::= <[cl := (CLIENT_COMMAND, k)]> |>)
  | torn_lost cl k :
    cv_client c = Some cl -> v_clients v !! cl = Some (CLIENT_CONNECTING1, k) ->
    torn v p c (v_remove_conn p (cv_dev c) v)
  | torn_closed cl :
    cv_client c = Some cl -> (cv_state c = CONN_CONNECTED \/ cv_state c = CONN_DYING) ->
    torn v p c (v_remove_client cl (v_remove_conn p (cv_dev c) v)).

Lemma torn_step v p c v' : v_conns v !! p = Some c -> torn v p c v' -> sess_step v v'.
Proof.
  intros Hp [cl k Hcl Hk|cl k Hcl Hk|cl Hcl _].
  - by apply (step_refuse v p c cl k).
  - by apply (step_lost v p c cl k).
  - by apply (step_close v p c cl).
Qed.

Lemma torn_fresh v p c v' n : vfresh v n -> torn v p c v' -> vfresh v' n.
Proof.
  intros Hf [cl k Hcl Hk|cl k Hcl Hk|cl Hcl _];
    [eapply (vfresh_set_client _ _ _ (CLIENT_CONNECTING1, k)); [|done]|..|apply vfresh_remove_client];
    by apply vfresh_remove_conn.
Qed.

Lemma wlp_teardown d p c v n Q w :
  wf v -> seen v n w -> v_conns v !! p = Some c ->
  (forall v' w', torn v p c v' -> seen v' n w' -> Q tt w') ->
  wlp (connection_teardown_depth (S (S d)) p) Q w.
Proof.
  intros Hwf Hw Hp HQ. remember (S d) as d' eqn:Hd'. cbn [connection_teardown_depth]. subst d'.
  destruct (wf_conn_client _ Hwf p c Hp) as (cl & k & dv & Hcl & Hk & _ & _ & Hph).
  apply wlp_bind. eapply wlp_seen_get_conn; [done|]. intros c1 Hc1 _.
  rewrite Hp in Hc1. injection Hc1 as ->.
  assert (cn_state c1 <> CONN_DEAD) as Hnd by (intros He; simpl in Hph; by rewrite He in Hph).
  rewrite decide_False by done.
  apply (wlp_quiet_bind _ _ v n); [apply (preserves_load _)|done|]. intros dd w1 Hw1.
  apply (wlp_quiet_bind _ _ v n); [preserves_tac|done|]. intros _ w2 Hw2.
  apply wlp_bind. eapply wlp_seen_get_conn; [done|]. intros c2 Hc2 _.
  rewrite Hp in Hc2. injection Hc2 as Hdev Hcl2 Hst2 Hsp Hdp.
  simpl in Hcl. rewrite <- Hcl2, Hcl.
  destruct (decide (cn_state c2 = CONN_REFUSED \/ cn_state c2 = CONN_CONNECTING)) as [Hpend|Hest].
  - apply wlp_bind, wlp_bind. destruct k as [ks kd].
    assert (ks = CLIENT_CONNECTING1) as ->.
    { simpl in Hph. rewrite Hst2 in Hph. by destruct Hpend as [He|He]; rewrite He in Hph; destruct ks. }
    eapply wlp_client_notify_connect; [done|..].
    + intros w3 Hw3. unfold wlp at 1; simpl. eapply wlp_unlink_conn; [done|].
      intros c3 w4 Hc3 Hw4. rewrite Hp in Hc3. injection Hc3 as Hd3 _ _ _ _. rewrite <- Hd3 in Hw4.
      eapply HQ; [|exact Hw4]. by eapply (torn_lost _ _ (conn_v c1)).
    + intros k w3 Hk3 Hw3. rewrite Hk in Hk3. injection Hk3 as ->.
      unfold wlp at 1; simpl. eapply wlp_unlink_conn; [done|].
      intros c3 w4 Hc3 Hw4. simpl in Hc3. rewrite Hp in Hc3. injection Hc3 as Hd3 _ _ _ _. rewrite <- Hd3 in Hw4.
      apply (HQ _ w4 (torn_refused v p (conn_v c1) cl k Hcl Hk)). exact Hw4.
  - apply wlp_bind, wlp_bind. eapply wlp_seen_upd_conn; [done|]. intros c3 w3 Hc3 Hw3.
    rewrite Hp in Hc3. injection Hc3 as Hdev3 Hcl3 Hst3 _ _.
    eapply wlp_quiet_bind; [preserves_tac|done|]. intros _ w4 Hw4.
    eapply (wlp_close_dead _ p _ cl); [apply teardown_skips_dead|done|..].
    + simpl. apply lookup_insert_eq.
    + done.
    + intros p' c'. simpl. rewrite lookup_insert_Some. intros [[-> _]|[_ Hc']]; [done|].
      intros Hcl'. apply (wf_client_inj _ Hwf p' p c' (conn_v c1)); simpl; congruence.
    + simpl. apply (wf_client_list _ Hwf). eauto.
    + intros c5 w5 Hdev5 Hw5. eapply wlp_unlink_conn; [done|]. intros c6 w6 Hc6 Hw6.
      simpl in Hc6. rewrite lookup_insert_eq in Hc6. injection Hc6 as Hc6.
      assert (cn_dev c6 = cn_dev c1) as Hdev6
        by (rewrite Hc6 in Hdev5; simpl in Hdev5; congruence).
      rewrite Hdev6 in Hw6.
      apply (HQ (v_remove_client cl (v_remove_conn p (cn_dev c1) v))).
      * apply (torn_closed v p (conn_v c1)); [done|]. simpl. rewrite Hst2.
        destruct (cn_state c2); try tauto; congruence.
      * destruct Hw6 as [Hv6 Hn6]. split; [|done]. rewrite Hv6. destruct v; simpl.
        unfold v_remove_client, v_remove_conn; simpl. by rewrite !delete_insert_eq.
Qed.

Lemma sim_teardown p : Preserves sim (connection_teardown p).
Proof.
  intros w. unfold wlp at 1. destruct (connection_teardown p w) as [[] w'| |] eqn:Hrun; try done.
  intros Hinv. pose proof Hinv as [Hwf _].
  destruct (w_conns w !! p) as [c|] eqn:Hc.
  2: { exfalso. revert Hrun. unfold connection_teardown. cbn [connection_teardown_depth].
       unfold mbind, C_bind, load. by rewrite Hc. }
  apply lookup_v_conns in Hc.
  revert Hinv. apply (wlp_ok (connection_teardown p) (fun _ w' => sim w w') w tt w'); [|done].
  apply (wlp_teardown 0 p (conn_v c) (view_of w) (w_next w)); [done|apply seen_here|done|].
  intros v' w1 Ht Hw1. eapply seen_sim; [|done]. intros Hinv.
  split; [by eapply rtc_once, torn_step|]. by eapply torn_fresh; [apply inv_vfresh|].
Qed.

(** A connection whose client has already gone. *)
Lemma wlp_teardown_orphan d p c v n Q w :
  seen v n w -> v_conns v !! p = Some c -> cv_client c = None -> cv_state c <> CONN_DEAD ->
  (forall w', seen (v_remove_conn p (cv_dev c) v) n w' -> Q tt w') ->
  wlp (connection_teardown_depth (S d) p) Q w.
Proof.
  intros Hw Hp Hcl Hnd HQ. cbn [connection_teardown_depth].
  apply wlp_bind. eapply wlp_seen_get_conn; [done|]. intros c1 Hc1 _.
  rewrite Hp in Hc1. injection Hc1 as ->. rewrite decide_False by done.
  apply (wlp_quiet_bind _ _ v n); [apply (preserves_load _)|done|]. intros dd w1 Hw1.
  apply (wlp_quiet_bind _ _ v n); [preserves_tac|done|]. intros _ w2 Hw2.
  apply wlp_bind. eapply wlp_seen_get_conn; [done|]. intros c2 Hc2 _.
  rewrite Hp in Hc2. injection Hc2 as Hdev Hcl2 Hst2 Hsp Hdp.
  simpl in Hcl. rewrite <- Hcl2, Hcl.
  apply wlp_bind. unfold wlp at 1; simpl. eapply wlp_unlink_conn; [done|].
  intros c3 w4 Hc3 Hw4. rewrite Hp in Hc3. injection Hc3 as Hd3 _ _ _ _. rewrite <- Hd3 in Hw4.
  by apply HQ.
Qed.

(** What closing a client does to the session structure. *)
Inductive closed (v : view) (cl : ptr) : view -> Prop :=
  | closed_unlisted : v_clients v !! cl = None -> closed v cl v
  | closed_leave :
    is_Some (v_clients v !! cl) -> no_conn_of v cl -> closed v cl (v_remove_client cl v)
  | closed_conn p c :
    v_conns v !! p = Some c -> cv_client c = Some cl ->
    closed v cl (v_remove_client cl (v_remove_conn p (cv_dev c) v)).

Lemma closed_steps v cl v' : closed v cl v' -> rtc sess_step v v'.
Proof.
  intros [Hn|Hk Hno|p c Hp Hcl]; [done|apply rtc_once..].
  - by apply step_leave.
  - by apply (step_close v p c cl).
Qed.

Lemma closed_fresh v cl v' n : vfresh v n -> closed v cl v' -> vfresh v' n.
Proof.
  intros Hf [Hn|Hk Hno|p c Hp Hcl]; [done|by apply vfresh_remove_client|].
  by apply vfresh_remove_client, vfresh_remove_conn.
Qed.

(** When the search for the connection of a client fails, it has none. *)
Lemma no_conn_found v cl k w :
  wf v -> v_clients v !! cl = Some k ->
  view_of w = v <| v_clients ::= <[cl := (CLIENT_DEAD, k.2)]> |> ->
  (forall q d l p c, q ∈ coll_elems (device_list w) -> w_devs w !! q = Some d ->
     (forall q' d', w_devs w !! q' = Some d' -> dv_id d' = k.2 -> q' = q) ->
     dv_id d = k.2 -> dv_connections d = Some l -> p ∈ coll_elems l ->
     w_conns w !! p = Some c -> cn_client c <> Some cl) ->
  no_conn_of v cl.
Proof.
  intros Hwf Hk Hv Hnone p cv Hp Hcl.
  assert (v_conns (view_of w) = v_conns v /\ v_devs (view_of w) = v_devs v /\
          device_list w = v_device_list v) as (Hc & Hd & Hl)
    by (rewrite Hv; split_and!; [done..|by injection Hv]).
  destruct (wf_conn_client _ Hwf p cv Hp) as (cl' & k' & dv & Hcl' & Hk' & Hdv & Hid & _).
  assert (k' = k) as -> by congruence.
  destruct (wf_conn_dev _ Hwf p cv Hp) as (dv' & l & Hdv' & Hconns & Hin).
  assert (dv' = dv) as -> by congruence.
  rewrite <- Hc in Hp. apply v_conns_inv in Hp as (c & Hcw & ->).
  pose proof Hdv as Hdvw. rewrite <- Hd in Hdvw. apply v_devs_inv in Hdvw as (d & Hdw & ->).
  apply (Hnone (cn_dev c) d l p c); try done.
  - rewrite Hl. apply (wf_dev_list _ Hwf). eauto.
  - intros q' d' Hq' Hid'. apply lookup_v_devs in Hq'. rewrite Hd in Hq'.
    apply (wf_ids _ Hwf q' (cn_dev c) (dev_v d') (dev_v d)); [done..|]. simpl in *. congruence.
Qed.

Lemma wlp_client_close cl v n Q w :
  wf v -> seen v n w ->
  (forall k, v_clients v !! cl = Some k -> k.1 = CLIENT_CONNECTED -> no_conn_of v cl) ->
  (forall v' w', closed v cl v' -> seen v' n w' -> Q tt w') ->
  wlp (client_close cl) Q w.
Proof.
  intros Hwf Hw Hst HQ. unfold client_close, client_close_with.
  apply (wlp_quiet_bind _ _ v n); [eauto with preserves|done|]. intros _ w1 Hw1.
  eapply wlp_call; [apply wlp_client_listed|]. intros found w1' [-> ->].
  replace (client_list w1) with (v_client_list v) by (by destruct Hw1 as [<- _]).
  case_bool_decide as Hin; simpl; cycle 1.
  { eapply wlp_mono; [apply (wlp_quiet _ v n); [eauto with preserves|done]|].
    intros [] w2 Hw2. apply (HQ v); [|done]. constructor.
    apply eq_None_not_Some. by rewrite <- (wf_client_list _ Hwf). }
  apply wlp_bind. eapply wlp_seen_get_client; [done|]. intros c Hc Hcw.
  specialize (Hst _ Hc). simpl in Hst. apply wlp_bind. case_bool_decide as Hpend; cycle 1.
  { unfold when, wlp at 1; simpl. eapply wlp_close_tail; [done|]. intros w2 Hw2.
    apply (HQ (v_remove_client cl v)); [|done]. constructor; [eauto|].
    destruct (decide (cl_state c = CLIENT_CONNECTED)) as [|Hne]; [by apply Hst|].
    eapply no_conn_of_state; [done|exact Hc|..]; simpl; tauto. }
  unfold when. apply wlp_bind. eapply wlp_seen_upd_client; [done|]. intros c' w2 Hc' Hw2.
  rewrite Hc in Hc'. injection Hc' as _ Hcd.
  change (seen (v <| v_clients ::= <[cl := (CLIENT_DEAD, cl_connect_device c')]> |>) n w2) in Hw2.
  rewrite <- Hcd in Hw2. unfold device_abort_connect_with.
  eapply wlp_call; [apply wlp_get_mux_connection|]. intros [p|] w2' [-> Hr].
  - destruct Hr as (c2 & Hc2 & Hcl2).
    assert (v_conns v !! p = Some (conn_v c2)) as Hp.
    { apply lookup_v_conns in Hc2. destruct Hw2 as [Hv2 _]. by rewrite Hv2 in Hc2. }
    destruct (wf_conn_client _ Hwf p _ Hp) as (cl' & k & dv & _ & _ & _ & _ & Hph).
    apply wlp_bind. eapply wlp_seen_upd_conn; [done|]. intros c3 w3 Hc3 Hw3.
    simpl in Hc3. rewrite Hp in Hc3. injection Hc3 as Hdev3 _ Hst3 _ _.
    unfold connection_teardown. eapply wlp_teardown_orphan; [done|simpl; apply lookup_insert_eq|done|..].
    { simpl in *. intros He. by rewrite Hst3, He in Hph. }
    intros w4 Hw4. eapply wlp_close_tail; [done|]. intros w5 Hw5.
    apply (HQ (v_remove_client cl (v_remove_conn p (cn_dev c2) v))).
    { by apply (closed_conn v cl p (conn_v c2)). }
    simpl in Hw5. rewrite <- Hdev3 in Hw5.
    destruct Hw5 as [Hv5 Hn5]. split; [|done]. rewrite Hv5. destruct v; simpl.
    unfold v_remove_client, v_remove_conn; simpl. by rewrite !delete_insert_eq.
  - unfold wlp at 1; simpl. eapply wlp_close_tail; [done|]. intros w4 Hw4.
    apply (HQ (v_remove_client cl v)).
    { constructor; [eauto|]. destruct Hw2 as [Hv2 _].
      by eapply (no_conn_found v cl (client_v c) w2). }
    destruct Hw4 as [Hv4 Hn4]. split; [|done]. rewrite Hv4. destruct v; simpl.
    unfold v_remove_client; simpl. by rewrite delete_insert_eq.
Qed.

(** ** The depth of the recursion

    From a state that satisfies the invariant, [connection_teardown] calls
    itself at most once more, through the client it closes. *)

Lemma bind_ext {A B} (m : C world A) (k k' : A -> C world B) w :
  wlp m (fun a w' => k a w' = k' a w') w -> (m ≫= k) w = (m ≫= k') w.
Proof. unfold wlp, mbind, C_bind. by destruct (m w). Qed.

Lemma bind_ext_l {A B} (m m' : C world A) (k : A -> C world B) w :
  m w = m' w -> (m ≫= k) w = (m' ≫= k) w.
Proof. unfold mbind, C_bind. by intros ->. Qed.

Lemma bind_ext_quiet {A B} (m : C world A) (k k' : A -> C world B) v n w :
  Preserves quiet m -> seen v n w ->
  (forall a w', seen v n w' -> k a w' = k' a w') -> (m ≫= k) w = (m ≫= k') w.
Proof.
  intros Hm Hw Hk. apply bind_ext. eapply wlp_mono; [by apply (wlp_quiet m v n)|].
  intros a w'. apply Hk.
Qed.

Lemma close_dead_ext t t' p c0 cl v n w :
  skips_dead t -> skips_dead t' -> seen v n w ->
  v_conns v !! p = Some c0 -> cv_state c0 = CONN_DEAD ->
  (forall p' c', v_conns v !! p' = Some c' -> cv_client c' = Some cl -> p' = p) ->
  client_close_with t cl w = client_close_with t' cl w.
Proof.
  intros Ht Ht' Hw Hp Hdead Huniq. unfold client_close_with.
  eapply (bind_ext_quiet _ _ _ v n); [eauto with preserves|done|]. intros ? w1 Hw1.
  apply bind_ext. eapply wlp_mono; [apply wlp_client_listed|]. intros found w1x [Heq _]. subst w1x.
  destruct (negb found); [done|]. apply bind_ext.
  eapply wlp_seen_get_client; [done|]. intros c Hc Hcw.
  destruct (bool_decide _); [|done]. unfold when. apply bind_ext_l.
  apply bind_ext. eapply wlp_seen_upd_client; [done|]. intros c' w2 Hc' Hw2.
  unfold device_abort_connect_with. apply bind_ext.
  eapply wlp_mono; [apply wlp_get_mux_connection|]. intros r w2x [Heq Hr]. subst w2x. destruct r as [p'|]; [|done].
  destruct Hr as (c2 & Hc2 & Hcl2).
  assert (p' = p) as ->.
  { apply lookup_v_conns in Hc2. destruct Hw2 as [Hv2 _]. rewrite Hv2 in Hc2. simpl in Hc2.
    apply (Huniq p' _ Hc2). done. }
  apply bind_ext. eapply wlp_seen_upd_conn; [done|]. intros c3 w3 Hc3 [Hv3 _].
  simpl in Hc3. rewrite Hp in Hc3. injection Hc3 as ->. simpl in Hdead.
  assert (v_conns (view_of w3) !! p = Some (conn_v (c3 <| cn_client := None |>))) as Hp3
    by (rewrite Hv3; simpl; apply lookup_insert_eq).
  apply v_conns_inv in Hp3 as (c4 & Hc4 & Heq4).
  assert (cn_state c4 = CONN_DEAD) as Hd4 by (unfold conn_v in Heq4; simpl in Heq4; congruence).
  by rewrite (Ht p w3 c4 Hc4 Hd4), (Ht' p w3 c4 Hc4 Hd4).
Qed.

Lemma teardown_depth_ext d p w :
  inv w -> connection_teardown_depth (S (S d)) p w = connection_teardown p w.
Proof.
  intros [Hwf _]. unfold connection_teardown.
  remember (S d) as d1 eqn:Hd1. remember 1%nat as d2 eqn:Hd2.
  assert (skips_dead (connection_teardown_depth d1)) as Ht1 by (subst; apply teardown_skips_dead).
  assert (skips_dead (connection_teardown_depth d2)) as Ht2 by (subst; apply teardown_skips_dead).
  clear Hd1 Hd2. cbn [connection_teardown_depth].
  set (v := view_of w) in *. pose proof (seen_here w) as Hw. fold v in Hw.
  apply bind_ext. eapply wlp_seen_get_conn; [done|]. intros c1 Hc1 _.
  destruct (decide (cn_state c1 = CONN_DEAD)); [done|].
  apply (bind_ext_quiet _ _ _ v (w_next w)); [apply (preserves_load _)|done|].
  intros dd w1 Hw1. apply (bind_ext_quiet _ _ _ v (w_next w)); [preserves_tac|done|].
  intros ? w2 Hw2. apply bind_ext. eapply wlp_seen_get_conn; [done|]. intros c2 Hc2 _.
  rewrite Hc1 in Hc2. injection Hc2 as Hdev Hcl2 Hst2 Hsp Hdp.
  destruct (cn_client c2) as [cl|] eqn:Hcl; [|done].
  destruct (decide (cn_state c2 = CONN_REFUSED \/ cn_state c2 = CONN_CONNECTING)) as [|Hest]; [done|].
  apply bind_ext_l.
  apply bind_ext. eapply wlp_seen_upd_conn; [done|]. intros c3 w3 Hc3 Hw3.
  eapply bind_ext_quiet; [preserves_tac|done|]. intros ? w4 Hw4.
  eapply close_dead_ext; [done..|simpl; apply lookup_insert_eq|done|].
  intros p' c'. simpl. rewrite lookup_insert_Some. intros [[-> _]|[_ Hc']]; [done|].
  intros Hcl'. apply (wf_client_inj _ Hwf p' p c' (conn_v c1)); [done..|]. simpl. congruence.
Qed.

End refine.
