(* ===== verification/ScenarioFacts.v ===== *)
(** * ScenarioFacts: the scenario satisfies the invariant of the daemon *)

From stdpp Require Import base gmap list strings.
From Stdlib Require Import ZArith Lia.
From S2P Require Import Prelude Platform Wire World Utils Conf Instances Usb ClientOut.
From S2P Require Import DeviceOut Teardown Device Client Scenario SendFacts.
From S2P Require Import Views Session RefineTeardown.

Local Open Scope Z_scope.
Import Instances Scenario.

(** ** Which objects exist *)

Lemma scn_clients p k : w_clients scn_world !! p = Some k ->
  (p = 3%positive /\ k = scn_client 10 CLIENT_CONNECTED) \/
  (p = 5%positive /\ k = scn_client 11 CLIENT_CONNECTING1) \/
  (p = 7%positive /\ k = scn_client 12 CLIENT_LISTEN).
Proof.
  unfold scn_world; cbn [w_clients]. rewrite !lookup_insert_Some, lookup_singleton_Some.
  intros [[<- <-]|[_ [[<- <-]|[_ [<- <-]]]]]; auto.
Qed.

Lemma scn_conns p c : w_conns scn_world !! p = Some c ->
  (p = 4%positive /\ c = scn_conn 3 CONN_CONNECTED 65535) \/
  (p = 6%positive /\ c = scn_conn 5 CONN_CONNECTING 0).
Proof.
  unfold scn_world; cbn [w_conns]. rewrite !lookup_insert_Some, lookup_singleton_Some.
  intros [[<- <-]|[_ [<- <-]]]; auto.
Qed.

Lemma scn_devs p d : w_devs scn_world !! p = Some d -> p = 2%positive /\ d = scn_dev.
Proof. unfold scn_world; cbn [w_devs]. rewrite lookup_singleton_Some. by intros [<- <-]. Qed.

(** Case analysis on the objects of the scenario. *)
Ltac scn_cases :=
  repeat match goal with
  | H : v_clients (view_of scn_world) !! _ = Some _ |- _ =>
    apply v_clients_inv in H as (? & H & ->);
    apply scn_clients in H as [[-> ->]|[[-> ->]|[-> ->]]]
  | H : v_conns (view_of scn_world) !! _ = Some _ |- _ =>
    apply v_conns_inv in H as (? & H & ->); apply scn_conns in H as [[-> ->]|[-> ->]]
  | H : v_devs (view_of scn_world) !! _ = Some _ |- _ =>
    apply v_devs_inv in H as (? & H & ->); apply scn_devs in H as [-> ->]
  | H : _ ∈ _ :: _ |- _ => apply elem_of_cons in H as [->|H]
  | H : _ ∈ [] |- _ => by apply elem_of_nil in H
  end.

(** ** The invariant *)

Lemma scn_wf : wf (view_of scn_world).
Proof.
  split.
  - by apply (bool_decide_unpack _).
  - intros p. split.
    + intros H. change (p ∈ [3%positive; 5%positive; 7%positive]) in H.
      scn_cases; eexists; reflexivity.
    + intros [k H]. scn_cases; by apply (bool_decide_unpack _).
  - by apply (bool_decide_unpack _).
  - intros p. split.
    + intros H. change (p ∈ [2%positive]) in H. scn_cases; eexists; reflexivity.
    + intros [k H]. scn_cases. by apply (bool_decide_unpack _).
  - intros p c H. scn_cases; exists (dev_v scn_dev), [4%positive; 6%positive];
      (split; [reflexivity|split; [reflexivity|by apply (bool_decide_unpack _)]]).
  - intros q d l H Hl. scn_cases. injection Hl as <-. by apply (bool_decide_unpack _).
  - intros q d l p H Hl Hp. scn_cases. injection Hl as <-.
    change (p ∈ [4%positive; 6%positive]) in Hp. scn_cases; eexists; split; reflexivity.
  - intros q d H. scn_cases. done.
  - intros q q' d d' H H' _. by scn_cases.
  - intros p p' c c' H H' _ Hs. by scn_cases.
  - intros p c H. scn_cases; [exists 3%positive|exists 5%positive]; do 2 eexists;
      repeat (split; [reflexivity|]); reflexivity.
  - intros p p' c c' H H' Hs. by scn_cases.
Qed.

Lemma scn_inv : inv scn_world.
Proof.
  split; [exact scn_wf|]. split.
  - intros p Hp. simpl in Hp. split_and!; apply eq_None_not_Some; intros [x Hx].
    + apply scn_clients in Hx as [[-> _]|[[-> _]|[-> _]]]; lia.
    + apply scn_conns in Hx as [[-> _]|[-> _]]; lia.
    + apply scn_devs in Hx as [-> _]; lia.
  - intros q d H. scn_cases. done.
Qed.
