(* ===== verification/RefineDevice.v ===== *)
(** * RefineDevice: the handlers of device.c refine the session protocol *)

From stdpp Require Import base gmap list strings.
From Stdlib Require Import ZArith Lia.
From S2P Require Import Prelude Platform Wire World Utils Conf Usb ClientOut DeviceOut.
From S2P Require Import Teardown Device Client Views Session RefineTeardown.

Local Open Scope Z_scope.

#[export] Hint Extern 3 (Preserves sim _) =>
  apply preserves_quiet_sim; solve [eauto with preserves] : preserves.
#[export] Hint Resolve sim_teardown : preserves.

Section refine_device.
Context `{E : Env} `{!CollectionLaws env_coll}.
Implicit Types w : world.

(** ** Data of an established connection *)

Lemma consume_ib_view n c : conn_v (consume_ib n c) = conn_v c.
Proof. unfold consume_ib. by destruct (_ =? _). Qed.

Lemma quiet_upd_consume p n f :
  (forall c, conn_v (f c) = conn_v c) -> Preserves quiet (upd_conn p (fun c => consume_ib n (f c))).
Proof. intros Hf. apply quiet_upd_conn. intros c. by rewrite consume_ib_view. Qed.

Lemma sim_send_tcp_ack p : Preserves sim (send_tcp_ack p).
Proof. unfold send_tcp_ack. preserves_tac. Qed.
#[local] Hint Resolve sim_send_tcp_ack : preserves.

Lemma sim_connection_device_input p l : Preserves sim (connection_device_input p l).
Proof. unfold connection_device_input. preserves_tac. Qed.
#[local] Hint Resolve sim_connection_device_input : preserves.

Lemma sim_device_client_process id cl ev : Preserves sim (device_client_process id cl ev).
Proof.
  unfold device_client_process, nonnull. preserves_tac.
  all: apply preserves_quiet_sim; preserves_tac; by apply quiet_upd_consume.
Qed.

Lemma sim_device_check_timeouts : Preserves sim device_check_timeouts.
Proof. unfold device_check_timeouts, foreach_active_conn. preserves_tac. Qed.

(** ** Packets *)

Lemma sim_intro {A} (m : C world A) w :
  (inv w -> wlp m (fun _ => sim w) w) -> wlp m (fun _ => sim w) w.
Proof.
  intros H. unfold wlp in *. destruct (m w); try done. intros Hinv. by apply H.
Qed.

(** A call of a function that refines the protocol, at the end of another one
    that has refined it so far. *)
Lemma wlp_sim {A} (m : C world A) w w' :
  Preserves sim m -> sim w w' -> wlp m (fun _ => sim w) w'.
Proof. intros Hm Hw. eapply wlp_mono; [apply Hm|]. intros a w2 H2. by etrans. Qed.

(** One abstract step that only replaces a connection. *)
Lemma sim_set_conn w p c c' n w' :
  v_conns (view_of w) !! p = Some c ->
  (wf (view_of w) -> sess_step (view_of w) ((view_of w) <| v_conns ::= <[p := c']> |>)) ->
  n = w_next w ->
  seen ((view_of w) <| v_conns ::= <[p := c']> |>) n w' -> sim w w'.
Proof.
  intros Hc Hs ->. apply seen_sim. intros Hinv. split; [apply rtc_once, Hs, Hinv|].
  by eapply vfresh_set_conn; [apply inv_vfresh|].
Qed.

(** An answer from the device that does not accept the connection, or that
    is not data of an established one. *)
Lemma wlp_reset_teardown p w (b : bool) s s' cv :
  v_conns (view_of w) !! p = Some cv -> cv_state cv = s ->
  (s = CONN_CONNECTING /\ s' = CONN_REFUSED) \/ (s = CONN_CONNECTED /\ s' = CONN_DYING) ->
  wlp (when b (upd_conn p (fun c => c <| cn_state := s' |>)) ;; connection_teardown p)
    (fun _ => sim w) w.
Proof.
  intros Hc Hs Hss. destruct b; unfold when; apply wlp_bind.
  - eapply wlp_seen_upd_conn; [apply seen_here|]. intros c w' Hc' Hw'.
    apply wlp_sim; [apply sim_teardown|]. rewrite Hc in Hc'. injection Hc' as ->.
    eapply (sim_set_conn w p (conn_v c)); [done| |done|exact Hw'].
    intros _. apply (step_reset _ _ (conn_v c)); [done|]. rewrite Hs. tauto.
  - unfold wlp at 1; simpl. by apply wlp_sim; [apply sim_teardown|].
Qed.

(** The device accepts: the connection is established and the reply queued. *)
Lemma wlp_accepted p w cv :
  v_conns (view_of w) !! p = Some cv -> cv_state cv = CONN_CONNECTING -> inv w ->
  wlp (upd_conn p (fun c => c <| cn_state := CONN_CONNECTED |>) ;;
       c ← get_conn p;
       client ← nonnull (cn_client c);
       r ← client_notify_connect client RESULT_OK;
       when (r <? 0) (
         upd_conn p (fun c => c <| cn_client := None |>) ;;
         connection_teardown p) ;;
       update_connection p) (fun _ => sim w) w.
Proof.
  intros Hc Hs Hinv. destruct (wf_conn_client _ (proj1 Hinv) p cv Hc)
    as (cl & [ks kd] & dv & Hcl & Hk & _ & _ & Hph).
  assert (ks = CLIENT_CONNECTING1) as -> by (rewrite Hs in Hph; by destruct ks).
  apply wlp_bind. eapply wlp_seen_upd_conn; [apply seen_here|]. intros c0 w1 Hc0 Hw1.
  rewrite Hc in Hc0. injection Hc0 as ->.
  apply wlp_bind. eapply wlp_seen_get_conn; [done|]. intros c1 Hc1 _.
  simpl in Hc1. rewrite lookup_insert_eq in Hc1. injection Hc1 as Hdev1 Hcl1 Hst1 _ _.
  simpl in Hcl. rewrite <- Hcl1, Hcl. apply wlp_bind. unfold nonnull, wlp at 1; simpl.
  apply wlp_bind. eapply wlp_client_notify_connect; [done|..].
  - intros w2 Hw2. apply wlp_bind. simpl. apply wlp_bind.
    eapply wlp_seen_upd_conn; [done|]. intros c2 w3 Hc2 Hw3.
    eapply wlp_teardown_orphan; [done|simpl; apply lookup_insert_eq|done|..].
    { simpl in *. rewrite lookup_insert_eq in Hc2. injection Hc2 as _ _ <- _ _. done. }
    intros w4 Hw4. unfold update_connection. apply wlp_bind.
    eapply wlp_seen_upd_conn; [done|]. intros c4 w5 Hc4 _.
    simpl in Hc4. by rewrite lookup_delete_eq in Hc4.
  - intros k w2 Hk2 Hw2. change (v_clients (view_of w) !! cl = Some (CLIENT_CONNECTING1, k)) in Hk2. rewrite Hk in Hk2. injection Hk2 as <-.
    apply wlp_bind. unfold when, wlp at 1; simpl.
    eapply wlp_mono; [eapply wlp_quiet; [eauto with preserves|exact Hw2]|].
    intros [] w3 Hw3. eapply seen_sim; [|exact Hw3]. intros _. split.
    + apply rtc_once. exact (step_accepted _ p (conn_v c0) cl kd Hc Hs Hcl Hk).
    + eapply (vfresh_set_client _ _ _ (CLIENT_CONNECTING1, kd)); [|done].
      by eapply vfresh_set_conn; [apply inv_vfresh|].
Qed.

Lemma quiet_seen w w' : quiet w w' -> seen (view_of w) (w_next w) w'.
Proof. done. Qed.

Lemma sim_device_tcp_input dev th payload : Preserves sim (device_tcp_input dev th payload).
Proof.
  intros w. apply sim_intro. intros Hinv. unfold device_tcp_input.
  eapply wlp_quiet_bind; [apply (preserves_load _)|apply seen_here|]. intros d w1 Hw1.
  destruct (decide (dv_state d <> MUXDEV_ACTIVE)); [by apply quiet_sim|].
  eapply wlp_quiet_bind; [eauto with preserves|done|]. intros [p|] w2 Hw2.
  2: { apply wlp_sim; [preserves_tac|by apply quiet_sim]. }
  eapply wlp_quiet_bind; [eauto with preserves|done|]. intros [] w3 Hw3.
  apply wlp_bind. eapply wlp_seen_get_conn; [exact Hw3|]. intros c Hc _.
  pose proof (quiet_sim w w3 Hw3) as Hsim. destruct (Hsim Hinv) as [_ Hinv3].
  pose proof Hw3 as [Hv3 _]. rewrite <- Hv3 in Hc.
  destruct (cn_state c) eqn:Hst; try by apply (wlp_sim (mret tt)); [apply (preserves_ret _)|].
  - destruct (negb _).
    { eapply wlp_mono; [by eapply (wlp_reset_teardown p w3 _ CONN_CONNECTING); [done|..|left]|].
      intros a w4 Hw4. by etrans. }
    eapply wlp_quiet_bind; [eauto with preserves|apply seen_here|]. intros [] w4 Hw4.
    eapply wlp_quiet_bind; [eauto with preserves|exact Hw4|]. intros res w5 Hw5.
    pose proof (quiet_sim w3 w5 Hw5) as Hsim5.
    destruct (res <? 0); [apply wlp_sim; [apply sim_teardown|by etrans]|].
    eapply wlp_mono; [eapply (wlp_accepted p w5 (conn_v c))|].
    + destruct Hw5 as [-> _]. done.
    + done.
    + by apply Hsim5.
    + intros [] w6 H6. etrans; [done|]. by etrans.
  - destruct (negb _).
    { eapply wlp_mono; [by eapply (wlp_reset_teardown p w3 _ CONN_CONNECTED); [done|..|right]|].
      intros a w4 Hw4. by etrans. }
    apply wlp_sim; [preserves_tac|done].
Qed.

(** ** The version exchange *)

(** A device that is not active yet has no connections. *)
Lemma init_no_conns v q d :
  wf v -> v_devs v !! q = Some d -> vd_state d = MUXDEV_INIT ->
  forall p c, v_conns v !! p = Some c -> cv_dev c <> q.
Proof.
  intros Hwf Hd Hs p c Hc <-.
  destruct (wf_conn_dev _ Hwf p c Hc) as (d' & l & Hd' & Hl & _).
  assert (d' = d) as -> by congruence. apply (wf_init _ Hwf _ d Hd) in Hs. congruence.
Qed.

Lemma sim_remove_dev w q w' :
  is_Some (v_devs (view_of w) !! q) ->
  (inv w -> forall p c, v_conns (view_of w) !! p = Some c -> cv_dev c <> q) ->
  seen (v_remove_dev q (view_of w)) (w_next w) w' -> sim w w'.
Proof.
  intros Hd Hno. apply seen_sim. intros Hinv. split.
  - apply rtc_once, step_detach; [done|by apply Hno].
  - by apply vfresh_remove_dev, inv_vfresh.
Qed.

(** [collection_remove(&device_list, dev)], unlock, [free(dev)] *)
Lemma wlp_unlink_dev q v n Q w :
  seen v n w ->
  (forall w', seen (v_remove_dev q v) n w' -> Q tt w') ->
  wlp (modify (fun w => w <| device_list ::= fun l => coll_remove l q |>) ;;
       mutex_unlock device_list_mutex ;;
       free w_devs q) Q w.
Proof.
  intros [Hv Hn] HQ. apply wlp_bind. unfold wlp at 1; simpl.
  apply (wlp_quiet_bind _ _ (v <| v_device_list ::= fun l => coll_remove l q |>) n).
  - eauto with preserves.
  - split; [by rewrite <- Hv|done].
  - intros _ w2 Hw2. eapply wlp_seen_free_dev; [done|]. intros w3 Hw3. by apply HQ.
Qed.

Lemma sim_device_version_input dev vh : Preserves sim (device_version_input dev vh).
Proof.
  intros w. apply sim_intro. intros Hinv. unfold device_version_input. apply wlp_bind.
  eapply wlp_seen_get_dev; [apply seen_here|]. intros d Hd _.
  destruct (decide (dv_state d <> MUXDEV_INIT)) as [|Hs]; [by apply quiet_sim|].
  apply dec_stable in Hs. cbv zeta. destruct (_ && _).
  - eapply wlp_quiet_bind; [eauto with preserves|apply seen_here|]. intros [] w1 Hw1.
    eapply wlp_unlink_dev; [done|]. intros w2. apply sim_remove_dev; [eauto|].
    intros _. by apply (init_no_conns _ _ (dev_v d)); [apply Hinv|..].
  - eapply wlp_quiet_bind; [eauto with preserves|apply seen_here|]. intros [] w1 Hw1.
    eapply wlp_quiet_bind; [preserves_tac|done|]. intros [] w2 Hw2.
    apply wlp_bind. eapply wlp_seen_upd_dev; [done|]. intros d' w3 Hd' Hw3.
    rewrite Hd in Hd'. injection Hd' as Hu Hi Hst Hc.
    apply wlp_sim; [apply preserves_quiet_sim; preserves_tac|].
    eapply seen_sim; [|exact Hw3]. intros _. split.
    + apply rtc_once.
      replace (dev_v _) with ((dev_v d) <| vd_state := MUXDEV_ACTIVE |>
        <| vd_connections := Some coll_init |>) by (unfold dev_v; simpl; congruence).
      by apply step_activate.
    + by eapply vfresh_set_dev; [apply inv_vfresh|].
Qed.
#[local] Hint Resolve sim_device_tcp_input sim_device_version_input : preserves.

Lemma sim_device_packet_input dev b n : Preserves sim (device_packet_input dev b n).
Proof. unfold device_packet_input. preserves_tac. Qed.
#[local] Hint Resolve sim_device_packet_input : preserves.

Lemma sim_device_data_input u b n : Preserves sim (device_data_input u b n).
Proof. unfold device_data_input. preserves_tac. Qed.

(** ** Adding and removing devices *)

Lemma wlp_get_next_device_id_loop fuel v n w :
  seen v n w ->
  wlp (get_next_device_id_loop fuel) (fun id w' => seen v n w' /\
    forall q d, q ∈ coll_elems (v_device_list v) -> v_devs v !! q = Some d -> vd_id d <> id) w.
Proof.
  revert w. induction fuel as [|fuel IH]; intros w Hw; cbn [get_next_device_id_loop]; [done|].
  eapply wlp_quiet_bind; [eauto with preserves|done|]. intros [] w1 Hw1.
  eapply wlp_call; [eapply (wlp_foreach_scan _ _ (fun q => forall d, w_devs w1 !! q = Some d ->
    dv_id d <> next_device_id w1) (fun _ => seen v n)); [done|]|].
  - intros q _. apply wlp_bind, wlp_load. intros d Hd. apply wlp_bind. unfold wlp at 1; simpl.
    destruct (Z.eqb_spec (dv_id d) (next_device_id w1)) as [He|Hne].
    + eapply wlp_quiet_bind; [eauto with preserves|done|]. by intros [] w2 Hw2.
    + split; [done|]. intros q'. rewrite list_elem_of_singleton. intros -> d' Hd'. congruence.
  - intros [[]|] w2 Hr.
    + eapply wlp_quiet_bind; [eauto with preserves|exact Hr|]. intros [] w3 Hw3. by apply IH.
    + destruct Hr as [-> Hr]. apply wlp_bind. unfold mutex_unlock, wlp at 1; simpl.
      apply wlp_bind. unfold wlp at 1; simpl.
      eapply wlp_quiet_bind; [eauto with preserves|exact Hw1|]. intros [] w3 Hw3.
      split; [done|]. intros q d Hq Hd. destruct Hw1 as [<- _].
      apply v_devs_inv in Hd as (d' & Hd' & ->). by apply (Hr q).
Qed.

Lemma wlp_get_next_device_id v n w :
  seen v n w ->
  wlp get_next_device_id (fun id w' => seen v n w' /\
    forall q d, q ∈ coll_elems (v_device_list v) -> v_devs v !! q = Some d -> vd_id d <> id) w.
Proof. intros Hw. unfold get_next_device_id. apply wlp_bind. by apply wlp_get_next_device_id_loop. Qed.

Lemma view_new_dev w q d :
  q = w_next w ->
  seen ((view_of w) <| v_devs ::= <[q := dev_v d]> |>) (Pos.succ q)
    ((set w_devs <[q := d]> w) <| w_next := Pos.succ q |>).
Proof.
  intros ->. split; [|simpl; lia]. unfold view_of; simpl. by rewrite fmap_insert.
Qed.

Lemma vfresh_new v n f :
  vfresh v n -> (forall p, p <> n -> f (v_devs v) !! p = v_devs v !! p) ->
  vfresh (v <| v_devs ::= f |>) (Pos.succ n).
Proof.
  intros Hf Hp p Hle. destruct (Hf p) as (? & ? & ?); [lia|]. simpl.
  rewrite Hp by lia. done.
Qed.

Lemma v_delete_new_dev v q d :
  v_devs v !! q = None -> v <| v_devs ::= <[q := d]> |> <| v_devs ::= delete q |> = v.
Proof. intros H. destruct v; simpl in *. by rewrite delete_insert_id. Qed.

Lemma sim_device_add u : Preserves sim (device_add u).
Proof.
  intros w. apply sim_intro. intros Hinv. unfold device_add.
  eapply wlp_call; [apply wlp_get_next_device_id, seen_here|]. intros id w1 [Hw1 Hid].
  pose proof (quiet_sim w w1 Hw1) as Hs1. destruct (Hs1 Hinv) as [_ Hinv1].
  apply wlp_bind. unfold wlp at 1; simpl. apply wlp_bind, wlp_malloc.
  set (d := mk_dev _ _ _ _ _ _ _ _ _ _ _ _). set (q := w_next w1).
  pose proof (view_new_dev w1 q d eq_refl) as Hnew.
  pose proof (inv_vfresh w1 Hinv1) as Hf1. destruct (Hf1 q) as (_ & _ & Hqn); [unfold q; lia|].
  eapply wlp_quiet_bind; [eauto with preserves|exact Hnew|]. intros res w2 Hw2.
  destruct (res <? 0).
  - apply wlp_bind. eapply wlp_seen_free_dev; [done|]. intros w3 Hw3.
    apply (wlp_sim (mret res) w w3); [apply (preserves_ret _)|]. etrans; [exact Hs1|].
    eapply seen_sim; [|exact Hw3]. intros _. rewrite v_delete_new_dev by done.
    split; [done|]. intros p Hp. apply Hf1. unfold q in *. lia.
  - eapply wlp_quiet_bind; [eauto with preserves|exact Hw2|]. intros [] w3 [Hv3 Hn3].
    apply wlp_bind. unfold wlp at 1; simpl.
    apply wlp_sim; [apply preserves_quiet_sim; preserves_tac|]. etrans; [exact Hs1|].
    eapply (seen_sim _ ((view_of w1) <| v_devs ::= <[q := dev_v d]> |>
      <| v_device_list ::= fun l => coll_add l q |>) (Pos.succ q)).
    2: { split; [|done]. change (device_list w1) with (v_device_list (view_of w1)).
         unfold view_of at 1. simpl. by injection Hv3 as -> -> -> -> -> ->. }
    intros _. split.
    + apply rtc_once, step_attach; try done. intros q' d' Hd'.
      pose proof Hw1 as [Hv1 _]. apply (Hid q').
      * rewrite <- Hv1. apply (wf_dev_list _ (proj1 Hinv1)). eauto.
      * by rewrite <- Hv1.
    + apply vfresh_device_list, vfresh_new; [done|]. intros p Hp. by rewrite lookup_insert_ne.
Qed.

Lemma torn_devs v p c v' : torn v p c v' ->
  v_devs v' = alter (fun d => d <| vd_connections ::= fmap (fun l => coll_remove l p) |>)
                (cv_dev c) (v_devs v).
Proof. by intros [cl k _ _|cl k _ _|cl _ _]. Qed.

(** A device in another state; what is left of the session otherwise. *)
Definition mark (q : ptr) (s : mux_dev_state) (v : view) : view :=
  v <| v_devs ::= alter (fun d => d <| vd_state := s |>) q |>.

Lemma mark_insert q s v d : v_devs v !! q = Some d ->
  mark q s v = v <| v_devs ::= <[q := d <| vd_state := s |>]> |>.
Proof.
  intros Hd. unfold mark. destruct v; simpl in *. f_equal. by rewrite (alter_is_insert _ _ _ d).
Qed.

Lemma mark_id q v d : v_devs v !! q = Some d -> mark q (vd_state d) v = v.
Proof.
  intros Hd. rewrite (mark_insert _ _ _ d) by done. destruct v; simpl in *. f_equal.
  rewrite insert_id; [done|]. by destruct d.
Qed.

Lemma wf_mark q s v d l :
  wf v -> v_devs v !! q = Some d -> vd_connections d = Some l -> s <> MUXDEV_INIT ->
  wf (mark q s v).
Proof.
  intros Hwf Hd Hl Hs. rewrite (mark_insert _ _ _ d) by done.
  apply (wf_set_dev v q d); simpl; [done..| |by left]. by rewrite Hl.
Qed.

Lemma alter_alter_comm {A} (f g : A -> A) i j (m : gmap ptr A) :
  (forall x, f (g x) = g (f x)) -> alter f i (alter g j m) = alter g j (alter f i m).
Proof.
  intros H. apply map_eq. intros k.
  destruct (decide (i = k)) as [->|Hi], (decide (j = k)) as [->|Hj];
    rewrite ?lookup_alter_eq, ?lookup_alter_ne, ?lookup_alter_eq, ?lookup_alter_ne by done; try done.
  destruct (m !! k); simpl; by rewrite ?H.
Qed.

(** Teardown does not depend on the mark. *)
Lemma torn_mark q s v p c v' :
  torn (mark q s v) p c v' -> exists v1, torn v p c v1 /\ v' = mark q s v1.
Proof.
  assert (forall r, v_remove_conn p r (mark q s v) = mark q s (v_remove_conn p r v)) as Hcomm.
  { intros r. unfold v_remove_conn, mark. destruct v; simpl. f_equal.
    by apply alter_alter_comm. }
  intros [cl k Hcl Hk|cl k Hcl Hk|cl Hcl Hs]; rewrite Hcomm.
  - exists ((v_remove_conn p (cv_dev c) v) <| v_clients ::= <[cl := (CLIENT_COMMAND, k)]> |>).
    split; [by eapply (torn_refused v)|done].
  - exists (v_remove_conn p (cv_dev c) v). split; [by eapply (torn_lost v)|done].
  - exists (v_remove_client cl (v_remove_conn p (cv_dev c) v)).
    split; [by apply (torn_closed v p c cl)|done].
Qed.

(** What is left of a device's connections while they are torn down. *)
Definition drained (q : ptr) (n : ptr) (v : view) (d : dev_view) (l : list ptr) (v' : view) : Prop :=
  rtc sess_step v v' /\ (vfresh v n -> vfresh v' n) /\
  exists l', v_devs v' !! q = Some (d <| vd_connections := Some l' |>) /\
    (forall p, p ∈ coll_elems l' -> p ∈ l) /\ v_device_list v' = v_device_list v.

Lemma torn_device_list v p c v' : torn v p c v' -> v_device_list v' = v_device_list v.
Proof. by intros [cl k _ _|cl k _ _|cl _ _]. Qed.

Lemma wlp_teardown_from q n s ps v d l w :
  wf v -> s <> MUXDEV_INIT -> seen (mark q s v) n w ->
  v_devs v !! q = Some d -> vd_connections d = Some l ->
  (forall p, p ∈ coll_elems l -> p ∈ ps) ->
  wlp (foreach_from (dev_connections q) ps (each connection_teardown))
    (fun _ w' => exists v', seen (mark q s v') n w' /\ drained q n v d [] v') w.
Proof.
  intros Hwf Hs. revert v d l w Hwf. induction ps as [|p ps IH]; intros v d l w Hwf Hw Hd Hl Hin;
    cbn [foreach_from].
  { exists v. split; [done|]. split; [done|]. split; [done|]. exists l.
    split; [|done]. rewrite Hd. f_equal. destruct d; simpl in *. by rewrite Hl. }
  unfold dev_connections at 1. apply wlp_bind, wlp_bind.
  eapply wlp_seen_get_dev; [done|]. intros d0 Hd0 _.
  simpl in Hd0. rewrite lookup_alter_eq, Hd in Hd0. injection Hd0 as _ _ _ Hd0.
  rewrite <- Hd0, Hl.
  unfold wlp at 1; simpl. destruct (decide (p ∈ coll_elems l)) as [Hp|Hp].
  2: { apply (IH v d l); try done. intros p' Hp'. specialize (Hin p' Hp').
       rewrite elem_of_cons in Hin. destruct Hin as [->|]; done. }
  destruct (wf_dev_conn _ Hwf q d l p Hd Hl Hp) as (c & Hc & Hcd).
  apply wlp_bind. unfold each. apply wlp_bind.
  eapply (wlp_teardown 0 p c); [by eapply (wf_mark q s v d l)|done|exact Hc|].
  intros v1' w1 Ht Hw1. apply torn_mark in Ht as (v1 & Ht & ->). unfold wlp at 1; simpl.
  pose proof (torn_step _ _ _ _ Hc Ht) as Hstep. pose proof (torn_devs _ _ _ _ Ht) as Hdevs.
  set (d1 := d <| vd_connections := Some (coll_remove l p) |>).
  eapply wlp_mono; [apply (IH v1 d1 (coll_remove l p))|].
  - by eapply sess_step_wf.
  - done.
  - rewrite Hdevs, Hcd, lookup_alter_eq, Hd. simpl. by rewrite Hl.
  - done.
  - intros p' Hp'. apply elem_of_coll_remove in Hp' as [Hne Hp']; [|by eapply (wf_conns_nodup _ Hwf q)].
    specialize (Hin p' Hp'). rewrite elem_of_cons in Hin. by destruct Hin.
  - intros _ w2 (v2 & Hw2 & Hst & Hf & Hd2). exists v2. split; [done|]. split; [|split].
    + eapply rtc_l; [exact Hstep|exact Hst].
    + intros Hfr. apply Hf. by eapply torn_fresh.
    + destruct Hd2 as (l2 & Hl2 & Hin2 & Hdl). exists l2.
      split_and!; [done..|by rewrite Hdl, (torn_device_list _ _ _ _ Ht)].
Qed.

Lemma wlp_teardown_connections q n s v d w :
  wf v -> s <> MUXDEV_INIT -> seen (mark q s v) n w -> v_devs v !! q = Some d ->
  wlp (teardown_connections q)
    (fun _ w' => exists v', seen (mark q s v') n w' /\ drained q n v d [] v') w.
Proof.
  intros Hwf Hs Hw Hd. unfold teardown_connections, foreach, dev_connections at 1.
  apply wlp_bind, wlp_bind, wlp_bind. eapply wlp_seen_get_dev; [done|]. intros d0 Hd0 _.
  simpl in Hd0. rewrite lookup_alter_eq, Hd in Hd0. injection Hd0 as _ _ _ Hd0.
  destruct (dv_connections d0) as [l|] eqn:Hl; [|done].
  unfold wlp at 1; simpl. eapply wlp_mono; [eapply (wlp_teardown_from q n s _ v d l); try done|].
  - by intros ? w' H.
Qed.

(** A device without connections has none in the whole state. *)
Lemma drained_no_conns q n v d v' :
  wf v -> drained q n v d [] v' -> forall p c, v_conns v' !! p = Some c -> cv_dev c <> q.
Proof.
  intros Hwf (Hst & _ & l' & Hd & Hl & _) p c Hc <-.
  destruct (wf_conn_dev _ (sess_steps_wf _ _ Hst Hwf) p c Hc) as (d' & l & Hd' & Hl' & Hp).
  rewrite Hd in Hd'. injection Hd' as <-. simpl in Hl'. injection Hl' as ->.
  by apply Hl, not_elem_of_nil in Hp.
Qed.

(** From any state of the daemon. *)
Lemma wlp_drain q w :
  inv w -> wlp (teardown_connections q) (fun _ w' => exists v d,
    seen v (w_next w) w' /\ drained q (w_next w) (view_of w) d [] v) w.
Proof.
  intros Hinv. unfold wlp. destruct (teardown_connections q w) as [[] w'| |] eqn:Hrun; try done.
  assert (exists d l, w_devs w !! q = Some d /\ dv_connections d = Some l) as (d & l & Hd & Hl).
  { revert Hrun. unfold teardown_connections, foreach, dev_connections, mbind, C_bind, load.
    destruct (w_devs w !! q) as [d|]; [|done].
    destruct (dv_connections d) as [l|] eqn:?; [|done]. eauto. }
  pose proof (lookup_v_devs _ _ _ Hd) as Hv.
  assert (dv_state d <> MUXDEV_INIT) as Hs.
  { intros Hs. apply (wf_init _ (proj1 Hinv) q (dev_v d) Hv) in Hs. simpl in Hs. congruence. }
  apply (wlp_ok (teardown_connections q) (fun _ w' => exists v d,
    seen v (w_next w) w' /\ drained q (w_next w) (view_of w) d [] v) w tt w'); [|done].
  eapply wlp_mono; [apply (wlp_teardown_connections q (w_next w) (dv_state d) (view_of w) (dev_v d))|].
  - apply Hinv.
  - done.
  - rewrite (mark_id _ _ (dev_v d)) by done. apply seen_here.
  - done.
  - intros ? w1 (v1 & Hw1 & Hdr). exists v1, (dev_v d). split; [|done].
    destruct Hdr as (_ & _ & l' & Hl' & _).
    pose proof (mark_id q v1 _ Hl') as Hid. simpl in Hid. by rewrite Hid in Hw1.
Qed.

Lemma sim_teardown_connections q : Preserves sim (teardown_connections q).
Proof.
  intros w. apply sim_intro. intros Hinv. eapply wlp_mono; [by apply wlp_drain|].
  intros ? w' (v & d & Hw' & Hst & Hfr & _). eapply seen_sim; [|exact Hw']. intros _.
  split; [done|]. by apply Hfr, inv_vfresh.
Qed.

(** The body of the loop of [device_shutdown]. *)
Lemma wlp_shutdown_device q w :
  inv w -> wlp (teardown_connections q ;;
    upd_dev q (fun d => d <| dv_connections := None |>) ;;
    modify (fun w => w <| device_list ::= fun l => coll_remove l q |>) ;;
    free w_devs q) (fun _ w' => sim w w' /\ device_list w' = coll_remove (device_list w) q) w.
Proof.
  intros Hinv. eapply wlp_call; [by apply wlp_drain|]. intros ? w1 (v1 & d & Hw1 & Hdr).
  pose proof (drained_no_conns _ _ _ _ _ (proj1 Hinv) Hdr) as Hno.
  destruct Hdr as (Hst & Hfr & l' & Hl' & _ & Hdl).
  apply wlp_bind. eapply wlp_seen_upd_dev; [done|]. intros d1 w2 Hd1 [Hv2 Hn2].
  apply wlp_bind. unfold wlp at 1; simpl.
  eapply wlp_seen_free_dev; [split; [reflexivity|exact Hn2]|]. intros w3 Hw3.
  assert (seen (v_remove_dev q v1) (w_next w) w3) as Hs3.
  { destruct Hw3 as [Hv3 Hn3]. split; [|done]. rewrite Hv3. revert Hv2. unfold view_of, set; simpl.
    intros Hv2. apply (f_equal (fun v => (v_clients v, v_conns v, v_devs v, v_usbdevs v,
      v_client_list v, v_device_list v))) in Hv2. simpl in Hv2. injection Hv2 as -> -> -> -> -> ->.
    unfold v_remove_dev. destruct v1; simpl. by rewrite delete_insert_eq. }
  split.
  - eapply seen_sim; [|exact Hs3]. intros _. split.
    + eapply rtc_r; [exact Hst|]. apply step_detach; [eauto|done].
    + by apply vfresh_remove_dev, Hfr, inv_vfresh.
  - destruct Hs3 as [Hv3 _]. apply (f_equal v_device_list) in Hv3. simpl in Hv3.
    by rewrite Hv3, Hdl.
Qed.

(** The last lines of [device_remove]. *)
Lemma wlp_remove_tail q v n Q w :
  seen v n w ->
  (forall w', seen (v_remove_dev q v) n w' -> Q (Some tt) w') ->
  wlp (d ← get_dev q;
       when (bool_decide (is_Some (dv_preflight_cb_data d)))
         (preflight_device_remove_cb (dv_preflight_cb_data d)) ;;
       modify (fun w => w <| device_list ::= fun l => coll_remove l q |>) ;;
       mutex_unlock device_list_mutex ;;
       free w_devs q ;;
       mret (Some tt)) Q w.
Proof.
  intros Hw HQ. apply (wlp_quiet_bind _ _ v n); [apply (preserves_load _)|done|].
  intros d w1 Hw1. apply (wlp_quiet_bind _ _ v n); [preserves_tac|done|]. intros [] w2 [Hv Hn].
  apply wlp_bind. unfold wlp at 1; simpl.
  apply (wlp_quiet_bind _ _ (v <| v_device_list ::= fun l => coll_remove l q |>) n).
  - eauto with preserves.
  - split; [by rewrite <- Hv|done].
  - intros [] w3 Hw3. apply wlp_bind. eapply wlp_seen_free_dev; [done|].
    intros w4 Hw4. by apply HQ.
Qed.

(** Removing a device that is active: its connections, then the device. *)
Lemma wlp_remove_active q d w :
  inv w -> v_devs (view_of w) !! q = Some (dev_v d) -> dv_state d = MUXDEV_ACTIVE ->
  wlp (upd_dev q (fun d => d <| dv_state := MUXDEV_DEAD |>) ;;
       teardown_connections q ;;
       client_device_remove (dv_id d) ;;
       upd_dev q (fun d => d <| dv_connections := None |>))
    (fun _ w' => exists v' d', seen (v' <| v_devs ::= <[q := d']> |>) (w_next w) w' /\
       drained q (w_next w) (view_of w) (dev_v d) [] v') w.
Proof.
  intros Hinv Hd Hs. apply wlp_bind. eapply wlp_seen_upd_dev; [apply seen_here|].
  intros d1 w1 Hd1 Hw1. rewrite Hd in Hd1. injection Hd1 as Hu Hi Hst Hc.
  eapply wlp_call; [eapply (wlp_teardown_connections q (w_next w) MUXDEV_DEAD (view_of w) (dev_v d))|].
  - apply Hinv.
  - done.
  - rewrite (mark_insert _ _ _ (dev_v d)) by done.
    replace ((dev_v d) <| vd_state := MUXDEV_DEAD |>)
      with (dev_v (d1 <| dv_state := MUXDEV_DEAD |>)); [done|].
    unfold dev_v; simpl; congruence.
  - done.
  - intros [] w2 (v2 & Hw2 & Hdr). eapply wlp_quiet_bind; [eauto with preserves|done|].
    intros [] w3 Hw3. eapply wlp_seen_upd_dev; [done|]. intros d4 w4 Hd4 Hw4.
    exists v2, (dev_v (d4 <| dv_connections := None |>)). split; [|done].
    destruct Hdr as (_ & _ & l' & Hd2 & _). destruct Hw4 as [Hv4 Hn4]. split; [|done].
    rewrite Hv4, (mark_insert _ _ _ _ Hd2). destruct v2; simpl. by rewrite insert_insert_eq.
Qed.

Lemma sim_device_remove u : Preserves sim (device_remove u).
Proof.
  intros w. apply sim_intro. intros Hinv. unfold device_remove.
  eapply wlp_quiet_bind; [eauto with preserves|apply seen_here|]. intros [] w1 Hw1.
  pose proof (quiet_sim w w1 Hw1) as Hs1. destruct (Hs1 Hinv) as [_ Hinv1].
  eapply wlp_call; [eapply (wlp_foreach_scan _ _ (fun _ => True) (fun _ => sim w)); [done|]|].
  2: { intros [[]|] w2 Hr; [by apply (wlp_sim (mret tt)); [apply (preserves_ret _)|]|].
       destruct Hr as [-> _]. apply wlp_sim; [apply preserves_quiet_sim; eauto with preserves|done]. }
  intros q _. apply wlp_bind. eapply wlp_seen_get_dev; [apply seen_here|]. intros d Hd _.
  destruct (decide (dv_usbdev d = u)) as [Hu|]; [|done].
  case_bool_decide as Hact; unfold when; apply wlp_bind.
  - eapply wlp_mono; [by apply (wlp_remove_active q d w1)|]. intros [] w2 (v2 & d2 & Hw2 & Hdr).
    eapply wlp_remove_tail; [done|]. intros w3 Hw3. unfold scan_post. etrans; [exact Hs1|].
    eapply (seen_sim _ (v_remove_dev q v2)).
    + intros _. pose proof (drained_no_conns _ _ _ _ _ (proj1 Hinv1) Hdr) as Hno.
      destruct Hdr as (Hst & Hfr & l' & Hl' & _). split.
      * eapply rtc_r; [exact Hst|]. apply step_detach; [eauto|done].
      * by apply vfresh_remove_dev, Hfr, inv_vfresh.
    + destruct Hw3 as [Hv3 Hn3]. split; [|exact Hn3]. rewrite Hv3. destruct v2; simpl.
      unfold v_remove_dev; simpl. by rewrite delete_insert_eq.
  - unfold wlp at 1; simpl. eapply wlp_remove_tail; [apply seen_here|]. intros w3 Hw3.
    unfold scan_post. etrans; [exact Hs1|]. eapply sim_remove_dev; [eauto| |exact Hw3].
    intros _. apply (init_no_conns _ _ (dev_v d)); [apply Hinv1|done|]. simpl.
    destruct Hinv1 as (_ & _ & Ha). specialize (Ha q _ Hd). simpl in Ha.
    by destruct (dv_state d).
Qed.

End refine_device.
