(* ===== verification/RefineUsb.v ===== *)
(** * RefineUsb: the USB layer only moves the session by its calls of device.c

    usb.c changes USB devices, transfers and buffers on its own; the session
    structure changes only through [device_add], [device_data_input] and
    [device_remove]. *)

From stdpp Require Import base gmap list strings.
From Stdlib Require Import ZArith Lia.
From S2P Require Import Prelude Platform Wire UsbSetup World Utils Conf Usb ClientOut DeviceOut.
From S2P Require Import Teardown Device Client UsbDevice UsbLoop Views Session RefineTeardown.
From S2P Require Import RefineDevice.

Local Open Scope Z_scope.

Section refine_usb.
Context `{E : Env} `{!CollectionLaws env_coll} `{U : UsbHost}.
Implicit Types w : world.

(** ** Primitive changes of usb.c *)

Lemma sim_usb_change w w' u :
  view_of w' = (view_of w) <| v_usbdevs := u |> -> (w_next w <= w_next w')%positive -> sim w w'.
Proof.
  intros Hv Hn. apply (seen_sim w ((view_of w) <| v_usbdevs := u |>) (w_next w)); [|done].
  intros Hinv. split; [apply rtc_once, step_usb|]. by apply inv_vfresh in Hinv.
Qed.

Lemma sim_upd_usb p f : Preserves sim (upd_usb p f).
Proof.
  intros w. apply wlp_update. intros u _. by eapply sim_usb_change; [done|simpl; lia].
Qed.

Lemma sim_malloc_usb u : Preserves sim (malloc w_usbdevs u).
Proof. intros w. apply wlp_malloc. by eapply sim_usb_change; [done|simpl; lia]. Qed.

Lemma sim_free_usb p : Preserves sim (free w_usbdevs p).
Proof. intros w. apply wlp_free. intros u _. by eapply sim_usb_change; [done|simpl; lia]. Qed.

Lemma quiet_upd_xfer p f : Preserves quiet (update w_xfers p f).
Proof. intros w. apply wlp_update. split; [done|simpl; lia]. Qed.
Lemma quiet_upd_buf p f : Preserves quiet (update w_bufs p f).
Proof. intros w. apply wlp_update. split; [done|simpl; lia]. Qed.
Lemma quiet_upd_ctx p f : Preserves quiet (update w_ctxs p f).
Proof. intros w. apply wlp_update. split; [done|simpl; lia]. Qed.
Lemma quiet_malloc_ctx a : Preserves quiet (malloc w_ctxs a).
Proof. intros w. apply wlp_malloc. split; [done|simpl; lia]. Qed.
Lemma quiet_free_ctx p : Preserves quiet (free w_ctxs p).
Proof. intros w. apply wlp_free. split; [done|simpl; lia]. Qed.
#[local] Hint Resolve sim_upd_usb sim_malloc_usb sim_free_usb quiet_upd_xfer quiet_upd_buf
  quiet_upd_ctx quiet_malloc_ctx quiet_free_ctx : preserves.
#[local] Hint Resolve sim_device_add sim_device_data_input sim_device_remove : preserves.

Lemma quiet_tick : Preserves quiet get_tick_count.
Proof. unfold get_tick_count. preserves_tac. Qed.
Lemma quiet_free_transfer x : Preserves quiet (libusb_free_transfer x).
Proof. unfold libusb_free_transfer. preserves_tac. Qed.
Lemma quiet_store b off s : Preserves quiet (store_bytes b off s).
Proof. unfold store_bytes. preserves_tac. Qed.
Lemma quiet_fill b s : Preserves quiet (fill_control_setup b s).
Proof. apply quiet_store. Qed.
Lemma quiet_tx_callback x s : Preserves quiet (tx_callback x s).
Proof. unfold tx_callback. preserves_tac. Qed.
#[local] Hint Resolve quiet_tick quiet_free_transfer quiet_store quiet_fill quiet_tx_callback : preserves.

Lemma sim_mark_dead p : Preserves sim (mark_dead p).
Proof. unfold mark_dead. preserves_tac. Qed.
Lemma quiet_find_device b a : Preserves quiet (find_device b a).
Proof. unfold find_device. preserves_tac. Qed.
Lemma quiet_submit_vendor p c k : Preserves quiet (submit_vendor_specific p c k).
Proof. unfold submit_vendor_specific. preserves_tac. Qed.
Lemma quiet_cancel xs : Preserves quiet xs -> Preserves quiet (cancel_xfers xs).
Proof. intros. unfold cancel_xfers. preserves_tac. Qed.
Lemma quiet_rx_xfers p : Preserves quiet (usb_rx_xfers p).
Proof. unfold usb_rx_xfers. preserves_tac. Qed.
Lemma quiet_tx_xfers p : Preserves quiet (usb_tx_xfers p).
Proof. unfold usb_tx_xfers. preserves_tac. Qed.
#[local] Hint Resolve sim_mark_dead quiet_find_device quiet_submit_vendor quiet_cancel
  quiet_rx_xfers quiet_tx_xfers : preserves.

(** ** Callbacks *)

Lemma sim_rx_callback x s n : Preserves sim (rx_callback x s n).
Proof. unfold rx_callback. preserves_tac. Qed.

Lemma sim_start_rx_loop p : Preserves sim (start_rx_loop p).
Proof. unfold start_rx_loop. preserves_tac. Qed.
#[local] Hint Resolve sim_rx_callback sim_start_rx_loop : preserves.

Lemma sim_start_rx_loops n p : Preserves sim (start_rx_loops n p).
Proof. induction n as [|n IH]; cbn [start_rx_loops]; preserves_tac. Qed.
#[local] Hint Resolve sim_start_rx_loops : preserves.

Lemma sim_set_valid_configuration_on d p : Preserves sim (set_valid_configuration_on d p).
Proof. unfold set_valid_configuration_on. preserves_tac. Qed.
#[local] Hint Resolve sim_set_valid_configuration_on : preserves.

Lemma sim_complete_initialization c : Preserves sim (device_complete_initialization c).
Proof. unfold device_complete_initialization. preserves_tac. Qed.
#[local] Hint Resolve sim_complete_initialization : preserves.

Lemma sim_get_langid x s : Preserves sim (get_langid_callback x s).
Proof. unfold get_langid_callback. preserves_tac. Qed.
Lemma sim_switch_mode_cb x s : Preserves sim (switch_mode_cb x s).
Proof. unfold switch_mode_cb. preserves_tac. Qed.
Lemma sim_get_mode_cb x s : Preserves sim (get_mode_cb x s).
Proof. unfold get_mode_cb. preserves_tac. Qed.
Lemma sim_usb_device_add d : Preserves sim (usb_device_add d).
Proof. unfold usb_device_add. preserves_tac. Qed.
#[local] Hint Resolve sim_get_langid sim_switch_mode_cb sim_get_mode_cb sim_usb_device_add : preserves.

Lemma sim_hotplug_arrived d : Preserves sim (usb_hotplug_arrived d).
Proof. unfold usb_hotplug_arrived. preserves_tac. Qed.
Lemma sim_hotplug_left d : Preserves sim (usb_hotplug_left d).
Proof. unfold usb_hotplug_left. preserves_tac. Qed.
#[local] Hint Resolve sim_hotplug_arrived sim_hotplug_left : preserves.

(** ** Functions that handle events *)

Section events.
Context (he : C world Z) (fuel : nat) (Hhe : Preserves sim he).
#[local] Hint Resolve Hhe : preserves.

Lemma sim_wait_xfers n p : Preserves sim (wait_xfers he n p).
Proof. induction n as [|n IH]; cbn [wait_xfers]; preserves_tac. Qed.
#[local] Hint Resolve sim_wait_xfers : preserves.

Lemma sim_usb_disconnect p : Preserves sim (usb_disconnect he fuel p).
Proof. unfold usb_disconnect. preserves_tac. Qed.
#[local] Hint Resolve sim_usb_disconnect : preserves.

Lemma sim_reap : Preserves sim (reap_dead_devices he fuel).
Proof. unfold reap_dead_devices. preserves_tac. Qed.
Lemma sim_get_serial x s : Preserves sim (get_serial_callback he fuel x s).
Proof. unfold get_serial_callback. preserves_tac. Qed.
#[local] Hint Resolve sim_reap sim_get_serial : preserves.

Lemma sim_usb_event_callback e : Preserves sim (usb_event_callback he fuel e).
Proof. unfold usb_event_callback, complete_transfer. preserves_tac. Qed.
#[local] Hint Resolve sim_usb_event_callback : preserves.

Lemma sim_usb_event_callbacks l : Preserves sim (usb_event_callbacks he fuel l).
Proof. induction l as [|e l IH]; cbn [usb_event_callbacks]; preserves_tac. Qed.
#[local] Hint Resolve sim_usb_event_callbacks : preserves.

Lemma sim_add_devices l n : Preserves sim (add_devices l n).
Proof. revert n. induction l as [|d l IH]; intros n; cbn [add_devices]; preserves_tac. Qed.
#[local] Hint Resolve sim_add_devices : preserves.

Lemma quiet_set_next_poll : Preserves quiet set_next_poll.
Proof. unfold set_next_poll. preserves_tac. Qed.
Lemma quiet_poll_remain : Preserves quiet dev_poll_remain.
Proof. unfold dev_poll_remain. preserves_tac. Qed.
#[local] Hint Resolve quiet_set_next_poll quiet_poll_remain : preserves.

Lemma sim_usb_discover : Preserves sim (usb_discover he fuel).
Proof. unfold usb_discover. preserves_tac. Qed.
#[local] Hint Resolve sim_usb_discover : preserves.

Lemma sim_usb_process : Preserves sim (usb_process he fuel).
Proof. unfold usb_process. preserves_tac. Qed.

Lemma sim_process_until n tfin tcur : Preserves sim (process_until he fuel n tfin tcur).
Proof. revert tcur. induction n as [|n IH]; intros tcur; cbn [process_until]; preserves_tac. Qed.

Lemma sim_usb_process_timeout ms : Preserves sim (usb_process_timeout he fuel ms).
Proof. unfold usb_process_timeout. preserves_tac. apply sim_process_until. Qed.

Lemma sim_usb_init l : Preserves sim (usb_init he fuel l).
Proof. unfold usb_init. preserves_tac. Qed.

Lemma sim_usb_shutdown : Preserves sim (usb_shutdown he fuel).
Proof. unfold usb_shutdown. preserves_tac. Qed.

End events.

Lemma sim_handle_events pending fuel depth : Preserves sim (handle_events pending fuel depth).
Proof.
  induction depth as [|depth IH]; cbn [handle_events]; preserves_tac.
  by apply sim_usb_event_callbacks.
Qed.

End refine_usb.
