(* ===== verification/RefineClient.v ===== *)
(** * RefineClient: the handlers of client.c refine the session protocol *)

From stdpp Require Import base gmap list strings.
From Stdlib Require Import ZArith Lia String.
From S2P Require Import Prelude Platform Wire World Utils Conf Usb ClientOut DeviceOut.
From S2P Require Import Teardown Device Client Views Session RefineTeardown RefineDevice.

Local Open Scope list_scope.
Local Open Scope Z_scope.

Section refine_client.
Context `{E : Env} `{!CollectionLaws env_coll}.
Implicit Types w : world.

(** ** Accepting a client *)

Lemma sim_client_accept fd : Preserves sim (client_accept fd).
Proof.
  intros w. apply sim_intro. intros Hinv. unfold client_accept.
  apply wlp_bind. unfold wlp at 1; simpl. eapply wlp_quiet_bind;
    [eauto with preserves|apply seen_here|]. intros [] w1 Hw1.
  pose proof (quiet_sim w w1 Hw1) as Hs1. destruct (Hs1 Hinv) as [_ Hinv1].
  destruct (sys_accept (w_trace w) fd) as [cfd|err]; [|exact Hs1].
  apply wlp_bind. unfold wlp at 1; simpl. apply wlp_bind, wlp_malloc.
  set (c := mk_client _ _ _ _ _ _ _ _ _ _ _ _ _ _ _). set (cl := w_next w1).
  pose proof (inv_vfresh w1 Hinv1) as Hf1. destruct (Hf1 cl) as (Hcn & _ & _); [unfold cl; lia|].
  assert (seen ((view_of w1) <| v_clients ::= <[cl := client_v c]> |>) (Pos.succ cl)
    ((set w_clients <[cl := c]> w1) <| w_next := Pos.succ cl |>)) as Hnew.
  { split; [|simpl; lia]. unfold view_of; simpl. by rewrite fmap_insert. }
  eapply wlp_quiet_bind; [eauto with preserves|exact Hnew|]. intros [] w2 Hw2.
  apply wlp_bind. unfold wlp at 1; simpl.
  eapply wlp_quiet_bind; [eauto with preserves|exact Hw2|]. intros [] w3 [Hv3 Hn3].
  apply wlp_bind. unfold wlp at 1; simpl.
  apply wlp_sim; [apply preserves_quiet_sim; preserves_tac|]. etrans; [exact Hs1|].
  eapply (seen_sim _ ((view_of w1) <| v_clients ::= <[cl := client_v c]> |>
    <| v_client_list ::= fun l => coll_add l cl |>) (Pos.succ cl)).
  2: { split; [|done]. change (client_list w1) with (v_client_list (view_of w1)).
       unfold view_of at 1. simpl. by injection Hv3 as -> -> -> -> -> ->. }
  intros _. split.
  - by apply rtc_once, (step_accept _ cl 0).
  - apply vfresh_client_list. intros p Hp. destruct (Hf1 p) as (? & ? & ?); [unfold cl in *; lia|].
    simpl. rewrite lookup_insert_ne by (unfold cl in *; lia). done.
Qed.

(** ** Opening a connection *)

Lemma wlp_get_mux_device_for_id id v n w :
  seen v n w ->
  wlp (get_mux_device_for_id id) (fun r w' => seen v n w' /\
    match r with Some q => exists d, v_devs v !! q = Some d /\ vd_id d = id | None => True end) w.
Proof.
  intros Hw. unfold get_mux_device_for_id.
  eapply wlp_quiet_bind; [eauto with preserves|done|]. intros [] w1 Hw1.
  eapply wlp_call; [eapply (wlp_foreach_scan _ _ (fun _ => True) (fun q w' => seen v n w' /\
    exists d, v_devs v !! q = Some d /\ vd_id d = id)); [done|]|].
  - intros q _. apply wlp_bind. eapply wlp_seen_get_dev; [done|]. intros d Hd _.
    destruct (Z.eqb_spec (dv_id d) id); unfold wlp, scan_post; simpl; eauto 8.
  - intros [q|] w2 Hr.
    + destruct Hr as [Hw2 Hd]. eapply wlp_quiet_bind; [eauto with preserves|done|].
      by intros [] w3 Hw3.
    + destruct Hr as [-> _]. eapply wlp_quiet_bind; [eauto with preserves|done|].
      by intros [] w3 Hw3.
Qed.

(** No connection of the device uses this source port. *)
Definition sport_free (v : view) (q : ptr) (sport : Z) : Prop :=
  forall d l p c, v_devs v !! q = Some d -> vd_connections d = Some l -> p ∈ coll_elems l ->
    v_conns v !! p = Some c -> cv_sport c <> sport.

Lemma wlp_find_sport_loop fuel q v n w :
  seen v n w ->
  wlp (find_sport_loop fuel q) (fun sport w' => seen v n w' /\ sport_free v q sport) w.
Proof.
  revert w. induction fuel as [|fuel IH]; intros w Hw; cbn [find_sport_loop]; [done|].
  destruct (w_devs w !! q) as [d|] eqn:Hd.
  2: { unfold wlp, foreach, dev_connections, mbind, C_bind, load. by rewrite Hd. }
  destruct (dv_connections d) as [l|] eqn:Hl.
  2: { unfold wlp, foreach, dev_connections, mbind, C_bind, load. by rewrite Hd, Hl. }
  eapply wlp_call; [eapply (wlp_foreach_scan _ _ (fun p => forall c, w_conns w !! p = Some c ->
    cn_sport c <> dv_next_sport d) (fun _ => seen v n) w l)|].
  - unfold dev_connections, mbind, C_bind, load. by rewrite Hd, Hl.
  - intros p _. apply wlp_bind, wlp_load. intros d' Hd'. rewrite Hd in Hd'. injection Hd' as <-.
    apply wlp_bind, wlp_load. intros c Hc. destruct (Z.eqb_spec (dv_next_sport d) (cn_sport c)).
    + eapply wlp_quiet_bind; [eauto with preserves|done|]. by intros [] w2 Hw2.
    + split; [done|]. intros p'. rewrite list_elem_of_singleton. intros -> c' Hc'. congruence.
  - intros [[]|] w2 Hr; [by apply IH|]. destruct Hr as [-> Hr].
    apply wlp_bind, wlp_load. intros d' Hd'. rewrite Hd in Hd'. injection Hd' as <-.
    eapply wlp_quiet_bind; [eauto with preserves|done|]. intros [] w3 Hw3. split; [done|].
    intros dv l' p c Hdv Hl' Hp Hc. destruct Hw as [<- _].
    rewrite (lookup_v_devs _ _ _ Hd) in Hdv. injection Hdv as <-. simpl in Hl'.
    apply v_conns_inv in Hc as (c' & Hc' & ->). simpl. apply (Hr p); congruence.
Qed.

Lemma wlp_find_sport q v n w :
  seen v n w ->
  wlp (find_sport q) (fun sport w' => seen v n w' /\ (sport <> 0 -> sport_free v q sport)) w.
Proof.
  intros Hw. unfold find_sport. eapply wlp_quiet_bind; [eauto with preserves|done|].
  intros l w1 Hw1. destruct (65535 <=? coll_count l); [by split|].
  eapply wlp_mono; [by apply wlp_find_sport_loop|]. intros sport w2 [? ?]. by split.
Qed.

(** The view with a new connection [p] of the client to the device [q]. *)
Definition connecting (v : view) (id : Z) (cl : ptr) (n : ptr) (v' : view) : Prop :=
  exists p q d l c, (n <= p)%positive /\
    v_devs v !! q = Some d /\ vd_id d = id /\ vd_connections d = Some l /\
    sport_free v q (cv_sport c) /\ cv_dev c = q /\ cv_client c = Some cl /\
    cv_state c = CONN_CONNECTING /\
    v' = v <| v_conns ::= <[p := c]> |>
           <| v_devs ::= <[q := d <| vd_connections := Some (coll_add l p) |>]> |>.

Lemma v_delete_new_conn v p c :
  v_conns v !! p = None -> v <| v_conns ::= <[p := c]> |> <| v_conns ::= delete p |> = v.
Proof. intros H. destruct v; simpl in *. by rewrite delete_insert_id. Qed.

Lemma wlp_add_connection q p v n Q w :
  seen v n w ->
  (forall d l w', v_devs v !! q = Some d -> vd_connections d = Some l ->
    seen (v <| v_devs ::= <[q := d <| vd_connections := Some (coll_add l p) |>]> |>) n w' ->
    Q tt w') ->
  wlp (upd_connections q (fun l => coll_add l p)) Q w.
Proof.
  intros Hw HQ. unfold upd_connections, dev_connections. apply wlp_bind, wlp_bind.
  eapply wlp_seen_get_dev; [done|]. intros d Hd _.
  destruct (dv_connections d) as [l|] eqn:Hl; [|done]. unfold wlp at 1; simpl.
  eapply wlp_seen_upd_dev; [done|]. intros d' w' Hd' Hw'. apply (HQ (dev_v d) l); [done..|].
  rewrite Hd in Hd'. injection Hd' as Hu Hi Hs Hc.
  replace ((dev_v d) <| vd_connections := Some (coll_add l p) |>)
    with (dev_v (d' <| dv_connections := Some (coll_add l p) |>)); [done|].
  unfold dev_v; simpl; congruence.
Qed.

Lemma wlp_device_start_connect id port cl v n w :
  vfresh v n -> seen v n w ->
  wlp (device_start_connect id port cl) (fun res w' =>
    (res < 0 /\ seen v n w') \/
    (res = 0 /\ exists v', connecting v id cl n v' /\ seen v' n w' /\ vfresh v' (w_next w'))) w.
Proof.
  intros Hf Hw. unfold device_start_connect.
  eapply wlp_call; [by apply wlp_get_mux_device_for_id|]. intros [q|] w1 [Hw1 Hd]; [|by left].
  destruct Hd as (d & Hd & Hid).
  eapply wlp_call; [by apply wlp_find_sport|]. intros sport w2 [Hw2 Hsp].
  destruct (Z.eqb_spec sport 0); [by left|]. specialize (Hsp n0).
  apply wlp_bind. unfold wlp at 1; simpl. apply wlp_bind, wlp_malloc.
  set (c := new_connection _ _ _ _ _). set (p := w_next w2).
  assert (v_conns v !! p = None) as Hpn by (apply Hf; apply Hw2).
  assert (seen (v <| v_conns ::= <[p := conn_v c]> |>) (Pos.succ p)
    ((set w_conns <[p := c]> w2) <| w_next := Pos.succ p |>)) as Hnew.
  { destruct Hw2 as [<- Hn2]. split; [|simpl; lia]. unfold view_of; simpl. by rewrite fmap_insert. }
  eapply wlp_quiet_bind; [eauto with preserves|exact Hnew|]. intros res w3 Hw3.
  destruct (res <? 0).
  - apply wlp_bind. eapply wlp_seen_free_conn; [done|]. intros w4 [Hv4 Hn4]. left. split; [done|].
    rewrite v_delete_new_conn in Hv4 by done. split; [done|]. destruct Hw2 as [_ Hn2].
    unfold p in *. lia.
  - apply wlp_bind. eapply wlp_add_connection; [exact Hw3|]. intros d' l w4 Hd' Hl Hw4.
    right. split; [done|]. simpl in Hd'. assert (d' = d) as -> by congruence.
    destruct Hw2 as [_ Hn2]. eexists. split; [|split].
    + exists p, q, d, l, (conn_v c). split_and!; done.
    + destruct Hw4 as [Hv4 Hn4]. split; [exact Hv4|]. unfold p in *. lia.
    + intros p' Hp'. destruct Hw4 as [_ Hn4]. destruct (Hf p') as (? & ? & ?); [unfold p in *; lia|].
      simpl. rewrite (lookup_insert_ne (v_conns v)) by (unfold p in *; lia).
      rewrite lookup_insert_ne by congruence. done.
Qed.

(** ** Commands

    A command is handled only while its client is in the command phase. *)

Definition in_command (w : world) (cl : ptr) : Prop :=
  inv w /\ exists k, v_clients (view_of w) !! cl = Some (CLIENT_COMMAND, k).

Definition csim {A} (cl : ptr) (m : C world A) : Prop :=
  forall w, in_command w cl -> wlp m (fun _ => sim w) w.

Lemma csim_sim {A} cl (m : C world A) : Preserves sim m -> csim cl m.
Proof. intros H w _. apply H. Qed.

Lemma csim_quiet_bind {A B} cl (m : C world A) (k : A -> C world B) :
  Preserves quiet m -> (forall a, csim cl (k a)) -> csim cl (m ≫= k).
Proof.
  intros Hm Hk w [Hinv Hc]. eapply wlp_quiet_bind; [done|apply seen_here|]. intros a w1 Hw1.
  pose proof (quiet_sim w w1 Hw1) as Hs1. eapply wlp_mono; [apply Hk|].
  - split; [by apply Hs1|]. by destruct Hw1 as [-> _].
  - intros b w2 H2. by etrans.
Qed.

Lemma csim_start_listen cl : csim cl (start_listen cl).
Proof.
  intros w [Hinv [k Hk]]. unfold start_listen. apply wlp_bind.
  eapply wlp_seen_upd_client; [apply seen_here|]. intros c w1 Hc Hw1.
  apply wlp_sim; [apply preserves_quiet_sim; preserves_tac|].
  rewrite Hk in Hc. injection Hc as _ Hcd.
  eapply seen_sim; [|exact Hw1]. intros _. split.
  - apply rtc_once. unfold client_v; simpl. rewrite <- Hcd. by apply step_listen.
  - by eapply vfresh_set_client; [apply inv_vfresh|].
Qed.

Lemma csim_start_connect cl tag id port : csim cl (start_connect cl tag id port).
Proof.
  intros w [Hinv [k Hk]]. unfold start_connect.
  eapply wlp_call; [apply wlp_device_start_connect; [by apply inv_vfresh|apply seen_here]|].
  intros res w1 [[Hres Hw1]|(-> & v1 & Hc1 & Hw1 & Hf1)].
  - rewrite (proj2 (Z.ltb_lt _ _)) by done.
    apply wlp_sim; [apply preserves_quiet_sim; eauto with preserves|by apply quiet_sim].
  - simpl. destruct Hc1 as (p & q & d & l & c & Hp & Hd & Hid & Hl & Hsp & Hcd & Hcl & Hst & ->).
    apply wlp_bind. pose proof Hw1 as [Hv1 Hn1].
    eapply wlp_seen_upd_client; [split; [exact Hv1|reflexivity]|]. intros c2 w2 Hc2 Hw2.
    unfold wlp; simpl. eapply seen_sim; [|exact Hw2]. intros _. split.
    + apply rtc_once. unfold client_v; simpl. rewrite <- Hid.
      apply (step_connect (view_of w) cl k p c q d l); try done.
      * apply (inv_vfresh w Hinv). lia.
      * intros p' c' Hc' Hq'. apply (Hsp d l p'); try done.
        destruct (wf_conn_dev _ (proj1 Hinv) p' c' Hc') as (d' & l' & Hd' & Hl' & Hin).
        assert (d' = d) as -> by congruence. by assert (l' = l) as -> by congruence.
    + by eapply vfresh_set_client.
Qed.

Lemma csim_handle_listen cl tag : csim cl (handle_listen cl tag).
Proof.
  unfold handle_listen. apply csim_quiet_bind; [eauto with preserves|]. intros r.
  destruct (r <? 0); [apply csim_sim, (preserves_ret _)|apply csim_start_listen].
Qed.

Lemma csim_handle_connect cl tag dict : csim cl (handle_connect cl tag dict).
Proof.
  unfold handle_connect. destruct (uint_node dict "DeviceID"); [|apply csim_sim; preserves_tac].
  destruct (uint_node dict "PortNumber"); [apply csim_start_connect|apply csim_sim; preserves_tac].
Qed.

Lemma csim_handle_plist cl tag payload : csim cl (handle_plist cl tag payload).
Proof.
  unfold handle_plist. apply csim_quiet_bind; [eauto with preserves|]. intros _.
  destruct (plist_from_xml payload) as [dict|]; [|apply csim_sim, (preserves_ret _)].
  destruct (Conf.string_node _) as [message|]; [|apply csim_sim, (preserves_ret _)].
  apply csim_quiet_bind; [eauto with preserves|]. intros _.
  destruct (String.eqb message "Listen"); [apply csim_handle_listen|].
  destruct (String.eqb message "Connect"); [apply csim_handle_connect|].
  apply csim_sim, preserves_quiet_sim. preserves_tac.
Qed.

(** The state of a client that is not a raw data stream. *)
Definition not_connected (w : world) (cl : ptr) : Prop :=
  forall k, v_clients (view_of w) !! cl = Some k -> k.1 <> CLIENT_CONNECTED.

Lemma sim_client_close cl w : inv w -> not_connected w cl -> wlp (client_close cl) (fun _ => sim w) w.
Proof.
  intros Hinv Hnc. eapply wlp_client_close; [apply Hinv|apply seen_here|..].
  { intros k Hk Hcon. by destruct (Hnc k Hk). }
  intros v' w' Hcl Hw'. eapply seen_sim; [|exact Hw']. intros _.
  split; [by eapply closed_steps|by eapply closed_fresh; [apply inv_vfresh|]].
Qed.

(** The same for a function that may close the client. *)
Definition ncsim {A} (cl : ptr) (m : C world A) : Prop :=
  forall w, inv w -> not_connected w cl -> wlp m (fun _ => sim w) w.

Lemma ncsim_sim {A} cl (m : C world A) : Preserves sim m -> ncsim cl m.
Proof. intros H w _ _. apply H. Qed.

Lemma ncsim_quiet {A} cl (m : C world A) : Preserves quiet m -> ncsim cl m.
Proof. intros H. by apply ncsim_sim, preserves_quiet_sim. Qed.

Lemma ncsim_quiet_bind {A B} cl (m : C world A) (k : A -> C world B) :
  Preserves quiet m -> (forall a, ncsim cl (k a)) -> ncsim cl (m ≫= k).
Proof.
  intros Hm Hk w Hinv Hc. eapply wlp_quiet_bind; [done|apply seen_here|]. intros a w1 Hw1.
  pose proof (quiet_sim w w1 Hw1) as Hs1. eapply wlp_mono; [apply Hk|].
  - by apply Hs1.
  - unfold not_connected. by destruct Hw1 as [-> _].
  - intros b w2 H2. by etrans.
Qed.

(** A step after which only quiet things happen. *)
Lemma ncsim_bind_quiet {A B} cl (m : C world A) (k : A -> C world B) :
  ncsim cl m -> (forall a, Preserves quiet (k a)) -> ncsim cl (m ≫= k).
Proof.
  intros Hm Hk w Hinv Hc. eapply wlp_call; [by apply Hm|]. intros a w1 Hw1.
  by apply wlp_sim; [apply preserves_quiet_sim|].
Qed.

Lemma ncsim_client_close cl : ncsim cl (client_close cl).
Proof. intros w. apply sim_client_close. Qed.

Lemma ncsim_handle_command cl buf : ncsim cl (handle_command cl buf).
Proof.
  intros w Hinv Hnc. unfold handle_command. apply wlp_bind.
  eapply wlp_seen_get_client; [apply seen_here|]. intros c Hc _.
  destruct (decide (cl_state c <> CLIENT_COMMAND)) as [Hst|Hst].
  - revert w Hinv Hnc Hc. intros w Hinv Hnc _.
    refine (ncsim_quiet_bind cl _ _ _ _ w Hinv Hnc); [eauto with preserves|]. intros r.
    destruct (r <? 0); [apply ncsim_sim, (preserves_ret _)|].
    apply ncsim_bind_quiet; [apply ncsim_client_close|]. intros _. preserves_tac.
  - apply dec_stable in Hst.
    assert (in_command w cl) as Hic
      by (split; [done|]; exists (cl_connect_device c); rewrite Hc; unfold client_v; by rewrite Hst).
    destruct (_ && _).
    { revert w Hinv Hnc Hc Hic. intros w _ _ _ _. apply preserves_quiet_sim. preserves_tac. }
    destruct (_ =? _); [by apply csim_handle_plist|].
    destruct (_ =? _); [by apply csim_handle_listen|].
    destruct (_ =? _); [by apply csim_start_connect|].
    apply preserves_quiet_sim. preserves_tac.
Qed.

Lemma ncsim_read_input cl n : ncsim cl (read_input cl n).
Proof.
  unfold read_input. apply ncsim_quiet_bind; [preserves_tac|]. intros c.
  apply ncsim_quiet_bind; [eauto with preserves|]. intros r.
  assert (ncsim cl (client_close cl ;; mret false)) as Hclose
    by (apply ncsim_bind_quiet; [apply ncsim_client_close|intros _; preserves_tac]).
  destruct r as [[|b bs]|e]; [done| |done]. destruct (cl_ib_buf c); [|done].
  apply ncsim_quiet. preserves_tac.
Qed.

Lemma ncsim_output_buffer_process cl : ncsim cl (output_buffer_process cl).
Proof.
  intros w Hinv Hnc. unfold output_buffer_process. apply wlp_bind.
  eapply wlp_seen_get_client; [apply seen_here|]. intros c Hc _.
  destruct (cl_ob_size c =? 0); [apply preserves_quiet_sim; preserves_tac|].
  apply wlp_bind. destruct (cl_ob_buf c) as [b|]; [|done]. unfold wlp at 1; simpl.
  eapply wlp_quiet_bind; [eauto with preserves|apply seen_here|]. intros r w1 Hw1.
  pose proof (quiet_sim w w1 Hw1) as Hs1. destruct (Hs1 Hinv) as [_ Hinv1].
  destruct (_ <=? 0).
  { eapply wlp_mono; [apply (ncsim_client_close cl w1 Hinv1)|].
    - unfold not_connected. by destruct Hw1 as [-> _].
    - intros [] w2 H2. by etrans. }
  destruct (_ =? _).
  2: { apply wlp_sim; [apply preserves_quiet_sim; eauto with preserves|done]. }
  eapply wlp_quiet_bind; [eauto with preserves|exact Hw1|]. intros [] w2 Hw2.
  case_bool_decide as Hst; [|by apply quiet_sim].
  unfold when. eapply wlp_seen_upd_client; [exact Hw2|]. intros c' w3 Hc' Hw3.
  rewrite Hc in Hc'. injection Hc' as Hcs Hcd.
  change (seen ((view_of w) <| v_clients ::= <[cl := (CLIENT_CONNECTED, cl_connect_device c')]> |>)
    (w_next w) w3) in Hw3.
  rewrite <- Hcd in Hw3. eapply seen_sim; [|exact Hw3]. intros _.
  assert (v_clients (view_of w) !! cl = Some (CLIENT_CONNECTING2, cl_connect_device c)) as Hk
    by (rewrite Hc; unfold client_v; by rewrite Hst).
  split; [by apply rtc_once, step_established|]. by eapply vfresh_set_client; [apply inv_vfresh|].
Qed.

(** [read_input] closes the client or leaves the session alone. *)
Lemma wlp_read_input cl n w :
  wlp (read_input cl n) (fun ok w' => ok = true -> quiet w w') w.
Proof.
  unfold read_input. eapply wlp_quiet_bind; [preserves_tac|apply seen_here|]. intros c w1 Hw1.
  eapply wlp_quiet_bind; [eauto with preserves|exact Hw1|]. intros r w2 Hw2.
  assert (wlp (client_close cl ;; mret false) (fun ok w' => ok = true -> quiet w w') w2) as Hclose
    by (eapply wlp_call; [apply wlp_true|]; by intros ? ? _).
  destruct r as [[|b bs]|e]; [done| |done]. destruct (cl_ib_buf c) as [buf|]; [|done].
  destruct (_ <? _); [done|].
  eapply wlp_quiet_bind; [eauto with preserves|exact Hw2|]. by intros [] w3 Hw3 _.
Qed.

(** A loop step: read some input; when there is a result, go on. *)
Lemma ncsim_read_bind {B} cl n (k : bool -> C world B) :
  ncsim cl (k true) -> Preserves quiet (k false) ->
  ncsim cl (read_input cl n ≫= k).
Proof.
  intros Ht Hf w Hinv Hnc.
  eapply wlp_call; [apply wlp_conj; [by apply ncsim_read_input|apply wlp_read_input]|].
  intros [] w1 [Hs1 Hq1].
  - specialize (Hq1 eq_refl). eapply wlp_mono; [apply Ht|].
    + by apply Hs1.
    + unfold not_connected. by destruct Hq1 as [-> _].
    + intros b w2 H2. by etrans.
  - by apply wlp_sim; [apply preserves_quiet_sim|].
Qed.

(** Dispatch of a complete message, in continuation form. *)
Lemma ncsim_dispatch cl : ncsim cl (
  c ← get_client cl;
  buf ← lift_option NullDeref (cl_ib_buf c);
  handle_command cl buf ;;
  upd_client cl (fun c => c <| cl_ib_size := 0 |>)).
Proof.
  apply ncsim_quiet_bind; [preserves_tac|]. intros c.
  apply ncsim_quiet_bind; [preserves_tac|]. intros buf.
  apply ncsim_bind_quiet; [apply ncsim_handle_command|]. intros _. eauto with preserves.
Qed.

Lemma bind_assoc {A B D} (m : C world A) (f : A -> C world B) (g : B -> C world D) w :
  ((m ≫= f) ≫= g) w = (m ≫= (fun a => f a ≫= g)) w.
Proof. unfold mbind, C_bind. by destruct (m w). Qed.

Lemma ncsim_ext {A} cl (m m' : C world A) : (forall w, m w = m' w) -> ncsim cl m' -> ncsim cl m.
Proof. intros He H w Hinv Hnc. unfold wlp. rewrite He. by apply (H w). Qed.

Lemma ncsim_assoc {A B D} cl (m : C world A) (f : A -> C world B) (g : B -> C world D) :
  ncsim cl (m ≫= (fun a => f a ≫= g)) -> ncsim cl ((m ≫= f) ≫= g).
Proof. apply ncsim_ext. intros w. apply bind_assoc. Qed.

Lemma ncsim_input_buffer_process cl : ncsim cl (input_buffer_process cl).
Proof.
  unfold input_buffer_process. apply ncsim_quiet_bind; [preserves_tac|]. intros c0.
  match goal with |- ncsim cl (_ ≫= ?k) => set (cont := k) end.
  assert (forall b, ncsim cl (cont (Some b))) as Hcont.
  { intros did. unfold cont. apply ncsim_quiet_bind; [preserves_tac|]. intros c.
    apply ncsim_quiet_bind; [preserves_tac|]. intros buf. cbv zeta.
    destruct (_ <? _); [apply ncsim_client_close|].
    destruct (_ <? _); [apply ncsim_client_close|].
    destruct (_ <? _); [|apply ncsim_quiet_bind; [preserves_tac|intros [|]];
      [apply ncsim_dispatch|apply ncsim_quiet; preserves_tac]].
    destruct did; [apply ncsim_quiet; preserves_tac|].
    apply ncsim_assoc, ncsim_read_bind; [|preserves_tac]. simpl.
    apply ncsim_quiet_bind; [preserves_tac|intros [|]];
      [apply ncsim_dispatch|apply ncsim_quiet; preserves_tac]. }
  destruct (_ <? _).
  - apply ncsim_assoc, ncsim_read_bind; [|unfold cont; preserves_tac]. simpl.
    apply ncsim_quiet_bind; [preserves_tac|]. intros [b|]; [apply Hcont|].
    apply ncsim_quiet. unfold cont; preserves_tac.
  - apply ncsim_quiet_bind; [preserves_tac|]. intros [b|]; [apply Hcont|].
    apply ncsim_quiet. unfold cont; preserves_tac.
Qed.

Lemma sim_client_process fd ev : Preserves sim (client_process fd ev).
Proof.
  intros w. apply sim_intro. intros Hinv. unfold client_process.
  eapply wlp_quiet_bind; [eauto with preserves|apply seen_here|]. intros [] w1 Hw1.
  eapply wlp_quiet_bind; [preserves_tac|exact Hw1|]. intros r w2 Hw2.
  eapply wlp_quiet_bind; [eauto with preserves|exact Hw2|]. intros [] w3 Hw3.
  pose proof (quiet_sim w w3 Hw3) as Hs3. destruct (Hs3 Hinv) as [_ Hinv3].
  destruct r as [cl|]; [|exact Hs3]. apply wlp_bind.
  eapply wlp_seen_get_client; [apply seen_here|]. intros c Hc _.
  destruct (decide (cl_state c = CLIENT_CONNECTED)) as [|Hst];
    [apply wlp_sim; [apply sim_device_client_process|done]|].
  assert (not_connected w3 cl) as Hnc
    by (intros k Hk; rewrite Hc in Hk; injection Hk as <-; done).
  destruct (flag_set ev POLLIN).
  - eapply wlp_mono; [by apply ncsim_input_buffer_process|]. intros [] w4 H4. by etrans.
  - destruct (flag_set ev POLLOUT); [|exact Hs3].
    eapply wlp_mono; [by apply ncsim_output_buffer_process|]. intros [] w4 H4. by etrans.
Qed.

End refine_client.
