(* ===== verification/Frame.v ===== *)
(** * Frame: what no handler of the main loop does

    The history of what the process did only grows; the handlers make none of
    the system calls of main.c (no change of credentials, no signals, no
    fork); the descriptor of a client never changes and is closed before the
    client is freed; the identifier and the preflight data of a device never
    change, and the records of the preflight workers are neither created nor
    freed. *)

From stdpp Require Import base gmap list strings.
From Stdlib Require Import ZArith Lia.
From S2P Require Import Prelude Platform Wire UsbSetup World Utils Conf Usb ClientOut DeviceOut.
From S2P Require Import Teardown Device Client UsbDevice UsbLoop RefineTeardown.

Local Open Scope Z_scope.

Section frame.
Context `{E : Env}.
Implicit Types w : world.

(** Events that only main.c causes. *)
Definition process_event (e : event) : bool :=
  match e with EvSys _ _ | EvPoll _ | EvExit _ => true | _ => false end.

(** The client is still there with its descriptor, or that was closed. *)
Definition client_kept (evs : list event) w w' (cl : ptr) (k : mux_client) : Prop :=
  (exists k', w_clients w' !! cl = Some k' /\ cl_fd k' = cl_fd k) \/ EvClose (cl_fd k) ∈ evs.

(** The device was there with its identifier and data, or it is new. *)
Definition device_kept w (q : ptr) (d' : mux_device) : Prop :=
  ((w_next w <= q)%positive /\ dv_preflight_cb_data d' = None) \/
  exists d, w_devs w !! q = Some d /\ dv_id d = dv_id d' /\
    dv_preflight_cb_data d = dv_preflight_cb_data d'.

Record framed (evs : list event) w w' : Prop := {
  fr_trace : w_trace w' = evs ++ w_trace w;
  fr_events : Forall (fun e => process_event e = false) evs;
  fr_clients cl k : w_clients w !! cl = Some k -> client_kept evs w w' cl k;
  fr_devs q d' : w_devs w' !! q = Some d' -> device_kept w q d';
  fr_cbs : dom (w_cbs w') = dom (w_cbs w);
  fr_next : (w_next w <= w_next w')%positive;
}.

Definition frame w w' : Prop := fresh_ok w -> fresh_ok w' /\ exists evs, framed evs w w'.

Lemma framed_refl w : framed [] w w.
Proof.
  split; [done|done|intros cl k Hk; left; eauto|intros q d Hd; right; eauto|done|lia].
Qed.

Lemma framed_trans evs evs' w1 w2 w3 :
  framed evs w1 w2 -> framed evs' w2 w3 -> framed (evs' ++ evs) w1 w3.
Proof.
  intros F G. split.
  - by rewrite (fr_trace _ _ _ G), (fr_trace _ _ _ F), app_assoc.
  - apply Forall_app. split; [apply G|apply F].
  - intros cl k Hk. destruct (fr_clients _ _ _ F cl k Hk) as [(k' & Hk' & Hfd)|Hc].
    + destruct (fr_clients _ _ _ G cl k' Hk') as [(k2 & Hk2 & Hfd2)|Hc].
      * left. exists k2. split; [done|congruence].
      * right. apply elem_of_app. left. by rewrite <- Hfd.
    + right. apply elem_of_app. by right.
  - intros q d Hd. pose proof (fr_next _ _ _ F).
    destruct (fr_devs _ _ _ G q d Hd) as [[Hn Hcb]|(d' & Hd' & Hid & Hcb)]; [left; split; [lia|done]|].
    destruct (fr_devs _ _ _ F q d' Hd') as [[Hn Hcb1]|(d1 & Hd1 & Hid1 & Hcb1)].
    + left. split; [done|congruence].
    + right. exists d1. split_and!; congruence.
  - by rewrite (fr_cbs _ _ _ G), (fr_cbs _ _ _ F).
  - pose proof (fr_next _ _ _ F). pose proof (fr_next _ _ _ G). lia.
Qed.

#[export] Instance frame_preorder : PreOrder frame.
Proof.
  split.
  - intros w Hf. split; [done|]. exists []. apply framed_refl.
  - intros w1 w2 w3 H1 H2 Hf. destruct (H1 Hf) as [Hf2 [evs F]].
    destruct (H2 Hf2) as [Hf3 [evs' G]]. split; [done|]. exists (evs' ++ evs).
    by eapply framed_trans.
Qed.

Lemma wlp_frame {A} (m : C world A) w w1 :
  Preserves frame m -> frame w w1 -> wlp m (fun _ => frame w) w1.
Proof. intros Hm H. eapply wlp_mono; [apply Hm|]. intros ? w2 H2. by etrans. Qed.

Lemma wlp_frame_call {A B} (m : C world A) (k : A -> C world B) Q w :
  Preserves frame m -> (forall a w', frame w w' -> wlp (k a) Q w') -> wlp (m ≫= k) Q w.
Proof. intros Hm Hk. eapply wlp_call; [apply Hm|exact Hk]. Qed.

(** ** Primitives *)

(** A step that changes neither clients nor devices. *)
Lemma frame_aside w w' evs :
  w_clients w' = w_clients w -> w_devs w' = w_devs w -> dom (w_cbs w') = dom (w_cbs w) ->
  w_trace w' = evs ++ w_trace w -> Forall (fun e => process_event e = false) evs ->
  (w_next w <= w_next w')%positive -> (fresh_ok w -> fresh_ok w') -> frame w w'.
Proof.
  intros Hc Hd Hcb Ht Hev Hnx Hfr Hf. split; [auto|]. exists evs. split; try done.
  - intros cl k Hk. left. rewrite Hc. eauto.
  - intros q d' Hd'. right. rewrite Hd in Hd'. eauto.
Qed.

(** Applies it and closes the simple premises. *)
Ltac aside evs := apply (frame_aside _ _ evs); try done; try (simpl; lia).

Lemma fresh_ok_le w w' :
  w_clients w' = w_clients w -> w_conns w' = w_conns w -> w_devs w' = w_devs w ->
  (w_next w <= w_next w')%positive -> fresh_ok w -> fresh_ok w'.
Proof. intros Hc Hn Hd Hle H p Hp. rewrite Hc, Hn, Hd. apply H. lia. Qed.

Lemma fresh_insert {A} (m : gmap ptr A) (n p : ptr) (x y : A) :
  m !! p = Some x -> m !! n = None -> <[p := y]> m !! n = None.
Proof. intros Hx Hn. rewrite lookup_insert_ne; [done|congruence]. Qed.

Lemma fresh_delete {A} (m : gmap ptr A) (n p : ptr) : m !! n = None -> delete p m !! n = None.
Proof. intros. apply lookup_delete_None. by right. Qed.

Lemma frame_modify f :
  (forall w, w_clients (f w) = w_clients w /\ w_conns (f w) = w_conns w /\ w_devs (f w) = w_devs w /\
     w_cbs (f w) = w_cbs w /\ w_next (f w) = w_next w /\ w_trace (f w) = w_trace w) ->
  Preserves frame (modify f).
Proof.
  intros H. apply preserves_modify. intros w. destruct (H w) as (Hc & Hn & Hd & Hcb & Hx & Ht).
  aside (@nil event); [by rewrite Hcb|]. apply fresh_ok_le; try done. lia.
Qed.

Lemma frame_emit e : process_event e = false -> Preserves frame (emit e).
Proof.
  intros He. apply preserves_modify. intros w. aside ([e]).
  by constructor.
Qed.

Lemma frame_lock m : Preserves frame (mutex_lock m).
Proof.
  intros w. unfold wlp, mutex_lock. case_decide; [done|].
  aside ([EvLock m]). by constructor.
Qed.
Lemma frame_unlock m : Preserves frame (mutex_unlock m).
Proof.
  apply preserves_modify. intros w. aside ([EvUnlock m]).
  by constructor.
Qed.

Lemma frame_upd_conn p f : Preserves frame (upd_conn p f).
Proof.
  intros w. apply wlp_update. intros c Hc. aside (@nil event).
  intros H q Hq. destruct (H q Hq) as (? & ? & ?). split_and!; try done. by eapply fresh_insert.
Qed.

Lemma frame_malloc_conn c : Preserves frame (malloc w_conns c).
Proof.
  intros w. apply wlp_malloc. aside (@nil event).
  intros H q Hq. simpl in Hq. destruct (H q) as (? & ? & ?); [lia|]. split_and!; try done.
  simpl. rewrite lookup_insert_ne; [done|lia].
Qed.

Lemma frame_free_conn p : Preserves frame (free w_conns p).
Proof.
  intros w. apply wlp_free. intros c Hc. aside (@nil event).
  intros H q Hq. destruct (H q Hq) as (? & ? & ?). split_and!; try done. by apply fresh_delete.
Qed.

Lemma frame_upd_usb p f : Preserves frame (upd_usb p f).
Proof. intros w. apply wlp_update. intros c Hc. aside (@nil event). Qed.
Lemma frame_free_usb p : Preserves frame (free w_usbdevs p).
Proof. intros w. apply wlp_free. intros c Hc. aside (@nil event). Qed.
Lemma frame_free_xfer p : Preserves frame (free w_xfers p).
Proof. intros w. apply wlp_free. intros c Hc. aside (@nil event). Qed.
Lemma frame_upd_xfer p f : Preserves frame (update w_xfers p f).
Proof. intros w. apply wlp_update. intros c Hc. aside (@nil event). Qed.
Lemma frame_free_buf p : Preserves frame (free w_bufs p).
Proof. intros w. apply wlp_free. intros c Hc. aside (@nil event). Qed.
Lemma frame_upd_buf p f : Preserves frame (update w_bufs p f).
Proof. intros w. apply wlp_update. intros c Hc. aside (@nil event). Qed.
Lemma frame_free_ctx p : Preserves frame (free w_ctxs p).
Proof. intros w. apply wlp_free. intros c Hc. aside (@nil event). Qed.
Lemma frame_upd_ctx p f : Preserves frame (update w_ctxs p f).
Proof. intros w. apply wlp_update. intros c Hc. aside (@nil event). Qed.

Lemma fresh_ok_next w w' :
  w_clients w' = w_clients w -> w_conns w' = w_conns w -> w_devs w' = w_devs w ->
  w_next w' = Pos.succ (w_next w) -> fresh_ok w -> fresh_ok w'.
Proof. intros ? ? ? Hn. apply fresh_ok_le; try done. rewrite Hn. lia. Qed.

Lemma frame_malloc_usb u : Preserves frame (malloc w_usbdevs u).
Proof. intros w. apply wlp_malloc. aside (@nil event). by apply fresh_ok_next. Qed.
Lemma frame_malloc_xfer u : Preserves frame (malloc w_xfers u).
Proof. intros w. apply wlp_malloc. aside (@nil event). by apply fresh_ok_next. Qed.
Lemma frame_malloc_buf u : Preserves frame (malloc w_bufs u).
Proof. intros w. apply wlp_malloc. aside (@nil event). by apply fresh_ok_next. Qed.
Lemma frame_malloc_ctx u : Preserves frame (malloc w_ctxs u).
Proof. intros w. apply wlp_malloc. aside (@nil event). by apply fresh_ok_next. Qed.

Lemma frame_upd_cb p f : Preserves frame (update w_cbs p f).
Proof.
  intros w. apply wlp_update. intros c Hc. aside (@nil event). simpl.
  by rewrite dom_insert_lookup_L.
Qed.

Lemma frame_upd_client p f : (forall c, cl_fd (f c) = cl_fd c) -> Preserves frame (upd_client p f).
Proof.
  intros Hf w. apply wlp_update. intros c Hc Hfr. split.
  { intros q Hq. destruct (Hfr q Hq) as (? & ? & ?). split_and!; try done. by eapply fresh_insert. }
  exists []. split; try done; try (simpl; lia).
  - intros cl k Hk. left. simpl. destruct (decide (p = cl)) as [->|Hne].
    + rewrite lookup_insert_eq. eexists. split; [done|]. rewrite Hf. congruence.
    + rewrite lookup_insert_ne by done. eauto.
  - intros q d Hd. right. eauto.
Qed.

Lemma frame_malloc_client c : Preserves frame (malloc w_clients c).
Proof.
  intros w. apply wlp_malloc. intros Hfr. split.
  { intros q Hq. simpl in Hq. destruct (Hfr q) as (? & ? & ?); [lia|]. split_and!; try done.
    simpl. rewrite lookup_insert_ne; [done|lia]. }
  exists []. split; try done; try (simpl; lia).
  - intros cl k Hk. left. simpl. pose proof (proj1 (Hfr (w_next w) ltac:(lia))) as Hn.
    rewrite lookup_insert_ne by congruence. eauto.
  - intros q d Hd. right. eauto.
Qed.

Lemma frame_upd_dev p f :
  (forall d, dv_id (f d) = dv_id d /\ dv_preflight_cb_data (f d) = dv_preflight_cb_data d) ->
  Preserves frame (upd_dev p f).
Proof.
  intros Hf w. apply wlp_update. intros c Hc Hfr. split.
  { intros q Hq. destruct (Hfr q Hq) as (? & ? & ?). split_and!; try done. by eapply fresh_insert. }
  exists []. split; try done; try (simpl; lia).
  - intros cl k Hk. left. eauto.
  - intros q d. simpl. rewrite lookup_insert_Some. intros [[-> <-]|[_ Hd]]; right; [|eauto].
    destruct (Hf c) as [Hi Hcb]. eauto.
Qed.

Lemma frame_malloc_dev d : dv_preflight_cb_data d = None -> Preserves frame (malloc w_devs d).
Proof.
  intros Hnone w. apply wlp_malloc. intros Hfr. split.
  { intros q Hq. simpl in Hq. destruct (Hfr q) as (? & ? & ?); [lia|]. split_and!; try done.
    simpl. rewrite lookup_insert_ne; [done|lia]. }
  exists []. split; try done; try (simpl; lia).
  - intros cl k Hk. left. eauto.
  - intros q d'. simpl. rewrite lookup_insert_Some. intros [[Hq <-]|[_ Hd]].
    + left. split; [lia|done].
    + right. eauto.
Qed.

Lemma frame_free_dev p : Preserves frame (free w_devs p).
Proof.
  intros w. apply wlp_free. intros c Hc Hfr. split.
  { intros q Hq. destruct (Hfr q Hq) as (? & ? & ?). split_and!; try done. by apply fresh_delete. }
  exists []. split; try done; try (simpl; lia).
  - intros cl k Hk. left. eauto.
  - intros q d. simpl. rewrite lookup_delete_Some. intros [_ Hd]. right. eauto.
Qed.

(** The end of [client_close]: the descriptor is closed before the client is
    freed. *)
Lemma frame_close_tail cl :
  Preserves frame (c ← get_client cl;
       emit (EvClose (cl_fd c)) ;;
       modify (fun w => w <| client_list ::= fun l => coll_remove l cl |>) ;;
       mutex_unlock client_list_mutex ;;
       free w_clients cl).
Proof.
  intros w. apply wlp_bind, wlp_load. intros c Hc. unfold wlp, mbind, C_bind, free; simpl.
  rewrite Hc. intros Hfr. split.
  { intros q Hq. destruct (Hfr q Hq) as (? & ? & ?). split_and!; try done. by apply fresh_delete. }
  exists [EvUnlock client_list_mutex; EvClose (cl_fd c)]. split; try done; try (simpl; lia).
  - by repeat constructor.
  - intros cl' k Hk. unfold client_kept; simpl. destruct (decide (cl = cl')) as [->|Hne].
    + right. assert (k = c) as -> by congruence. by right; left.
    + left. rewrite lookup_delete_ne by done. eauto.
  - intros q d Hd. right. eauto.
Qed.

End frame.

#[export] Hint Resolve frame_lock frame_unlock frame_upd_conn frame_malloc_conn frame_free_conn
  frame_upd_usb frame_free_usb frame_free_xfer frame_upd_xfer frame_free_buf frame_upd_buf
  frame_free_ctx frame_upd_ctx frame_malloc_usb frame_malloc_xfer frame_malloc_buf
  frame_malloc_ctx frame_upd_cb frame_malloc_client frame_free_dev frame_close_tail : preserves.
#[export] Hint Extern 1 (Preserves frame (emit _)) => apply frame_emit; done : preserves.
#[export] Hint Extern 2 (Preserves frame (modify _)) => apply frame_modify; done : preserves.
#[export] Hint Extern 2 (Preserves frame (upd_client _ _)) => apply frame_upd_client; done : preserves.
#[export] Hint Extern 2 (Preserves frame (upd_dev _ _)) => apply frame_upd_dev; done : preserves.
#[export] Hint Extern 2 (Preserves frame (malloc w_devs _)) => apply frame_malloc_dev; done : preserves.

Section collect.
Context `{E : Env}.
Lemma frame_collect_devices {A} h (f : ptr -> mux_device -> C world A) l :
  (forall p d, Preserves frame (f p d)) -> Preserves frame (collect_devices h f l).
Proof. intros Hf. induction l; simpl; preserves_tac. Qed.
End collect.

(** Decomposes a function and unfolds the functions it calls. *)
Ltac frame_tac :=
  repeat first
    [ progress preserves_tac
    | match goal with
      | |- Preserves frame (collect_devices _ _ _) => apply frame_collect_devices; intros ? ?
      end
    | match goal with |- Preserves frame ?m => let h := get_head m in unfold h end ].

Ltac frame_here := match goal with |- Preserves frame ?m => let h := get_head m in unfold h end; frame_tac.

(** ** The functions of the components *)

Section functions.
Context `{E : Env} `{U : UsbHost}.

(** Loops *)

Lemma frame_get_next_device_id_loop n : Preserves frame (get_next_device_id_loop n).
Proof. induction n; simpl; frame_tac. Qed.
#[local] Hint Resolve frame_get_next_device_id_loop : preserves.

Lemma frame_find_sport_loop n dev : Preserves frame (find_sport_loop n dev).
Proof. induction n; simpl; frame_tac. Qed.
#[local] Hint Resolve frame_find_sport_loop : preserves.

Lemma frame_mkdir_from n d m : Preserves frame (Conf.mkdir_with_parents_from n d m).
Proof. revert d; induction n; intros d; simpl; frame_tac. Qed.
#[local] Hint Resolve frame_mkdir_from : preserves.

Lemma frame_uuid_loop i n : Preserves frame (Conf.uuid_loop i n).
Proof. revert i; induction n; intros i; simpl; frame_tac. Qed.
#[local] Hint Resolve frame_uuid_loop : preserves.

Lemma frame_print_string p b : Preserves frame (print_string p b).
Proof. revert p; induction b; intros [[|]|]; simpl; frame_tac. Qed.
#[local] Hint Resolve frame_print_string : preserves.

Lemma frame_load_conns l : Preserves frame (load_conns l).
Proof. induction l; simpl; frame_tac. Qed.
#[local] Hint Resolve frame_load_conns : preserves.

Lemma frame_active_conns l : Preserves frame (active_conns l).
Proof. induction l; simpl; frame_tac. Qed.
#[local] Hint Resolve frame_active_conns : preserves.

Lemma frame_add_client_fds l pl : Preserves frame (add_client_fds l pl).
Proof. revert pl; induction l; intros pl; simpl; frame_tac. Qed.
#[local] Hint Resolve frame_add_client_fds : preserves.

Lemma frame_append_device_plists l d : Preserves frame (append_device_plists l d).
Proof. revert d; induction l; intros d; simpl; frame_tac. Qed.
#[local] Hint Resolve frame_append_device_plists : preserves.

Lemma frame_append_listeners c l d : Preserves frame (append_listeners c l d).
Proof. revert d; induction l; intros d; simpl; frame_tac. Qed.
#[local] Hint Resolve frame_append_listeners : preserves.

Lemma frame_flush_loop n conn t : Preserves frame (flush_loop n conn t).
Proof. revert t; induction n; intros t; simpl; frame_tac. Qed.
#[local] Hint Resolve frame_flush_loop : preserves.

(** Replies, notifications and packets *)

Lemma frame_send_plist c t p : Preserves frame (send_plist c t p).
Proof. frame_here. Qed.
#[local] Hint Resolve frame_send_plist : preserves.

Lemma frame_client_device_remove id : Preserves frame (client_device_remove id).
Proof. frame_here. Qed.
#[local] Hint Resolve frame_client_device_remove : preserves.

Lemma frame_client_device_add i : Preserves frame (client_device_add i).
Proof. frame_here. Qed.
#[local] Hint Resolve frame_client_device_add : preserves.

Lemma frame_send_device_adds c l : Preserves frame (send_device_adds c l).
Proof. induction l; simpl; frame_tac. Qed.
#[local] Hint Resolve frame_send_device_adds : preserves.

Lemma frame_device_get_list h : Preserves frame (device_get_list h).
Proof. frame_here. Qed.
#[local] Hint Resolve frame_device_get_list : preserves.

Lemma frame_device_matches i r l : Preserves frame (device_matches i r l).
Proof. induction l; simpl; frame_tac. Qed.
#[local] Hint Resolve frame_device_matches : preserves.

Lemma frame_send_tcp conn flags data : Preserves frame (send_tcp conn flags data).
Proof. frame_here. Qed.
#[local] Hint Resolve frame_send_tcp : preserves.

Lemma frame_send_packet dev proto h d : Preserves frame (send_packet dev proto h d).
Proof. frame_here. Qed.
#[local] Hint Resolve frame_send_packet : preserves.

Lemma frame_config_set_device_record u d : Preserves frame (Conf.config_set_device_record u d).
Proof. frame_here. Qed.
#[local] Hint Resolve frame_config_set_device_record : preserves.

Lemma frame_config_get_system_buid : Preserves frame (Conf.config_get_system_buid).
Proof. frame_here. Qed.
#[local] Hint Resolve frame_config_get_system_buid : preserves.

Lemma frame_config_has_device_record u : Preserves frame (Conf.config_has_device_record u).
Proof. frame_here. Qed.
#[local] Hint Resolve frame_config_has_device_record : preserves.

Lemma frame_get_host_id u : Preserves frame (Conf.config_device_record_get_host_id u).
Proof. frame_here. Qed.
#[local] Hint Resolve frame_get_host_id : preserves.

Lemma frame_config_remove_device_record u : Preserves frame (Conf.config_remove_device_record u).
Proof. frame_here. Qed.
#[local] Hint Resolve frame_config_remove_device_record : preserves.

(** Teardown *)

Lemma frame_client_close_with t cl : (forall p, Preserves frame (t p)) -> Preserves frame (client_close_with t cl).
Proof. intros Ht. frame_here. Qed.
#[local] Hint Resolve frame_client_close_with : preserves.

Lemma frame_teardown_depth n p : Preserves frame (connection_teardown_depth n p).
Proof. revert p. induction n as [|n IH]; intros p; cbn [connection_teardown_depth]; frame_tac. Qed.
#[local] Hint Resolve frame_teardown_depth : preserves.

Lemma frame_teardown_connections q : Preserves frame (teardown_connections q).
Proof. frame_here. Qed.
#[local] Hint Resolve frame_teardown_connections : preserves.

(** Handlers of device.c *)

Lemma frame_connection_device_input p l : Preserves frame (connection_device_input p l).
Proof. frame_here. Qed.
#[local] Hint Resolve frame_connection_device_input : preserves.

Lemma frame_device_client_process id cl ev : Preserves frame (device_client_process id cl ev).
Proof. frame_here. Qed.
#[local] Hint Resolve frame_device_client_process : preserves.

Lemma frame_device_check_timeouts : Preserves frame device_check_timeouts.
Proof. frame_here. Qed.
#[local] Hint Resolve frame_device_check_timeouts : preserves.

Lemma frame_device_data_input u b n : Preserves frame (device_data_input u b n).
Proof. frame_here. Qed.
#[local] Hint Resolve frame_device_data_input : preserves.

Lemma frame_device_add u : Preserves frame (device_add u).
Proof. frame_here. Qed.
#[local] Hint Resolve frame_device_add : preserves.

Lemma frame_device_remove u : Preserves frame (device_remove u).
Proof. frame_here. Qed.
#[local] Hint Resolve frame_device_remove : preserves.

Lemma frame_device_shutdown : Preserves frame device_shutdown.
Proof. frame_here. Qed.
#[local] Hint Resolve frame_device_shutdown : preserves.

Lemma frame_device_start_connect id port cl : Preserves frame (device_start_connect id port cl).
Proof. frame_here. Qed.
#[local] Hint Resolve frame_device_start_connect : preserves.

(** Handlers of client.c *)

Lemma frame_client_accept fd : Preserves frame (client_accept fd).
Proof. frame_here. Qed.
#[local] Hint Resolve frame_client_accept : preserves.

Lemma frame_send_result c t r : Preserves frame (send_result c t r).
Proof. frame_here. Qed.
#[local] Hint Resolve frame_send_result : preserves.

Lemma frame_start_listen c : Preserves frame (start_listen c).
Proof. frame_here. Qed.
#[local] Hint Resolve frame_start_listen : preserves.

Lemma frame_start_connect c t d p : Preserves frame (start_connect c t d p).
Proof. frame_here. Qed.
#[local] Hint Resolve frame_start_connect : preserves.

Lemma frame_client_device_paired id : Preserves frame (client_device_paired id).
Proof. frame_here. Qed.
#[local] Hint Resolve frame_client_device_paired : preserves.

Lemma frame_save_pair_record d : Preserves frame (save_pair_record d).
Proof. frame_here. Qed.
#[local] Hint Resolve frame_save_pair_record : preserves.

Lemma frame_update_client_info c d : Preserves frame (update_client_info c d).
Proof. frame_here. Qed.
#[local] Hint Resolve frame_update_client_info : preserves.

Lemma frame_handle_command cl b : Preserves frame (handle_command cl b).
Proof. frame_here. Qed.
#[local] Hint Resolve frame_handle_command : preserves.

Lemma frame_client_process fd ev : Preserves frame (client_process fd ev).
Proof. frame_here. Qed.
#[local] Hint Resolve frame_client_process : preserves.

Lemma frame_client_shutdown : Preserves frame client_shutdown.
Proof. frame_here. Qed.
#[local] Hint Resolve frame_client_shutdown : preserves.

Lemma frame_client_get_fds l : Preserves frame (client_get_fds l).
Proof. frame_here. Qed.
#[local] Hint Resolve frame_client_get_fds : preserves.


(** The USB layer *)

Lemma frame_start_rx_loops n p : Preserves frame (start_rx_loops n p).
Proof. induction n; cbn [start_rx_loops]; frame_tac. Qed.
#[local] Hint Resolve frame_start_rx_loops : preserves.

Lemma frame_set_valid_configuration_on d p : Preserves frame (set_valid_configuration_on d p).
Proof.
  intros w. unfold set_valid_configuration_on. apply wlp_bind, wlp_load. intros u Hu.
  apply wlp_bind. unfold wlp at 1, gets.
  destruct (set_valid_configuration _ _ _ _ _) as [found ops]. apply wlp_bind. unfold wlp at 1; simpl.
  apply wlp_frame; [destruct found; frame_tac|].
  apply (frame_aside _ _ (rev (map (ev_of_op p) ops))); try done.
  apply Forall_forall. intros e. rewrite list_elem_of_In, <- in_rev, in_map_iff.
  by intros ([i|v] & <- & _).
Qed.
#[local] Hint Resolve frame_set_valid_configuration_on : preserves.

Lemma frame_complete_initialization c : Preserves frame (device_complete_initialization c).
Proof. frame_here. Qed.
#[local] Hint Resolve frame_complete_initialization : preserves.

Lemma frame_usb_device_add d : Preserves frame (usb_device_add d).
Proof. frame_here. Qed.
#[local] Hint Resolve frame_usb_device_add : preserves.

Lemma frame_add_devices l n : Preserves frame (add_devices l n).
Proof. revert n; induction l; intros n; cbn [add_devices]; frame_tac. Qed.
#[local] Hint Resolve frame_add_devices : preserves.

Section events.
Context (he : C world Z) (fuel : nat) (Hhe : Preserves frame he).
#[local] Hint Resolve Hhe : preserves.

(** Functions that handle events *)

Lemma frame_wait_xfers n p : Preserves frame (wait_xfers he n p).
Proof. induction n; cbn [wait_xfers]; frame_tac. Qed.
#[local] Hint Resolve frame_wait_xfers : preserves.

Lemma frame_usb_disconnect p : Preserves frame (usb_disconnect he fuel p).
Proof. frame_here. Qed.
#[local] Hint Resolve frame_usb_disconnect : preserves.

Lemma frame_usb_event_callbacks l : Preserves frame (usb_event_callbacks he fuel l).
Proof. induction l; cbn [usb_event_callbacks]; frame_tac. Qed.
#[local] Hint Resolve frame_usb_event_callbacks : preserves.

Lemma frame_usb_discover : Preserves frame (usb_discover he fuel).
Proof. frame_here. Qed.
#[local] Hint Resolve frame_usb_discover : preserves.

Lemma frame_usb_process : Preserves frame (usb_process he fuel).
Proof. frame_here. Qed.
#[local] Hint Resolve frame_usb_process : preserves.

Lemma frame_process_until n tfin tcur : Preserves frame (process_until he fuel n tfin tcur).
Proof. revert tcur; induction n; intros tcur; cbn [process_until]; frame_tac. Qed.
#[local] Hint Resolve frame_process_until : preserves.

Lemma frame_usb_process_timeout ms : Preserves frame (usb_process_timeout he fuel ms).
Proof. frame_here. Qed.
#[local] Hint Resolve frame_usb_process_timeout : preserves.

Lemma frame_usb_init l : Preserves frame (usb_init he fuel l).
Proof. frame_here. Qed.
#[local] Hint Resolve frame_usb_init : preserves.

Lemma frame_usb_shutdown : Preserves frame (usb_shutdown he fuel).
Proof. frame_here. Qed.
#[local] Hint Resolve frame_usb_shutdown : preserves.

Lemma frame_device_kill_connections : Preserves frame (device_kill_connections (usb_process_timeout he fuel)).
Proof. frame_here. Qed.
#[local] Hint Resolve frame_device_kill_connections : preserves.

End events.

(** The event loop *)

Lemma frame_handle_events pending fuel depth : Preserves frame (handle_events pending fuel depth).
Proof. induction depth; cbn [handle_events]; frame_tac. by apply frame_usb_event_callbacks. Qed.
#[local] Hint Resolve frame_handle_events : preserves.

End functions.

#[export] Hint Resolve frame_device_check_timeouts frame_device_remove frame_client_accept
  frame_client_process frame_client_device_add frame_client_get_fds frame_active_conns
  frame_handle_events frame_usb_discover frame_usb_process frame_usb_process_timeout
  frame_usb_init frame_usb_shutdown frame_device_kill_connections frame_device_shutdown
  frame_client_shutdown frame_config_get_system_buid frame_config_has_device_record
  frame_get_host_id frame_config_remove_device_record frame_teardown_connections
  frame_client_device_remove : preserves.
