(* ===== verification/ShutdownFacts.v ===== *)
(** * ShutdownFacts: what is left after the daemon has shut down

    [main] ends with [device_kill_connections], [usb_shutdown],
    [device_shutdown] and [client_shutdown]. *)

From stdpp Require Import base gmap list strings.
From Stdlib Require Import ZArith Lia.
From S2P Require Import Prelude Platform Wire UsbSetup World Utils Conf Instances Usb ClientOut.
From S2P Require Import DeviceOut Teardown Device Client UsbDevice UsbLoop Main Scenario Views Session.
From S2P Require Import RefineTeardown RefineDevice RefineUsb RefineClient Frame ScenarioFacts.

Local Open Scope Z_scope.

Section shutdown.
Context `{E : Env} `{U : UsbHost} `{!CollectionLaws env_coll}.
Implicit Types w : world.

(** Nobody is connected and the lists are new, as [client_init] and
    [device_init] leave them. *)
Definition initial (w : world) : Prop :=
  w_clients w = ∅ /\ w_conns w = ∅ /\ w_devs w = ∅ /\
  client_list w = coll_init /\ device_list w = coll_init.

Lemma sim_device_kill_connections he fuel :
  Preserves sim he -> Preserves sim (device_kill_connections (usb_process_timeout he fuel)).
Proof.
  intros Hhe. unfold device_kill_connections. preserves_tac.
  - apply sim_teardown_connections.
  - by apply sim_usb_process_timeout.
Qed.

(** ** Loops that empty their collection *)

(** The invariant of a loop over the collection [l] that takes out what it
    visits: nothing is left but what is still to be visited. *)
Lemma wlp_drain_loop (l : world -> coll) (I : world -> Prop) (body : ptr -> C world unit) w :
  (forall w, I w -> NoDup (coll_elems (l w))) ->
  (forall p w, I w -> p ∈ coll_elems (l w) ->
     wlp (body p) (fun _ w' => I w' /\ l w' = coll_remove (l w) p) w) ->
  I w -> wlp (foreach (gets l) (each body)) (fun _ w' => I w' /\ coll_elems (l w') = []) w.
Proof.
  intros Hnd Hbody HI. unfold foreach. apply wlp_bind. unfold wlp at 1, gets.
  assert (forall ps w, I w -> (forall p, p ∈ coll_elems (l w) -> p ∈ ps) ->
    wlp (foreach_from (gets l) ps (each body)) (fun _ w' => I w' /\ coll_elems (l w') = []) w) as Hgo;
    [|by apply Hgo].
  clear w HI. induction ps as [|p ps IH]; intros w HI Hin; cbn [foreach_from].
  { split; [done|]. destruct (coll_elems (l w)) as [|q qs] eqn:Hq; [done|].
    exfalso. apply (not_elem_of_nil q), Hin. left. }
  apply wlp_bind. unfold wlp at 1, gets. case_decide as Hp.
  - apply wlp_bind. unfold each. apply wlp_bind. eapply wlp_mono; [by apply Hbody|].
    intros ? w1 [HI1 Hl1]. unfold wlp at 1; simpl. apply IH; [done|]. intros q.
    rewrite Hl1, elem_of_coll_remove by auto. intros [Hne Hq].
    apply Hin, elem_of_cons in Hq as [|]; done.
  - apply IH; [done|]. intros q Hq. pose proof (Hin q Hq) as Hq'.
    apply elem_of_cons in Hq' as [->|]; done.
Qed.

(** ** Devices, then clients *)

Lemma no_elems_empty {A} (m : gmap ptr A) (l : list ptr) :
  (forall p, p ∈ l <-> is_Some (m !! p)) -> l = [] -> m = ∅.
Proof.
  intros H ->. apply map_empty. intros p. apply eq_None_not_Some. rewrite <- H.
  apply not_elem_of_nil.
Qed.

Lemma wf_no_devs v : wf v -> coll_elems (v_device_list v) = [] -> v_devs v = ∅ /\ v_conns v = ∅.
Proof.
  intros Hwf Hl. assert (v_devs v = ∅) as Hd by (eapply no_elems_empty; [apply Hwf|done]).
  split; [done|]. apply map_empty. intros p. apply eq_None_not_Some. intros [c Hc].
  destruct (wf_conn_dev _ Hwf p c Hc) as (d & l & Hdv & _). by rewrite Hd, lookup_empty in Hdv.
Qed.

Lemma quiet_inv w w' : inv w -> quiet w w' -> inv w'.
Proof. intros H Hq. by apply (quiet_sim _ _ Hq). Qed.

(** Without devices, the device list may be a new one. *)
Lemma inv_new_device_list w :
  inv w -> w_devs w = ∅ -> inv (w <| device_list := coll_init |>).
Proof.
  intros (Hwf & Hfr & Ha) Hd. assert (v_devs (view_of w) = ∅) as Hvd by (simpl; by rewrite Hd, fmap_empty).
  split; [|split; [exact Hfr|exact Ha]]. split; try apply Hwf.
  - simpl. rewrite coll_init_elems. constructor.
  - intros p. simpl. rewrite coll_init_elems, Hd, fmap_empty, lookup_empty, elem_of_nil.
    by split; [|intros []].
Qed.

Lemma wlp_device_shutdown w :
  inv w -> wlp device_shutdown (fun _ w' => inv w' /\ w_devs w' = ∅ /\ w_conns w' = ∅ /\
    device_list w' = coll_init) w.
Proof.
  intros Hinv. unfold device_shutdown.
  eapply wlp_quiet_bind; [eauto with preserves|apply seen_here|]. intros ? w1 Hw1.
  pose proof (quiet_inv _ _ Hinv Hw1) as Hinv1.
  eapply wlp_call; [apply (wlp_drain_loop device_list inv); [| |done]|].
  - intros w2 Hw2. apply (wf_dev_nodup _ (proj1 Hw2)).
  - intros p w2 Hw2 _. eapply wlp_mono; [by apply wlp_shutdown_device|].
    intros ? w3 [Hs Hl]. split; [by apply Hs|done].
  - intros ? w2 [Hinv2 Hl2].
    eapply wlp_quiet_bind; [eauto with preserves|apply seen_here|]. intros ? w3 Hw3.
    pose proof (quiet_inv _ _ Hinv2 Hw3) as Hinv3.
    assert (coll_elems (device_list w3) = []) as Hl3.
    { destruct Hw3 as [Hv _]. apply (f_equal v_device_list) in Hv. simpl in Hv. by rewrite Hv. }
    destruct (wf_no_devs _ (proj1 Hinv3) Hl3) as [Hd Hc]. simpl in Hd, Hc.
    apply fmap_empty_inv in Hd, Hc. unfold wlp; simpl. split; [|done].
    by apply inv_new_device_list.
Qed.

Lemma wlp_client_shutdown w :
  inv w -> w_conns w = ∅ -> w_devs w = ∅ -> device_list w = coll_init ->
  wlp client_shutdown (fun _ w' => initial w') w.
Proof.
  intros Hinv Hc Hd Hdl. unfold client_shutdown.
  set (I := fun w => inv w /\ w_conns w = ∅ /\ w_devs w = ∅ /\ device_list w = coll_init).
  eapply wlp_call; [apply (wlp_drain_loop client_list I); [| |done]|].
  - intros w1 [Hw1 _]. apply (wf_client_nodup _ (proj1 Hw1)).
  - clear w Hinv Hc Hd Hdl. intros p w (Hinv & Hc & Hd & Hdl) Hp.
    assert (forall q, v_conns (view_of w) !! q = None) as Hnone
      by (intros q; simpl; by rewrite Hc, fmap_empty, lookup_empty).
    assert (no_conn_of (view_of w) p) as Hno by (intros q c Hq; by rewrite Hnone in Hq).
    eapply wlp_client_close; [apply Hinv|apply seen_here|done|]. intros v' w' Hcl Hw'.
    assert (inv w') as Hinv'.
    { refine (proj2 (seen_sim w v' (w_next w) w' _ Hw' Hinv)). intros _.
      split; [by eapply closed_steps|by eapply closed_fresh; [apply inv_vfresh|]]. }
    assert (v' = v_remove_client p (view_of w)) as ->.
    { destruct Hcl as [Hn|Hk _|q c Hq _]; [|done|by rewrite Hnone in Hq].
      exfalso. apply (wf_client_list _ (proj1 Hinv)) in Hp as [k Hk]. congruence. }
    destruct Hw' as [Hv' _]. unfold I.
    apply (f_equal (fun v => (v_conns v, v_devs v, v_device_list v, v_client_list v))) in Hv'.
    simpl in Hv'. injection Hv' as Hc' Hd' Hdl' Hcl'. rewrite Hc, fmap_empty in Hc'.
    rewrite Hd, fmap_empty in Hd'. apply fmap_empty_inv in Hc', Hd'.
    split_and!; try done. congruence.
  - intros ? w1 [(Hinv1 & Hc1 & Hd1 & Hdl1) Hl1].
    assert (v_clients (view_of w1) = ∅) as Hcl
      by (eapply no_elems_empty; [apply (wf_client_list _ (proj1 Hinv1))|done]).
    simpl in Hcl. apply fmap_empty_inv in Hcl. unfold wlp; simpl. by split_and!.
Qed.

(** From any state of the daemon. *)
Lemma wlp_shutdown pending fuel depth w :
  inv w -> wlp (shutdown pending fuel depth) (fun _ w' => initial w') w.
Proof.
  intros Hinv. pose proof (sim_handle_events pending fuel depth) as Hhe. unfold shutdown.
  eapply wlp_call; [by apply sim_device_kill_connections|]. intros ? w1 H1.
  eapply wlp_call; [by apply sim_usb_shutdown|]. intros ? w2 H2.
  destruct (H1 Hinv) as [_ Hinv1]. destruct (H2 Hinv1) as [_ Hinv2].
  eapply wlp_call; [by apply wlp_device_shutdown|]. intros ? w3 (Hinv3 & Hd & Hc & Hl).
  by apply wlp_client_shutdown.
Qed.

Lemma frame_shutdown pending fuel depth : Preserves frame (shutdown pending fuel depth).
Proof.
  pose proof (frame_handle_events pending fuel depth) as Hhe. unfold shutdown, usb_events.
  preserves_tac; by apply frame_device_kill_connections || by apply frame_usb_shutdown.
Qed.


End shutdown.

Section witness.
Import Instances Scenario.

Fixpoint rounds (t : list event) : nat :=
  match t with
  | [] => O
  | EvUsbEvents _ :: t' => S (rounds t')
  | _ :: t' => rounds t'
  end.

(** libusb is interrupted once and then reports that the two resets that were
    sent are cancelled. *)
Definition shutdown_pending (t : list event) : Z * list usb_event :=
  match rounds t with
  | O => (-1, [])
  | _ => (0, [UeTransfer 9%positive TRANSFER_CANCELLED []; UeTransfer 11%positive TRANSFER_CANCELLED []])
  end.


End witness.
