(* ===== verification/RefineMain.v ===== *)
(** * RefineMain: the process around the session protocol

    What a function of main.c does to the world of the other components:
    relations between worlds are lifted to processes. Until the privileges are
    dropped, main.c only makes system calls; from then on, only the handlers of
    the other components run. *)

From stdpp Require Import base gmap list strings.
From Stdlib Require Import ZArith Lia String.
From S2P Require Import Prelude Platform Wire UsbSetup World Utils Conf Usb ClientOut DeviceOut.
From S2P Require Import Teardown Device Client UsbDevice UsbLoop Main Views Session.
From S2P Require Import RefineTeardown RefineDevice RefineUsb RefineClient Frame.

Local Open Scope Z_scope.

Section lift.
Context `{E : Env} `{U : UsbHost} `{P : Process}.
Implicit Types p : process.

Definition lift (R : relation world) : relation process := fun p p' => R (p_world p) (p_world p').

#[export] Instance lift_preorder R `{!PreOrder R} : PreOrder (lift R).
Proof.
  split; [intros p; unfold lift; reflexivity|].
  intros p1 p2 p3. unfold lift. apply transitivity.
Qed.

Lemma preserves_run {A} R (m : C world A) : Preserves R m -> Preserves (lift R) (run m).
Proof.
  intros H p. unfold wlp, run. specialize (H (p_world p)). unfold wlp in H.
  by destruct (m (p_world p)).
Qed.

Lemma preserves_set_global R `{!PreOrder R} f : Preserves (lift R) (set_global f).
Proof. apply preserves_modify. intros p. unfold lift; simpl. reflexivity. Qed.

Lemma preserves_xbind {A B} R `{!PreOrder R} (m : X A) (k : A -> X B) :
  Preserves (lift R) m -> (forall a, Preserves (lift R) (k a)) -> Preserves (lift R) (xbind m k).
Proof.
  intros Hm Hk. apply (preserves_bind _); [done|]. intros [s|a]; [apply (preserves_ret _)|done].
Qed.

Lemma wlp_run {A} (m : C world A) (Q : A -> process -> Prop) p :
  wlp m (fun a w => Q a (p <| p_world := w |>)) (p_world p) -> wlp (run m) Q p.
Proof. unfold wlp, run. by destruct (m (p_world p)). Qed.

(** The rule for a step that leaves the normal flow or goes on. *)
Lemma wlp_xbind {A B} (m : X A) (k : A -> X B) (Q : stop + B -> process -> Prop) p :
  wlp m (fun r p' => match r with inl s => Q (inl s) p' | inr a => wlp (k a) Q p' end) p ->
  wlp (xbind m k) Q p.
Proof.
  intros H. apply wlp_bind. eapply wlp_mono; [exact H|]. by intros [s|a] p' Hp'.
Qed.

Lemma wlp_ok_step {A} (m : C process A) (Q : stop + A -> process -> Prop) p :
  wlp m (fun a => Q (inr a)) p -> wlp (ok m) Q p.
Proof. intros H. apply wlp_bind. eapply wlp_mono; [exact H|]. done. Qed.

End lift.

(** Decomposes a function of main.c. *)
Ltac process_step :=
  first
    [ solve [eauto with preserves]
    | preserves_step
    | match goal with
      | |- Preserves (lift _) (xbind _ _) => apply (preserves_xbind _); [|intros ?]
      | |- Preserves (lift _) (run _) => apply preserves_run
      | |- Preserves (lift _) (set_global _) => apply (preserves_set_global _)
      end
    | progress cbv beta ].
Ltac process_tac :=
  repeat first
    [ process_step
    | match goal with |- Preserves (lift _) ?m => let h := get_head m in unfold h end ].

(** ** Before the privileges are dropped *)

Section setup.
Context `{E : Env} `{U : UsbHost} `{P : Process}.
Implicit Types (p : process) (w : world).

Definition is_sys (e : event) : bool := match e with EvSys _ _ => true | _ => false end.

(** System calls, the file system, and the options kept elsewhere. *)
Definition setup w w' : Prop := exists evs fs dir np,
  w' = w <| w_trace := evs ++ w_trace w |> <| w_fs := fs |> <| config_dir := dir |>
         <| no_preflight := np |> /\
  Forall (fun e => is_sys e = true) evs.

#[export] Instance setup_preorder : PreOrder setup.
Proof.
  split.
  - intros w. exists [], (w_fs w), (config_dir w), (no_preflight w). split; [by destruct w|done].
  - intros w1 w2 w3 (e1 & f1 & d1 & n1 & -> & H1) (e2 & f2 & d2 & n2 & -> & H2).
    exists (e2 ++ e1), f2, d2, n2. simpl. rewrite app_assoc. split; [done|].
    by apply Forall_app.
Qed.

Lemma setup_modify f :
  (forall w, exists fs dir np, f w = w <| w_fs := fs |> <| config_dir := dir |> <| no_preflight := np |>) ->
  Preserves setup (modify f).
Proof.
  intros H. apply preserves_modify. intros w. destruct (H w) as (fs & dir & np & ->).
  exists [], fs, dir, np. done.
Qed.

Lemma setup_fs_run op : Preserves setup (Conf.fs_run op).
Proof.
  unfold Conf.fs_run. preserves_tac. apply setup_modify. intros w.
  by eexists _, (config_dir w), (no_preflight w).
Qed.

Lemma setup_config_get_config_dir : Preserves setup Conf.config_get_config_dir.
Proof.
  unfold Conf.config_get_config_dir. preserves_tac. apply setup_modify. intros w.
  by eexists (w_fs w), _, (no_preflight w).
Qed.
#[local] Hint Resolve setup_fs_run setup_config_get_config_dir : preserves.

Lemma setup_mkdir_from n d m : Preserves setup (Conf.mkdir_with_parents_from n d m).
Proof. revert d; induction n; intros d; simpl; preserves_tac. Qed.
#[local] Hint Resolve setup_mkdir_from : preserves.

Lemma setup_config_set_config_dir d : Preserves setup (Conf.config_set_config_dir d).
Proof.
  unfold Conf.config_set_config_dir, Conf.config_create_config_dir, Conf.mkdir_with_parents.
  preserves_tac. apply setup_modify. intros w. by eexists (w_fs w), _, (no_preflight w).
Qed.
#[local] Hint Resolve setup_config_set_config_dir : preserves.

Lemma setup_no_preflight : Preserves setup (modify (fun w => w <| no_preflight := 1 |>)).
Proof. apply setup_modify. intros w. by exists (w_fs w), (config_dir w), 1. Qed.

Lemma setup_sys c : Preserves (lift setup) (sys c).
Proof.
  unfold sys. process_tac. apply preserves_modify. intros w.
  exists [EvSys c (sys_call a c)], (w_fs w), (config_dir w), (no_preflight w).
  split; [by destruct w|]. by constructor.
Qed.
#[local] Hint Resolve setup_no_preflight setup_sys : preserves.

Lemma setup_parse_opts opts : Preserves (lift setup) (parse_opts opts).
Proof. induction opts as [|[c a] opts IH]; cbn [parse_opts]; process_tac. Qed.

Lemma setup_try_addresses a l fd : Preserves (lift setup) (try_addresses a l fd).
Proof. revert fd; induction l; intros fd; cbn [try_addresses]; process_tac. Qed.
#[local] Hint Resolve setup_parse_opts setup_try_addresses : preserves.

Lemma setup_check_lock : Preserves (lift setup) check_lock.
Proof. process_tac. Qed.
Lemma setup_daemonize : Preserves (lift setup) daemonize.
Proof. process_tac. Qed.
Lemma setup_place_lock r : Preserves (lift setup) (place_lock r).
Proof. process_tac. Qed.
Lemma setup_create_socket : Preserves (lift setup) create_socket.
Proof. process_tac. Qed.
Lemma setup_prepare_config_dir : Preserves (lift setup) prepare_config_dir.
Proof. process_tac. Qed.
Lemma setup_drop_elevated d s : Preserves (lift setup) (drop_elevated d s).
Proof. process_tac. Qed.
#[local] Hint Resolve setup_check_lock setup_daemonize setup_place_lock setup_create_socket
  setup_prepare_config_dir setup_drop_elevated : preserves.

Lemma setup_boot opts : Preserves (lift setup) (boot opts).
Proof. unfold boot. process_tac. Qed.

End setup.

#[export] Hint Resolve setup_fs_run setup_config_get_config_dir setup_sys setup_parse_opts
  setup_check_lock setup_daemonize setup_place_lock setup_create_socket
  setup_prepare_config_dir setup_drop_elevated : preserves.

(** ** The main loop *)

Section main_loop.
Context `{E : Env} `{U : UsbHost} `{P : Process} `{!CollectionLaws env_coll}.
Variable pending : list event -> Z * list usb_event.
Variable fuel depth : nat.

#[local] Hint Resolve sim_handle_events sim_client_accept sim_client_process sim_usb_process
  sim_usb_discover sim_device_check_timeouts : preserves.

Lemma sim_serve fd b l : Preserves sim (serve pending fuel depth fd b l).
Proof.
  revert b. induction l as [|[[o fd'] re] l IH]; intros b; cbn [serve]; unfold usb_events; preserves_tac.
Qed.

Lemma quiet_usb_timeout : Preserves quiet usb_timeout.
Proof. unfold usb_timeout, dev_poll_remain. preserves_tac. Qed.
Lemma quiet_usb_get_fds l : Preserves quiet (usb_get_fds l).
Proof. unfold usb_get_fds. preserves_tac. Qed.
Lemma quiet_add_client_fds l pl : Preserves quiet (add_client_fds l pl).
Proof. revert pl; induction l; intros pl; simpl; preserves_tac. Qed.
#[local] Hint Resolve sim_serve quiet_usb_timeout quiet_usb_get_fds quiet_add_client_fds : preserves.
Lemma quiet_client_get_fds l : Preserves quiet (client_get_fds l).
Proof. unfold client_get_fds. preserves_tac. Qed.
#[local] Hint Resolve quiet_client_get_fds : preserves.

Lemma sim_handle_signals l : Preserves (lift sim) (handle_signals l).
Proof. induction l; cbn [handle_signals]; process_tac. Qed.
#[local] Hint Resolve sim_handle_signals : preserves.

Lemma sim_main_iteration fd l : Preserves (lift sim) (main_iteration pending fuel depth fd l).
Proof. process_tac. Qed.
#[local] Hint Resolve sim_main_iteration : preserves.

Lemma sim_main_loop_from n fd l : Preserves (lift sim) (main_loop_from pending fuel depth n fd l).
Proof. revert l; induction n; intros l; cbn [main_loop_from]; process_tac. Qed.

End main_loop.

(** ** After the privileges are dropped *)

Section credentials.
Context `{E : Env} `{U : UsbHost} `{P : Process}.
Implicit Types (p : process) (w : world).

(** Calls that change who the process runs as. *)
Definition credential (e : event) : bool :=
  match e with
  | EvSys (SysInitgroups _ _) _ | EvSys (SysSetgid _) _ | EvSys (SysSetuid _) _ => true
  | _ => false
  end.

Definition same_user w w' : Prop := fresh_ok w -> fresh_ok w' /\
  exists evs, w_trace w' = evs ++ w_trace w /\ Forall (fun e => credential e = false) evs.

#[export] Instance same_user_preorder : PreOrder same_user.
Proof.
  split.
  - intros w Hf. split; [done|]. by exists [].
  - intros w1 w2 w3 H1 H2 Hf. destruct (H1 Hf) as [Hf2 (e1 & Ht1 & Hc1)].
    destruct (H2 Hf2) as [Hf3 (e2 & Ht2 & Hc2)]. split; [done|]. exists (e2 ++ e1).
    rewrite Ht2, Ht1, app_assoc. split; [done|]. by apply Forall_app.
Qed.

Lemma frame_same_user w w' : frame w w' -> same_user w w'.
Proof.
  intros H Hf. destruct (H Hf) as [Hf' [evs F]]. split; [done|]. exists evs.
  split; [apply F|]. eapply Forall_impl; [apply F|]. by intros [].
Qed.

Lemma preserves_frame_same_user {A} (m : C world A) : Preserves frame m -> Preserves same_user m.
Proof. intros H w. eapply wlp_mono; [apply H|]. intros a w'. apply frame_same_user. Qed.

Lemma same_user_emit e : credential e = false -> Preserves same_user (emit e).
Proof.
  intros He. apply preserves_modify. intros w Hf. split; [exact Hf|]. exists [e].
  split; [done|]. by constructor.
Qed.

Lemma same_user_sys c : (forall r, credential (EvSys c r) = false) -> Preserves (lift same_user) (sys c).
Proof. intros Hc. unfold sys. process_tac. by apply same_user_emit. Qed.

End credentials.

#[export] Hint Resolve preserves_frame_same_user | 10 : preserves.
#[export] Hint Extern 1 (Preserves same_user (emit _)) => apply same_user_emit; done : preserves.
#[export] Hint Extern 1 (Preserves (lift same_user) (sys _)) => apply same_user_sys; done : preserves.

Section serving.
Context `{E : Env} `{U : UsbHost} `{P : Process}.
Variable pending : list event -> Z * list usb_event.
Variable fuel depth rounds : nat.

Lemma frame_serve fd b l : Preserves frame (serve pending fuel depth fd b l).
Proof.
  pose proof (frame_handle_events pending fuel depth).
  revert b. induction l as [|[[o fd'] re] l IH]; intros b; cbn [serve]; unfold usb_events; preserves_tac.
Qed.

Lemma frame_usb_timeout : Preserves frame usb_timeout.
Proof. frame_tac. Qed.
Lemma frame_device_get_timeout : Preserves frame device_get_timeout.
Proof. frame_tac. Qed.

Lemma frame_usb_get_fds l : Preserves frame (usb_get_fds l).
Proof. frame_tac. Qed.

Lemma frame_device_get_count h : Preserves frame (device_get_count h).
Proof. frame_tac. Qed.

Lemma frame_client_init : Preserves frame client_init.
Proof. frame_tac. Qed.
Lemma frame_device_init : Preserves frame device_init.
Proof. frame_tac. Qed.

Lemma frame_usb_autodiscover n : Preserves frame (usb_autodiscover n).
Proof. frame_tac. Qed.

#[local] Hint Resolve frame_serve frame_usb_timeout frame_device_get_timeout frame_usb_get_fds
  frame_device_get_count frame_client_init frame_device_init frame_usb_autodiscover : preserves.

Lemma same_user_handle_signals l : Preserves (lift same_user) (handle_signals l).
Proof. induction l; cbn [handle_signals]; process_tac. Qed.
#[local] Hint Resolve same_user_handle_signals : preserves.

Lemma same_user_main_iteration fd l :
  Preserves (lift same_user) (main_iteration pending fuel depth fd l).
Proof. process_tac. Qed.
#[local] Hint Resolve same_user_main_iteration : preserves.

Lemma same_user_main_loop_from n fd l :
  Preserves (lift same_user) (main_loop_from pending fuel depth n fd l).
Proof. revert l; induction n; intros l; cbn [main_loop_from]; process_tac. Qed.
#[local] Hint Resolve same_user_main_loop_from : preserves.

Lemma same_user_bring_up enumerated :
  Preserves (lift same_user) (bring_up pending fuel depth enumerated).
Proof. process_tac. Qed.

Lemma same_user_terminate res : Preserves (lift same_user) (terminate res).
Proof. process_tac. Qed.

End serving.
