(* ===== verification/MainFacts.v ===== *)
(** * MainFacts: start, privileges, a second instance, the poll loop *)

From stdpp Require Import base gmap list strings.
From Stdlib Require Import ZArith Lia Ascii String.
From S2P Require Import Prelude Platform Wire UsbSetup World Utils Conf Instances Usb ClientOut.
From S2P Require Import DeviceOut Teardown Device Client UsbDevice UsbLoop Main Scenario Views Session ScenarioMain.
From S2P Require Import RefineTeardown RefineDevice RefineUsb RefineClient Frame ShutdownFacts.
From S2P Require Import RefineMain.

Local Open Scope string_scope.
Local Open Scope list_scope.
Local Open Scope Z_scope.
Local Open Scope x_scope.

(** ** Rules *)

Section rules.
Context `{E : Env} `{U : UsbHost} `{P : Process}.
Implicit Types p : process.

(** The process after a system call. *)
Definition logged (e : event) p : process := p <| p_world ::= fun w => w <| w_trace ::= cons e |> |>.
Definition trace_of p : list event := w_trace (p_world p).

Lemma wlp_sys c (Q : Z -> process -> Prop) p :
  (forall r, Q r (logged (EvSys c r) p)) -> wlp (sys c) Q p.
Proof. intros H. apply H. Qed.

Lemma wp_sys c (Q : Z -> process -> Prop) p :
  (let r := sys_call (trace_of p) c in Q r (logged (EvSys c r) p)) -> wp (sys c) Q p.
Proof. done. Qed.

Lemma wp_xbind {A B} (m : X A) (k : A -> X B) (Q : stop + B -> process -> Prop) p :
  wp m (fun r p' => match r with inl s => Q (inl s) p' | inr a => wp (k a) Q p' end) p ->
  wp (xbind m k) Q p.
Proof. intros H. apply wp_bind. eapply wp_mono; [exact H|]. by intros [s|a] p' Hp'. Qed.

Lemma wp_ok_step {A} (m : C process A) (Q : stop + A -> process -> Prop) p :
  wp m (fun a => Q (inr a)) p -> wp (ok m) Q p.
Proof. intros H. apply wp_bind. eapply wp_mono; [exact H|]. done. Qed.

(** A call that must succeed. *)
Lemma wlp_must c (Q : stop + unit -> process -> Prop) p :
  (forall r, 0 <= r -> Q (inr tt) (logged (EvSys c r) p)) ->
  (forall s p', Q (inl s) p') -> wlp (must c) Q p.
Proof.
  intros Hok Hbad. unfold must. apply wlp_xbind, wlp_ok_step, wlp_sys. intros r.
  destruct (Z.ltb_spec r 0); [apply Hbad|by apply Hok].
Qed.

Lemma wlp_require b res (Q : stop + unit -> process -> Prop) p :
  (b = true -> Q (inr tt) p) -> (forall s p', Q (inl s) p') -> wlp (require b res) Q p.
Proof. intros Hok Hbad. unfold require. destruct b; [by apply Hok|apply Hbad]. Qed.

End rules.

(** ** Privileges *)

Section privileges.
Context `{E : Env} `{U : UsbHost} `{P : Process}.
Implicit Types p : process.

(** The newest events of a process that runs as [user]: its groups and ids
    were set, in this order; it cannot become root again; and it is who it
    should be. *)
Definition runs_as (user : string) (pw : passwd) (t : list event) : Prop :=
  exists r1 r2 r3 t', 0 <= r1 /\ 0 <= r2 /\ 0 <= r3 /\
    t = [EvSys SysGetgid (pw_gid pw); EvSys SysGetuid (pw_uid pw); EvSys (SysSetuid 0) (-1);
         EvSys (SysSetuid (pw_uid pw)) r3; EvSys (SysSetgid (pw_gid pw)) r2;
         EvSys (SysInitgroups user (pw_gid pw)) r1] ++ t'.

(** It was not root to begin with. *)
Definition not_root (t : list event) : Prop :=
  exists uid euid t', uid <> 0 /\ euid <> 0 /\
    t = [EvSys SysGeteuid euid; EvSys SysGetuid uid] ++ t'.

Definition unprivileged (g : globals) (t : list event) : Prop :=
  not_root t \/
  exists user pw t', drop_user g = Some user /\ sys_getpwnam t' user = Some pw /\
    (pw_uid pw = 0 \/ runs_as user pw t).

Lemma wlp_drop_to user pw dir fst (Q : stop + unit -> process -> Prop) p :
  (forall p', p_globals p' = p_globals p -> runs_as user pw (trace_of p') -> Q (inr tt) p') ->
  (forall s p', Q (inl s) p') -> wlp (drop_to user pw dir fst) Q p.
Proof.
  intros Hok Hbad. unfold drop_to. apply wlp_xbind, wlp_ok_step.
  apply (wlp_mono _ (fun _ p' => p_globals p' = p_globals p)).
  { destruct (_ || _); done. }
  intros ? p1 Hp1.
  apply wlp_xbind, wlp_must; [intros r1 H1|intros; apply Hbad].
  apply wlp_xbind, wlp_must; [intros r2 H2|intros; apply Hbad].
  apply wlp_xbind, wlp_must; [intros r3 H3|intros; apply Hbad].
  apply wlp_xbind, wlp_ok_step, wlp_sys. intros r4.
  apply wlp_xbind, wlp_require; [intros H4|intros; apply Hbad].
  apply wlp_xbind, wlp_ok_step, wlp_sys. intros r5.
  apply wlp_xbind, wlp_require; [intros H5|intros; apply Hbad].
  apply wlp_xbind, wlp_ok_step, wlp_sys. intros r6.
  apply wlp_require; [intros H6|intros; apply Hbad].
  apply Z.eqb_eq in H4, H5, H6. subst. apply Hok; [done|]. by exists r1, r2, r3, (trace_of p1).
Qed.

Lemma wlp_drop_elevated dir fst p :
  wlp (drop_elevated dir fst) (fun r p' => r = inr tt -> drop_privileges (p_globals p') <> 0 ->
    unprivileged (p_globals p') (trace_of p')) p.
Proof.
  unfold drop_elevated. apply wlp_xbind, wlp_ok_step. unfold is_set, global.
  apply wlp_bind. unfold wlp at 1, gets. unfold wlp at 1; simpl.
  destruct (Z.eqb_spec (drop_privileges (p_globals p)) 0) as [H0|H0]; simpl.
  { apply wlp_xbind, wlp_ok_step. unfold wlp; simpl. by rewrite H0. }
  apply wlp_xbind, wlp_ok_step. unfold is_root. apply wlp_bind, wlp_sys. intros uid.
  assert (forall p1, p_globals p1 = p_globals p ->
    wlp (user ←? ok (global drop_user);
      match user with
      | None => stop_with (Terminate (-1))
      | Some user =>
        t ←? ok history;
        match sys_getpwnam t user with
        | None => stop_with (Terminate (-1))
        | Some pw => if pw_uid pw =? 0 then ok (mret tt) else drop_to user pw dir fst
        end
      end) (fun r p' => r = inr tt -> drop_privileges (p_globals p') <> 0 ->
        unprivileged (p_globals p') (trace_of p')) p1) as Hroot.
  { intros p1 Hg. apply wlp_xbind, wlp_ok_step. unfold global. unfold wlp at 1, gets.
    destruct (drop_user (p_globals p1)) as [user|] eqn:Hu; [|done].
    apply wlp_xbind, wlp_ok_step. unfold history. unfold wlp at 1, gets.
    destruct (sys_getpwnam _ user) as [pw|] eqn:Hpw; [|done].
    destruct (Z.eqb_spec (pw_uid pw) 0) as [Hz|Hz].
    - unfold wlp; simpl. intros _ _. right. exists user, pw, (w_trace (p_world p1)). auto.
    - apply wlp_drop_to; [|done]. intros p2 Hg2 Hr _ _. right.
      exists user, pw, (w_trace (p_world p1)). rewrite Hg2. auto. }
  destruct (Z.eqb_spec uid 0) as [Hz|Hz].
  { unfold wlp at 1; simpl. by apply Hroot. }
  apply wlp_bind, wlp_sys. intros euid. unfold wlp at 1; simpl.
  destruct (Z.eqb_spec euid 0) as [Hz'|Hz']; simpl.
  { by apply Hroot. }
  unfold wlp; simpl. intros _ _. left. exists uid, euid, (trace_of p). done.
Qed.

(** Only the last step of [boot] decides about the privileges. *)
Lemma wlp_boot opts p :
  wlp (boot opts) (fun r p' => forall fd, r = inr fd -> drop_privileges (p_globals p') <> 0 ->
    unprivileged (p_globals p') (trace_of p')) p.
Proof.
  unfold boot.
  repeat match goal with
  | |- wlp (xbind (drop_elevated _ _) _) _ _ => fail 1
  | |- wlp (xbind _ _) _ _ =>
    apply wlp_xbind; eapply wlp_mono; [apply wlp_true|]; intros [?|?] ? _; [done|]
  end.
  apply wlp_xbind. eapply wlp_mono; [apply wlp_drop_elevated|].
  intros [?|[]] p1 Hp1; [done|]. unfold wlp; simpl. intros fd _. by apply Hp1.
Qed.

Section after.
Variable pending : list event -> Z * list usb_event.
Variable fuel depth rounds : nat.

(** [main] from the end of [boot] on. *)
Definition serving (listenfd : Z) (enumerated : list ptr) : C process Z :=
  r ← bring_up pending fuel depth enumerated;
  match r with
  | inl (Exit status) => run (emit (EvExit status)) ;; mret status
  | inl (Terminate res) => terminate res
  | inr _ =>
    res ← main_loop pending fuel depth rounds listenfd;
    run (shutdown pending fuel depth) ;;
    terminate res
  end.

Lemma main_after_boot opts enumerated p0 fd p1 :
  boot opts p0 = Ok (inr fd) p1 ->
  main pending fuel depth rounds opts enumerated p0 = serving fd enumerated p1.
Proof.
  intros H. unfold main, start, serving, xbind, mbind, C_bind. rewrite H.
  by destruct (bring_up _ _ _ _ p1) as [[[]|] ?| |].
Qed.

Lemma same_user_serving fd enumerated : Preserves (lift same_user) (serving fd enumerated).
Proof.
  pose proof same_user_bring_up as Hb. pose proof same_user_main_loop_from as Hl.
  pose proof same_user_terminate as Ht. pose proof frame_shutdown as Hs.
  unfold serving, main_loop. process_tac; first [apply Hb|apply Hl|apply Ht|apply preserves_frame_same_user, Hs].
Qed.

End after.

(** C5: with --user, the daemon opens no client socket and no USB device
    before it has given up its privileges: until the end of [boot] it only
    makes system calls, the last of them set the groups, the group and the user
    (in this order), fail to become root again and find the ids as asked
    (unless the process was not root, or the user is root); from then on until
    [main] returns it never changes its credentials again. *)
Theorem privileges_dropped opts p0 fd p1 :
  boot opts p0 = Ok (inr fd) p1 -> drop_privileges (p_globals p1) <> 0 -> fresh_ok (p_world p0) ->
  unprivileged (p_globals p1) (trace_of p1) /\
  (exists evs, trace_of p1 = evs ++ trace_of p0 /\ Forall (fun e => is_sys e = true) evs) /\
  forall pending fuel depth rounds enumerated status p2,
    main pending fuel depth rounds opts enumerated p0 = Ok status p2 ->
    exists evs, trace_of p2 = evs ++ trace_of p1 /\ Forall (fun e => credential e = false) evs.
Proof.
  intros Hboot Hdrop Hfr.
  destruct (preserves_ok _ _ _ _ _ (setup_boot opts) Hboot) as (evs & fs & dir & np & Hw & Hevs).
  split; [|split].
  - exact (wlp_ok _ _ _ _ _ (wlp_boot opts p0) Hboot fd eq_refl Hdrop).
  - exists evs. unfold trace_of. by rewrite Hw.
  - intros * Hmain. rewrite (main_after_boot _ _ _ _ _ _ _ _ _ Hboot) in Hmain.
    pose proof (preserves_ok _ _ _ _ _ (same_user_serving _ _ _ _ _ _) Hmain) as Hs.
    apply Hs. rewrite Hw. exact Hfr.
Qed.

End privileges.

(** ** A second instance *)

Section second_instance.
Context `{E : Env} `{U : UsbHost} `{P : Process}.
Implicit Types p : process.

(** The signal for the instance that is running: what --exit or --force-exit
    ask for, or a request to look for devices when hotplug is disabled. *)
Definition request (g : globals) : option Z :=
  if negb (opt_exit g =? 0) then Some (exit_signal g)
  else if negb (opt_disable_hotplug g =? 0) then Some SIGUSR2
  else None.

(** What is sent to the process [pid], and the exit status. *)
Inductive told (pid : Z) : option Z -> Z -> list event -> Prop :=
  | told_nothing : told pid None 1 []
  | told_no_pid sig : pid = 0 -> told pid (Some sig) 1 []
  | told_gone sig r : pid <> 0 -> r <> 0 -> told pid (Some sig) 1 [EvSys (SysKill pid 0) r]
  | told_failed sig r : pid <> 0 -> r < 0 ->
    told pid (Some sig) 1 [EvSys (SysKill pid sig) r; EvSys (SysKill pid 0) 0]
  | told_done sig r : pid <> 0 -> 0 <= r ->
    told pid (Some sig) 0 [EvSys (SysKill pid sig) r; EvSys (SysKill pid 0) 0].

(** More events, and nothing else of the world changed. *)
Definition only_logged (evs : list event) p p' : Prop :=
  p_globals p' = p_globals p /\
  p_world p' = (p_world p) <| w_trace := evs ++ trace_of p |>.

Lemma only_logged_refl p : only_logged [] p p.
Proof. split; [done|]. by destruct p as [g []]. Qed.

Lemma only_logged_cons e evs p p' : only_logged evs p p' -> only_logged (e :: evs) p (logged e p').
Proof. intros [Hg Hw]. split; [done|]. simpl. by rewrite Hw. Qed.

Lemma wp_signal_instance pid sig p :
  wp (signal_instance pid sig) (fun res p' => exists evs, only_logged evs p p' /\
    (res = 0 \/ res = -1) /\ told pid (Some sig) (- res) evs) p.
Proof.
  unfold signal_instance. destruct (Z.eqb_spec pid 0) as [H0|H0].
  { unfold wp; simpl. exists []. split; [apply only_logged_refl|]. split; [by right|]. by constructor. }
  apply wp_bind, wp_bind, wp_sys. cbv zeta. unfold wp at 1; simpl.
  set (r0 := sys_call _ _). destruct (Z.eqb_spec r0 0) as [Hr0|Hr0]; simpl; cycle 1.
  { exists [EvSys (SysKill pid 0) r0]. split; [apply only_logged_cons, only_logged_refl|].
    split; [by right|]. by constructor. }
  apply wp_bind, wp_sys. cbv zeta. set (r1 := sys_call _ _). unfold wp; simpl.
  exists [EvSys (SysKill pid sig) r1; EvSys (SysKill pid 0) r0].
  split; [apply only_logged_cons, only_logged_cons, only_logged_refl|]. rewrite Hr0.
  destruct (Z.ltb_spec r1 0); (split; [tauto|]); by constructor.
Qed.

(** The lock is held by [pid]: [main] ends in [check_lock]. *)
Lemma wp_check_lock path pid p :
  lockfile (p_globals p) = Some path ->
  let lfd := sys_call (trace_of p) (SysOpen path false) in
  let t := EvSys (SysOpen path false) lfd :: trace_of p in
  lfd <> -1 -> sys_getlk t lfd = Some pid ->
  wp check_lock (fun r p' => exists res kills, r = inl (Terminate res) /\ (res = 0 \/ res = -1) /\
    told pid (request (p_globals p)) (- res) kills /\
    only_logged (kills ++ [EvSys (SysClose lfd) (sys_call t (SysClose lfd)); EvSys (SysOpen path false) lfd])
      p p') p.
Proof.
  intros Hpath lfd t Hlfd Hlk. unfold check_lock.
  apply wp_xbind, wp_ok_step, wp_gets. rewrite Hpath.
  apply wp_xbind, wp_ok_step, wp_sys. cbv zeta. fold lfd.
  destruct (Z.eqb_spec lfd (-1)) as [|_]; [done|].
  apply wp_xbind, wp_ok_step, wp_gets. cbv zeta.
  change (sys_getlk _ lfd) with (sys_getlk t lfd). rewrite Hlk.
  apply wp_xbind, wp_ok_step, wp_sys. cbv zeta.
  change (sys_call _ (SysClose lfd)) with (sys_call t (SysClose lfd)).
  set (rc := sys_call _ (SysClose lfd)).
  assert (only_logged [EvSys (SysClose lfd) rc; EvSys (SysOpen path false) lfd] p
    (logged (EvSys (SysClose lfd) rc) (logged (EvSys (SysOpen path false) lfd) p))) as Hlog
    by apply only_logged_cons, only_logged_cons, only_logged_refl.
  revert Hlog. generalize (logged (EvSys (SysClose lfd) rc) (logged (EvSys (SysOpen path false) lfd) p)).
  generalize [EvSys (SysClose lfd) rc; EvSys (SysOpen path false) lfd]. intros evs p1 [Hg Hw].
  assert (forall sig, request (p_globals p) = Some sig ->
    wp (res ←? ok (signal_instance pid sig); stop_with (Terminate res) : X Z)
      (fun r p' => exists res kills, r = inl (Terminate res) /\ (res = 0 \/ res = -1) /\
         told pid (request (p_globals p)) (- res) kills /\ only_logged (kills ++ evs) p p') p1) as Hsig.
  { intros sig Hreq. apply wp_xbind, wp_ok_step. eapply wp_mono; [apply wp_signal_instance|].
    intros res p2 (kills & [Hg2 Hw2] & Hres & Ht). unfold wp; simpl. exists res, kills.
    rewrite Hreq. split_and!; try done. split; [congruence|].
    rewrite Hw2. unfold trace_of. rewrite Hw. simpl. by rewrite app_assoc. }
  apply wp_xbind, wp_ok_step. unfold is_set, global. apply wp_bind, wp_gets, wp_ret.
  rewrite Hg. destruct (opt_exit (p_globals p) =? 0) eqn:Hex; simpl.
  - apply wp_xbind, wp_ok_step. unfold is_set, global. apply wp_bind, wp_gets, wp_ret. rewrite Hg.
    destruct (opt_disable_hotplug (p_globals p) =? 0) eqn:Hh; simpl.
    2: { apply Hsig. unfold request. by rewrite Hex, Hh. }
    unfold wp; simpl. exists (-1), []. unfold request. rewrite Hex, Hh; simpl.
    split_and!; [done|by right|exact (told_nothing pid)|done].
  - apply wp_xbind, wp_ok_step. unfold global. apply wp_gets. rewrite Hg.
    apply Hsig. unfold request. by rewrite Hex.
Qed.

(** C10: when another instance holds the lock, [main] returns without having
    changed anything: it opens and closes the lock file, sends that instance at
    most the signal the options ask for (after checking that it is alive, never
    to pid 0), and its exit status is 0 exactly when the signal was
    delivered, and 1 otherwise. *)
Theorem second_instance pending fuel depth rounds opts enumerated p0 p1 path pid :
  parse_opts opts p0 = Ok (inr tt) p1 ->
  lockfile (p_globals p1) = Some path -> report_to_parent (p_globals p1) = 0 ->
  let lfd := sys_call (trace_of p1) (SysOpen path false) in
  let t := EvSys (SysOpen path false) lfd :: trace_of p1 in
  lfd <> -1 -> sys_getlk t lfd = Some pid ->
  wp (main pending fuel depth rounds opts enumerated) (fun status p2 => exists kills,
    told pid (request (p_globals p1)) status kills /\
    p_world p2 = (p_world p1) <| w_trace := kills ++
      [EvSys (SysClose lfd) (sys_call t (SysClose lfd)); EvSys (SysOpen path false) lfd] ++
      trace_of p1 |>) p0.
Proof.
  intros Hopts Hpath Hrep lfd t Hlfd Hlk. unfold main, start.
  apply wp_bind, wp_xbind. unfold boot. apply wp_xbind. unfold wp at 1. rewrite Hopts.
  apply wp_xbind, wp_ok_step, wp_bind, wp_gets, wp_ret.
  apply wp_xbind, wp_ok_step, wp_bind, wp_gets, wp_ret.
  set (fg := negb (foreground (p_globals p1) =? 0)).
  (* the log level *)
  apply wp_xbind, wp_ok_step.
  apply (wp_mono _ (fun _ p => p_world p = p_world p1 /\
    lockfile (p_globals p) = Some path /\ report_to_parent (p_globals p) = 0 /\
    request (p_globals p) = request (p_globals p1))).
  { destruct (negb fg && _); [|by split_and!]. apply wp_bind, wp_modify. unfold log_enable_syslog.
    apply wp_bind. unfold is_set, global. apply wp_bind, wp_gets, wp_ret.
    by apply wp_when; intros _; split_and!. }
  intros _ p2 (Hw2 & Hpath2 & Hrep2 & Hreq2). apply wp_xbind, wp_ok_step, wp_modify. apply wp_xbind.
  set (p3 := set p_globals _ p2).
  assert (trace_of p3 = trace_of p1) as Ht3 by (unfold trace_of; simpl; by rewrite Hw2).
  eapply wp_mono; [apply (wp_check_lock path pid p3)|].
  - done.
  - by rewrite Ht3.
  - by rewrite Ht3.
  - intros r p4 (res & kills & -> & Hres & Htold & [Hg4 Hw4]). rewrite Ht3 in Hw4.
    unfold terminate, log_disable_syslog. apply wp_bind, wp_ret, wp_bind. unfold is_set, global.
    apply wp_bind, wp_gets, wp_ret. rewrite Hg4. simpl. rewrite Hrep2. simpl.
    exists kills. change (request (p_globals p3)) with (request (p_globals p2)) in Htold.
    rewrite Hreq2 in Htold. split.
    + destruct Hres as [-> | ->]; exact Htold.
    + rewrite Hw4. simpl. by rewrite Hw2, <- app_assoc.
Qed.

End second_instance.

Section witness.
Import Instances Scenario ScenarioMain.

Definition booted : process :=
  match boot (P := scn_os None []) boot_opts boot_process with Ok _ p => p | _ => boot_process end.

Lemma boot_process_fresh : fresh_ok (p_world boot_process).
Proof. intros q _. split_and!; apply lookup_empty. Qed.

Lemma privileges_dropped_witness :
  fresh_ok (p_world boot_process) /\
  boot (P := scn_os None []) boot_opts boot_process = Ok (inr 3) booted /\
  drop_privileges (p_globals booted) <> 0 /\
  unprivileged (P := scn_os None []) (p_globals booted) (trace_of booted).
Proof.
  assert (goes_on (boot (P := scn_os None []) boot_opts boot_process) = Some 3) as Hs
    by (vm_compute; reflexivity).
  pose proof (goes_on_ok _ _ boot_process Hs) as Hboot.
  change (match boot _ _ with Ok _ p => p | _ => _ end) with booted in Hboot.
  assert (drop_privileges (p_globals booted) <> 0) as Hdrop
    by (apply Z.eqb_neq; vm_compute; reflexivity).
  split; [exact boot_process_fresh|]. split; [exact Hboot|]. split; [exact Hdrop|].
  exact (proj1 (privileges_dropped (P := scn_os None []) boot_opts boot_process 3 booted Hboot Hdrop
    boot_process_fresh)).
Defined.

(** --exit, while an instance with pid 77 runs. *)
Definition exit_opts : list (optcode * string) := [(OptChar "x", "")].
Definition exit_process : process :=
  mk_process (globals0 <| opt_exit := 1 |> <| exit_signal := SIGUSR1 |>) scn_start.
#[local] Instance busy_os : Process := scn_os (Some 77) [].

Lemma second_instance_witness :
  parse_opts exit_opts boot_process = Ok (inr tt) exit_process /\
  wp (main (fun _ => (0, [])) 10 10 10 exit_opts []) (fun status p2 => exists kills,
    told 77 (Some SIGUSR1) status kills /\
    p_world p2 = (p_world exit_process) <| w_trace := kills ++
      [EvSys (SysClose 4) 0; EvSys (SysOpen DEFAULT_LOCKFILE false) 4] |>) boot_process.
Proof.
  split; [reflexivity|].
  assert (sys_call (trace_of exit_process) (SysOpen DEFAULT_LOCKFILE false) <> -1) as Hfd by done.
  exact (second_instance (fun _ => (0, [])) 10 10 10 exit_opts [] boot_process exit_process
    DEFAULT_LOCKFILE 77 eq_refl eq_refl eq_refl Hfd eq_refl).
Defined.

End witness.
