(* ===== verification/RefinePreflight.v ===== *)
(** * RefinePreflight: the worker threads and the session protocol

    A preflight worker changes the session structure only through what the
    other threads do while it waits. *)

From stdpp Require Import base gmap list strings.
From Stdlib Require Import ZArith Lia String.
From S2P Require Import Prelude Platform Wire UsbSetup World Utils Conf Usb ClientOut DeviceOut.
From S2P Require Import Teardown Device Client UsbDevice UsbLoop Preflight Views Session.
From S2P Require Import RefineTeardown RefineDevice RefineUsb.

Local Open Scope Z_scope.

Section refine_preflight.
Context `{L : Lockdown}.
Variable others : C world unit.
Hypothesis others_sim : Preserves sim others.

Lemma quiet_malloc_cb a : Preserves quiet (malloc w_cbs a).
Proof. intros w. apply wlp_malloc. split; [done|simpl; lia]. Qed.
Lemma quiet_free_cb p : Preserves quiet (free w_cbs p).
Proof. intros w. apply wlp_free. split; [done|simpl; lia]. Qed.

Lemma quiet_config_has_device_record u : Preserves quiet (Conf.config_has_device_record u).
Proof. unfold Conf.config_has_device_record. preserves_tac. Qed.
Lemma quiet_get_host_id u : Preserves quiet (Conf.config_device_record_get_host_id u).
Proof. unfold Conf.config_device_record_get_host_id, Conf.config_device_record_get_value. preserves_tac. Qed.

#[local] Hint Resolve quiet_malloc_cb quiet_free_cb quiet_config_has_device_record quiet_get_host_id
  others_sim : preserves.

Lemma sim_lockdownd u c : Preserves sim (lockdownd others u c).
Proof. unfold lockdownd. preserves_tac. Qed.
#[local] Hint Resolve sim_lockdownd : preserves.

Lemma sim_set_untrusted u : Preserves sim (lockdownd_set_untrusted_host_buid others u).
Proof. unfold lockdownd_set_untrusted_host_buid. preserves_tac. Qed.
#[local] Hint Resolve sim_set_untrusted : preserves.

Lemma sim_np_callback u n cb : Preserves sim (np_callback others u n cb).
Proof. unfold np_callback. preserves_tac. Qed.

Lemma sim_wait_for_trust n cb : Preserves sim (wait_for_trust others n cb).
Proof. induction n; cbn [wait_for_trust]; preserves_tac. Qed.
#[local] Hint Resolve sim_wait_for_trust : preserves.

Lemma sim_preflight_pair n i u b : Preserves sim (preflight_pair others n i u b).
Proof. unfold preflight_pair, preflight_trust, observe_trust, preflight_old, get_string_value. preserves_tac. Qed.
#[local] Hint Resolve sim_preflight_pair : preserves.

Lemma sim_preflight_from r n i u : Preserves sim (preflight_from others r n i u).
Proof. induction r; cbn [preflight_from]; preserves_tac. Qed.
#[local] Hint Resolve sim_preflight_from : preserves.

Lemma sim_preflight_worker r n i : Preserves sim (preflight_worker_handle_device_add others r n i).
Proof. unfold preflight_worker_handle_device_add. preserves_tac. Qed.

End refine_preflight.

#[export] Hint Resolve quiet_config_has_device_record quiet_get_host_id : preserves.
