(* ===== verification/Reach.v ===== *)
(** * Reach: the daemon as a state machine

    The process starts, then its main loop runs one iteration after the other,
    and the threads of the preflight workers run between them. Every state the
    daemon reaches satisfies the invariant of the session protocol, and its
    session structure is one that the protocol reaches. *)

From stdpp Require Import base gmap list strings.
From Stdlib Require Import ZArith Lia Ascii String.
From S2P Require Import Prelude Platform Wire UsbSetup World Utils Conf Instances Usb ClientOut.
From S2P Require Import DeviceOut Teardown Device Client UsbDevice UsbLoop Main Preflight.
From S2P Require Import Scenario ScenarioMain Views Session RefineTeardown RefineDevice RefineUsb.
From S2P Require Import RefineClient ShutdownFacts RefineMain RefinePreflight.

Local Open Scope Z_scope.

Section reach.
Context `{L : Lockdown} `{U : UsbHost} `{P : Process}.
Implicit Types (w : world) (p : process).

(** What the process does once it is up. A thread of a preflight worker (or
    of the notification proxy it talks to) lets the others run whenever it
    waits: [others] is any function whose runs are runs of the process. *)
Inductive runs : process -> process -> Prop :=
  | runs_refl p : runs p p
  | runs_iteration p p' q pending fuel depth listenfd pollfds r :
    main_iteration pending fuel depth listenfd pollfds p = Ok r p' -> runs p' q -> runs p q
  | runs_worker p w' q others gs retries seconds info :
    (forall g w1 w2, others w1 = Ok tt w2 -> runs (mk_process g w1) (mk_process (gs g w1) w2)) ->
    preflight_worker_handle_device_add others retries seconds info (p_world p) = Ok tt w' ->
    runs (p <| p_world := w' |>) q -> runs p q
  | runs_notification p w' q others gs udid notification cbdata :
    (forall g w1 w2, others w1 = Ok tt w2 -> runs (mk_process g w1) (mk_process (gs g w1) w2)) ->
    np_callback others udid notification cbdata (p_world p) = Ok tt w' ->
    runs (p <| p_world := w' |>) q -> runs p q.

(** Nothing is allocated yet. *)
Definition blank (w : world) : Prop :=
  w_clients w = ∅ /\ w_conns w = ∅ /\ w_devs w = ∅ /\ w_usbdevs w = ∅.

Context `{!CollectionLaws env_coll}.

Lemma wf_empty u : wf (mk_view ∅ ∅ ∅ u coll_init coll_init).
Proof.
  split; simpl; try (intros *; rewrite ?lookup_empty; done).
  - rewrite coll_init_elems. constructor.
  - intros p. rewrite coll_init_elems, lookup_empty, elem_of_nil. by split; [|intros []].
  - rewrite coll_init_elems. constructor.
  - intros p. rewrite coll_init_elems, lookup_empty, elem_of_nil. by split; [|intros []].
Qed.

Lemma initial_inv w : initial w -> inv w.
Proof.
  intros (Hc & Hn & Hd & Hcl & Hdl).
  assert (view_of w = mk_view ∅ ∅ ∅ (usb_v <$> w_usbdevs w) coll_init coll_init) as Hv
    by (unfold view_of; by rewrite Hc, Hn, Hd, Hcl, Hdl, !fmap_empty).
  split; [|split].
  - rewrite Hv. apply wf_empty.
  - intros p _. by rewrite Hc, Hn, Hd, !lookup_empty.
  - rewrite Hv. by intros q d.
Qed.

(** The session structure can occur, and the invariant holds. *)
Definition consistent w : Prop := sess_reachable (view_of w) /\ inv w.

Lemma sim_consistent w w' : consistent w -> sim w w' -> consistent w'.
Proof.
  intros [Hr Hinv] Hs. destruct (Hs Hinv) as [Hst Hinv']. split; [|done].
  unfold sess_reachable in *. by etrans.
Qed.

(** [client_init] and [device_init] come first; what follows them are handlers
    of the USB layer and system calls. *)
Definition new_lists w : world :=
  w <| client_list := coll_init |> <| device_list := coll_init |> <| next_device_id := 1 |>.

Lemma wlp_bring_up R `{!PreOrder R} pending fuel depth enumerated p :
  Preserves R (usb_init (handle_events pending fuel depth) fuel enumerated) ->
  (forall e, Preserves R (emit e)) -> (forall n, Preserves R (usb_autodiscover n)) ->
  wlp (bring_up pending fuel depth enumerated) (fun _ p' => R (new_lists (p_world p)) (p_world p')) p.
Proof.
  intros Hinit He Ha. unfold bring_up.
  apply wlp_xbind, wlp_ok_step, wlp_run. unfold wlp at 1, client_init, modify.
  apply wlp_xbind, wlp_ok_step, wlp_run. unfold wlp at 1, device_init, modify.
  match goal with |- wlp ?m _ ?p2 => assert (Preserves (lift R) m) as Hm end.
  { unfold usb_events, notify_parent, redirect, sys. process_tac; done. }
  eapply wlp_mono; [apply Hm|]. done.
Qed.

Lemma blank_setup w w' : blank w -> setup w w' -> blank w'.
Proof. intros (? & ? & ? & ?) (evs & fs & dir & np & -> & _). by split_and!. Qed.

Lemma blank_consistent w : blank w -> consistent (new_lists w).
Proof.
  intros (Hc & Hn & Hd & Hu). split.
  - unfold sess_reachable. replace (view_of _) with v_empty; [constructor|].
    unfold view_of; simpl. by rewrite Hc, Hn, Hd, Hu, !fmap_empty.
  - apply initial_inv. by split_and!.
Qed.

Lemma wlp_start pending fuel depth opts enumerated p :
  blank (p_world p) ->
  wlp (start pending fuel depth opts enumerated)
    (fun r p' => forall fd, r = inr fd -> consistent (p_world p')) p.
Proof.
  intros Hb. unfold start. apply wlp_xbind. eapply wlp_mono; [apply setup_boot|].
  intros [s|fd] p1 Hs; [done|]. apply (blank_setup _ _ Hb) in Hs.
  apply wlp_xbind. eapply wlp_mono; [apply (wlp_bring_up sim)|].
  - apply sim_usb_init, sim_handle_events.
  - intros e. apply preserves_quiet_sim. eauto with preserves.
  - intros n. apply preserves_quiet_sim. unfold usb_autodiscover. eauto with preserves.
  - intros [s|[]] p2 Hp2; [done|]. intros ? _. eapply sim_consistent; [|exact Hp2].
    by apply blank_consistent.
Qed.

Lemma runs_sim p q : runs p q -> sim (p_world p) (p_world q).
Proof.
  induction 1 as [p|p p' q pending fuel depth fd fds r Hit Hrest IH
    |p w' q others gs n k info Ho IHo Hw Hrest IH|p w' q others gs u m cb Ho IHo Hw Hrest IH].
  - reflexivity.
  - etrans; [|exact IH]. exact (preserves_ok _ _ _ _ _ (sim_main_iteration _ _ _ _ _) Hit).
  - etrans; [|exact IH]. assert (Preserves sim others) as Hos.
    { intros w1. unfold wlp. destruct (others w1) as [[] w2| |] eqn:He; try done.
      exact (IHo globals0 w1 w2 He). }
    exact (preserves_ok _ _ _ _ _ (sim_preflight_worker others Hos _ _ _) Hw).
  - etrans; [|exact IH]. assert (Preserves sim others) as Hos.
    { intros w1. unfold wlp. destruct (others w1) as [[] w2| |] eqn:He; try done.
      exact (IHo globals0 w1 w2 He). }
    exact (preserves_ok _ _ _ _ _ (sim_np_callback others Hos _ _ _) Hw).
Qed.

Lemma runs_trans p q r : runs p q -> runs q r -> runs p r.
Proof.
  induction 1 as [| |p w' q others gs n k info Ho IHo Hw Hrest IH
    |p w' q others gs u m cb Ho IHo Hw Hrest IH]; intros Hr; [done|by eapply runs_iteration; eauto|..].
  - eapply (runs_worker p w' _ others gs); eauto.
  - eapply (runs_notification p w' _ others gs); eauto.
Qed.

(** C1: every run of the daemon, from [main] with any options on, whatever the
    clients, the devices, libusb, lockdownd and the operating system do, is a
    run of the abstract session protocol as long as every handler returns (does
    not run into undefined behaviour), and every state it reaches satisfies the
    invariant of the protocol. *)
Theorem daemon_refines_session pending fuel depth opts enumerated p0 fd p1 p :
  blank (p_world p0) -> start pending fuel depth opts enumerated p0 = Ok (inr fd) p1 ->
  runs p1 p -> sess_reachable (view_of (p_world p)) /\ inv (p_world p).
Proof.
  intros Hb Hstart Hruns.
  pose proof (wlp_ok _ _ _ _ _ (wlp_start pending fuel depth opts enumerated p0 Hb) Hstart fd eq_refl).
  by eapply sim_consistent; [|apply runs_sim].
Qed.

End reach.

Section witness.
Import Instances Scenario ScenarioMain.

(** The events of each round of libusb: a device arrives and answers the
    requests for its mode, languages and serial number; the version exchange;
    the SYN/ACK and data of a connection; the device leaves and its transfers
    are cancelled. *)
Definition received (p : list Z) : usb_event := UeTransfer 12%positive TRANSFER_COMPLETED p.
Definition ended (s : transfer_status) (x : ptr) : usb_event := UeTransfer x s [].
Definition usb_script : list (list usb_event) :=
  [ [UeArrived 50%positive];
    [UeTransfer 5%positive TRANSFER_COMPLETED [3; 3; 3; 0]];
    [UeTransfer 7%positive TRANSFER_COMPLETED [4; 3; 9; 4]];
    [UeTransfer 7%positive TRANSFER_COMPLETED [8; 3; 65; 0; 66; 0; 67; 0]];
    [ended TRANSFER_COMPLETED 10%positive; received version_packet];
    [received (tcp_packet 0 18 [])];
    [received (tcp_packet 1 16 [9; 8; 7])];
    [UeLeft 50%positive];
    map (ended TRANSFER_CANCELLED) [12; 14; 16]%positive;
    map (ended TRANSFER_NO_DEVICE) [18; 22; 24; 26; 28]%positive ].

Definition scn_pending (t : list event) : Z * list usb_event := (0, nth (rounds t) usb_script []).

(** What [ppoll] reports: libusb, the listening socket, or the client. *)
Definition poll_script : list poll_answer :=
  let usb := PollReady [0; 1; 0] in
  let client ev := PollReady [0; 0; ev] in
  [usb; usb; usb; usb; usb; PollReady [1; 0]; client 1; client 1; usb; client 4; usb; client 5; usb].

#[local] Instance scn_process : Process := scn_os None poll_script.

(** The start of the process, then [n] iterations. *)
Definition started : process :=
  match start scn_pending 10 10 boot_opts [] boot_process with Ok _ p => p | _ => boot_process end.

Fixpoint iterate (n : nat) (p : process) : option process :=
  match n with
  | O => Some p
  | S n' =>
    match main_iteration scn_pending 10 10 3 Fdlist.fdlist_create p with
    | Ok _ p' => iterate n' p'
    | _ => None
    end
  end.

Definition sizes (w : world) : list nat :=
  [size (w_clients w); size (w_conns w); size (w_devs w); size (w_usbdevs w); size (w_xfers w);
   size (w_bufs w); size (w_ctxs w)].

(** A client talks to the device; afterwards the device is gone, and so are
    its connection, its client and every object of the USB layer. *)
Definition session_end : option process := iterate 12 started.
Definition departure_end : option process := iterate 13 started.

Lemma session_runs :
  (fun p => map cl_state (snd <$> map_to_list (w_clients (p_world p)))) <$> session_end =
    Some [CLIENT_CONNECTED].
Proof. vm_compute. reflexivity. Qed.

Lemma departure_runs :
  (fun p => sizes (p_world p)) <$> departure_end = Some [0; 0; 0; 0; 0; 0; 0]%nat.
Proof. vm_compute. reflexivity. Qed.

(** A device in restore mode: its worker makes it visible at once. *)
#[local] Instance scn_lockdown : Lockdown := {|
  lk_result _ _ _ := LOCKDOWN_E_SUCCESS;
  lk_type _ _ := Some "com.apple.mobile.restored"%string;
  lk_value _ _ _ := None;
  lk_np _ _ := false |}.
Definition restore_device : device_info := mk_info 1 (Some "ABC"%string) 0 4776 0.
Definition restore_worker : C world unit :=
  preflight_worker_handle_device_add (mret tt) 1 1 restore_device.

Lemma iterate_runs n p q : iterate n p = Some q -> runs p q.
Proof.
  revert p. induction n as [|n IH]; intros p; simpl; [intros [= ->]; constructor|].
  destruct (main_iteration _ _ _ _ _ p) as [r p'| |] eqn:Hi; [|done..].
  intros Hq. eapply runs_iteration; [exact Hi|auto].
Qed.

Lemma worker_runs p w' :
  restore_worker (p_world p) = Ok tt w' -> runs p (p <| p_world := w' |>).
Proof.
  intros H. eapply (runs_worker p w' _ (mret tt) (fun g _ => g) 1 1 restore_device);
    [|exact H|constructor].
  intros g w1 w2 [= ->]. constructor.
Qed.

Definition worker_returns (o : option process) : bool :=
  match o with Some p => returns restore_worker (p_world p) | None => false end.

Lemma worker_returns_runs o :
  worker_returns o = true -> exists p w', o = Some p /\ restore_worker (p_world p) = Ok tt w'.
Proof.
  destruct o as [p|]; [|done]. intros H. destruct (run_after _ _ H) as [[] Hrun]. eauto.
Qed.

Lemma daemon_refines_session_witness :
  blank (p_world boot_process) /\
  start scn_pending 10 10 boot_opts [] boot_process = Ok (inr 3) started /\
  exists p, runs started p /\ sess_reachable (view_of (p_world p)) /\ inv (p_world p).
Proof.
  assert (goes_on (start scn_pending 10 10 boot_opts [] boot_process) = Some 3) as Hs
    by (vm_compute; reflexivity).
  assert (worker_returns session_end = true) as Hw by (vm_compute; reflexivity).
  pose proof (goes_on_ok _ _ boot_process Hs) as Hstart.
  change (match start _ _ _ _ _ _ with Ok _ p => p | _ => _ end) with started in Hstart.
  split; [by split_and!|]. split; [exact Hstart|].
  destruct (worker_returns_runs _ Hw) as (p & w' & Hp & Hrun).
  assert (runs started (p <| p_world := w' |>)) as Hr
    by (eapply runs_trans; [exact (iterate_runs _ _ _ Hp)|by apply worker_runs]).
  exists (p <| p_world := w' |>). split; [exact Hr|].
  apply (daemon_refines_session scn_pending 10 10 boot_opts [] boot_process 3 started);
    [by split_and!|exact Hstart|exact Hr].
Defined.

End witness.
