(* ===== verification/Typed.v ===== *)
(** * Typed: objects within their types and buffers within their bounds

    What the C types and the allocations promise of the heap: every field is
    in the range of its type, every buffer has the size that is recorded for
    it and holds bytes, every fill level is within its buffer, every transfer
    is as long as its buffer, and poll masks and flags have no other bits.
    [Keeps typed m]: from such a state [m] never accesses memory outside of a
    buffer, and when it returns the state is such a state again. *)

From stdpp Require Import base gmap list strings.
From Stdlib Require Import ZArith Lia.
From S2P Require Import Prelude Platform Wire UsbSetup World Utils Conf Usb ClientOut DeviceOut.
From S2P Require Import Teardown Device Client UsbDevice UsbLoop.

Local Open Scope Z_scope.

(** ** Runs without access out of bounds *)

Definition wsp {S A} (m : C S A) (Q : A -> S -> Prop) (s : S) : Prop :=
  match m s with
  | Ok a s' => Q a s'
  | Undef u => u <> OutOfBounds
  | NoFuel => True
  end.

Definition Keeps {S A} (I : S -> Prop) (m : C S A) : Prop := forall s, I s -> wsp m (fun _ => I) s.

Section wsp.
Context {S : Type}.
Implicit Types s : S.

Lemma wsp_bind {A B} (m : C S A) (k : A -> C S B) Q s :
  wsp m (fun a => wsp (k a) Q) s -> wsp (m ≫= k) Q s.
Proof. unfold wsp, mbind, C_bind. by destruct (m s). Qed.

Lemma wsp_mono {A} (m : C S A) (Q R : A -> S -> Prop) s :
  wsp m Q s -> (forall a s', Q a s' -> R a s') -> wsp m R s.
Proof. unfold wsp. destruct (m s); auto. Qed.

Lemma wsp_call {A B} (m : C S A) (k : A -> C S B) (R : A -> S -> Prop) Q s :
  wsp m R s -> (forall a s', R a s' -> wsp (k a) Q s') -> wsp (m ≫= k) Q s.
Proof. intros Hm Hk. apply wsp_bind. eapply wsp_mono; eauto. Qed.

Lemma wsp_ret {A} (a : A) (Q : A -> S -> Prop) s : Q a s -> wsp (mret a) Q s.
Proof. done. Qed.

Lemma wsp_gets {A} (f : S -> A) (Q : A -> S -> Prop) s : Q (f s) s -> wsp (gets f) Q s.
Proof. done. Qed.

Lemma wsp_modify (f : S -> S) (Q : unit -> S -> Prop) s : Q tt (f s) -> wsp (modify f) Q s.
Proof. done. Qed.

Lemma wsp_when (b : bool) (m : C S unit) Q s :
  (b = true -> wsp m Q s) -> (b = false -> Q tt s) -> wsp (when b m) Q s.
Proof. intros; destruct b; [auto|apply wsp_ret; auto]. Qed.

Lemma wsp_lift_option {A} u (o : option A) (Q : A -> S -> Prop) s :
  u <> OutOfBounds -> (forall a, o = Some a -> Q a s) -> wsp (lift_option u o) Q s.
Proof. intros Hu HQ. destruct o; [by apply HQ|done]. Qed.

Lemma wsp_wlp {A} (m : C S A) (Q : A -> S -> Prop) s : wsp m Q s -> wlp m Q s.
Proof. unfold wsp, wlp. by destruct (m s). Qed.

Context (I : S -> Prop).

Lemma keeps_ret {A} (a : A) : Keeps I (mret a).
Proof. intros s Hs. exact Hs. Qed.

Lemma keeps_bind {A B} (m : C S A) (k : A -> C S B) :
  Keeps I m -> (forall a, Keeps I (k a)) -> Keeps I (m ≫= k).
Proof. intros Hm Hk s Hs. eapply wsp_call; [by apply Hm|]. intros a s' Hs'. by apply Hk. Qed.

Lemma keeps_gets {A} (f : S -> A) : Keeps I (gets f).
Proof. intros s Hs. exact Hs. Qed.

Lemma keeps_undef {A} u : u <> OutOfBounds -> Keeps I (undef u : C S A).
Proof. by intros Hu s Hs. Qed.

Lemma keeps_no_fuel {A} : Keeps I (no_fuel : C S A).
Proof. by intros s Hs. Qed.

Lemma keeps_lift_option {A} u (o : option A) : u <> OutOfBounds -> Keeps I (lift_option u o : C S A).
Proof. intros Hu s Hs. by apply wsp_lift_option. Qed.

Lemma keeps_when (b : bool) m : Keeps I m -> Keeps I (when b m).
Proof. intros Hm s Hs. apply wsp_when; auto. Qed.

Lemma keeps_modify (f : S -> S) : (forall s, I s -> I (f s)) -> Keeps I (modify f).
Proof. intros H s Hs. by apply H. Qed.

(** The first step of a function, and the rest of it. *)
Lemma wsp_keeps {A B} (m : C S A) (k : A -> C S B) Q s :
  Keeps I m -> I s -> (forall a s', I s' -> wsp (k a) Q s') -> wsp (m ≫= k) Q s.
Proof. intros Hm Hs Hk. eapply wsp_call; [by apply Hm|exact Hk]. Qed.

Lemma keeps_at {A} (m : C S A) s : Keeps I m -> I s -> wsp m (fun _ => I) s.
Proof. intros Hm. apply Hm. Qed.

Lemma keeps_ok {A} (m : C S A) s a s' : Keeps I m -> I s -> m s = Ok a s' -> I s'.
Proof. intros Hm Hs He. specialize (Hm s Hs). unfold wsp in Hm. by rewrite He in Hm. Qed.

Lemma keeps_safe {A} (m : C S A) s : Keeps I m -> I s -> m s <> Undef OutOfBounds.
Proof. intros Hm Hs He. specialize (Hm s Hs). unfold wsp in Hm. by rewrite He in Hm. Qed.
End wsp.

(** ** Ranges *)

Definition u16_ok (x : Z) : Prop := 0 <= x < 2 ^ 16.
Definition u32_ok (x : Z) : Prop := 0 <= x < 2 ^ 32.
Definition u64_ok (x : Z) : Prop := 0 <= x < 2 ^ 64.
Definition bool_ok (x : Z) : Prop := x = 0 \/ x = 1.

(** Combinations of POLLIN and POLLOUT. *)
Definition mask_ok (x : Z) : Prop := x = 0 \/ x = 1 \/ x = 4 \/ x = 5.

Lemma u16_u16_ok x : u16_ok (u16 x).
Proof. apply u16_range. Qed.
Lemma u32_u32_ok x : u32_ok (u32 x).
Proof. apply u32_range. Qed.
Lemma u64_u64_ok x : u64_ok (u64 x).
Proof. apply u64_range. Qed.

Lemma mask_lor x m : mask_ok x -> m = POLLIN \/ m = POLLOUT -> mask_ok (Z.lor x m).
Proof. intros [->|[->|[->| ->]]] [->| ->]; vm_compute; auto 6. Qed.
Lemma mask_clear x m : mask_ok x -> m = POLLIN \/ m = POLLOUT -> mask_ok (clear_flag x m).
Proof. intros [->|[->|[->| ->]]] [->| ->]; vm_compute; auto 6. Qed.
Lemma mask_set_flag_if b x m :
  mask_ok x -> m = POLLIN \/ m = POLLOUT -> mask_ok (set_flag_if b x m).
Proof. intros Hx Hm. destruct b; [by apply mask_lor|by apply mask_clear]. Qed.

Lemma mask_POLLIN : mask_ok POLLIN.
Proof. by right; left. Qed.
Lemma mask_POLLOUT : mask_ok POLLOUT.
Proof. by right; right; left. Qed.

Lemma le_val_range l : bytes_ok l -> 0 <= le_val l < 256 ^ zlen l.
Proof.
  induction 1 as [|b l Hb Hl IH]; [done|]. unfold zlen in *. cbn [le_val length].
  rewrite pow256_succ. unfold byte_ok in Hb. lia.
Qed.

Lemma be_val_range l : bytes_ok l -> 0 <= be_val l < 256 ^ zlen l.
Proof.
  unfold be_val. induction l as [|b l IH] using rev_ind; intros Hl; [done|].
  apply bytes_ok_app in Hl as [Hl Hb]. apply Forall_inv in Hb. unfold byte_ok in Hb.
  rewrite be_val_acc_app, zlen_app. unfold zlen in *. rewrite Z.pow_add_r by lia.
  change (256 ^ Z.of_nat (length [b])) with 256. specialize (IH Hl). lia.
Qed.

Lemma zlen_slice_le off n b : 0 <= n -> zlen (slice off n b) <= n.
Proof. intros Hn. unfold slice, ztake, zlen. rewrite length_take. lia. Qed.

Lemma bytes_ok_slice off n b : bytes_ok b -> bytes_ok (slice off n b).
Proof. intros Hb. by apply bytes_ok_ztake, bytes_ok_zdrop. Qed.

Lemma get_be_range off n b : 0 <= n -> bytes_ok b -> 0 <= get_be off n b < 256 ^ n.
Proof.
  intros Hn Hb. pose proof (be_val_range _ (bytes_ok_slice off n b Hb)).
  pose proof (zlen_slice_le off n b Hn). pose proof (zlen_nonneg (slice off n b)).
  assert (256 ^ zlen (slice off n b) <= 256 ^ n) by (apply Z.pow_le_mono_r; lia).
  unfold get_be. lia.
Qed.

Lemma get_le_range off n b : 0 <= n -> bytes_ok b -> 0 <= get_le off n b < 256 ^ n.
Proof.
  intros Hn Hb. pose proof (le_val_range _ (bytes_ok_slice off n b Hb)).
  pose proof (zlen_slice_le off n b Hn). pose proof (zlen_nonneg (slice off n b)).
  assert (256 ^ zlen (slice off n b) <= 256 ^ n) by (apply Z.pow_le_mono_r; lia).
  unfold get_le. lia.
Qed.

Lemma get_be_16 off b : bytes_ok b -> u16_ok (get_be off 2 b).
Proof. by apply (get_be_range off 2). Qed.
Lemma get_be_32 off b : bytes_ok b -> u32_ok (get_be off 4 b).
Proof. by apply (get_be_range off 4). Qed.
Lemma get_le_32 off b : bytes_ok b -> u32_ok (get_le off 4 b).
Proof. by apply (get_le_range off 4). Qed.

Lemma mhdr_rx_seq_16 b : bytes_ok b -> u16_ok (mhdr_rx_seq b).
Proof. apply get_be_16. Qed.

Lemma bytes_ok_nil : bytes_ok [].
Proof. constructor. Qed.

Create HintDb ranges discriminated.
#[export] Hint Resolve u16_u16_ok u32_u32_ok u64_u64_ok mask_lor mask_clear mask_set_flag_if
  mask_POLLIN mask_POLLOUT
  get_be_16 get_be_32 get_le_32 bytes_ok_slice bytes_ok_ztake bytes_ok_zdrop bytes_ok_write_at
  be_bytes_ok le_bytes_ok bytes_ok_nil mhdr_rx_seq_16 : ranges.

(** ** Objects *)

Section objects.
Context `{E : Env}.
Implicit Types w : world.

(** A buffer of [size] bytes, unless it was freed. *)
Definition buffer_ok (buf : option (list Z)) (size : Z) : Prop :=
  match buf with Some b => zlen b = size /\ bytes_ok b | None => True end.

(** The most memory a client's replies can take. *)
Definition OB_LIMIT : Z := 2 ^ 31.

Record client_ok (k : mux_client) : Prop := {
  ck_ob : buffer_ok (cl_ob_buf k) (cl_ob_capacity k);
  ck_ob_size : 0 <= cl_ob_size k <= cl_ob_capacity k;
  ck_ob_capacity : cl_ob_capacity k <= OB_LIMIT;
  ck_ib : buffer_ok (cl_ib_buf k) (cl_ib_capacity k);
  ck_ib_size : 0 <= cl_ib_size k <= cl_ib_capacity k;
  ck_ib_capacity : cl_ib_capacity k = CMD_BUF_SIZE;
  ck_events : mask_ok (cl_events k);
  ck_devents : mask_ok (cl_devents k);
  ck_tag : u32_ok (cl_connect_tag k);
  ck_version : bool_ok (cl_proto_version k);
  ck_number : u32_ok (cl_number k);
}.

Record conn_ok (c : mux_connection) : Prop := {
  nk_sport : u16_ok (cn_sport c);
  nk_dport : u16_ok (cn_dport c);
  nk_tx_seq : u32_ok (cn_tx_seq c);
  nk_tx_ack : u32_ok (cn_tx_ack c);
  nk_tx_acked : u32_ok (cn_tx_acked c);
  nk_tx_win : cn_tx_win c = 131072;
  nk_rx_seq : u32_ok (cn_rx_seq c);
  nk_rx_recvd : u32_ok (cn_rx_recvd c);
  nk_rx_ack : u32_ok (cn_rx_ack c);
  nk_rx_win : 0 <= cn_rx_win c < 2 ^ 24;
  nk_max_payload : cn_max_payload c = USB_MTU - sizeof_mux_header - sizeof_tcphdr;
  nk_sendable : 0 <= cn_sendable c <= cn_max_payload c;
  nk_flags : bool_ok (cn_flags c);
  nk_ib : zlen (cn_ib_buf c) = cn_ib_capacity c /\ bytes_ok (cn_ib_buf c);
  nk_ib_size : 0 <= cn_ib_size c <= cn_ib_capacity c;
  nk_ib_capacity : cn_ib_capacity c = CONN_INBUF_SIZE;
  nk_ob : zlen (cn_ob_buf c) = cn_ob_capacity c /\ bytes_ok (cn_ob_buf c);
  nk_ob_capacity : cn_ob_capacity c = CONN_OUTBUF_SIZE;
  nk_events : mask_ok (cn_events c);
  nk_last_ack_time : u64_ok (cn_last_ack_time c);
}.

Record dev_ok (d : mux_device) : Prop := {
  dk_id : 1 <= dv_id d <= INT_MAX;
  dk_visible : bool_ok (dv_visible d);
  dk_next_sport : u16_ok (dv_next_sport d);
  dk_pktbuf : zlen (dv_pktbuf d) = DEV_MRU /\ bytes_ok (dv_pktbuf d);
  dk_pktlen : 0 <= dv_pktlen d <= DEV_MRU;
  dk_version : 0 <= dv_version d <= 2;
  dk_rx_seq : u16_ok (dv_rx_seq d);
  dk_tx_seq : u16_ok (dv_tx_seq d);
}.

(** The least length of a transfer, by its callback. *)
Definition min_length (cb : xfer_callback) : Z :=
  match cb with
  | CB_TX => 0
  | CB_RX => USB_MRU
  | CB_GET_MODE | CB_SWITCH_MODE => LIBUSB_CONTROL_SETUP_SIZE + 1
  | CB_LANGID | CB_SERIAL => LIBUSB_CONTROL_SETUP_SIZE + 1024
  end.

Record xfer_ok (bufs : gmap ptr (list Z)) (next : ptr) (x : libusb_transfer) : Prop := {
  xk_buffer : (xf_buffer x < next)%positive;
  xk_length : min_length (xf_callback x) <= xf_length x;
  xk_rx : xf_callback x = CB_RX -> xf_length x = USB_MRU /\
    forall b, bufs !! xf_buffer x = Some b -> zlen b = USB_MRU;
  xk_fits b : bufs !! xf_buffer x = Some b -> xf_length x <= zlen b;
}.

Record typed w : Prop := {
  ty_clients p k : w_clients w !! p = Some k -> client_ok k;
  ty_conns p c : w_conns w !! p = Some c -> conn_ok c;
  ty_devs p d : w_devs w !! p = Some d -> dev_ok d;
  ty_xfers p x : w_xfers w !! p = Some x -> xfer_ok (w_bufs w) (w_next w) x;
  ty_bufs p b : w_bufs w !! p = Some b -> (p < w_next w)%positive /\ bytes_ok b;
  ty_ctxs p c : w_ctxs w !! p = Some c -> 1 <= mc_wLength c;
  ty_number : u32_ok (client_number w);
  ty_next_id : 1 <= next_device_id w <= INT_MAX;
}.

(** Only other parts of the world changed. *)
Lemma typed_same w w' :
  w_clients w' = w_clients w -> w_conns w' = w_conns w -> w_devs w' = w_devs w ->
  w_xfers w' = w_xfers w -> w_bufs w' = w_bufs w -> w_ctxs w' = w_ctxs w ->
  w_next w' = w_next w -> client_number w' = client_number w ->
  next_device_id w' = next_device_id w -> typed w -> typed w'.
Proof.
  intros Hk Hc Hd Hx Hb Hctx Hn Hnum Hid T.
  split; rewrite ?Hk, ?Hc, ?Hd, ?Hx, ?Hb, ?Hctx, ?Hn, ?Hnum, ?Hid; apply T.
Qed.

Lemma typed_trace w t : typed w -> typed (w <| w_trace := t |>).
Proof. by apply typed_same. Qed.

End objects.

(** ** Primitives *)

Section primitives.
Context `{E : Env}.
Implicit Types w : world.

Lemma wsp_load {A} (h : world -> gmap ptr A) p (Q : A -> world -> Prop) w :
  (forall a, h w !! p = Some a -> Q a w) -> wsp (load h p) Q w.
Proof. intros H. unfold wsp, load. destruct (h w !! p) eqn:?; auto. Qed.

Lemma wsp_update {A} (h : world -> gmap ptr A) `{!Setter h} p f (Q : unit -> world -> Prop) w :
  (forall a, h w !! p = Some a -> Q tt (set h <[p := f a]> w)) -> wsp (update h p f) Q w.
Proof. intros H. unfold wsp, update. destruct (h w !! p) eqn:?; auto. Qed.

Lemma wsp_malloc {A} (h : world -> gmap ptr A) `{!Setter h} a (Q : ptr -> world -> Prop) w :
  Q (w_next w) ((set h <[w_next w := a]> w) <| w_next := Pos.succ (w_next w) |>) ->
  wsp (malloc h a) Q w.
Proof. done. Qed.

Lemma wsp_free {A} (h : world -> gmap ptr A) `{!Setter h} p (Q : unit -> world -> Prop) w :
  (forall a, h w !! p = Some a -> Q tt (set h (delete p) w)) -> wsp (free h p) Q w.
Proof. intros H. unfold wsp, free. destruct (h w !! p) eqn:?; eauto. Qed.

Lemma keeps_load {A} (h : world -> gmap ptr A) I p : Keeps I (load h p).
Proof. intros w Hw. by apply wsp_load. Qed.

Lemma keeps_foreach_from {A} I col ps (body : ptr -> C world (option A)) :
  Keeps I col -> (forall p, Keeps I (body p)) -> Keeps I (foreach_from col ps body).
Proof.
  intros Hc Hb. induction ps as [|p ps IH]; cbn [foreach_from]; [apply keeps_ret|].
  apply keeps_bind; [done|]. intros c. case_decide; [|done].
  apply keeps_bind; [done|]. intros [a|]; [apply keeps_ret|done].
Qed.

Lemma keeps_foreach {A} I col (body : ptr -> C world (option A)) :
  Keeps I col -> (forall p, Keeps I (body p)) -> Keeps I (foreach col body).
Proof. intros Hc Hb. apply keeps_bind; [done|]. intros c. by apply keeps_foreach_from. Qed.

Lemma keeps_each I (body : ptr -> C world unit) p : Keeps I (body p) -> Keeps I (each body p).
Proof. intros H. apply keeps_bind; [done|intros _; apply keeps_ret]. Qed.

(** *** Steps on the parts that [typed] says nothing about *)

Lemma typed_emit e : Keeps typed (emit e).
Proof. apply keeps_modify. intros w. by apply typed_same. Qed.

Lemma typed_lock m : Keeps typed (mutex_lock m).
Proof.
  intros w Hw. unfold wsp, mutex_lock. case_decide; [done|]. by apply (typed_same w).
Qed.

Lemma typed_unlock m : Keeps typed (mutex_unlock m).
Proof. apply keeps_modify. intros w. by apply typed_same. Qed.

Lemma typed_upd_usb p f : Keeps typed (upd_usb p f).
Proof. intros w Hw. apply wsp_update. intros u Hu. by apply (typed_same w). Qed.
Lemma typed_free_usb p : Keeps typed (free w_usbdevs p).
Proof. intros w Hw. apply wsp_free. intros u Hu. by apply (typed_same w). Qed.
Lemma typed_upd_cb p f : Keeps typed (update w_cbs p f).
Proof. intros w Hw. apply wsp_update. intros u Hu. by apply (typed_same w). Qed.
Lemma typed_free_cb p : Keeps typed (free w_cbs p).
Proof. intros w Hw. apply wsp_free. intros u Hu. by apply (typed_same w). Qed.

(** *** Updates of an object *)

(** What holds of every object of a heap holds of it after an update... *)
Lemma heap_insert {A} (P : A -> Prop) (m : gmap ptr A) p x :
  (forall q y, m !! q = Some y -> P y) -> P x -> forall q y, <[p := x]> m !! q = Some y -> P y.
Proof. intros Hm Hx q y [[<- <-]|[_ Hy]]%lookup_insert_Some; eauto. Qed.
(** ... and after an object is freed. *)
Lemma heap_delete {A} (P : ptr -> A -> Prop) (m : gmap ptr A) p :
  (forall q y, m !! q = Some y -> P q y) -> forall q y, delete p m !! q = Some y -> P q y.
Proof. intros Hm q y [_ Hy]%lookup_delete_Some. eauto. Qed.

Lemma xfer_ok_next bufs next next' x :
  (next <= next')%positive -> xfer_ok bufs next x -> xfer_ok bufs next' x.
Proof. intros Hle [Hb Hl Hr Hf]. split; try done. lia. Qed.

(** Allocation of an object of another type. *)
Lemma typed_next w w' :
  w_clients w' = w_clients w -> w_conns w' = w_conns w -> w_devs w' = w_devs w ->
  w_xfers w' = w_xfers w -> w_bufs w' = w_bufs w -> w_ctxs w' = w_ctxs w ->
  (w_next w <= w_next w')%positive -> client_number w' = client_number w ->
  next_device_id w' = next_device_id w -> typed w -> typed w'.
Proof.
  intros Hk Hc Hd Hx Hb Hctx Hn Hnum Hid T.
  split; rewrite ?Hk, ?Hc, ?Hd, ?Hx, ?Hb, ?Hctx, ?Hnum, ?Hid; try apply T.
  - intros p x Hp. eapply xfer_ok_next; [exact Hn|by apply (ty_xfers w T p)].
  - intros p b Hp. destruct (ty_bufs w T p b Hp) as [Hlt Hok]. split; [lia|done].
Qed.

Lemma typed_succ w n : (w_next w <= n)%positive -> typed w -> typed (w <| w_next := n |>).
Proof. by intros Hn; apply typed_next. Qed.

Lemma typed_malloc_usb u : Keeps typed (malloc w_usbdevs u).
Proof. intros w Hw. apply wsp_malloc. apply (typed_next w); try done. simpl. lia. Qed.
Lemma typed_malloc_cb u : Keeps typed (malloc w_cbs u).
Proof. intros w Hw. apply wsp_malloc. apply (typed_next w); try done. simpl. lia. Qed.

Lemma typed_set_client w p k : typed w -> client_ok k -> typed (set w_clients <[p := k]> w).
Proof. intros T Hk. split; simpl; try apply T. eapply heap_insert; [apply T|done]. Qed.
Lemma typed_set_conn w p k : typed w -> conn_ok k -> typed (set w_conns <[p := k]> w).
Proof. intros T Hk. split; simpl; try apply T. eapply heap_insert; [apply T|done]. Qed.
Lemma typed_set_dev w p k : typed w -> dev_ok k -> typed (set w_devs <[p := k]> w).
Proof. intros T Hk. split; simpl; try apply T. eapply heap_insert; [apply T|done]. Qed.
Lemma typed_set_ctx w p c : typed w -> 1 <= mc_wLength c -> typed (set w_ctxs <[p := c]> w).
Proof. intros T Hk. split; simpl; try apply T. apply (heap_insert (fun c => 1 <= mc_wLength c)); [apply T|done]. Qed.
Lemma typed_set_xfer w p x :
  typed w -> xfer_ok (w_bufs w) (w_next w) x -> typed (set w_xfers <[p := x]> w).
Proof. intros T Hk. split; simpl; try apply T. eapply heap_insert; [apply T|done]. Qed.

Lemma typed_upd_client p f : (forall k, client_ok k -> client_ok (f k)) -> Keeps typed (upd_client p f).
Proof.
  intros Hf w T. apply wsp_update. intros k Hk. apply typed_set_client; [done|]. eapply Hf, T, Hk.
Qed.
Lemma typed_upd_conn p f : (forall c, conn_ok c -> conn_ok (f c)) -> Keeps typed (upd_conn p f).
Proof.
  intros Hf w T. apply wsp_update. intros k Hk. apply typed_set_conn; [done|]. eapply Hf, T, Hk.
Qed.
Lemma typed_upd_dev p f : (forall d, dev_ok d -> dev_ok (f d)) -> Keeps typed (upd_dev p f).
Proof.
  intros Hf w T. apply wsp_update. intros k Hk. apply typed_set_dev; [done|]. eapply Hf, T, Hk.
Qed.
Lemma typed_upd_ctx p f : (forall c, 1 <= mc_wLength c -> 1 <= mc_wLength (f c)) -> Keeps typed (update w_ctxs p f).
Proof.
  intros Hf w T. apply wsp_update. intros k Hk. apply typed_set_ctx; [done|]. eapply Hf, T, Hk.
Qed.
Lemma typed_upd_xfer p f :
  (forall x, xf_buffer (f x) = xf_buffer x /\ xf_length (f x) = xf_length x /\
     xf_callback (f x) = xf_callback x) -> Keeps typed (update w_xfers p f).
Proof.
  intros Hf w T. apply wsp_update. intros x Hx. apply typed_set_xfer; [done|].
  destruct (Hf x) as (Hb & Hl & Hc). destruct (ty_xfers w T p x Hx) as [H1 H2 H3 H4].
  split; rewrite ?Hb, ?Hl, ?Hc; done.
Qed.

Lemma typed_malloc_client k : client_ok k -> Keeps typed (malloc w_clients k).
Proof. intros Hk w T. apply wsp_malloc, typed_succ; [simpl; lia|by apply typed_set_client]. Qed.
Lemma typed_malloc_conn c : conn_ok c -> Keeps typed (malloc w_conns c).
Proof. intros Hk w T. apply wsp_malloc, typed_succ; [simpl; lia|by apply typed_set_conn]. Qed.
Lemma typed_malloc_dev d : dev_ok d -> Keeps typed (malloc w_devs d).
Proof. intros Hk w T. apply wsp_malloc, typed_succ; [simpl; lia|by apply typed_set_dev]. Qed.
Lemma typed_malloc_ctx c : 1 <= mc_wLength c -> Keeps typed (malloc w_ctxs c).
Proof. intros Hk w T. apply wsp_malloc, typed_succ; [simpl; lia|by apply typed_set_ctx]. Qed.

Lemma typed_free_client p : Keeps typed (free w_clients p).
Proof. intros w T. apply wsp_free. intros _ _. split; simpl; try apply T. eapply (heap_delete (fun _ => client_ok)), T. Qed.
Lemma typed_free_conn p : Keeps typed (free w_conns p).
Proof. intros w T. apply wsp_free. intros _ _. split; simpl; try apply T. eapply (heap_delete (fun _ => conn_ok)), T. Qed.
Lemma typed_free_dev p : Keeps typed (free w_devs p).
Proof. intros w T. apply wsp_free. intros _ _. split; simpl; try apply T. eapply (heap_delete (fun _ => dev_ok)), T. Qed.
Lemma typed_free_ctx p : Keeps typed (free w_ctxs p).
Proof. intros w T. apply wsp_free. intros _ _. split; simpl; try apply T. eapply (heap_delete (fun _ c => 1 <= mc_wLength c)), T. Qed.
Lemma typed_free_xfer p : Keeps typed (free w_xfers p).
Proof. intros w T. apply wsp_free. intros _ _. split; simpl; try apply T. eapply (heap_delete (fun _ => xfer_ok _ _)), T. Qed.

(** *** Buffers of transfers *)

Lemma typed_malloc_buf b : bytes_ok b -> Keeps typed (malloc w_bufs b).
Proof.
  intros Hb w T. apply wsp_malloc. split; simpl; try apply T.
  - intros p x Hx. destruct (ty_xfers w T p x Hx) as [H1 H2 H3 H4].
    split; rewrite ?lookup_insert_ne by lia; [lia|done..].
  - intros p b' [[<- <-]|[_ Hb']]%lookup_insert_Some; [split; [lia|done]|].
    destruct (ty_bufs w T p b' Hb'). split; [lia|done].
Qed.

Lemma typed_set_buf w p b b' :
  typed w -> w_bufs w !! p = Some b -> zlen b' = zlen b -> bytes_ok b' ->
  typed (set w_bufs <[p := b']> w).
Proof.
  intros T Hb Hl Hok. split; simpl; try apply T.
  - intros q x Hx. destruct (ty_xfers w T q x Hx) as [H1 H2 H3 H4].
    assert (forall b2, <[p := b']> (w_bufs w) !! xf_buffer x = Some b2 ->
      exists b1, w_bufs w !! xf_buffer x = Some b1 /\ zlen b1 = zlen b2) as Hget.
    { intros b2 [[Hp <-]|[_ Hb2]]%lookup_insert_Some; [exists b; by rewrite <- Hp|eauto]. }
    split; try done.
    + intros Hrx. destruct (H3 Hrx) as [? H5]. split; [done|].
      intros b2 (b1 & Hb1 & <-)%Hget. by apply H5.
    + intros b2 (b1 & Hb1 & <-)%Hget. by apply H4.
  - intros q b2 [[<- <-]|[_ Hb2]]%lookup_insert_Some; [|by apply (ty_bufs w T)].
    split; [|done]. apply (ty_bufs w T p b Hb).
Qed.

Lemma typed_free_buf p : Keeps typed (free w_bufs p).
Proof.
  intros w T. apply wsp_free. intros b Hb. split; simpl; try apply T.
  - intros q x Hx. destruct (ty_xfers w T q x Hx) as [H1 H2 H3 H4]. split; try done.
    + intros Hrx. destruct (H3 Hrx) as [? H5]. split; [done|].
      intros b2 [_ Hb2]%lookup_delete_Some. by apply H5.
    + intros b2 [_ Hb2]%lookup_delete_Some. by apply H4.
  - apply (heap_delete (fun q b => (q < w_next w)%positive /\ bytes_ok b)), T.
Qed.

Lemma wsp_malloc_xfer x w (Q : ptr -> world -> Prop) :
  typed w -> xfer_ok (w_bufs w) (w_next w) x ->
  (forall w', typed w' -> w_bufs w' = w_bufs w -> Q (w_next w) w') -> wsp (malloc w_xfers x) Q w.
Proof.
  intros T Hx HQ. apply wsp_malloc. apply HQ; [|done].
  apply typed_succ; [simpl; lia|by apply typed_set_xfer].
Qed.

End primitives.

(** ** Automation *)

Create HintDb keeps discriminated.
#[export] Hint Constants Opaque : keeps.

Ltac keeps_step :=
  match goal with
  | |- Keeps _ (_ ≫= _) => apply keeps_bind; [|intros ?]
  | |- Keeps _ (mret _) => apply keeps_ret
  | |- Keeps _ (gets _) => apply keeps_gets
  | |- Keeps _ (when _ _) => apply keeps_when
  | |- Keeps _ (undef _) => apply keeps_undef; discriminate
  | |- Keeps _ no_fuel => apply keeps_no_fuel
  | |- Keeps _ (lift_option _ _) => apply keeps_lift_option; discriminate
  | |- Keeps _ (load _ _) => apply keeps_load
  | |- Keeps _ (foreach _ _) => apply keeps_foreach; [|intros ?]
  | |- Keeps _ (foreach_from _ _ _) => apply keeps_foreach_from; [|intros ?]
  | |- Keeps _ (each _ _) => apply keeps_each
  | |- Keeps _ (match ?x with _ => _ end) => destruct x eqn:?
  | |- Keeps _ (let _ := _ in _) => cbv zeta
  end.

(** Decomposes a function; calls are closed by the hints of [keeps]. *)
Ltac keeps_tac := repeat first [ solve [eauto with keeps] | keeps_step | progress cbv beta ].

(** The same, unfolding the functions that are called. *)
Ltac keeps_deep :=
  repeat first
    [ progress keeps_tac
    | match goal with |- Keeps typed ?m => let h := get_head m in unfold h end ].

(** An object that is changed in place is still in its type. *)
Ltac object_tac :=
  intros ? []; split; simpl; auto with ranges;
  try (unfold u16_ok, u32_ok, u64_ok, bool_ok in *; lia).

#[export] Hint Resolve typed_emit typed_lock typed_unlock typed_upd_usb typed_free_usb typed_upd_cb
  typed_free_cb typed_malloc_usb typed_malloc_cb typed_free_client typed_free_conn typed_free_dev
  typed_free_ctx typed_free_xfer typed_free_buf : keeps.
#[export] Hint Extern 2 (Keeps typed (modify _)) =>
  apply keeps_modify; intros ?; apply typed_same; done : keeps.
#[export] Hint Extern 2 (Keeps typed (upd_client _ _)) => apply typed_upd_client; solve [object_tac] : keeps.
#[export] Hint Extern 2 (Keeps typed (upd_conn _ _)) => apply typed_upd_conn; solve [object_tac] : keeps.
#[export] Hint Extern 2 (Keeps typed (upd_dev _ _)) => apply typed_upd_dev; solve [object_tac] : keeps.
#[export] Hint Extern 2 (Keeps typed (update w_xfers _ _)) => apply typed_upd_xfer; done : keeps.
