(* ===== verification/TypedClient.v ===== *)
(** * TypedClient: the output of clients stays within its types

    Output buffers grow before they overflow, for every reply and every
    notification. *)

From stdpp Require Import base gmap list strings.
From Stdlib Require Import ZArith Lia Ascii String.
From S2P Require Import Prelude Platform Wire UsbSetup World Utils Conf Usb ClientOut DeviceOut.
From S2P Require Import Teardown Device Client UsbDevice UsbLoop Typed.

Local Open Scope list_scope.
Local Open Scope Z_scope.

(** Limits on memory: the allocator refuses blocks of more than 2 GiB, and
    the documents that libplist writes are at most 1 GiB long. *)
Class MemoryLimits (E : Env) : Prop := {
  realloc_limit t n : sys_realloc t n = true -> n <= OB_LIMIT;
  xml_limit d xml : plist_to_xml d = Some xml -> bytes_ok xml /\ zlen xml <= 2 ^ 30;
}.

(** ** The output buffer *)

Section output.
Context `{E : Env} `{!IoLaws E} `{!MemoryLimits E}.
Implicit Types w : world.

Lemma enlarged_fits cap len :
  0 <= cap <= OB_LIMIT -> 0 <= len <= 2 ^ 30 + 16 -> cap + len <= enlarged cap len < 2 ^ 32.
Proof.
  unfold OB_LIMIT, enlarged. intros Hc Hl. rewrite (u32_small (_ + _)) by lia.
  pose proof (Z.div_mod (cap + len + 4096) 4096). pose proof (Z.mod_pos_bound (cap + len + 4096) 4096).
  rewrite u32_small; lia.
Qed.

Lemma realloc_buf_ok t buf size n :
  buffer_ok buf size -> 0 <= size <= n -> zlen (realloc_buf t buf n) = n /\ bytes_ok (realloc_buf t buf n).
Proof.
  intros Hb Hn. unfold realloc_buf. destruct buf as [b|]; simpl in *.
  - destruct Hb as [Hl Hok]. rewrite (ztake_all n b) by lia. rewrite zlen_app, malloc_len by lia.
    split; [lia|]. apply bytes_ok_app. split; [done|apply malloc_bytes_ok].
  - rewrite (ztake_all n []) by (rewrite zlen_nil; lia). simpl. rewrite zlen_nil, malloc_len by lia.
    split; [lia|apply malloc_bytes_ok].
Qed.

(** The client has room for [len] more bytes. *)
Definition room (client : ptr) (len : Z) w : Prop :=
  exists k, w_clients w !! client = Some k /\ cl_ob_size k + len <= cl_ob_capacity k.

Lemma wsp_enlarge client k len w (Q : bool -> world -> Prop) :
  typed w -> w_clients w !! client = Some k -> 0 <= len <= 2 ^ 30 + 16 ->
  (forall (b : bool) w', typed w' -> (b = true -> room client len w') -> Q b w') ->
  wsp (if u32 (cl_ob_capacity k - cl_ob_size k) <? len then
         let new_size := enlarged (cl_ob_capacity k) len in
         t ← gets w_trace;
         if sys_realloc t new_size then
           upd_client client (fun c => c <| cl_ob_buf := Some (realloc_buf t (cl_ob_buf c) new_size) |>
                                         <| cl_ob_capacity := new_size |>) ;;
           mret true
         else mret false
       else mret true) Q w.
Proof.
  intros T Hk Hlen HQ. pose proof (ty_clients w T _ _ Hk) as K.
  pose proof (ck_ob_size k K) as Hs. pose proof (ck_ob_capacity k K) as Hc.
  unfold OB_LIMIT in Hc. rewrite u32_small by lia. destruct (Z.ltb_spec (cl_ob_capacity k - cl_ob_size k) len).
  - apply wsp_bind, wsp_gets. destruct (sys_realloc _ _) eqn:Hre; [|apply HQ; done].
    pose proof (realloc_limit _ _ Hre) as Hlim. set (new := enlarged _ _) in *.
    destruct (enlarged_fits (cl_ob_capacity k) len) as [Hf Hu]; [unfold OB_LIMIT; lia|done|].
    apply wsp_bind, wsp_update. intros k' Hk'. assert (k' = k) as -> by congruence.
    apply wsp_ret, HQ.
    + apply typed_set_client; [done|]. destruct (realloc_buf_ok (w_trace w) (cl_ob_buf k) (cl_ob_capacity k) new) as [Hl Hb];
        [apply K|lia|]. destruct K. split; simpl; try done. lia.
    + intros _. eexists. split; [simpl; apply lookup_insert_eq|]. simpl. lia.
  - apply wsp_ret, HQ; [done|]. intros _. exists k. split; [done|lia].
Qed.

Lemma wsp_copy_into buf off data cap (Q : list Z -> world -> Prop) w :
  buffer_ok buf cap -> 0 <= off -> off + zlen data <= cap -> bytes_ok data ->
  (forall b, zlen b = cap -> bytes_ok b -> Q b w) -> wsp (copy_into buf off data) Q w.
Proof.
  intros Hb Ho Hfit Hd HQ. unfold copy_into. destruct buf as [b|]; [|done]. destruct Hb as [Hl Hok].
  rewrite (proj2 (Z.leb_le _ _)) by lia. apply wsp_ret, HQ; [rewrite zlen_write_at; lia|].
  by apply bytes_ok_write_at.
Qed.

Lemma usbmuxd_header_bytes_ok h : bytes_ok (usbmuxd_header_bytes h).
Proof. unfold usbmuxd_header_bytes. rewrite !bytes_ok_app. auto with ranges. Qed.

Lemma typed_add_message client tag msg payload :
  bytes_ok payload -> zlen payload <= 2 ^ 30 ->
  Keeps typed (output_buffer_add_message client tag msg payload).
Proof.
  intros Hp Hlen w T. unfold output_buffer_add_message. apply wsp_bind, wsp_load. intros k Hk.
  cbv zeta. cbn [hdr_length]. pose proof (zlen_nonneg payload). unfold sizeof_usbmuxd_header.
  rewrite !(u32_small (16 + _)) by lia. apply wsp_bind.
  apply (wsp_enlarge client k (16 + zlen payload)); [done|done|lia|].
  intros [|] w1 T1 Hroom; [|exact T1]. destruct (Hroom eq_refl) as (k1 & Hk1 & Hfit).
  pose proof (ty_clients w1 T1 _ _ Hk1) as K1. pose proof (ck_ob_size k1 K1).
  apply wsp_bind, wsp_load. intros k2 Hk2. assert (k2 = k1) as -> by congruence.
  apply wsp_bind. apply (wsp_copy_into _ _ _ (cl_ob_capacity k1));
    [apply K1|lia|rewrite zlen_usbmuxd_header_bytes; unfold sizeof_usbmuxd_header; lia|apply usbmuxd_header_bytes_ok|].
  intros b Hb Hbok. apply wsp_bind.
  assert (forall b', zlen b' = cl_ob_capacity k1 -> bytes_ok b' ->
    wsp (upd_client client (fun c => c <| cl_ob_buf := Some b' |>
      <| cl_ob_size := u32 (cl_ob_size c + (16 + zlen payload)) |>
      <| cl_events := Z.lor (cl_events c) POLLOUT |>) ;; mret (s32 (16 + zlen payload)))
      (fun _ => typed) w1) as Hend.
  { intros b' Hb' Hbok'. apply wsp_bind, wsp_update. intros k3 Hk3. assert (k3 = k1) as -> by congruence.
    apply wsp_ret, typed_set_client; [done|]. destruct K1. unfold OB_LIMIT in *.
    split; simpl; auto with ranges. rewrite u32_small; lia. }
  destruct payload as [|x payload]; [apply wsp_ret; by apply Hend|].
  apply (wsp_copy_into _ _ _ (cl_ob_capacity k1)); [done|lia|lia|done|]. exact Hend.
Qed.

(** ** Messages *)

Lemma typed_send_plist client tag plist : Keeps typed (send_plist client tag plist).
Proof.
  unfold send_plist. destruct (plist_to_xml plist) as [xml|] eqn:Hx; [|apply keeps_ret].
  destruct (xml_limit _ _ Hx). by apply typed_add_message.
Qed.
#[local] Hint Resolve typed_send_plist : keeps.

(** A message of a few bytes. *)
Lemma typed_small_message client tag msg payload :
  bytes_ok payload -> zlen payload <= 1024 -> Keeps typed (output_buffer_add_message client tag msg payload).
Proof. intros Hp Hl. apply typed_add_message; [done|lia]. Qed.

Lemma typed_le_message client tag msg x : Keeps typed (output_buffer_add_message client tag msg (le_bytes 4 x)).
Proof. apply typed_small_message; [apply le_bytes_ok|by rewrite zlen_le]. Qed.
#[local] Hint Resolve typed_le_message : keeps.

Lemma bytes_of_string_ok s : bytes_ok (bytes_of_string s).
Proof.
  unfold bytes_of_string. apply Forall_fmap, Forall_true. intros c.
  pose proof (N_ascii_bounded c). unfold compose, byte_ok. lia.
Qed.

Lemma typed_record_message client tag msg id pid s loc :
  Keeps typed (output_buffer_add_message client tag msg (device_record_bytes id pid s loc)).
Proof.
  apply typed_small_message; [|by rewrite zlen_device_record_bytes].
  unfold device_record_bytes, serial_field. rewrite !bytes_ok_app. split_and!; auto with ranges.
  - apply bytes_ok_ztake, bytes_of_string_ok.
  - by apply Forall_replicate.
Qed.
#[local] Hint Resolve typed_record_message : keeps.

Lemma typed_send_result client tag r : Keeps typed (send_result client tag r).
Proof. unfold send_result. keeps_tac. Qed.
#[local] Hint Resolve typed_send_result : keeps.

Lemma typed_notify_connect client r : Keeps typed (client_notify_connect client r).
Proof. unfold client_notify_connect. keeps_tac. Qed.

Lemma typed_attached_plist i : Keeps typed (create_device_attached_plist i).
Proof. unfold create_device_attached_plist. keeps_tac. Qed.
#[local] Hint Resolve typed_attached_plist : keeps.

Lemma typed_send_device_add c i : Keeps typed (send_device_add c i).
Proof. unfold send_device_add. keeps_tac. Qed.
#[local] Hint Resolve typed_send_device_add : keeps.

Lemma typed_client_device_add i : Keeps typed (client_device_add i).
Proof. keeps_deep. Qed.
Lemma typed_client_device_remove i : Keeps typed (client_device_remove i).
Proof. keeps_deep. Qed.
Lemma typed_client_device_paired i : Keeps typed (client_device_paired i).
Proof. keeps_deep. Qed.

End output.
#[export] Hint Resolve typed_send_plist typed_send_result typed_notify_connect typed_attached_plist
  typed_send_device_add typed_client_device_add typed_client_device_remove
  typed_client_device_paired : keeps.
