(* ===== verification/TypedDevice.v ===== *)
(** * TypedDevice: device.c stays within its types

    Packets fit their buffers, the input buffer of a connection takes no more
    than it has room for, what a client sends fits the output buffer, and what
    is read from a packet is in the range of its field. *)

From stdpp Require Import base gmap list strings.
From Stdlib Require Import ZArith Lia.
From S2P Require Import Prelude Platform Wire UsbSetup World Utils Conf Usb ClientOut DeviceOut.
From S2P Require Import Teardown Device Client UsbDevice UsbLoop PacketFacts Typed TypedClient.

Local Open Scope list_scope.
Local Open Scope Z_scope.

(** ** Sending *)

Section sending.
Context `{E : Env} `{!IoLaws E} `{!MemoryLimits E}.
Implicit Types w : world.

Lemma wsp_malloc_buf b w (Q : ptr -> world -> Prop) :
  typed w -> bytes_ok b ->
  (forall w', typed w' -> w_bufs w' !! w_next w = Some b -> Q (w_next w) w') -> wsp (malloc w_bufs b) Q w.
Proof.
  intros T Hb HQ. pose proof (typed_malloc_buf b Hb w T) as T'. apply wsp_malloc, HQ; [exact T'|].
  simpl. apply lookup_insert_eq.
Qed.

Lemma xfer_new w dev buf b length cb flags :
  typed w -> w_bufs w !! buf = Some b -> min_length cb <= length <= zlen b ->
  (cb = CB_RX -> length = USB_MRU /\ zlen b = USB_MRU) ->
  xfer_ok (w_bufs w) (w_next w) (mk_xfer dev buf length cb flags).
Proof.
  intros T Hb Hl Hr. split; simpl; [apply (ty_bufs w T buf b Hb)|lia| |].
  - intros Hcb. destruct (Hr Hcb). split; [done|]. congruence.
  - intros b' Hb'. assert (b' = b) as -> by congruence. lia.
Qed.

Lemma typed_submit dev ep data : Keeps typed (submit dev ep data).
Proof. unfold submit. keeps_tac. Qed.
#[local] Hint Resolve typed_submit : keeps.

Lemma wsp_usb_send dev buf length w :
  typed w -> (forall b, w_bufs w !! buf = Some b -> 0 <= length <= zlen b) ->
  wsp (usb_send dev buf length) (fun _ => typed) w.
Proof.
  intros T Hl. unfold usb_send. apply wsp_bind, wsp_load. intros u Hu.
  apply wsp_bind, wsp_load. intros b Hb. apply wsp_bind.
  apply wsp_malloc_xfer; [done|apply (xfer_new w dev buf b); [done|done|by apply Hl|done]|].
  intros w1 T1 _.
  eapply (wsp_keeps typed); [apply typed_submit|exact T1|]. intros res w2 T2.
  destruct (res <? 0); [apply keeps_at; [keeps_tac|done]|].
  eapply (wsp_keeps typed); [keeps_tac|exact T2|]. intros _ w3 T3.
  apply wsp_bind, wsp_load. intros u3 _. destruct (_ =? 0); [done|]. destruct (_ =? 0); [|exact T3].
  apply wsp_bind, wsp_gets, wsp_bind. apply wsp_malloc_buf; [done|apply malloc_bytes_ok|].
  intros w4 T4 Hb4. apply wsp_bind. apply wsp_malloc_xfer; [done|eapply xfer_new; [done|exact Hb4| |done]|].
  { simpl. rewrite malloc_len; lia. }
  intros w5 T5 _. apply keeps_at; [keeps_tac|done].
Qed.

(** The device keeps its protocol version. *)
Definition version_kept (dev : ptr) (v : Z) w : Prop :=
  typed w /\ exists d, w_devs w !! dev = Some d /\ dv_version d = v.

Lemma wsp_version_kept (b : bool) dev v f w :
  (forall d, dev_ok d -> dev_ok (f d)) -> (forall d, dv_version (f d) = dv_version d) ->
  version_kept dev v w -> wsp (when b (upd_dev dev f)) (fun _ => version_kept dev v) w.
Proof.
  intros Hf Hv [T (d & Hd & Hvd)]. apply wsp_when; [|by intros _; split; eauto]. intros _.
  apply wsp_update. intros d' Hd'. assert (d' = d) as -> by congruence. split.
  - apply typed_set_dev; [done|]. eapply Hf, T, Hd.
  - exists (f d). split; [simpl; apply lookup_insert_eq|]. by rewrite Hv.
Qed.

Lemma mux_header_bytes_ok v h : bytes_ok (mux_header_bytes v h).
Proof. unfold mux_header_bytes. destruct (v <? 2); rewrite ?bytes_ok_app; auto 8 with ranges. Qed.

Lemma typed_send_packet dev proto header data :
  bytes_ok header -> bytes_ok data -> default 0 (proto_hdrlen proto) <= zlen header ->
  Keeps typed (send_packet dev proto header data).
Proof.
  intros Hh Hd Hlen w T. unfold send_packet. destruct (proto_hdrlen proto) as [hdrlen|] eqn:Hp; [|exact T].
  simpl in Hlen. assert (0 <= hdrlen) as Hn by (destruct proto; simplify_eq/=; done).
  apply wsp_bind, wsp_load. intros d Hdev. cbv zeta. destruct (_ >? USB_MTU); [exact T|].
  eapply wsp_call; [apply (wsp_version_kept _ dev (dv_version d));
    [object_tac|done|split; [done|by exists d]]|]. intros _ w1 [T1 (d1 & Hd1 & Hv1)].
  apply wsp_bind, wsp_load. intros d1' Hd1'. assert (d1' = d1) as -> by congruence.
  eapply wsp_call; [apply (wsp_version_kept _ dev (dv_version d));
    [object_tac|done|split; [done|by exists d1]]|]. intros _ w2 [T2 _].
  apply wsp_bind. apply wsp_malloc_buf; [done|rewrite !bytes_ok_app; auto using mux_header_bytes_ok with ranges|].
  intros w3 T3 Hb3. eapply wsp_call; [apply wsp_usb_send; [done|]|].
  - intros b Hb. assert (b = _) as -> by (apply (inj Some); rewrite <- Hb; exact Hb3). rewrite !zlen_app, zlen_mux_header_bytes, Hv1.
    rewrite zlen_ztake by lia. pose proof (zlen_nonneg data). unfold mux_header_size.
    destruct (_ <? 2); unfold sizeof_mux_header; lia.
  - intros res w4 T4. destruct (res <? 0); [|exact T4]. apply keeps_at; [keeps_tac|done].
Qed.

Lemma tcphdr_bytes_ok th : bytes_ok (tcphdr_bytes th).
Proof. unfold tcphdr_bytes. rewrite !bytes_ok_app. auto 10 with ranges. Qed.

Lemma typed_send_segment dev th data :
  bytes_ok data -> Keeps typed (send_packet dev MUX_PROTO_TCP (tcphdr_bytes th) data).
Proof. intros Hd. apply typed_send_packet; [apply tcphdr_bytes_ok|done|by rewrite zlen_tcphdr_bytes]. Qed.

Lemma wsp_mstime64 w : wsp mstime64 (fun t w' => u64_ok t /\ w' = w) w.
Proof. split; [apply u64_range|done]. Qed.

Lemma bool_clear x : bool_ok x -> bool_ok (clear_flag x CONN_ACK_PENDING).
Proof. intros [->| ->]; by left. Qed.

Lemma typed_send_tcp conn flags data : bytes_ok data -> Keeps typed (send_tcp conn flags data).
Proof.
  intros Hd. unfold send_tcp. apply keeps_bind; [apply keeps_load|]. intros c.
  apply keeps_bind; [by apply typed_send_segment|]. intros res. apply keeps_bind; [|intros _; apply keeps_ret].
  apply keeps_when. intros w T. eapply wsp_call; [apply wsp_mstime64|]. intros t ? [Ht ->].
  apply typed_upd_conn; [|done]. intros k []. split; simpl; auto using bool_clear.
Qed.

Lemma typed_send_tcp_empty conn flags : Keeps typed (send_tcp conn flags []).
Proof. apply typed_send_tcp. constructor. Qed.
Lemma typed_send_anon_rst dev sport dport ack : Keeps typed (send_anon_rst dev sport dport ack).
Proof. apply typed_send_segment. constructor. Qed.

End sending.
#[export] Hint Resolve typed_submit typed_send_tcp_empty typed_send_anon_rst : keeps.

(** ** Identifiers *)

Section identifiers.
Context `{E : Env} `{!IoLaws E} `{!MemoryLimits E}.
Implicit Types w : world.

Lemma typed_bump : Keeps typed bump_next_device_id.
Proof.
  intros w T. unfold bump_next_device_id. apply wsp_bind, wsp_gets.
  destruct (Z.eqb_spec (next_device_id w) INT_MAX); [done|]. apply wsp_modify.
  pose proof (ty_next_id w T). destruct T. split; simpl; try done. lia.
Qed.
#[local] Hint Resolve typed_bump : keeps.

Lemma wsp_next_device_id_loop n w :
  typed w -> wsp (get_next_device_id_loop n) (fun id w' => typed w' /\ 1 <= id <= INT_MAX) w.
Proof.
  revert w. induction n as [|n IH]; intros w T; cbn [get_next_device_id_loop]; [done|].
  eapply (wsp_keeps typed); [keeps_tac|exact T|]. intros _ w1 T1.
  eapply (wsp_keeps typed); [keeps_tac|exact T1|]. intros taken w2 T2.
  eapply (wsp_keeps typed); [keeps_tac|exact T2|]. intros _ w3 T3.
  destruct taken; [by apply IH|]. apply wsp_bind, wsp_gets.
  eapply (wsp_keeps typed); [keeps_tac|exact T3|]. intros _ w4 T4. split; [done|apply (ty_next_id w3 T3)].
Qed.

Lemma wsp_get_next_device_id w :
  typed w -> wsp get_next_device_id (fun id w' => typed w' /\ 1 <= id <= INT_MAX) w.
Proof. intros T. apply wsp_bind, wsp_gets. by apply wsp_next_device_id_loop. Qed.

Lemma typed_dev_connections dev : Keeps typed (dev_connections dev).
Proof. unfold dev_connections. keeps_tac. Qed.
#[local] Hint Resolve typed_dev_connections : keeps.

Lemma wsp_find_sport_loop n dev w :
  typed w -> wsp (find_sport_loop n dev) (fun sport w' => typed w' /\ u16_ok sport) w.
Proof.
  revert w. induction n as [|n IH]; intros w T; cbn [find_sport_loop]; [done|].
  eapply (wsp_keeps typed); [keeps_tac|exact T|]. intros taken w1 T1. destruct taken; [by apply IH|].
  apply wsp_bind, wsp_load. intros d Hd.
  eapply (wsp_keeps typed); [keeps_tac|exact T1|]. intros _ w2 T2.
  split; [done|]. by destruct (ty_devs w1 T1 dev d Hd).
Qed.

Lemma wsp_find_sport dev w :
  typed w -> wsp (find_sport dev) (fun sport w' => typed w' /\ u16_ok sport) w.
Proof.
  intros T. unfold find_sport. eapply (wsp_keeps typed); [keeps_tac|exact T|]. intros c w1 T1.
  destruct (_ <=? _); [by split|by apply wsp_find_sport_loop].
Qed.

Lemma typed_upd_connections dev f : Keeps typed (upd_connections dev f).
Proof. unfold upd_connections. keeps_tac. Qed.
Lemma typed_get_mux_device id : Keeps typed (get_mux_device_for_id id).
Proof. unfold get_mux_device_for_id. keeps_tac. Qed.
Lemma typed_get_mux_connection id cl : Keeps typed (get_mux_connection id cl).
Proof. unfold get_mux_connection. keeps_tac. Qed.

End identifiers.
#[export] Hint Resolve typed_dev_connections typed_upd_connections typed_get_mux_device
  typed_get_mux_connection : keeps.

(** ** Raw input and output of clients *)

Section raw.
Context `{E : Env} `{!IoLaws E} `{!MemoryLimits E}.
Implicit Types w : world.

Definition only_trace w w' : Prop := exists t, w' = w <| w_trace := t |>.

Lemma only_trace_typed w w' : only_trace w w' -> typed w -> typed w'.
Proof. intros [t ->]. apply typed_trace. Qed.

Lemma wsp_client_write cl buf w :
  wsp (client_write cl buf) (fun n w' => only_trace w w' /\ n <= zlen buf) w.
Proof.
  unfold client_write. apply wsp_bind, wsp_load. intros k _. pose proof (zlen_nonneg buf).
  assert (only_trace w w) as Hr by (exists (w_trace w); by destruct w).
  case_decide; [|split; [done|lia]]. unfold send. unfold wsp; simpl. split; [by eexists|].
  destruct (sys_send _ _ _) as [n|e] eqn:Hs; [apply send_bound in Hs; lia|]. destruct (_ || _); lia.
Qed.

Lemma wsp_client_read cl len w :
  0 <= len ->
  wsp (client_read cl len) (fun r w' => only_trace w w' /\ bytes_ok (snd r) /\
    (0 < fst r -> fst r = zlen (snd r) /\ zlen (snd r) <= len)) w.
Proof.
  intros Hl. unfold client_read. apply wsp_bind, wsp_load. intros k _.
  assert (only_trace w w) as Hr by (exists (w_trace w); by destruct w).
  case_decide; [|split_and!; [done|constructor|simpl; lia]]. unfold recv. unfold wsp; simpl.
  destruct (sys_recv _ _ _) as [data|e] eqn:Hs; simpl.
  - split_and!; [by eexists|by eapply recv_bytes|]. intros _. split; [done|by eapply recv_bound].
  - split_and!; [by eexists|constructor|lia].
Qed.

Lemma consume_ib_ok size c : conn_ok c -> 0 < size <= cn_ib_size c -> conn_ok (consume_ib size c).
Proof.
  intros K Hs. unfold consume_ib. destruct (size =? _).
  - destruct K. split; simpl; try done. lia.
  - destruct K as [? ? ? ? ? ? ? ? ? ? ? ? ? [Hib Hb] Hsz Hcap ? ? ? ?].
    unfold CONN_INBUF_SIZE in Hcap. rewrite (u32_small (_ - _)) by lia. split; simpl; try done; [|lia].
    split; [|auto with ranges]. rewrite zlen_write_at; [lia|lia|].
    pose proof (zlen_slice_le size (cn_ib_size c - size) (cn_ib_buf c)). lia.
Qed.

Lemma typed_flush_loop n conn tm : Keeps typed (flush_loop n conn tm).
Proof.
  revert tm. induction n as [|n IH]; intros tm w T; cbn [flush_loop]; [done|].
  apply wsp_bind, wsp_load. intros c Hc. apply wsp_bind, wsp_lift_option; [done|]. intros cl _.
  eapply wsp_call; [apply wsp_client_write|]. intros size w1 [[t ->] Hsize].
  pose proof (ty_conns w T _ _ Hc) as K. pose proof (nk_ib c K) as [Hl _]. pose proof (nk_ib_size c K).
  rewrite zlen_ztake in Hsize by lia. pose proof (typed_trace w t T) as T1.
  destruct (Z.ltb_spec size 0); [exact T1|]. destruct (Z.eqb_spec size 0).
  - eapply wsp_call; [apply wsp_mstime64|]. intros now ? [_ ->]. destruct (_ >? _); [exact T1|].
    eapply (wsp_keeps typed); [keeps_tac|exact T1|]. intros _ w2 T2. by apply IH.
  - apply wsp_bind, wsp_update. intros c' Hc'. assert (c' = c) as -> by (simpl in Hc'; congruence).
    pose proof (typed_set_conn _ conn _ T1 (consume_ib_ok size c K ltac:(lia))) as T2.
    destruct (_ =? _); [exact T2|]. eapply wsp_call; [apply wsp_mstime64|]. intros now ? [_ ->]. by apply IH.
Qed.

End raw.
#[export] Hint Resolve typed_flush_loop : keeps.

(** ** Teardown *)

Section teardown.
Context `{E : Env} `{!IoLaws E} `{!MemoryLimits E}.

Lemma typed_mstime64 : Keeps typed mstime64.
Proof. intros w T. exact T. Qed.
#[local] Hint Resolve typed_mstime64 : keeps.

Lemma typed_client_close_with t cl : (forall p, Keeps typed (t p)) -> Keeps typed (client_close_with t cl).
Proof.
  intros Ht. unfold client_close_with, client_listed, device_abort_connect_with. keeps_tac.
Qed.
#[local] Hint Resolve typed_client_close_with : keeps.

Lemma typed_teardown_depth n p : Keeps typed (connection_teardown_depth n p).
Proof.
  revert p. induction n as [|n IH]; intros p; cbn [connection_teardown_depth]; keeps_tac.
Qed.

Lemma typed_connection_teardown p : Keeps typed (connection_teardown p).
Proof. apply typed_teardown_depth. Qed.
#[local] Hint Resolve typed_connection_teardown : keeps.
Lemma typed_client_close p : Keeps typed (client_close p).
Proof. apply typed_client_close_with, typed_connection_teardown. Qed.
Lemma typed_device_abort_connect id p : Keeps typed (device_abort_connect id p).
Proof. unfold device_abort_connect, device_abort_connect_with. keeps_tac. Qed.
Lemma typed_teardown_connections p : Keeps typed (teardown_connections p).
Proof. unfold teardown_connections. keeps_tac. Qed.

End teardown.
#[export] Hint Resolve typed_mstime64 typed_connection_teardown typed_client_close
  typed_device_abort_connect typed_teardown_connections : keeps.

(** ** Flow control *)

Section flow.
Context `{E : Env} `{!IoLaws E} `{!MemoryLimits E}.
Implicit Types w : world.

Lemma conn_sendable_range c :
  0 <= cn_max_payload c -> 0 <= cn_ob_capacity c -> 0 <= conn_sendable c <= cn_max_payload c.
Proof.
  intros Hm Hc. unfold conn_sendable. pose proof (u32_range (cn_rx_win c - conn_sent c)).
  repeat case_match; repeat match goal with
    | H : (_ <? _) = true |- _ => apply Z.ltb_lt in H
    | H : (_ <? _) = false |- _ => apply Z.ltb_ge in H
    end; lia.
Qed.

Lemma bool_set_flag_if b x : bool_ok x -> bool_ok (set_flag_if b x CONN_ACK_PENDING).
Proof. intros [->| ->]; destruct b; vm_compute; auto. Qed.

Lemma updated_connection_typed c : conn_ok c -> conn_ok (updated_connection c).
Proof.
  intros K. pose proof (conn_sendable_range c) as Hs. pose proof (nk_max_payload c K) as Hm.
  pose proof (nk_ob_capacity c K) as Ho. rewrite Hm, Ho in Hs.
  unfold USB_MTU, sizeof_mux_header, sizeof_tcphdr, CONN_OUTBUF_SIZE in *.
  destruct K. split; simpl; auto using bool_set_flag_if with ranges.
  rewrite Hm. apply Hs; lia.
Qed.

Lemma typed_client_set_events cl events : mask_ok events -> Keeps typed (client_set_events cl events).
Proof. intros He. unfold client_set_events, nonnull. keeps_tac. Qed.

Lemma typed_update_connection conn : Keeps typed (update_connection conn).
Proof.
  unfold update_connection. apply keeps_bind; [apply typed_upd_conn, updated_connection_typed|].
  intros _ w T. apply wsp_bind, wsp_load. intros c Hc. apply keeps_at; [|done].
  apply keeps_bind; [|intros; apply keeps_ret]. apply typed_client_set_events. apply (ty_conns w T _ _ Hc).
Qed.
#[local] Hint Resolve typed_update_connection : keeps.

Lemma typed_send_tcp_ack conn : Keeps typed (send_tcp_ack conn).
Proof. unfold send_tcp_ack. keeps_tac. Qed.

(** The two halves of [device_client_process]. *)
Lemma wsp_deliver conn c events w :
  typed w -> w_conns w !! conn = Some c ->
  wsp (if flag_set events POLLOUT && (0 <? cn_ib_size c) then
         cl ← nonnull (cn_client c);
         size ← client_write cl (ztake (cn_ib_size c) (cn_ib_buf c));
         if size <=? 0 then connection_teardown conn ;; mret false
         else
           upd_conn conn (fun c => consume_ib size (c <| cn_tx_ack := u32 (cn_tx_ack c + size) |>)) ;;
           mret true
       else mret true) (fun _ => typed) w.
Proof.
  intros T Hc. pose proof (ty_conns w T _ _ Hc) as K. pose proof (nk_ib c K) as [Hl _].
  pose proof (nk_ib_size c K). destruct (_ && _); [|exact T].
  apply wsp_bind, wsp_lift_option; [done|]. intros cl _.
  eapply wsp_call; [apply wsp_client_write|]. intros size w1 [[t ->] Hsize].
  rewrite zlen_ztake in Hsize by lia. pose proof (typed_trace w t T) as T1.
  destruct (Z.leb_spec size 0); [apply keeps_at; [keeps_tac|done]|].
  apply wsp_bind, wsp_update. intros c' Hc'. assert (c' = c) as -> by (simpl in Hc'; congruence).
  apply wsp_ret, typed_set_conn; [done|]. apply consume_ib_ok; [|simpl; lia].
  destruct K. split; simpl; auto with ranges.
Qed.

Lemma wsp_forward conn c events w :
  typed w -> w_conns w !! conn = Some c ->
  wsp (if flag_set events POLLIN && (0 <? cn_sendable c) then
         cl ← nonnull (cn_client c);
         r ← client_read cl (cn_sendable c);
         let '(size, data) := r in
         if size <=? 0 then connection_teardown conn ;; mret false
         else if zlen (cn_ob_buf c) <? size then undef OutOfBounds
         else
           upd_conn conn (fun c => c <| cn_ob_buf := write_at 0 data (cn_ob_buf c) |>) ;;
           res ← send_tcp conn TH_ACK data;
           if res <? 0 then connection_teardown conn ;; mret false
           else
             upd_conn conn (fun c => c <| cn_tx_seq := u32 (cn_tx_seq c + size) |>) ;;
             mret true
       else mret true) (fun _ => typed) w.
Proof.
  intros T Hc. pose proof (ty_conns w T _ _ Hc) as K. pose proof (nk_ob c K) as [Hl Hb].
  pose proof (nk_sendable c K) as Hs. pose proof (nk_max_payload c K) as Hm.
  pose proof (nk_ob_capacity c K) as Ho. unfold USB_MTU, sizeof_mux_header, sizeof_tcphdr, CONN_OUTBUF_SIZE in *.
  destruct (_ && _); [|exact T]. apply wsp_bind, wsp_lift_option; [done|]. intros cl _.
  eapply wsp_call; [apply wsp_client_read; lia|]. intros [size data] w1 ([t ->] & Hd & Hsize).
  simpl in Hd, Hsize. pose proof (typed_trace w t T) as T1.
  destruct (Z.leb_spec size 0); [apply keeps_at; [keeps_tac|done]|]. destruct Hsize as [-> Hfit]; [lia|].
  rewrite (proj2 (Z.ltb_ge _ _)) by lia.
  apply wsp_bind, wsp_update. intros c' Hc'. assert (c' = c) as -> by (simpl in Hc'; congruence).
  assert (conn_ok (c <| cn_ob_buf := write_at 0 data (cn_ob_buf c) |>)) as K2.
  { destruct K. split; simpl; try done. split; [rewrite zlen_write_at; lia|auto with ranges]. }
  pose proof (typed_set_conn _ conn _ T1 K2) as T2.
  eapply (wsp_keeps typed); [by apply typed_send_tcp|exact T2|]. intros res w3 T3.
  apply keeps_at; [keeps_tac|done].
Qed.

Lemma typed_device_client_process id cl events : Keeps typed (device_client_process id cl events).
Proof.
  unfold device_client_process. apply keeps_bind; [keeps_tac|intros _]. apply keeps_bind; [keeps_tac|intros conn].
  apply keeps_bind; [keeps_tac|intros _]. destruct conn as [conn|]; [|apply keeps_ret]. intros w T.
  apply wsp_bind, wsp_load. intros c Hc. eapply wsp_call; [by apply wsp_deliver|]. intros go w1 T1.
  destruct (negb go); [exact T1|]. apply wsp_bind, wsp_load. intros c1 Hc1.
  eapply wsp_call; [by apply wsp_forward|]. intros go1 w2 T2. destruct (negb go1); [exact T2|].
  by apply typed_update_connection.
Qed.

Lemma typed_connection_device_input conn payload :
  bytes_ok payload -> zlen payload <= DEV_MRU -> Keeps typed (connection_device_input conn payload).
Proof.
  intros Hp Hlen w T. unfold connection_device_input. apply wsp_bind, wsp_load. intros c Hc.
  pose proof (ty_conns w T _ _ Hc) as K. pose proof (nk_ib c K) as [Hl Hb]. pose proof (nk_ib_size c K).
  pose proof (nk_ib_capacity c K) as Hcap. pose proof (zlen_nonneg payload).
  unfold CONN_INBUF_SIZE, DEV_MRU in *. rewrite u32_small by lia.
  destruct (Z.ltb_spec (cn_ib_capacity c) (cn_ib_size c + zlen payload)); [apply keeps_at; [keeps_tac|done]|].
  rewrite (proj2 (Z.ltb_ge _ _)) by lia. apply wsp_bind, wsp_update. intros c' Hc'.
  assert (c' = c) as -> by congruence. apply typed_update_connection. apply typed_set_conn; [done|].
  destruct K. split; simpl; auto with ranges.
  - split; [rewrite zlen_write_at; lia|auto with ranges].
  - rewrite u32_small by lia. lia.
Qed.

End flow.
#[export] Hint Resolve typed_update_connection typed_send_tcp_ack typed_device_client_process : keeps.

(** ** Packets from a device *)

Section packets.
Context `{E : Env} `{!IoLaws E} `{!MemoryLimits E}.
Implicit Types w : world.

Lemma typed_make_device_info d : Keeps typed (make_device_info d).
Proof. keeps_deep. Qed.
Lemma typed_preflight_device_add i : Keeps typed (preflight_worker_device_add i).
Proof. keeps_deep. Qed.
#[local] Hint Resolve typed_make_device_info typed_preflight_device_add : keeps.

Lemma typed_setup_packet dev : Keeps typed (send_packet dev MUX_PROTO_SETUP [] [7]).
Proof. apply typed_send_packet; [constructor|by repeat constructor|done]. Qed.
#[local] Hint Resolve typed_setup_packet : keeps.

Lemma typed_device_version_input dev vh : Keeps typed (device_version_input dev vh).
Proof.
  unfold device_version_input. apply keeps_bind; [keeps_tac|intros d]. destruct (decide _); [keeps_tac|].
  cbv zeta. destruct (negb _ && negb _) eqn:Hm; [keeps_tac|].
  apply keeps_bind; [|intros _; keeps_tac]. apply typed_upd_dev. intros d' []. split; simpl; try done.
  apply andb_false_iff in Hm as [Hm|Hm]; apply negb_false_iff, Z.eqb_eq in Hm; lia.
Qed.

Lemma typed_print_string prec buf : Keeps typed (print_string prec buf).
Proof.
  revert prec. induction buf as [|b buf IH]; intros [[|n]|]; cbn [print_string]; keeps_tac; apply IH.
Qed.

Lemma typed_device_control_input dev payload n :
  payload <> [] -> Keeps typed (device_control_input dev payload n).
Proof.
  intros Hp. unfold device_control_input. destruct payload as [|kind text]; [done|].
  pose proof typed_print_string. keeps_tac; auto.
Qed.

(** The fields of a segment that was read from a packet. *)
Definition segment_ok (th : tcphdr) : Prop :=
  u16_ok (th_sport th) /\ u16_ok (th_dport th) /\ u32_ok (th_seq th) /\ u32_ok (th_ack th) /\
  u16_ok (th_win th).

Lemma tcphdr_parse_ok buf : bytes_ok buf -> segment_ok (tcphdr_parse buf).
Proof. intros Hb. unfold segment_ok; simpl. auto 8 with ranges. Qed.

Lemma typed_connection_tcp_input conn th payload :
  segment_ok th -> bytes_ok payload -> zlen payload <= DEV_MRU ->
  Keeps typed (connection_tcp_input conn th payload).
Proof.
  intros (Hsp & Hdp & Hseq & Hack & Hwin) Hp Hl. unfold connection_tcp_input.
  pose proof (typed_connection_device_input conn payload Hp Hl).
  apply keeps_bind.
  - apply typed_upd_conn. intros c []. split; simpl; try done. unfold u16_ok in Hwin.
    rewrite Z.shiftl_mul_pow2 by lia. lia.
  - intros _. unfold nonnull. keeps_tac.
Qed.

Lemma typed_device_tcp_input dev th payload :
  segment_ok th -> bytes_ok payload -> zlen payload <= DEV_MRU -> Keeps typed (device_tcp_input dev th payload).
Proof.
  intros Ht Hp Hl. pose proof (fun c => typed_connection_tcp_input c th payload Ht Hp Hl).
  unfold device_tcp_input, find_connection. keeps_tac; auto.
Qed.

Lemma typed_device_packet_input dev buffer n :
  bytes_ok buffer -> sizeof_mux_header < zlen buffer <= DEV_MRU -> Keeps typed (device_packet_input dev buffer n).
Proof.
  intros Hb Hl. unfold device_packet_input.
  pose proof (typed_device_version_input dev). pose proof (typed_device_control_input dev).
  apply keeps_bind; [keeps_tac|intros d]. cbv zeta. destruct (negb _); [keeps_tac|].
  apply keeps_bind; [apply keeps_when, typed_upd_dev; object_tac|intros _].
  destruct (_ =? proto_num MUX_PROTO_VERSION); [destruct (_ <? _); keeps_tac; auto|].
  destruct (_ =? proto_num MUX_PROTO_CONTROL).
  { apply typed_device_control_input. intros He.
    assert (zlen (zdrop sizeof_mux_header buffer) = 0) as Hz by by rewrite He.
    rewrite zlen_zdrop in Hz by (unfold sizeof_mux_header in *; lia). lia. }
  destruct (_ =? proto_num MUX_PROTO_TCP); [|keeps_tac]. destruct (_ <? _); [keeps_tac|].
  apply typed_device_tcp_input; [apply tcphdr_parse_ok; auto with ranges|auto with ranges|].
  unfold slice, ztake, zdrop, zlen in *. rewrite length_take, length_drop. lia.
Qed.

Lemma gather_ok pktbuf pktlen buffer n g pktbuf' pktlen' :
  zlen pktbuf = DEV_MRU /\ bytes_ok pktbuf -> 0 <= pktlen <= DEV_MRU ->
  0 < n <= USB_MRU -> zlen buffer = USB_MRU -> bytes_ok buffer ->
  gather pktbuf pktlen buffer n = (g, pktbuf', pktlen') ->
  (zlen pktbuf' = DEV_MRU /\ bytes_ok pktbuf') /\ 0 <= pktlen' <= DEV_MRU /\
  match g with Packet b m => bytes_ok b /\ sizeof_mux_header < zlen b <= DEV_MRU | _ => True end.
Proof.
  intros [Hl Hb] Hpl Hn Hbl Hbb Hg.
  destruct (gather_bounded pktbuf pktlen buffer n g pktbuf' pktlen') as (Hl' & Hpl' & _);
    [done|done|done|lia|done|].
  assert (bytes_ok pktbuf' /\ match g with Packet b _ => b = buffer \/ b = pktbuf' | _ => True end) as [Hb' Hg'].
  { revert Hg. unfold gather. destruct (negb _); [destruct (_ <? _)|destruct (_ && _)];
      [|destruct (_ || _)| |]; intros [= <- <- <-]; auto 8 with ranges. }
  split_and!; try done; try lia. destruct g as [| |b m]; [done..|].
  unfold sizeof_mux_header, DEV_MRU, USB_MRU in *. destruct Hg' as [->| ->]; (split; [done|lia]).
Qed.

Lemma typed_device_data_input usbdev buffer n :
  bytes_ok buffer -> zlen buffer = USB_MRU -> 0 <= n -> Keeps typed (device_data_input usbdev buffer n).
Proof.
  intros Hb Hl Hn. unfold device_data_input, find_usbdev. apply keeps_bind; [keeps_tac|intros dev].
  destruct dev as [dev|]; [|keeps_tac]. destruct (Z.eqb_spec n 0); [keeps_tac|].
  destruct (_ || _) eqn:Hbig; [keeps_tac|]. apply orb_false_iff in Hbig as [Hbig _].
  apply Z.ltb_ge in Hbig. assert (0 < n <= USB_MRU) as Hr by lia. intros w T. apply wsp_bind, wsp_load. intros d Hd.
  pose proof (ty_devs w T _ _ Hd) as K. destruct (gather _ _ _ _) as [[g pktbuf] pktlen] eqn:Hg.
  destruct (gather_ok _ _ _ _ _ _ _ (dk_pktbuf d K) (dk_pktlen d K) Hr Hl Hb Hg)
    as (Hp & Hpl & Hpkt).
  apply wsp_bind, wsp_update. intros d' Hd'. assert (d' = d) as -> by congruence.
  assert (typed (set w_devs <[dev := d <| dv_pktbuf := pktbuf |> <| dv_pktlen := pktlen |>]> w)) as T1.
  { apply typed_set_dev; [done|]. destruct K. by split. }
  destruct g as [| |b m]; [exact T1..|]. destruct Hpkt. by apply typed_device_packet_input.
Qed.

(** ** Adding and removing devices *)

Lemma typed_device_add u : Keeps typed (device_add u).
Proof.
  intros w T. unfold device_add. eapply wsp_call; [by apply wsp_get_next_device_id|].
  intros id w1 [T1 Hid]. apply wsp_bind, wsp_gets. cbv zeta. apply keeps_at; [|done].
  apply keeps_bind.
  - apply typed_malloc_dev. assert (u16_ok (be_val (sys_malloc_bytes (w_trace w1) 2))).
    { pose proof (be_val_range _ (malloc_bytes_ok (w_trace w1) 2)) as H. rewrite malloc_len in H by lia. exact H. }
    split; simpl; try done; unfold bool_ok, DEV_MRU; try lia.
    split; [by rewrite malloc_len|apply malloc_bytes_ok].
  - intros dev. apply keeps_bind; [|intros res; keeps_tac]. apply typed_send_packet; [|constructor|done].
    unfold version_header_bytes. rewrite !bytes_ok_app. auto with ranges.
Qed.

Lemma typed_device_remove u : Keeps typed (device_remove u).
Proof. unfold device_remove, preflight_device_remove_cb. keeps_tac. Qed.

Lemma typed_device_check_timeouts : Keeps typed device_check_timeouts.
Proof. unfold device_check_timeouts, foreach_active_conn. keeps_tac. Qed.

Lemma typed_device_shutdown : Keeps typed device_shutdown.
Proof. unfold device_shutdown. keeps_tac. Qed.

Lemma typed_load_conns l : Keeps typed (load_conns l).
Proof. induction l; simpl; keeps_tac. Qed.
#[local] Hint Resolve typed_load_conns : keeps.
Lemma typed_active_conns l : Keeps typed (active_conns l).
Proof. induction l; simpl; keeps_tac. Qed.
#[local] Hint Resolve typed_active_conns : keeps.
Lemma typed_device_get_timeout : Keeps typed device_get_timeout.
Proof. unfold device_get_timeout. keeps_tac. Qed.

Lemma typed_collect_devices {A} h (f : ptr -> mux_device -> C world A) l :
  (forall p d, Keeps typed (f p d)) -> Keeps typed (collect_devices h f l).
Proof. intros Hf. induction l; simpl; keeps_tac. Qed.
Lemma typed_copy_device_list : Keeps typed copy_device_list.
Proof. unfold copy_device_list. keeps_tac. Qed.
#[local] Hint Resolve typed_copy_device_list : keeps.

Lemma typed_device_get_list h : Keeps typed (device_get_list h).
Proof. unfold device_get_list. keeps_tac. apply typed_collect_devices. intros. keeps_tac. Qed.
Lemma typed_device_get_count h : Keeps typed (device_get_count h).
Proof. unfold device_get_count. keeps_tac. apply typed_collect_devices. intros. keeps_tac. Qed.

Lemma typed_set_preflight_cb_data id data : Keeps typed (device_set_preflight_cb_data id data).
Proof. unfold device_set_preflight_cb_data, on_device_id. keeps_tac. Qed.

(** ** Connecting *)

Lemma typed_device_start_connect id dport cl : u16_ok dport -> Keeps typed (device_start_connect id dport cl).
Proof.
  intros Hd. unfold device_start_connect. apply keeps_bind; [keeps_tac|intros dev].
  destruct dev as [dev|]; [|keeps_tac]. intros w T. eapply wsp_call; [by apply wsp_find_sport|].
  intros sport w1 [T1 Hs]. destruct (_ =? 0); [exact T1|]. apply wsp_bind, wsp_gets.
  apply keeps_at; [|done]. apply keeps_bind; [|intros conn; keeps_tac]. apply typed_malloc_conn.
  unfold new_connection. split; simpl; try done; unfold u32_ok, u64_ok, mask_ok, bool_ok; try lia.
  all: split; [by rewrite malloc_len|apply malloc_bytes_ok].
Qed.

End packets.
#[export] Hint Resolve typed_device_add typed_device_remove typed_device_check_timeouts
  typed_device_get_timeout typed_device_get_list typed_device_get_count typed_set_preflight_cb_data
  typed_device_start_connect typed_device_shutdown : keeps.
