(* ===== verification/TypedCommand.v ===== *)
(** * TypedCommand: the commands and the input of clients stay within their types

    conf.c and the rest of client.c: the input buffer takes one message at
    most, and what is read from a request is in the range of its field. *)

From stdpp Require Import base gmap list strings.
From Stdlib Require Import ZArith Lia Ascii String.
From S2P Require Import Prelude Platform Wire UsbSetup World Utils Conf Usb ClientOut DeviceOut.
From S2P Require Import Teardown Device Client UsbDevice UsbLoop Typed TypedClient TypedDevice.

Local Open Scope list_scope.
Local Open Scope Z_scope.

Section conf.
Context `{E : Env} `{!IoLaws E} `{!MemoryLimits E}.
Implicit Types w : world.

Lemma typed_mkdir_from n d m : Keeps typed (Conf.mkdir_with_parents_from n d m).
Proof. revert d; induction n; intros d; simpl; keeps_deep. Qed.
#[local] Hint Resolve typed_mkdir_from : keeps.

Lemma uuid_char r : 0 <= r -> exists c, String.get (Z.to_nat (Z.rem r 16)) Conf.uuid_chars = Some c.
Proof.
  intros Hr. rewrite Z.rem_mod_nonneg by lia. pose proof (Z.mod_pos_bound r 16).
  assert (exists n, (n < 16)%nat /\ Z.to_nat (r mod 16) = n) as (n & Hn & ->) by (eexists; split; [|done]; lia).
  do 16 (destruct n as [|n]; [by eexists|]). lia.
Qed.

Lemma typed_uuid_loop i n : Keeps typed (Conf.uuid_loop i n).
Proof.
  revert i; induction n as [|n IH]; intros i; cbn [Conf.uuid_loop]; [apply keeps_ret|]. apply keeps_bind; [|intros c; keeps_tac].
  destruct (Conf.uuid_dash i); [apply keeps_ret|]. intros w T. unfold Conf.get_rand.
  apply wsp_bind, wsp_bind, wsp_gets, wsp_bind, wsp_modify, wsp_ret. rewrite Z.add_0_r.
  destruct (uuid_char (sys_rand (w_trace w)) (rand_nonneg _)) as [c Hc].
  unfold lift_option. change (16 - 0) with 16. rewrite Hc. by apply (typed_same w).
Qed.
#[local] Hint Resolve typed_uuid_loop : keeps.

Lemma typed_config_get_system_buid : Keeps typed Conf.config_get_system_buid.
Proof. keeps_deep. Qed.
Lemma typed_config_has_device_record u : Keeps typed (Conf.config_has_device_record u).
Proof. keeps_deep. Qed.
Lemma typed_config_set_device_record u d : Keeps typed (Conf.config_set_device_record u d).
Proof. keeps_deep. Qed.
Lemma typed_config_get_device_record u : Keeps typed (Conf.config_get_device_record u).
Proof. keeps_deep. Qed.
Lemma typed_config_remove_device_record u : Keeps typed (Conf.config_remove_device_record u).
Proof. keeps_deep. Qed.
Lemma typed_get_host_id u : Keeps typed (Conf.config_device_record_get_host_id u).
Proof. keeps_deep. Qed.

End conf.
#[export] Hint Resolve typed_config_get_system_buid typed_config_has_device_record
  typed_config_set_device_record typed_config_get_device_record typed_config_remove_device_record
  typed_get_host_id : keeps.

(** ** Commands *)

Section commands.
Context `{E : Env} `{!IoLaws E} `{!MemoryLimits E}.
Implicit Types w : world.

Lemma typed_client_accept fd : Keeps typed (client_accept fd).
Proof.
  intros w T. unfold client_accept. apply wsp_bind, wsp_gets.
  eapply (wsp_keeps typed); [keeps_tac|exact T|]. intros _ w1 T1.
  destruct (sys_accept _ _); [|exact T1]. apply wsp_bind, wsp_gets.
  eapply (wsp_keeps typed); [apply typed_malloc_client|exact T1|].
  { split; simpl; try done; unfold u32_ok, bool_ok, mask_ok, OB_LIMIT, REPLY_BUF_SIZE; try lia; auto with ranges.
    all: split; [by rewrite malloc_len|apply malloc_bytes_ok]. }
  intros client w2 T2. eapply (wsp_keeps typed); [keeps_tac|exact T2|]. intros _ w3 T3.
  apply wsp_bind, wsp_gets. eapply (wsp_keeps typed); [|exact T3|].
  { apply typed_upd_client. intros k []. split; simpl; try done. apply (ty_number w3 T3). }
  intros _ w4 T4. apply keeps_at; [|done]. apply keeps_bind; [|intros _; keeps_tac].
  apply keeps_modify. intros w5 T5. destruct T5. split; simpl; try done. apply u32_range.
Qed.

Lemma typed_append_device_plists l d : Keeps typed (append_device_plists l d).
Proof. revert d; induction l; intros d; simpl; keeps_tac. Qed.
Lemma typed_append_listeners c l d : Keeps typed (append_listeners c l d).
Proof. revert d; induction l; intros d; simpl; keeps_tac. Qed.
Lemma typed_send_device_adds c l : Keeps typed (send_device_adds c l).
Proof. induction l; simpl; keeps_tac. Qed.
Lemma typed_device_matches i r l : Keeps typed (device_matches i r l).
Proof. induction l; simpl; keeps_tac. Qed.
#[local] Hint Resolve typed_append_device_plists typed_append_listeners typed_send_device_adds
  typed_device_matches : keeps.

Lemma typed_handle_listen c t : Keeps typed (handle_listen c t).
Proof. keeps_deep. Qed.
#[local] Hint Resolve typed_handle_listen : keeps.

Lemma typed_start_connect c tag id port :
  u32_ok tag -> u16_ok port -> Keeps typed (start_connect c tag id port).
Proof. intros Ht Hp. unfold start_connect, check_sent. keeps_tac. Qed.

Lemma ntohs_16 x : u16_ok (ntohs x).
Proof. unfold ntohs. by apply (be_val_range (le_bytes 2 x)), le_bytes_ok. Qed.

Lemma typed_handle_plist c tag payload : u32_ok tag -> Keeps typed (handle_plist c tag payload).
Proof.
  intros Ht. pose proof (fun d p => typed_start_connect c tag d (ntohs p) Ht (ntohs_16 p)).
  unfold handle_plist, handle_connect. keeps_deep; auto.
Qed.

Lemma typed_handle_command c buf : bytes_ok buf -> Keeps typed (handle_command c buf).
Proof.
  intros Hb. assert (u32_ok (hdr_tag (usbmuxd_header_parse buf))) as Ht by (simpl; auto with ranges).
  pose proof (typed_handle_plist c _ (slice sizeof_usbmuxd_header
    (u32 (hdr_length (usbmuxd_header_parse buf) - sizeof_usbmuxd_header)) buf) Ht).
  pose proof (typed_start_connect c _ (connect_device_id buf) (connect_port buf) Ht (get_be_16 _ _ Hb)).
  unfold handle_command, check_sent. keeps_tac; auto.
Qed.

(** ** Socket events *)

Lemma typed_output_buffer_process c : Keeps typed (output_buffer_process c).
Proof.
  intros w T. unfold output_buffer_process. apply wsp_bind, wsp_load. intros k Hk.
  pose proof (ty_clients w T _ _ Hk) as K. pose proof (ck_ob_size k K). pose proof (ck_ob_capacity k K).
  destruct (Z.eqb_spec (cl_ob_size k) 0); [apply keeps_at; [keeps_tac|done]|].
  apply wsp_bind, wsp_lift_option; [done|]. intros b Hb. pose proof (ck_ob k K) as Hbuf. rewrite Hb in Hbuf.
  destruct Hbuf as [Hl Hok]. eapply (wsp_call _ _ (fun r w' => only_trace w w' /\
    forall n, r = inl n -> n <= cl_ob_size k)).
  { unfold send. unfold wsp; simpl. split; [by eexists|]. intros m Hm. apply send_bound in Hm.
    rewrite zlen_ztake in Hm by lia. lia. }
  intros r w1 [[t ->] Hr]. cbv zeta. pose proof (typed_trace w t T) as T1.
  set (res := match r with inl n => n | inr _ => -1 end).
  assert (res <= cl_ob_size k) by (destruct r; subst res; [by apply Hr|lia]).
  destruct (Z.leb_spec res 0); [apply keeps_at; [keeps_tac|done]|].
  unfold OB_LIMIT in *. rewrite u32_small by lia. destruct (Z.eqb_spec res (cl_ob_size k)).
  { apply keeps_at; [|done]. keeps_tac. }
  rewrite u32_small by lia. apply wsp_update. intros k' Hk'. assert (k' = k) as -> by (simpl in Hk'; congruence).
  apply typed_set_client; [done|]. destruct K. split; simpl; try done; [|lia].
  split; [|auto with ranges]. rewrite zlen_write_at; [done|lia|].
  pose proof (zlen_slice_le res (cl_ob_size k - res) b). lia.
Qed.

Lemma wsp_read_input c n w :
  typed w -> 0 <= n -> (forall k, w_clients w !! c = Some k -> cl_ib_size k + n <= cl_ib_capacity k) ->
  wsp (read_input c n) (fun _ => typed) w.
Proof.
  intros T Hn Hfit. unfold read_input. apply wsp_bind, wsp_load. intros k Hk. specialize (Hfit k Hk).
  pose proof (ty_clients w T _ _ Hk) as K. pose proof (ck_ib_size k K). pose proof (ck_ib_capacity k K) as Hc.
  eapply (wsp_call _ _ (fun r w' => only_trace w w' /\
    forall l, r = inl l -> bytes_ok l /\ zlen l <= n)).
  { unfold recv. unfold wsp; simpl. split; [by eexists|]. intros l Hl.
    split; [by eapply recv_bytes|by eapply recv_bound]. }
  intros r w1 [[t ->] Hr]. pose proof (typed_trace w t T) as T1.
  destruct r as [[|b bs]|]; [apply keeps_at; [keeps_tac|done]| |apply keeps_at; [keeps_tac|done]].
  destruct (Hr _ eq_refl) as [Hbs Hlen].
  destruct (cl_ib_buf k) as [buf|] eqn:Hbuf; [|apply keeps_at; [keeps_tac|done]].
  pose proof (ck_ib k K) as Hib. rewrite Hbuf in Hib. destruct Hib as [Hl Hok].
  rewrite (proj2 (Z.ltb_ge _ _)) by lia. apply wsp_bind, wsp_update. intros k' Hk'.
  assert (k' = k) as -> by (simpl in Hk'; congruence). apply wsp_ret, typed_set_client; [done|].
  pose proof (zlen_nonneg (b :: bs)). unfold CMD_BUF_SIZE in Hc.
  destruct K. split; simpl; try done; [split; [rewrite zlen_write_at; lia|auto with ranges]|].
  rewrite u32_small; lia.
Qed.

Lemma typed_input_buffer_process c : Keeps typed (input_buffer_process c).
Proof.
  intros w T. unfold input_buffer_process. apply wsp_bind, wsp_load. intros k Hk.
  pose proof (ck_ib_capacity k (ty_clients w T _ _ Hk)) as Hcap. unfold CMD_BUF_SIZE, sizeof_usbmuxd_header in *.
  apply (wsp_call _ _ (fun _ => typed)).
  { destruct (Z.ltb_spec (cl_ib_size k) 16); [|exact T].
    eapply wsp_call; [apply wsp_read_input; [done|lia|intros k' Hk'; assert (k' = k) as -> by congruence; lia]|].
    intros ok w1 T1. apply keeps_at; [keeps_tac|done]. }
  intros go w1 T1. destruct go as [did_read|]; [|exact T1]. apply wsp_bind, wsp_load. intros k1 Hk1.
  apply wsp_bind, wsp_lift_option; [done|]. intros buf Hbuf. cbv zeta.
  destruct (Z.ltb_spec (cl_ib_capacity k1) (hdr_length (usbmuxd_header_parse buf)));
    [apply keeps_at; [keeps_tac|done]|].
  destruct (_ <? 16); [apply keeps_at; [keeps_tac|done]|]. apply (wsp_call _ _ (fun _ => typed)).
  { destruct (Z.ltb_spec (cl_ib_size k1) (hdr_length (usbmuxd_header_parse buf))); [|exact T1].
    destruct did_read; [exact T1|].
    eapply wsp_call; [apply wsp_read_input; [done|lia|intros k' Hk'; assert (k' = k1) as -> by congruence; lia]|].
    intros ok w2 T2. apply keeps_at; [keeps_tac|done]. }
  intros ready w2 T2. apply wsp_when; [|done]. intros _. apply wsp_bind, wsp_load. intros k2 Hk2.
  apply wsp_bind, wsp_lift_option; [done|]. intros buf2 Hbuf2.
  pose proof (ck_ib k2 (ty_clients w2 T2 _ _ Hk2)) as Hib. rewrite Hbuf2 in Hib. destruct Hib as [_ Hok].
  eapply (wsp_keeps typed); [by apply typed_handle_command|exact T2|]. intros _ w3 T3.
  apply typed_upd_client; [|done]. intros k3 []. split; simpl; try done. lia.
Qed.

Lemma typed_client_process fd ev : Keeps typed (client_process fd ev).
Proof.
  pose proof typed_input_buffer_process. pose proof typed_output_buffer_process.
  unfold client_process. keeps_tac; auto.
Qed.

Lemma typed_client_shutdown : Keeps typed client_shutdown.
Proof. unfold client_shutdown. keeps_tac. Qed.

Lemma typed_add_client_fds l pl : Keeps typed (add_client_fds l pl).
Proof. revert pl; induction l; intros pl; simpl; keeps_tac. Qed.
#[local] Hint Resolve typed_add_client_fds : keeps.
Lemma typed_client_get_fds l : Keeps typed (client_get_fds l).
Proof. unfold client_get_fds. keeps_tac. Qed.

End commands.
#[export] Hint Resolve typed_client_accept typed_client_process typed_client_shutdown
  typed_client_get_fds : keeps.
