(* ===== verification/TypedUsb.v ===== *)
(** * TypedUsb: usb.c stays within its types

    What libusb receives fits the buffer of its transfer, and the callbacks
    read descriptors within theirs. *)

From stdpp Require Import base gmap list strings.
From Stdlib Require Import ZArith Lia.
From S2P Require Import Prelude Platform Wire UsbSetup World Utils Conf Usb ClientOut DeviceOut.
From S2P Require Import Teardown Device Client UsbDevice UsbLoop Typed TypedClient TypedDevice.

Local Open Scope list_scope.
Local Open Scope Z_scope.

(** ** Descriptors *)

Lemma deunicode_some n rest si di len :
  (length rest <= n)%nat -> len <= 255 -> 1024 <= zlen rest + si ->
  exists s, deunicode rest si di len = Some s.
Proof.
  revert rest si di. induction n as [|n IH]; intros rest si di Hn Hlen Hs.
  - destruct rest; [|simpl in Hn; lia]. rewrite zlen_nil in Hs. simpl.
    rewrite (proj2 (Z.ltb_ge _ _)) by lia. by eexists.
  - destruct rest as [|lo [|hi rest]]; unfold zlen in Hs; simpl in Hs, Hn; cbn [deunicode].
    1,2: rewrite (proj2 (Z.ltb_ge _ _)) by lia; by eexists.
    destruct (IH rest (si + 2) (di + 1)) as [s Hrec]; [lia|done|unfold zlen; lia|].
    destruct (_ && _); [|by eexists]. rewrite Hrec. repeat case_match; by eexists.
Qed.

Lemma serial_some data :
  bytes_ok data -> 1024 <= zlen data -> exists s, serial_of_descriptor data = Some s.
Proof.
  intros Hb Hl. destruct data as [|len [|x rest]]; [done|done|].
  apply Forall_inv in Hb. unfold byte_ok in Hb. unfold zlen in Hl. simpl in Hl.
  destruct (deunicode_some (length rest) rest 2 0 len) as [s Hs]; [lia|lia|unfold zlen; lia|].
  exists (hyphenated s). simpl. by rewrite Hs.
Qed.

Section usb.
Context `{E : Env} `{!IoLaws E} `{!MemoryLimits E} `{U : UsbHost} `{!UsbHostLaws U}.
Implicit Types w : world.

(** ** Buffers and transfers *)

Lemma wsp_store buffer off data w :
  typed w -> 0 <= off -> bytes_ok data ->
  (forall b, w_bufs w !! buffer = Some b -> off + zlen data <= zlen b) ->
  wsp (store_bytes buffer off data) (fun _ w' => typed w' /\ w_xfers w' = w_xfers w /\
    exists b b', w_bufs w !! buffer = Some b /\ w_bufs w' !! buffer = Some b' /\ zlen b' = zlen b) w.
Proof.
  intros T Ho Hd Hfit. unfold store_bytes. apply wsp_bind, wsp_load. intros b Hb. pose proof (Hfit b Hb).
  rewrite (proj2 (Z.ltb_ge _ _)) by lia. apply wsp_update. intros b' Hb'. assert (b' = b) as -> by congruence.
  assert (zlen (write_at off data b) = zlen b) as Hl by (apply zlen_write_at; lia).
  pose proof (ty_bufs w T _ _ Hb) as [_ Hbok]. split_and!.
  - by apply (typed_set_buf w buffer b); [..|apply bytes_ok_write_at].
  - done.
  - exists b, (write_at off data b). split_and!; [done|simpl; apply lookup_insert_eq|done].
Qed.

Lemma typed_free_transfer x : Keeps typed (libusb_free_transfer x).
Proof. unfold libusb_free_transfer. keeps_tac. Qed.
Lemma typed_mark_dead p : Keeps typed (mark_dead p).
Proof. unfold mark_dead. keeps_tac. Qed.
Lemma keeps_find_device I b a : Keeps I (find_device b a).
Proof. unfold find_device. keeps_tac. Qed.
#[local] Hint Resolve typed_free_transfer typed_mark_dead keeps_find_device : keeps.

Lemma bytes_ok_zeros n : bytes_ok (replicate n 0).
Proof. by apply Forall_replicate. Qed.

(** A control transfer of [n] bytes is set up. *)
Lemma wsp_control_setup {A} n setup (k : ptr -> C world A) Q w :
  typed w -> LIBUSB_CONTROL_SETUP_SIZE <= n -> zlen setup = LIBUSB_CONTROL_SETUP_SIZE -> bytes_ok setup ->
  (forall buffer b w', typed w' -> w_bufs w' !! buffer = Some b -> zlen b = n -> wsp (k buffer) Q w') ->
  wsp (buffer ← malloc w_bufs (replicate (Z.to_nat n) 0); fill_control_setup buffer setup ;; k buffer) Q w.
Proof.
  intros T Hn Hs Hsb Hk. unfold LIBUSB_CONTROL_SETUP_SIZE in *. apply wsp_bind.
  apply wsp_malloc_buf; [done|apply bytes_ok_zeros|]. intros w1 T1 Hb1.
  assert (zlen (replicate (Z.to_nat n) 0) = n) as Hz by (rewrite zlen_replicate; lia).
  eapply wsp_call; [apply wsp_store; [done|lia|done|]|].
  { intros b Hb. assert (b = replicate (Z.to_nat n) 0) as -> by congruence. lia. }
  intros _ w2 (T2 & _ & b & b' & Hb & Hb' & Hl). apply (Hk _ b'); [done|done|].
  assert (b = replicate (Z.to_nat n) 0) as -> by congruence. lia.
Qed.

Lemma typed_submit_vendor usbdev context cb :
  cb = CB_GET_MODE \/ cb = CB_SWITCH_MODE -> Keeps typed (submit_vendor_specific usbdev context cb).
Proof.
  intros Hcb w T. unfold submit_vendor_specific. apply wsp_bind, wsp_load. intros c Hc.
  pose proof (ty_ctxs w T _ _ Hc) as Hl. cbv zeta.
  apply wsp_control_setup; [done|lia|apply control_setup_ok|apply control_setup_ok|].
  intros buffer b w1 T1 Hb Hbl. apply wsp_bind. apply wsp_malloc_xfer; [done| |].
  - apply (xfer_new w1 _ _ b); [done|done| |by destruct Hcb as [->| ->]].
    destruct Hcb as [->| ->]; simpl; lia.
  - intros w2 T2 _. apply keeps_at; [keeps_tac|done].
Qed.

(** ** Receiving *)

(** The transfer has this callback. *)
Definition has_cb (xfer : ptr) (cb : xfer_callback) w : Prop :=
  forall x, w_xfers w !! xfer = Some x -> xf_callback x = cb.

Lemma wsp_rx_callback xfer status n w :
  typed w -> has_cb xfer CB_RX w -> 0 <= n -> wsp (rx_callback xfer status n) (fun _ => typed) w.
Proof.
  intros T Hcb Hn. unfold rx_callback. apply wsp_bind, wsp_load. intros x Hx.
  pose proof (ty_xfers w T _ _ Hx) as X. destruct (xk_rx _ _ _ X (Hcb x Hx)) as [_ Hrx].
  apply wsp_bind, wsp_load. intros u Hu. destruct (bool_decide _); [|apply keeps_at; [keeps_tac|done]].
  apply wsp_bind, wsp_load. intros b Hb. destruct (ty_bufs w T _ _ Hb) as [_ Hbok].
  pose proof (typed_device_data_input (xf_user_data x) b n Hbok (Hrx b Hb) Hn).
  apply keeps_at; [keeps_tac; auto|done].
Qed.

Lemma typed_start_rx_loop dev : Keeps typed (start_rx_loop dev).
Proof.
  intros w T. unfold start_rx_loop. apply wsp_bind, wsp_load. intros u Hu. apply wsp_bind, wsp_gets, wsp_bind.
  apply wsp_malloc_buf; [done|apply malloc_bytes_ok|]. intros w1 T1 Hb1. apply wsp_bind.
  apply wsp_malloc_xfer; [done|eapply xfer_new; [done|exact Hb1|simpl; rewrite malloc_len; [lia|done]|]|].
  - intros _. split; [done|by apply malloc_len].
  - intros w2 T2 _. apply keeps_at; [keeps_tac|done].
Qed.
#[local] Hint Resolve typed_start_rx_loop : keeps.

Lemma typed_start_rx_loops n p : Keeps typed (start_rx_loops n p).
Proof. induction n; cbn [start_rx_loops]; keeps_tac. Qed.
#[local] Hint Resolve typed_start_rx_loops : keeps.

Lemma typed_tx_callback x s : Keeps typed (tx_callback x s).
Proof. unfold tx_callback. keeps_tac. Qed.

(** ** Setting a device up *)

Lemma typed_set_valid_configuration d p : Keeps typed (set_valid_configuration_on d p).
Proof. unfold set_valid_configuration_on. keeps_tac. Qed.
#[local] Hint Resolve typed_set_valid_configuration : keeps.

Lemma typed_complete_initialization context : Keeps typed (device_complete_initialization context).
Proof.
  unfold device_complete_initialization. apply keeps_bind; [keeps_tac|intros c].
  apply keeps_bind; [keeps_tac|intros r]. destruct r as [usbdev|]; [|keeps_tac].
  apply keeps_bind; [keeps_tac|intros ok]. destruct (negb ok); [keeps_tac|].
  apply keeps_bind; [keeps_tac|intros u]. apply keeps_bind; [keeps_tac|intros t]. cbv zeta.
  apply keeps_bind; [keeps_tac|intros _]. destruct (negb _); [keeps_tac|].
  intros w T. apply wsp_bind. apply wsp_malloc_buf; [done|apply bytes_ok_zeros|]. intros w1 T1 Hb1.
  apply wsp_bind, wsp_gets, wsp_bind, wsp_update. intros u1 Hu1.
  set (w2 := set w_usbdevs _ w1). assert (typed w2) as T2 by (by apply (typed_same w1)).
  set (buffer := w_next w) in *. set (zeros := replicate _ _) in *.
  assert (w_bufs w2 !! buffer = Some zeros) as Hb2 by exact Hb1.
  destruct (control_setup_ok LIBUSB_ENDPOINT_IN LIBUSB_REQUEST_GET_DESCRIPTOR
    (Z.shiftl LIBUSB_DT_STRING 8) 0 (1024 + LIBUSB_CONTROL_SETUP_SIZE)) as [Hsl Hsb].
  eapply wsp_call; [apply wsp_store; [done|lia|exact Hsb|]|].
  { intros b Hb. assert (b = zeros) as -> by congruence. rewrite Hsl. done. }
  intros _ w3 (T3 & _ & b & b' & Hb & Hb' & Hl). assert (b = zeros) as -> by congruence.
  apply wsp_bind. apply wsp_malloc_xfer; [done|apply (xfer_new w3 usbdev buffer b'); [done|done| |done]|].
  { rewrite Hl. unfold zeros. rewrite zlen_replicate. simpl. unfold LIBUSB_CONTROL_SETUP_SIZE. lia. }
  intros w4 T4 _. apply keeps_at; [keeps_tac|done].
Qed.
#[local] Hint Resolve typed_complete_initialization : keeps.

Lemma typed_get_mode_cb xfer status : Keeps typed (get_mode_cb xfer status).
Proof.
  pose proof (fun d c => typed_submit_vendor d c CB_SWITCH_MODE (or_intror eq_refl)).
  assert (forall p, Keeps typed (update w_ctxs p (fun c => c <| mc_bRequest := APPLE_VEND_SPECIFIC_SET_MODE |>
    <| mc_wValue := 0 |> <| mc_wIndex := match getenv_device_mode with Some s => atoi s | None => 1 end |>
    <| mc_wLength := 1 |>))) by (intros; by apply typed_upd_ctx).
  unfold get_mode_cb. keeps_tac; auto.
Qed.

Lemma wsp_switch_mode_cb xfer status w :
  typed w -> has_cb xfer CB_SWITCH_MODE w -> wsp (switch_mode_cb xfer status) (fun _ => typed) w.
Proof.
  intros T Hcb. unfold switch_mode_cb. apply wsp_bind, wsp_load. intros x Hx.
  pose proof (ty_xfers w T _ _ Hx) as X. apply wsp_bind, wsp_load. intros c Hc.
  eapply (wsp_keeps (fun w' => typed w' /\ w_bufs w' = w_bufs w)); [apply keeps_find_device|done|].
  intros _ w1 [T1 Hb1]. apply (wsp_call _ _ (fun _ => typed)); [|intros _ w2 T2; apply keeps_at; [keeps_tac|done]].
  destruct (negb _); [by apply typed_complete_initialization|]. apply wsp_bind, wsp_load. intros b Hb.
  rewrite Hb1 in Hb. pose proof (xk_fits _ _ _ X b Hb). pose proof (xk_length _ _ _ X) as Hl.
  rewrite (Hcb x Hx) in Hl. simpl in Hl. unfold LIBUSB_CONTROL_SETUP_SIZE in *.
  destruct (zdrop 8 b) as [|d0 rest] eqn:Hz; [|apply keeps_at; [keeps_tac|done]].
  assert (zlen (zdrop 8 b) = 0) as Hzz by by rewrite Hz. rewrite zlen_zdrop in Hzz; lia.
Qed.

Lemma wsp_get_langid_callback xfer status w :
  typed w -> has_cb xfer CB_LANGID w -> wsp (get_langid_callback xfer status) (fun _ => typed) w.
Proof.
  intros T Hcb. unfold get_langid_callback. apply wsp_bind, wsp_load. intros x Hx.
  pose proof (ty_xfers w T _ _ Hx) as X. apply wsp_bind, wsp_update. intros x' Hx'.
  assert (x' = x) as -> by congruence. set (x1 := set xf_flags _ x). set (w1 := set w_xfers _ w).
  assert (xfer_ok (w_bufs w) (w_next w) x1) as X1 by (destruct X; by split).
  assert (typed w1) as T1 by (by apply typed_set_xfer).
  apply wsp_bind, wsp_load. intros u Hu. destruct (negb _); [apply keeps_at; [keeps_tac|done]|].
  apply wsp_bind, wsp_load. intros b Hb. pose proof (xk_fits _ _ _ X b Hb) as Hf.
  pose proof (xk_length _ _ _ X) as Hl. rewrite (Hcb x Hx) in Hl. simpl in Hl. unfold LIBUSB_CONTROL_SETUP_SIZE in Hl.
  assert (zlen (zdrop LIBUSB_CONTROL_SETUP_SIZE b) = zlen b - 8) as Hz
    by (apply zlen_zdrop; unfold LIBUSB_CONTROL_SETUP_SIZE; lia).
  destruct (zdrop LIBUSB_CONTROL_SETUP_SIZE b) as [|d0 [|d1 [|d2 [|d3 rest]]]]; unfold zlen in Hz at 1; simpl in Hz; try lia.
  cbv zeta. set (setup := libusb_control_setup _ _ _ _ _).
  assert (zlen setup = 8 /\ bytes_ok setup) as [Hsl Hsb] by apply control_setup_ok.
  eapply wsp_call; [apply wsp_store; [exact T1|lia|exact Hsb|]|].
  { intros b' Hb'. assert (b' = b) as -> by congruence. lia. }
  intros _ w2 (T2 & Hx2 & _). apply wsp_bind, wsp_update. intros x2 Hxx.
  rewrite Hx2 in Hxx. unfold w1 in Hxx. simpl in Hxx. rewrite lookup_insert_eq in Hxx. injection Hxx as <-.
  assert (w_xfers w2 !! xfer = Some x1) as Hx1 by (rewrite Hx2; simpl; apply lookup_insert_eq).
  apply keeps_at; [keeps_tac|]. apply typed_set_xfer; [done|]. destruct (ty_xfers w2 T2 _ _ Hx1) as [H1 H2 H3 H4].
  split; [done| |done|done]. change (xf_callback x1) with (xf_callback x) in H2. rewrite (Hcb x Hx) in H2. exact H2.
Qed.

Lemma typed_usb_device_add d : Keeps typed (usb_device_add d).
Proof.
  pose proof (fun d c => typed_submit_vendor d c CB_GET_MODE (or_introl eq_refl)).
  assert (forall dev bus address, Keeps typed (malloc w_ctxs (mk_mode_context dev bus address
    APPLE_VEND_SPECIFIC_GET_MODE 0 0 4 1000))) by (intros; by apply typed_malloc_ctx).
  unfold usb_device_add. keeps_tac; auto.
Qed.
#[local] Hint Resolve typed_usb_device_add : keeps.

(** ** Event handling *)

Section events.
Context (he : C world Z) (fuel : nat) (Hhe : Keeps typed he).
#[local] Hint Resolve Hhe : keeps.

Lemma typed_wait_xfers n p : Keeps typed (wait_xfers he n p).
Proof. induction n; cbn [wait_xfers]; keeps_tac. Qed.
#[local] Hint Resolve typed_wait_xfers : keeps.

Lemma typed_usb_disconnect p : Keeps typed (usb_disconnect he fuel p).
Proof. unfold usb_disconnect, cancel_xfers, usb_rx_xfers, usb_tx_xfers. keeps_tac. Qed.
#[local] Hint Resolve typed_usb_disconnect : keeps.

Lemma typed_reap_dead_devices : Keeps typed (reap_dead_devices he fuel).
Proof. unfold reap_dead_devices. keeps_tac. Qed.
#[local] Hint Resolve typed_reap_dead_devices : keeps.

Lemma wsp_get_serial_callback xfer status w :
  typed w -> has_cb xfer CB_SERIAL w -> wsp (get_serial_callback he fuel xfer status) (fun _ => typed) w.
Proof.
  intros T Hcb. unfold get_serial_callback. apply wsp_bind, wsp_load. intros x Hx.
  pose proof (ty_xfers w T _ _ Hx) as X. apply wsp_bind, wsp_load. intros u Hu.
  destruct (negb _); [apply keeps_at; [keeps_tac|done]|]. apply wsp_bind, wsp_load. intros b Hb.
  destruct (ty_bufs w T _ _ Hb) as [_ Hbok]. pose proof (xk_fits _ _ _ X b Hb) as Hf.
  pose proof (xk_length _ _ _ X) as Hl. rewrite (Hcb x Hx) in Hl. simpl in Hl. unfold LIBUSB_CONTROL_SETUP_SIZE in *.
  destruct (serial_some (zdrop 8 b)) as [s ->]; [auto with ranges|rewrite zlen_zdrop; lia|].
  apply keeps_at; [|done]. apply keeps_bind; [apply keeps_ret|intros serial]. keeps_tac.
Qed.

Lemma typed_complete_transfer xfer status data : Keeps typed (complete_transfer he fuel xfer status data).
Proof.
  intros w T. unfold complete_transfer. apply wsp_bind, wsp_load. intros x Hx.
  pose proof (ty_xfers w T _ _ Hx) as X. pose proof (xk_length _ _ _ X) as Hmin. cbv zeta.
  set (off := data_offset (xf_callback x)). set (bytes := u8 <$> ztake (xf_length x - off) data).
  assert (bytes_ok bytes) as Hbytes.
  { apply Forall_fmap, Forall_true. intros b. apply Z.mod_pos_bound. lia. }
  apply (wsp_call _ _ (fun _ w' => typed w' /\ w_xfers w' = w_xfers w)).
  { apply wsp_when; [|by intros _; split]. intros [_ Hrecv]%andb_true_iff.
    assert (0 <= off <= xf_length x) as Ho.
    { unfold off. unfold LIBUSB_CONTROL_SETUP_SIZE, min_length, USB_MRU in Hmin.
      destruct (xf_callback x); simpl in *; unfold LIBUSB_CONTROL_SETUP_SIZE in *; lia. }
    eapply wsp_mono; [apply wsp_store; [done|lia|exact Hbytes|]|].
    - intros b Hb. pose proof (xk_fits _ _ _ X b Hb). unfold bytes, zlen, ztake in *.
      rewrite length_fmap, length_take. lia.
    - intros _ w' (T' & Hx' & _). by split. }
  intros _ w1 [T1 Hx1]. assert (forall cb, xf_callback x = cb -> has_cb xfer cb w1) as Hcb.
  { intros cb Hcb x' Hx'. rewrite Hx1 in Hx'. congruence. }
  apply (wsp_call _ _ (fun _ => typed)); [|intros _ w2 T2; apply keeps_at; [keeps_tac|done]].
  destruct (xf_callback x) eqn:Hc.
  - by apply typed_tx_callback.
  - apply wsp_rx_callback; [done|by apply Hcb|apply zlen_nonneg].
  - by apply typed_get_mode_cb.
  - apply wsp_switch_mode_cb; [done|by apply Hcb].
  - apply wsp_get_langid_callback; [done|by apply Hcb].
  - apply wsp_get_serial_callback; [done|by apply Hcb].
Qed.
#[local] Hint Resolve typed_complete_transfer : keeps.

Lemma typed_usb_event_callbacks l : Keeps typed (usb_event_callbacks he fuel l).
Proof.
  induction l as [|[] l IH]; cbn [usb_event_callbacks usb_event_callback];
    unfold usb_hotplug_arrived, usb_hotplug_left; keeps_tac.
Qed.
#[local] Hint Resolve typed_usb_event_callbacks : keeps.

Lemma typed_add_devices l n : Keeps typed (add_devices l n).
Proof. revert n; induction l; intros n; cbn [add_devices]; keeps_tac. Qed.
#[local] Hint Resolve typed_add_devices : keeps.

Lemma typed_usb_discover : Keeps typed (usb_discover he fuel).
Proof. unfold usb_discover, set_next_poll, get_tick_count. keeps_tac. Qed.
#[local] Hint Resolve typed_usb_discover : keeps.

Lemma typed_usb_process : Keeps typed (usb_process he fuel).
Proof. unfold usb_process, dev_poll_remain, get_tick_count. keeps_tac. Qed.

Lemma typed_usb_init l : Keeps typed (usb_init he fuel l).
Proof. unfold usb_init. keeps_tac. Qed.

Lemma typed_process_until n tfin tcur : Keeps typed (process_until he fuel n tfin tcur).
Proof.
  revert tcur; induction n; intros tcur; cbn [process_until]; unfold get_tick_count; keeps_tac.
Qed.
#[local] Hint Resolve typed_process_until : keeps.

Lemma typed_usb_process_timeout ms : Keeps typed (usb_process_timeout he fuel ms).
Proof. unfold usb_process_timeout, get_tick_count. keeps_tac. Qed.
#[local] Hint Resolve typed_usb_process_timeout : keeps.

Lemma typed_usb_shutdown : Keeps typed (usb_shutdown he fuel).
Proof. unfold usb_shutdown. keeps_tac. Qed.

Lemma typed_device_kill_connections :
  Keeps typed (device_kill_connections (usb_process_timeout he fuel)).
Proof. unfold device_kill_connections. keeps_tac. Qed.

End events.

Lemma typed_handle_events pending fuel depth : Keeps typed (handle_events pending fuel depth).
Proof.
  induction depth as [|depth IH]; cbn [handle_events]; [apply keeps_no_fuel|].
  pose proof (typed_usb_event_callbacks _ fuel IH). keeps_tac; auto.
Qed.

End usb.
#[export] Hint Resolve typed_handle_events typed_usb_discover typed_usb_process typed_usb_init
  typed_usb_shutdown typed_device_kill_connections : keeps.
