(* ===== verification/TypedReach.v ===== *)
(** * TypedReach: every state of the daemon is within its types

    The main loop and the worker threads keep [typed], so it holds of every
    state the daemon reaches, and from none of them does an iteration, a
    worker or the shutdown access memory outside of a buffer. *)

From stdpp Require Import base gmap list strings.
From Stdlib Require Import ZArith Lia Ascii String.
From S2P Require Import Prelude Platform Wire UsbSetup World Utils Conf Instances Usb ClientOut.
From S2P Require Import DeviceOut Teardown Device Client UsbDevice UsbLoop Main Preflight.
From S2P Require Import Scenario ScenarioMain RefineMain Reach.
From S2P Require Import Typed TypedClient TypedDevice TypedCommand TypedUsb.

Local Open Scope Z_scope.

(** ** The main loop *)

Section main_loop.
Context `{E : Env} `{!IoLaws E} `{!MemoryLimits E} `{U : UsbHost} `{!UsbHostLaws U} `{P : Process}.
Implicit Types (w : world) (p : process).

Definition ptyped p : Prop := typed (p_world p).

Lemma keeps_run {A} (m : C world A) : Keeps typed m -> Keeps ptyped (run m).
Proof.
  intros Hm p Hp. specialize (Hm (p_world p) Hp). unfold wsp, run in *. by destruct (m (p_world p)).
Qed.

Lemma keeps_set_global f : Keeps ptyped (set_global f).
Proof. apply keeps_modify. intros p Hp. exact Hp. Qed.

End main_loop.

Ltac keeps_process :=
  repeat first
    [ solve [eauto with keeps]
    | keeps_step
    | match goal with
      | |- Keeps ptyped (run _) => apply keeps_run
      | |- Keeps ptyped (set_global _) => apply keeps_set_global
      | |- Keeps ptyped ?m => let h := get_head m in unfold h
      end
    | progress cbv beta ].

Section iteration.
Context `{E : Env} `{!IoLaws E} `{!MemoryLimits E} `{U : UsbHost} `{!UsbHostLaws U} `{P : Process}.
Variable pending : list event -> Z * list usb_event.
Variable fuel depth : nat.

Lemma typed_usb_events : Keeps typed (usb_events pending fuel depth).
Proof. apply typed_handle_events. Qed.
#[local] Hint Resolve typed_usb_events : keeps.

Lemma typed_serve fd b l : Keeps typed (serve pending fuel depth fd b l).
Proof.
  revert b. induction l as [|[[o fd'] re] l IH]; intros b; cbn [serve]; keeps_tac.
Qed.
Lemma typed_usb_timeout : Keeps typed usb_timeout.
Proof. unfold usb_timeout, dev_poll_remain, get_tick_count. keeps_tac. Qed.
Lemma typed_usb_get_fds l : Keeps typed (usb_get_fds l).
Proof. unfold usb_get_fds. keeps_tac. Qed.
#[local] Hint Resolve typed_serve typed_usb_timeout typed_usb_get_fds : keeps.

Lemma typed_handle_signals l : Keeps ptyped (handle_signals l).
Proof. induction l; cbn [handle_signals]; keeps_process. Qed.
#[local] Hint Resolve typed_handle_signals : keeps.

Lemma typed_main_iteration fd l : Keeps ptyped (main_iteration pending fuel depth fd l).
Proof. unfold main_iteration. keeps_process. Qed.

Lemma typed_shutdown : Keeps typed (shutdown pending fuel depth).
Proof. unfold shutdown. keeps_tac. Qed.

End iteration.

(** ** The worker threads

    What the other threads do while a worker waits is only known to satisfy a
    property [St] of functions that every function with [Keeps typed] has and
    that sequences inherit. *)

Class Stays `{E : Env} (St : forall A, C world A -> Prop) : Prop := {
  stays_keeps A (m : C world A) : Keeps typed m -> St A m;
  stays_bind A B (m : C world A) (k : A -> C world B) :
    St A m -> (forall a, St B (k a)) -> St B (m ≫= k);
}.

Section workers.
Context `{L : Lockdown} `{!IoLaws E} `{!MemoryLimits E} (St : forall A, C world A -> Prop) `{!Stays St}.
Variable others : C world unit.
Hypothesis others_stay : St _ others.

Ltac stays_tac :=
  repeat first
    [ assumption
    | match goal with H : forall _, St _ _ |- _ => apply H end
    | match goal with H : forall _ _, St _ _ |- _ => apply H end
    | solve [apply stays_keeps; keeps_tac]
    | match goal with
      | |- St _ (_ ≫= _) => apply stays_bind; [|intros ?]
      | |- St _ (when ?b _) => destruct b; cbn [when]
      | |- St _ (match ?x with _ => _ end) => destruct x
      end ].

Lemma stays_lockdownd u c : St _ (lockdownd others u c).
Proof. unfold lockdownd. stays_tac. Qed.

Lemma stays_set_untrusted u : St _ (lockdownd_set_untrusted_host_buid others u).
Proof. pose proof stays_lockdownd. unfold lockdownd_set_untrusted_host_buid. stays_tac. Qed.

Lemma stays_np_callback u n cb : St _ (np_callback others u n cb).
Proof. pose proof stays_lockdownd. pose proof stays_set_untrusted. unfold np_callback. stays_tac. Qed.

Lemma stays_wait_for_trust n cb : St _ (wait_for_trust others n cb).
Proof. induction n; cbn [wait_for_trust]; stays_tac. Qed.

Lemma stays_preflight_pair n i u b : St _ (preflight_pair others n i u b).
Proof.
  pose proof stays_lockdownd. pose proof stays_set_untrusted. pose proof stays_wait_for_trust.
  unfold preflight_pair, preflight_trust, observe_trust, preflight_old, get_string_value. stays_tac.
Qed.

Lemma stays_preflight_from r n i u : St _ (preflight_from others r n i u).
Proof.
  pose proof stays_lockdownd. pose proof (stays_preflight_pair n i u).
  induction r; cbn [preflight_from]; stays_tac.
Qed.

Lemma stays_preflight_worker r n i : St _ (preflight_worker_handle_device_add others r n i).
Proof.
  pose proof stays_lockdownd. pose proof (stays_preflight_from r n i).
  unfold preflight_worker_handle_device_add. stays_tac.
Qed.

End workers.

(** Both the runs that stay in bounds and the runs that return. *)
#[export] Instance stays_in_bounds `{E : Env} : Stays (fun A => @Keeps world A typed).
Proof. split; [intros A m Hm; exact Hm|]. intros. by apply keeps_bind. Qed.

Definition stays_typed `{E : Env} (w w' : world) : Prop := typed w -> typed w'.
#[export] Instance stays_typed_preorder `{E : Env} : PreOrder stays_typed.
Proof. unfold stays_typed. split; [intros w T; exact T|intros w1 w2 w3; auto]. Qed.

Lemma keeps_preserves `{E : Env} {A} (m : C world A) : Keeps typed m -> Preserves stays_typed m.
Proof.
  intros Hm w. unfold wlp. destruct (m w) as [a w'| |] eqn:He; [|done..]. intros T. exact (keeps_ok _ _ _ _ _ Hm T He).
Qed.

#[export] Instance stays_when_returning `{E : Env} : Stays (fun A => @Preserves world A stays_typed).
Proof. split; [intros; by apply keeps_preserves|]. intros. by apply (preserves_bind _). Qed.

(** ** Every state *)

Section reach.
Context `{L : Lockdown} `{!IoLaws E} `{!MemoryLimits E} `{U : UsbHost} `{!UsbHostLaws U} `{P : Process}.
Implicit Types (w : world) (p : process).

(** The memory of the process when [main] is called. *)
Definition pristine w : Prop :=
  blank w /\ w_xfers w = ∅ /\ w_bufs w = ∅ /\ w_ctxs w = ∅ /\ client_number w = 0.

Lemma pristine_typed w : pristine w -> typed (new_lists w).
Proof.
  intros ((Hc & Hn & Hd & _) & Hx & Hb & Hctx & Hnum).
  split; simpl; rewrite ?Hc, ?Hn, ?Hd, ?Hx, ?Hb, ?Hctx, ?Hnum;
    try (intros *; rewrite lookup_empty; done); [done|unfold INT_MAX; lia].
Qed.

Lemma pristine_setup w w' : pristine w -> setup w w' -> pristine w'.
Proof.
  intros [Hbl (? & ? & ? & ?)] Hs. split; [by eapply blank_setup|].
  destruct Hs as (evs & fs & dir & np & -> & _). by split_and!.
Qed.

Lemma wlp_start_typed pending fuel depth opts enumerated p :
  pristine (p_world p) ->
  wlp (start pending fuel depth opts enumerated) (fun r p' => forall fd, r = inr fd -> ptyped p') p.
Proof.
  intros Hb. unfold start. apply wlp_xbind. eapply wlp_mono; [apply setup_boot|].
  intros [s|fd] p1 Hs; [done|]. apply (pristine_setup _ _ Hb) in Hs.
  apply wlp_xbind. eapply wlp_mono; [apply (wlp_bring_up stays_typed)|].
  - apply keeps_preserves, typed_usb_init, typed_handle_events.
  - intros e. apply keeps_preserves, typed_emit.
  - intros n. apply keeps_preserves. unfold usb_autodiscover. keeps_tac.
  - intros [s|[]] p2 Hp2; [done|]. intros ? _. by apply Hp2, pristine_typed.
Qed.

Lemma runs_typed p q : runs p q -> ptyped p -> ptyped q.
Proof.
  assert (forall others gs, (forall g w1 w2, others w1 = Ok tt w2 ->
      ptyped (mk_process g w1) -> ptyped (mk_process (gs g w1) w2)) -> Preserves stays_typed others) as Hos.
  { intros others gs Ho w. unfold wlp. destruct (others w) as [[] w'| |] eqn:He; [|done..].
    exact (Ho globals0 w w' He). }
  induction 1 as [p|p p' q pending fuel depth fd fds r Hit Hrest IH
    |p w' q others gs n k info Ho IHo Hw Hrest IH|p w' q others gs u m cb Ho IHo Hw Hrest IH]; intros T.
  - done.
  - apply IH. exact (keeps_ok _ _ _ _ _ (typed_main_iteration _ _ _ _ _) T Hit).
  - apply IH. refine (preserves_ok _ _ _ _ _ (stays_preflight_worker _ others _ n k info) Hw T).
    by apply (Hos others gs).
  - apply IH. refine (preserves_ok _ _ _ _ _ (stays_np_callback _ others _ u m cb) Hw T).
    by apply (Hos others gs).
Qed.

(** C2: every state the daemon reaches is within its types: fields have the
    range of their C type, buffers have the recorded size and hold bytes, fill
    levels are within them, transfers are as long as their buffers, the window
    and the state flags have no other values; for any clients, devices and
    answers of the system, under the limits on memory. *)
Theorem reachable_typed pending fuel depth opts enumerated p0 fd p1 p :
  pristine (p_world p0) -> start pending fuel depth opts enumerated p0 = Ok (inr fd) p1 ->
  runs p1 p -> typed (p_world p).
Proof.
  intros Hb Hstart Hruns. apply (runs_typed p1 p Hruns).
  exact (wlp_ok _ _ _ _ _ (wlp_start_typed pending fuel depth opts enumerated p0 Hb) Hstart fd eq_refl).
Qed.


End reach.

Section witness.
Import Instances.

(** The environment of the scenario with the limits. *)
Definition is_byte (b : Z) : bool := (0 <=? b) && (b <? 256).
Definition capped_plist : Plist := {|
  plist_t := tree;
  plist_new_dict := @plist_new_dict tree_plist;
  plist_new_array := @plist_new_array tree_plist;
  plist_new_string := @plist_new_string tree_plist;
  plist_new_uint := @plist_new_uint tree_plist;
  plist_new_bool := @plist_new_bool tree_plist;
  plist_new_data := @plist_new_data tree_plist;
  plist_get_node_type := tree_type;
  plist_dict_set_item := tree_set;
  plist_dict_remove_item := @plist_dict_remove_item tree_plist;
  plist_dict_get_item := @plist_dict_get_item tree_plist;
  plist_dict_copy_item := @plist_dict_copy_item tree_plist;
  plist_array_append_item := @plist_array_append_item tree_plist;
  plist_array_items := @plist_array_items tree_plist;
  plist_get_string_val := @plist_get_string_val tree_plist;
  plist_get_uint_val := @plist_get_uint_val tree_plist;
  plist_get_data_val := @plist_get_data_val tree_plist;
  plist_to_xml t :=
    match @plist_to_xml tree_plist t with
    | Some xml => if forallb is_byte xml && (zlen xml <=? 2 ^ 30) then Some xml else None
    | None => None
    end;
  plist_from_xml := @plist_from_xml tree_plist;
  plist_from_memory := @plist_from_memory tree_plist |}.

Definition capped_env : Env := {|
  env_coll := list_coll;
  env_plist := capped_plist;
  env_fs := list_fs;
  sys_recv := @sys_recv Scenario.scn_env;
  sys_send := @sys_send Scenario.scn_env;
  sys_accept := @sys_accept Scenario.scn_env;
  sys_clock_gettime := @sys_clock_gettime Scenario.scn_env;
  sys_gettimeofday := @sys_gettimeofday Scenario.scn_env;
  sys_malloc_bytes := @sys_malloc_bytes Scenario.scn_env;
  sys_realloc _ n := n <=? OB_LIMIT;
  sys_time := @sys_time Scenario.scn_env;
  sys_rand := @sys_rand Scenario.scn_env;
  string_concat := @string_concat Scenario.scn_env;
  sys_thread_new := @sys_thread_new Scenario.scn_env;
  libusb_submit_transfer := @libusb_submit_transfer Scenario.scn_env |}.
#[local] Existing Instance capped_env.
#[local] Existing Instance Scenario.scn_host.
#[local] Existing Instance Scenario.scn_host_laws.

#[local] Instance capped_io_laws : IoLaws capped_env.
Proof. split; apply Scenario.scn_env_laws. Qed.

#[local] Instance capped_limits : MemoryLimits capped_env.
Proof.
  split.
  - intros t n. apply Z.leb_le.
  - intros d xml. cbn [plist_to_xml capped_env env_plist capped_plist].
    destruct (@plist_to_xml tree_plist d) as [x|]; [|done]. destruct (forallb is_byte x && _) eqn:Hx; [|done].
    intros [= <-]. apply andb_true_iff in Hx as [Hb Hl]. split; [|by apply Z.leb_le].
    apply Forall_forall. intros b Hin. apply list_elem_of_In in Hin.
    pose proof (proj1 (forallb_forall is_byte x) Hb b Hin) as H.
    apply andb_true_iff in H as [H1 H2]. apply Z.leb_le in H1. apply Z.ltb_lt in H2. by split.
Qed.

#[local] Instance capped_os : Process := ScenarioMain.scn_os None poll_script.

Definition capped_start : world := {|
  w_clients := ∅; w_conns := ∅; w_devs := ∅; w_usbdevs := ∅;
  w_xfers := ∅; w_bufs := ∅; w_ctxs := ∅; w_cbs := ∅; w_next := 2%positive;
  client_list := []; client_number := 0; device_list := []; next_device_id := 0;
  usb_device_list := []; next_dev_poll_time := (0, 0);
  devlist_failures := 0; device_polling := 0; device_hotplug := 1; w_locked := []; no_preflight := 0;
  w_fs := mk_fs ∅ ∅; config_dir := None; w_trace := [] |}.
Definition capped_process : process := mk_process globals0 capped_start.

#[local] Instance capped_lockdown : Lockdown := {|
  lk_result _ _ _ := LOCKDOWN_E_SUCCESS;
  lk_type _ _ := None;
  lk_value _ _ _ := None;
  lk_np _ _ := false |}.

Fixpoint capped_iterate (n : nat) (p : process) : option process :=
  match n with
  | O => Some p
  | S n' =>
    match main_iteration scn_pending 10 10 3 Fdlist.fdlist_create p with
    | Ok _ p' => capped_iterate n' p'
    | _ => None
    end
  end.

Lemma capped_iterate_runs n p q : capped_iterate n p = Some q -> runs p q.
Proof.
  revert p. induction n as [|n IH]; intros p; simpl; [intros [= ->]; constructor|].
  destruct (main_iteration _ _ _ _ _ p) as [r p'| |] eqn:Hi; [|done..].
  intros Hq. eapply runs_iteration; [exact Hi|auto].
Qed.

(** After twelve iterations a client is connected to the device. *)
Definition connected (o : option process) : bool :=
  match o with Some p => bool_decide (size (w_conns (p_world p)) = 1%nat) | None => false end.
Definition session_of (o : outcome process (stop + Z)) : bool :=
  match o with Ok (inr fd) p => (fd =? 3) && connected (capped_iterate 12 p) | _ => false end.

Lemma session_of_runs o :
  session_of o = true -> exists p1 p, o = Ok (inr 3) p1 /\ runs p1 p /\ size (w_conns (p_world p)) = 1%nat.
Proof.
  destruct o as [[s|fd] p1| |]; try done. cbn [session_of].
  intros [->%Z.eqb_eq Hc]%andb_true_iff. unfold connected in Hc. destruct (capped_iterate 12 p1) as [p|] eqn:Hp; [|done].
  exists p1, p. split; [done|]. split; [by eapply capped_iterate_runs|by apply bool_decide_eq_true in Hc].
Qed.

Definition capped_run : outcome process (stop + Z) :=
  start scn_pending 10 10 ScenarioMain.boot_opts [] capped_process.

Lemma capped_session : session_of capped_run = true.
Proof. vm_compute. reflexivity. Qed.

Lemma capped_pristine : pristine (p_world capped_process).
Proof. by split_and!. Qed.

Lemma reachable_typed_witness :
  pristine (p_world capped_process) /\
  exists p1 p, start scn_pending 10 10 ScenarioMain.boot_opts [] capped_process = Ok (inr 3) p1 /\
    runs p1 p /\ size (w_conns (p_world p)) = 1%nat /\ typed (p_world p).
Proof.
  split; [exact capped_pristine|].
  destruct (session_of_runs capped_run capped_session) as (p1 & p & Hs & Hr & Hn).
  exists p1, p. split; [exact Hs|]. split; [exact Hr|]. split; [exact Hn|].
  exact (reachable_typed scn_pending 10 10 ScenarioMain.boot_opts [] capped_process 3 p1 p capped_pristine Hs Hr).
Defined.


End witness.
