(* ===== verification/PreflightFacts.v ===== *)
(** * PreflightFacts: the preflight workers and the devices they wait for

    A worker publishes the address of a record on its stack in the device, so
    that [device_remove] can tell it that the device is gone. Whatever the main
    loop and other workers do in between, a registered record is alive: no
    device refers to the record of a worker that has returned. And a worker
    that waits stops waiting when its device is unplugged. *)

From stdpp Require Import base gmap list strings.
From Stdlib Require Import ZArith Lia Ascii String.
From S2P Require Import Prelude Platform Wire UsbSetup World Utils Conf Instances Usb ClientOut.
From S2P Require Import DeviceOut Teardown Device Client UsbDevice UsbLoop Main Preflight.
From S2P Require Import Scenario ScenarioMain Views Session RefineTeardown ScenarioFacts RefineDevice.
From S2P Require Import RefineUsb RefineClient Frame ShutdownFacts RefineMain RefinePreflight Reach.

Local Open Scope Z_scope.

Section alive.
Context `{L : Lockdown} `{U : UsbHost} `{P : Process} `{!CollectionLaws env_coll}.
Implicit Types w : world.

(** ** The invariant *)

(** What a device has registered is the record of a worker that waits. *)
Definition hooked w : Prop := forall q d cb,
  w_devs w !! q = Some d -> dv_preflight_cb_data d = Some cb -> is_Some (w_cbs w !! cb).

Definition cbs_fresh w : Prop := forall p, (w_next w <= p)%positive -> w_cbs w !! p = None.

Definition sound w : Prop := inv w /\ hooked w /\ cbs_fresh w.

(** A device refers to the record [cb]. *)
Definition refers w (cb q : ptr) (id : Z) : Prop :=
  exists d, w_devs w !! q = Some d /\ dv_id d = id /\ dv_preflight_cb_data d = Some cb.

(** What a thread that owns the record [own] may rely on: its record stays,
    and no other thread makes a device refer to it. *)
Definition rely (own : option ptr) w w' : Prop :=
  sound w -> (forall cb, own = Some cb -> is_Some (w_cbs w !! cb)) ->
  sound w' /\ forall cb, own = Some cb ->
    is_Some (w_cbs w' !! cb) /\ (forall q id, refers w' cb q id -> refers w cb q id).

#[export] Instance rely_preorder own : PreOrder (rely own).
Proof.
  split.
  - intros w Hs Ho. split; [done|]. intros cb ->. auto.
  - intros w1 w2 w3 H1 H2 Hs Ho. destruct (H1 Hs Ho) as [Hs2 Ho2].
    destruct (H2 Hs2) as [Hs3 Ho3]; [intros cb Hcb; by apply Ho2|]. split; [done|].
    intros cb Hcb. destruct (Ho2 cb Hcb), (Ho3 cb Hcb). split; [done|]. auto.
Qed.

Lemma frame_rely own w w' : sim w w' -> frame w w' -> rely own w w'.
Proof.
  intros Hsim Hfr (Hinv & Hh & Hf) Ho. destruct (Hsim Hinv) as [_ Hinv'].
  destruct (Hfr (proj1 (proj2 Hinv))) as [_ [evs F]].
  assert (forall cb, is_Some (w_cbs w' !! cb) <-> is_Some (w_cbs w !! cb)) as Hdom.
  { intros cb. rewrite <- !elem_of_dom. by rewrite (fr_cbs _ _ _ F). }
  assert (forall cb q id, refers w' cb q id -> refers w cb q id) as Href.
  { intros cb q id (d' & Hd' & Hid & Hcb).
    destruct (fr_devs _ _ _ F q d' Hd') as [[_ Hn]|(d & Hd & Hid' & Hcb')]; [congruence|].
    exists d. split_and!; congruence. }
  split; [split; [done|split]|].
  - intros q d cb Hd Hcb. apply Hdom.
    destruct (Href cb q (dv_id d)) as (d0 & Hd0 & _ & Hcb0); [by exists d|]. by eapply Hh.
  - intros q Hq. apply eq_None_not_Some. rewrite Hdom, Hf; [by intros []|].
    pose proof (fr_next _ _ _ F). lia.
  - intros cb Hcb. split; [by apply Hdom, Ho|]. auto.
Qed.

Lemma preserves_rely {A} own (m : C world A) :
  Preserves sim m -> Preserves frame m -> Preserves (rely own) m.
Proof.
  intros H1 H2 w. eapply wlp_mono; [apply wlp_conj; [apply H1|apply H2]|].
  intros a w' [Hs Hf]. by apply frame_rely.
Qed.

(** ** Registering and freeing a record *)

(** The device with the identifier, and no other, gets the data. *)
Lemma wlp_set_preflight_cb_data id data w :
  inv w -> wlp (device_set_preflight_cb_data id data) (fun _ w' =>
    inv w' /\ w_cbs w' = w_cbs w /\ w_next w' = w_next w /\
    forall q d', w_devs w' !! q = Some d' -> exists d, w_devs w !! q = Some d /\ dv_id d' = dv_id d /\
      dv_preflight_cb_data d' = (if dv_id d =? id then data else dv_preflight_cb_data d)) w.
Proof.
  intros Hinv. pose proof (proj1 Hinv) as Hwf.
  set (f := fun d : mux_device => d <| dv_preflight_cb_data := data |>).
  assert (wlp (device_set_preflight_cb_data id data) (fun _ w' =>
    w_cbs w' = w_cbs w /\ w_next w' = w_next w /\
    ((w_devs w' = w_devs w /\ forall q d, w_devs w !! q = Some d -> dv_id d <> id) \/
     exists q d, w_devs w !! q = Some d /\ dv_id d = id /\ w_devs w' = <[q := f d]> (w_devs w))) w) as H.
  { unfold device_set_preflight_cb_data, on_device_id. apply wlp_bind.
    unfold wlp at 1, mutex_lock. case_decide; [done|]. set (w1 := set w_trace _ _).
    eapply wlp_call.
    { apply (wlp_foreach_scan (gets device_list) _ (fun q => forall d, w_devs w !! q = Some d -> dv_id d <> id)
        (fun _ w' => exists q d, w_devs w !! q = Some d /\ dv_id d = id /\
           w' = set w_devs <[q := f d]> w1) w1 (device_list w)); [done|].
      intros q _. apply wlp_bind, wlp_load. intros d Hd.
      destruct (Z.eqb_spec (dv_id d) id) as [Hid|Hid].
      - apply wlp_bind, wlp_update. intros d' Hd'. unfold wlp; simpl. exists q, d'.
        split; [exact Hd'|]. split; [|done]. congruence.
      - unfold wlp; simpl. split; [done|]. intros q' ->%list_elem_of_singleton d' Hd'.
        simpl in Hd. congruence. }
    intros [[]|] w2 Hr; unfold wlp; simpl.
    - destruct Hr as (q & d & Hd & Hid & ->). simpl. split; [done|]. split; [done|]. right. by exists q, d.
    - destruct Hr as [-> Hno]. split; [done|]. split; [done|]. left. split; [done|].
      intros q d Hd. apply (Hno q); [|exact Hd]. apply (wf_dev_list _ Hwf).
      rewrite (lookup_v_devs _ _ _ Hd). eauto. }
  eapply wlp_mono; [apply wlp_conj; [exact H|apply quiet_device_set_preflight_cb_data]|].
  intros ? w' [(Hcbs & Hn & Hd) Hq]. split; [by apply (quiet_inv w)|]. split; [done|]. split; [done|].
  intros q d' Hd'. destruct Hd as [[Hd Hno]|(q0 & d0 & Hd0 & Hid0 & Hd)]; rewrite Hd in Hd'.
  - exists d'. split; [done|]. split; [done|]. by rewrite (proj2 (Z.eqb_neq _ _) (Hno q d' Hd')).
  - apply lookup_insert_Some in Hd' as [[-> <-]|[Hne Hd']].
    + exists d0. split; [done|]. split; [done|]. by rewrite (proj2 (Z.eqb_eq _ _) Hid0).
    + exists d'. split; [done|]. split; [done|]. rewrite (proj2 (Z.eqb_neq _ _)); [done|].
      intros Hid. apply Hne. apply lookup_v_devs in Hd', Hd0.
      apply (wf_ids _ Hwf q0 q (dev_v d0) (dev_v d')); [done..|]. simpl. congruence.
Qed.

(** ** A worker *)

Lemma wlp_rely_intro {A} own (m : C world A) w :
  (sound w -> (forall cb, own = Some cb -> is_Some (w_cbs w !! cb)) ->
   wlp m (fun _ w' => rely own w w') w) -> wlp m (fun _ w' => rely own w w') w.
Proof.
  unfold wlp. intros H. destruct (m w) as [a w'| |]; try done. intros Hs Ho. exact (H Hs Ho Hs Ho).
Qed.

(** What neither changes the session nor the records. *)
Lemma rely_quiet {A} own (m : C world A) :
  Preserves quiet m -> Preserves frame m -> Preserves (rely own) m.
Proof. intros Hq Hf. apply preserves_rely; [by apply preserves_quiet_sim|done]. Qed.
#[local] Hint Extern 5 (Preserves (rely _) _) => apply rely_quiet; solve [eauto with preserves] : preserves.

Section worker.
Variable others : C world unit.
Hypothesis others_rely : forall own, Preserves (rely own) others.
#[local] Hint Resolve others_rely : preserves.

Lemma rely_lockdownd own u c : Preserves (rely own) (lockdownd others u c).
Proof. unfold lockdownd. preserves_tac. Qed.
#[local] Hint Resolve rely_lockdownd : preserves.

Lemma rely_set_untrusted own u : Preserves (rely own) (lockdownd_set_untrusted_host_buid others u).
Proof. unfold lockdownd_set_untrusted_host_buid. preserves_tac. Qed.
#[local] Hint Resolve rely_set_untrusted : preserves.

Lemma rely_np_callback own u n cb : Preserves (rely own) (np_callback others u n cb).
Proof. unfold np_callback. preserves_tac. Qed.

Lemma rely_wait_for_trust own n cb : Preserves (rely own) (wait_for_trust others n cb).
Proof. induction n; cbn [wait_for_trust]; preserves_tac. Qed.
#[local] Hint Resolve rely_wait_for_trust : preserves.

(** While the worker holds the record [cb]: every device that refers to it has
    an identifier in [D]; seen from [w], the start of the worker. *)
Definition holding (own : option ptr) w (cb : ptr) (D : Z -> Prop) w1 : Prop :=
  sound w1 /\ is_Some (w_cbs w1 !! cb) /\ (forall q id, refers w1 cb q id -> D id) /\
  forall o, own = Some o -> o <> cb /\ is_Some (w_cbs w1 !! o) /\
    (forall q id, refers w1 o q id -> refers w o q id).

Lemma wlp_holding {A} own w cb D (m : C world A) w1 :
  (forall own, Preserves (rely own) m) -> holding own w cb D w1 ->
  wlp m (fun _ w2 => holding own w cb D w2) w1.
Proof.
  intros Hm (Hs & Hcb & HD & Ho).
  eapply wlp_mono; [apply wlp_conj; [apply (Hm own)|apply (Hm (Some cb))]|].
  intros a w2 [R1 R2]. destruct R1 as [Hs2 H1]; [done|intros o Ho'; by apply Ho|].
  destruct R2 as [_ H2]; [done|intros o [= <-]; done|].
  destruct (H2 cb eq_refl) as [Hcb2 Href2]. split; [done|]. split; [done|]. split; [eauto|].
  intros o Ho'. destruct (Ho o Ho') as (Hne & _ & Href). destruct (H1 o Ho') as [Ho1 Href1].
  split_and!; eauto.
Qed.

(** Registering the record, or nothing, in the device [id]. *)
Lemma wlp_holding_set own w cb id data w1 :
  (data = Some cb \/ data = None) ->
  holding own w cb (fun i => i = id) w1 ->
  wlp (device_set_preflight_cb_data id data)
    (fun _ w2 => holding own w cb (fun i => i = id /\ data = Some cb) w2) w1.
Proof.
  intros Hdata ((Hinv & Hh & Hf) & Hcb & HD & Ho).
  eapply wlp_mono; [by apply wlp_set_preflight_cb_data|]. intros ? w2 (Hinv2 & Hcbs & Hn & Hd).
  assert (forall o q i, refers w2 o q i ->
    (i = id /\ data = Some o) \/ (i <> id /\ refers w1 o q i)) as Href.
  { intros o q i (d' & Hd' & <- & Ho'). destruct (Hd q d' Hd') as (d & Hdq & -> & Hc).
    destruct (Z.eqb_spec (dv_id d) id) as [Hid|Hid]; [left; split; congruence|].
    right. split; [done|]. exists d. split_and!; congruence. }
  split; [split; [done|split]|].
  - intros q d o Hdq Hc. rewrite Hcbs.
    destruct (Href o q (dv_id d)) as [[_ Hx]|[_ (d0 & Hd0 & _ & Hc0)]]; [by exists d|..].
    + destruct Hdata as [-> | ->]; [|done]. by injection Hx as ->.
    + by eapply Hh.
  - intros p Hp. rewrite Hcbs, Hn in *. by apply Hf.
  - rewrite Hcbs. split; [done|]. split.
    + intros q i Hr. destruct (Href cb q i Hr) as [?|[Hne Hr']]; [done|]. by apply HD in Hr'.
    + intros o Ho'. destruct (Ho o Ho') as (Hne & Hs & Hr). split_and!; [done..|].
      intros q i Hr2. destruct (Href o q i Hr2) as [[_ Hx]|[_ Hr']]; [|by apply Hr].
      destruct Hdata as [-> | ->]; [|done]. congruence.
Qed.

Lemma rely_observe_trust own n info udid np :
  Preserves (rely own) (observe_trust others n info udid np).
Proof.
  intros w. apply wlp_rely_intro. intros Hs Ho. unfold observe_trust.
  apply wlp_bind, wlp_malloc. set (cb := w_next w). set (w1 := set w_next _ _).
  assert (holding own w cb (fun i => i = di_id info) w1) as H1.
  { destruct Hs as (Hinv & Hh & Hf). pose proof (Hf cb ltac:(unfold cb; lia)) as Hnone.
    assert (forall o, is_Some (w_cbs w !! o) -> is_Some (w_cbs w1 !! o)) as Hmono.
    { intros o [c Hc]. exists c. simpl. rewrite lookup_insert_ne; [done|]. congruence. }
    assert (inv w1) as Hinv1 by (apply (quiet_inv w); [done|]; split; [done|simpl; lia]).
    split; [split; [done|split]|split; [|split]].
    - intros q d o Hd Hc. apply Hmono. by apply (Hh q d o).
    - intros p Hp. simpl in *. rewrite lookup_insert_ne by (unfold cb; lia). apply Hf. lia.
    - simpl. rewrite lookup_insert_eq. eauto.
    - intros q i (d & Hd & _ & Hc). exfalso. destruct (Hh q d cb Hd Hc) as [c Hx]. congruence.
    - intros o Ho'. specialize (Ho o Ho'). split; [intros ->; destruct Ho; congruence|]. auto. }
  clearbody w1.
  eapply wlp_call; [eapply wlp_holding; [intros; apply rely_lockdownd|exact H1]|].
  intros ? w2 H2.
  eapply wlp_call; [apply (wlp_holding_set own w cb (di_id info) (Some cb)); [by left|exact H2]|].
  intros ? w3 H3. cbv beta in H3.
  eapply wlp_call; [eapply wlp_holding; [intros; apply rely_lockdownd|exact H3]|].
  intros ? w4 H4.
  eapply wlp_call; [eapply wlp_holding; [intros; eauto with preserves|exact H4]|].
  intros ? w5 H5.
  eapply wlp_call; [eapply wlp_holding; [intros; apply rely_wait_for_trust|exact H5]|].
  intros ? w6 H6.
  eapply wlp_call; [apply (wlp_holding_set own w cb (di_id info) None); [by right|]|].
  { destruct H6 as (? & ? & HD & ?). split_and!; try done. intros q i Hr. by apply (HD q i). }
  intros ? w7 H7. apply wlp_bind, wlp_load. intros c Hc.
  eapply wlp_call; [eapply wlp_holding; [intros; preserves_tac|exact H7]|].
  intros ? w8 ((Hinv8 & Hh8 & Hf8) & _ & Href8 & Ho8). apply wlp_free. intros c8 Hc8 _ _.
  set (w9 := set w_cbs (delete cb) w8).
  split; [split; [|split]|].
  - apply (quiet_inv w8); [done|]. split; [done|simpl; lia].
  - intros q d o Hd Hcd. simpl. rewrite lookup_delete_ne; [by apply (Hh8 q d)|].
    intros <-. destruct (Href8 q (dv_id d)) as [_ ?]; [by exists d|done].
  - intros p Hp. simpl. apply fresh_delete. by apply Hf8.
  - intros o Ho'. destruct (Ho8 o Ho') as (Hne & Hs8 & Hr8). split; [|exact Hr8].
    simpl. by rewrite lookup_delete_ne.
Qed.
#[local] Hint Resolve rely_observe_trust : preserves.

Lemma rely_preflight_from own r n i u : Preserves (rely own) (preflight_from others r n i u).
Proof.
  induction r; cbn [preflight_from];
    unfold preflight_pair, preflight_trust, preflight_old, get_string_value; preserves_tac.
Qed.

Lemma rely_preflight_worker own r n i :
  Preserves (rely own) (preflight_worker_handle_device_add others r n i).
Proof.
  pose proof rely_preflight_from. unfold preflight_worker_handle_device_add. preserves_tac.
Qed.

End worker.

(** ** The whole daemon *)

Lemma rely_emit own e : Preserves (rely own) (emit e).
Proof.
  apply preserves_modify. intros w (Hinv & Hh & Hf) Ho. split; [|auto].
  split; [|done]. apply (quiet_inv w); [done|]. split; [done|simpl; lia].
Qed.
#[local] Hint Resolve rely_emit : preserves.

Section main.
Variable pending : list event -> Z * list usb_event.
Variable fuel depth : nat.

Lemma rely_usb_init own l :
  Preserves (rely own) (usb_init (handle_events pending fuel depth) fuel l).
Proof.
  apply preserves_rely; [apply sim_usb_init, sim_handle_events|].
  apply frame_usb_init, frame_handle_events.
Qed.

Lemma rely_usb_autodiscover own n : Preserves (rely own) (usb_autodiscover n).
Proof. apply rely_quiet; [unfold usb_autodiscover; eauto with preserves|frame_tac]. Qed.

Lemma rely_main_iteration own fd l :
  Preserves (lift (rely own)) (main_iteration pending fuel depth fd l).
Proof.
  pose proof (sim_handle_events pending fuel depth). pose proof (frame_handle_events pending fuel depth).
  assert (forall b l, Preserves (rely own) (serve pending fuel depth fd b l)) as Hserve
    by (intros; apply preserves_rely; [apply sim_serve|apply frame_serve]).
  assert (Preserves (rely own) (usb_process (handle_events pending fuel depth) fuel)) as Hproc
    by (apply preserves_rely; [by apply sim_usb_process|by apply frame_usb_process]).
  assert (Preserves (rely own) (usb_discover (handle_events pending fuel depth) fuel)) as Hdisc
    by (apply preserves_rely; [by apply sim_usb_discover|by apply frame_usb_discover]).
  assert (Preserves (rely own) device_check_timeouts) as Htime
    by (apply preserves_rely; [apply sim_device_check_timeouts|eauto with preserves]).
  assert (Preserves (rely own) usb_timeout) as Huto
    by (apply rely_quiet; [apply quiet_usb_timeout|apply frame_usb_timeout]).
  assert (Preserves (rely own) device_get_timeout) as Hdto
    by (apply rely_quiet; [eauto with preserves|apply frame_device_get_timeout]).
  assert (forall l, Preserves (rely own) (usb_get_fds l)) as Hufds
    by (intros; apply rely_quiet; [apply quiet_usb_get_fds|apply frame_usb_get_fds]).
  assert (forall l, Preserves (rely own) (client_get_fds l)) as Hcfds
    by (intros; apply rely_quiet; [apply quiet_client_get_fds|eauto with preserves]).
  assert (Preserves (rely own) (device_get_count true)) as Hcount
    by (apply rely_quiet; [eauto with preserves|apply frame_device_get_count]).
  assert (forall sigs, Preserves (lift (rely own)) (handle_signals sigs)) as Hsig
    by (induction sigs; cbn [handle_signals]; process_tac).
  process_tac.
Qed.

End main.

Lemma runs_rely p q : runs p q -> forall own, rely own (p_world p) (p_world q).
Proof.
  induction 1 as [p|p p' q pending fuel depth fd fds r Hit Hrest IH
    |p w' q others gs n k info Ho IHo Hw Hrest IH|p w' q others gs u m cb Ho IHo Hw Hrest IH]; intros own.
  - reflexivity.
  - etrans; [|apply IH]. exact (preserves_ok _ _ _ _ _ (rely_main_iteration _ _ _ own _ _) Hit).
  - etrans; [|apply IH]. assert (forall own, Preserves (rely own) others) as Hos.
    { intros own' w1. unfold wlp. destruct (others w1) as [[] w2| |] eqn:He; try done.
      exact (IHo globals0 w1 w2 He own'). }
    exact (preserves_ok _ _ _ _ _ (rely_preflight_worker others Hos own _ _ _) Hw).
  - etrans; [|apply IH]. assert (forall own, Preserves (rely own) others) as Hos.
    { intros own' w1. unfold wlp. destruct (others w1) as [[] w2| |] eqn:He; try done.
      exact (IHo globals0 w1 w2 He own'). }
    exact (preserves_ok _ _ _ _ _ (rely_np_callback others Hos own _ _ _) Hw).
Qed.

Lemma wlp_start_sound pending fuel depth opts enumerated p :
  blank (p_world p) -> w_cbs (p_world p) = ∅ ->
  wlp (start pending fuel depth opts enumerated)
    (fun r p' => forall fd, r = inr fd -> sound (p_world p')) p.
Proof.
  intros Hb Hcb. unfold start. apply wlp_xbind. eapply wlp_mono; [apply setup_boot|].
  intros [s|fd] p1 Hs; [done|].
  assert (w_cbs (p_world p1) = ∅) as Hcb1 by (destruct Hs as (? & ? & ? & ? & -> & _); done).
  apply (blank_setup _ _ Hb) in Hs.
  apply wlp_xbind. eapply wlp_mono; [apply (wlp_bring_up (rely None))|].
  - apply rely_usb_init.
  - apply rely_emit.
  - apply rely_usb_autodiscover.
  - intros [s|[]] p2 Hp2; [done|]. intros ? _. apply Hp2; [|done].
    split; [by apply blank_consistent|]. destruct Hs as (_ & _ & Hd & _). split.
    + intros q d cb. simpl. by rewrite Hd, lookup_empty.
    + intros q _. simpl. by rewrite Hcb1, lookup_empty.
Qed.

(** C6: preflight data never dangles. From a sound state (such as the one
    after [start], by [wlp_start_sound]), whatever the main loop, other
    preflight workers and notification callbacks do, and in whatever order: the
    preflight data that a device has registered is the record of a worker that
    has not returned, so that [device_remove] never writes to a stack frame
    that is gone; and the record of a worker that is waiting in the meantime
    stays, and no further device refers to it. *)
Theorem preflight_data_alive p p' own :
  runs p p' -> sound (p_world p) ->
  (forall cb, own = Some cb -> is_Some (w_cbs (p_world p) !! cb)) ->
  (forall q d cb, w_devs (p_world p') !! q = Some d -> dv_preflight_cb_data d = Some cb ->
     is_Some (w_cbs (p_world p') !! cb)) /\
  (forall cb, own = Some cb -> is_Some (w_cbs (p_world p') !! cb) /\
     forall q id, refers (p_world p') cb q id -> refers (p_world p) cb q id).
Proof.
  intros Hruns Hs Ho. destruct (runs_rely _ _ Hruns own Hs Ho) as [(_ & Hh & _) Ho']. by split.
Qed.

(** ** The wait ends when the device is unplugged *)

Lemma wlp_remove_notifies u q d cb w :
  sound w -> w_devs w !! q = Some d -> dv_usbdev d = u -> dv_preflight_cb_data d = Some cb ->
  (forall q' d', w_devs w !! q' = Some d' -> dv_usbdev d' = u -> q' = q) ->
  wlp (device_remove u) (fun _ w' =>
    exists c, w_cbs w' !! cb = Some c /\ cb_is_device_connected c = 0) w.
Proof.
  intros (Hinv & Hh & _) Hd Hu Hcb Huniq. destruct Hinv as (Hwf & Hfr & _). unfold device_remove.
  apply wlp_bind. unfold wlp at 1, mutex_lock. case_decide; [done|]. set (w1 := set w_trace _ _).
  eapply wlp_call.
  { apply (wlp_foreach_scan (gets device_list) _ (fun x => x <> q)
      (fun _ w' => exists c, w_cbs w' !! cb = Some c /\ cb_is_device_connected c = 0) w1 (device_list w));
      [done|].
    intros x _. apply wlp_bind, wlp_load. intros dx Hdx.
    destruct (decide (dv_usbdev dx = u)) as [Hux|Hux]; cycle 1.
    { unfold wlp; simpl. split; [done|]. intros y ->%list_elem_of_singleton ->.
      simpl in Hdx. congruence. }
    assert (x = q) as -> by (by apply (Huniq x dx)).
    apply wlp_frame_call; [preserves_tac|]. intros ? w2 Hf2. destruct (Hf2 Hfr) as [_ [evs F]].
    apply wlp_bind, wlp_load. intros d2 Hd2.
    assert (dv_preflight_cb_data d2 = Some cb) as Hcb2.
    { destruct (fr_devs _ _ _ F q d2 Hd2) as [[Hn _]|(d0 & Hd0 & _ & Hc0)].
      - destruct (Hfr q Hn) as (_ & _ & Hnone). congruence.
      - change (w_devs w !! q = Some d0) in Hd0. congruence. }
    rewrite Hcb2, bool_decide_true by eauto. unfold when. apply wlp_bind. simpl.
    apply wlp_update. intros c Hc. apply wlp_bind. unfold wlp at 1; simpl.
    apply wlp_bind. unfold wlp at 1; simpl. apply wlp_bind, wlp_free. intros d3 Hd3.
    unfold wlp; simpl. exists (c <| cb_is_device_connected := 0 |>). by rewrite lookup_insert_eq. }
  intros [[]|] w2 Hr; [done|]. exfalso. destruct Hr as [_ Hno]. apply (Hno q); [|done].
  apply (wf_dev_list _ Hwf). rewrite (lookup_v_devs _ _ _ Hd). eauto.
Qed.

(** C9: a worker that waits for the user's answer stops waiting in the second
    in which its device is unplugged: when [device_remove] of the main thread
    returns, the loop ends, however long it was prepared to wait. *)
Theorem unplug_ends_wait seconds u q d cb c w w' :
  sound w -> w_devs w !! q = Some d -> dv_usbdev d = u -> dv_preflight_cb_data d = Some cb ->
  (forall q' d', w_devs w !! q' = Some d' -> dv_usbdev d' = u -> q' = q) ->
  w_cbs w !! cb = Some c ->
  cb_np c = true -> cb_is_device_connected c <> 0 -> cb_is_finished c = 0 ->
  device_remove u (w <| w_trace ::= cons (EvUsleep 1000000) |>) = Ok tt w' ->
  wait_for_trust (device_remove u) (S seconds) cb w = Ok tt w'.
Proof.
  intros Hs Hd Hu Hcb Huniq Hc Hnp Hcon Hfin Hrem. cbn [wait_for_trust].
  unfold mbind, C_bind, load, emit, modify. rewrite Hc, Hnp, Hfin, (proj2 (Z.eqb_neq _ _) Hcon).
  change (true && negb false && (0 =? 0)) with true. cbv beta iota. rewrite Hrem.
  assert (sound (w <| w_trace ::= cons (EvUsleep 1000000) |>)) as Hs'.
  { destruct Hs as (Hinv & Hrest). split; [|exact Hrest].
    apply (quiet_inv w); [done|]. split; [done|simpl; lia]. }
  destruct (wlp_ok _ _ _ _ _ (wlp_remove_notifies u q d cb _ Hs' Hd Hu Hcb Huniq) Hrem) as (c' & Hc' & H0).
  destruct seconds; cbn [wait_for_trust]; unfold mbind, C_bind, load; rewrite Hc', H0; simpl;
    by rewrite andb_false_r.
Qed.

End alive.

Section witness.
Import Instances Scenario ScenarioMain.
#[local] Existing Instance scn_process.
#[local] Existing Instance scn_lockdown.

(** The state of Scenario.v, with a worker that waits for device 1. *)
Definition trust_record : cb_data := mk_cb true 1 0.
Definition trust_dev : mux_device := scn_dev <| dv_preflight_cb_data := Some 8%positive |>.
Definition trust_world : world :=
  scn_world <| w_devs := {[ 2%positive := trust_dev ]} |>
            <| w_cbs := {[ 8%positive := trust_record ]} |> <| w_next := 9%positive |>.

Lemma trust_devs q d : w_devs trust_world !! q = Some d -> q = 2%positive /\ d = trust_dev.
Proof.
  change (({[ 2%positive := trust_dev ]} : gmap ptr mux_device) !! q = Some d -> q = 2%positive /\ d = trust_dev).
  intros H. by apply lookup_singleton_Some in H as [<- <-].
Qed.

Lemma trust_sound : sound trust_world.
Proof.
  split; [|split].
  - apply (quiet_inv scn_world); [exact scn_inv|]. split; [reflexivity|]. simpl. lia.
  - intros q d cb [-> ->]%trust_devs. intros [= <-]. by exists trust_record.
  - intros q Hq. simpl in *. apply lookup_singleton_ne. lia.
Qed.

Lemma preflight_data_alive_witness :
  exists p', runs (mk_process globals0 trust_world) p' /\ is_Some (w_cbs (p_world p') !! 8%positive).
Proof.
  assert (returns restore_worker trust_world = true) as Hret by (vm_compute; reflexivity).
  destruct (run_after _ _ Hret) as [[] Hrun].
  assert (runs (mk_process globals0 trust_world) (mk_process globals0 (after restore_worker trust_world)))
    as Hr by exact (worker_runs (mk_process globals0 trust_world) _ Hrun).
  exists (mk_process globals0 (after restore_worker trust_world)). split; [exact Hr|].
  apply (preflight_data_alive _ _ (Some 8%positive) Hr trust_sound); [|reflexivity].
  intros cb [= <-]. by exists trust_record.
Defined.

Definition unplugged : C world unit := device_remove 1%positive.
Definition trust_asleep : world := trust_world <| w_trace ::= cons (EvUsleep 1000000) |>.

Lemma unplug_ends_wait_witness :
  unplugged trust_asleep = Ok tt (after unplugged trust_asleep) /\
  wait_for_trust unplugged 60 8%positive trust_world = Ok tt (after unplugged trust_asleep).
Proof.
  assert (returns unplugged trust_asleep = true) as Hret by (vm_compute; reflexivity).
  destruct (run_after _ _ Hret) as [[] Hrun]. split; [exact Hrun|].
  assert (forall q d, w_devs trust_world !! q = Some d -> dv_usbdev d = 1%positive -> q = 2%positive)
    as Huniq by (by intros q d [-> _]%trust_devs).
  assert (cb_is_device_connected trust_record <> 0) as Hcon by done.
  exact (unplug_ends_wait 59 1%positive 2%positive trust_dev 8%positive trust_record trust_world _
    trust_sound eq_refl eq_refl eq_refl Huniq eq_refl eq_refl Hcon eq_refl Hrun).
Defined.

End witness.
