(* ===== verification/FlowFacts.v ===== *)
(** * FlowFacts: the data of a connection

    The bytes a device sends are queued and reach the client in order, and
    are acknowledged to the device exactly as they are delivered; the bytes a
    client sends go to the device within the window it granted. *)

From stdpp Require Import base gmap list strings.
From Stdlib Require Import ZArith Lia.
From S2P Require Import Prelude Platform Wire World Utils Conf Instances Usb ClientOut.
From S2P Require Import DeviceOut Teardown Device Client Scenario SendFacts.
From S2P Require Import Views Session RefineTeardown ScenarioFacts.

Local Open Scope Z_scope.

(** ** Buffers and windows of one connection *)

(** Sizes and widths of the fields of a connection. *)
Record conn_ok (c : mux_connection) : Prop := {
  ok_ib_len : zlen (cn_ib_buf c) = cn_ib_capacity c;
  ok_ib_size : 0 <= cn_ib_size c <= cn_ib_capacity c;
  ok_ib_cap : cn_ib_capacity c < 2 ^ 31;
  ok_ob_len : zlen (cn_ob_buf c) = cn_ob_capacity c;
  ok_ob_cap : 0 <= cn_ob_capacity c < 2 ^ 31;
  ok_payload : 0 <= cn_max_payload c < 2 ^ 31;
  ok_sendable : 0 <= cn_sendable c <= cn_ob_capacity c;
  ok_sendable_mtu : cn_sendable c <= cn_max_payload c;
  ok_rx_win : 0 <= cn_rx_win c < 2 ^ 32;
  ok_tx_seq : 0 <= cn_tx_seq c < 2 ^ 32;
}.

(** Bytes of the device that wait for the client. *)
Definition ib_queue (c : mux_connection) : list Z := ztake (cn_ib_size c) (cn_ib_buf c).

Lemma zlen_ib_queue c : conn_ok c -> zlen (ib_queue c) = cn_ib_size c.
Proof.
  intros Hc. unfold ib_queue. apply zlen_ztake. rewrite (ok_ib_len _ Hc). apply Hc.
Qed.

(** [consume_ib] takes bytes off the front of the queue. *)
Lemma consume_ib_queue c n :
  conn_ok c -> 0 < n <= cn_ib_size c ->
  ib_queue (consume_ib n c) = zdrop n (ib_queue c) /\ conn_ok (consume_ib n c).
Proof.
  intros Hc Hn. pose proof (ok_ib_len _ Hc) as Hlen. pose proof (ok_ib_size _ Hc) as Hsz.
  pose proof (ok_ib_cap _ Hc) as Hcap. unfold consume_ib.
  rewrite (s32_small (cn_ib_size c)) by lia.
  destruct (Z.eqb_spec n (cn_ib_size c)) as [->|Hne].
  - split.
    + unfold ib_queue; simpl. rewrite zdrop_all; [done|]. rewrite zlen_ztake; lia.
    + destruct Hc. split; simpl; try done. lia.
  - cbv zeta. rewrite u32_small by lia.
    assert (zlen (slice n (cn_ib_size c - n) (cn_ib_buf c)) = cn_ib_size c - n) as Hs
      by (unfold slice; rewrite zlen_ztake; [done|rewrite zlen_zdrop; lia]).
    split.
    + unfold ib_queue; simpl. rewrite <- Hs at 1.
      rewrite <- (Z.add_0_l (zlen (slice _ _ _))), ztake_write_at by lia.
      unfold ztake, zdrop, slice. simpl. unfold ztake, zdrop. rewrite take_drop_commute.
      do 2 f_equal. lia.
    + destruct Hc. split; simpl; try done; [|lia]. rewrite zlen_write_at; lia.
Qed.

(** What [update_connection] computes. *)
Lemma conn_sendable_bounds c :
  conn_ok c -> 0 <= conn_sendable c /\ conn_sendable c <= cn_ob_capacity c /\
    conn_sendable c <= cn_max_payload c /\
    (conn_sendable c = 0 \/ conn_sent c + conn_sendable c <= cn_rx_win c).
Proof.
  intros Hc. pose proof (ok_ob_cap _ Hc). pose proof (ok_payload _ Hc). pose proof (ok_rx_win _ Hc).
  assert (0 <= conn_sent c < 2 ^ 32) as Hs by apply u32_range.
  unfold conn_sendable. destruct (Z.ltb_spec (conn_sent c) (cn_rx_win c)).
  - rewrite u32_small by lia. destruct (Z.ltb_spec (cn_ob_capacity c) (cn_rx_win c - conn_sent c)).
    + destruct (Z.ltb_spec (cn_max_payload c) (cn_ob_capacity c)); lia.
    + destruct (Z.ltb_spec (cn_max_payload c) (cn_rx_win c - conn_sent c)); lia.
  - destruct (Z.ltb_spec (cn_ob_capacity c) 0); [lia|].
    destruct (Z.ltb_spec (cn_max_payload c) 0); lia.
Qed.

Lemma updated_connection_ok c : conn_ok c -> conn_ok (updated_connection c).
Proof.
  intros Hc. destruct (conn_sendable_bounds c Hc) as (? & ? & ? & _). destruct Hc.
  split; simpl; try done; lia.
Qed.

Lemma set_flag_if_set b x m : m <> 0 -> flag_set (set_flag_if b x m) m = b.
Proof. intros Hm. destruct b; [by apply flag_set_lor|apply flag_set_clear]. Qed.
Lemma set_flag_if_other b x m k : Z.land m k = 0 -> flag_set (set_flag_if b x m) k = flag_set x k.
Proof. intros Hm. destruct b; [by apply flag_set_lor_other|by apply flag_set_clear_other]. Qed.

(** C23: after [update_connection] a connection may send at most what fits its
    buffer, one packet and the window that the device granted beyond the data
    in flight (also when the sequence numbers have wrapped around); the client
    is polled for reading exactly when something may be sent and for writing
    exactly when something waits for it, and an acknowledgement is pending
    exactly when received data was not acknowledged yet. *)
Theorem updated_connection_flow c :
  conn_ok c ->
  let c' := updated_connection c in
  0 <= cn_sendable c' <= Z.min (cn_ob_capacity c) (cn_max_payload c) /\
  (forall n, 0 < n <= cn_sendable c' ->
     conn_sent (c' <| cn_tx_seq := u32 (cn_tx_seq c' + n) |>) = conn_sent c + n /\
     conn_sent c + n <= cn_rx_win c) /\
  flag_set (cn_events c') POLLIN = (0 <? cn_sendable c') /\
  flag_set (cn_events c') POLLOUT = negb (cn_ib_size c =? 0) /\
  flag_set (cn_flags c') CONN_ACK_PENDING = negb (cn_tx_acked c =? cn_tx_ack c) /\
  conn_ok c'.
Proof.
  intros Hc c'. destruct (conn_sendable_bounds c Hc) as (H0 & H1 & H2 & H3).
  pose proof (ok_rx_win _ Hc) as Hwin.
  change (cn_sendable c') with (conn_sendable c). split; [lia|]. split.
  - intros n Hn. destruct H3 as [?|H3]; [lia|]. split; [|lia].
    assert (0 <= conn_sent c < 2 ^ 32) as Hs by apply u32_range.
    rewrite <- (u32_small (conn_sent c + n)) by lia.
    unfold conn_sent; simpl. unfold u32.
    rewrite Zminus_mod_idemp_l, Zplus_mod_idemp_l. f_equal. lia.
  - unfold c', updated_connection; cbn [cn_events cn_flags set].
    rewrite (set_flag_if_other _ _ POLLOUT POLLIN) by done.
    rewrite !set_flag_if_set by done. split_and!; try done.
    by apply updated_connection_ok.
Qed.

(** ** Operations on the state *)

Section flow.
Context `{E : Env} `{!EnvLaws E}.
Implicit Types w : world.

(** The poll mask of a client after [client_set_events]. *)
Definition polled (k : mux_client) (events : Z) : mux_client :=
  match cl_state k with
  | CLIENT_CONNECTED => k <| cl_devents := events |> <| cl_events := events |>
  | CLIENT_CONNECTING2 => k <| cl_devents := events |>
  | _ => k
  end.

Lemma set_client_id w cl k : w_clients w !! cl = Some k -> set w_clients <[cl := k]> w = w.
Proof. intros Hk. destruct w; simpl in *. by rewrite insert_id. Qed.

Lemma wp_client_set_events cl k events w (Q : Z -> world -> Prop) :
  w_clients w !! cl = Some k ->
  (forall r, Q r (set w_clients <[cl := polled k events]> w)) ->
  wp (client_set_events (Some cl) events) Q w.
Proof.
  intros Hk HQ. unfold client_set_events. apply wp_bind. unfold nonnull.
  eapply wp_lift_option; [done|]. apply wp_bind. eapply wp_load; [done|].
  case_decide as Hst.
  - unfold wp; simpl. specialize (HQ (-1)).
    replace (polled k events) with k in HQ by (unfold polled; by destruct (cl_state k); tauto).
    by rewrite set_client_id in HQ.
  - apply wp_bind. eapply wp_update; [done|].
    destruct (cl_state k) eqn:Hs; try (by destruct Hst).
    + rewrite bool_decide_false by done. unfold when. unfold wp; simpl. specialize (HQ 0).
      unfold polled in HQ. rewrite Hs in HQ. exact HQ.
    + rewrite bool_decide_true by done. unfold when.
      apply wp_bind. eapply wp_update; [simpl; apply lookup_insert_eq|]. unfold wp; simpl.
      specialize (HQ 0). unfold polled in HQ. rewrite Hs in HQ. simpl in HQ.
      by rewrite insert_insert_eq.
Qed.

(** The state after [update_connection] on a connection that became [c]. *)
Definition refreshed (w : world) (conn cl : ptr) (c : mux_connection) (k : mux_client) : world :=
  w <| w_conns ::= <[conn := updated_connection c]> |>
    <| w_clients ::= <[cl := polled k (cn_events (updated_connection c))]> |>.

Lemma wp_update_connection conn c cl k w :
  w_conns w !! conn = Some c -> cn_client c = Some cl -> w_clients w !! cl = Some k ->
  wp (update_connection conn) (fun _ w' => w' = refreshed w conn cl c k) w.
Proof.
  intros Hc Hcl Hk. unfold update_connection. apply wp_bind. eapply wp_update; [done|].
  apply wp_bind. eapply wp_load; [simpl; apply lookup_insert_eq|].
  replace (cn_client (updated_connection c)) with (Some cl) by (by rewrite <- Hcl).
  apply wp_bind. eapply wp_client_set_events; [done|]. intros r. done.
Qed.

(** The connection after a payload was queued. *)
Definition with_payload (c : mux_connection) (payload : list Z) : mux_connection :=
  c <| cn_ib_buf := write_at (cn_ib_size c) payload (cn_ib_buf c) |>
    <| cn_ib_size := cn_ib_size c + zlen payload |>
    <| cn_rx_recvd := u32 (cn_rx_recvd c + zlen payload) |>.

Lemma with_payload_queue c payload :
  conn_ok c -> cn_ib_size c + zlen payload <= cn_ib_capacity c ->
  ib_queue (with_payload c payload) = ib_queue c ++ payload /\ conn_ok (with_payload c payload).
Proof.
  intros Hc Hfit. pose proof (zlen_nonneg payload). pose proof (ok_ib_len _ Hc) as Hlen.
  pose proof (ok_ib_size _ Hc). split.
  - unfold ib_queue, with_payload; simpl. apply ztake_write_at. lia.
  - destruct Hc. split; simpl; try done; [|lia]. rewrite zlen_write_at by lia. done.
Qed.

Lemma wp_connection_device_input conn c cl k payload w :
  w_conns w !! conn = Some c -> cn_client c = Some cl -> w_clients w !! cl = Some k ->
  conn_ok c -> cn_ib_size c + zlen payload <= cn_ib_capacity c ->
  wp (connection_device_input conn payload)
    (fun _ w' => w' = refreshed w conn cl (with_payload c payload) k) w.
Proof.
  intros Hc Hcl Hk Hok Hfit. pose proof (zlen_nonneg payload). pose proof (ok_ib_len _ Hok).
  pose proof (ok_ib_size _ Hok). pose proof (ok_ib_cap _ Hok).
  unfold connection_device_input. apply wp_bind. eapply wp_load; [done|].
  rewrite u32_small by lia. rewrite !(proj2 (Z.ltb_ge _ _)) by lia.
  apply wp_bind. eapply wp_update; [done|].
  eapply wp_mono; [eapply (wp_update_connection conn (with_payload c payload) cl k)|].
  - simpl. rewrite lookup_insert_eq. unfold with_payload. by rewrite (u32_small (cn_ib_size c + zlen payload)) by lia.
  - done.
  - done.
  - intros [] w' ->. unfold refreshed. simpl. by rewrite insert_insert_eq.
Qed.

(** A payload of the device that fits the connection's buffer is appended
    to the bytes that wait for the client, in order and complete, never outside
    of the buffer; the client is then polled for writing. *)
Theorem device_input_appends conn c cl k payload w :
  w_conns w !! conn = Some c -> cn_client c = Some cl -> w_clients w !! cl = Some k ->
  conn_ok c -> cn_ib_size c + zlen payload <= cn_ib_capacity c -> payload <> [] ->
  wp (connection_device_input conn payload) (fun _ w' => exists c' k',
    w_conns w' = <[conn := c']> (w_conns w) /\ w_clients w' = <[cl := k']> (w_clients w) /\
    ib_queue c' = ib_queue c ++ payload /\ conn_ok c' /\
    (cl_state k = CLIENT_CONNECTED -> flag_set (cl_events k') POLLOUT = true)) w.
Proof.
  intros Hc Hcl Hk Hok Hfit Hne.
  destruct (with_payload_queue c payload Hok Hfit) as [Hq Hok'].
  eapply wp_mono; [by eapply wp_connection_device_input|]. intros [] w' ->.
  eexists _, _. split; [done|]. split; [done|]. split; [exact Hq|].
  split; [by apply updated_connection_ok|]. intros Hst. unfold polled. rewrite Hst.
  simpl cl_events. unfold updated_connection; cbn [cn_events set].
  rewrite set_flag_if_set by done. apply negb_true_iff, Z.eqb_neq. simpl.
  pose proof (ok_ib_size _ Hok). destruct payload; [done|].
  pose proof (zlen_nonneg payload). unfold zlen in *. simpl. lia.
Qed.

(** ** The connection of a client *)

Lemma find_map_unique {A} (f : ptr -> option A) l p a :
  p ∈ l -> f p = Some a -> (forall q b, q ∈ l -> f q = Some b -> b = a) -> find_map f l = Some a.
Proof.
  intros Hp Hf Hu. destruct (find_map f l) as [b|] eqn:He.
  - apply find_map_Some in He as (q & Hq & Hfq). by rewrite (Hu q b Hq Hfq).
  - rewrite find_map_None in He. by rewrite (He p Hp) in Hf.
Qed.

(** In a state that satisfies the invariant, [get_mux_connection] finds the
    connection of a client. *)
Lemma get_mux_connection_run w p c cl d :
  wf (view_of w) -> w_conns w !! p = Some c -> cn_client c = Some cl ->
  w_devs w !! cn_dev c = Some d -> get_mux_connection (dv_id d) cl w = Ok (Some p) w.
Proof.
  intros Hwf Hc Hcl Hd. pose proof (lookup_v_conns _ _ _ Hc) as Hcv.
  pose proof (lookup_v_devs _ _ _ Hd) as Hdv.
  destruct (wf_conn_dev _ Hwf p _ Hcv) as (dv' & l & Hdv' & Hl & Hp).
  simpl in Hdv'. change (v_devs (view_of w) !! cn_dev c = Some dv') in Hdv'.
  rewrite Hdv in Hdv'. injection Hdv' as <-. simpl in Hl.
  set (f := fun q => if decide (q = cn_dev c) then Some (Some p) else None).
  assert (wp (get_mux_connection (dv_id d) cl) (fun r w' => w' = w /\ r = Some p) w) as Hrun.
  2: { apply wp_elim in Hrun as (r & w' & -> & -> & ->). done. }
  unfold get_mux_connection. apply wp_bind. eapply (wp_foreach_find _ _ f); [done|..].
  - intros q Hq. apply (wf_dev_list _ Hwf) in Hq as [dv Hq]. apply v_devs_inv in Hq as (d' & Hd' & ->).
    unfold mbind, C_bind, load. rewrite Hd'. unfold f. destruct (decide (q = cn_dev c)) as [->|Hne].
    + rewrite Hd in Hd'. injection Hd' as <-. rewrite Z.eqb_refl.
      assert (wp (foreach (dev_connections (cn_dev c)) (fun lconn =>
        c ← get_conn lconn; mret (if decide (cn_client c = Some cl) then Some lconn else None)))
        (fun r w' => w' = w /\ r = Some p) w) as Hin.
      2: { apply wp_elim in Hin as (r & w' & Hr & -> & ->). fold (get_dev (cn_dev c)).
           unfold mbind, C_bind, load in Hr |- *. by rewrite Hr. }
      eapply (wp_foreach_find _ _ (is_conn_of w cl)).
      * unfold dev_connections, mbind, C_bind, load. by rewrite Hd, Hl.
      * intros lc Hlc. destruct (wf_dev_conn _ Hwf _ _ l lc Hdv Hl Hlc) as (cv & Hcv' & _).
        apply v_conns_inv in Hcv' as (c' & Hc' & ->). unfold is_conn_of, mbind, C_bind, load.
        by rewrite Hc'.
      * split; [done|]. eapply find_map_unique; [exact Hp|..].
        { unfold is_conn_of. rewrite Hc. by rewrite decide_True. }
        intros q b _. unfold is_conn_of. destruct (w_conns w !! q) as [c'|] eqn:Hc'; [|done].
        case_decide; [|done]. intros [= <-]. apply lookup_v_conns in Hc'.
        apply (wf_client_inj _ Hwf q p _ _ Hc' Hcv). simpl. congruence.
    + destruct (Z.eqb_spec (dv_id d') (dv_id d)) as [He|]; [|done]. exfalso. apply Hne.
      apply (wf_ids _ Hwf q (cn_dev c) (dev_v d') (dev_v d)); [by apply lookup_v_devs|done|done].
  - unfold wp. cbn [mret C_ret]. split; [done|].
    rewrite (find_map_unique f _ (cn_dev c) (Some p)); [done|..].
    + apply (wf_dev_list _ Hwf). eauto.
    + unfold f. by rewrite decide_True.
    + intros q b _. unfold f. case_decide; [|done]. by intros [= <-].
Qed.

(** The state once [device_client_process] has looked up the connection. *)
Definition looked_up (w : world) : world :=
  w <| w_trace := EvUnlock device_list_mutex :: EvLock device_list_mutex :: w_trace w |>.

Lemma wp_client_process_lookup {A} w p c cl d (k : option ptr -> C world A) Q :
  wf (view_of w) -> w_conns w !! p = Some c -> cn_client c = Some cl ->
  w_devs w !! cn_dev c = Some d -> device_list_mutex ∉ w_locked w ->
  wp (k (Some p)) Q (looked_up w) ->
  wp (mutex_lock device_list_mutex ;;
      conn ← get_mux_connection (dv_id d) cl;
      mutex_unlock device_list_mutex ;; k conn) Q w.
Proof.
  intros Hwf Hc Hcl Hd Hm HQ. apply wp_bind, wp_mutex_lock; [done|]. apply wp_bind.
  unfold wp at 1. rewrite (get_mux_connection_run _ p c cl d) by done.
  apply wp_bind, wp_modify. simpl. rewrite filter_unlock by done. by destruct w.
Qed.

(** A connection with everything it refers to. *)
Record session (w : world) (p : ptr) (c : mux_connection) (cl : ptr) (k : mux_client)
    (d : mux_device) : Prop := {
  se_inv : inv w;
  se_conn : w_conns w !! p = Some c;
  se_owner : cn_client c = Some cl;
  se_client : w_clients w !! cl = Some k;
  se_dev : w_devs w !! cn_dev c = Some d;
  se_unlocked : device_list_mutex ∉ w_locked w;
  se_ok : conn_ok c;
}.

(** The connection after [n] bytes were delivered to the client. *)
Definition delivered (c : mux_connection) (n : Z) : mux_connection :=
  consume_ib n (c <| cn_tx_ack := u32 (cn_tx_ack c + n) |>).

Lemma delivered_queue c n :
  conn_ok c -> 0 < n <= cn_ib_size c ->
  ib_queue (delivered c n) = zdrop n (ib_queue c) /\ conn_ok (delivered c n) /\
  cn_tx_ack (delivered c n) = u32 (cn_tx_ack c + n) /\
  cn_tx_acked (delivered c n) = cn_tx_acked c /\ cn_client (delivered c n) = cn_client c.
Proof.
  intros Hc Hn. unfold delivered. set (c1 := c <| cn_tx_ack := u32 (cn_tx_ack c + n) |>).
  assert (conn_ok c1) as Hc1 by (destruct Hc; by split).
  destruct (consume_ib_queue c1 n Hc1 Hn) as [Hq Hok]. split; [done|]. split; [done|].
  unfold consume_ib. by destruct (_ =? _).
Qed.

(** C11: when the socket of a connected client is writable, the bytes handed to
    it are the first bytes the device sent, exactly the [n] bytes it takes
    leave the queue, and exactly those [n] bytes are added to what is
    acknowledged to the device, with the acknowledgement marked as pending. *)
Theorem client_process_delivers w p c cl k d n :
  session w p c cl k d -> cl_state k = CLIENT_CONNECTED -> 0 < cn_ib_size c ->
  sys_send (w_trace (looked_up w)) (cl_fd k) (ib_queue c) = inl n -> 0 < n ->
  wp (device_client_process (dv_id d) cl POLLOUT) (fun _ w' => exists c',
    w_conns w' = <[p := c']> (w_conns w) /\
    w_trace w' = EvSend (cl_fd k) (ib_queue c) (inl n) :: w_trace (looked_up w) /\
    ib_queue c' = zdrop n (ib_queue c) /\ cn_tx_ack c' = u32 (cn_tx_ack c + n) /\
    flag_set (cn_flags c') CONN_ACK_PENDING = negb (cn_tx_acked c =? cn_tx_ack c') /\
    conn_ok c') w.
Proof.
  intros Hs Hst Hsz Hsend Hn. destruct Hs as [[Hwf _] Hc Hcl Hk Hd Hm Hok].
  pose proof (send_bound _ _ _ _ Hsend) as Hb. rewrite zlen_ib_queue in Hb by done.
  destruct (delivered_queue c n Hok) as (Hq & Hok' & Hack & Hacked & Hcl'); [lia|].
  unfold device_client_process. apply (wp_client_process_lookup w p c cl d); [done..|].
  apply wp_bind. eapply wp_load; [exact Hc|]. change (flag_set POLLOUT POLLOUT) with true.
  rewrite (proj2 (Z.ltb_lt _ _)) by done. cbn [andb]. rewrite Hcl. apply wp_bind, wp_bind.
  unfold nonnull. eapply wp_lift_option; [done|]. fold (ib_queue c). apply wp_bind.
  unfold client_write, send. apply wp_bind. eapply wp_load; [exact Hk|].
  rewrite decide_True by done. apply wp_bind, wp_bind, wp_gets, wp_bind, wp_modify.
  unfold wp at 1; cbn [mret C_ret]. rewrite Hsend. unfold wp at 1; cbn [mret C_ret].
  rewrite (proj2 (Z.leb_gt _ _)) by lia. apply wp_bind. eapply wp_update; [exact Hc|].
  fold (delivered c n). unfold wp at 1; cbn [mret C_ret negb].
  apply wp_bind. eapply wp_load; [simpl; apply lookup_insert_eq|].
  change (flag_set POLLOUT POLLIN) with false. cbn [andb].
  apply wp_bind. unfold wp at 1; cbn [mret C_ret negb].
  eapply wp_mono; [eapply (wp_update_connection p (delivered c n) cl k)|].
  - simpl. apply lookup_insert_eq.
  - congruence.
  - exact Hk.
  - intros [] w' ->. exists (updated_connection (delivered c n)). split_and!.
    + simpl. by rewrite insert_insert_eq.
    + done.
    + exact Hq.
    + exact Hack.
    + unfold updated_connection; cbn [cn_flags cn_tx_ack set].
      rewrite set_flag_if_set by done. by rewrite Hacked.
    + by apply updated_connection_ok.
Qed.

(** The connection after [data] was sent to the device. *)
Definition forwarded (c : mux_connection) (data : list Z) (t : list event) : mux_connection :=
  (acknowledged (c <| cn_ob_buf := write_at 0 data (cn_ob_buf c) |>) t)
    <| cn_tx_seq := u32 (cn_tx_seq c + zlen data) |>.

Lemma forwarded_ok c data t :
  conn_ok c -> zlen data <= cn_ob_capacity c -> conn_ok (forwarded c data t).
Proof.
  intros Hc Hd. pose proof (zlen_nonneg data). pose proof (ok_ob_len _ Hc).
  destruct Hc. split; simpl; try done; [rewrite zlen_write_at; lia|apply u32_range].
Qed.


Lemma packet_outcome_accepted t u b mps r t' :
  (forall t b, 0 <= libusb_submit_transfer t u EpOut b) ->
  packet_outcome t u b mps r t' ->
  r = zlen b /\ exists s z, t' = z ++ EvSubmit u EpOut b s :: t /\
    (z = [] \/ exists e, z = [EvSubmit u EpOut [] e]).
Proof.
  intros Hacc [r' Hr Hneg|r' Hr _ _|r' z t1 Hr _ _ -> Hz].
  - pose proof (Hacc t b). lia.
  - split; [done|]. exists r', []. by split; [|left].
  - pose proof (Hacc (EvSubmit u EpOut b r' :: t) []) as Hpos.
    rewrite (proj2 (Z.ltb_ge _ _)) by lia. split; [done|].
    exists r', [EvSubmit u EpOut [] z]. split; [done|]. right. eauto.
Qed.

(** [send_tcp] on a device whose transfers are accepted. *)
Lemma wp_send_tcp_accepted p c d u flags data w :
  w_conns w !! p = Some c -> w_devs w !! cn_dev c = Some d ->
  w_usbdevs w !! dv_usbdev d = Some u -> ud_wMaxPacketSize u <> 0 -> heap_fresh w ->
  packet_len d sizeof_tcphdr data <= USB_MTU ->
  (forall t b, 0 <= libusb_submit_transfer t (dv_usbdev d) EpOut b) ->
  wp (send_tcp p flags data) (fun r w' => 0 <= r /\ w_clients w' = w_clients w /\
    w_conns w' = <[p := acknowledged c (w_trace w')]> (w_conns w) /\
    exists s z, w_trace w' = z ++ EvSubmit (dv_usbdev d) EpOut (segment d c flags data) s ::
        w_trace w /\ (z = [] \/ exists e, z = [EvSubmit (dv_usbdev d) EpOut [] e])) w.
Proof.
  intros Hc Hd Hu Hmps Hfresh Hmtu Hacc.
  eapply wp_mono; [by eapply (wp_send_tcp p c d u)|]. intros r w' (Hout & Hframe & Hconns).
  apply packet_outcome_accepted in Hout as [-> Htr]; [|done].
  pose proof (zlen_nonneg (segment d c flags data)).
  rewrite (proj2 (Z.ltb_ge _ _)) in Hconns by done. split_and!; [done|by rewrite Hframe|done..].
Qed.

Lemma client_read_run cl k n data w :
  w_clients w !! cl = Some k -> cl_state k = CLIENT_CONNECTED ->
  sys_recv (w_trace w) (cl_fd k) n = inl data ->
  client_read cl n w =
    Ok (zlen data, data) (w <| w_trace ::= cons (EvRecv (cl_fd k) n (inl data)) |>).
Proof.
  intros Hk Hst Hr. unfold client_read, recv, mbind, C_bind, load, gets, emit, modify, mret, C_ret.
  rewrite Hk, decide_True by done. by rewrite Hr.
Qed.

(** C12: when a connected client has data and the device's window is open, what
    is read (never more than the window, one packet and the buffer allow) goes
    to the device unchanged in one ACK segment, and the sequence number
    advances by exactly its length. *)
Theorem client_process_forwards w p c cl k d u data :
  session w p c cl k d -> cl_state k = CLIENT_CONNECTED -> 0 < cn_sendable c ->
  w_usbdevs w !! dv_usbdev d = Some u -> ud_wMaxPacketSize u <> 0 -> heap_fresh w ->
  cn_max_payload c = USB_MTU - sizeof_mux_header - sizeof_tcphdr ->
  sys_recv (w_trace (looked_up w)) (cl_fd k) (cn_sendable c) = inl data -> data <> [] ->
  (forall t b, 0 <= libusb_submit_transfer t (dv_usbdev d) EpOut b) ->
  wp (device_client_process (dv_id d) cl POLLIN) (fun _ w' => exists c' s z,
    w_conns w' = <[p := c']> (w_conns w) /\
    w_trace w' = z ++ EvSubmit (dv_usbdev d) EpOut (segment d c TH_ACK data) s ::
      EvRecv (cl_fd k) (cn_sendable c) (inl data) :: w_trace (looked_up w) /\
    (z = [] \/ exists e, z = [EvSubmit (dv_usbdev d) EpOut [] e]) /\
    zlen data <= cn_sendable c /\ cn_tx_seq c' = u32 (cn_tx_seq c + zlen data) /\
    cn_tx_acked c' = cn_tx_ack c /\ conn_ok c') w.
Proof.
  intros Hs Hst Hsnd Hu Hmps Hfresh Hmp Hrecv Hne Hacc.
  destruct Hs as [[Hwf _] Hc Hcl Hk Hd Hm Hok].
  pose proof (recv_bound _ _ _ _ (Z.lt_le_incl _ _ Hsnd) Hrecv) as Hb.
  assert (0 < zlen data) as Hpos by (destruct data; [done|unfold zlen; simpl; lia]).
  pose proof (ok_sendable _ Hok) as Hcap. pose proof (ok_sendable_mtu _ Hok) as Hmax.
  pose proof (ok_ob_len _ Hok) as Hol.
  unfold device_client_process. apply (wp_client_process_lookup w p c cl d); [done..|].
  apply wp_bind. eapply wp_load; [exact Hc|]. change (flag_set POLLIN POLLOUT) with false.
  change (flag_set POLLIN POLLIN) with true. cbn [andb].
  apply wp_bind. unfold wp at 1; cbn [mret C_ret negb].
  apply wp_bind. eapply wp_load; [exact Hc|]. rewrite (proj2 (Z.ltb_lt _ _)) by done.
  rewrite Hcl. apply wp_bind, wp_bind. unfold nonnull. eapply wp_lift_option; [done|].
  apply wp_bind. unfold wp at 1. rewrite (client_read_run cl k _ data) by done.
  rewrite (proj2 (Z.leb_gt _ _)) by lia. rewrite (proj2 (Z.ltb_ge _ _)) by lia.
  apply wp_bind. eapply wp_update; [exact Hc|].
  set (c1 := c <| cn_ob_buf := write_at 0 data (cn_ob_buf c) |>).
  eapply wp_call; [eapply (wp_send_tcp_accepted p c1 d u TH_ACK data)|].
  - apply lookup_insert_eq.
  - exact Hd.
  - exact Hu.
  - done.
  - exact Hfresh.
  - unfold packet_len, mux_header_size. unfold USB_MTU, sizeof_mux_header, sizeof_tcphdr in *.
    destruct (_ <? 2); lia.
  - done.
  - intros r w1 (Hr & Hcs & Hconns & s & z & Htr & Hz). simpl in Hcs, Hconns, Htr.
    rewrite insert_insert_eq in Hconns.
    rewrite (proj2 (Z.ltb_ge _ _)) by done. apply wp_bind.
    eapply wp_update; [rewrite Hconns; apply lookup_insert_eq|].
    unfold wp at 1; cbn [mret C_ret negb].
    eapply wp_mono; [eapply (wp_update_connection p (forwarded c data (w_trace w1)) cl k)|].
    + simpl. apply lookup_insert_eq.
    + exact Hcl.
    + simpl. by rewrite Hcs.
    + intros [] w' ->. exists (updated_connection (forwarded c data (w_trace w1))), s, z.
      split_and!; try done.
      * simpl. by rewrite Hconns, !insert_insert_eq.
      * by apply updated_connection_ok, forwarded_ok; [|lia].
Qed.

End flow.

Section witness.
Import Instances Scenario.

Lemma scn_conn_ok cl st sport : conn_ok (scn_conn cl st sport).
Proof. split; simpl; by (split || idtac). Qed.

(** Client 3 with connection 4, client 5 with connection 6. *)
Lemma scn_session3 : session scn_world 4 (scn_conn 3 CONN_CONNECTED 65535) 3
  (scn_client 10 CLIENT_CONNECTED) scn_dev.
Proof.
  split; [exact scn_inv|reflexivity..| |apply scn_conn_ok]. apply not_elem_of_nil.
Qed.
Lemma scn_session5 : session scn_world 6 (scn_conn 5 CONN_CONNECTING 0) 5
  (scn_client 11 CLIENT_CONNECTING1) scn_dev.
Proof.
  split; [exact scn_inv|reflexivity..| |apply scn_conn_ok]. apply not_elem_of_nil.
Qed.

Lemma updated_connection_flow_witness :
  let c := scn_conn 3 CONN_CONNECTED 65535 in
  cn_sendable (updated_connection c) = 8 /\
  (forall n, 0 < n <= 8 -> conn_sent c + n <= cn_rx_win c) /\
  flag_set (cn_events (updated_connection c)) POLLIN = true.
Proof.
  intros c. pose proof (updated_connection_flow c (scn_conn_ok _ _ _)) as (_ & Hn & Hin & _).
  split; [reflexivity|]. split; [|exact Hin]. intros n H. apply (Hn n H).
Defined.

Lemma device_input_appends_witness :
  wp (connection_device_input 4%positive [13; 14]) (fun _ w' => exists c',
    w_conns w' !! 4%positive = Some c' /\ ib_queue c' = [10; 11; 12; 13; 14]) scn_world.
Proof.
  eapply wp_mono; [apply (device_input_appends 4%positive (scn_conn 3 CONN_CONNECTED 65535) 3
    (scn_client 10 CLIENT_CONNECTED) [13; 14] scn_world);
    [reflexivity|reflexivity|reflexivity|apply scn_conn_ok|vm_compute; discriminate|discriminate]|].
  intros u w' (c' & k' & Hc & _ & Hq & _). exists c'. rewrite Hc.
  split; [apply lookup_insert_eq|exact Hq].
Defined.

Lemma client_process_delivers_witness :
  wp (device_client_process 1 3%positive POLLOUT) (fun _ w' => exists c',
    w_conns w' !! 4%positive = Some c' /\ ib_queue c' = [] /\ cn_tx_ack c' = 4) scn_world.
Proof.
  eapply wp_mono; [apply (client_process_delivers scn_world 4 (scn_conn 3 CONN_CONNECTED 65535) 3
    (scn_client 10 CLIENT_CONNECTED) scn_dev 3);
    [exact scn_session3|reflexivity|reflexivity|reflexivity|reflexivity]|].
  intros u w' (c' & Hc & _ & Hq & Ha & _). exists c'. rewrite Hc.
  split; [apply lookup_insert_eq|split; [exact Hq|exact Ha]].
Defined.

Lemma client_process_forwards_witness :
  wp (device_client_process 1 3%positive POLLIN) (fun _ w' => exists c',
    w_conns w' !! 4%positive = Some c' /\ cn_tx_seq c' = 9) scn_world.
Proof.
  eapply wp_mono; [apply (client_process_forwards scn_world 4 (scn_conn 3 CONN_CONNECTED 65535) 3
    (scn_client 10 CLIENT_CONNECTED) scn_dev scn_usbdev (take 8 connect_request));
    [exact scn_session3|reflexivity|reflexivity|reflexivity|discriminate|exact scn_world_fresh|
     reflexivity|reflexivity|discriminate|intros t b; discriminate]|].
  intros u w' (c' & s & z & Hc & _ & _ & _ & Hs & _). exists c'. rewrite Hc.
  split; [apply lookup_insert_eq|exact Hs].
Defined.

End witness.
