(* ===== verification/TeardownFacts.v ===== *)
(** * TeardownFacts: the end of a connection terminates

    Before the client of a connection is closed, what the device sent and the
    client has not read is flushed, in a loop that gives up after a second
    without progress. *)

From stdpp Require Import base gmap list strings.
From Stdlib Require Import ZArith Lia.
From S2P Require Import Prelude Platform Wire World Utils Conf Instances Usb ClientOut.
From S2P Require Import DeviceOut Teardown Device Client Scenario SendFacts.
From S2P Require Import BufferFacts ReplyFacts Views Session RefineTeardown ScenarioFacts FlowFacts.

Local Open Scope Z_scope.

Section flush.
Context `{E : Env} `{!EnvLaws E}.
Implicit Types w : world.

(** What the flush loop does to the outside world. *)
Definition flush_event (fd : Z) (e : event) : Prop :=
  match e with
  | EvSend fd' _ _ => fd' = fd
  | EvUsleep us => us = 10000
  | _ => False
  end.

(** The bytes that sockets took, in the order in which they were sent. *)
Fixpoint sent_bytes (t : list event) : list Z :=
  match t with
  | [] => []
  | EvSend _ data (inl n) :: t' => sent_bytes t' ++ ztake n data
  | _ :: t' => sent_bytes t'
  end.

Lemma sent_bytes_app t t' : sent_bytes (t ++ t') = sent_bytes t' ++ sent_bytes t.
Proof.
  induction t as [|e t IH]; simpl; [by rewrite app_nil_r|].
  destruct e; rewrite ?IH; try done. case_match; [|done]. by rewrite app_assoc.
Qed.

(** The sleeps of the daemon take 10 ms. *)
Definition short_sleep (e : event) : Prop :=
  match e with EvUsleep us => us = 10000 | _ => True end.

Lemma flush_event_short fd evs : Forall (flush_event fd) evs -> Forall short_sleep evs.
Proof. intros H. eapply Forall_impl; [exact H|]. by intros []. Qed.

(** The millisecond clock does not reach 2^64 during the next [n] system
    calls. *)
Definition clock_sane (n : nat) (t : list event) : Prop :=
  forall evs, (length evs <= n)%nat -> Forall short_sleep evs -> now_ms (evs ++ t) < 2 ^ 64.

Lemma clock_sane_ext m n evs t : clock_sane m t -> Forall short_sleep evs ->
  (n + length evs <= m)%nat -> clock_sane n (evs ++ t).
Proof.
  intros H He Hl evs' Hl' He'. rewrite app_assoc. apply H; [|by apply Forall_app].
  rewrite length_app. lia.
Qed.

(** The state after a part of the loop: only the connection's buffer and the
    history changed. *)
Definition flush_state (w : world) (p : ptr) (c : mux_connection) (evs : list event) : world :=
  (set w_conns <[p := c]> w) <| w_trace := evs ++ w_trace w |>.

Definition same_but_ib (c c' : mux_connection) : Prop :=
  c' = c <| cn_ib_buf := cn_ib_buf c' |> <| cn_ib_size := cn_ib_size c' |>.

Lemma same_but_ib_consume n c : same_but_ib c (consume_ib n c).
Proof. unfold consume_ib. by destruct (_ =? _). Qed.
Lemma same_but_ib_trans c1 c2 c3 : same_but_ib c1 c2 -> same_but_ib c2 c3 -> same_but_ib c1 c3.
Proof.
  destruct c1, c2, c3. unfold same_but_ib; simpl. intros H1 H2.
  injection H1; injection H2; intros; by subst.
Qed.

(** How the loop ends. *)
Definition flush_done (w : world) (p : ptr) (c : mux_connection) (fd : Z) (w' : world) : Prop :=
  exists c' evs, w' = flush_state w p c' evs /\ same_but_ib c c' /\ conn_ok c' /\
    Forall (flush_event fd) evs /\ sent_bytes evs ++ ib_queue c' = ib_queue c.

Lemma flush_done_step w p c fd c1 evs1 w' :
  same_but_ib c c1 -> Forall (flush_event fd) evs1 ->
  sent_bytes evs1 ++ ib_queue c1 = ib_queue c ->
  flush_done (flush_state w p c1 evs1) p c1 fd w' -> flush_done w p c fd w'.
Proof.
  intros Hsame Hev Hq (c' & evs & -> & Hs & Hok & He & Hqq).
  exists c', (evs ++ evs1). split; [|split_and!].
  - unfold flush_state. simpl. by rewrite insert_insert_eq, app_assoc.
  - by eapply same_but_ib_trans.
  - done.
  - by apply Forall_app.
  - rewrite sent_bytes_app, <- app_assoc, Hqq. done.
Qed.

Lemma client_write_run cl k data w :
  w_clients w !! cl = Some k -> cl_state k = CLIENT_CONNECTED ->
  client_write cl data w =
    Ok (match sys_send (w_trace w) (cl_fd k) data with
        | inl n => n
        | inr e => if (e =? EAGAIN) || (e =? EWOULDBLOCK) then 0 else -1
        end)
       (w <| w_trace ::= cons (EvSend (cl_fd k) data (sys_send (w_trace w) (cl_fd k) data)) |>).
Proof.
  intros Hk Hst. unfold client_write, send, mbind, C_bind, load, gets, emit, modify, mret, C_ret.
  by rewrite Hk, decide_True.
Qed.

(** The hypotheses that hold at the start of every round: [last] is the time
    of the last progress, [j] how often the loop has slept since. *)
Record flushing (w : world) (p : ptr) (c : mux_connection) (cl : ptr) (k : mux_client)
    (last j : Z) : Prop := {
  fl_conn : w_conns w !! p = Some c;
  fl_owner : cn_client c = Some cl;
  fl_client : w_clients w !! cl = Some k;
  fl_state : cl_state k = CLIENT_CONNECTED;
  fl_ok : conn_ok c;
  fl_size : 0 < cn_ib_size c;
  fl_j : 0 <= j <= 101;
  fl_last : 0 <= last;
  fl_now : last + 10 * j <= now_ms (w_trace w);
}.

Lemma flush_state_id w p c e :
  w_conns w !! p = Some c -> w <| w_trace ::= cons e |> = flush_state w p c [e].
Proof. intros Hc. unfold flush_state. destruct w; simpl in *. by rewrite insert_id. Qed.

(** A round that made no progress and did not end the loop. *)
Lemma flushing_sleep w p c cl k last j e :
  flushing w p c cl k last j -> flush_event (cl_fd k) e -> j <= 100 ->
  flushing (flush_state w p c [EvUsleep 10000; e]) p c cl k last (j + 1).
Proof.
  intros [] He Hj. split; try done; simpl.
  - apply lookup_insert_eq.
  - lia.
  - pose proof (now_ms_mono (w_trace w) e) as H1.
    pose proof (now_ms_usleep (e :: w_trace w) 10 ltac:(lia)) as H2.
    change (10 * 1000) with 10000 in H2. lia.
Qed.

(** A round that sent [n] bytes but not all. *)
Lemma flushing_progress w p c cl k last j n e :
  flushing w p c cl k last j -> flush_event (cl_fd k) e -> 0 < n < cn_ib_size c ->
  flushing (flush_state w p (consume_ib n c) [e]) p (consume_ib n c) cl k
    (now_ms (e :: w_trace w)) 0.
Proof.
  intros [] He Hn. destruct (consume_ib_queue c n) as [Hq Hok']; [done|lia|].
  split; try done; simpl.
  - apply lookup_insert_eq.
  - by rewrite (same_but_ib_consume n c).
  - rewrite <- (zlen_ib_queue _ Hok'), Hq, zlen_zdrop; rewrite zlen_ib_queue; try done; lia.
  - apply now_ms_nonneg.
  - lia.
Qed.

Lemma wp_flush_loop fuel p c cl k w last j :
  flushing w p c cl k last j -> clock_sane (2 * fuel) (w_trace w) ->
  cn_ib_size c * 103 + (101 - j) < Z.of_nat fuel ->
  wp (flush_loop fuel p last) (fun _ => flush_done w p c (cl_fd k)) w.
Proof.
  revert c w last j. induction fuel as [|fuel IH]; intros c w last j Hfl Hsane Hfuel.
  { destruct Hfl. lia. }
  pose proof Hfl as [Hc Hcl Hk Hst Hok Hsz Hj Hlast Hnow].
  cbn [flush_loop]. apply wp_bind. eapply wp_load; [done|]. rewrite Hcl. apply wp_bind.
  unfold nonnull. eapply wp_lift_option; [done|]. apply wp_bind. fold (ib_queue c).
  unfold wp at 1. rewrite (client_write_run cl k) by done.
  set (r := sys_send (w_trace w) (cl_fd k) (ib_queue c)).
  set (ev := EvSend (cl_fd k) (ib_queue c) r).
  assert (Forall (flush_event (cl_fd k)) [ev]) as Hev by (by constructor).
  rewrite (flush_state_id w p c ev Hc).
  assert (sent_bytes [ev] = [] -> flush_done w p c (cl_fd k) (flush_state w p c [ev])) as Hstop.
  { intros Hs. exists c, [ev]. split_and!; try done; [by destruct c|by rewrite Hs]. }
  assert (forall fuel', fuel' = fuel -> sent_bytes [ev] = [] ->
    wp (tm_now ← mstime64;
        if u64 (tm_now - last) >? 1000 then mret tt
        else emit (EvUsleep 10000) ;; flush_loop fuel' p last)
      (fun _ => flush_done w p c (cl_fd k)) (flush_state w p c [ev])) as Hwait.
  { intros fuel' -> Hs. apply wp_bind. unfold wp at 1. rewrite mstime64_run.
    pose proof (now_ms_mono (w_trace w) ev) as Hmono.
    assert (now_ms (ev :: w_trace w) < 2 ^ 64) as Hlt by (apply (Hsane [ev]); [simpl; lia|by repeat constructor]).
    change (w_trace (flush_state w p c [ev])) with (ev :: w_trace w).
    rewrite (u64_small (now_ms _)), u64_small by lia. rewrite Z.gtb_ltb.
    destruct (Z.ltb_spec 1000 (now_ms (ev :: w_trace w) - last)); [by apply Hstop|].
    apply wp_bind, wp_modify. eapply wp_mono.
    - apply (IH c (flush_state w p c [EvUsleep 10000; ev]) last (j + 1)); [|..|lia].
      + apply flushing_sleep; [done|by inversion Hev|lia].
      + apply (clock_sane_ext (2 * S fuel) _ [EvUsleep 10000; ev]); [done|by repeat constructor|simpl; lia].
    - intros [] w2. apply flush_done_step; [by destruct c|by constructor|].
      simpl in Hs |- *. by rewrite Hs. }
  destruct r as [n|e] eqn:Hr; [pose proof (send_bound _ _ _ _ Hr) as Hb|].
  - rewrite zlen_ib_queue in Hb by done. rewrite (proj2 (Z.ltb_ge _ _)) by lia.
    destruct (Z.eqb_spec n 0) as [->|Hn]; [by apply Hwait|].
    destruct (consume_ib_queue c n Hok) as [Hq Hok']; [lia|].
    apply wp_bind. eapply wp_update; [apply lookup_insert_eq|].
    pose proof (ok_ib_cap _ Hok). pose proof (ok_ib_size _ Hok). rewrite (s32_small (cn_ib_size c)) by lia.
    assert (set w_conns <[p := consume_ib n c]> (flush_state w p c [ev])
      = flush_state w p (consume_ib n c) [ev]) as ->
      by (unfold flush_state; simpl; by rewrite insert_insert_eq).
    assert (sent_bytes [ev] ++ ib_queue (consume_ib n c) = ib_queue c) as Hsplit
      by (rewrite Hq; unfold ev; simpl; apply ztake_zdrop).
    destruct (Z.eqb_spec n (cn_ib_size c)) as [Heq|Hne].
    + exists (consume_ib n c), [ev]. split_and!; try done. apply same_but_ib_consume.
    + apply wp_bind. unfold wp at 1. rewrite mstime64_run.
      change (w_trace (flush_state w p (consume_ib n c) [ev])) with (ev :: w_trace w).
      rewrite u64_small by (split; [apply now_ms_nonneg|apply (Hsane [ev]); [simpl; lia|by repeat constructor]]).
      eapply wp_mono; [eapply (IH _ _ _ 0)|].
      * apply (flushing_progress w p c cl k last j); [done|by inversion Hev|lia].
      * apply (clock_sane_ext (2 * S fuel) _ [ev]); [done|by repeat constructor|simpl; lia].
      * rewrite <- (zlen_ib_queue _ Hok'), Hq, zlen_zdrop; rewrite zlen_ib_queue; try done; lia.
      * intros [] w2. apply flush_done_step; [apply same_but_ib_consume|done|done].
  - destruct ((e =? EAGAIN) || (e =? EWOULDBLOCK)); [by apply Hwait|by apply Hstop].
Qed.

(** The flush as [connection_teardown] runs it. *)
Lemma wp_flush p c cl k w :
  w_conns w !! p = Some c -> cn_client c = Some cl -> w_clients w !! cl = Some k ->
  cl_state k = CLIENT_CONNECTED -> conn_ok c -> clock_sane (2 * flush_fuel c) (w_trace w) ->
  0 < cn_ib_size c ->
  wp (tm_last ← mstime64; flush_loop (flush_fuel c) p tm_last)
    (fun _ => flush_done w p c (cl_fd k)) w.
Proof.
  intros Hc Hcl Hk Hst Hok Hsane Hsz. apply wp_bind. unfold wp at 1. rewrite mstime64_run.
  pose proof (now_ms_nonneg (w_trace w)).
  rewrite u64_small by (split; [done|apply (Hsane []); [simpl; lia|done]]).
  apply (wp_flush_loop _ p c cl k w _ 0); [|done|unfold flush_fuel; lia]. by split; try lia.
Qed.

(** C25: before an established connection is closed, the flush of what the
    client has not read yet ends within the rounds that the size of the queue
    allows, whatever the socket does: the bytes it takes are the first bytes of
    the queue, in order, the others stay in the queue, and besides writes to
    the client and sleeps of 10 ms nothing happens. *)
Theorem flush_terminates p c cl k w :
  w_conns w !! p = Some c -> cn_client c = Some cl -> w_clients w !! cl = Some k ->
  cl_state k = CLIENT_CONNECTED -> conn_ok c -> clock_sane (2 * flush_fuel c) (w_trace w) ->
  0 < cn_ib_size c ->
  wp (tm_last ← mstime64; flush_loop (flush_fuel c) p tm_last)
    (fun _ w' => exists c' evs, w' = flush_state w p c' evs /\ same_but_ib c c' /\
      Forall (flush_event (cl_fd k)) evs /\ sent_bytes evs ++ ib_queue c' = ib_queue c) w.
Proof.
  intros. eapply wp_mono; [by apply (wp_flush p c cl k)|].
  intros [] w' (c' & evs & ? & ? & _ & ? & ?). eauto 10.
Qed.

(** ** The end of an established connection *)

Lemma wp_client_listed cl w (Q : bool -> world -> Prop) :
  Q (bool_decide (cl ∈ coll_elems (client_list w))) w -> wp (client_listed cl) Q w.
Proof.
  intros HQ. unfold client_listed. apply wp_bind.
  eapply (wp_foreach_find _ _ (fun lc => if decide (cl = lc) then Some tt else None));
    [done|done|]. unfold wp; cbn [mret C_ret].
  destruct (find_map _ _) as [[]|] eqn:Hf.
  - apply find_map_Some in Hf as (q & Hq & Hd). case_decide; [subst|done].
    by rewrite bool_decide_true in HQ.
  - rewrite find_map_None in Hf. rewrite bool_decide_false in HQ; [done|].
    intros Hin. specialize (Hf _ Hin). by rewrite decide_True in Hf.
Qed.

(** Closing a listed client that waits for no connection. *)
Definition closed_client (w : world) (cl : ptr) (fd : Z) : world :=
  w <| w_clients ::= delete cl |> <| client_list ::= fun l => coll_remove l cl |>
    <| w_trace ::= app [EvUnlock client_list_mutex; EvClose fd; EvLock client_list_mutex] |>.

Lemma wp_client_close_idle t cl k w :
  w_clients w !! cl = Some k -> cl ∈ coll_elems (client_list w) ->
  cl_state k <> CLIENT_CONNECTING1 -> cl_state k <> CLIENT_CONNECTING2 ->
  client_list_mutex ∉ w_locked w ->
  wp (client_close_with t cl) (fun _ w' => w' = closed_client w cl (cl_fd k)) w.
Proof.
  intros Hk Hin H1 H2 Hm. unfold client_close_with. apply wp_bind, wp_mutex_lock; [done|].
  apply wp_bind, wp_client_listed. rewrite bool_decide_true by done. cbn [negb].
  apply wp_bind. eapply wp_load; [done|]. rewrite bool_decide_false by tauto.
  apply wp_bind. unfold wp at 1; cbn [when mret C_ret].
  apply wp_bind. eapply wp_load; [done|]. apply wp_bind, wp_modify, wp_bind, wp_modify.
  apply wp_bind, wp_modify. simpl. eapply wp_free; [done|]. unfold closed_client. simpl.
  rewrite filter_unlock by done. by destruct w.
Qed.

(** The last lines: the connection leaves its device and is freed. *)
Lemma wp_unlink p c d l w :
  w_conns w !! p = Some c -> w_devs w !! cn_dev c = Some d -> dv_connections d = Some l ->
  wp (c ← get_conn p; upd_connections (cn_dev c) (fun l => coll_remove l p) ;; free w_conns p)
    (fun _ w' => w' = w <| w_conns ::= delete p |>
      <| w_devs ::= <[cn_dev c := d <| dv_connections := Some (coll_remove l p) |>]> |>) w.
Proof.
  intros Hc Hd Hl. apply wp_bind. eapply wp_load; [done|].
  unfold upd_connections, dev_connections. apply wp_bind, wp_bind, wp_bind.
  eapply wp_load; [done|]. eapply wp_lift_option; [done|].
  eapply wp_update; [done|]. eapply wp_free; [done|]. done.
Qed.

(** The reset that a device gets when an established connection ends. *)
Definition rst_events (d : mux_device) (c : mux_connection) (rst : list event) : Prop :=
  if bool_decide (dv_state d <> MUXDEV_DEAD /\ cn_state c <> CONN_DYING
                  /\ cn_state c <> CONN_REFUSED)
  then exists s z, rst = z ++ [EvSubmit (dv_usbdev d) EpOut (segment d c TH_RST []) s] /\
         (z = [] \/ exists e, z = [EvSubmit (dv_usbdev d) EpOut [] e])
  else rst = [].

Lemma packet_outcome_events t u b mps r t' :
  packet_outcome t u b mps r t' -> exists s z, t' = (z ++ [EvSubmit u EpOut b s]) ++ t /\
    (z = [] \/ exists e, z = [EvSubmit u EpOut [] e]).
Proof.
  intros [r' _ _|r' _ _ _|r' z t1 _ _ _ -> _].
  - exists r', []. by split; [|left].
  - exists r', []. by split; [|left].
  - exists r', [EvSubmit u EpOut [] z]. split; [done|]. right. eauto.
Qed.

Lemma rst_events_short d c rst :
  rst_events d c rst -> (length rst <= 2)%nat /\ Forall short_sleep rst.
Proof.
  unfold rst_events. case_bool_decide; [|intros ->; simpl; split; [lia|done]].
  intros (s & z & -> & [->|[e ->]]); simpl; (split; [lia|by repeat constructor]).
Qed.

(** A connection that differs at most in what sending a segment sets. *)
Definition same_buffers (c c' : mux_connection) : Prop :=
  c' = c \/ exists t, c' = acknowledged c t.

Lemma wp_rst p c d u w :
  w_conns w !! p = Some c -> w_devs w !! cn_dev c = Some d ->
  w_usbdevs w !! dv_usbdev d = Some u -> ud_wMaxPacketSize u <> 0 -> heap_fresh w ->
  wp (when (bool_decide (dv_state d <> MUXDEV_DEAD /\ cn_state c <> CONN_DYING
                         /\ cn_state c <> CONN_REFUSED)) (send_tcp p TH_RST [] ;; mret tt))
    (fun _ w' => exists c' d' rst, same_buffers c c' /\ dv_connections d' = dv_connections d /\
      rst_events d c rst /\ w_trace w' = rst ++ w_trace w /\
      usb_frame (w <| w_conns := <[p := c']> (w_conns w) |>
                   <| w_devs := <[cn_dev c := d']> (w_devs w) |>) w') w.
Proof.
  intros Hc Hd Hu Hmps Hfresh. unfold rst_events. case_bool_decide as Hb; unfold when.
  - apply wp_bind. eapply wp_mono; [eapply (wp_send_tcp p c d u); try done|].
    { unfold packet_len, mux_header_size. unfold USB_MTU, sizeof_mux_header, sizeof_tcphdr.
      destruct (_ <? 2); rewrite zlen_nil; lia. }
    intros r w' (Hout & Hframe & Hconns). unfold wp; cbn [mret C_ret].
    apply packet_outcome_events in Hout as (s & z & Htr & Hz).
    destruct (after_packet_v d MUX_PROTO_TCP) as (_ & _ & _ & Hcs & _).
    exists (if r <? 0 then c else acknowledged c (w_trace w')), (after_packet d MUX_PROTO_TCP),
      (z ++ [EvSubmit (dv_usbdev d) EpOut (segment d c TH_RST []) s]).
    split; [destruct (r <? 0); [by left|right; eauto]|]. split; [done|]. split; [eauto|].
    split; [exact Htr|].
    assert (w_conns w' = <[p := if r <? 0 then c else acknowledged c (w_trace w')]> (w_conns w))
      as <- by (rewrite Hconns; destruct (r <? 0); [by rewrite insert_id|done]).
    exact Hframe.
  - unfold wp; simpl. exists c, d, []. split_and!; [by left|done..|].
    rewrite !insert_id by done. by destruct w.
Qed.

Lemma usb_frame_fields w w' : usb_frame w w' ->
  w_conns w' = w_conns w /\ w_clients w' = w_clients w /\ w_devs w' = w_devs w /\
  w_locked w' = w_locked w /\ client_list w' = client_list w.
Proof. intros ->. done. Qed.

(** The device of a connection, as the invariant guarantees it. *)
Lemma session_dev w p c d :
  wf (view_of w) -> w_conns w !! p = Some c -> w_devs w !! cn_dev c = Some d ->
  exists l, dv_connections d = Some l /\ p ∈ coll_elems l.
Proof.
  intros Hwf Hc Hd.
  destruct (wf_conn_dev _ Hwf p _ (lookup_v_conns _ _ _ Hc)) as (dv & l & Hdv & Hl & Hp).
  change (v_devs (view_of w) !! cn_dev c = Some dv) in Hdv.
  rewrite (lookup_v_devs _ _ _ Hd) in Hdv. injection Hdv as <-. eauto.
Qed.

Lemma same_buffers_fields c c' : same_buffers c c' ->
  cn_client c' = cn_client c /\ cn_state c' = cn_state c /\ cn_dev c' = cn_dev c /\
  ib_queue c' = ib_queue c /\ cn_ib_size c' = cn_ib_size c /\ cn_events c' = cn_events c /\
  (conn_ok c -> conn_ok c').
Proof.
  intros [->|[t ->]]; [done|]. split_and!; try done. intros []. by split.
Qed.

(** The flush, when there is something to flush and the client is polled for
    writing. *)
Lemma wp_maybe_flush p c cl k w :
  w_conns w !! p = Some c -> cn_client c = Some cl -> w_clients w !! cl = Some k ->
  cl_state k = CLIENT_CONNECTED -> conn_ok c -> clock_sane (2 * flush_fuel c) (w_trace w) ->
  wp (when (flag_set (cn_events c) POLLOUT && (0 <? cn_ib_size c))
      (tm_last ← mstime64; flush_loop (flush_fuel c) p tm_last))
    (fun _ => flush_done w p c (cl_fd k)) w.
Proof.
  intros Hc Hcl Hk Hst Hok Hsane.
  destruct (flag_set _ _ && _) eqn:Hb; unfold when.
  - apply andb_true_iff in Hb as [_ Hsz%Z.ltb_lt]. by apply (wp_flush p c cl k).
  - unfold wp; simpl. exists c, []. split_and!; try done; [|by destruct c].
    unfold flush_state. destruct w; simpl in *. by rewrite insert_id.
Qed.

(** What is left of a session when its connection was closed. *)
Record session_closed (w : world) (p : ptr) (c : mux_connection) (cl : ptr) (k : mux_client)
    (d : mux_device) (w' : world) : Prop := {
  sc_conns : w_conns w' = delete p (w_conns w);
  sc_clients : w_clients w' = delete cl (w_clients w);
  sc_list : client_list w' = coll_remove (client_list w) cl;
  sc_devs : exists d', w_devs w' = <[cn_dev c := d']> (w_devs w) /\
    dv_connections d' = (fun l => coll_remove l p) <$> dv_connections d;
  sc_locked : w_locked w' = w_locked w;
  sc_trace : exists rst flush rest, rst_events d c rst /\ Forall (flush_event (cl_fd k)) flush /\
    sent_bytes flush ++ rest = ib_queue c /\
    w_trace w' = [EvUnlock client_list_mutex; EvClose (cl_fd k); EvLock client_list_mutex] ++
      flush ++ rst ++ w_trace w;
}.

(** C13: tearing down an established connection terminates without undefined
    behaviour. The device gets a reset (unless it is gone or has sent one
    itself), then the client gets a prefix of the bytes it was still owed, then
    its socket is closed; the connection is freed and leaves its device, the
    client is freed and leaves the client list, and every mutex taken is
    released. *)
Theorem teardown_established w p c cl k d u :
  session w p c cl k d -> client_list_mutex ∉ w_locked w ->
  (cn_state c = CONN_CONNECTED \/ cn_state c = CONN_DYING) -> cl_state k = CLIENT_CONNECTED ->
  w_usbdevs w !! dv_usbdev d = Some u -> ud_wMaxPacketSize u <> 0 -> heap_fresh w ->
  clock_sane (2 * flush_fuel c + 2) (w_trace w) ->
  wp (connection_teardown p) (fun _ => session_closed w p c cl k d) w.
Proof.
  intros [[Hwf _] Hc Hcl Hk Hd _ Hok] Hm Hst Hkst Hu Hmps Hfresh Hsane.
  destruct (session_dev _ _ _ _ Hwf Hc Hd) as (l & Hl & Hp).
  assert (cl ∈ coll_elems (client_list w)) as Hin
    by (apply (wf_client_list _ Hwf); rewrite (lookup_v_clients _ _ _ Hk); eauto).
  unfold connection_teardown. generalize 1%nat as depth; intros depth. cbn [connection_teardown_depth].
  apply wp_bind. eapply wp_load; [done|]. rewrite decide_False by (destruct Hst; congruence).
  apply wp_bind. eapply wp_load; [done|].
  eapply wp_call; [by apply (wp_rst p c d u)|].
  intros ? w1 (c1 & d1 & rst & Hsb & Hd1 & Hrst & Ht1 & Hf1).
  destruct (same_buffers_fields _ _ Hsb) as (Hcl1 & Hst1 & Hdev1 & Hq1 & Hsz1 & _ & Hok1).
  destruct (rst_events_short _ _ _ Hrst) as [Hrl Hrs].
  destruct (usb_frame_fields _ _ Hf1) as (Hw1c & Hw1k & Hw1d & Hw1l & Hw1cl).
  simpl in Hw1c, Hw1k, Hw1d, Hw1l, Hw1cl.
  apply wp_bind. eapply wp_load; [rewrite Hw1c; apply lookup_insert_eq|]. rewrite Hcl1, Hcl.
  rewrite decide_False by (rewrite Hst1; destruct Hst; intros []; congruence).
  apply wp_bind, wp_bind. eapply wp_update; [rewrite Hw1c; apply lookup_insert_eq|].
  set (c2 := c1 <| cn_state := CONN_DEAD |>).
  assert (conn_ok c2) as Hok2 by (by destruct (Hok1 Hok); split).
  assert (cn_client c2 = Some cl) as Hcl2 by (by rewrite <- Hcl, <- Hcl1).
  eapply wp_call.
  { apply (wp_maybe_flush p c2 cl k); [simpl; apply lookup_insert_eq|done|by simpl; rewrite Hw1k|done..|].
    change (w_trace (set w_conns <[p:=c2]> w1)) with (w_trace w1). rewrite Ht1.
    apply (clock_sane_ext (2 * flush_fuel c + 2)); [exact Hsane|exact Hrs|].
    unfold flush_fuel. change (cn_ib_size c2) with (cn_ib_size c1). rewrite Hsz1. lia. }
  intros ? w2 (c3 & flush & -> & Hsame & _ & Hfl & Hq).
  assert (cn_dev c3 = cn_dev c) as Hdev3 by (rewrite Hsame; exact Hdev1).
  eapply wp_mono.
  { apply (wp_client_close_idle _ cl k); simpl; rewrite ?Hw1k, ?Hw1cl, ?Hw1l; congruence. }
  intros ? w3 ->. eapply wp_mono.
  { apply (wp_unlink p c3 d1 l); [simpl; apply lookup_insert_eq|..|congruence].
    simpl. rewrite Hw1d, Hdev3. apply lookup_insert_eq. }
  intros ? w4 ->. split; simpl.
  - by rewrite Hw1c, !insert_insert_eq, delete_insert_eq.
  - by rewrite Hw1k.
  - by rewrite Hw1cl.
  - eexists. rewrite Hw1d, Hdev3, insert_insert_eq. split; [done|]. by rewrite Hl.
  - done.
  - exists rst, flush, (ib_queue c3). rewrite Ht1. split_and!; try done.
    rewrite Hq. exact Hq1.
Qed.

(** What is left of a session when a pending connection ended. *)
Record session_refused (w : world) (p : ptr) (c : mux_connection) (cl : ptr) (k : mux_client)
    (d : mux_device) (w' : world) : Prop := {
  sr_conns : w_conns w' = delete p (w_conns w);
  sr_clients : w_clients w' = w_clients w \/ exists k',
    w_clients w' = <[cl := k']> (w_clients w) /\ notified k k' RESULT_CONNREFUSED;
  sr_list : client_list w' = client_list w;
  sr_devs : exists d', w_devs w' = <[cn_dev c := d']> (w_devs w) /\
    dv_connections d' = (fun l => coll_remove l p) <$> dv_connections d;
  sr_locked : w_locked w' = w_locked w;
  sr_trace : exists rst, rst_events d c rst /\ w_trace w' = rst ++ w_trace w;
}.



End flush.

Section witness.
Import Instances Scenario.

Lemma slept_short evs t : Forall short_sleep evs ->
  slept (evs ++ t) <= slept t + 10000000 * zlen evs.
Proof.
  induction 1 as [|e evs He _ IH]; simpl; [unfold zlen; simpl; lia|].
  unfold zlen in *. rewrite length_cons, Nat2Z.inj_succ.
  destruct e; simpl in He |- *; subst; simpl; lia.
Qed.

(** The clock of the scenario only counts the time slept. *)
Lemma scn_clock_sane n : Z.of_nat n <= 1000000 -> clock_sane n (w_trace scn_world).
Proof.
  intros Hn evs Hl He. unfold now_ms.
  change (@clock_ns scn_env) with (@clock_ns
    (test_env scn_recv (fun _ _ d => inl (zlen d)) (fun _ _ _ _ => 0))).
  rewrite clock_ns_slept. pose proof (slept_short evs [] He) as Hs.
  change (w_trace scn_world) with (@nil event). rewrite app_nil_r in *. simpl in Hs.
  apply Z.div_lt_upper_bound; [lia|]. unfold zlen in Hs. lia.
Qed.

Lemma flush_terminates_witness :
  wp (tm_last ← mstime64; flush_loop 412 4%positive tm_last) (fun _ w' => exists evs c',
    w_conns w' !! 4%positive = Some c' /\ sent_bytes evs ++ ib_queue c' = [10; 11; 12]) scn_world.
Proof.
  eapply wp_mono; [apply (flush_terminates 4%positive (scn_conn 3 CONN_CONNECTED 65535) 3
    (scn_client 10 CLIENT_CONNECTED) scn_world);
    [reflexivity|reflexivity|reflexivity|reflexivity|apply scn_conn_ok| |reflexivity]|].
  - apply scn_clock_sane. vm_compute. discriminate.
  - intros u w' (c' & evs & -> & _ & _ & Hq). exists evs, c'.
    split; [apply lookup_insert_eq|exact Hq].
Defined.

Lemma teardown_established_witness :
  wp (connection_teardown 4%positive) (fun _ => session_closed scn_world 4
    (scn_conn 3 CONN_CONNECTED 65535) 3 (scn_client 10 CLIENT_CONNECTED) scn_dev) scn_world.
Proof.
  apply (teardown_established scn_world 4 (scn_conn 3 CONN_CONNECTED 65535) 3
    (scn_client 10 CLIENT_CONNECTED) scn_dev scn_usbdev).
  - exact scn_session3.
  - apply not_elem_of_nil.
  - left. reflexivity.
  - reflexivity.
  - reflexivity.
  - discriminate.
  - exact scn_world_fresh.
  - apply scn_clock_sane. vm_compute. discriminate.
Defined.



End witness.
