(* ===== verification/ConnectFacts.v ===== *)
(** * ConnectFacts: opening a connection

    [device_start_connect] sends a SYN from a free port, and
    [device_tcp_input] handles what the device answers: the SYN/ACK that
    establishes the connection, data of an established connection, and
    segments of connections that do not exist. *)

From stdpp Require Import base gmap list strings.
From Stdlib Require Import ZArith Lia.
From S2P Require Import Prelude Platform Wire World Utils Conf Instances Usb ClientOut.
From S2P Require Import DeviceOut Teardown Device Client Scenario Ids SendFacts.
From S2P Require Import BufferFacts ReplyFacts Views Session RefineTeardown ScenarioFacts FlowFacts.

Local Open Scope Z_scope.

Section connect.
Context `{E : Env} `{!EnvLaws E}.
Implicit Types w : world.

(** A device that is known, and whose USB side accepts transfers. *)
Record ready (w : world) (q : ptr) (d : mux_device) (l : coll) (u : usb_device) : Prop := {
  rd_wf : wf (view_of w);
  rd_dev : w_devs w !! q = Some d;
  rd_conns : dv_connections d = Some l;
  rd_usb : w_usbdevs w !! dv_usbdev d = Some u;
  rd_mps : ud_wMaxPacketSize u <> 0;
  rd_fresh : heap_fresh w;
  rd_accepts : forall t b, 0 <= libusb_submit_transfer t (dv_usbdev d) EpOut b;
}.

(** ** Lookups *)

Lemma wp_get_mux_device w q d (Q : option ptr -> world -> Prop) :
  wf (view_of w) -> w_devs w !! q = Some d -> device_list_mutex ∉ w_locked w ->
  Q (Some q) (looked_up w) -> wp (get_mux_device_for_id (dv_id d)) Q w.
Proof.
  intros Hwf Hd Hm HQ. unfold get_mux_device_for_id. apply wp_bind, wp_mutex_lock; [done|].
  apply wp_bind. set (f := fun p => if decide (p = q) then Some q else None).
  eapply (wp_foreach_find _ _ f); [done|..].
  - intros p Hp. apply (wf_dev_list _ Hwf) in Hp as [dv Hp]. apply v_devs_inv in Hp as (d' & Hd' & _).
    unfold mbind, C_bind, load. simpl. rewrite Hd'. unfold f. case_decide as Hpq.
    + subst. rewrite Hd in Hd'. injection Hd' as <-. by rewrite Z.eqb_refl.
    + destruct (Z.eqb_spec (dv_id d') (dv_id d)) as [He|]; [|done]. exfalso. apply Hpq.
      apply (wf_ids _ Hwf p q (dev_v d') (dev_v d)); [by apply lookup_v_devs..|done].
  - rewrite (find_map_unique f _ q q).
    + apply wp_bind, wp_modify. unfold wp; simpl. rewrite filter_unlock by done. by destruct w.
    + simpl. apply (wf_dev_list _ Hwf). rewrite (lookup_v_devs _ _ _ Hd). eauto.
    + unfold f. by rewrite decide_True.
    + intros p b _. unfold f. case_decide; [|done]. by intros [= <-].
Qed.

(** The connections of a device exist. *)
Lemma ready_conn w q d l p :
  wf (view_of w) -> w_devs w !! q = Some d -> dv_connections d = Some l -> p ∈ coll_elems l ->
  exists c, w_conns w !! p = Some c /\ cn_dev c = q.
Proof.
  intros Hwf Hd Hl Hp.
  destruct (wf_dev_conn _ Hwf q (dev_v d) l p) as (cv & Hcv & Hq); [by apply lookup_v_devs|done..|].
  apply v_conns_inv in Hcv as (c & Hc & ->). eauto.
Qed.

(** [find_connection] finds the connection with these ports when there is one,
    and nothing otherwise. *)
Lemma find_connection_run w q d l sport dport :
  wf (view_of w) -> w_devs w !! q = Some d -> dv_connections d = Some l ->
  wp (find_connection q sport dport) (fun r w' => w' = w /\
    match r with
    | Some p => exists c, w_conns w !! p = Some c /\ cn_dev c = q /\
                  cn_sport c = sport /\ cn_dport c = dport
    | None => forall p c, w_conns w !! p = Some c -> cn_dev c = q ->
                  ~ (cn_sport c = sport /\ cn_dport c = dport)
    end) w.
Proof.
  intros Hwf Hd Hl. unfold find_connection.
  set (f := fun p => c ← w_conns w !! p;
    if (cn_sport c =? sport) && (cn_dport c =? dport) then Some p else None).
  eapply (wp_foreach_find _ _ f).
  - unfold dev_connections, mbind, C_bind, load. by rewrite Hd, Hl.
  - intros p Hp. destruct (ready_conn _ _ _ _ _ Hwf Hd Hl Hp) as (c & Hc & _).
    unfold f, mbind, C_bind, load. by rewrite Hc.
  - split; [done|]. destruct (find_map f _) as [p|] eqn:Hf.
    + apply find_map_Some in Hf as (p' & Hp' & Hfp).
      destruct (ready_conn _ _ _ _ _ Hwf Hd Hl Hp') as (c & Hc & Hq).
      unfold f in Hfp. rewrite Hc in Hfp. simpl in Hfp.
      destruct (_ && _) eqn:Hb; [|done]. injection Hfp as ->.
      apply andb_true_iff in Hb as [?%Z.eqb_eq ?%Z.eqb_eq]. eauto.
    + intros p c Hc Hq [Hs Hdp]. rewrite find_map_None in Hf.
      destruct (wf_conn_dev _ Hwf p _ (lookup_v_conns _ _ _ Hc)) as (dv & l' & Hdv & Hl' & Hp).
      change (v_devs (view_of w) !! cn_dev c = Some dv) in Hdv.
      rewrite Hq, (lookup_v_devs _ _ _ Hd) in Hdv. injection Hdv as <-. simpl in Hl'.
      rewrite Hl in Hl'. injection Hl' as <-. specialize (Hf p Hp). unfold f in Hf.
      rewrite Hc in Hf. simpl in Hf. by rewrite Hs, Hdp, !Z.eqb_refl in Hf.
Qed.

(** ** Requesting a connection *)

(** The history after one packet was accepted. *)
Definition sent_packet (u : ptr) (b : list Z) (t t' : list event) : Prop :=
  exists s z, t' = z ++ EvSubmit u EpOut b s :: t /\
    (z = [] \/ exists e, z = [EvSubmit u EpOut [] e]).

Lemma wp_send_tcp_ready p c q d u flags data w :
  w_conns w !! p = Some c -> cn_dev c = q -> w_devs w !! q = Some d ->
  w_usbdevs w !! dv_usbdev d = Some u -> ud_wMaxPacketSize u <> 0 -> heap_fresh w ->
  (forall t b, 0 <= libusb_submit_transfer t (dv_usbdev d) EpOut b) ->
  packet_len d sizeof_tcphdr data <= USB_MTU ->
  wp (send_tcp p flags data) (fun r w' => 0 <= r /\
    sent_packet (dv_usbdev d) (segment d c flags data) (w_trace w) (w_trace w') /\
    usb_frame (w <| w_devs := <[q := after_packet d MUX_PROTO_TCP]> (w_devs w) |>
                 <| w_conns := <[p := acknowledged c (w_trace w')]> (w_conns w) |>) w') w.
Proof.
  intros Hc Hq Hd Hu Hmps Hfresh Hacc Hmtu. subst q.
  eapply wp_mono; [by eapply (wp_send_tcp p c d u)|]. intros r w' (Hout & Hframe & Hconns).
  apply packet_outcome_accepted in Hout as [-> Htr]; [|done].
  pose proof (zlen_nonneg (segment d c flags data)).
  rewrite (proj2 (Z.ltb_ge _ _)) in Hconns by done. rewrite Hconns in Hframe. done.
Qed.

Lemma empty_segment_fits d : packet_len d sizeof_tcphdr [] <= USB_MTU.
Proof.
  unfold packet_len, mux_header_size, USB_MTU, sizeof_mux_header, sizeof_tcphdr.
  rewrite zlen_nil. destruct (_ <? 2); lia.
Qed.

Lemma set_next_sport_dev q s w d : w_devs w !! q = Some d ->
  w_devs (set_next_sport q s w) = <[q := d <| dv_next_sport := s |>]> (w_devs w).
Proof. intros Hd. unfold set_next_sport. simpl. by erewrite alter_is_insert. Qed.

Lemma segment_next_sport d n c flags data :
  segment (d <| dv_next_sport := n |>) c flags data = segment d c flags data.
Proof.
  unfold segment, packet, restarted. rewrite !bool_decide_false by done. by rewrite !andb_false_r.
Qed.

(** The state after a successful request. *)
Record connecting_on (w : world) (q : ptr) (d : mux_device) (l : coll) (cl : ptr)
    (sport dport : Z) (w' : world) : Prop := {
  co_conn : exists t, let c := new_connection t q cl sport dport in
    w_conns w' = <[w_next w := acknowledged c (w_trace w')]> (w_conns w) /\
    sent_packet (dv_usbdev d) (segment d c TH_SYN []) (w_trace (looked_up w)) (w_trace w');
  co_dev : exists d', w_devs w' = <[q := d']> (w_devs w) /\
    dv_connections d' = Some (coll_add l (w_next w)) /\ dv_next_sport d' = u16 (sport + 1);
  co_clients : w_clients w' = w_clients w;
  co_locked : w_locked w' = w_locked w;
}.

(** C17: a connect request to a known device that accepts transfers picks a
    source port that none of the device's connections uses; unless that port is
    0, a new connection in the SYN-sent state is added to the device and its SYN
    segment, with that source port and the requested destination, is
    submitted. The mutex is released. *)
Theorem start_connect_sends_syn w q d l u cl dport :
  ready w q d l u -> device_list_mutex ∉ w_locked w ->
  0 <= dv_next_sport d < 2 ^ 16 -> coll_count l < 65535 ->
  wp (device_start_connect (dv_id d) dport cl) (fun r w' => exists sport,
    0 <= sport < 2 ^ 16 /\ (sport ∉ sports w (coll_elems l)) /\
    if sport =? 0 then r = - result_num RESULT_BADDEV /\ w_conns w' = w_conns w
    else r = 0 /\ connecting_on w q d l cl sport dport w') w.
Proof.
  intros [Hwf Hd Hl Hu Hmps Hfresh Hacc] Hm Hsp Hcount. unfold device_start_connect.
  apply wp_bind. eapply (wp_get_mux_device w q d); [done..|].
  eapply wp_call; [eapply (wp_find_sport q d l); try done|].
  { intros p Hp. destruct (ready_conn _ _ _ _ _ Hwf Hd Hl Hp) as (c & Hc & _).
    exists c. exact Hc. }
  intros sport w1 (Hr & Hfree & ->). destruct (Z.eqb_spec sport 0) as [->|Hne].
  { unfold wp; cbn [mret C_ret]. exists 0. split; [done|]. split; [exact Hfree|]. done. }
  apply wp_bind, wp_gets, wp_bind, wp_malloc.
  set (t := w_trace _). set (c := new_connection t q cl sport dport).
  set (d1 := d <| dv_next_sport := u16 (sport + 1) |>).
  eapply wp_call; [apply (wp_send_tcp_ready _ c q d1 u TH_SYN []); try done|].
  - simpl. apply lookup_insert_eq.
  - simpl. by rewrite lookup_alter_eq, Hd.
  - intros p Hp. simpl in *. apply Hfresh. lia.
  - apply empty_segment_fits.
  - intros r w2 (Hpos & Hsent & Hframe). rewrite (proj2 (Z.ltb_ge _ _)) by done.
    assert (w_devs w2 = <[q := after_packet d1 MUX_PROTO_TCP]> (w_devs w)) as Hdevs.
    { rewrite Hframe. simpl. erewrite alter_is_insert by done. by rewrite insert_insert_eq. }
    assert (w_conns w2 = <[w_next w := acknowledged c (w_trace w2)]> (w_conns w)) as Hconns.
    { rewrite Hframe. simpl. by rewrite insert_insert_eq. }
    destruct (after_packet_v d1 MUX_PROTO_TCP) as (_ & _ & _ & Hcs & _).
    unfold upd_connections, dev_connections. apply wp_bind, wp_bind, wp_bind.
    eapply wp_load; [rewrite Hdevs; apply lookup_insert_eq|].
    eapply wp_lift_option; [rewrite Hcs; exact Hl|].
    eapply wp_update; [rewrite Hdevs; apply lookup_insert_eq|]. unfold wp; cbn [mret C_ret].
    exists sport. split; [done|]. split; [exact Hfree|].
    rewrite (proj2 (Z.eqb_neq _ _)) by done. split; [done|]. split.
    + exists t. split; [exact Hconns|]. unfold d1 in Hsent. rewrite segment_next_sport in Hsent.
      exact Hsent.
    + eexists. simpl. rewrite Hdevs, insert_insert_eq. split; [done|]. split; [done|].
      unfold after_packet, restarted. by destruct (_ && _), (2 <=? _).
    + simpl. by rewrite Hframe.
    + simpl. by rewrite Hframe.
Qed.

(** ** Segments from the device *)

(** The connection after the header of a segment was recorded. *)
Definition heard (c : mux_connection) (th : tcphdr) : mux_connection :=
  c <| cn_rx_seq := th_seq th |> <| cn_rx_ack := th_ack th |>
    <| cn_rx_win := Z.shiftl (th_win th) 8 |>.

(** The connection after the SYN/ACK of the device, when the ACK is sent. *)
Definition synchronized (c : mux_connection) (th : tcphdr) : mux_connection :=
  (heard c th) <| cn_tx_seq := u32 (cn_tx_seq c + 1) |>
               <| cn_tx_ack := u32 (cn_tx_ack c + 1) |>
               <| cn_rx_recvd := th_seq th |>.

Lemma heard_ok c th : conn_ok c -> 0 <= th_win th < 2 ^ 16 -> conn_ok (heard c th).
Proof.
  intros [] Hw. split; simpl; try done. rewrite Z.shiftl_mul_pow2 by lia. lia.
Qed.

Lemma acknowledged_ok c t : conn_ok c -> conn_ok (acknowledged c t).
Proof. intros []. by split. Qed.

(** The segment belongs to this connection. *)
Definition addressed (c : mux_connection) (th : tcphdr) : Prop :=
  th_dport th = cn_sport c /\ th_sport th = cn_dport c.

(** [device_tcp_input] finds the connection of a segment. *)
Lemma wp_tcp_input w q d l u p c th payload Q :
  ready w q d l u -> dv_state d = MUXDEV_ACTIVE ->
  w_conns w !! p = Some c -> cn_dev c = q -> addressed c th ->
  wp (connection_tcp_input p th payload) Q w ->
  wp (device_tcp_input q th payload) Q w.
Proof.
  intros [Hwf Hd Hl _ _ _ _] Hact Hc Hq [Hs Hp] HQ. unfold device_tcp_input.
  apply wp_bind. eapply wp_load; [done|]. rewrite decide_False by tauto.
  eapply wp_call; [by apply (find_connection_run w q d l)|].
  intros [p'|] w' [-> Hr]; cycle 1.
  { by destruct (Hr p c Hc Hq). }
  destruct Hr as (c' & Hc' & Hq' & Hs' & Hp').
  assert (p' = p) as ->.
  { apply (wf_sports _ Hwf p' p (conn_v c') (conn_v c)); [by apply lookup_v_conns..|simpl; congruence|].
    simpl. congruence. }
  exact HQ.
Qed.

(** C15: the SYN/ACK of the device establishes a pending connection: it is
    answered with an ACK segment that counts the SYNs of both sides, the
    device's window and sequence number are recorded, the client is told that
    its request succeeded and from then on only receives that answer until it
    has read it. *)
Theorem tcp_input_accepts w q d l u p c cl k th payload :
  ready w q d l u -> dv_state d = MUXDEV_ACTIVE -> session w p c cl k d -> cn_dev c = q ->
  addressed c th -> 0 <= th_win th < 2 ^ 16 ->
  cn_state c = CONN_CONNECTING -> th_flags th = Z.lor TH_SYN TH_ACK ->
  cl_state k = CLIENT_CONNECTING1 -> ob_ok k -> reply_fits k (result_num RESULT_OK) ->
  (forall t n, sys_realloc t n = true) ->
  wp (device_tcp_input q th payload) (fun _ w' => exists c' k',
    w_conns w' = <[p := c']> (w_conns w) /\ w_clients w' = <[cl := k']> (w_clients w) /\
    cn_state c' = CONN_CONNECTED /\ conn_ok c' /\
    cn_tx_seq c' = u32 (cn_tx_seq c + 1) /\ cn_tx_ack c' = u32 (cn_tx_ack c + 1) /\
    cn_rx_win c' = Z.shiftl (th_win th) 8 /\ cn_rx_recvd c' = th_seq th /\
    sent_packet (dv_usbdev d) (segment d (synchronized c th) TH_ACK []) (w_trace w) (w_trace w') /\
    notified k k' RESULT_OK) w.
Proof.
  intros Hready Hact [_ Hc Hcl Hk _ _ Hok] Hq Haddr Hwin Hst Hfl Hkst Hob Hfit Hre.
  pose proof Hready as [Hwf Hd Hl Hu Hmps Hfresh Hacc].
  eapply (wp_tcp_input w q d l u p c); [done..|].
  unfold connection_tcp_input. apply wp_bind. eapply wp_update; [done|].
  fold (heard c th). apply wp_bind. eapply wp_load; [simpl; apply lookup_insert_eq|]. simpl cn_state. rewrite Hst, Hfl.
  rewrite Z.eqb_refl. cbn [negb]. apply wp_bind.
  eapply wp_update; [simpl; apply lookup_insert_eq|].
  change (set cn_rx_recvd _ _) with (synchronized c th). set (c2 := synchronized c th).
  eapply wp_call; [apply (wp_send_tcp_ready p c2 q d u TH_ACK []); try done|].
  { simpl. apply lookup_insert_eq. }
  { apply empty_segment_fits. }
  intros r w1 (Hpos & Hsent & Hframe). rewrite (proj2 (Z.ltb_ge _ _)) by done.
  assert (w_conns w1 = <[p := acknowledged c2 (w_trace w1)]> (w_conns w)) as Hconns1
    by (rewrite Hframe; simpl; by rewrite !insert_insert_eq).
  assert (w_clients w1 = w_clients w) as Hcs1 by by rewrite Hframe.
  apply wp_bind. eapply wp_update; [rewrite Hconns1; apply lookup_insert_eq|].
  set (c3 := (acknowledged c2 (w_trace w1)) <| cn_state := CONN_CONNECTED |>).
  assert (conn_ok c3) as Hok3.
  { pose proof (heard_ok c th Hok Hwin) as []. split; simpl; try done. apply u32_range. }
  apply wp_bind. eapply wp_load; [simpl; apply lookup_insert_eq|].
  change (cn_client c3) with (cn_client c). rewrite Hcl. apply wp_bind. unfold nonnull.
  eapply wp_lift_option; [done|].
  eapply wp_call; [apply (wp_notify_connect cl k RESULT_OK); [by simpl; rewrite Hcs1|done..]|].
  intros r2 w2 [(_ & _ & n & Hn)|(-> & k2 & -> & Hnot)]; [by rewrite Hre in Hn|].
  change (0 <? 0) with false. apply wp_bind. unfold wp at 1; cbn [when mret C_ret].
  eapply wp_mono; [apply (wp_update_connection p c3 cl k2)|].
  - simpl. apply lookup_insert_eq.
  - exact Hcl.
  - simpl. apply lookup_insert_eq.
  - intros ? w3 ->. unfold refreshed. exists (updated_connection c3).
    eexists. simpl. rewrite Hconns1, Hcs1, !insert_insert_eq. split; [done|]. split; [done|].
    split; [done|]. split; [by apply updated_connection_ok|]. do 4 (split; [done|]).
    split; [exact Hsent|]. destruct Hnot as (msg & pl & Hm & Ho & Hpd & Hev & (Hs2 & He2 & Hi2) & Hfd & Hcd).
    exists msg, pl. unfold polled. rewrite Hs2. split_and!; done.
Qed.

(** C16: data of an established connection is appended to what waits for the
    client, and answered with an ACK segment that acknowledges exactly what the
    client has taken so far; the window that the device announces is
    recorded. *)
Theorem tcp_input_data w q d l u p c cl k th payload :
  ready w q d l u -> dv_state d = MUXDEV_ACTIVE -> session w p c cl k d -> cn_dev c = q ->
  addressed c th -> 0 <= th_win th < 2 ^ 16 ->
  cn_state c = CONN_CONNECTED -> th_flags th = TH_ACK ->
  cn_ib_size c + zlen payload <= cn_ib_capacity c ->
  wp (device_tcp_input q th payload) (fun _ w' => exists c' ca,
    w_conns w' = <[p := c']> (w_conns w) /\ conn_ok c' /\ cn_state c' = CONN_CONNECTED /\
    ib_queue c' = ib_queue c ++ payload /\
    cn_rx_win c' = Z.shiftl (th_win th) 8 /\ cn_rx_ack c' = th_ack th /\
    cn_tx_acked c' = cn_tx_ack c /\ flag_set (cn_flags c') CONN_ACK_PENDING = false /\
    cn_tx_ack ca = cn_tx_ack c /\ cn_tx_seq ca = cn_tx_seq c /\
    sent_packet (dv_usbdev d) (segment d ca TH_ACK []) (w_trace w) (w_trace w')) w.
Proof.
  intros Hready Hact [_ Hc Hcl Hk _ _ Hok] Hq Haddr Hwin Hst Hfl Hfit.
  pose proof Hready as [Hwf Hd Hl Hu Hmps Hfresh Hacc].
  pose proof (heard_ok c th Hok Hwin) as Hok1. set (c1 := heard c th) in *.
  destruct (with_payload_queue c1 payload Hok1 Hfit) as [Hq2 Hok2].
  set (c2 := updated_connection (with_payload c1 payload)).
  assert (conn_ok c2) as Hok2' by (by apply updated_connection_ok).
  eapply (wp_tcp_input w q d l u p c); [done..|].
  unfold connection_tcp_input. apply wp_bind. eapply wp_update; [done|].
  fold (heard c th). apply wp_bind. eapply wp_load; [simpl; apply lookup_insert_eq|]. simpl cn_state. rewrite Hst, Hfl.
  rewrite Z.eqb_refl. cbn [negb].
  eapply wp_call; [apply (wp_connection_device_input p c1 cl k payload); [simpl; apply lookup_insert_eq|done..]|].
  intros ? w1 ->. set (k1 := polled k (cn_events c2)). fold c2.
  unfold send_tcp_ack. apply wp_bind, wp_bind.
  eapply wp_mono; [apply (wp_send_tcp_ready p c2 q d u TH_ACK []); try done|].
  { simpl. apply lookup_insert_eq. }
  { apply empty_segment_fits. }
  intros r w2 (Hpos & Hsent & Hframe). rewrite (proj2 (Z.ltb_ge _ _)) by done.
  assert (w_conns w2 = <[p := acknowledged c2 (w_trace w2)]> (w_conns w)) as Hconns2
    by (rewrite Hframe; simpl; by rewrite !insert_insert_eq).
  assert (w_clients w2 = <[cl := k1]> (w_clients w)) as Hcs2 by by rewrite Hframe.
  apply wp_bind. eapply wp_mono;
    [apply (wp_update_connection p (acknowledged c2 (w_trace w2)) cl k1)|].
  - rewrite Hconns2. apply lookup_insert_eq.
  - exact Hcl.
  - rewrite Hcs2. apply lookup_insert_eq.
  - intros ? w3 ->. unfold wp; cbn [mret C_ret].
    assert (conn_ok (acknowledged c2 (w_trace w2))) as Hok3 by (by apply acknowledged_ok).
    exists (updated_connection (acknowledged c2 (w_trace w2))), c2.
    simpl. rewrite Hconns2, insert_insert_eq. split; [done|].
    split; [by apply updated_connection_ok|]. split; [exact Hst|]. split; [exact Hq2|].
    do 3 (split; [done|]). split; [|done].
    rewrite set_flag_if_set by done. apply negb_false_iff, Z.eqb_refl.
Qed.

(** C27: a segment for a connection that does not exist is answered with a
    reset (a reset is not answered), and changes nothing else. *)
Theorem tcp_input_unknown w q d l u th payload :
  ready w q d l u -> dv_state d = MUXDEV_ACTIVE ->
  (forall p c, w_conns w !! p = Some c -> cn_dev c = q -> ~ addressed c th) ->
  wp (device_tcp_input q th payload) (fun _ w' =>
    w_conns w' = w_conns w /\ w_clients w' = w_clients w /\
    if flag_set (th_flags th) TH_RST then w' = w
    else exists b, sent_packet (dv_usbdev d) b (w_trace w) (w_trace w') /\
      zdrop (mux_header_size (dv_version d)) b = tcphdr_bytes
        {| th_sport := th_dport th; th_dport := th_sport th; th_seq := 0; th_ack := th_seq th;
           th_off := 5; th_flags := TH_RST; th_win := 0 |}) w.
Proof.
  intros [Hwf Hd Hl Hu Hmps Hfresh Hacc] Hact Hno. unfold device_tcp_input.
  apply wp_bind. eapply wp_load; [done|]. rewrite decide_False by tauto.
  eapply wp_call; [by apply (find_connection_run w q d l)|].
  intros [p|] w' [-> Hr].
  { destruct Hr as (c & Hc & Hq & Hs & Hp). by destruct (Hno p c Hc Hq). }
  destruct (flag_set (th_flags th) TH_RST); [done|]. cbn [negb when]. apply wp_bind.
  unfold send_anon_rst. set (h := tcphdr_bytes _). change (sizeof_tcphdr / 4) with 5 in h.
  eapply wp_mono; [apply (wp_send_packet q d MUX_PROTO_TCP h [] sizeof_tcphdr u); try done|].
  { apply empty_segment_fits. }
  intros r w1 (Hdevs & Hframe & Hout). unfold wp; cbn [mret C_ret].
  split; [by rewrite Hframe|]. split; [by rewrite Hframe|].
  exists (packet d MUX_PROTO_TCP h []). split.
  - by apply packet_outcome_accepted in Hout as [_ Htr].
  - destruct (packet_reads d MUX_PROTO_TCP h []) as (_ & _ & _ & ->); [|by rewrite app_nil_r].
    pose proof (empty_segment_fits d) as Hf. unfold h. rewrite zlen_tcphdr_bytes. unfold USB_MTU in Hf. lia.
Qed.

End connect.

Section witness.
Import Instances Scenario.

Lemma scn_ready : ready scn_world 2 scn_dev [4%positive; 6%positive] scn_usbdev.
Proof.
  split; [exact scn_wf|reflexivity..| |exact scn_world_fresh|]; [discriminate|].
  intros t b. discriminate.
Qed.

(** The ports 65535 and 0 are taken: the next one is 1. *)
Lemma start_connect_sends_syn_witness :
  wp (device_start_connect 1 62078 7%positive) (fun r w' => exists sport,
    (sport ∉ [65535; 0]) /\ r = 0 /\
    connecting_on scn_world 2 scn_dev [4%positive; 6%positive] 7 sport 62078 w') scn_world.
Proof.
  eapply wp_mono; [apply (start_connect_sends_syn scn_world 2 scn_dev [4%positive; 6%positive]
    scn_usbdev 7%positive 62078); [exact scn_ready|apply not_elem_of_nil|simpl; lia|reflexivity]|].
  intros r w' (sport & _ & Hfree & H). exists sport.
  assert (sport ∉ [65535; 0]) as Hn by exact Hfree. split; [exact Hn|]. destruct (Z.eqb_spec sport 0) as [->|_]; [|exact H].
  exfalso. apply Hn. right. left.
Defined.

Definition scn_segment (dport flags : Z) : tcphdr := {|
  th_sport := 62078; th_dport := dport; th_seq := 0; th_ack := 1; th_off := 5;
  th_flags := flags; th_win := 512 |}.

Lemma tcp_input_accepts_witness :
  wp (device_tcp_input 2%positive (scn_segment 0 18) []) (fun _ w' => exists c' k',
    w_conns w' !! 6%positive = Some c' /\ w_clients w' !! 5%positive = Some k' /\
    cn_state c' = CONN_CONNECTED /\ cl_state k' = CLIENT_CONNECTING2) scn_world.
Proof.
  eapply wp_mono; [apply (tcp_input_accepts scn_world 2 scn_dev [4%positive; 6%positive] scn_usbdev
    6 (scn_conn 5 CONN_CONNECTING 0) 5 (scn_client 11 CLIENT_CONNECTING1) (scn_segment 0 18) []);
    [exact scn_ready|reflexivity|exact scn_session5|reflexivity|split; reflexivity|simpl; lia|
     reflexivity|reflexivity|reflexivity|apply scn_ob_ok| |intros t n; reflexivity]|].
  - intros msg payload [-> ->]. vm_compute. reflexivity.
  - intros u w' (c' & k' & Hc & Hk & Hs & _ & _ & _ & _ & _ & _ & Hn). exists c', k'. rewrite Hc, Hk.
    destruct Hn as (msg & pl & _ & _ & _ & _ & [Hks _] & _).
    split; [apply lookup_insert_eq|]. split; [apply lookup_insert_eq|]. split; [exact Hs|exact Hks].
Defined.

Lemma tcp_input_data_witness :
  wp (device_tcp_input 2%positive (scn_segment 65535 TH_ACK) [13; 14]) (fun _ w' => exists c',
    w_conns w' !! 4%positive = Some c' /\ ib_queue c' = [10; 11; 12; 13; 14]) scn_world.
Proof.
  eapply wp_mono; [apply (tcp_input_data scn_world 2 scn_dev [4%positive; 6%positive] scn_usbdev
    4 (scn_conn 3 CONN_CONNECTED 65535) 3 (scn_client 10 CLIENT_CONNECTED)
    (scn_segment 65535 TH_ACK) [13; 14]);
    [exact scn_ready|reflexivity|exact scn_session3|reflexivity|split; reflexivity|simpl; lia|
     reflexivity|reflexivity|vm_compute; discriminate]|].
  intros u w' (c' & ca & Hc & _ & _ & Hq & _). exists c'. rewrite Hc.
  split; [apply lookup_insert_eq|exact Hq].
Defined.

Lemma tcp_input_unknown_witness :
  wp (device_tcp_input 2%positive (scn_segment 99 TH_ACK) []) (fun _ w' => exists b,
    sent_packet 1 b [] (w_trace w') /\ th_flags (tcphdr_parse (zdrop 16 b)) = TH_RST) scn_world.
Proof.
  eapply wp_mono; [apply (tcp_input_unknown scn_world 2 scn_dev [4%positive; 6%positive] scn_usbdev
    (scn_segment 99 TH_ACK) []); [exact scn_ready|reflexivity|]|].
  - intros p c Hc _ [Hs _]. apply scn_conns in Hc as [[-> ->]|[-> ->]]; discriminate.
  - intros u w' (_ & _ & b & Hb & Hd). exists b. split; [exact Hb|].
    change 16 with (mux_header_size (dv_version scn_dev)). rewrite Hd. reflexivity.
Defined.

End witness.
