(* ===== verification/PollFacts.v ===== *)
(** * PollFacts: what the main loop waits for

    The descriptors that [client_get_fds] adds to the poll list, and how long
    [device_get_timeout] lets the main loop sleep before a delayed
    acknowledgement is due. *)

From stdpp Require Import base gmap list strings.
From Stdlib Require Import ZArith Lia.
From S2P Require Import Prelude Platform Wire World Utils Conf Instances Usb ClientOut.
From S2P Require Import DeviceOut Teardown Device Client Scenario SendFacts.
From S2P Require Import Views Session RefineTeardown ScenarioFacts.

Local Open Scope Z_scope.
Import Fdlist.

(** ** The poll list *)

Lemma fdlist_grown_spec l : fdlist_ok l ->
  fdlist_ok (fdlist_grown l) /\ fl_count (fdlist_grown l) = fl_count l /\
  fl_count (fdlist_grown l) < fl_capacity (fdlist_grown l) /\
  fdlist_entries (fdlist_grown l) = fdlist_entries l.
Proof.
  intros (Hn & Hcap & Ho & Hf). unfold fdlist_grown.
  destruct (Z.eqb_spec (fl_count l) (fl_capacity l)) as [He|Hne]; simpl.
  - split; [|split; [done|split; [lia|]]].
    + unfold fdlist_ok; simpl. rewrite !realloc_slots_len by lia. lia.
    + unfold fdlist_entries; simpl. by rewrite !ztake_realloc by lia.
  - unfold fdlist_ok. split_and!; try done; lia.
Qed.

(** Adding a descriptor appends one entry; the arrays grow when they are full. *)
Lemma fdlist_add_spec l owner fd events : fdlist_ok l ->
  fdlist_ok (fdlist_add l owner fd events) /\
  fdlist_entries (fdlist_add l owner fd events) =
    fdlist_entries l ++ [(Some owner, Some (mk_pollfd fd events 0))].
Proof.
  intros Hok. unfold fdlist_add. destruct (fdlist_grown_spec l Hok) as (Hok1 & Hn1 & Hlt & He).
  cbv zeta. set (l1 := fdlist_grown l) in *. clearbody l1.
  destruct Hok1 as (Hb & Hcap & Ho & Hf). split.
  - unfold fdlist_ok; simpl. unfold zlen in *. rewrite !length_insert. lia.
  - rewrite <- He. unfold fdlist_entries; simpl. rewrite !ztake_insert_next by lia.
    apply zip_snoc. unfold zlen, ztake in *. rewrite !length_take. lia.
Qed.

Section poll.
Context `{E : Env} `{!EnvLaws E}.
Implicit Types w : world.

(** The entry of a client. *)
Definition client_entry (w : world) (p : ptr) : option (option fdowner * option pollfd) :=
  k ← w_clients w !! p;
  Some (Some FD_CLIENT, Some (mk_pollfd (cl_fd k) (cl_events k) 0)).

Lemma wp_add_client_fds ps l w :
  fdlist_ok l -> (forall p, p ∈ ps -> is_Some (w_clients w !! p)) ->
  wp (add_client_fds ps l) (fun l' w' => w' = w /\ fdlist_ok l' /\
    fdlist_entries l' = fdlist_entries l ++ omap (client_entry w) ps) w.
Proof.
  revert l. induction ps as [|p ps IH]; intros l Hok Hall; cbn [add_client_fds].
  { unfold wp; simpl. by rewrite app_nil_r. }
  destruct (Hall p) as [k Hk]; [left|]. apply wp_bind. eapply wp_load; [done|].
  destruct (fdlist_add_spec l FD_CLIENT (cl_fd k) (cl_events k) Hok) as [Hok' He].
  eapply wp_mono; [apply (IH _ Hok'); intros; apply Hall; by right|].
  intros l' w' (-> & Hl' & Hel). split; [done|]. split; [done|].
  rewrite Hel, He, <- app_assoc. f_equal. simpl. unfold client_entry at 2. by rewrite Hk.
Qed.

Lemma wp_client_get_fds l w :
  wf (view_of w) -> fdlist_ok l -> client_list_mutex ∉ w_locked w ->
  wp (client_get_fds l) (fun l' w' => fdlist_ok l' /\
    fdlist_entries l' =
      fdlist_entries l ++ omap (client_entry w) (coll_elems (client_list w)) /\
    length (omap (client_entry w) (coll_elems (client_list w))) = size (w_clients w) /\
    w' = w <| w_trace := EvUnlock client_list_mutex :: EvLock client_list_mutex :: w_trace w |>) w.
Proof.
  intros Hwf Hok Hm. unfold client_get_fds. apply wp_bind, wp_mutex_lock; [done|].
  apply wp_bind, wp_gets. eapply wp_call; [apply wp_add_client_fds; [done|]|].
  - intros p Hp. apply (wf_client_list _ Hwf) in Hp as [kv Hk].
    apply v_clients_inv in Hk as (k & Hk & _). simpl. eauto.
  - intros l' w' (-> & Hok' & He). apply wp_bind, wp_modify. unfold wp; simpl.
    rewrite filter_unlock by done. split; [done|]. split; [exact He|]. split; [|by destruct w].
    assert (length (omap (client_entry w) (coll_elems (client_list w))) =
            length (coll_elems (client_list w))) as ->.
    { assert (forall p, p ∈ coll_elems (client_list w) -> is_Some (w_clients w !! p)) as Hall.
      { intros p Hp. apply (wf_client_list _ Hwf) in Hp as [kv Hk].
        apply v_clients_inv in Hk as (k & Hk & _). eauto. }
      revert Hall. generalize (coll_elems (client_list w)). intros ps.
      induction ps as [|p ps IH]; [done|]. intros Hall. destruct (Hall p) as [k Hk]; [left|].
      simpl. unfold client_entry at 1. rewrite Hk. simpl. f_equal. apply IH.
      intros q Hq. apply Hall. by right. }
    rewrite <- (size_list_to_set (C := gset ptr) (coll_elems (client_list w)))
      by apply (wf_client_nodup _ Hwf).
    rewrite <- (size_dom (w_clients w)). f_equal. apply leibniz_equiv. intros p.
    rewrite elem_of_list_to_set, elem_of_dom.
    rewrite (wf_client_list _ Hwf p : p ∈ coll_elems (client_list w) <-> _).
    simpl. by rewrite lookup_fmap, fmap_is_Some.
Qed.

(** C35: [client_get_fds] appends exactly one entry per client of the daemon to
    the poll list, with the client's descriptor and the events it is polled
    for, whatever the number of clients: the arrays are enlarged when they are
    full and never written out of bounds. *)
Theorem client_get_fds_complete l w :
  wf (view_of w) -> fdlist_ok l -> client_list_mutex ∉ w_locked w ->
  wp (client_get_fds l) (fun l' w' => fdlist_ok l' /\
    fdlist_entries l' =
      fdlist_entries l ++ omap (client_entry w) (coll_elems (client_list w)) /\
    length (omap (client_entry w) (coll_elems (client_list w))) = size (w_clients w) /\
    w_clients w' = w_clients w /\ w_locked w' = w_locked w) w.
Proof.
  intros Hwf Hok Hm. eapply wp_mono; [by apply wp_client_get_fds|].
  intros l' w' (? & ? & ? & ->). done.
Qed.

(** ** Delayed acknowledgements *)

Lemma oldest_pending_spec cs o :
  (oldest_pending cs o = o \/ exists c, c ∈ cs /\ ack_pending c = true /\
     oldest_pending cs o = cn_last_ack_time c) /\
  oldest_pending cs o <= o /\
  (forall c, c ∈ cs -> ack_pending c = true -> oldest_pending cs o <= cn_last_ack_time c).
Proof.
  revert o. induction cs as [|c cs IH]; intros o; cbn [oldest_pending].
  { split; [by left|]. split; [lia|]. intros c Hc. by apply elem_of_nil in Hc. }
  set (o' := if ack_pending c && (cn_last_ack_time c <? o) then cn_last_ack_time c else o).
  destruct (IH o') as (H1 & H2 & H3).
  assert (o' <= o /\ (ack_pending c = true -> o' <= cn_last_ack_time c) /\
    (o' = o \/ (ack_pending c = true /\ o' = cn_last_ack_time c))) as (Ho & Hc & Hor).
  { unfold o'. destruct (ack_pending c); simpl; [|split_and!; [lia|done|by left]].
    destruct (Z.ltb_spec (cn_last_ack_time c) o); split_and!; try lia; auto. }
  split_and!.
  - destruct H1 as [H1|(x & Hx & Hp & H1)].
    + rewrite H1. destruct Hor as [->|[Hp ->]]; [by left|]. right. exists c. split; [left|done].
    + right. exists x. split; [by right|done].
  - lia.
  - intros x Hx Hp. apply elem_of_cons in Hx as [->|Hx]; [specialize (Hc Hp); lia|by apply H3].
Qed.

(** A connection of an active device. *)
Definition active_conn (w : world) (c : mux_connection) : Prop :=
  exists p d, w_conns w !! p = Some c /\ w_devs w !! cn_dev c = Some d /\ dv_state d = MUXDEV_ACTIVE.

Lemma wp_load_conns ps w :
  (forall p, p ∈ ps -> is_Some (w_conns w !! p)) ->
  wp (load_conns ps) (fun cs w' => w' = w /\
    forall c, c ∈ cs <-> exists p, p ∈ ps /\ w_conns w !! p = Some c) w.
Proof.
  induction ps as [|p ps IH]; intros Hall; cbn [load_conns].
  { unfold wp; simpl. split; [done|]. intros c. rewrite elem_of_nil. split; [done|].
    intros (p & Hp & _). by apply elem_of_nil in Hp. }
  destruct (Hall p) as [c Hc]; [left|]. apply wp_bind. eapply wp_load; [done|].
  eapply wp_call; [apply IH; intros; apply Hall; by right|]. intros cs w' [-> Hcs].
  unfold wp; cbn [mret C_ret]. split; [done|]. intros x. rewrite elem_of_cons, Hcs. split.
  - intros [->|(q & Hq & Hx)]; [exists p; split; [left|done]|exists q; split; [by right|done]].
  - intros (q & [->|Hq]%elem_of_cons & Hx); [left; congruence|right; eauto].
Qed.

Lemma wp_active_conns ps w :
  wf (view_of w) -> (forall q, q ∈ ps -> is_Some (w_devs w !! q)) ->
  wp (active_conns ps) (fun cs w' => w' = w /\ forall c, c ∈ cs <->
    exists p d, w_conns w !! p = Some c /\ cn_dev c ∈ ps /\
      w_devs w !! cn_dev c = Some d /\ dv_state d = MUXDEV_ACTIVE) w.
Proof.
  intros Hwf. induction ps as [|q ps IH]; intros Hall; cbn [active_conns].
  { unfold wp; simpl. split; [done|]. intros c. rewrite elem_of_nil. split; [done|].
    intros (p & d & _ & Hp & _). by apply elem_of_nil in Hp. }
  destruct (Hall q) as [d Hd]; [left|]. apply wp_bind. eapply wp_load; [done|].
  pose proof (lookup_v_devs _ _ _ Hd) as Hdv.
  eapply (wp_call _ _ (fun cs w' => w' = w /\ forall c, c ∈ cs <->
    dv_state d = MUXDEV_ACTIVE /\ cn_dev c = q /\ exists p, w_conns w !! p = Some c)).
  - case_decide as Hact; cycle 1.
    { unfold wp; simpl. split; [done|]. intros c. rewrite elem_of_nil. tauto. }
    destruct (dv_connections d) as [l|] eqn:Hl; cycle 1.
    { apply (wf_init _ Hwf _ _ Hdv) in Hl. simpl in Hl. congruence. }
    unfold dev_connections. apply wp_bind, wp_bind. eapply wp_load; [done|].
    eapply wp_lift_option; [done|].
    assert (forall p, p ∈ coll_elems l <-> exists c, w_conns w !! p = Some c /\ cn_dev c = q) as Hin.
    { intros p. split.
      - intros Hp. destruct (wf_dev_conn _ Hwf _ _ l p Hdv Hl Hp) as (cv & Hcv & Hq).
        apply v_conns_inv in Hcv as (c & Hc & ->). eauto.
      - intros (c & Hc & Hq).
        destruct (wf_conn_dev _ Hwf p _ (lookup_v_conns _ _ _ Hc)) as (dv & l' & Hdv' & Hl' & Hp).
        change (v_devs (view_of w) !! cn_dev c = Some dv) in Hdv'. rewrite Hq, Hdv in Hdv'.
        injection Hdv' as <-. simpl in Hl'. congruence. }
    eapply wp_mono; [apply wp_load_conns|].
    + intros p Hp. apply Hin in Hp as (c & -> & _). eauto.
    + intros cs w' [-> Hcs]. split; [done|]. intros c. rewrite Hcs. split.
      * intros (p & Hp & Hc). apply Hin in Hp as (c' & Hc' & Hq). assert (c' = c) as -> by congruence.
        eauto.
      * intros (_ & Hq & p & Hc). exists p. split; [|done]. apply Hin. eauto.
  - intros cs w' [-> Hcs]. eapply wp_call; [apply IH; intros; apply Hall; by right|].
    intros rest w' [-> Hrest]. unfold wp; cbn [mret C_ret]. split; [done|]. intros c.
    rewrite elem_of_app, Hcs, Hrest. setoid_rewrite elem_of_cons. split.
    + intros [(Hact & Hq & p & Hc)|(p & d' & Hc & Hq & Hd' & Hact)].
      * exists p, d. subst q. auto.
      * exists p, d'. auto.
    + intros (p & d' & Hc & [Hq|Hq] & Hd' & Hact); [left|right; eauto 10].
      rewrite Hq in Hd'. assert (d' = d) as -> by congruence. eauto.
Qed.

(** How long an acknowledgement may still wait. *)
Definition ack_wait (now : Z) (c : mux_connection) : Z :=
  Z.max 0 (ACK_TIMEOUT - (now - cn_last_ack_time c)).

Lemma timeout_of_none ct : timeout_of (2 ^ 64 - 1) ct = 100000.
Proof. reflexivity. Qed.

Lemma timeout_of_pending last ct :
  0 <= last <= ct -> ct < 2 ^ 63 -> timeout_of last ct = Z.max 0 (ACK_TIMEOUT - (ct - last)).
Proof.
  intros H Hct. unfold timeout_of. rewrite s64_small by lia. rewrite (proj2 (Z.eqb_neq _ _)) by lia.
  rewrite (u64_small (ct - last)) by lia. unfold ACK_TIMEOUT in *.
  destruct (Z.ltb_spec 30 (ct - last)); [lia|]. rewrite u64_small by lia. rewrite s32_small by lia. lia.
Qed.

(** It returns and changes nothing, whatever the clock says. *)
Lemma wp_device_get_timeout_returns w :
  wf (view_of w) -> device_list_mutex ∉ w_locked w ->
  wp device_get_timeout (fun _ w' =>
    w' = w <| w_trace := EvUnlock device_list_mutex :: EvLock device_list_mutex :: w_trace w |>) w.
Proof.
  intros Hwf Hm. unfold device_get_timeout. apply wp_bind, wp_mutex_lock; [done|].
  apply wp_bind, wp_gets. eapply wp_call.
  { apply wp_active_conns; [exact Hwf|]. intros q Hq. apply (wf_dev_list _ Hwf) in Hq as [dv Hq].
    apply v_devs_inv in Hq as (d & Hq & _). eauto. }
  intros cs w' [-> Hcs]. cbv zeta. apply wp_bind, wp_modify, wp_bind.
  unfold wp at 1. rewrite mstime64_run. unfold wp; simpl. rewrite filter_unlock by done.
  by destruct w.
Qed.

(** C34: the time that the main loop may sleep is 100 seconds when no
    acknowledgement is pending; otherwise it is the remaining time of the
    acknowledgement that is due first, at most [ACK_TIMEOUT] milliseconds and
    never longer than any pending acknowledgement may wait. Asking for it
    changes nothing. *)
Theorem get_timeout_due w now :
  wf (view_of w) -> device_list_mutex ∉ w_locked w ->
  now = now_ms (EvUnlock device_list_mutex :: EvLock device_list_mutex :: w_trace w) ->
  now < 2 ^ 63 ->
  (forall c, active_conn w c -> 0 <= cn_last_ack_time c <= now) ->
  wp device_get_timeout (fun r w' =>
    w' = w <| w_trace := w_trace w' |> /\
    (((forall c, active_conn w c -> ack_pending c = false) /\ r = 100000) \/
     ((exists c, active_conn w c /\ ack_pending c = true /\ r = ack_wait now c) /\
      (forall c, active_conn w c -> ack_pending c = true -> r <= ack_wait now c) /\
      0 <= r <= ACK_TIMEOUT))) w.
Proof.
  intros Hwf Hm Hnow Hmax Htimes. unfold device_get_timeout. apply wp_bind, wp_mutex_lock; [done|].
  apply wp_bind, wp_gets. eapply wp_call.
  { apply wp_active_conns; [exact Hwf|]. intros q Hq. apply (wf_dev_list _ Hwf) in Hq as [dv Hq].
    apply v_devs_inv in Hq as (d & Hq & _). eauto. }
  intros cs w' [-> Hcs]. cbv zeta. apply wp_bind, wp_modify, wp_bind.
  assert (forall c, c ∈ cs <-> active_conn w c) as Hiff.
  { intros c. rewrite Hcs. simpl. split; [intros (p & d & ? & _ & ? & ?); by exists p, d|].
    intros (p & d & Hc & Hd & Hact). exists p, d. split; [done|]. split; [|done].
    apply (wf_dev_list _ Hwf). rewrite (lookup_v_devs _ _ _ Hd). eauto. }
  unfold wp at 1. rewrite mstime64_run. simpl w_trace. rewrite <- Hnow.
  pose proof (now_ms_nonneg (EvUnlock device_list_mutex :: EvLock device_list_mutex :: w_trace w)).
  rewrite u64_small by lia. unfold wp; cbn [mret C_ret]. simpl. rewrite filter_unlock by done.
  split; [by destruct w|].
  destruct (oldest_pending_spec cs (2 ^ 64 - 1)) as (Hor & _ & Hmin).
  set (o := oldest_pending cs (2 ^ 64 - 1)) in *.
  assert ((forall c, active_conn w c -> ack_pending c = false) \/
          (exists c, active_conn w c /\ ack_pending c = true /\ o = cn_last_ack_time c)) as [Hno|Hyes].
  { destruct Hor as [Ho|(c & Hc & Hp & Ho)]; [left|right; exists c; split; [by apply Hiff|done]].
    intros c Hc. destruct (ack_pending c) eqn:Hp; [|done]. exfalso.
    pose proof (Hmin c (proj2 (Hiff c) Hc) Hp). pose proof (Htimes c Hc). lia. }
  - left. split; [done|]. destruct Hor as [->|(c & Hc & Hp & _)]; [reflexivity|].
    rewrite (Hno c) in Hp; [done|by apply Hiff].
  - right. destruct Hyes as (c & Hc & Hp & Ho). pose proof (Htimes c Hc) as Ht.
    rewrite timeout_of_pending by lia. split; [|split].
    + exists c. split; [done|]. split; [done|]. unfold ack_wait. by rewrite Ho.
    + intros c' Hc' Hp'. pose proof (Hmin c' (proj2 (Hiff c') Hc') Hp'). unfold ack_wait. lia.
    + unfold ACK_TIMEOUT. lia.
Qed.

End poll.

Section witness.
Import Instances Scenario.

Lemma client_get_fds_complete_witness :
  wp (client_get_fds fdlist_create) (fun l' w' => fdlist_ok l' /\
    fdlist_entries l' = [(Some FD_CLIENT, Some (mk_pollfd 10 1 0));
      (Some FD_CLIENT, Some (mk_pollfd 11 1 0)); (Some FD_CLIENT, Some (mk_pollfd 12 1 0))]) scn_world.
Proof.
  eapply wp_mono; [apply (client_get_fds_complete fdlist_create scn_world);
    [exact scn_wf|exact fdlist_create_ok|apply not_elem_of_nil]|].
  intros l' w' (Hok & He & _). split; [exact Hok|exact He].
Defined.

(** No acknowledgement is pending in the scenario. *)
Lemma get_timeout_due_witness :
  wp device_get_timeout (fun r _ => r = 100000) scn_world.
Proof.
  eapply wp_mono; [apply (get_timeout_due scn_world 0);
    [exact scn_wf|apply not_elem_of_nil|reflexivity|reflexivity|]|].
  - intros c (p & d & Hc & _). apply scn_conns in Hc as [[_ ->]|[_ ->]]; simpl; lia.
  - intros r w' [_ [[_ H]|[(c & (p & d & Hc & _) & Hp & _) _]]]; [exact H|].
    exfalso. apply scn_conns in Hc as [[_ ->]|[_ ->]]; discriminate.
Defined.

End witness.
