(* ===== verification/LoopFacts.v ===== *)
(** * LoopFacts: an iteration of the main loop

    What the poll list of an iteration holds, which handlers run for what
    [ppoll] reports, and which signals end the loop. *)

From stdpp Require Import base gmap list strings.
From Stdlib Require Import ZArith Lia Ascii String.
From S2P Require Import Prelude Platform Wire UsbSetup World Utils Conf Instances Usb ClientOut.
From S2P Require Import DeviceOut Teardown Device Client UsbDevice UsbLoop Main Scenario ScenarioMain.
From S2P Require Import Views Session RefineTeardown ScenarioFacts RefineMain MainFacts PollFacts.

Local Open Scope Z_scope.
Import Fdlist.

(** ** Serving the descriptors *)

Section serve.
Context `{E : Env} `{U : UsbHost}.
Variable pending : list event -> Z * list usb_event.
Variable fuel depth : nat.
Implicit Types l : list (fdowner * Z * Z).

Definition owner_of (x : fdowner * Z * Z) : fdowner := fst (fst x).
#[export] Instance fdowner_eq_dec : EqDecision fdowner.
Proof. solve_decision. Defined.

(** The handler of a descriptor; negative when the daemon has to give up. *)
Definition act (listenfd : Z) (x : fdowner * Z * Z) : C world Z :=
  let '(owner, fd, revents) := x in
  match owner with
  | FD_USB => usb_process (usb_events pending fuel depth) fuel
  | FD_LISTEN => client_accept listenfd
  | FD_CLIENT => client_process fd revents ;; mret 0
  end.

(** One handler after the other, until one fails. *)
Fixpoint perform (listenfd : Z) l : C world (unit + unit) :=
  match l with
  | [] => mret (inr tt)
  | x :: l' => r ← act listenfd x; if r <? 0 then mret (inl tt) else perform listenfd l'
  end.

(** Of the descriptors of libusb, the first one stands for all. *)
Definition usb_once l : list (fdowner * Z * Z) :=
  match list_find (fun x => owner_of x = FD_USB) l with
  | Some (i, _) => take (S i) l ++ filter (fun x => owner_of x <> FD_USB) (drop (S i) l)
  | None => l
  end.

Definition reported l : list (fdowner * Z * Z) := filter (fun x => snd x <> 0) l.

Lemma usb_once_usb x l :
  owner_of x = FD_USB -> usb_once (x :: l) = x :: filter (fun x => owner_of x <> FD_USB) l.
Proof. intros Hx. unfold usb_once; simpl. by rewrite decide_True. Qed.

Lemma usb_once_other x l : owner_of x <> FD_USB -> usb_once (x :: l) = x :: usb_once l.
Proof.
  intros Hx. unfold usb_once; simpl. rewrite decide_False by done.
  by destruct (list_find _ l) as [[i y]|].
Qed.

Lemma reported_cons x l :
  reported (x :: l) = if snd x =? 0 then reported l else x :: reported l.
Proof.
  unfold reported. rewrite filter_cons. destruct (Z.eqb_spec (snd x) 0); by case_decide.
Qed.

Lemma serve_done listenfd l w :
  serve pending fuel depth listenfd true l w =
  perform listenfd (filter (fun x => owner_of x <> FD_USB) (reported l)) w.
Proof.
  revert w. induction l as [|[[o fd] re] l IH]; intros w; [done|].
  rewrite reported_cons. cbn [serve snd]. destruct (re =? 0); [apply IH|].
  destruct o; (rewrite filter_cons_True by done) || (rewrite filter_cons_False by (by intros []));
    simpl; unfold mbind, C_bind.
  - destruct (client_accept listenfd w) as [r w'| |]; simpl; try done.
    destruct (r <? 0); simpl; [done|apply IH].
  - destruct (client_process fd re w) as [[] w'| |]; simpl; [apply IH|done..].
  - apply IH.
Qed.

(** The loop is its specification: every descriptor with events is served
    once, in the order of the list, except that libusb is served once for all
    its descriptors. *)
Lemma serve_perform listenfd l w :
  serve pending fuel depth listenfd false l w = perform listenfd (usb_once (reported l)) w.
Proof.
  revert w. induction l as [|[[o fd] re] l IH]; intros w; [done|].
  rewrite reported_cons. cbn [serve snd]. destruct (re =? 0); [apply IH|].
  destruct o.
  - rewrite usb_once_other by done. simpl. unfold mbind, C_bind.
    destruct (client_accept listenfd w) as [r w'| |]; simpl; try done.
    destruct (r <? 0); simpl; [done|apply IH].
  - rewrite usb_once_other by done. simpl. unfold mbind, C_bind.
    destruct (client_process fd re w) as [[] w'| |]; simpl; [apply IH|done..].
  - rewrite usb_once_usb by done. simpl. unfold mbind, C_bind.
    destruct (usb_process _ _ w) as [r w'| |]; simpl; try done.
    destruct (r <? 0); simpl; [done|]. apply serve_done.
Qed.

End serve.

(** ** The poll list *)

Section iteration.
Context `{E : Env} `{U : UsbHost} `{P : Process} `{!EnvLaws E}.
Implicit Types p : process.

(** Only the history grew. *)
Definition trace_only p p' : Prop :=
  p_globals p' = p_globals p /\ p_world p' = (p_world p) <| w_trace := trace_of p' |>.

Lemma trace_only_trans p1 p2 p3 : trace_only p1 p2 -> trace_only p2 p3 -> trace_only p1 p3.
Proof. intros [Hg1 Hw1] [Hg2 Hw2]. split; [congruence|]. by rewrite Hw2, Hw1. Qed.

Lemma trace_only_run p t : trace_only p (p <| p_world := (p_world p) <| w_trace := t |> |>).
Proof. by split. Qed.

Definition watch (owner : fdowner) (fd events : Z) : fdowner * pollfd := (owner, mk_pollfd fd events 0).
Definition watch_client (w : world) (q : ptr) : option (fdowner * pollfd) :=
  k ← w_clients w !! q; Some (watch FD_CLIENT (cl_fd k) (cl_events k)).

(** The listening socket, the descriptors of libusb and the clients, each
    with the events it waits for. *)
Definition watched (listenfd : Z) (ufds : list (Z * Z)) (w : world) : list (fdowner * pollfd) :=
  watch FD_LISTEN listenfd POLLIN ::
  map (fun x => watch FD_USB (fst x) (snd x)) ufds ++
  omap (watch_client w) (coll_elems (client_list w)).

Definition slots (l : list (fdowner * pollfd)) : list (option fdowner * option pollfd) :=
  map (fun x => (Some (fst x), Some (snd x))) l.

(** The list with the events that [ppoll] stores. *)
Fixpoint with_events (l : list (fdowner * pollfd)) (revents : list Z) : list (fdowner * Z * Z) :=
  match l with
  | [] => []
  | (owner, pf) :: l' => (owner, pf_fd pf, default 0 (head revents)) :: with_events l' (tail revents)
  end.

Lemma ready_slots l revents : ready (slots l) revents = Some (with_events l revents).
Proof.
  revert revents. induction l as [|[o pf] l IH]; intros revents; [done|]. simpl. by rewrite IH.
Qed.

Lemma poll_fds_slots l : poll_fds (slots l) = map snd l.
Proof. induction l as [|[o pf] l IH]; [done|]. simpl. by rewrite IH. Qed.

Lemma ready_count_reported l : ready_count l = zlen (reported l).
Proof. done. Qed.

Lemma add_usb_fds_spec ufds l :
  fdlist_ok l -> fdlist_ok (add_usb_fds ufds l) /\
  fdlist_entries (add_usb_fds ufds l) =
    fdlist_entries l ++ slots (map (fun x => watch FD_USB (fst x) (snd x)) ufds).
Proof.
  revert l. induction ufds as [|[fd ev] ufds IH]; intros l Hok; simpl.
  { split; [done|]. by rewrite app_nil_r. }
  destruct (fdlist_add_spec l FD_USB fd ev Hok) as [Hok' He].
  destruct (IH _ Hok') as [Hok2 He2]. split; [done|]. by rewrite He2, He, <- app_assoc.
Qed.

Lemma slots_clients w ps : slots (omap (watch_client w) ps) = omap (client_entry w) ps.
Proof.
  induction ps as [|q ps IH]; [done|]. simpl. unfold watch_client at 1, client_entry at 1.
  destruct (w_clients w !! q); simpl; [f_equal|]; exact IH.
Qed.

Lemma wp_run {A} (m : C world A) (Q : A -> process -> Prop) p :
  wp m (fun a w => Q a (p <| p_world := w |>)) (p_world p) -> wp (run m) Q p.
Proof. unfold wp, run. by destruct (m (p_world p)). Qed.

Definition idle_locks p : Prop := w_locked (p_world p) = [].

Lemma wp_prepare_poll listenfd pollfds p :
  wf (view_of (p_world p)) -> idle_locks p -> fdlist_ok pollfds ->
  wp (prepare_poll listenfd pollfds) (fun a p' => trace_only p p' /\ fdlist_ok (fst a) /\
    exists t, fdlist_entries (fst a) =
      slots (watched listenfd (default [] (libusb_get_pollfds t)) (p_world p))) p.
Proof.
  intros Hwf Hlk Hok. unfold prepare_poll. unfold idle_locks in Hlk.
  apply wp_bind, wp_run. unfold usb_timeout, dev_poll_remain, get_tick_count.
  unfold wp at 1; simpl. apply wp_bind, wp_run.
  eapply wp_mono; [apply wp_device_get_timeout_returns; [exact Hwf|simpl; rewrite Hlk; apply not_elem_of_nil]|].
  intros dto w1 ->. cbv zeta. apply wp_bind, wp_run. unfold wp at 1; simpl.
  destruct (fdlist_add_spec (fdlist_reset pollfds) FD_LISTEN listenfd POLLIN) as [Hok1 He1];
    [by apply fdlist_reset_ok|].
  set (t := _ :: _ :: w_trace (p_world p)).
  set (l1 := match libusb_get_pollfds t with Some fds => add_usb_fds fds _ | None => _ end).
  assert (fdlist_ok l1 /\ fdlist_entries l1 = slots (watch FD_LISTEN listenfd POLLIN ::
    map (fun x => watch FD_USB (fst x) (snd x)) (default [] (libusb_get_pollfds t)))) as [Hok2 He2].
  { unfold l1. destruct (libusb_get_pollfds t) as [fds|].
    - destruct (add_usb_fds_spec fds _ Hok1) as [Hok2 He2]. split; [done|]. by rewrite He2, He1.
    - split; [done|]. by rewrite He1. }
  apply wp_bind, wp_run.
  eapply wp_mono; [apply wp_client_get_fds; [exact Hwf|exact Hok2|simpl; rewrite Hlk; apply not_elem_of_nil]|].
  intros l2 w2 (Hok3 & He3 & _ & ->). unfold wp; simpl. split; [by split|]. split; [done|].
  exists t. rewrite He3, He2, <- (slots_clients (p_world p)). unfold watched, slots. simpl.
  by rewrite map_app.
Qed.

(** *** What [ppoll] reports is served *)

Section serves.
Variable pending : list event -> Z * list usb_event.
Variable fuel depth : nat.

(** The reaction to the events of [l]: the handlers, or, when there are none,
    the USB layer and the timers. *)
Definition react (listenfd : Z) (l : list (fdowner * Z * Z)) : C world (Z + unit) :=
  match reported l with
  | [] =>
    res ← usb_process (usb_events pending fuel depth) fuel;
    if res <? 0 then mret (inl (-1)) else device_check_timeouts ;; mret (inr tt)
  | es =>
    r ← perform pending fuel depth listenfd (usb_once es);
    mret (match r with inl _ => inl (-1) | inr _ => inr tt end)
  end.

Lemma dispatch_react listenfd pollfds l revents p :
  fdlist_entries pollfds = slots l ->
  dispatch pending fuel depth listenfd pollfds (inr revents) p =
  run (react listenfd (with_events l revents)) p.
Proof.
  intros He. unfold dispatch. rewrite He, ready_slots. unfold react.
  unfold mbind at 1, C_bind, lift_option, mret at 1, C_ret. cbn beta iota.
  rewrite ready_count_reported.
  destruct (reported (with_events l revents)) as [|e es] eqn:Hr; simpl.
  - unfold run, mbind, C_bind. destruct (usb_process _ _ (p_world p)) as [r w| |]; simpl; try done.
    destruct (r <? 0); simpl; [by destruct p|].
    by destruct (device_check_timeouts w) as [[] w'| |].
  - destruct (Z.eqb_spec (zlen (e :: es)) 0) as [Hz|_].
    { unfold zlen in Hz. simpl in Hz. lia. }
    unfold run, mbind, C_bind. rewrite serve_perform, Hr.
    by destruct (perform _ _ _ _ _ (p_world p)) as [[] w| |].
Qed.


End serves.

(** *** Signals *)

(** No device has finished its version exchange. *)
Definition no_devices (w : world) : Prop :=
  forall q d, w_devs w !! q = Some d -> dv_state d <> MUXDEV_ACTIVE.

(** The signals that end the daemon: any but SIGUSR1 and SIGUSR2; and SIGUSR1
    when --enable-exit is given and no device is attached. *)
Definition ends (p : process) (sig : Z) : Prop :=
  (sig <> SIGUSR1 /\ sig <> SIGUSR2) \/
  (sig = SIGUSR1 /\ opt_enable_exit (p_globals p) <> 0 /\ no_devices (p_world p)).

Lemma wp_collect_active ps w :
  (forall q, q ∈ ps -> is_Some (w_devs w !! q)) ->
  wp (collect_devices true (fun _ _ => mret tt) ps) (fun l w' => w' = w /\
    (l <> [] <-> exists q d, q ∈ ps /\ w_devs w !! q = Some d /\ dv_state d = MUXDEV_ACTIVE)) w.
Proof.
  induction ps as [|q ps IH]; intros Hall; cbn [collect_devices].
  { unfold wp; simpl. split; [done|]. split; [done|]. intros (q & d & Hq & _).
    by apply not_elem_of_nil in Hq. }
  destruct (Hall q) as [d Hd]; [left|]. apply wp_bind. eapply wp_load; [done|].
  unfold dev_listed. rewrite orb_true_l, andb_true_r. case_bool_decide as Hs.
  - apply wp_bind, wp_ret. eapply wp_call; [apply IH; intros; apply Hall; by right|].
    intros l w' [-> _]. unfold wp; simpl. split; [done|]. split; [|done]. intros _.
    exists q, d. split; [left|done].
  - eapply wp_mono; [apply IH; intros; apply Hall; by right|]. intros l w' [-> Hl].
    split; [done|]. rewrite Hl. setoid_rewrite elem_of_cons. split.
    + intros (q' & d' & Hq & Hd' & Hs'). eauto 6.
    + intros (q' & d' & [->|Hq] & Hd' & Hs'); [congruence|eauto].
Qed.

Lemma wp_device_get_count w :
  wf (view_of w) -> w_locked w = [] ->
  wp (device_get_count true) (fun n w' => w' = w <| w_trace := w_trace w' |> /\
    (0 < n <-> ~ no_devices w)) w.
Proof.
  intros Hwf Hlk. unfold device_get_count, copy_device_list.
  apply wp_bind, wp_bind, wp_mutex_lock; [rewrite Hlk; apply not_elem_of_nil|].
  apply wp_bind, wp_gets, wp_bind, wp_modify, wp_ret. simpl. rewrite Hlk.
  eapply wp_call; [apply wp_collect_active|].
  - intros q Hq. apply (wf_dev_list _ Hwf) in Hq as [dv Hq]. apply v_devs_inv in Hq as (d & Hq & _).
    simpl. eauto.
  - intros l w' [-> Hl]. unfold wp; simpl in *. split; [destruct w; simpl in *; by subst|].
    assert (0 < zlen l <-> l <> []) as ->.
    { destruct l; unfold zlen; simpl; split; intros; (done || lia). }
    rewrite Hl. split.
    + intros (q & d & _ & Hd & Hs) Hno. by apply (Hno q d).
    + intros Hno. destruct (decide (Exists (fun qd => dv_state (snd qd) = MUXDEV_ACTIVE)
        (map_to_list (w_devs w)))) as [He|He].
      * apply Exists_exists in He as ([q d] & Hin & Hs). apply elem_of_map_to_list in Hin.
        exists q, d. split; [|done]. apply (wf_dev_list _ Hwf). rewrite (lookup_v_devs _ _ _ Hin). eauto.
      * exfalso. apply Hno. intros q d Hd Hs. apply He, Exists_exists. exists (q, d).
        split; [by apply elem_of_map_to_list|done].
Qed.

Lemma wp_handle_signal sig p :
  wf (view_of (p_world p)) -> idle_locks p ->
  wp (handle_signal sig) (fun _ p' => p_world p' = (p_world p) <| w_trace := trace_of p' |> /\
    opt_enable_exit (p_globals p') = opt_enable_exit (p_globals p) /\
    (should_exit (p_globals p') <> 0 <-> should_exit (p_globals p) <> 0 \/ ends p sig)) p.
Proof.
  intros Hwf Hlk. unfold handle_signal, ends.
  destruct (Z.eqb_spec sig SIGUSR1) as [H1|H1]; simpl.
  - apply wp_bind. unfold is_set, global. apply wp_bind, wp_gets, wp_ret.
    destruct (Z.eqb_spec (opt_enable_exit (p_globals p)) 0) as [He|He]; simpl.
    { unfold wp; simpl. split; [by destruct p as [? []]|]. split; [done|]. tauto. }
    apply wp_bind, wp_run. eapply wp_mono; [by apply wp_device_get_count|]. intros n w' [Hw Hn].
    destruct (Z.ltb_spec 0 n) as [Hlt|Hge]; unfold wp; simpl;
      (split; [exact Hw|]; split; [done|]).
    + apply Hn in Hlt. tauto.
    + split; [intros _|done]. right. right. split_and!; try done.
      intros q d Hd Hs. assert (~ no_devices (p_world p)) as Hno by (intros Hno; by apply (Hno q d)).
      apply Hn in Hno. lia.
  - destruct (Z.eqb_spec sig SIGUSR2) as [H2|H2]; simpl.
    + apply wp_bind. unfold is_set, global. apply wp_bind, wp_gets, wp_ret.
      destruct (_ =? 0); unfold wp; simpl; (split; [by destruct p as [? []]|]; split; [done|]);
        tauto.
    + unfold wp; simpl. split; [by destruct p as [? []]|]. split; [done|]. split; [by auto|done].
Qed.

Lemma wp_handle_signals sigs p :
  wf (view_of (p_world p)) -> idle_locks p ->
  wp (handle_signals sigs) (fun _ p' => p_world p' = (p_world p) <| w_trace := trace_of p' |> /\
    (should_exit (p_globals p') <> 0 <->
      should_exit (p_globals p) <> 0 \/ exists sig, sig ∈ sigs /\ ends p sig)) p.
Proof.
  revert p. induction sigs as [|sig sigs IH]; intros p Hwf Hlk; cbn [handle_signals].
  { unfold wp; simpl. split; [by destruct p as [? []]|]. split; [by left|].
    intros [|(sig & Hs & _)]; [done|]. by apply not_elem_of_nil in Hs. }
  eapply wp_call; [by apply wp_handle_signal|]. intros _ p1 (Hw1 & Ho1 & He1).
  assert (forall s, ends p1 s <-> ends p s) as Hends.
  { intros s. unfold ends. rewrite Ho1. unfold no_devices. by rewrite Hw1. }
  eapply wp_mono; [apply IH|].
  - by rewrite Hw1.
  - unfold idle_locks. by rewrite Hw1.
  - intros _ p2 [Hw2 He2]. split; [by rewrite Hw2, Hw1|]. rewrite He2, He1.
    setoid_rewrite Hends. split.
    + intros [[|]|(s & Hs & Hend)]; [by left|..]; right; [exists sig|exists s]; (split; [|done]); by constructor.
    + intros [|(s & [->|Hs]%elem_of_cons & Hend)]; [tauto|tauto|]. right. eauto.
Qed.


End iteration.

Section witness.
Import Instances Scenario ScenarioMain.

Definition scn_session : process := mk_process globals0 scn_world.
#[local] Instance term_os : Process := scn_os None [].



End witness.
