(* ===== verification/ConfFacts.v ===== *)
(** * ConfFacts: the configuration directory, the system id and pairing records *)

From Stdlib Require Import ZArith Lia Ascii String List.
From stdpp Require Import base gmap list strings.
From S2P Require Import Prelude Platform Wire World Utils Conf Instances Usb ClientOut.
From S2P Require Import DeviceOut Teardown Device Client Scenario.

Local Open Scope string_scope.
Local Open Scope list_scope.
Local Open Scope Z_scope.
Import Conf.

(** ** UTF-16 to UTF-8 *)

(** A decoder of sequences of one to three bytes. *)
Fixpoint utf8_decode (l : list Z) : option (list Z) :=
  match l with
  | [] => Some []
  | a :: l1 =>
    if a <? 128 then cons a <$> utf8_decode l1
    else match l1 with
    | [] => None
    | b :: l2 =>
      if a <? 224 then cons ((a - 192) * 64 + (b - 128)) <$> utf8_decode l2
      else match l2 with
      | [] => None
      | c :: l3 =>
        cons ((a - 224) * 4096 + (b - 128) * 64 + (c - 128)) <$> utf8_decode l3
      end
    end
  end.

Lemma land_low wc n k : 0 <= n -> k = Z.ones n -> Z.land wc k = wc mod 2 ^ n.
Proof. intros Hn ->. by apply Z.land_ones. Qed.

Lemma utf8_of_wchar_decode wc rest :
  0 <= wc < 65536 ->
  bytes_ok (utf8_of_wchar wc) /\ 1 <= zlen (utf8_of_wchar wc) <= 3 /\
  utf8_decode (utf8_of_wchar wc ++ rest) = cons wc <$> utf8_decode rest.
Proof.
  intros Hwc. unfold utf8_of_wchar. rewrite !Z.shiftr_div_pow2 by lia.
  rewrite !(land_low _ 4 15), !(land_low _ 5 31), !(land_low _ 6 63), !(land_low _ 7 127) by done.
  change (2 ^ 12) with 4096. change (2 ^ 6) with 64. change (2 ^ 4) with 16.
  change (2 ^ 5) with 32. change (2 ^ 7) with 128.
  pose proof (Z.div_mod wc 64 ltac:(lia)) as H64. pose proof (Z.mod_pos_bound wc 64 ltac:(lia)).
  destruct (Z.leb_spec 2048 wc).
  - assert (wc / 4096 = wc / 64 / 64) as H4 by (by rewrite Z.div_div by lia).
    pose proof (Z.div_mod (wc / 64) 64 ltac:(lia)) as H64'.
    pose proof (Z.mod_pos_bound (wc / 64) 64 ltac:(lia)).
    assert (0 <= wc / 4096 < 16) by (split; [apply Z.div_pos; lia|apply Z.div_lt_upper_bound; lia]).
    rewrite (Z.mod_small (wc / 4096)) by lia.
    unfold u8. rewrite !(Z.mod_small (_ + _)) by lia. split; [|split].
    + repeat constructor; lia.
    + unfold zlen; simpl; lia.
    + cbn [app utf8_decode]. rewrite !(proj2 (Z.ltb_ge _ _)) by lia.
      f_equal. f_equal. lia.
  - destruct (Z.leb_spec 128 wc).
    + assert (0 <= wc / 64 < 32) by (split; [apply Z.div_pos; lia|apply Z.div_lt_upper_bound; lia]).
      rewrite (Z.mod_small (wc / 64)) by lia.
      unfold u8. rewrite !(Z.mod_small (_ + _)) by lia. split; [|split].
      * repeat constructor; lia.
      * unfold zlen; simpl; lia.
      * cbn [app utf8_decode]. rewrite (proj2 (Z.ltb_ge _ _)) by lia.
        rewrite (proj2 (Z.ltb_lt _ _)) by lia. f_equal. f_equal. lia.
    + rewrite Z.mod_small by lia. split; [|split].
      * repeat constructor; lia.
      * unfold zlen; simpl; lia.
      * cbn [app utf8_decode]. by rewrite (proj2 (Z.ltb_lt _ _)) by lia.
Qed.

Lemma utf16_loop_app units out : utf16_loop units out = out ++ List.concat (utf8_of_wchar <$> units).
Proof.
  revert out. induction units as [|wc units IH]; intros out; simpl; [by rewrite app_nil_r|].
  by rewrite IH, <- app_assoc.
Qed.

Lemma utf8_concat units :
  Forall (fun wc => 0 <= wc < 65536) units ->
  let out := List.concat (utf8_of_wchar <$> units) in
  bytes_ok out /\ zlen units <= zlen out <= 3 * zlen units /\ utf8_decode out = Some units.
Proof.
  intros Hu. induction Hu as [|wc units Hwc _ (IH1 & IH2 & IH3)].
  { split; [constructor|]. split; [unfold zlen; simpl; lia|done]. }
  cbv zeta in *. rewrite fmap_cons. cbn [List.concat].
  destruct (utf8_of_wchar_decode wc (List.concat (utf8_of_wchar <$> units)) Hwc) as (H1 & H2 & H3).
  split; [by apply bytes_ok_app|]. rewrite zlen_app.
  assert (zlen (wc :: units) = 1 + zlen units) as -> by (unfold zlen; simpl; lia).
  split; [lia|]. by rewrite H3, IH3.
Qed.

(** Converting a non-empty UTF-16 path to UTF-8 reads every unit, writes
    bytes that decode to exactly these units, and never writes more, the
    terminator included, than the 3 * (len + 1) bytes that were allocated. *)
Theorem utf16_to_utf8_decodes units :
  units <> [] -> Forall (fun wc => 0 <= wc < 65536) units ->
  exists out, config_utf16_to_utf8 (Some units) = Some (out, zlen units, zlen out) /\
    zlen out + 1 <= 3 * (zlen units + 1) /\ bytes_ok out /\ utf8_decode out = Some units.
Proof.
  intros Hne Hu. destruct (utf8_concat units Hu) as (Hb & Hlen & Hd).
  exists (List.concat (utf8_of_wchar <$> units)). unfold config_utf16_to_utf8.
  assert (0 < zlen units) by (destruct units; [done|unfold zlen; simpl; lia]).
  rewrite (proj2 (Z.leb_gt _ _)) by lia. cbv zeta. rewrite utf16_loop_app. simpl.
  split; [done|]. split; [lia|done].
Qed.

(** ** The system BUID *)

Section conf.
Context `{E : Env} `{!EnvLaws E}.
Implicit Types w : world.

Definition uuid_char_ok (i : nat) (c : ascii) : Prop :=
  if uuid_dash i then c = "-"%char else c ∈ list_ascii_of_string uuid_chars.

Lemma get_uuid_char n : 0 <= n < 16 ->
  exists c, String.get (Z.to_nat n) uuid_chars = Some c /\ c ∈ list_ascii_of_string uuid_chars.
Proof.
  intros Hn. assert (exists m, Z.to_nat n = m /\ (m < 16)%nat) as (m & -> & Hm) by (exists (Z.to_nat n); lia).
  do 16 (destruct m as [|m]; [eexists; split; [reflexivity|by apply (bool_decide_unpack _)]|]). lia.
Qed.

Lemma wp_uuid_loop i n w :
  wp (uuid_loop i n) (fun cs w' => length cs = n /\
    (forall j c, cs !! j = Some c -> uuid_char_ok (i + j) c) /\
    w' = w <| w_trace := w_trace w' |>) w.
Proof.
  revert i w. induction n as [|n IH]; intros i w; cbn [uuid_loop].
  { unfold wp; simpl. by split_and!; [done..|destruct w]. }
  eapply (wp_call _ _ (fun c w' => uuid_char_ok i c /\ w' = w <| w_trace := w_trace w' |>)).
  - unfold uuid_char_ok. destruct (uuid_dash i).
    + unfold wp; simpl. by destruct w.
    + apply wp_bind. unfold get_rand. apply wp_bind, wp_gets, wp_bind, wp_modify.
      unfold wp at 1; cbn [mret C_ret]. rewrite Z.add_0_r.
      pose proof (rand_nonneg (w_trace w)) as Hr. change (16 - 0) with 16.
      rewrite Z.rem_mod_nonneg by lia. pose proof (Z.mod_pos_bound (sys_rand (w_trace w)) 16 ltac:(lia)).
      destruct (get_uuid_char (sys_rand (w_trace w) mod 16)) as (c & Hc & Hin); [lia|].
      eapply wp_lift_option; [exact Hc|]. split; [done|]. by destruct w.
  - intros c w' [Hc Hw]. eapply wp_call; [apply IH|]. intros cs w2 (Hl & Hcs & Hw2).
    unfold wp; cbn [mret C_ret]. split; [simpl; lia|]. split.
    + intros [|j] x; simpl; [intros [= <-]; by rewrite Nat.add_0_r|].
      intros Hx. specialize (Hcs j x Hx). by replace (i + S j)%nat with (S i + j)%nat by lia.
    + rewrite Hw2, Hw. by destruct w.
Qed.

(** A generated system id has the format of a UUID, whatever the random
    numbers are: 36 characters, dashes at positions 8, 13, 18 and 23, and upper
    case hexadecimal digits everywhere else. *)
Theorem generate_uuid_format idx w :
  wp (config_generate_uuid idx) (fun s w' =>
    length (list_ascii_of_string s) = 36%nat /\
    (forall i c, list_ascii_of_string s !! i = Some c -> uuid_char_ok i c) /\
    w' = w <| w_trace := w_trace w' |>) w.
Proof.
  unfold config_generate_uuid. apply wp_bind, wp_gets, wp_bind, wp_modify.
  eapply wp_call; [apply wp_uuid_loop|]. intros cs w' (Hl & Hcs & Hw).
  unfold wp; cbn [mret C_ret]. rewrite list_ascii_of_string_of_list_ascii.
  split; [done|]. split; [exact Hcs|]. rewrite Hw. by destruct w.
Qed.

(** ** The configuration directory *)

(** The directory that [config_get_config_dir] returns. *)
Definition conf_dir (w : world) : string :=
  match config_dir w with
  | Some dir => dir
  | None => strip_trailing_seps (string_concat ["/var/lib"; DIR_SEP_S; CONFIG_DIR])
  end.

(** The state once the directory is known, with another file system. *)
Definition with_fs (w : world) (s : fs) : world :=
  w <| config_dir := Some (conf_dir w) |> <| w_fs := s |>.

Lemma conf_dir_with_fs w s : conf_dir (with_fs w s) = conf_dir w.
Proof. done. Qed.
Lemma with_fs_twice w s s' : with_fs (with_fs w s) s' = with_fs w s'.
Proof. by destruct w. Qed.

Lemma config_get_config_dir_run w :
  config_get_config_dir w = Ok (conf_dir w) (with_fs w (w_fs w)).
Proof.
  unfold config_get_config_dir, with_fs, conf_dir, mbind, C_bind, gets, modify.
  destruct w; simpl. by destruct config_dir.
Qed.

Lemma drop_seps_length l : (length (drop_seps l) <= length l)%nat.
Proof. induction l as [|c l IH]; simpl; [lia|]. destruct (ascii_dec c DIR_SEP); simpl; lia. Qed.
Lemma drop_name_length l : (length (drop_name l) <= length l)%nat.
Proof. induction l as [|c l IH]; simpl; [lia|]. destruct (ascii_dec c DIR_SEP); simpl; lia. Qed.
Lemma drop_seps_head l c l' : drop_seps l = c :: l' -> c <> DIR_SEP.
Proof.
  induction l as [|x l IH]; simpl; [done|]. destruct (ascii_dec x DIR_SEP); [done|].
  by intros [= <- <-].
Qed.
Lemma length_string_of_list l : String.length (string_of_list_ascii l) = length l.
Proof. induction l; simpl; congruence. Qed.
Lemma length_list_of_string s : length (list_ascii_of_string s) = String.length s.
Proof. induction s; simpl; congruence. Qed.

(** The parent of a path is the root, the current directory or a shorter
    path. *)
Lemma dirname_shorter s :
  dirname s = "/" \/ dirname s = "." \/ (String.length (dirname s) < String.length s)%nat.
Proof.
  unfold dirname. destruct (list_ascii_of_string s) as [|a cs] eqn:Hs; [by right; left|].
  destruct (drop_seps (rev (a :: cs))) as [|c name] eqn:Hd; [by left|].
  pose proof (drop_seps_head _ _ _ Hd) as Hc. cbn [drop_name].
  destruct (ascii_dec c DIR_SEP); [done|].
  destruct (drop_name name) as [|c2 rest] eqn:Hn; [by right; left|].
  destruct (drop_seps (c2 :: rest)) as [|c3 dir] eqn:Hd2; [by left|]. right; right.
  rewrite length_string_of_list, length_rev.
  pose proof (drop_seps_length (rev (a :: cs))) as H1. rewrite Hd, length_rev, <- Hs, length_list_of_string in H1.
  pose proof (drop_name_length name) as H2. rewrite Hn in H2.
  pose proof (drop_seps_length (c2 :: rest)) as H3. rewrite Hd2 in H3. simpl in *. lia.
Qed.

(** Creating a directory changes no file. *)
Definition same_files (s s' : fs) : Prop := forall q, fs_read s' q = fs_read s q.

Lemma wp_mkdir_from fuel dir mode w :
  (dir = "/" \/ dir = "." \/ (S (String.length dir) < fuel)%nat) -> (0 < fuel)%nat ->
  wp (mkdir_with_parents_from fuel dir mode) (fun r w' => r = 0 /\
    exists s, w' = w <| w_fs := s |> /\ same_files (w_fs w) s) w.
Proof.
  revert dir. induction fuel as [|fuel IH]; intros dir Hdir Hf; [lia|].
  cbn [mkdir_with_parents_from]. apply wp_bind. unfold fs_run. apply wp_bind, wp_gets.
  destruct (fs_mkdir (w_fs w) dir mode) as [s'|err] eqn:Hmk.
  { apply wp_bind, wp_modify. unfold wp; simpl. split; [done|]. exists s'. split; [done|].
    intros q. by eapply fs_mkdir_read. }
  unfold wp at 1; cbn [mret C_ret]. destruct (Z.eqb_spec err EEXIST) as [->|Hne].
  { unfold wp; simpl. split; [done|]. exists (w_fs w). split; [by destruct w|]. by intros q. }
  assert (dir <> "/" /\ dir <> ".") as [H1 H2].
  { split; intros ->; [rewrite fs_mkdir_root in Hmk|rewrite fs_mkdir_cwd in Hmk]; congruence. }
  destruct Hdir as [?|[?|Hlen]]; [done..|].
  apply IH; [|lia]. destruct (dirname_shorter dir) as [?|[?|?]]; auto. right; right. lia.
Qed.

Lemma wp_create_config_dir w :
  wp config_create_config_dir (fun r w' => r = 0 /\
    exists s, w' = with_fs w s /\ same_files (w_fs w) s) w.
Proof.
  unfold config_create_config_dir. apply wp_bind. unfold wp at 1.
  rewrite config_get_config_dir_run. apply wp_bind, wp_gets.
  destruct (fs_stat _ _).
  - unfold wp; simpl. split; [done|]. exists (w_fs w). split; [done|]. by intros q.
  - eapply wp_mono; [apply wp_mkdir_from; [right; right|]; lia|].
    intros r w' (-> & s & -> & Hs). split; [done|]. by exists s.
Qed.

(** ** Pairing records *)

(** Every file but this one is as it was. *)
Definition only_file (file : string) (s s' : fs) : Prop :=
  forall q, q <> file -> fs_read s' q = fs_read s q.

Lemma wp_remove_file file w (Q : option Z -> world -> Prop) :
  (forall r s, only_file file (w_fs w) s -> Q r (w <| w_fs := s |>)) ->
  wp (fs_run (fun s => fs_remove s file)) Q w.
Proof.
  intros HQ. unfold fs_run. apply wp_bind, wp_gets. destruct (fs_remove (w_fs w) file) as [s|e] eqn:Hr.
  - apply wp_bind, wp_modify. apply HQ. intros q Hq. by eapply fs_remove_other.
  - unfold wp; simpl. specialize (HQ (Some e) (w_fs w)).
    replace (w <| w_fs := w_fs w |>) with w in HQ by (by destruct w). apply HQ. by intros q.
Qed.

(** Writing a dictionary to a file. *)
Lemma write_dict s p file s' ok :
  plist_get_node_type p = PLIST_DICT -> plist_write_to_file s p file = (s', ok) ->
  only_file file s s' /\
  (ok = true -> exists xml, fs_read s' file = Some xml /\ plist_from_memory xml = Some p).
Proof.
  intros Hp. unfold plist_write_to_file.
  destruct (plist_xml_roundtrip p Hp) as (xml & -> & _ & _ & Hm). intros Hw. split.
  - intros q Hq. by eapply fs_write_other.
  - intros ->. exists xml. split; [by eapply fs_write_read|done].
Qed.

(** What storing a record may do. *)
Definition record_stored (w : world) (udid : string) (data : list Z) (r : Z) (w' : world) : Prop :=
  let file := device_record_file (conf_dir w) udid in
  udid_valid udid = true /\ exists s, w' = with_fs w s /\ only_file file (w_fs w) s /\
  (r = - ENOENT \/
   (r = 0 /\ exists record xml, plist_from_memory data = Some record /\
      plist_get_node_type record = PLIST_DICT /\
      fs_read s file = Some xml /\ plist_from_memory xml = Some record)).

Lemma wp_set_device_record udid data w :
  wp (config_set_device_record udid data) (fun r w' =>
    (r = - EINVAL /\ w' = w) \/ record_stored w udid data r w') w.
Proof.
  unfold config_set_device_record. destruct (_ <? 8); [by left|].
  destruct (udid_valid udid) eqn:Hv; [|by left]. cbn [negb].
  destruct (plist_from_memory data) as [record|] eqn:Hm; [|by left].
  case_decide as Ht; [|by left].
  eapply wp_call; [apply wp_create_config_dir|]. intros r w1 (-> & s1 & -> & Hs1).
  change (0 <? 0) with false. apply wp_bind. unfold wp at 1. rewrite config_get_config_dir_run.
  rewrite conf_dir_with_fs, with_fs_twice. simpl w_fs.
  set (file := device_record_file (conf_dir w) udid). apply wp_bind, wp_remove_file.
  intros _ s2 Hs2. apply wp_bind, wp_gets. simpl w_fs in *.
  destruct (plist_write_to_file s2 record file) as [s3 ok] eqn:Hw.
  destruct (write_dict _ _ _ _ _ Ht Hw) as [Hs3 Hok].
  apply wp_bind, wp_modify. unfold wp; simpl. right. unfold record_stored. fold file.
  split; [done|]. exists s3. split; [by destruct w|]. split.
  - intros q Hq. rewrite Hs3, Hs2, Hs1; done.
  - destruct ok; [right|by left]. split; [done|]. destruct (Hok eq_refl) as (xml & Hx & Hxm). eauto 10.
Qed.

(** Characters that cannot leave a directory. *)
Lemma udid_valid_no_sep udid c :
  udid_valid udid = true -> c ∈ list_ascii_of_string udid -> c <> DIR_SEP /\ c <> "."%char.
Proof.
  unfold udid_valid. rewrite forallb_forall. intros H Hc.
  apply list_elem_of_In in Hc. specialize (H c Hc). split; intros ->; done.
Qed.


Lemma wp_get_device_record udid w :
  wp (config_get_device_record udid) (fun r w' =>
    r = match fs_read (w_fs w) (device_record_file (conf_dir w) udid) with
        | Some data => (0, Some data)
        | None => (- ENOENT, None)
        end) w.
Proof.
  unfold config_get_device_record. eapply wp_call; [apply wp_create_config_dir|].
  intros r w1 (-> & s & -> & Hs). change (0 <? 0) with false.
  apply wp_bind. unfold wp at 1. rewrite config_get_config_dir_run. apply wp_bind, wp_gets.
  unfold wp; cbn [mret C_ret]. simpl. by rewrite Hs.
Qed.

(** C33: a pairing record that was stored is read back: the bytes that
    [config_get_device_record] returns parse to the same dictionary as the
    bytes that were saved. *)
Theorem pair_record_roundtrip udid data w :
  wp (r ← config_set_device_record udid data; g ← config_get_device_record udid; mret (r, g))
    (fun x _ => fst x = 0 -> exists record xml, snd x = (0, Some xml) /\
       plist_from_memory data = Some record /\ plist_from_memory xml = Some record) w.
Proof.
  eapply wp_call; [apply wp_set_device_record|]. intros r w1 H.
  eapply wp_call; [apply wp_get_device_record|]. intros g w2 Hg. unfold wp; simpl. intros ->.
  destruct H as [[? _]|(_ & s & -> & _ & [?|(_ & record & xml & Hd & _ & Hx & Hm)])]; [done..|].
  exists record, xml. rewrite Hg, conf_dir_with_fs. simpl w_fs. rewrite Hx. done.
Qed.

(** ** The stored system BUID *)

Definition system_file (w : world) : string :=
  string_concat [conf_dir w; DIR_SEP_S; CONFIG_FILE].

(** The configuration file is absent, unreadable or a dictionary. *)
Definition config_dict (w : world) : Prop :=
  forall c, plist_read_from_file (w_fs w) (system_file w) = Some c ->
    plist_get_node_type c = PLIST_DICT.

Lemma read_same s s' file : fs_read s' file = fs_read s file ->
  plist_read_from_file s' file = plist_read_from_file s file.
Proof. unfold plist_read_from_file. by intros ->. Qed.

Lemma wp_internal_set_value file key value w :
  (forall c, plist_read_from_file (w_fs w) file = Some c -> plist_get_node_type c = PLIST_DICT) ->
  wp (internal_set_value file key value) (fun r w' => (r = 0 \/ r = 1) /\
    exists s, w' = w <| w_fs := s |> /\ only_file file (w_fs w) s /\
    (r = 1 -> exists c, plist_read_from_file s file = Some c /\
       plist_dict_get_item c key = Some value)) w.
Proof.
  intros Hdict. unfold internal_set_value. apply wp_bind, wp_gets.
  eapply (wp_call _ _ (fun config w' => plist_get_node_type config = PLIST_DICT /\
    plist_dict_get_item config key = Some value /\
    exists s, w' = w <| w_fs := s |> /\ only_file file (w_fs w) s)).
  - destruct (plist_read_from_file (w_fs w) file) as [c|]; cycle 1.
    { unfold wp; simpl. split; [by apply set_item_type, new_dict_type|].
      split; [by apply get_set_same, new_dict_type|]. exists (w_fs w). split; [by destruct w|by intros q]. }
    specialize (Hdict c eq_refl). set (c1 := match plist_dict_get_item c key with
      | Some _ => plist_dict_remove_item c key | None => c end).
    assert (plist_get_node_type c1 = PLIST_DICT) as Hc1
      by (unfold c1; destruct (plist_dict_get_item c key); [by apply remove_item_type|done]).
    apply wp_bind, wp_remove_file. intros _ s Hs. unfold wp; simpl.
    split; [by apply set_item_type|]. split; [by apply get_set_same|eauto].
  - intros c w1 (Hc & Hk & s & -> & Hs). apply wp_bind, wp_gets. simpl w_fs.
    destruct (plist_write_to_file s c file) as [s' ok] eqn:Hw.
    destruct (write_dict _ _ _ _ _ Hc Hw) as [Hs' Hok].
    apply wp_bind, wp_modify. unfold wp; simpl. split; [destruct ok; auto|].
    exists s'. split; [by destruct w|]. split; [intros q Hq; by rewrite Hs', Hs|].
    destruct ok; [intros _|done]. destruct (Hok eq_refl) as (xml & Hx & Hm). exists c.
    split; [|done]. unfold plist_read_from_file. rewrite Hx. exact Hm.
Qed.

Lemma wp_get_system_buid_stored buid c w :
  plist_read_from_file (w_fs w) (system_file w) = Some c ->
  plist_dict_get_item c CONFIG_SYSTEM_BUID_KEY = Some (plist_new_string buid) ->
  wp config_get_system_buid (fun b w' => b = buid /\ w' = with_fs w (w_fs w)) w.
Proof.
  intros Hr Hk. unfold config_get_system_buid, config_get_value, internal_get_value.
  apply wp_bind, wp_bind. unfold wp at 1. rewrite config_get_config_dir_run.
  apply wp_bind, wp_gets. unfold wp at 1; cbn [mret C_ret]. fold (system_file w). simpl w_fs.
  rewrite Hr, Hk. unfold string_node. simpl. rewrite decide_True by apply new_string_type.
  by rewrite string_val_new.
Qed.

(** A system id that was stored successfully is what every later request
    for it returns, and reading it changes no file; storing it touches only the
    system configuration file. *)
Theorem system_buid_persistent buid w :
  config_dict w ->
  wp (config_set_system_buid buid) (fun r w' => (r = 0 \/ r = 1) /\
    only_file (system_file w) (w_fs w) (w_fs w') /\
    (r = 1 -> wp config_get_system_buid (fun b w'' => b = buid /\ w_fs w'' = w_fs w') w')) w.
Proof.
  intros Hdict. unfold config_set_system_buid, config_set_value.
  eapply wp_call; [apply wp_create_config_dir|]. intros r w1 (-> & s1 & -> & Hs1).
  change (0 <? 0) with false. apply wp_bind. unfold wp at 1. rewrite config_get_config_dir_run.
  rewrite conf_dir_with_fs, with_fs_twice. simpl w_fs. fold (system_file w).
  eapply wp_mono; [apply (wp_internal_set_value (system_file w))|].
  { simpl w_fs. intros c. rewrite (read_same (w_fs w)) by apply Hs1. apply Hdict. }
  intros r w2 (Hr & s & -> & Hs & Hget). simpl in Hs, Hget |- *. split; [done|].
  split; [intros q Hq; by rewrite Hs, Hs1|].
  intros ->. destruct (Hget eq_refl) as (c & Hc & Hk).
  eapply wp_mono; [by apply (wp_get_system_buid_stored buid c)|]. by intros b w3 [-> ->].
Qed.

End conf.

Section witness.
Import Instances Scenario.

Lemma utf16_to_utf8_decodes_witness :
  exists out, config_utf16_to_utf8 (Some [67; 246; 8364]) = Some (out, 3, 6) /\
    utf8_decode out = Some [67; 246; 8364].
Proof.
  destruct (utf16_to_utf8_decodes [67; 246; 8364]) as (out & H1 & _ & _ & H2);
    [discriminate|repeat constructor; discriminate|].
  exists out. split; [|exact H2]. rewrite H1. vm_compute in H1. injection H1 as <-. reflexivity.
Defined.

Lemma generate_uuid_format_witness :
  wp (config_generate_uuid 1) (fun s _ => length (list_ascii_of_string s) = 36%nat) scn_world.
Proof.
  eapply wp_mono; [apply (generate_uuid_format 1 scn_world)|]. intros s w' [H _]. exact H.
Defined.

(** A dictionary, and a file system with the directory of the daemon. *)
Definition scn_record : plist_t := plist_dict_set_item plist_new_dict "HostID" (plist_new_string "h").
Definition scn_record_data : list Z := default [] (plist_to_xml scn_record).
Definition scn_conf : world :=
  scn_world <| w_fs := mk_fs ∅ {["/var/lib/lockdown"]} |> <| config_dir := Some "/var/lib/lockdown" |>.


Lemma pair_record_roundtrip_witness :
  exists x w', (r ← config_set_device_record "0123-AB" scn_record_data;
    g ← config_get_device_record "0123-AB"; mret (r, g)) scn_conf = Ok x w' /\ fst x = 0 /\
    exists xml, snd x = (0, Some xml) /\ plist_from_memory xml = Some scn_record.
Proof.
  pose proof (pair_record_roundtrip "0123-AB" scn_record_data scn_conf) as H.
  apply wp_elim in H as (x & w' & Hrun & H). exists x, w'. split; [exact Hrun|].
  assert (fst x = 0) as Hx.
  { assert (match (r ← config_set_device_record "0123-AB" scn_record_data;
      g ← config_get_device_record "0123-AB"; mret (r, g)) scn_conf with
      Ok x _ => fst x =? 0 | _ => false end = true) as Hc by (vm_compute; reflexivity).
    rewrite Hrun in Hc. by apply Z.eqb_eq. }
  split; [exact Hx|]. destruct (H Hx) as (record & xml & Hg & Hd & Hm). exists xml.
  split; [exact Hg|]. rewrite Hm, <- Hd. vm_compute. reflexivity.
Defined.

Lemma system_buid_persistent_witness :
  wp (config_set_system_buid "B") (fun r w' => (r = 0 \/ r = 1) /\
    (r = 1 -> wp config_get_system_buid (fun b _ => b = "B") w')) scn_conf.
Proof.
  eapply wp_mono; [apply (system_buid_persistent "B" scn_conf)|].
  - intros c Hc. vm_compute in Hc. discriminate.
  - intros r w' (Hr & _ & H). split; [exact Hr|]. intros H1. eapply wp_mono; [exact (H H1)|].
    intros b w2 [Hb _]. exact Hb.
Defined.

End witness.
