(* ===== verification/ListenFacts.v ===== *)
(** * ListenFacts: announcements to the listening clients

    When a device appears or disappears, every client that listens gets one
    complete message about it, and no other client is touched. *)

From stdpp Require Import base gmap list strings.
From Stdlib Require Import ZArith Lia String.
From S2P Require Import Prelude Platform Wire World Utils Conf Instances Usb ClientOut.
From S2P Require Import DeviceOut Teardown Device Client Scenario SendFacts.
From S2P Require Import BufferFacts ReplyFacts Views Session RefineTeardown ScenarioFacts.

Local Open Scope list_scope.
Local Open Scope Z_scope.

Section listen.
Context `{E : Env} `{!EnvLaws E}.
Implicit Types w : world.

(** ** Loops over the listening clients *)

Definition with_clients (w : world) (m : gmap ptr mux_client) : world := w <| w_clients := m |>.

(** What the loop leaves of a client: the body's effect for a listener. *)
Definition listener_step (R : mux_client -> mux_client -> Prop) (k k' : mux_client) : Prop :=
  if decide (cl_state k = CLIENT_LISTEN) then R k k' else k' = k.

Lemma wp_listener_body R (body : ptr -> C world unit) p k m w :
  m !! p = Some k ->
  (cl_state k = CLIENT_LISTEN ->
   wp (body p) (fun _ w' => exists k', w' = with_clients w (<[p := k']> m) /\ R k k')
     (with_clients w m)) ->
  wp (each (fun client => c ← get_client client;
        when (bool_decide (cl_state c = CLIENT_LISTEN)) (body client)) p)
    (fun r w' => r = None /\
       exists k', w' = with_clients w (<[p := k']> m) /\ listener_step R k k') (with_clients w m).
Proof.
  intros Hk Hbody. unfold each. apply wp_bind, wp_bind. eapply wp_load; [done|].
  case_bool_decide as Hst; unfold when.
  - eapply wp_mono; [by apply Hbody|]. intros ? w' (k' & -> & HR). unfold wp; simpl.
    split; [done|]. exists k'. split; [done|]. unfold listener_step. by rewrite decide_True.
  - unfold wp; simpl. split; [done|]. exists k. rewrite insert_id by done. split; [done|].
    unfold listener_step. by rewrite decide_False.
Qed.

Lemma wp_listener_loop R (body : ptr -> C world unit) w ps m :
  NoDup ps -> (forall p, p ∈ ps -> p ∈ coll_elems (client_list w) /\ is_Some (m !! p)) ->
  (forall p k m', p ∈ ps -> m !! p = Some k -> m' !! p = Some k -> cl_state k = CLIENT_LISTEN ->
     wp (body p) (fun _ w' => exists k', w' = with_clients w (<[p := k']> m') /\ R k k')
       (with_clients w m')) ->
  wp (foreach_from (gets client_list) ps (each (fun client => c ← get_client client;
        when (bool_decide (cl_state c = CLIENT_LISTEN)) (body client))))
    (fun r w' => r = None /\ exists m', w' = with_clients w m' /\
       (forall p, p ∉ ps -> m' !! p = m !! p) /\
       (forall p k, p ∈ ps -> m !! p = Some k ->
          exists k', m' !! p = Some k' /\ listener_step R k k')) (with_clients w m).
Proof.
  revert m. induction ps as [|p ps IH]; intros m Hnd Hin Hbody; cbn [foreach_from].
  { unfold wp; simpl. split; [done|]. exists m. split; [done|]. split; [done|].
    intros p k Hp. by apply elem_of_nil in Hp. }
  apply NoDup_cons in Hnd as [Hni Hnd]. destruct (Hin p) as [Hpin [k Hk]]; [left|].
  apply wp_bind, wp_gets. simpl client_list. rewrite decide_True by done.
  eapply wp_call.
  { apply (wp_listener_body R body p k m w); [done|]. intros Hst. apply Hbody; [left|done..]. }
  intros r w' (-> & k' & -> & Hstep). eapply wp_mono; [apply (IH (<[p := k']> m)); [done|..]|].
  - intros q Hq. destruct (Hin q) as [? ?]; [by right|]. split; [done|].
    rewrite lookup_insert_ne; [done|]. by intros ->.
  - intros q kq m' Hq Hkq Hm' Hst. rewrite lookup_insert_ne in Hkq by (by intros ->).
    apply Hbody; [by right|done..].
  - intros r w' (-> & m' & -> & Hout & Hall). split; [done|]. exists m'. split; [done|]. split.
    + intros q Hq. apply not_elem_of_cons in Hq as [Hqp Hq]. rewrite Hout by done.
      by rewrite lookup_insert_ne.
    + intros q kq Hq Hkq. apply elem_of_cons in Hq as [->|Hq].
      * rewrite Hk in Hkq. injection Hkq as <-. exists k'. split; [|done].
        rewrite Hout by done. apply lookup_insert_eq.
      * apply Hall; [done|]. rewrite lookup_insert_ne; [done|]. by intros ->.
Qed.

(** Every client is treated exactly once. *)
Lemma wp_foreach_listener R (body : ptr -> C world unit) w (Q : unit -> world -> Prop) :
  NoDup (coll_elems (client_list w)) ->
  (forall p, p ∈ coll_elems (client_list w) <-> is_Some (w_clients w !! p)) ->
  (forall p k m', w_clients w !! p = Some k -> m' !! p = Some k -> cl_state k = CLIENT_LISTEN ->
     wp (body p) (fun _ w' => exists k', w' = with_clients w (<[p := k']> m') /\ R k k')
       (with_clients w m')) ->
  (forall m', (forall p k, w_clients w !! p = Some k ->
       exists k', m' !! p = Some k' /\ listener_step R k k') ->
     (forall p, w_clients w !! p = None -> m' !! p = None) -> Q tt (with_clients w m')) ->
  wp (foreach_listener body) Q w.
Proof.
  intros Hnd Hlist Hbody HQ. unfold foreach_listener, foreach. apply wp_bind, wp_bind, wp_gets.
  assert (with_clients w (w_clients w) = w) as Hw by (by destruct w).
  rewrite <- Hw at 2. eapply wp_mono; [apply (wp_listener_loop R body w _ (w_clients w)); [done|..]|].
  - intros p Hp. split; [done|]. by apply Hlist.
  - intros p k m' _. apply Hbody.
  - intros r w' (-> & m' & -> & Hout & Hall). unfold wp; cbn [mret C_ret]. apply HQ.
    + intros p k Hk. apply Hall; [|done]. apply Hlist. eauto.
    + intros p Hp. rewrite Hout; [done|]. rewrite Hlist, Hp. by intros [].
Qed.

(** ** Messages *)

(** Message type and payload for a listener: a plist for protocol version 1,
    a binary record otherwise. *)
Definition event_message (k : mux_client) (dict : plist_t) (num : Z) (record : list Z)
    (msg : Z) (payload : list Z) : Prop :=
  if cl_proto_version k =? 1
  then msg = MESSAGE_PLIST /\ plist_from_xml payload = Some dict
  else msg = num /\ payload = record.

Definition event_fits (k : mux_client) (dict : plist_t) (record : list Z) : Prop :=
  forall msg num payload, event_message k dict num record msg payload ->
    cl_ob_capacity k + sizeof_usbmuxd_header + zlen payload + 4096 < 2 ^ 31.

(** The listener got the message, or its buffer could not be enlarged. *)
Definition informed (t : list event) (dict : plist_t) (num : Z) (record : list Z)
    (k k' : mux_client) : Prop :=
  (k' = k /\ exists n, sys_realloc t n = false) \/
  (exists msg payload, event_message k dict num record msg payload /\ replied k k' 0 msg payload).

Lemma wp_add_event p k dict num record m w :
  m !! p = Some k -> ob_ok k -> event_fits k dict record ->
  plist_get_node_type dict = PLIST_DICT ->
  wp (if cl_proto_version k =? 1 then send_plist p 0 dict
      else output_buffer_add_message p 0 num record)
    (fun _ w' => exists k', w' = with_clients w (<[p := k']> m) /\
       informed (w_trace w) dict num record k k') (with_clients w m).
Proof.
  intros Hk Hok Hfit Hdict.
  assert (forall msg payload, event_message k dict num record msg payload ->
    wp (output_buffer_add_message p 0 msg payload) (fun _ w' => exists k',
      w' = with_clients w (<[p := k']> m) /\ informed (w_trace w) dict num record k k')
      (with_clients w m)) as Hadd.
  { intros msg payload Hmsg. eapply wp_mono; [apply (wp_add_reply p k); [done|done|by eapply Hfit]|].
    intros r w' [(_ & -> & Hre)|(_ & k' & -> & Hrep)].
    - exists k. rewrite insert_id by done. split; [done|]. left. done.
    - exists k'. split; [done|]. right. eauto. }
  unfold event_message in Hadd. destruct (cl_proto_version k =? 1).
  - unfold send_plist. destruct (plist_xml_roundtrip _ Hdict) as (xml & -> & _ & Hx & _). by apply Hadd.
  - by apply Hadd.
Qed.

Lemma device_event_plist_type s id : plist_get_node_type (device_event_plist s id) = PLIST_DICT.
Proof. do 2 apply set_item_type. apply new_dict_type. Qed.

(** Every listener is ready for one more message. *)
Definition listeners_ok (w : world) (dict : plist_t) (record : list Z) : Prop :=
  forall p k, w_clients w !! p = Some k -> cl_state k = CLIENT_LISTEN ->
    ob_ok k /\ event_fits k dict record.

(** The daemon after an announcement that started after the history [t]. *)
Definition announced (w : world) (t : list event) (dict : plist_t) (num : Z) (record : list Z)
    (w' : world) : Prop :=
  (forall p k, w_clients w !! p = Some k -> exists k', w_clients w' !! p = Some k' /\
     listener_step (informed t dict num record) k k') /\
  (forall p, w_clients w !! p = None -> w_clients w' !! p = None) /\
  w_locked w' = w_locked w /\ w_conns w' = w_conns w /\ client_list w' = client_list w.

(** C29: when a device disappears, every client that listens gets exactly one
    message with the id of the device appended to its output, a "Detached"
    plist or a binary DEVICE_REMOVE as its protocol version asks (nothing only
    if its buffer cannot be enlarged); all other clients are untouched, and the
    client list is locked and unlocked once. *)
Theorem device_remove_announced w id :
  wf (view_of w) -> client_list_mutex ∉ w_locked w ->
  listeners_ok w (device_event_plist "Detached" (u32 id)) (le_bytes 4 (u32 id)) ->
  wp (client_device_remove id) (fun _ w' =>
    announced w (EvLock client_list_mutex :: w_trace w) (device_event_plist "Detached" (u32 id))
      MESSAGE_DEVICE_REMOVE (le_bytes 4 (u32 id)) w' /\ w_devs w' = w_devs w) w.
Proof.
  intros Hwf Hm Hok. unfold client_device_remove. apply wp_bind, wp_mutex_lock; [done|]. cbv zeta.
  set (w1 := set w_trace _ _). apply wp_bind.
  eapply (wp_foreach_listener (informed (w_trace w1) (device_event_plist "Detached" (u32 id))
    MESSAGE_DEVICE_REMOVE (le_bytes 4 (u32 id))) _ w1).
  - apply (wf_client_nodup _ Hwf).
  - intros p. rewrite (wf_client_list _ Hwf p : p ∈ coll_elems (client_list w1) <-> _).
    simpl. by rewrite lookup_fmap, fmap_is_Some.
  - intros p k m' Hk Hm' Hst. destruct (Hok p k Hk Hst) as [Hob Hfit].
    apply wp_bind. unfold send_device_remove. apply wp_bind. eapply wp_load; [done|].
    eapply wp_mono; [apply (wp_add_event p k); [done..|apply device_event_plist_type]|].
    intros r w' H. exact H.
  - intros m' Hall Hnone. apply wp_modify. simpl. rewrite filter_unlock by done.
    split; [|done]. split; [exact Hall|split; [exact Hnone|done]].
Qed.

(** The plist that announces a device. *)
Definition attached_plist (info : device_info) (serial : string) : plist_t :=
  let props := plist_dict_set_item plist_new_dict "ConnectionSpeed" (plist_new_uint (di_speed info)) in
  let props := plist_dict_set_item props "ConnectionType" (plist_new_string "USB") in
  let props := plist_dict_set_item props "DeviceID" (plist_new_uint (u64 (di_id info))) in
  let props := plist_dict_set_item props "LocationID" (plist_new_uint (di_location info)) in
  let props := plist_dict_set_item props "ProductID" (plist_new_uint (di_pid info)) in
  let props := plist_dict_set_item props "SerialNumber" (plist_new_string serial) in
  plist_dict_set_item
    (plist_dict_set_item
      (plist_dict_set_item plist_new_dict "MessageType" (plist_new_string "Attached"))
      "DeviceID" (plist_new_uint (u64 (di_id info))))
    "Properties" props.

Definition attached_record (info : device_info) (serial : string) : list Z :=
  device_record_bytes (di_id info) (di_pid info) serial (di_location info).

Lemma wp_on_device_id q d f w (Q : unit -> world -> Prop) :
  wf (view_of w) -> w_devs w !! q = Some d -> device_list_mutex ∉ w_locked w ->
  Q tt (w <| w_devs ::= <[q := f d]> |>
          <| w_trace ::= app [EvUnlock device_list_mutex; EvLock device_list_mutex] |>) ->
  wp (on_device_id (dv_id d) f) Q w.
Proof.
  intros Hwf Hd Hm HQ. unfold on_device_id. apply wp_bind, wp_mutex_lock; [done|].
  set (w1 := set w_trace _ _).
  eapply wp_call; [apply (wp_foreach_scan _ _ (fun p => p <> q)
    (fun _ w' => w' = set w_devs <[q := f d]> w1) w1 (device_list w)); [done|]|].
  - intros p Hp. apply (wf_dev_list _ Hwf) in Hp as [dv Hp]. apply v_devs_inv in Hp as (d' & Hd' & _).
    apply wp_bind. eapply wp_load; [done|]. destruct (Z.eqb_spec (dv_id d') (dv_id d)) as [He|Hne].
    + assert (p = q) as ->.
      { apply (wf_ids _ Hwf p q (dev_v d') (dev_v d)); [by apply lookup_v_devs..|done]. }
      rewrite Hd in Hd'. injection Hd' as <-. apply wp_bind. eapply wp_update; [done|]. done.
    + split; [done|]. intros p' Hp' ->. apply list_elem_of_singleton in Hp'. subst.
      congruence.
  - intros [[]|] w' Hr; simpl in Hr.
    + subst w'. apply wp_modify. simpl. rewrite filter_unlock by done. by destruct w.
    + exfalso. destruct Hr as [_ Hr]. apply (Hr q); [|done].
      apply (wf_dev_list _ Hwf). rewrite (lookup_v_devs _ _ _ Hd). eauto.
Qed.

(** C28: when a device becomes available it is marked as visible, and every
    client that listens gets exactly one message that describes it (its id,
    serial number, location, product id, and for plist clients its speed);
    other clients are untouched and both mutexes are released. *)
Theorem device_add_announced w q d info serial :
  wf (view_of w) -> client_list_mutex ∉ w_locked w -> device_list_mutex ∉ w_locked w ->
  w_devs w !! q = Some d -> di_id info = dv_id d -> di_serial info = Some serial ->
  listeners_ok w (attached_plist info serial) (attached_record info serial) ->
  wp (client_device_add info) (fun _ w' =>
    announced w (EvUnlock device_list_mutex :: EvLock device_list_mutex ::
        EvLock client_list_mutex :: w_trace w)
      (attached_plist info serial) MESSAGE_DEVICE_ADD (attached_record info serial) w' /\
    w_devs w' = <[q := d <| dv_visible := 1 |>]> (w_devs w)) w.
Proof.
  intros Hwf Hm Hdm Hd Hid Hser Hok. unfold client_device_add. apply wp_bind, wp_mutex_lock; [done|].
  apply wp_bind. unfold device_set_visible. rewrite Hid.
  eapply wp_on_device_id; [exact Hwf|exact Hd|simpl; by rewrite not_elem_of_cons|].
  set (w1 := set w_trace _ _). apply wp_bind.
  eapply (wp_foreach_listener (informed (w_trace w1) (attached_plist info serial)
    MESSAGE_DEVICE_ADD (attached_record info serial)) _ w1).
  - apply (wf_client_nodup _ Hwf).
  - intros p. rewrite (wf_client_list _ Hwf p : p ∈ coll_elems (client_list w1) <-> _).
    simpl. by rewrite lookup_fmap, fmap_is_Some.
  - intros p k m' Hk Hm' Hst. destruct (Hok p k Hk Hst) as [Hob Hfit].
    apply wp_bind. unfold send_device_add. apply wp_bind. eapply wp_load; [done|].
    unfold create_device_attached_plist. rewrite Hser.
    eapply wp_mono; [|intros r w' H; exact H].
    pose proof (wp_add_event p k (attached_plist info serial) MESSAGE_DEVICE_ADD
      (attached_record info serial) m' w1) as Hadd.
    unfold wp, mbind, C_bind, lift_option, mret, C_ret in Hadd |- *.
    destruct (cl_proto_version k =? 1); apply Hadd; try done;
      do 3 apply set_item_type; apply new_dict_type.
  - intros m' Hall Hnone. apply wp_modify. simpl. rewrite filter_unlock by done.
    split; [|done]. split; [exact Hall|split; [exact Hnone|done]].
Qed.

End listen.

Section witness.
Import Instances Scenario.

Lemma scn_listeners_ok dict record :
  zlen record < 2 ^ 30 -> listeners_ok scn_world dict record.
Proof.
  intros Hr p k Hk Hst. apply scn_clients in Hk as [[_ ->]|[[_ ->]|[_ ->]]]; try discriminate.
  split; [apply scn_ob_ok|]. intros msg num payload [_ ->]. simpl. unfold sizeof_usbmuxd_header. lia.
Qed.

(** Client 7 listens, in the binary protocol. *)
Lemma device_remove_announced_witness :
  wp (client_device_remove 1) (fun _ w' => exists k', w_clients w' !! 7%positive = Some k' /\
    zlen (pending k') = 20) scn_world.
Proof.
  eapply wp_mono; [apply (device_remove_announced scn_world 1);
    [exact scn_wf|apply not_elem_of_nil|by apply scn_listeners_ok]|].
  intros u w' [[H _] _]. destruct (H 7%positive _ eq_refl) as (k' & Hk' & Hs). exists k'.
  split; [exact Hk'|]. destruct Hs as [(_ & n & Hn)|(msg & pl & [_ ->] & _ & Hp & _)]; [discriminate|].
  rewrite Hp. reflexivity.
Defined.

Definition scn_info : device_info := mk_info 1 (Some "00008020-0123"%string) 196612 4776 480000000.

Lemma device_add_announced_witness :
  wp (client_device_add scn_info) (fun _ w' => exists k', w_clients w' !! 7%positive = Some k' /\
    zlen (pending k') = 16 + zlen (attached_record scn_info "00008020-0123"%string)) scn_world.
Proof.
  eapply wp_mono; [apply (device_add_announced scn_world 2 scn_dev scn_info "00008020-0123"%string);
    [exact scn_wf|apply not_elem_of_nil|apply not_elem_of_nil|reflexivity|reflexivity|reflexivity|
     by apply scn_listeners_ok]|].
  intros u w' [[H _] _]. destruct (H 7%positive _ eq_refl) as (k' & Hk' & Hs). exists k'.
  split; [exact Hk'|]. destruct Hs as [(_ & n & Hn)|(msg & pl & [_ ->] & _ & Hp & _)]; [discriminate|].
  rewrite Hp. reflexivity.
Defined.

End witness.
