(* ===== verification/UsbFacts.v ===== *)
(** * UsbFacts: which interface is used, the serial number, the poll timer

    What the decisions of UsbSetup.v amount to: the configuration that is
    selected, the serial number that a string descriptor denotes, and when the
    next scan for devices is due. *)

From stdpp Require Import base list.
From Stdlib Require Import ZArith Lia.
From S2P Require Import Prelude Platform UsbSetup.

Local Open Scope Z_scope.

(** ** Interfaces *)

(** An endpoint pair that an interface offers: the directions are right and the
    interface has these two endpoints and no other. *)
Definition offers (i : interface_descriptor) (e : endpoints) : Prop :=
  ue_interface e = bInterfaceNumber i /\ bNumEndpoints i = 2 /\
  ep_is_out (ue_ep_out e) = true /\ ep_is_in (ue_ep_in e) = true /\
  exists rest, bEndpointAddress i = ue_ep_out e :: ue_ep_in e :: rest \/
               bEndpointAddress i = ue_ep_in e :: ue_ep_out e :: rest.

Lemma intf_endpoints_offers i e : intf_endpoints i = Some e -> offers i e.
Proof.
  unfold intf_endpoints. destruct (intf_selected i); [|done].
  destruct (bNumEndpoints i =? 2) eqn:Hn; [|done]. apply Z.eqb_eq in Hn. simpl.
  destruct (bEndpointAddress i) as [|e0 [|e1 rest]] eqn:Ha; [done..|].
  destruct (ep_is_out e0 && ep_is_in e1) eqn:H1.
  { intros [= <-]. apply andb_prop in H1 as [??]. repeat (split; [done|]). exists rest. by left. }
  destruct (ep_is_out e1 && ep_is_in e0) eqn:H2; [|done].
  intros [= <-]. apply andb_prop in H2 as [??]. repeat (split; [done|]). exists rest. by right.
Qed.

Lemma find_interface_offers l e :
  find_interface l = Some e -> exists i, i ∈ l /\ intf_selected i = true /\ offers i e.
Proof.
  induction l as [|i l IH]; simpl; [done|]. destruct (intf_endpoints i) as [e'|] eqn:Hi.
  - intros [= ->]. exists i. split; [left|]. split; [|by apply intf_endpoints_offers].
    unfold intf_endpoints in Hi. by destruct (intf_selected i).
  - intros (i' & Hin & H)%IH. exists i'. split; [by right|done].
Qed.

(** ** Configurations *)

(** The active configuration after a sequence of operations. *)
Fixpoint active_config (current : Z) (ops : list usb_op) : Z :=
  match ops with
  | [] => current
  | OpSetConfiguration v :: ops' => active_config v ops'
  | OpDetachKernelDriver _ :: ops' => active_config current ops'
  end.

Lemma active_config_app current ops ops' :
  active_config current (ops ++ ops') = active_config (active_config current ops) ops'.
Proof. revert current. induction ops as [|[] ops IH]; intros current; simpl; auto. Qed.

Lemma active_config_detach kda l ops current :
  active_config current (detach_drivers kda l ops) = active_config current ops.
Proof.
  revert ops. induction l as [|i l IH]; intros ops; simpl; [done|].
  case_match; rewrite IH; [|done]. by rewrite active_config_app.
Qed.

Section configuration.
Context (get_config : Z -> option config_descriptor)
  (kernel_driver_active set_configuration : list usb_op -> Z -> Z).

(** The endpoints that configuration [j] has to offer. *)
Definition usable (j : Z) : option endpoints :=
  c ← get_config j; find_interface (interfaces c).

(** libusb: a descriptor is looked up by its value. *)
Hypothesis by_value : forall j c, get_config j = Some c -> bConfigurationValue c = j.

Lemma config_loop_selects cur j ops :
  (forall ops v, set_configuration ops v = 0) -> active_config cur ops = cur ->
  let '(found, ops') := config_loop get_config kernel_driver_active set_configuration j cur None ops in
  match found with
  | Some e => exists k, 0 < k <= Z.of_nat j /\ usable k = Some e /\
                (forall k', k < k' <= Z.of_nat j -> usable k' = None) /\
                active_config cur ops' = k
  | None => ops' = ops /\ forall k, 0 < k <= Z.of_nat j -> usable k = None
  end.
Proof.
  intros Hset Hops. induction j as [|j IH]; [simpl; split; [done|lia]|].
  set (n := Z.of_nat (S j)).
  assert (usable n = None -> config_loop get_config kernel_driver_active set_configuration (S j) cur
    None ops = config_loop get_config kernel_driver_active set_configuration j cur None ops) as Hskip.
  { unfold usable. cbn [config_loop]. fold n. destruct (get_config n); [|done].
    simpl. by intros ->. }
  destruct (usable n) as [e|] eqn:Hu.
  - clear Hskip. unfold usable in Hu. cbn [config_loop]. fold n.
    destruct (get_config n) as [c|] eqn:Hc; [|done]. simpl in Hu. rewrite Hu, Hset.
    assert (usable n = Some e) as Hu' by (unfold usable; rewrite Hc; done).
    rewrite (by_value n c Hc). cbn [negb Z.eqb].
    destruct ((cur =? 0) || negb (n =? cur)) eqn:Hch.
    + exists n. split; [lia|]. split; [done|]. split; [lia|].
      by rewrite active_config_app.
    + exists n. split; [lia|]. split; [done|]. split; [lia|].
      rewrite Hops. apply orb_false_iff in Hch as [_ Hch].
      apply negb_false_iff, Z.eqb_eq in Hch. done.
  - rewrite (Hskip eq_refl). clear Hskip.
    destruct (config_loop _ _ _ j cur None ops) as [[e|] ops'].
    + destruct IH as (k & Hk & He & Hmax & Ha). exists k. split; [lia|]. split; [done|].
      split; [|done]. intros k' Hk'. destruct (decide (k' = n)) as [->|]; [done|]. apply Hmax. lia.
    + destruct IH as [-> Hnone]. split; [done|]. intros k Hk.
      destruct (decide (k = n)) as [->|]; [done|]. apply Hnone. lia.
Qed.


End configuration.

(** A device with a charging configuration and two multiplexor ones, the
    second with swapped endpoints, in configuration 1. *)
Definition sample_config (n : Z) : option config_descriptor :=
  if n =? 1 then Some (mk_config 1 [mk_intf 0 6 1 1 3 [2; 129; 130]])
  else if n =? 2 then Some (mk_config 2 [mk_intf 0 6 1 1 3 [2; 129; 130]; mk_intf 1 255 254 2 2 [4; 133]])
  else if n =? 3 then Some (mk_config 3 [mk_intf 0 1 1 0 0 []; mk_intf 2 255 254 2 2 [133; 4]])
  else None.

Lemma sample_by_value j c : sample_config j = Some c -> bConfigurationValue c = j.
Proof.
  unfold sample_config.
  destruct (Z.eqb_spec j 1); [by intros [= <-]|]. destruct (Z.eqb_spec j 2); [by intros [= <-]|].
  destruct (Z.eqb_spec j 3); [by intros [= <-]|done].
Qed.


(** ** Serial numbers *)

(** A character that is kept as it is. *)
Definition ascii_char (b : Z) : Prop := 0 < b < 128.

(** The UTF-16 payload of a string descriptor. *)
Definition utf16_payload (s : list Z) : list Z := List.flat_map (fun b => [b; 0]) s.

(** The string descriptor of [s] (bLength, bDescriptorType, payload). *)
Definition string_descriptor (s : list Z) : list Z := (2 + 2 * zlen s) :: 3 :: utf16_payload s.

Lemma flag_set_128 b : 0 <= b < 256 -> flag_set b 128 = (128 <=? b).
Proof.
  intros Hb. assert (forallb (fun n => Bool.eqb (flag_set (Z.of_nat n) 128) (128 <=? Z.of_nat n))
    (seq 0 256) = true) as H by (vm_compute; reflexivity).
  rewrite forallb_forall in H. specialize (H (Z.to_nat b)). rewrite Z2Nat.id in H by lia.
  apply eqb_prop, H, in_seq. lia.
Qed.

Lemma deunicode_ascii s junk si di :
  Forall ascii_char s -> 0 <= di -> di + zlen s <= 255 ->
  deunicode (utf16_payload s ++ junk) si di (si + 2 * zlen s) = Some s.
Proof.
  intros Hs. revert si di. induction Hs as [|b s Hb Hs IH]; intros si di Hd Hl.
  { unfold zlen. simpl. destruct junk; simpl; rewrite (proj2 (Z.ltb_ge _ _)) by lia; done. }
  assert (zlen (b :: s) = 1 + zlen s) as Hlen by (unfold zlen; simpl; lia). rewrite Hlen in *.
  assert (0 <= zlen s) by (unfold zlen; lia). cbn [utf16_payload List.flat_map app deunicode].
  unfold sizeof_serial. rewrite !(proj2 (Z.ltb_lt _ _)) by lia. cbn [andb].
  unfold ascii_char in Hb. rewrite flag_set_128, (proj2 (Z.leb_gt _ _)) by lia. cbn [orb negb Z.eqb].
  rewrite (proj2 (Z.eqb_neq b 0)) by lia.
  replace (si + 2 * (1 + zlen s)) with (si + 2 + 2 * zlen s) by lia.
  rewrite IH by lia. done.
Qed.

(** The characters that end up in [serial] and their number. *)
Lemma deunicode_bounded rest si di len s :
  bytes_ok rest -> deunicode rest si di len = Some s -> 0 <= di <= 255 ->
  Forall ascii_char s /\ di + zlen s <= 255 /\ (si <= len -> si + 2 * zlen s <= len + 1).
Proof.
  unfold bytes_ok. intros Hok. revert si di s. induction rest as [rest IH] using (well_founded_induction
    (Wf_nat.well_founded_ltof _ length)). intros si di s Hs Hdi.
  assert (forall b lo hi rest', rest = lo :: hi :: rest' -> si < len -> di < 255 -> ascii_char b ->
    cons b <$> deunicode rest' (si + 2) (di + 1) len = Some s ->
    Forall ascii_char s /\ di + zlen s <= 255 /\ (si <= len -> si + 2 * zlen s <= len + 1)) as Hgo.
  { intros b lo hi rest' -> Hsi Hd Hb (s' & Hs' & ->)%fmap_Some.
    rewrite !Forall_cons in Hok. destruct Hok as (_ & _ & Hok).
    assert (0 <= zlen s') by (unfold zlen; lia).
    assert (zlen (b :: s') = 1 + zlen s') as -> by (unfold zlen; simpl; lia).
    destruct (decide (si + 2 <= len)).
    - destruct (IH rest' ltac:(unfold Wf_nat.ltof; simpl; lia) Hok _ _ _ Hs' ltac:(lia))
        as (? & ? & ?). split; [by constructor|]. lia.
    - assert (s' = []) as ->.
      { destruct rest'; simpl in Hs'; rewrite (proj2 (Z.ltb_ge _ _)) in Hs' by lia; by simplify_eq/=. }
      split; [by apply Forall_singleton|]. unfold zlen. simpl. lia. }
  assert (s = [] -> Forall ascii_char s /\ di + zlen s <= 255 /\ (si <= len -> si + 2 * zlen s <= len + 1))
    as Hnil by (intros ->; split; [constructor|unfold zlen; simpl; lia]).
  destruct rest as [|lo [|hi rest']]; cbn [deunicode] in Hs; [case_match; [done|apply Hnil; by simplify_eq]..|].
  unfold sizeof_serial in Hs. destruct (si <? len) eqn:H1, (di <? 256 - 1) eqn:H2; cbn [andb] in Hs;
    [|apply Hnil; by simplify_eq..].
  apply Z.ltb_lt in H1, H2.
  assert (0 <= lo < 256) as Hlo by (rewrite !Forall_cons in Hok; apply Hok).
  rewrite flag_set_128 in Hs by done.
  destruct ((128 <=? lo) || negb (hi =? 0)) eqn:H3.
  { eapply (Hgo 63 lo hi rest'); [done|lia|lia| |done]. unfold ascii_char. lia. }
  apply orb_false_iff in H3 as [H3 _]. apply Z.leb_gt in H3.
  destruct (lo =? 0) eqn:H4; [apply Hnil; by simplify_eq|]. apply Z.eqb_neq in H4.
  eapply (Hgo lo lo hi rest'); [done|lia|lia| |done]. unfold ascii_char. lia.
Qed.

Lemma zlen_hyphenated s : zlen (hyphenated s) = if zlen s =? 24 then 25 else zlen s.
Proof.
  unfold hyphenated. destruct (zlen s =? 24) eqn:H; [|done]. apply Z.eqb_eq in H.
  unfold zlen, ztake, zdrop in *. rewrite !length_app, !length_take, length_drop.
  assert (length s = 24%nat) as -> by lia. done.
Qed.

(** C40: a serial number of ASCII characters sent as a USB string descriptor is
    read back unchanged, except that a 24 digit one gets its hyphen after the
    first 8 digits, whatever follows the descriptor in the transfer buffer. *)
Theorem serial_roundtrip s junk :
  Forall ascii_char s -> zlen s <= 126 ->
  serial_of_descriptor (string_descriptor s ++ junk) =
    Some (if zlen s =? 24 then ztake 8 s ++ [45] ++ zdrop 8 s else s).
Proof.
  intros Hs Hl. unfold serial_of_descriptor, string_descriptor. cbn [app].
  rewrite deunicode_ascii by (done || lia). simpl. f_equal. unfold hyphenated.
  destruct (zlen s =? 24) eqn:H; [|done]. apply Z.eqb_eq in H. do 2 f_equal.
  unfold ztake, zdrop, zlen in *. rewrite take_ge; [done|]. rewrite length_drop. lia.
Qed.

Lemma serial_roundtrip_witness :
  serial_of_descriptor (string_descriptor (List.repeat 65 24) ++ [1; 2]) =
    Some (List.repeat 65 8 ++ 45 :: List.repeat 65 16).
Proof.
  refine (serial_roundtrip (List.repeat 65 24) [1; 2] _ _).
  - repeat constructor.
  - vm_compute. discriminate.
Defined.

(** Whatever bytes a device answers with, the serial number has only
    non-null ASCII characters and fits, with its terminator, in the 256 byte
    field of [struct usb_device]; a descriptor of [len] bytes yields at most
    [len / 2] characters, plus the hyphen. *)
Theorem serial_bounded len ty rest s :
  bytes_ok (len :: ty :: rest) -> serial_of_descriptor (len :: ty :: rest) = Some s ->
  Forall ascii_char s /\ zlen s + 1 <= sizeof_serial /\
  zlen s <= 1 + Z.max 0 ((len - 1) / 2) /\ zlen s <= 128.
Proof.
  unfold bytes_ok. rewrite !Forall_cons. intros (Hlen & _ & Hok) (d & Hd & ->)%fmap_Some.
  assert (len < 2 -> d = []) as Hshort.
  { intros Hs. destruct rest; simpl in Hd; rewrite (proj2 (Z.ltb_ge _ _)) in Hd by lia;
      by simplify_eq/=. }
  apply deunicode_bounded in Hd as (Hc & Hb & Hn); [|done|lia].
  assert (2 * zlen d <= Z.max 0 (len - 1)) as Hn'.
  { destruct (decide (len < 2)); [rewrite Hshort by done; unfold zlen; simpl; lia|].
    specialize (Hn ltac:(lia)). lia. }
  unfold byte_ok in Hlen. rewrite zlen_hyphenated. split.
  { unfold hyphenated. case_match; [|done]. unfold ztake, zdrop. rewrite !Forall_app. split; [by apply Forall_take|].
    split; [by apply Forall_singleton|]. by apply Forall_take, Forall_drop. }
  unfold sizeof_serial. destruct (Z.eqb_spec (zlen d) 24);
    (split_and!; [lia|Z.div_mod_to_equations; lia|lia]).
Qed.

Lemma serial_bounded_witness :
  serial_of_descriptor [5; 3; 200; 0; 66; 9; 7] = Some [63; 63] /\
  zlen [63; 63] + 1 <= sizeof_serial.
Proof.
  assert (serial_of_descriptor [5; 3; 200; 0; 66; 9; 7] = Some [63; 63]) as He by reflexivity.
  split; [exact He|].
  refine (proj1 (proj2 (serial_bounded 5 3 [200; 0; 66; 9; 7] [63; 63] _ He))).
  unfold bytes_ok, byte_ok. repeat constructor; lia.
Defined.

(** ** The poll timer *)

(** Microseconds from [a] to [b]. *)
Definition elapsed (a b : Z * Z) : Z := (fst b - fst a) * 1000000 + (snd b - snd a).

Definition timeval_ok (t : Z * Z) : Prop := 0 <= snd t < 1000000.

Lemma next_poll_time_1s tv : timeval_ok tv -> next_poll_time tv = (fst tv + 1, snd tv).
Proof.
  unfold timeval_ok, next_poll_time, DEVICE_POLL_TIME. intros H.
  replace (snd tv + 1000 * 1000) with (1 * 1000000 + snd tv) by lia.
  rewrite Z.quot_div_nonneg, Z.rem_mod_nonneg by lia.
  f_equal; Z.div_mod_to_equations; lia.
Qed.

(** After a scan for devices, with polling enabled, the time left until the
    next one is never negative nor more than the poll period of 1000 ms, is
    within one millisecond of the exact time left, and is 0, which makes
    [usb_process] scan again, once the period is over. *)
Theorem dev_poll_remain_exact scan now :
  timeval_ok scan -> timeval_ok now -> 0 <= elapsed scan now < 2000000 * 1000000 ->
  let r := dev_poll_remain_ms true (next_poll_time scan) now in
  0 <= r <= DEVICE_POLL_TIME /\
  Z.abs (1000 * r - Z.max 0 (DEVICE_POLL_TIME * 1000 - elapsed scan now)) < 1000 /\
  (DEVICE_POLL_TIME * 1000 <= elapsed scan now -> r = 0).
Proof.
  intros Hs Hn He. rewrite next_poll_time_1s by done.
  unfold dev_poll_remain_ms, DEVICE_POLL_TIME, elapsed, timeval_ok in *. cbn [negb fst snd].
  destruct scan as [s u], now as [s' u']. cbn [fst snd] in *.
  assert (-1 <= s' - s <= 2000000) as Hd by lia.
  set (q := Z.quot (u - u') 1000).
  assert (1000 * q = u - u' - Z.rem (u - u') 1000) as Hq
    by (pose proof (Z.quot_rem' (u - u') 1000); unfold q; lia).
  assert (0 <= u - u' -> 0 <= Z.rem (u - u') 1000 < 1000) as Hp
    by (intros; apply Z.rem_bound_pos; lia).
  assert (u - u' <= 0 -> -1000 < Z.rem (u - u') 1000 <= 0) as Hm
    by (intros; apply (Z.rem_bound_pos_neg (u - u') 1000); lia).
  rewrite (s32_small ((s + 1 - s') * 1000)) by lia.
  rewrite s32_small by lia.
  destruct (Z.ltb_spec ((s + 1 - s') * 1000 + q) 0); lia.
Qed.

Lemma dev_poll_remain_exact_witness :
  dev_poll_remain_ms true (next_poll_time (7, 999500)) (8, 250) = 999 /\
  dev_poll_remain_ms true (next_poll_time (7, 999500)) (9, 0) = 0 /\
  0 <= dev_poll_remain_ms true (next_poll_time (7, 999500)) (8, 250) <= DEVICE_POLL_TIME.
Proof.
  split; [reflexivity|]. split; [reflexivity|].
  refine (proj1 (dev_poll_remain_exact (7, 999500) (8, 250) _ _ _));
    unfold timeval_ok, elapsed; simpl; lia.
Defined.
