(* ===== verification/UsbDeviceFacts.v ===== *)
(** * UsbDeviceFacts: ownership of transfers, disconnecting, new devices

    Every bulk transfer belongs to the collection of a live device and owns
    its buffer; ending one gives both back. Disconnecting a device returns when
    libusb ends the transfers that were cancelled, and no transfer outlives its
    device. A device on the bus has at most one entry in the list. *)

From stdpp Require Import base gmap list strings.
From Stdlib Require Import ZArith Lia.
From S2P Require Import Prelude Platform Wire UsbSetup World Utils Conf Instances Usb ClientOut.
From S2P Require Import DeviceOut Teardown Device Client UsbDevice UsbLoop Scenario.

Local Open Scope Z_scope.

Section ownership.
Context `{E : Env} `{!CollectionLaws env_coll} `{U : UsbHost}.
Implicit Types w : world.

(** The collection of a device that holds the transfers with this callback. *)
Definition xfers_of (cb : xfer_callback) (u : usb_device) : list ptr :=
  match cb with
  | CB_RX => coll_elems (ud_rx_xfers u)
  | CB_TX => coll_elems (ud_tx_xfers u)
  | _ => []
  end.

#[export] Instance xfer_callback_eq_dec : EqDecision xfer_callback.
Proof. solve_decision. Defined.

Definition bulk (cb : xfer_callback) : Prop := cb = CB_RX \/ cb = CB_TX.

Record usb_ok (w : world) : Prop := {
  uo_nodup p u cb : w_usbdevs w !! p = Some u -> NoDup (xfers_of cb u);
  (** a listed transfer is allocated, belongs to the device and has a buffer *)
  uo_listed p u cb x : w_usbdevs w !! p = Some u -> x ∈ xfers_of cb u ->
    exists xf, w_xfers w !! x = Some xf /\ xf_user_data xf = p /\ xf_callback xf = cb /\
      xf_flags xf = 0 /\ is_Some (w_bufs w !! xf_buffer xf);
  (** a bulk transfer is in the collection of a live device *)
  uo_live x xf : w_xfers w !! x = Some xf -> bulk (xf_callback xf) ->
    exists u, w_usbdevs w !! xf_user_data xf = Some u /\ x ∈ xfers_of (xf_callback xf) u;
  (** no two transfers share a buffer *)
  uo_bufs x y xf yf : w_xfers w !! x = Some xf -> w_xfers w !! y = Some yf ->
    xf_buffer xf = xf_buffer yf -> x = y;
}.

(** ** The end of a transfer *)

(** The device without a transfer, marked dead if [dead]. *)
Definition without (cb : xfer_callback) (x : ptr) (dead : bool) (u : usb_device) : usb_device :=
  let u := match cb with
           | CB_RX => u <| ud_rx_xfers ::= fun c => coll_remove c x |>
           | CB_TX => u <| ud_tx_xfers ::= fun c => coll_remove c x |>
           | _ => u
           end in
  if dead then u <| ud_alive := 0 |> else u.

(** The state after the transfer [x] of [dev] ended. *)
Definition xfer_ended (w : world) (dev : ptr) (u : usb_device) (x : ptr) (xf : libusb_transfer)
    (dead : bool) (w' : world) : Prop :=
  w_usbdevs w' = <[dev := without (xf_callback xf) x dead u]> (w_usbdevs w) /\
  w_xfers w' = delete x (w_xfers w) /\ w_bufs w' = delete (xf_buffer xf) (w_bufs w) /\
  usb_device_list w' = usb_device_list w /\ w_trace w' = w_trace w.

Lemma xfers_of_without cb x dead u cb' : NoDup (xfers_of cb' u) -> forall y,
  y ∈ xfers_of cb' (without cb x dead u) <-> y ∈ xfers_of cb' u /\ (cb' = cb -> y <> x).
Proof.
  intros Hnd y. destruct (decide (cb' = cb)) as [->|Hne].
  - transitivity (y ∈ xfers_of cb u /\ y <> x); [|intuition].
    unfold without. destruct cb, dead; simpl in *; rewrite ?elem_of_coll_remove by done;
      rewrite ?elem_of_nil; tauto.
  - transitivity (y ∈ xfers_of cb' u); [|intuition].
    unfold without. by destruct cb, cb', dead.
Qed.

Lemma NoDup_without cb x dead u cb' :
  NoDup (xfers_of cb' u) -> NoDup (xfers_of cb' (without cb x dead u)).
Proof.
  intros Hnd. unfold without. destruct dead, cb, cb'; cbn in *; by try apply NoDup_coll_remove.
Qed.

(** The transfers of a device are known by their callbacks. *)
Lemma listed_callback w p u cb cb' x :
  usb_ok w -> w_usbdevs w !! p = Some u -> x ∈ xfers_of cb u -> x ∈ xfers_of cb' u -> cb = cb'.
Proof.
  intros Hok Hu Hx Hx'. destruct (uo_listed w Hok p u cb x Hu Hx) as (xf & H1 & _ & <- & _).
  destruct (uo_listed w Hok p u cb' x Hu Hx') as (xf' & H2 & _ & <- & _). congruence.
Qed.

Lemma usb_ok_ended w dev u x xf dead w' :
  usb_ok w -> w_usbdevs w !! dev = Some u -> w_xfers w !! x = Some xf ->
  x ∈ xfers_of (xf_callback xf) u -> xfer_ended w dev u x xf dead w' -> usb_ok w'.
Proof.
  intros Hok Hu Hx Hin (Hus & Hxs & Hbs & _).
  assert (forall p v cb, w_usbdevs w' !! p = Some v -> exists v0, w_usbdevs w !! p = Some v0 /\
    (NoDup (xfers_of cb v)) /\
    forall y, y ∈ xfers_of cb v <-> y ∈ xfers_of cb v0 /\ (p = dev -> cb = xf_callback xf -> y <> x))
    as Hget.
  { intros p v cb. rewrite Hus. destruct (decide (p = dev)) as [->|Hne].
    - rewrite lookup_insert_eq. intros [= <-]. exists u.
      pose proof (uo_nodup w Hok dev u cb Hu) as Hnd.
      split; [done|]. split; [by apply NoDup_without|].
      intros y. rewrite xfers_of_without by done. intuition.
    - rewrite lookup_insert_ne by done. intros Hv. exists v. split; [done|].
      split; [by apply (uo_nodup w Hok p)|]. intuition. }
  split.
  - intros p v cb Hv. by destruct (Hget p v cb Hv) as (? & _ & ? & _).
  - intros p v cb y Hv Hy. destruct (Hget p v cb Hv) as (v0 & Hv0 & _ & Hel).
    destruct (proj1 (Hel y) Hy) as [Hy0 Hne].
    destruct (uo_listed w Hok p v0 cb y Hv0 Hy0) as (yf & Hyf & H1 & H2 & H3 & Hb).
    assert (y <> x) as Hyx.
    { intros ->. rewrite Hx in Hyf. injection Hyf as <-. subst cb p.
      destruct (uo_listed w Hok dev u (xf_callback xf) x Hu Hin) as (xf' & Hx' & Hd & _).
      rewrite Hx in Hx'. injection Hx' as <-. by apply Hne. }
    exists yf. rewrite Hxs, Hbs, lookup_delete_ne by done. split_and!; try done.
    rewrite lookup_delete_ne; [done|]. intros He. apply Hyx. symmetry. by eapply (uo_bufs w Hok).
  - intros y yf. rewrite Hxs. intros [Hne Hy]%lookup_delete_Some Hbulk.
    destruct (uo_live w Hok y yf Hy Hbulk) as (v & Hv & Hy').
    rewrite Hus. destruct (decide (xf_user_data yf = dev)) as [Hd|Hd].
    + rewrite Hd in *. rewrite lookup_insert_eq. eexists. split; [done|]. rewrite Hu in Hv. injection Hv as <-.
      apply xfers_of_without; [by apply (uo_nodup w Hok dev)|]. split; [done|congruence].
    + rewrite lookup_insert_ne by done. eauto.
  - intros y z yf zf. rewrite Hxs. intros [_ Hy]%lookup_delete_Some [_ Hz]%lookup_delete_Some.
    by apply (uo_bufs w Hok).
Qed.

Lemma flag_zero m : flag_set 0 m = false.
Proof. done. Qed.

Lemma wp_free_transfer x xf w (Q : unit -> world -> Prop) :
  w_xfers w !! x = Some xf -> xf_flags xf = 0 -> Q tt (set w_xfers (delete x) w) ->
  wp (libusb_free_transfer x) Q w.
Proof.
  intros Hx Hf HQ. unfold libusb_free_transfer. apply wp_bind. eapply wp_load; [done|].
  rewrite Hf, flag_zero. apply wp_bind, wp_ret. by eapply wp_free.
Qed.

Lemma wp_tx_callback w dev u x xf s :
  w_usbdevs w !! dev = Some u -> w_xfers w !! x = Some xf -> xf_user_data xf = dev ->
  xf_callback xf = CB_TX -> is_Some (w_bufs w !! xf_buffer xf) ->
  wp (tx_callback x s)
    (fun _ => xfer_ended w dev u x xf (negb (bool_decide (s = TRANSFER_COMPLETED)))) w.
Proof.
  intros Hu Hx Hd Hcb [b Hb]. unfold tx_callback. apply wp_bind. eapply wp_load; [done|]. rewrite Hd.
  apply wp_bind. eapply wp_load; [done|]. unfold xfer_ended, without. rewrite Hcb.
  case_bool_decide; cbn [negb when]; apply wp_bind.
  - apply wp_ret, wp_bind. eapply wp_free; [done|].
    apply wp_bind. eapply wp_update; [done|]. by eapply wp_free.
  - eapply wp_update; [done|]. apply wp_bind. eapply wp_free; [done|].
    apply wp_bind. eapply wp_update; [simpl; apply lookup_insert_eq|].
    eapply wp_free; [done|]. simpl. by rewrite insert_insert_eq.
Qed.

Lemma wp_rx_failed w dev u x xf s n :
  w_usbdevs w !! dev = Some u -> w_xfers w !! x = Some xf -> xf_user_data xf = dev ->
  xf_callback xf = CB_RX -> xf_flags xf = 0 -> is_Some (w_bufs w !! xf_buffer xf) ->
  s <> TRANSFER_COMPLETED ->
  wp (rx_callback x s n) (fun _ => xfer_ended w dev u x xf true) w.
Proof.
  intros Hu Hx Hd Hcb Hf [b Hb] Hs. unfold rx_callback, mark_dead. apply wp_bind.
  eapply wp_load; [done|]. rewrite Hd. apply wp_bind. eapply wp_load; [done|].
  rewrite bool_decide_false by done. unfold xfer_ended, without. rewrite Hcb.
  apply wp_bind. eapply wp_free; [done|]. apply wp_bind. eapply wp_update; [done|].
  apply wp_bind. eapply wp_free_transfer; [done|done|].
  eapply wp_update; [simpl; apply lookup_insert_eq|]. simpl. by rewrite insert_insert_eq.
Qed.

(** Both callbacks, as libusb calls them for a transfer that failed. *)
Lemma wp_transfer_failed he fuel w dev u cb x s data :
  usb_ok w -> w_usbdevs w !! dev = Some u -> x ∈ xfers_of cb u -> s <> TRANSFER_COMPLETED ->
  wp (complete_transfer he fuel x s data)
    (fun _ w' => exists xf, w_xfers w !! x = Some xf /\ xf_callback xf = cb /\
      xfer_ended w dev u x xf true w') w.
Proof.
  intros Hok Hu Hin Hs.
  destruct (uo_listed w Hok dev u cb x Hu Hin) as (xf & Hx & Hd & Hcb & Hf & Hb).
  unfold complete_transfer. apply wp_bind. eapply wp_load; [done|].
  rewrite bool_decide_false by done. cbn [andb when]. apply wp_bind, wp_ret, wp_bind. rewrite Hf.
  assert (cb = CB_RX \/ cb = CB_TX) as [->| ->] by (destruct cb; by set_solver); rewrite Hcb.
  - eapply wp_mono; [by eapply wp_rx_failed|]. intros ? w' Hw'. apply wp_ret. eauto.
  - eapply wp_mono; [by eapply wp_tx_callback|]. intros ? w' Hw'. apply wp_ret.
    rewrite bool_decide_false in Hw' by done. eauto.
Qed.

(** C37: when libusb reports the failure or the cancellation of a transfer that
    a device has in flight, the callback returns, gives the transfer and its
    buffer back, takes it out of the device's collection, leaves every other
    transfer in place, marks the device to be reaped, and the ownership of
    transfers and buffers still holds. *)
Theorem transfer_end_frees he fuel w dev u cb x s data :
  usb_ok w -> w_usbdevs w !! dev = Some u -> x ∈ xfers_of cb u -> s <> TRANSFER_COMPLETED ->
  wp (complete_transfer he fuel x s data)
    (fun _ w' => usb_ok w' /\ w_xfers w' = delete x (w_xfers w) /\
      (exists xf, w_xfers w !! x = Some xf /\ w_bufs w' = delete (xf_buffer xf) (w_bufs w)) /\
      exists u', w_usbdevs w' = <[dev := u']> (w_usbdevs w) /\ ud_alive u' = 0 /\
        forall cb' y, y ∈ xfers_of cb' u' <-> y ∈ xfers_of cb' u /\ y <> x) w.
Proof.
  intros Hok Hu Hin Hs. eapply wp_mono; [by eapply wp_transfer_failed|].
  intros _ w' (xf & Hx & Hcb & Hend). pose proof Hend as (Hus & Hxs & Hbs & _).
  split; [eapply usb_ok_ended; [done..|by rewrite Hcb|done]|]. split; [done|]. split; [eauto|].
  eexists. split; [exact Hus|]. split; [by unfold without; destruct (xf_callback xf)|].
  intros cb' y. rewrite xfers_of_without by by apply (uo_nodup w Hok dev).
  rewrite Hcb. split; intros [Hy Hne]; (split; [done|]).
  - intros ->. apply Hne; [|done]. by eapply listed_callback.
  - done.
Qed.

(** ** Disconnecting *)

(** The transfers that a device has in flight. *)
Definition outstanding (u : usb_device) : nat :=
  (length (coll_elems (ud_rx_xfers u)) + length (coll_elems (ud_tx_xfers u)))%nat.

(** libusb ends cancelled transfers: while the device has any in flight,
    handling events succeeds and ends at least one; the ownership of transfers
    is kept and the device stays open and listed. *)
Definition ends_transfers (handle_events : C world Z) (dev : ptr) : Prop :=
  forall w u, usb_ok w -> w_usbdevs w !! dev = Some u -> outstanding u <> O ->
  wp handle_events (fun r w' => 0 <= r /\ usb_ok w' /\
    usb_device_list w' = usb_device_list w /\
    exists u', w_usbdevs w' !! dev = Some u' /\ (outstanding u' < outstanding u)%nat) w.

Lemma usb_ok_ext w w' :
  w_usbdevs w' = w_usbdevs w -> w_xfers w' = w_xfers w -> w_bufs w' = w_bufs w ->
  usb_ok w -> usb_ok w'.
Proof. intros Hu Hx Hb [? ? ? ?]. split; rewrite ?Hu, ?Hx, ?Hb; done. Qed.

Lemma outstanding_zero u :
  (coll_count (ud_rx_xfers u) =? 0) && (coll_count (ud_tx_xfers u) =? 0) =
  bool_decide (outstanding u = O).
Proof.
  unfold coll_count, outstanding, zlen. apply eq_true_iff_eq. rewrite andb_true_iff, !Z.eqb_eq.
  rewrite bool_decide_eq_true. lia.
Qed.

Lemma wp_wait_xfers he n dev w u :
  ends_transfers he dev -> usb_ok w -> w_usbdevs w !! dev = Some u -> (outstanding u <= n)%nat ->
  wp (wait_xfers he n dev) (fun _ w' => usb_ok w' /\ usb_device_list w' = usb_device_list w /\
    exists u', w_usbdevs w' !! dev = Some u' /\ outstanding u' = O) w.
Proof.
  intros Hhe. revert w u. induction n as [|n IH]; intros w u Hok Hu Hle; cbn [wait_xfers];
    apply wp_bind; (eapply wp_load; [done|]); rewrite outstanding_zero; case_bool_decide as Hz;
    try (apply wp_ret; split_and!; [done..|by eauto]); [lia|].
  eapply wp_call; [by eapply Hhe|]. intros r w1 (Hr & Hok1 & Hl1 & u1 & Hu1 & Hlt).
  rewrite (proj2 (Z.ltb_ge _ _)) by done.
  eapply wp_mono; [by eapply (IH w1 u1); [..|lia]|]. intros _ w2 (Hok2 & Hl2 & Hex).
  by rewrite Hl2, Hl1.
Qed.

(** Cancelling only adds to the history. *)
Lemma wp_cancel_xfers (xs : C world coll) c w :
  (forall w', w_usbdevs w' = w_usbdevs w -> xs w' = Ok c w') ->
  (forall x, x ∈ coll_elems c -> is_Some (w_xfers w !! x)) ->
  wp (cancel_xfers xs) (fun _ w' => exists t, w' = w <| w_trace := t |>) w.
Proof.
  intros Hxs Hin. unfold cancel_xfers, foreach. apply wp_bind, wp_bind.
  unfold wp at 1. rewrite Hxs by done.
  assert (forall ps w1, (forall x, x ∈ ps -> x ∈ coll_elems c) ->
    (exists t, w1 = w <| w_trace := t |>) ->
    wp (foreach_from xs ps (each (fun xfer => load w_xfers xfer ;; emit (EvCancel xfer))))
      (fun _ w' => exists t, w' = w <| w_trace := t |>) w1) as Hgo.
  { induction ps as [|x ps IH]; intros w1 Hps [t ->]; cbn [foreach_from]; [apply wp_ret; eauto|].
    apply wp_bind. unfold wp at 1. rewrite Hxs by done.
    rewrite decide_True by (apply Hps; left). destruct (Hin x) as [xf Hx]; [apply Hps; left|].
    unfold each. apply wp_bind, wp_bind, wp_bind. eapply wp_load; [done|].
    apply wp_modify, wp_ret. apply IH; [intros y Hy; apply Hps; by right|].
    eexists. simpl. done. }
  eapply wp_mono; [apply Hgo; [done|]|].
  { exists (w_trace w). by destruct w. }
  intros ? w' Hw'. by apply wp_ret.
Qed.

(** Freeing a device without transfers. *)
Lemma usb_ok_free_device w dev u :
  usb_ok w -> w_usbdevs w !! dev = Some u -> outstanding u = O ->
  usb_ok (set w_usbdevs (delete dev) w).
Proof.
  intros Hok Hu Hz. split; simpl.
  - intros p v cb [_ Hv]%lookup_delete_Some. by apply (uo_nodup w Hok p).
  - intros p v cb x [_ Hv]%lookup_delete_Some. by apply (uo_listed w Hok p).
  - intros x xf Hx Hb. destruct (uo_live w Hok x xf Hx Hb) as (v & Hv & Hin). exists v.
    split; [|done]. rewrite lookup_delete_ne; [done|]. intros He. rewrite <- He, Hu in Hv.
    injection Hv as <-. unfold outstanding in Hz.
    assert (coll_elems (ud_rx_xfers u) = [] /\ coll_elems (ud_tx_xfers u) = []) as [Hr Ht]
      by (split; apply nil_length_inv; lia).
    destruct Hb as [Hb|Hb]; rewrite Hb in Hin; simpl in Hin; rewrite ?Hr, ?Ht in Hin;
      by apply not_elem_of_nil in Hin.
  - apply (uo_bufs w Hok).
Qed.


(** A libusb that reports one cancelled transfer at a time. *)
Definition cancel_one (dev : ptr) : C world Z :=
  u ← get_usb dev;
  match coll_elems (ud_rx_xfers u) ++ coll_elems (ud_tx_xfers u) with
  | x :: _ => complete_transfer (mret 0) 0 x TRANSFER_CANCELLED [] ;; mret 0
  | [] => mret 0
  end.

Lemma outstanding_without w dev u x xf :
  usb_ok w -> w_usbdevs w !! dev = Some u -> x ∈ xfers_of (xf_callback xf) u ->
  S (outstanding (without (xf_callback xf) x true u)) = outstanding u.
Proof.
  intros Hok Hu Hin. unfold outstanding, without.
  destruct (xf_callback xf); simpl in *; try by apply not_elem_of_nil in Hin.
  all: apply coll_remove_in, Permutation_length in Hin; simpl in Hin; lia.
Qed.

Lemma cancel_one_ends dev : ends_transfers (cancel_one dev) dev.
Proof.
  intros w u Hok Hu Hz. unfold cancel_one. apply wp_bind. eapply wp_load; [done|].
  destruct (_ ++ _) as [|x rest] eqn:He.
  { apply app_eq_nil in He as [H1 H2]. unfold outstanding in Hz. by rewrite H1, H2 in Hz. }
  assert (exists cb, x ∈ xfers_of cb u) as [cb Hin].
  { assert (x ∈ coll_elems (ud_rx_xfers u) ++ coll_elems (ud_tx_xfers u)) as [?|?]%elem_of_app
      by (rewrite He; left); [by exists CB_RX|by exists CB_TX]. }
  eapply wp_call; [by eapply wp_transfer_failed|]. intros _ w' (xf & Hx & <- & Hend).
  pose proof Hend as (Hus & _ & _ & Hl & _). apply wp_ret. split; [done|].
  split; [by eapply usb_ok_ended|]. split; [done|]. eexists. rewrite Hus, lookup_insert_eq.
  split; [done|]. pose proof (outstanding_without w dev u x xf Hok Hu Hin). lia.
Qed.

End ownership.

(** ** New devices *)

Section adding.
Context `{E : Env} `{!CollectionLaws env_coll} `{U : UsbHost} `{!UsbHostLaws U}.
Implicit Types w : world.

Definition at_address (u : usb_device) (bus address : Z) : bool :=
  (ud_bus u =? bus) && (ud_address u =? address).

(** The list holds allocated devices, one per address. *)
Record usb_list_ok (w : world) : Prop := {
  ul_nodup : NoDup (coll_elems (usb_device_list w));
  ul_live p : p ∈ coll_elems (usb_device_list w) -> is_Some (w_usbdevs w !! p);
  ul_unique p q u v : p ∈ coll_elems (usb_device_list w) -> q ∈ coll_elems (usb_device_list w) ->
    w_usbdevs w !! p = Some u -> w_usbdevs w !! q = Some v ->
    ud_bus u = ud_bus v -> ud_address u = ud_address v -> p = q;
  ul_fresh p : (w_next w <= p)%positive -> w_usbdevs w !! p = None;
}.

(** No listed device is at this address. *)
Definition unknown (w : world) (bus address : Z) : Prop :=
  forall p u, p ∈ coll_elems (usb_device_list w) -> w_usbdevs w !! p = Some u ->
    at_address u bus address = false.

(** The request for the current mode of a device. *)
Definition mode_request : list Z :=
  libusb_control_setup (Z.lor LIBUSB_REQUEST_TYPE_VENDOR LIBUSB_ENDPOINT_IN)
    APPLE_VEND_SPECIFIC_GET_MODE 0 0 4.

Inductive add_outcome (w : world) (dev : ptr) : Z -> world -> Prop :=
  | add_known p u w' :
    p ∈ coll_elems (usb_device_list w) -> w_usbdevs w !! p = Some u ->
    at_address u (libusb_get_bus_number dev) (libusb_get_device_address dev) = true ->
    w' = set w_usbdevs <[p := u <| ud_alive := 1 |>]> w ->
    add_outcome w dev 0 w'
  | add_rejected w' :
    unknown w (libusb_get_bus_number dev) (libusb_get_device_address dev) ->
    (forall d, libusb_get_device_descriptor (w_trace w) dev = inr d ->
       supported (idVendor d) (idProduct d) = true -> libusb_open (w_trace w) dev <> 0) ->
    w_usbdevs w' = w_usbdevs w -> usb_device_list w' = usb_device_list w ->
    add_outcome w dev (-1) w'
  | add_new d p u res w' :
    unknown w (libusb_get_bus_number dev) (libusb_get_device_address dev) ->
    libusb_get_device_descriptor (w_trace w) dev = inr d ->
    supported (idVendor d) (idProduct d) = true -> libusb_open (w_trace w) dev = 0 ->
    w_usbdevs w !! p = None ->
    w_usbdevs w' = <[p := u]> (w_usbdevs w) ->
    usb_device_list w' = coll_add (usb_device_list w) p ->
    at_address u (libusb_get_bus_number dev) (libusb_get_device_address dev) = true ->
    ud_handle u = true -> ud_alive u = (if res =? 0 then 1 else 0) ->
    ud_idProduct u = idProduct d -> ud_bNumConfigurations u = bNumConfigurations d ->
    w_trace w' = EvSubmit p EpControl mode_request res ::
      EvUsbOpen (libusb_get_bus_number dev) (libusb_get_device_address dev) 0 :: w_trace w ->
    add_outcome w dev (if res =? 0 then 0 else -1) w'.

Lemma wp_find_device w bus address (Q : option ptr -> world -> Prop) :
  usb_list_ok w ->
  (forall p u, p ∈ coll_elems (usb_device_list w) -> w_usbdevs w !! p = Some u ->
     at_address u bus address = true -> Q (Some p) w) ->
  (unknown w bus address -> Q None w) ->
  wp (find_device bus address) Q w.
Proof.
  intros Hok Hsome Hnone. unfold find_device.
  set (f := fun p => u ← w_usbdevs w !! p; if at_address u bus address then Some p else None).
  apply (wp_foreach_find _ _ f w (usb_device_list w)); [done|..].
  - intros p Hp. destruct (ul_live w Hok p Hp) as [u Hu].
    unfold f, load, mbind, C_bind, mret, C_ret. simpl. by rewrite Hu.
  - destruct (find_map f (coll_elems (usb_device_list w))) as [r|] eqn:Hf.
    + apply find_map_Some in Hf as (p & Hp & Hr). unfold f in Hr.
      destruct (w_usbdevs w !! p) as [u|] eqn:Hu; simpl in Hr; [|done].
      destruct (at_address u bus address) eqn:Ha; [|done]. injection Hr as <-. by eapply Hsome.
    + apply Hnone. intros p u Hp Hu. rewrite find_map_None in Hf. specialize (Hf p Hp).
      unfold f in Hf. rewrite Hu in Hf. simpl in Hf. by destruct (at_address u bus address).
Qed.

Lemma wp_submit_vendor usbdev context cb c w (Q : Z -> world -> Prop) :
  w_ctxs w !! context = Some c -> 0 <= mc_wLength c ->
  (let setup := libusb_control_setup (Z.lor LIBUSB_REQUEST_TYPE_VENDOR LIBUSB_ENDPOINT_IN)
     (mc_bRequest c) (mc_wValue c) (mc_wIndex c) (mc_wLength c) in
   let res := libusb_submit_transfer (w_trace w) usbdev EpControl setup in
   forall w', w_usbdevs w' = w_usbdevs w -> usb_device_list w' = usb_device_list w ->
     (w_next w <= w_next w')%positive ->
     w_trace w' = EvSubmit usbdev EpControl setup res :: w_trace w -> Q res w') ->
  wp (submit_vendor_specific usbdev context cb) Q w.
Proof.
  intros Hc Hl HQ. unfold submit_vendor_specific, fill_control_setup, store_bytes, submit.
  apply wp_bind. eapply wp_load; [done|]. apply wp_bind, wp_malloc, wp_bind, wp_bind.
  eapply wp_load; [simpl; apply lookup_insert_eq|]. rewrite (proj2 (Z.ltb_ge _ _))
    by (rewrite (proj1 (control_setup_ok _ _ _ _ _)), zlen_replicate; unfold LIBUSB_CONTROL_SETUP_SIZE; lia).
  eapply wp_update; [simpl; apply lookup_insert_eq|]. apply wp_bind, wp_malloc, wp_bind, wp_gets.
  apply wp_bind, wp_modify, wp_ret. apply HQ; [done|done|simpl; lia|done].
Qed.

(** The list stays well formed when a device is changed in place... *)
Lemma usb_list_ok_set w p u v :
  usb_list_ok w -> w_usbdevs w !! p = Some u -> ud_bus v = ud_bus u -> ud_address v = ud_address u ->
  usb_list_ok (set w_usbdevs <[p := v]> w).
Proof.
  intros Hok Hu Hb Ha.
  assert (forall q x, (set w_usbdevs <[p := v]> w).(w_usbdevs) !! q = Some x ->
    exists y, w_usbdevs w !! q = Some y /\ ud_bus x = ud_bus y /\ ud_address x = ud_address y) as Hget.
  { intros q x. simpl. intros [[<- <-]|[_ Hx]]%lookup_insert_Some; eauto. }
  split.
  - apply Hok.
  - intros q Hq. simpl in *. rewrite lookup_insert_is_Some. destruct (decide (p = q)); [by left|].
    right. split; [done|]. by apply (ul_live w Hok).
  - intros q r x y Hq Hr Hx Hy H1 H2. destruct (Hget q x Hx) as (x' & ? & ? & ?).
    destruct (Hget r y Hy) as (y' & ? & ? & ?). eapply (ul_unique w Hok q r x' y'); [done..| |]; congruence.
  - intros q Hq. simpl in *. rewrite lookup_insert_ne; [by apply (ul_fresh w Hok)|].
    intros ->. rewrite (ul_fresh w Hok q Hq) in Hu. done.
Qed.

(** ... and when one is added at an address that is not known. *)
Lemma usb_list_ok_new w w' p u :
  usb_list_ok w -> w_usbdevs w !! p = None -> unknown w (ud_bus u) (ud_address u) ->
  w_usbdevs w' = <[p := u]> (w_usbdevs w) ->
  usb_device_list w' = coll_add (usb_device_list w) p -> (Pos.succ p <= w_next w')%positive ->
  (w_next w <= w_next w')%positive -> usb_list_ok w'.
Proof.
  intros Hok Hp Hunk Hus Hl Hn1 Hn2.
  assert (p ∉ coll_elems (usb_device_list w)) as Hni.
  { intros Hin. destruct (ul_live w Hok p Hin). congruence. }
  assert (forall q x, q <> p -> q ∈ coll_elems (usb_device_list w) -> w_usbdevs w !! q = Some x ->
    ud_bus x = ud_bus u -> ud_address x = ud_address u -> False) as Hno.
  { intros q x _ Hq Hx Hb Ha. pose proof (Hunk q x Hq Hx) as Hf. unfold at_address in Hf.
    rewrite Hb, Ha, !Z.eqb_refl in Hf. done. }
  split; rewrite ?Hus, ?Hl.
  - by apply NoDup_coll_add; [apply Hok|].
  - intros q. rewrite elem_of_coll_add, lookup_insert_is_Some. intros [->|Hq]; [by left|].
    right. split; [by intros ->|]. by apply (ul_live w Hok).
  - intros q r x y. rewrite !elem_of_coll_add.
    intros Hq Hr [[<- <-]|[Hne Hx]]%lookup_insert_Some [[<- <-]|[Hne' Hy]]%lookup_insert_Some Hb Ha.
    + done.
    + destruct Hr as [->|Hr]; [done|]. exfalso. by eapply (Hno r y).
    + destruct Hq as [->|Hq]; [done|]. exfalso. by eapply (Hno q x).
    + destruct Hq as [->|Hq], Hr as [->|Hr]; try done. by eapply (ul_unique w Hok q r x y).
  - intros q Hq. rewrite lookup_insert_ne by lia. apply (ul_fresh w Hok). lia.
Qed.

Lemma usb_list_ok_ext w w' :
  w_usbdevs w' = w_usbdevs w -> usb_device_list w' = usb_device_list w ->
  (w_next w <= w_next w')%positive -> usb_list_ok w -> usb_list_ok w'.
Proof.
  intros Hu Hl Hn [? ? ? Hf]. split; rewrite ?Hu, ?Hl; try done. intros p Hp. apply Hf. lia.
Qed.

(** A device that libusb could open is added and asked for its mode. *)
Lemma wp_add_new dev d bus address w :
  bus = libusb_get_bus_number dev -> address = libusb_get_device_address dev ->
  usb_list_ok w -> unknown w bus address ->
  libusb_get_device_descriptor (w_trace w) dev = inr d ->
  supported (idVendor d) (idProduct d) = true -> libusb_open (w_trace w) dev = 0 ->
  wp (usbdev ← malloc w_usbdevs (mk_usb true bus address EmptyString 1 coll_init coll_init 0 0
        (idProduct d) 0 0 0 (bNumConfigurations d) (iSerialNumber d));
      modify (fun w => w <| usb_device_list ::= fun l => coll_add l usbdev |>) ;;
      context ← malloc w_ctxs (mk_mode_context dev bus address APPLE_VEND_SPECIFIC_GET_MODE 0 0 4 1000);
      res ← submit_vendor_specific usbdev context CB_GET_MODE;
      if negb (res =? 0) then mark_dead usbdev ;; mret (-1) else mret 0)
    (fun r w' => usb_list_ok w' /\ add_outcome w dev r w')
    (w <| w_trace ::= cons (EvUsbOpen bus address 0) |>).
Proof.
  intros -> -> Hok Hunk Hd Hs Ho. set (p := w_next w).
  assert (w_usbdevs w !! p = None) as Hp by (apply (ul_fresh w Hok); unfold p; lia).
  apply wp_bind, wp_malloc, wp_bind, wp_modify, wp_bind, wp_malloc, wp_bind.
  eapply wp_submit_vendor; [simpl; apply lookup_insert_eq|done|]. simpl. fold p.
  intros w1 Hu1 Hl1 Hn1 Ht1. set (u := mk_usb _ _ _ _ _ _ _ _ _ _ _ _ _ _ _) in Hu1.
  assert (at_address u (libusb_get_bus_number dev) (libusb_get_device_address dev) = true) as Hat
    by (unfold at_address; simpl; by rewrite !Z.eqb_refl).
  destruct (libusb_submit_transfer _ p EpControl _ =? 0) eqn:Hres; cbn [negb].
  - apply wp_ret. split; [by eapply (usb_list_ok_new w w1 p u); [..|lia|lia]|].
    match type of Ht1 with _ = EvSubmit _ _ _ ?res :: _ =>
      pose proof (add_new w dev d p u res w1) as Hnew end.
    rewrite Hres in Hnew. by apply Hnew.
  - unfold mark_dead. apply wp_bind. eapply wp_update; [rewrite Hu1; apply lookup_insert_eq|].
    apply wp_ret. split.
    { eapply (usb_list_ok_set w1 p u); [by eapply (usb_list_ok_new w w1 p u); [..|lia|lia]| |done|done].
      rewrite Hu1. apply lookup_insert_eq. }
    match type of Ht1 with _ = EvSubmit _ _ _ ?res :: _ =>
      pose proof (add_new w dev d p (u <| ud_alive := 0 |>) res
        (set w_usbdevs <[p := u <| ud_alive := 0 |>]> w1)) as Hnew end.
    rewrite Hres in Hnew. apply Hnew; try done. simpl. by rewrite Hu1, insert_insert_eq.
Qed.

(** C38: [usb_device_add] returns, and keeps the list of devices well formed
    (allocated entries, at most one per bus and address). A device that is
    listed is only marked alive. One that is not is added, opened and asked for
    its mode exactly when it is supported and libusb can open it; when the
    request cannot be submitted it is left for the next reaping. *)
Theorem usb_device_add_unique dev w :
  usb_list_ok w ->
  wp (usb_device_add dev) (fun r w' => usb_list_ok w' /\ add_outcome w dev r w') w.
Proof.
  intros Hok. unfold usb_device_add. apply wp_bind, wp_find_device; [done|..].
  - intros p u Hp Hu Ha. apply wp_bind. eapply wp_update; [done|]. apply wp_ret.
    split; [by eapply usb_list_ok_set|by eapply add_known].
  - intros Hunk. apply wp_bind, wp_gets.
    assert (forall w', w_usbdevs w' = w_usbdevs w -> usb_device_list w' = usb_device_list w ->
      (w_next w <= w_next w')%positive ->
      (forall d, libusb_get_device_descriptor (w_trace w) dev = inr d ->
       supported (idVendor d) (idProduct d) = true -> libusb_open (w_trace w) dev <> 0) ->
      usb_list_ok w' /\ add_outcome w dev (-1) w') as Hrej.
    { intros w' Hu Hl Hn Hd. split; [by eapply usb_list_ok_ext|by apply add_rejected]. }
    destruct (libusb_get_device_descriptor (w_trace w) dev) as [err|d] eqn:Hd.
    { apply wp_ret, Hrej; [done|done|lia|done]. }
    destruct (supported (idVendor d) (idProduct d)) eqn:Hs; cbn [negb]; cycle 1.
    { apply wp_ret, Hrej; [done|done|lia|]. intros d' [= <-]. by rewrite Hs. }
    apply wp_bind, wp_modify. destruct (Z.eqb_spec (libusb_open (w_trace w) dev) 0) as [Ho|Ho]; cbn [negb].
    + rewrite Ho. by apply wp_add_new.
    + apply wp_ret, Hrej; [done|done|simpl; lia|]. by intros d' [= <-] _.
Qed.

End adding.

Section witness.
Import Instances Scenario.

(** The device of the scenario with a transfer in each direction. *)
Definition busy_usbdev : usb_device :=
  scn_usbdev <| ud_rx_xfers := [20%positive] |> <| ud_tx_xfers := [21%positive] |>.
Definition busy_world : world :=
  scn_world <| w_usbdevs := {[ 1%positive := busy_usbdev ]} |>
    <| w_xfers := {[ 20%positive := mk_xfer 1 30 16384 CB_RX 0; 21%positive := mk_xfer 1 31 36 CB_TX 0 ]} |>
    <| w_bufs := {[ 30%positive := [0]; 31%positive := [1] ]} |>.

Lemma busy_xfers x xf : w_xfers busy_world !! x = Some xf ->
  (x = 20%positive /\ xf = mk_xfer 1 30 16384 CB_RX 0) \/ (x = 21%positive /\ xf = mk_xfer 1 31 36 CB_TX 0).
Proof.
  unfold busy_world. cbn [w_xfers set]. simpl.
  intros [[<- <-]|[_ [<- <-]%lookup_singleton_Some]]%lookup_insert_Some; auto.
Qed.

Lemma busy_usbdevs p u : w_usbdevs busy_world !! p = Some u -> p = 1%positive /\ u = busy_usbdev.
Proof.
  change (w_usbdevs busy_world) with ({[ 1%positive := busy_usbdev ]} : gmap ptr usb_device).
  by intros [<- <-]%lookup_singleton_Some.
Qed.

Lemma busy_ok : usb_ok busy_world.
Proof.
  split.
  - intros p u cb [-> ->]%busy_usbdevs. destruct cb; simpl; repeat constructor; set_solver.
  - intros p u cb x [-> ->]%busy_usbdevs.
    destruct cb; simpl; rewrite ?elem_of_nil; try done; intros ->%list_elem_of_singleton; eexists;
      (split; [reflexivity|]); split_and!; try done; eexists; reflexivity.
  - intros x xf [[-> ->]|[-> ->]]%busy_xfers _; exists busy_usbdev; (split; [reflexivity|]); simpl; left.
  - intros x y xf yf [[-> ->]|[-> ->]]%busy_xfers [[-> ->]|[-> ->]]%busy_xfers; simpl; done.
Qed.

Lemma transfer_end_frees_witness :
  usb_ok busy_world /\
  wp (complete_transfer (mret 0) 0 21%positive TRANSFER_STALL [])
    (fun _ w' => usb_ok w' /\ w_xfers w' = delete 21%positive (w_xfers busy_world) /\
      (exists xf, w_xfers busy_world !! 21%positive = Some xf /\
         w_bufs w' = delete (xf_buffer xf) (w_bufs busy_world)) /\
      exists u', w_usbdevs w' = <[1%positive := u']> (w_usbdevs busy_world) /\ ud_alive u' = 0 /\
        forall cb' y, y ∈ xfers_of cb' u' <-> y ∈ xfers_of cb' busy_usbdev /\ y <> 21%positive) busy_world.
Proof.
  split; [exact busy_ok|].
  refine (transfer_end_frees (mret 0) 0 busy_world 1%positive busy_usbdev CB_TX 21%positive
    TRANSFER_STALL [] busy_ok eq_refl _ _); [simpl; left|discriminate].
Defined.


Lemma start_list_ok : usb_list_ok scn_start.
Proof.
  split.
  - constructor.
  - intros p Hp. by apply not_elem_of_nil in Hp.
  - intros p q u v Hp. by apply not_elem_of_nil in Hp.
  - intros p _. done.
Qed.

Lemma usb_device_add_unique_witness :
  usb_list_ok scn_start /\
  wp (usb_device_add 50%positive)
    (fun r w' => usb_list_ok w' /\ add_outcome scn_start 50%positive r w') scn_start.
Proof.
  split; [exact start_list_ok|]. exact (usb_device_add_unique 50%positive scn_start start_list_ok).
Defined.

End witness.
