(* ===== verification/Findings.v ===== *)
(** * Findings: runs that show defects of the program

    Each run starts from the scenario (or from a small variation of it) and
    ends in undefined behaviour or in a result that the code does not mean. *)

From stdpp Require Import base gmap list strings.
From Stdlib Require Import ZArith Lia String.
From S2P Require Import Prelude Platform Wire UsbSetup World Utils Conf Instances Usb ClientOut.
From S2P Require Import DeviceOut Teardown Device Client UsbDevice UsbLoop Main Text Scenario ScenarioMain.

Local Open Scope string_scope.
Local Open Scope list_scope.
Local Open Scope Z_scope.
Import Instances Scenario.

(** How a run ends, without its state. *)
Definition ending {A} (m : C world A) (w : world) : option ub + A :=
  match m w with
  | Ok a _ => inr a
  | Undef u => inl (Some u)
  | NoFuel => inl None
  end.

Definition absent {A} (o : option A) : bool := match o with None => true | Some _ => false end.

Definition seg (dport flags : Z) : tcphdr := {|
  th_sport := 62078; th_dport := dport; th_seq := 0; th_ack := 1; th_off := 5;
  th_flags := flags; th_win := 512 |}.

(** A device that sends more than fits the connection's buffer: the
    connection is torn down and then acknowledged. *)
Example overflow_use_after_free :
  ending (device_tcp_input 2%positive (seg 65535 TH_ACK) [1; 2; 3; 4; 5; 6]) scn_world
    = inl (Some UseAfterFree).
Proof. vm_compute. reflexivity. Qed.

(** A client that listens and sends another command is closed by
    [handle_command], and then its input buffer is reset. *)
Definition listener_with_command : mux_client :=
  (scn_client 12 CLIENT_LISTEN)
    <| cl_ib_buf := Some (usbmuxd_header_bytes {| hdr_length := 16; hdr_version := 0;
         hdr_message := MESSAGE_LISTEN; hdr_tag := 1 |} ++ replicate 48 0) |>
    <| cl_ib_size := 16 |>.
Example second_command_use_after_free :
  ending (client_process 12 POLLIN)
    (set w_clients <[7%positive := listener_with_command]> scn_world) = inl (Some UseAfterFree).
Proof. vm_compute. reflexivity. Qed.

(** A client whose header was read while its connection was pending: once the
    device accepts, the input buffer is gone, and an input event that poll had
    already reported reads the header through a null pointer. *)
Definition early_sender : mux_client :=
  (scn_client 11 CLIENT_CONNECTING1)
    <| cl_ib_buf := Some (usbmuxd_header_bytes {| hdr_length := 40; hdr_version := 0;
         hdr_message := MESSAGE_LISTEN; hdr_tag := 1 |} ++ replicate 48 0) |>
    <| cl_ib_size := 16 |>.
Example accepted_null_dereference :
  ending (device_tcp_input 2%positive (seg 0 18) [] ;; client_process 11 POLLIN)
    (set w_clients <[5%positive := early_sender]> scn_world) = inl (Some NullDeref).
Proof. vm_compute. reflexivity. Qed.

(** A connect request to a device that has not answered the version packet
    uses the device's connection list before it is initialized; so does
    shutting the daemon down. *)
Definition world_with_init_device : world :=
  set w_devs <[2%positive := scn_dev <| dv_state := MUXDEV_INIT |>
                                     <| dv_connections := None |>]>
    (scn_world <| w_conns := ∅ |>).
Example connect_before_version :
  ending (device_start_connect 1 62078 7%positive) world_with_init_device = inl (Some Uninitialised).
Proof. vm_compute. reflexivity. Qed.
Example shutdown_before_version :
  ending device_shutdown world_with_init_device = inl (Some Uninitialised).
Proof. vm_compute. reflexivity. Qed.

(** When the port counter has wrapped around to 0, the free port 0 is taken
    for the error value and the request is refused. *)
Example port_zero_refused :
  ending (device_start_connect 1 62078 7%positive)
    (set w_devs <[2%positive := scn_dev <| dv_next_sport := 0 |> <| dv_connections := Some [] |>]>
      (scn_world <| w_conns := ∅ |>)) = inr (- result_num RESULT_BADDEV).
Proof. vm_compute. reflexivity. Qed.

(** A control packet of 8 bytes from a version 2 device: its payload length
    wraps around and what the buffer held before is logged. *)
Definition short_control_packet : list Z :=
  be_bytes 4 (proto_num MUX_PROTO_CONTROL) ++ be_bytes 4 8 ++ replicate 8 9 ++ [7; 65; 66; 0].
Example short_control_packet_logged :
  hd_error (w_trace (after (device_packet_input 2%positive short_control_packet 8) scn_world)) =
    Some (EvDeviceLog LL_INFO 1 [65; 66]).
Proof. vm_compute. reflexivity. Qed.

(** A control packet of a version 1 device, whose header has 8 bytes: the text
    is taken from the place after a 16 byte header. *)
Definition version1_control_packet : list Z :=
  be_bytes 4 (proto_num MUX_PROTO_CONTROL) ++ be_bytes 4 20 ++ [7; 72; 101; 108; 108; 111; 32; 119] ++
  [3; 108; 100; 0] ++ replicate 12 0.
Example control_payload_skipped :
  hd_error (w_trace (after (device_packet_input 2%positive version1_control_packet 20)
    (set w_devs <[2%positive := scn_dev <| dv_version := 1 |>]> scn_world))) =
    Some (EvDeviceLog LL_ERROR 1 [108; 100]).
Proof. vm_compute. reflexivity. Qed.

(** The size of an output buffer of almost 4 GiB wraps around when it grows. *)
Example output_size_wraps : enlarged (2 ^ 32 - 4096) 4096 = 4096.
Proof. reflexivity. Qed.

(** A client whose command line starts with 1024 bytes without terminator. *)
Example process_name_unterminated :
  (Text.c_string <$> Text.get_process_name_by_pid 1 (Some (replicate 1100 65))) = Some None.
Proof. vm_compute. reflexivity. Qed.

(** A binary connect request of 16 bytes: device and port are taken from what
    an earlier message left in the buffer. *)
Definition short_connect : list Z :=
  usbmuxd_header_bytes {| hdr_length := 16; hdr_version := 0;
    hdr_message := MESSAGE_CONNECT; hdr_tag := 1 |} ++ le_bytes 4 1 ++ be_bytes 2 62078 ++ [0; 0].
Example short_connect_accepted :
  (cl_state <$> w_clients (after (handle_command 7%positive short_connect)
    (set w_clients <[7%positive := scn_client 12 CLIENT_COMMAND]> scn_world)) !! 7%positive) =
  Some CLIENT_CONNECTING1.
Proof. vm_compute. reflexivity. Qed.

(** A client socket that is not ready for writing although poll said so: the
    connection is closed instead of being served later. *)
Section eagain.
Definition eagain_env : Env := test_env scn_recv (fun _ _ _ => inr EAGAIN) (fun _ _ _ _ => 0).
#[local] Existing Instance eagain_env.

Definition eagain_world : @world eagain_env := {|
  w_clients := {[ 3%positive := mk_client 10 (Some []) 0 0 (Some []) 0 0 POLLIN 0 77 1
                    CLIENT_CONNECTED 0 10 None ]};
  w_conns := {[ 4%positive := scn_conn 3 CONN_CONNECTED 65535 ]};
  w_devs := {[ 2%positive := mk_dev 1%positive 1 MUXDEV_ACTIVE 1 (Some [4%positive]) 1
                 (replicate 32 0) 0 None 2 0 5 ]};
  w_usbdevs := {[ 1%positive := mk_usb true 3 4 "00008020-0123" 1 [] [] 512 480000000 4776 1 133 4 4 3 ]};
  w_xfers := ∅; w_bufs := ∅; w_ctxs := ∅; w_cbs := ∅; w_next := 8%positive;
  client_list := [3%positive]; client_number := 13; device_list := [2%positive];
  next_device_id := 1; usb_device_list := [1%positive]; next_dev_poll_time := (0, 0);
  devlist_failures := 0; device_polling := 0; device_hotplug := 1; w_locked := []; no_preflight := 1;
  w_fs := mk_fs ∅ ∅; config_dir := None; w_trace := [] |}.

Example eagain_closes_connection :
  match device_client_process 1 3%positive POLLOUT eagain_world with
  | Ok _ w' => absent (w_conns w' !! 4%positive) && absent (w_clients w' !! 3%positive)
  | _ => false
  end = true.
Proof. vm_compute. reflexivity. Qed.
End eagain.

(** A packet whose length is a multiple of the endpoint's packet size, when
    only its zero length packet is refused: the buffer is freed although the
    transfer that owns it is in flight, and its completion frees it again. *)
Section zlp.
Definition zlp_env : Env :=
  test_env scn_recv (fun _ _ d => inl (zlen d)) (fun _ _ _ d => match d with [] => -1 | _ => 0 end).
#[local] Existing Instance zlp_env.

Definition zlp_world : @world zlp_env := {|
  w_clients := ∅;
  w_conns := {[ 4%positive := scn_conn 3 CONN_CONNECTED 65535 ]};
  w_devs := {[ 2%positive := mk_dev 1%positive 1 MUXDEV_ACTIVE 1 (Some [4%positive]) 1
                 (replicate 32 0) 0 None 2 0 5 ]};
  w_usbdevs := {[ 1%positive := mk_usb true 3 4 "00008020-0123" 1 [] [] 512 480000000 4776 1 133 4 4 3 ]};
  w_xfers := ∅; w_bufs := ∅; w_ctxs := ∅; w_cbs := ∅; w_next := 8%positive;
  client_list := []; client_number := 13; device_list := [2%positive]; next_device_id := 1;
  usb_device_list := [1%positive]; next_dev_poll_time := (0, 0);
  devlist_failures := 0; device_polling := 0; device_hotplug := 1; w_locked := []; no_preflight := 1;
  w_fs := mk_fs ∅ ∅; config_dir := None; w_trace := [] |}.

(** The transfer of the packet is the object 9. *)
Example refused_zlp_double_free :
  match (send_tcp 4%positive TH_ACK (replicate 476 0) ;;
         tx_callback 9%positive TRANSFER_COMPLETED) zlp_world with
  | Undef u => u = DoubleFree
  | _ => False
  end.
Proof. vm_compute. reflexivity. Qed.
End zlp.

(** ** conf.c *)

(** With only the root directory present, creating /a/b reports success after
    /a was created. *)
Definition empty_fs_world : world := scn_world <| w_fs := mk_fs ∅ ∅ |>.
Example mkdir_stops_at_parent :
  match Conf.mkdir_with_parents "/a/b" 493 empty_fs_world with
  | Ok r w' => r = 0 /\ fs_stat (w_fs w') "/a" = Some DIRECTORY /\ fs_stat (w_fs w') "/a/b" = None
  | _ => False
  end.
Proof. vm_compute. split_and!; reflexivity. Qed.

(** Only the function that writes a record checks the udid. *)
Definition other_dir_world : world :=
  scn_world <| w_fs := mk_fs {[ "/var/lib/lockdown/../x.plist" := [1; 2; 3] ]} {["/var/lib/lockdown"]} |>
            <| config_dir := Some "/var/lib/lockdown" |>.
Example read_outside_directory :
  ending (Conf.config_get_device_record "../x") other_dir_world = inr (0, Some [1; 2; 3]).
Proof. vm_compute. reflexivity. Qed.
Example remove_outside_directory :
  ending (Conf.config_remove_device_record "../x") other_dir_world = inr 0.
Proof. vm_compute. reflexivity. Qed.

(** ** Locks *)

(** The mutexes a run takes, oldest first, each with those that were held. *)
Fixpoint locks_taken (held : list mutex) (t : list event) : list (mutex * list mutex) :=
  match t with
  | [] => []
  | EvLock m :: t' => (m, held) :: locks_taken (m :: held) t'
  | EvUnlock m :: t' => locks_taken (filter (fun x => x <> m) held) t'
  | _ :: t' => locks_taken held t'
  end.

Definition lock_order {A} (m : C world A) (w : world) : list (mutex * list mutex) :=
  locks_taken [] (rev (w_trace (after m w))).

(** Announcing a device takes the device lock while it holds the client lock;
    removing one takes the client lock while it holds the device lock. *)
Example lock_order_inversion :
  (device_list_mutex, [client_list_mutex]) ∈
    lock_order (client_device_add (mk_info 1 (Some "00008020-0123") 196612 4776 480000000)) scn_world /\
  (client_list_mutex, [device_list_mutex]) ∈ lock_order (device_remove 1%positive) scn_world.
Proof. split; apply (bool_decide_unpack _); vm_compute; exact I. Qed.

(** ** Replies *)

(** Two listeners with different numbers have the same id in the list that is
    sent to a client. *)
Example listener_ids_equal :
  let requester := scn_client 10 CLIENT_COMMAND in
  let a := scn_client 11 CLIENT_LISTEN in
  let b := scn_client 12 CLIENT_LISTEN in
  cl_number a <> cl_number b /\
  plist_dict_get_item (listener_plist requester a) "ID String" =
  plist_dict_get_item (listener_plist requester b) "ID String".
Proof. split; [discriminate|]. vm_compute. reflexivity. Qed.

(** ** usb.c *)

(** An interface that is not the multiplexor (the screen capture one, which
    [guess_mode] tells apart) is selected by its class alone. *)
Example wrong_interface_selected :
  let valeria := mk_intf 3 255 42 255 2 [1; 130] in
  is_valeria valeria = true /\ is_usbmux valeria = false /\
  fst (set_valid_configuration (fun n => Some (mk_config n [valeria])) (fun _ _ => 0) (fun _ _ => 0)
    1 (Some 1)) = Some (mk_endpoints 3 1 130).
Proof. split_and!; reflexivity. Qed.

(** Configuration 2 has the interface, but cannot be set: the selection stays,
    and configuration 1, which has no such interface, is set. *)
Example stale_selection :
  let mux := mk_intf 1 255 254 2 2 [4; 133] in
  let ptp := mk_intf 0 6 1 1 3 [2; 129; 130] in
  set_valid_configuration (fun n => Some (mk_config n (if n =? 2 then [mux] else [ptp])))
    (fun _ _ => 0) (fun _ v => if v =? 2 then -1 else 0) 2 (Some 0) =
  (Some (mk_endpoints 1 4 133), [OpSetConfiguration 2; OpSetConfiguration 1]).
Proof. reflexivity. Qed.

(** A device that leaves while its languages are requested: the control
    transfer is in no collection, so that it ends after its device is freed. *)
Definition leave_during_setup : C world unit :=
  usb_hotplug_arrived 50%positive ;;
  complete_transfer (mret 0) 0 5%positive TRANSFER_COMPLETED [3; 3; 3; 0] ;;
  usb_hotplug_left 50%positive ;;
  reap_dead_devices (mret 0) 0 ;;
  complete_transfer (mret 0) 0 7%positive TRANSFER_NO_DEVICE [].
Example control_transfer_use_after_free :
  ending leave_during_setup scn_start = inl (Some UseAfterFree).
Proof. vm_compute. reflexivity. Qed.

(** When the request for the languages fails, the device stays in the list as
    alive, is never known to device.c, and is not set up again. *)
Definition failed_setup : C world Z :=
  usb_hotplug_arrived 50%positive ;;
  complete_transfer (mret 0) 0 5%positive TRANSFER_COMPLETED [3; 3; 3; 0] ;;
  complete_transfer (mret 0) 0 7%positive TRANSFER_TIMED_OUT [] ;;
  reap_dead_devices (mret 0) 0 ;;
  usb_device_add 50%positive.
Example failed_setup_stays_alive :
  ending failed_setup scn_start = inr 0 /\
  let w := after failed_setup scn_start in
  (usb_device_list w, device_list w, size (w_xfers w)) = ([2%positive], [], 0%nat).
Proof. split; vm_compute; reflexivity. Qed.

(** The mode request of a device that fails: its buffer is never freed. *)
Example mode_buffer_leaked :
  let w := after (usb_hotplug_arrived 50%positive ;;
                  complete_transfer (mret 0) 0 5%positive TRANSFER_STALL []) scn_start in
  (absent (w_xfers w !! 5%positive), absent (w_bufs w !! 4%positive)) = (true, false).
Proof. vm_compute. reflexivity. Qed.

(** libusb refuses transfers of the IN endpoint. *)
Section no_rx.
Definition no_rx_env : Env :=
  test_env scn_recv (fun _ _ d => inl (zlen d)) (fun _ _ ep _ => match ep with EpIn => -1 | _ => 0 end).
#[local] Existing Instance no_rx_env.

Definition no_rx_usbdev : usb_device :=
  mk_usb true 3 4 "00008020-0123" 1 [2%positive] [] 512 480000000 4776 1 133 4 4 3.
Definition no_rx_world : @world no_rx_env := {|
  w_clients := ∅; w_conns := ∅; w_devs := ∅;
  w_usbdevs := {[ 1%positive := no_rx_usbdev ]};
  w_xfers := {[ 2%positive := mk_xfer 1 3 16384 CB_RX 0 ]}; w_bufs := {[ 3%positive := [0; 0; 0; 0] ]};
  w_ctxs := ∅; w_cbs := ∅; w_next := 8%positive;
  client_list := []; client_number := 13; device_list := []; next_device_id := 1;
  usb_device_list := [1%positive]; next_dev_poll_time := (0, 0);
  devlist_failures := 0; device_polling := 0; device_hotplug := 1; w_locked := [];
  no_preflight := 1; w_fs := mk_fs ∅ ∅; config_dir := None; w_trace := [] |}.

(** The buffer of a receive loop that cannot be started is not freed. *)
Example rx_buffer_leaked :
  match start_rx_loop 1%positive no_rx_world with
  | Ok res w' => (res, size (w_xfers w'), size (w_bufs w')) = (-1, 1%nat, 2%nat)
  | _ => False
  end.
Proof. vm_compute. reflexivity. Qed.

(** A transfer that cannot be submitted again stays in the collection, and the
    device is not marked dead; no event ends the transfer, so that
    [usb_disconnect] does not return however long it waits. *)
Example resubmission_unchecked :
  match rx_callback 2%positive TRANSFER_COMPLETED 0 no_rx_world with
  | Ok _ w' =>
    match w_usbdevs w' !! 1%positive with
    | Some u => (ud_rx_xfers u, ud_alive u) = ([2%positive], 1)
    | None => False
    end
  | _ => False
  end.
Proof. vm_compute. reflexivity. Qed.
Example disconnect_waits n : wait_xfers (mret 0) n 1%positive no_rx_world = NoFuel.
Proof.
  assert (forall k : usb_device -> C world unit, (get_usb 1%positive ≫= k) no_rx_world = k no_rx_usbdev no_rx_world) as Hget
    by done.
  induction n as [|n IH]; cbn [wait_xfers]; rewrite Hget; [done|exact IH].
Qed.
End no_rx.

(** ** The process *)

Section process.
Import ScenarioMain.
#[local] Instance quiet_os : Process := scn_os None [PollReady []].

(** An instance that was started with --disable-hotplug alone ignores the
    signal by which a second instance asks it to look for devices. *)
Definition no_hotplug : globals := globals0 <| opt_disable_hotplug := 1 |>.
Example discovery_request_ignored :
  match handle_signal SIGUSR2 (mk_process no_hotplug scn_start) with
  | Ok _ p => should_discover (p_globals p) = 0
  | _ => False
  end.
Proof. vm_compute. reflexivity. Qed.

(** With --enable-exit and no device attached, the daemon goes on. *)
Definition exit_enabled : globals := globals0 <| opt_enable_exit := 1 |>.
Example no_automatic_exit :
  match main_iteration (fun _ => (0, [])) 10 10 3 Fdlist.fdlist_create
          (mk_process exit_enabled scn_start) with
  | Ok (inr _) p => (should_exit (p_globals p), size (w_devs (p_world p))) = (0, 0%nat)
  | _ => False
  end.
Proof. vm_compute. reflexivity. Qed.

(** Without --port, the daemon listens on the Unix socket. *)
Example default_is_unix_socket :
  match create_socket (mk_process globals0 scn_start) with
  | Ok _ p => existsb (fun e => match e with
      | EvSys (SysBind _ a) _ => String.eqb a socket_path | _ => false end) (w_trace (p_world p)) = true
  | _ => False
  end.
Proof. vm_compute. reflexivity. Qed.
End process.
